(* ===== verification/_CoqProject ===== *)
-Q . S2P
Prelude.v
Text.v
Decimals.v
Amount.v
RefDecimal.v
Types.v
BalanceCache.v
BTree.v
OrderBook.v
Matcher.v
Submission.v
State.v
Deposit.v
Withdrawal.v
Cancel.v
Journal.v
History.v
Resting.v
Reservations.v
Events.v
EventTypes.v
EngineLoop.v
Store.v
Durability.v
Market.v
Output.v
Identity.v
Sha256.v
AuditPages.v
Boundary.v
Startup.v
Control.v
Orders.v
Repository.v
Handle.v
Lifecycle.v
Stop.v
Routes.v
Process.v
Bench.v
TestKit.v
Conformance.v
ConformanceWorkers.v
ConformanceEntrance.v
ConformanceStartup.v
ConformanceThreads.v
