(* ===== verification/Prelude.v ===== *)
(** * cex-engine: a verification development

    The program is the matching core of an exchange, in Rust. One process owns one data directory. A
    platform in front of it has the users and their orders in PostgreSQL; the engine keeps balances and
    order books in memory, writes every command with its outcome to a journal of its own, answers only
    when the journal is committed, and publishes what happened to Kafka. Everything below follows
    [src/src]; [engine/] stands for [domains/cex/engine/], [runtime/] for [engine/runtime/].

    ** The parts and how they interact

    - HTTP handlers check keys, bodies and amounts and put requests into two bounded queues through a
      handle ([routes/mod.rs], [handlers/], [services/], [runtime/handle.rs]).
    - One engine thread owns the state, executes one request at a time and moves command, outcome and
      reply to the journal queue ([runtime/threads.rs], [runtime/journal.rs] and what they call).
    - A journal thread commits groups of them to SQLite and only then sends the replies
      ([runtime/journal/store.rs]).
    - An output thread reads committed records and publishes events and market data, moving a cursor
      after each record that the broker confirmed ([runtime/output.rs], [runtime/market.rs]).
    - A control object starts and stops the three ([runtime/engine.rs]); [main.rs] checks the settings,
      starts it, serves and stops it. The next process replays the journal.

    ** Conventions

    A [u64], an [i64] and a [usize] is a [Z] with the checks and conversions of the code written out
    ([as_u64], [u64_of_i64], [usize_sub], ..). [anyhow::Result] is [result], with [Panic] for what
    would panic. A function that mutates what it borrows is in the [st] monad below, so that what a
    failing call leaves behind is visible; [zoom] is a borrow of a field. A [HashMap] is a [gmap], a
    [BTreeMap] a sorted association list ([BTree]). Amounts are decimals of a library; [raw] is the
    number one stands for, scaled by 10^28, and [in_units d n] says that it is [n] units of 10^-9
    within [NUMERIC(30,9)].

    ** The files

    Text and numbers.
    - [Prelude] results, the state monad, machine integers, sums over maps and lists, and the hints on
      code that cannot panic. [Text] strings, digits and white space. [Decimals] the interface of
      [rust_decimal]: its operations ([DecimalOps]) and the laws that are relied on ([DecimalLaws]);
      [RefDecimal] is a concrete instance of both. [Amount] is [engine/amount.rs].

    The core, a function of a state and a command.
    - [Types] [engine/types.rs], the trait of [engine/mod.rs] (class [Engine]), the order of
      [models/order.rs]. [BalanceCache] [engine/balance_cache.rs], [settlement.rs], [executor.rs].
      [OrderBook] [engine/orderbook.rs] on [BTree]. [Matcher] [engine/matcher.rs]; its two nested loops
      are [plan_levels] and [plan_queue]. [Submission] [runtime/submission.rs].
    - [State] is [EngineState] of [runtime/engine.rs] with the data of deposits, withdrawals and outputs.
      [Deposit], [Withdrawal], [Cancel] are the commands with files of their own; [Journal] is
      [journal_apply], the one function that executes a command ([runtime/journal.rs]).
    - [History], [Resting] and [Reservations] have no code: what holds after any list of commands, what
      rests in the books, and where locked money belongs. [Events] and [EventTypes] are the events of a
      result and what they carry ([runtime/output.rs], [shared/kafka/events.rs]).

    The threads, as machines whose steps interleave.
    - [EngineLoop] [runtime/threads.rs]: one step per blocking point of the loop. [Store] the tables and
      statements of [runtime/journal/store.rs]. [Durability] the journal thread against the engine
      thread, with commits that fail or are reported as failed. [Market] the projection of
      [runtime/market.rs]. [Output] the delivery loop against a broker. [Lifecycle] all three on one
      journal ([whole_step]), through crashes and restarts, and what a stop reports; [Stop] that it ends.
      [AuditPages] the reader of [runtime/audit.rs].

    The boundary and the process.
    - [Identity] service keys; [Sha256] is the hash itself, for examples. [Boundary] amounts as text,
      [financial_input.rs] and [exact_decimal.rs]. [Startup] [runtime/startup.rs], the lock file and
      the first start. [Control] the control object and engines that share a directory. [Orders]
      [services/order_receipt.rs] and [services/order_service.rs], where other transactions may commit
      between any two statements. [Repository] the SQL of [order_repository.rs]. [Handle]
      [runtime/handle.rs] and the handlers of deposits and withdrawals. [Routes] the order handlers, the
      router and the wire formats. [Process] [main.rs] and one process after the other. [Bench] the
      engine of the benchmarks.

    The tests of the repository, translated and evaluated on the definitions above ([TestKit] has the
    assertions). [Conformance] settlement, submission, deposits, withdrawals, the journal and the
    scenarios of [tests/]; where a comment or a test says something else than the code does, an
    [Example] shows what the code does. [ConformanceWorkers] the handle, the order service, market data,
    the audit reader, keys and checksums. [ConformanceEntrance] the routes, request amounts, receipts and
    the repository. [ConformanceStartup] the first start. [ConformanceThreads] the three workers
    together, with commits and sinks that fail, and restarts; its turns are a run of [whole_step].

    ** What the theorems show

    - From the bare disk through any number of processes, kills at any step and failed starts, nothing
      that was promised is lost and nothing happens twice ([lives_keep_promises]); it rests on one run of
      the two threads ([crash_loses_nothing_acknowledged], [acknowledged_is_durable]), on appending and
      recovering ([append_then_recover], by how the commit ends; [recovered_journal_sound]), on the first start
      ([first_start_exact], [inspection_exact]) and on the lock ([one_engine_per_directory],
      [main_gives_back]).
    - Any history of commands runs without a panic, keeps the state well-formed and accounts for all
      money to the unit ([history_sound], [effects_happen_once], [locked_money_accounted],
      [refused_changes_nothing]); orders and reserved withdrawals can be ended as long as the account
      holds less than 2^96 units, beyond which its sums may not be decimals
      ([resting_order_cancellable], [reserved_withdrawal_settles]).
    - Matching is price-time priority: the reference sorts everything that may be traded with by a stable
      sort of its own, [priority_offers], and does not use the levels or the limit test of the matcher
      ([plan_order_priority], [quantity_order_maximal], [budget_order_bounded], [commit_book_exact]); a submission is atomic,
      conserves money, and its private copy is as good as working in place ([submission_atomic],
      [submission_conserves], [submission_refines_in_place]); the other commands do exactly what they say
      ([deposit_exact], [withdrawal_exact], [cancel_exact]).
    - The threads do what their sequential reading says ([worker_serves_sequentially]); a stop ends
      ([stop_terminates]); readers of the topic, of the market data and of the audit pages see the
      journal, and a stop without an error has lost nothing ([events_delivered_in_order] and
      [clean_stop_complete] of the three workers together, [output_catches_up],
      [market_data_refines_books], [published_events_typed], where a rejected order is only repeated as
      it came, [audit_session_complete]).
    - A success, and a refusal of anything but a cancellation, means what it says
      ([command_answers_truthful], [reported_prices_best]), retries of an order run once, and a stored
      order with an allowed fee rate is accepted when nothing fails ([retried_order_runs_once],
      [stored_submission_accepted]);
      amounts cross the boundary exactly ([boundary_exact], [database_amounts_exact]); the repository
      reads and sorts what it wrote ([created_order_read_back], [repository_orderbook_priority]); the
      benchmarks measure the engine ([bench_equals_engine]).

    ** Bounds and fuel

    The capacity of the journal queue is a variable of the machines, 100 000 in the program; theorems
    hold for any positive one. Both request queues hold 100 000 entries and a group at most 256, as in
    the code. Fuel occurs three times: printing an integer takes as many rounds as it has binary digits
    ([digits_go_value]); the loop of [quantity_for_budget] takes 64 rounds, which is enough because the
    product of its two numbers, below 10^18, halves in every round ([euclid_gcd]); trimming takes as
    many rounds as the string has bytes. Every other loop is a structural recursion or a machine.

    ** Parameters

    What is not under [src] is a parameter, with what the code relies on as laws and an instance that
    satisfies them: decimals ([DecimalOps], [DecimalLaws]); time stamps and UUIDs ([Externals]); JSON
    and checksums of the journal ([JournalFormat], [JournalFormatLaws]: what was written is read back);
    the JSON of events ([EventFormat]); SHA-256 of keys ([KeyHash], nothing is assumed; [Sha256] is the
    standard's function); PostgreSQL
    ([Postgres], [PostgresLaws], and for acceptance a [Session] of what other transactions and failures
    do); what SQLite answers when a journal is opened ([Sqlite]); how a commit ends ([Commit]) and what
    the broker confirms ([Ack]); what a reply channel gave in time ([Waited]); the rejections of the
    HTTP extractors ([Body]).

    ** Not modelled

    Thread affinity and priority ([runtime/config.rs]), connection pools and migrations
    ([connection.rs]), the Kafka client and its retries, signals, logging, the API document and the
    derived serializers: calls into libraries without a decision of the program. Path matching and body
    limits belong to the HTTP library. Timing is not modelled: a time-out is one of the things a caller
    may see. Of the tests, those of thread timing, of child processes, of paths that have no route, of
    PostgreSQL constraints and settings, of source files and of the bytes of JSON bodies have no
    counterpart here. *)

From stdpp Require Import base tactics gmap list strings sorting.
From Stdlib Require Import ZArith Lia.

#[export] Set Warnings "-clear-no-such-hyp".
#[global] Open Scope Z_scope.

(** ** Results of fallible code

    [anyhow::Result<T>] with the message that [to_string()] shows (the outermost context), and a
    third outcome for code that would panic ([expect], a failed [assert!], an unsigned
    subtraction below zero). *)

Inductive result (A : Type) : Type :=
  | Ok (a : A)
  | Err (msg : string)
  | Panic.
Arguments Ok {A} a.
Arguments Err {A} msg.
Arguments Panic {A}.

#[global] Instance result_ret : MRet result := fun A a => Ok a.
#[global] Instance result_bind : MBind result := fun A B f m =>
  match m with
  | Ok a => f a
  | Err e => Err e
  | Panic => Panic
  end.

(** [anyhow::ensure!]: fail with the message unless the condition holds. *)
Definition ensure (b : bool) (msg : string) : result unit :=
  if b then Ok tt else Err msg.

(** [Option::context] / [ok_or_else]: a missing value is the error. *)
Definition ok_or {A} (o : option A) (msg : string) : result A :=
  match o with Some a => Ok a | None => Err msg end.

(** [Option::expect] / [unwrap]: a missing value is a panic. *)
Definition expect {A} (o : option A) : result A :=
  match o with Some a => Ok a | None => Panic end.

(** [Result::expect]: any error is a panic. *)
Definition expect_ok {A} (m : result A) : result A :=
  match m with Ok a => Ok a | _ => Panic end.

(** [Result::context]: the outer message hides the inner one. *)
Definition with_context {A} (m : result A) (msg : string) : result A :=
  match m with Ok a => Ok a | Err _ => Err msg | Panic => Panic end.

Definition is_ok {A} (m : result A) : bool :=
  match m with Ok _ => true | _ => false end.

Lemma bind_ok {A B} (m : result A) (f : A → result B) b :
  m ≫= f = Ok b ↔ ∃ a, m = Ok a ∧ f a = Ok b.
Proof. destruct m; cbn; naive_solver. Qed.

Lemma ensure_ok b msg u : ensure b msg = Ok u ↔ b = true.
Proof. destruct b, u; cbn; naive_solver. Qed.

Lemma ok_or_ok {A} (o : option A) msg a : ok_or o msg = Ok a ↔ o = Some a.
Proof. destruct o; cbn; naive_solver. Qed.

Lemma expect_some {A} (o : option A) a : expect o = Ok a ↔ o = Some a.
Proof. destruct o; cbn; naive_solver. Qed.

Lemma expect_ok_ok {A} (m : result A) a : expect_ok m = Ok a ↔ m = Ok a.
Proof. destruct m; cbn; naive_solver. Qed.

Lemma with_context_ok {A} (m : result A) msg a : with_context m msg = Ok a ↔ m = Ok a.
Proof. destruct m; cbn; naive_solver. Qed.

Lemma is_ok_spec {A} (m : result A) : is_ok m = true ↔ ∃ a, m = Ok a.
Proof. destruct m; cbn; naive_solver. Qed.


(** The value of a run that is known to succeed. *)
Definition get_ok {A} (d : A) (m : result A) : A := match m with Ok a => a | _ => d end.

Lemma get_ok_run {A} (d : A) m : is_ok m = true → m = Ok (get_ok d m).
Proof. by destruct m. Qed.

(** Take a successful run of monadic code apart: one hypothesis per step that succeeded. *)
Ltac inv_ok :=
  repeat first
    [ progress simplify_eq
    | match goal with
      | H : (_ ≫= _) = Ok _ |- _ => apply bind_ok in H as (? & ? & H)
      | H : ensure _ _ = Ok _ |- _ => apply ensure_ok in H
      | H : ok_or _ _ = Ok _ |- _ => apply ok_or_ok in H
      | H : expect _ = Ok _ |- _ => apply expect_some in H
      | H : expect_ok _ = Ok _ |- _ => apply expect_ok_ok in H
      | H : with_context _ _ = Ok _ |- _ => apply with_context_ok in H
      | H : mret _ = Ok _ |- _ => unfold mret, result_ret in H
      | H : (_ && _)%bool = true |- _ => apply andb_true_iff in H as [? ?]
      | H : bool_decide _ = true |- _ => apply bool_decide_eq_true in H
      | H : bool_decide _ = false |- _ => apply bool_decide_eq_false in H
      | H : negb _ = true |- _ => apply negb_true_iff in H
      | H : negb _ = false |- _ => apply negb_false_iff in H
      | H : (_ =? _)%Z = true |- _ => apply Z.eqb_eq in H
      | H : (_ =? _)%Z = false |- _ => apply Z.eqb_neq in H
      | H : (_ <=? _)%Z = true |- _ => apply Z.leb_le in H
      | H : (_ <? _)%Z = true |- _ => apply Z.ltb_lt in H
      | H : (_ <=? _)%Z = false |- _ => apply Z.leb_gt in H
      | H : (_ <? _)%Z = false |- _ => apply Z.ltb_ge in H
      end ].

(** ** Code that mutates a borrowed state

    A [&mut S] function returns a result together with the state it leaves behind, also when it
    fails: "an error leaves the state as it was" is a theorem about such a function, not a
    consequence of its type. *)

Definition st (S A : Type) : Type := S → result A * S.

#[global] Instance st_ret {S} : MRet (st S) := fun A a s => (Ok a, s).
#[global] Instance st_bind {S} : MBind (st S) := fun A B f m s =>
  match m s with
  | (Ok a, s') => f a s'
  | (Err e, s') => (Err e, s')
  | (Panic, s') => (Panic, s')
  end.

(** Run code that does not touch the state. *)
Definition lift {S A} (m : result A) : st S A := fun s => (m, s).
Definition sget {S} : st S S := fun s => (Ok s, s).
Definition sput {S} (s' : S) : st S unit := fun _ => (Ok tt, s').
Definition smodify {S} (f : S → S) : st S unit := fun s => (Ok tt, f s).

(** Run a function on a component of the state. *)
Definition zoom {S T A} (get : S → T) (set : T → S → S) (m : st T A) : st S A := fun s =>
  let '(r, t) := m (get s) in (r, set t s).

(** Put an outer message on the failure of mutating code. *)
Definition scontext {S A} (m : st S A) (msg : string) : st S A := fun s =>
  let '(r, s') := m s in (with_context r msg, s').

Lemma st_bind_ok {S A B} (m : st S A) (f : A → st S B) s b s' :
  (m ≫= f) s = (Ok b, s') ↔ ∃ a s1, m s = (Ok a, s1) ∧ f a s1 = (Ok b, s').
Proof. unfold mbind, st_bind. destruct (m s) as [[] ?]; naive_solver. Qed.

Lemma st_bind_split {S A B} (m : st S A) (f : A → st S B) s r s' :
  (m ≫= f) s = (r, s') →
  (∃ a s1, m s = (Ok a, s1) ∧ f a s1 = (r, s')) ∨
  ((∃ e, m s = (Err e, s') ∧ r = Err e) ∨ (m s = (Panic, s') ∧ r = Panic)).
Proof. unfold mbind, st_bind. destruct (m s) as [[] ?]; naive_solver. Qed.

Lemma lift_run {S A} (m : result A) (s : S) r s' : lift m s = (r, s') ↔ m = r ∧ s' = s.
Proof. unfold lift. naive_solver. Qed.

Lemma lift_bind {S A B} (m : result A) (f : A → st S B) s a :
  m = Ok a → (lift m ≫= f) s = f a s.
Proof. by intros ->. Qed.

Ltac inv_st :=
  repeat first
    [ progress simplify_eq
    | match goal with
      | H : (_ ≫= _) _ = (Ok _, _) |- _ => apply st_bind_ok in H as (? & ? & ? & H)
      | H : lift _ _ = (_, _) |- _ => apply lift_run in H as [? ?]
      | H : sget _ = (_, _) |- _ => unfold sget in H
      | H : sput _ _ = (_, _) |- _ => unfold sput in H
      | H : smodify _ _ = (_, _) |- _ => unfold smodify in H
      | H : mret _ _ = (_, _) |- _ => unfold mret, st_ret in H
      end
    | progress inv_ok ].

(** A run, from its result alone. *)
Lemma run_pair {S A} (m : st S A) s r : (m s).1 = r → m s = (r, (m s).2).
Proof. intros <-. by destruct (m s). Qed.

(** A run that is known to succeed, by name. *)
Lemma get_run {S A} (d : A) (m : st S A) s :
  is_ok (m s).1 = true → m s = (Ok (get_ok d (m s).1), (m s).2).
Proof. intros H. by apply run_pair, get_ok_run. Qed.

(** Mutating code that changes nothing when it fails. *)
Definition atomic {S A} (m : st S A) : Prop :=
  ∀ s r s', m s = (r, s') → is_ok r = false → s' = s.

Lemma atomic_lift {S A} (m : result A) : atomic (S:=S) (lift m).
Proof. intros s r s' [_ ->]%lift_run _. done. Qed.

(** A read-only first step and an atomic rest are atomic together. *)
Lemma atomic_bind_lift {S A B} (m : result A) (f : A → st S B) :
  (∀ a, m = Ok a → atomic (f a)) → atomic (lift m ≫= f).
Proof.
  intros Hf s r s' Hrun Hr. unfold mbind, st_bind, lift in Hrun.
  destruct m as [a| |]; cbn in Hrun; [by apply (Hf a eq_refl s r) | congruence..].
Qed.

Lemma atomic_bind_get {S B} (f : S → st S B) :
  (∀ a, atomic (f a)) → atomic (sget ≫= f).
Proof. intros Hf s r s' Hrun Hr. exact (Hf s s r s' Hrun Hr). Qed.

Lemma atomic_ok {S A} (m : st S A) : (∀ s, is_ok (m s).1 = true) → atomic m.
Proof. intros Hok s r s' Hrun Hr. specialize (Hok s). rewrite Hrun in Hok. cbn in *. congruence. Qed.

Lemma atomic_scontext {S A} (m : st S A) msg : atomic m → atomic (scontext m msg).
Proof.
  intros Hm s r s' Hrun Hr. unfold scontext in Hrun. destruct (m s) as [r0 s0] eqn:E.
  simplify_eq. eapply Hm; [done |]. by destruct r0.
Qed.

(** ** Machine integers *)

Definition U64_MAX : Z := 2 ^ 64 - 1.
Definition I64_MAX : Z := 2 ^ 63 - 1.
Definition I128_MIN : Z := - 2 ^ 127.
Definition I128_MAX : Z := 2 ^ 127 - 1.

(** [as u64] of an [i64], [as i64] of a [u64]. *)
Definition as_u64 (z : Z) : Z := z mod 2 ^ 64.
Definition as_i64 (z : Z) : Z := if as_u64 z <=? I64_MAX then as_u64 z else as_u64 z - 2 ^ 64.

Lemma as_u64_as_u64 z : as_u64 (as_u64 z) = as_u64 z.
Proof. unfold as_u64. by rewrite Z.mod_mod. Qed.
Lemma as_u64_small z : 0 ≤ z ≤ U64_MAX → as_u64 z = z.
Proof. unfold as_u64, U64_MAX. intros. apply Z.mod_small. lia. Qed.
Lemma as_u64_as_i64 z : as_u64 (as_i64 z) = as_u64 z.
Proof.
  unfold as_i64. destruct (as_u64 z <=? I64_MAX); [apply as_u64_as_u64 |].
  unfold as_u64. rewrite <- (Z_mod_plus_full (_ - _) 1), Z.sub_add. by rewrite Z.mod_mod.
Qed.
Lemma as_i64_small z : 0 ≤ z ≤ I64_MAX → as_i64 z = z.
Proof.
  intros Hz. unfold as_i64. rewrite as_u64_small by (unfold I64_MAX, U64_MAX in *; lia).
  by rewrite (proj2 (Z.leb_le _ _)) by lia.
Qed.

Definition in_i128 (z : Z) : bool := (I128_MIN <=? z) && (z <=? I128_MAX).

(** [i128::checked_mul], [i128::checked_add]: [None] when the exact result does not fit. *)
Definition checked_mul (a b : Z) : option Z := if in_i128 (a * b) then Some (a * b) else None.
Definition checked_add (a b : Z) : option Z := if in_i128 (a + b) then Some (a + b) else None.

(** [u64::checked_add]. *)
Definition u64_checked_add (a b : Z) : option Z :=
  if a + b <=? U64_MAX then Some (a + b) else None.

Lemma in_i128_spec z : in_i128 z = true ↔ I128_MIN ≤ z ≤ I128_MAX.
Proof. unfold in_i128. rewrite andb_true_iff, !Z.leb_le. done. Qed.

Lemma in_i128_true z : I128_MIN ≤ z ≤ I128_MAX → in_i128 z = true.
Proof. apply in_i128_spec. Qed.

Lemma checked_mul_some a b c :
  checked_mul a b = Some c ↔ c = a * b ∧ I128_MIN ≤ a * b ≤ I128_MAX.
Proof. unfold checked_mul. rewrite <- in_i128_spec. destruct in_i128; naive_solver. Qed.

Lemma checked_add_some a b c :
  checked_add a b = Some c ↔ c = a + b ∧ I128_MIN ≤ a + b ≤ I128_MAX.
Proof. unfold checked_add. rewrite <- in_i128_spec. destruct in_i128; naive_solver. Qed.

(** ** Sums over a map *)

Section map_sum.
Context `{Countable K} {V : Type}.
Implicit Types (f : K → V → Z) (m : gmap K V).

Definition msum f m : Z := map_fold (fun k v acc => f k v + acc) 0 m.

Lemma msum_empty f : msum f ∅ = 0.
Proof. unfold msum. by rewrite map_fold_empty. Qed.

Lemma msum_insert_new f m k v : m !! k = None → msum f (<[k:=v]> m) = f k v + msum f m.
Proof. intros Hk. unfold msum. rewrite map_fold_insert_L; [done | lia | done]. Qed.

Lemma msum_delete f m k v : m !! k = Some v → msum f m = f k v + msum f (delete k m).
Proof. intros Hk. unfold msum. rewrite (map_fold_delete_L _ _ k v); [done | lia | done]. Qed.

(** Overwriting one entry moves the sum by the difference at that key. *)
Lemma msum_insert f m k v :
  msum f (<[k:=v]> m) = msum f m + f k v - from_option (f k) 0 (m !! k).
Proof.
  destruct (m !! k) as [w|] eqn:E; cbn.
  - rewrite <- insert_delete_eq, msum_insert_new by apply lookup_delete_eq.
    rewrite (msum_delete _ m k w E). lia.
  - rewrite msum_insert_new by done. lia.
Qed.

Lemma msum_ext f g m : (∀ k v, m !! k = Some v → f k v = g k v) → msum f m = msum g m.
Proof.
  induction m as [|k v m Hk IH] using map_ind; intros Hfg; [by rewrite !msum_empty |].
  rewrite !msum_insert_new by done. f_equal; [by apply Hfg; simplify_map_eq |].
  apply IH. intros k' v' Hk'. apply Hfg. by rewrite lookup_insert_ne by congruence.
Qed.

Lemma msum_nonneg f m : (∀ k v, m !! k = Some v → 0 ≤ f k v) → 0 ≤ msum f m.
Proof.
  induction m as [|k v m Hk IH] using map_ind; intros Hf; [by rewrite msum_empty |].
  rewrite msum_insert_new by done.
  assert (0 ≤ f k v) by (apply Hf; by simplify_map_eq).
  enough (0 ≤ msum f m) by lia. apply IH. intros k' v' Hk'. apply Hf.
  by rewrite lookup_insert_ne by congruence.
Qed.

(** The contribution of one key, zero for an absent one. *)
Definition mval f m (k : K) : Z := from_option (f k) 0 (m !! k).

Lemma msum_insert_val f m k v : msum f (<[k:=v]> m) = msum f m + f k v - mval f m k.
Proof. apply msum_insert. Qed.

Lemma msum_zero f m : (∀ k, mval f m k = 0) → msum f m = 0.
Proof.
  intros Hz. rewrite (msum_ext f (fun _ _ => 0)).
  - clear Hz. induction m as [|k v m Hk IH] using map_ind; [by rewrite msum_empty |].
    by rewrite msum_insert_new by done.
  - intros k v Hk. specialize (Hz k). unfold mval in Hz. by rewrite Hk in Hz.
Qed.
End map_sum.

Section map_sum_compare.
Context `{Countable K} {V W : Type}.

(** A sum depends only on the contributions of the keys. *)
Lemma msum_val_eq (f : K → V → Z) (g : K → W → Z) (m : gmap K V) (n : gmap K W) :
  (∀ k, mval f m k = mval g n k) → msum f m = msum g n.
Proof.
  revert n. induction m as [|k v m Hk IH] using map_ind; intros n Hval.
  - rewrite msum_empty. symmetry. apply msum_zero. intros k. rewrite <- Hval.
    unfold mval. by rewrite lookup_empty.
  - rewrite msum_insert_new by done.
    assert (Hn : msum g n = mval g n k + msum g (delete k n)).
    { unfold mval. destruct (n !! k) as [w|] eqn:E; cbn.
      - by rewrite (msum_delete g n k w E).
      - by rewrite delete_id. }
    rewrite Hn, <- Hval. unfold mval at 1. rewrite lookup_insert_eq. cbn. f_equal.
    apply IH. intros j. destruct (decide (j = k)) as [->|Hj].
    + unfold mval. by rewrite Hk, lookup_delete_eq.
    + specialize (Hval j). unfold mval in *.
      rewrite lookup_insert_ne in Hval by congruence. by rewrite lookup_delete_ne by congruence.
Qed.
End map_sum_compare.

(** ** Sums over a list *)

Definition lsum {A} (f : A → Z) (l : list A) : Z := foldr (fun a acc => f a + acc) 0 l.

Lemma lsum_app {A} (f : A → Z) l1 l2 : lsum f (l1 ++ l2) = lsum f l1 + lsum f l2.
Proof. unfold lsum. induction l1; cbn in *; lia. Qed.

Lemma lsum_cons {A} (f : A → Z) a l : lsum f (a :: l) = f a + lsum f l.
Proof. done. Qed.

Lemma lsum_nonneg {A} (f : A → Z) l : (∀ a, a ∈ l → 0 ≤ f a) → 0 ≤ lsum f l.
Proof.
  induction l as [|a l IH]; intros Hf; [done |]. rewrite lsum_cons.
  assert (0 ≤ f a) by (apply Hf; left). enough (0 ≤ lsum f l) by lia.
  apply IH. intros b Hb. apply Hf. by right.
Qed.

Lemma lsum_snoc {A} (f : A → Z) l a : lsum f (l ++ [a]) = lsum f l + f a.
Proof. rewrite lsum_app. cbn. lia. Qed.

(** The sum over a map, when a list names the keys that count, each once. *)
Lemma msum_lsum `{Countable K} {V A} (f : K → V → Z) (g : A → Z) (key : A → K) (l : list A) (m : gmap K V) :
  NoDup (map key l) →
  (∀ a, a ∈ l → ∃ v, m !! key a = Some v ∧ f (key a) v = g a) →
  (∀ k v, m !! k = Some v → k ∉ map key l → f k v = 0) →
  msum f m = lsum g l.
Proof.
  revert m. induction l as [|a l IH]; intros m Hnd Hl Hrest.
  - apply msum_zero. intros k. unfold mval. destruct (m !! k) as [v|] eqn:Hv; [| done].
    apply (Hrest k v Hv). intros Hk. by apply elem_of_nil in Hk.
  - cbn [map] in Hnd. apply NoDup_cons in Hnd as [Ha Hnd]. destruct (Hl a) as (v & Hv & Hf); [left |].
    rewrite (msum_delete f m (key a) v Hv), lsum_cons, Hf. f_equal. apply IH; [done | |].
    + intros b Hb. destruct (Hl b) as (w & Hw & ?); [by right |]. exists w. split; [| done].
      rewrite lookup_delete_ne; [done |]. intros Heq. apply Ha. rewrite Heq. apply list_elem_of_fmap. by exists b.
    + intros k w [Hk Hw]%lookup_delete_Some Hnk. apply (Hrest k w Hw). cbn [map].
      intros [->|?]%elem_of_cons; done.
Qed.

(** Moving amounts between keys: when every key moved by what a list of changes gives it, the sum
    moved by the sum of the changes. *)
Section map_sum_changes.
Context `{Countable K}.

Definition change_at (k : K) (l : list (K * Z)) : Z :=
  lsum (fun c => if decide (c.1 = k) then c.2 else 0) l.

Lemma change_at_app k l1 l2 : change_at k (l1 ++ l2) = change_at k l1 + change_at k l2.
Proof. apply lsum_app. Qed.

Lemma change_at_single k (c : K * Z) : change_at k [c] = if decide (c.1 = k) then c.2 else 0.
Proof. unfold change_at. cbn. case_decide; lia. Qed.

Lemma change_at_absent k (l : list (K * Z)) : k ∉ map fst l → change_at k l = 0.
Proof.
  induction l as [|[j w] l IH]; [done |]. cbn [map]. intros [Hj Hl]%not_elem_of_cons. unfold change_at in *.
  rewrite lsum_cons. cbn [fst snd] in *. rewrite decide_False by congruence. by rewrite IH.
Qed.

Lemma change_at_unique k w (l : list (K * Z)) : NoDup (map fst l) → (k, w) ∈ l → change_at k l = w.
Proof.
  induction l as [|[j v] l IH]; intros Hnd Hin; [by apply elem_of_nil in Hin |]. cbn [map] in Hnd.
  apply NoDup_cons in Hnd as [Hj Hnd]. unfold change_at. rewrite lsum_cons. cbn [fst snd].
  apply elem_of_cons in Hin as [[= <- <-]|Hin].
  - rewrite decide_True by done. change (w + change_at k l = w). rewrite change_at_absent by done. lia.
  - rewrite decide_False; [by apply IH |]. intros ->. apply Hj. apply list_elem_of_fmap. by exists (k, w).
Qed.

Lemma msum_changes_Z (l : list (K * Z)) (m n : gmap K Z) :
  (∀ k, mval (fun _ z => z) n k = mval (fun _ z => z) m k + change_at k l) →
  msum (fun _ z => z) n = msum (fun _ z => z) m + lsum snd l.
Proof.
  revert m. induction l as [|[k w] l IH]; intros m Hval.
  - rewrite (msum_val_eq _ (fun _ z => z) n m); [cbn; lia |]. intros k. rewrite Hval. cbn. lia.
  - rewrite (IH (<[k := mval (fun _ z => z) m k + w]> m)).
    + rewrite msum_insert_val. rewrite lsum_cons. cbn. lia.
    + intros j. rewrite Hval. unfold change_at. rewrite lsum_cons. cbn.
      unfold mval at 2. destruct (decide (k = j)) as [->|Hkj].
      * rewrite lookup_insert_eq. cbn. lia.
      * rewrite lookup_insert_ne by done. unfold mval. lia.
Qed.

Lemma msum_changes {V} (f : K → V → Z) (l : list (K * Z)) (m n : gmap K V) :
  (∀ k, mval f n k = mval f m k + change_at k l) →
  msum f n = msum f m + lsum snd l.
Proof.
  intros Hval.
  assert (Hlift : ∀ o : gmap K V, msum f o = msum (fun _ z => z) (map_imap (fun k v => Some (f k v)) o)).
  { intros o. apply msum_val_eq. intros k. unfold mval. rewrite map_lookup_imap.
    by destruct (o !! k). }
  rewrite !Hlift. apply msum_changes_Z. intros k. specialize (Hval k).
  unfold mval in *. rewrite !map_lookup_imap.
  destruct (m !! k), (n !! k); cbn in *; done.
Qed.
End map_sum_changes.

(** ** Folding fallible code over a list *)

Fixpoint fold_result {A B} (f : B → A → result B) (b : B) (l : list A) : result B :=
  match l with
  | [] => Ok b
  | a :: l => b' ← f b a; fold_result f b' l
  end.

(** Rule of the loop: an invariant over the processed prefix. *)
Lemma fold_result_ind {A B} (P : list A → B → Prop) (f : B → A → result B) l b b' :
  P [] b →
  (∀ done a rest c c', l = done ++ a :: rest → P done c → f c a = Ok c' → P (done ++ [a]) c') →
  fold_result f b l = Ok b' → P l b'.
Proof.
  intros H0 Hstep. assert (Hgen : ∀ pre suf c, l = pre ++ suf → P pre c →
    fold_result f c suf = Ok b' → P l b').
  { intros pre suf. revert pre. induction suf as [|a suf IH]; intros pre c Hl Hc Hf; cbn in Hf.
    - rewrite app_nil_r in Hl. naive_solver.
    - inv_ok. eapply (IH (pre ++ [a])); [by rewrite <- app_assoc | | done]. eapply Hstep; done. }
  intros Hf. by eapply (Hgen [] l).
Qed.

(** [iter().map(f).collect::<Result<Vec<_>>>()]: the first error wins. *)
Fixpoint map_results {A B} (f : A → result B) (l : list A) : result (list B) :=
  match l with
  | [] => Ok []
  | a :: l => b ← f a; bs ← map_results f l; Ok (b :: bs)
  end.

Lemma map_results_Forall2 {A B} (f : A → result B) l bs :
  map_results f l = Ok bs → Forall2 (fun a b => f a = Ok b) l bs.
Proof. revert bs. induction l as [|a l IH]; intros bs Hl; cbn in Hl; inv_ok; auto. Qed.

(** ** Writing a batch of rows into a map *)

Definition insert_all `{Countable K} {V} (rows : list (K * V)) (m : gmap K V) : gmap K V :=
  foldl (fun m row => <[row.1 := row.2]> m) m rows.

Lemma insert_all_lookup `{Countable K} {V} (rows : list (K * V)) (m : gmap K V) k :
  NoDup rows.*1 →
  insert_all rows m !! k =
  match (list_to_map rows : gmap K V) !! k with Some v => Some v | None => m !! k end.
Proof.
  revert m. induction rows as [|[j w] rows IH]; intros m Hnd; [done |].
  cbn in Hnd. apply NoDup_cons in Hnd as [Hj Hnd]. cbn [insert_all foldl fst snd].
  fold (insert_all rows (<[j:=w]> m)).
  rewrite IH by done. cbn. destruct (decide (k = j)) as [->|Hkj].
  - rewrite lookup_insert_eq, (not_elem_of_list_to_map_1 rows j) by done. by rewrite lookup_insert_eq.
  - by rewrite !lookup_insert_ne by congruence.
Qed.

(** The rows of a map, each converted by fallible code and collected: the same keys, every value
    the conversion of the value it replaces. *)
Lemma map_results_rows `{Countable K} {V W} (f : V → result W) (m : gmap K V) rows :
  map_results (fun row => w ← f row.2; Ok (row.1, w)) (map_to_list m) = Ok rows →
  NoDup rows.*1 ∧
  ∀ k, match m !! k with
       | Some v => ∃ w, f v = Ok w ∧ (list_to_map rows : gmap K W) !! k = Some w
       | None => (list_to_map rows : gmap K W) !! k = None
       end.
Proof.
  intros Hrows%map_results_Forall2. pose proof (NoDup_fst_map_to_list m) as Hnd.
  assert (Hkeys : ∀ l r, Forall2 (fun row w => (w0 ← f row.2; Ok (row.1, w0)) = Ok w) l r →
    NoDup l.*1 → r.*1 = l.*1 ∧
    ∀ k, match (list_to_map l : gmap K V) !! k with
       | Some v => ∃ w, f v = Ok w ∧ (list_to_map r : gmap K W) !! k = Some w
       | None => (list_to_map r : gmap K W) !! k = None
       end).
  { clear. induction 1 as [|[j v] [i w] l r Hf _ IH]; [done |].
    cbn in Hf. inv_ok. intros Hnd. apply NoDup_cons in Hnd as [_ Hnd].
    destruct (IH Hnd) as [Hk IHk]. split; [cbn; by f_equal |]. intros k. cbn.
    destruct (decide (k = i)) as [->|Hki].
    - rewrite !lookup_insert_eq. eauto.
    - rewrite !lookup_insert_ne by congruence. apply IHk. }
  destruct (Hkeys _ _ Hrows Hnd) as [-> Hval]. split; [done |]. intros k. specialize (Hval k).
  by rewrite list_to_map_to_list in Hval.
Qed.

(** ** Code that cannot panic *)

Definition no_panic {A} (m : result A) : Prop := m ≠ Panic.

Lemma no_panic_bind {A B} (m : result A) (f : A → result B) :
  no_panic m → (∀ a, m = Ok a → no_panic (f a)) → no_panic (m ≫= f).
Proof. unfold no_panic. destruct m; cbn; eauto. Qed.

Lemma no_panic_ok {A} (a : A) : no_panic (Ok a).
Proof. done. Qed.

Lemma no_panic_err {A} e : no_panic (Err (A:=A) e).
Proof. done. Qed.

Lemma no_panic_ensure b msg : no_panic (ensure b msg).
Proof. by destruct b. Qed.

Lemma no_panic_ok_or {A} (o : option A) msg : no_panic (ok_or o msg).
Proof. by destruct o. Qed.

Lemma no_panic_with_context {A} (m : result A) msg : no_panic m → no_panic (with_context m msg).
Proof. by destruct m. Qed.

Lemma no_panic_expect {A} (o : option A) : is_Some o → no_panic (expect o).
Proof. by intros [? ->]. Qed.

Lemma no_panic_fold {A B} (f : B → A → result B) l b :
  (∀ b a, no_panic (f b a)) → no_panic (fold_result f b l).
Proof. intros Hf. revert b. induction l; intros b; [done |]. apply no_panic_bind; eauto. Qed.

Lemma no_panic_map {A B} (f : A → result B) l :
  (∀ a, no_panic (f a)) → no_panic (map_results f l).
Proof.
  intros Hf. induction l; [done |]. apply no_panic_bind; [done |]. intros.
  apply no_panic_bind; [done |]. done.
Qed.

(** The same for code with a state, whatever the state. *)
Definition safe {S A} (m : st S A) : Prop := ∀ s, no_panic (m s).1.

Lemma safe_bind {S A B} (m : st S A) (f : A → st S B) :
  safe m → (∀ a, safe (f a)) → safe (m ≫= f).
Proof.
  intros Hm Hf s. unfold mbind, st_bind. specialize (Hm s).
  destruct (m s) as [[a|e|] s']; cbn in *; [apply Hf | done | done].
Qed.

Lemma safe_lift {S A} (m : result A) : no_panic m → safe (S:=S) (lift m).
Proof. intros Hm s. exact Hm. Qed.

Lemma safe_get {S} : safe (S:=S) sget.
Proof. done. Qed.
Lemma safe_put {S} (s : S) : safe (sput s).
Proof. done. Qed.
Lemma safe_modify {S} (f : S → S) : safe (smodify f).
Proof. done. Qed.
Lemma safe_ret {S A} (a : A) : safe (S:=S) (mret a).
Proof. done. Qed.

Lemma safe_zoom {S T A} (get : S → T) (set : T → S → S) (m : st T A) : safe m → safe (zoom get set m).
Proof. intros Hm s. unfold zoom. specialize (Hm (get s)). by destruct (m (get s)). Qed.

Lemma safe_scontext {S A} (m : st S A) msg : safe m → safe (scontext m msg).
Proof.
  intros Hm s. unfold scontext. specialize (Hm s). destruct (m s) as [r s']. by destruct r.
Qed.

(** Code that does not report errors (it may still panic). *)
Definition infallible {S A} (m : st S A) : Prop := ∀ s e, (m s).1 ≠ Err e.

Lemma infallible_bind {S A B} (m : st S A) (f : A → st S B) :
  infallible m → (∀ a, infallible (f a)) → infallible (m ≫= f).
Proof.
  intros Hm Hf s e. unfold mbind, st_bind. specialize (Hm s e).
  destruct (m s) as [[a|e'|] s']; cbn in *; [apply Hf | congruence | done].
Qed.

Lemma infallible_lift {S A} (m : result A) : (∀ e, m ≠ Err e) → infallible (S:=S) (lift m).
Proof. intros Hm s e. apply Hm. Qed.

Lemma infallible_ok {S A} (m : st S A) : (∀ s, is_ok (m s).1 = true) → infallible m.
Proof. intros Hm s e He. specialize (Hm s). by rewrite He in Hm. Qed.

Lemma infallible_zoom {S T A} (get : S → T) (set : T → S → S) (m : st T A) :
  infallible m → infallible (zoom get set m).
Proof. intros Hm s e. unfold zoom. specialize (Hm (get s) e). by destruct (m (get s)). Qed.

(** An infallible first step and an infallible rest only ever fail by panicking. *)
Lemma infallible_run {S A} (m : st S A) s e s' : infallible m → m s ≠ (Err e, s').
Proof. intros Hm Hrun. apply (Hm s e). by rewrite Hrun. Qed.

Create HintDb no_panic.
#[export] Hint Resolve no_panic_ok no_panic_err no_panic_ensure no_panic_ok_or
  no_panic_with_context no_panic_fold no_panic_map safe_lift safe_get safe_put safe_modify safe_ret
  safe_zoom safe_scontext : no_panic.

(** Discharge [no_panic] of monadic code whose steps cannot panic. *)
Ltac solve_no_panic :=
  repeat first
    [ progress intros
    | solve [eauto with no_panic]
    | apply no_panic_bind
    | apply safe_bind
    | apply safe_lift | apply safe_scontext | apply safe_zoom
    | apply no_panic_with_context | apply no_panic_fold | apply no_panic_map
    | case_match ].
