(* ===== verification/Text.v ===== *)
(** * Text

    Strings as the program handles them: a Rust [String] is its UTF-8 bytes, [len()] counts bytes,
    [trim()] removes Unicode white space at both ends. Decimal formatting of integers
    ([{}] and [{:09}]) and the two [trim_end_matches] calls of [amount::decimal], with the value
    a digit string stands for. *)

From stdpp Require Import base tactics gmap list strings.
From Stdlib Require Import ZArith Lia Ascii String.
From S2P Require Import Prelude.

(** ** Digits *)

Definition digit_char (d : Z) : ascii := ascii_of_N (Z.to_N (48 + d)).
Definition char_digit (c : ascii) : Z := Z.of_N (N_of_ascii c) - 48.
Definition is_digit (c : ascii) : bool := (0 <=? char_digit c) && (char_digit c <=? 9).

(** [u8::is_ascii_uppercase]. *)
Definition is_upper (c : ascii) : bool :=
  (65 <=? Z.of_N (N_of_ascii c)) && (Z.of_N (N_of_ascii c) <=? 90).

Fixpoint all_chars (p : ascii → bool) (s : string) : bool :=
  match s with
  | EmptyString => true
  | String c s' => p c && all_chars p s'
  end.

Definition slen (s : string) : Z := Z.of_nat (String.length s).

Fixpoint str_value_from (acc : Z) (s : string) : Z :=
  match s with
  | EmptyString => acc
  | String c s' => str_value_from (acc * 10 + char_digit c) s'
  end.

(** The number a string of decimal digits denotes. *)
Definition str_value (s : string) : Z := str_value_from 0 s.

(** ** Printing integers *)

Fixpoint digits_go (fuel : nat) (n : Z) (acc : string) : string :=
  match fuel with
  | O => acc
  | S fuel =>
      let acc := String (digit_char (n mod 10)) acc in
      if n <? 10 then acc else digits_go fuel (n / 10) acc
  end.

(** The digits of a non-negative integer. A number below [2^k] has at most [k] digits, so the fuel
    [log2 n + 1] suffices. *)
Definition show_nonneg (n : Z) : string := digits_go (S (Z.to_nat (Z.log2 n))) n "".

(** [format!("{}", n)] for an integer. *)
Definition show_int (n : Z) : string :=
  if n <? 0 then String "-" (show_nonneg (- n)) else show_nonneg n.

Fixpoint zeros (n : nat) : string :=
  match n with O => EmptyString | S n => String "0" (zeros n) end.

(** [format!("{:09}", n)]: zero padding to nine characters, after the sign. *)
Definition show_pad9 (n : Z) : string :=
  if n <? 0 then
    let s := show_nonneg (- n) in String "-" (zeros (8 - String.length s) +:+ s)
  else
    let s := show_nonneg n in zeros (9 - String.length s) +:+ s.

(** [str::trim_end_matches(c)] for a character. *)
Fixpoint trim_end_matches (c : ascii) (s : string) : string :=
  match s with
  | EmptyString => EmptyString
  | String a s' =>
      match trim_end_matches c s' with
      | EmptyString => if Ascii.eqb a c then EmptyString else String a EmptyString
      | t => String a t
      end
  end.

(** [str::contains(c)] for a character. *)
Fixpoint contains_char (c : ascii) (s : string) : bool :=
  match s with
  | EmptyString => false
  | String a s' => Ascii.eqb a c || contains_char c s'
  end.

(** ** White space *)

Fixpoint string_of_bytes (l : list Z) : string :=
  match l with
  | [] => EmptyString
  | b :: l' => String (ascii_of_N (Z.to_N b)) (string_of_bytes l')
  end.

(** The UTF-8 encodings of the characters with the Unicode property [White_Space]:
    U+0009..U+000D, U+0020, U+0085, U+00A0, U+1680, U+2000..U+200A, U+2028, U+2029, U+202F,
    U+205F and U+3000. *)
Definition white_space : list string :=
  map string_of_bytes
    ([[9]; [10]; [11]; [12]; [13]; [32]; [194; 133]; [194; 160]; [225; 154; 128]]
     ++ map (fun b => [226; 128; b])
          [128; 129; 130; 131; 132; 133; 134; 135; 136; 137; 138; 168; 169; 175]
     ++ [[226; 129; 159]; [227; 128; 128]]).

(** The rest of [s] after the prefix [p]. *)
Fixpoint strip_prefix (p s : string) : option string :=
  match p, s with
  | EmptyString, _ => Some s
  | String a p', String b s' => if Ascii.eqb a b then strip_prefix p' s' else None
  | String _ _, EmptyString => None
  end.

Definition strip_space (spaces : list string) (s : string) : option string :=
  foldr (fun p acc => match strip_prefix p s with Some t => Some t | None => acc end) None spaces.

Fixpoint trim_start_go (fuel : nat) (spaces : list string) (s : string) : string :=
  match fuel with
  | O => s
  | S fuel =>
      match strip_space spaces s with
      | Some t => trim_start_go fuel spaces t
      | None => s
      end
  end.

Fixpoint rev_string (s : string) : string :=
  match s with
  | EmptyString => EmptyString
  | String c s' => rev_string s' +:+ String c EmptyString
  end.

Definition trim_start (s : string) : string := trim_start_go (String.length s) white_space s.
Definition trim_end (s : string) : string :=
  rev_string (trim_start_go (String.length s) (map rev_string white_space) (rev_string s)).

(** [str::trim]. *)
Definition trim (s : string) : string := trim_end (trim_start s).

Definition is_empty (s : string) : bool := match s with EmptyString => true | _ => false end.

Example trim_ex : trim "  a b  " = "a b"%string.
Proof. vm_compute. reflexivity. Qed.
Example trim_ex_unicode : trim (string_of_bytes [194; 160; 66; 84; 67; 227; 128; 128]) = "BTC"%string.
Proof. vm_compute. reflexivity. Qed.
Example show_ex : (show_int 120, show_int (-7), show_pad9 500, show_int 0) = ("120", "-7", "000000500", "0")%string.
Proof. vm_compute. reflexivity. Qed.

(** ** Facts about digit strings *)

Lemma ascii_lt_256 c : (N_of_ascii c < 256)%N.
Proof. destruct c as [[] [] [] [] [] [] [] []]; vm_compute; done. Qed.

Lemma char_digit_digit_char d : 0 ≤ d ≤ 9 → char_digit (digit_char d) = d.
Proof.
  intros Hd. unfold char_digit, digit_char. rewrite N_ascii_embedding by lia. lia.
Qed.

Lemma is_digit_digit_char d : 0 ≤ d ≤ 9 → is_digit (digit_char d) = true.
Proof. intros Hd. unfold is_digit. rewrite char_digit_digit_char by done. lia. Qed.

Lemma slen_single c : slen (String c "") = 1.
Proof. done. Qed.

Lemma slen_empty : slen "" = 0.
Proof. done. Qed.

Lemma str_value_single c : str_value (String c "") = char_digit c.
Proof. unfold str_value. cbn. lia. Qed.

Lemma app_empty_l s : "" +:+ s = s.
Proof. done. Qed.

Lemma app_cons_str c s1 s2 : String c s1 +:+ s2 = String c (s1 +:+ s2).
Proof. done. Qed.

Lemma all_chars_app p s1 s2 : all_chars p (s1 +:+ s2) = all_chars p s1 && all_chars p s2.
Proof.
  induction s1 as [|c s1 IH]; [done |]. rewrite app_cons_str. cbn. by rewrite IH, andb_assoc.
Qed.

Lemma slen_nonneg s : 0 ≤ slen s.
Proof. unfold slen. lia. Qed.

Lemma slen_cons c s : slen (String c s) = slen s + 1.
Proof. unfold slen. cbn [String.length]. lia. Qed.

Lemma slen_app s1 s2 : slen (s1 +:+ s2) = slen s1 + slen s2.
Proof.
  induction s1 as [|c s1 IH]; [done |]. rewrite app_cons_str, !slen_cons, IH. lia.
Qed.

Lemma app_empty_r s : s +:+ "" = s.
Proof. induction s as [|c s IH]; [done |]. rewrite app_cons_str. by f_equal. Qed.

Lemma app_assoc_str s1 s2 s3 : (s1 +:+ s2) +:+ s3 = s1 +:+ (s2 +:+ s3).
Proof. induction s1 as [|c s1 IH]; [done |]. rewrite !app_cons_str. by f_equal. Qed.

Lemma str_value_from_app acc s1 s2 :
  str_value_from acc (s1 +:+ s2) = str_value_from (str_value_from acc s1) s2.
Proof. revert acc. induction s1 as [|c s1 IH]; intros acc; [done |]. rewrite app_cons_str. apply IH. Qed.

Lemma str_value_from_shift acc s :
  str_value_from acc s = acc * 10 ^ slen s + str_value s.
Proof.
  unfold str_value. revert acc. induction s as [|c s IH]; intros acc.
  - change (slen "") with 0. cbn. lia.
  - rewrite slen_cons, Z.pow_add_r by (pose proof (slen_nonneg s); lia). cbn [str_value_from].
    rewrite (IH (acc * 10 + char_digit c)), (IH (0 * 10 + char_digit c)). lia.
Qed.

Lemma str_value_cons c s : str_value (String c s) = char_digit c * 10 ^ slen s + str_value s.
Proof. unfold str_value at 1. cbn [str_value_from]. apply (str_value_from_shift (char_digit c)). Qed.

Lemma str_value_app s1 s2 : str_value (s1 +:+ s2) = str_value s1 * 10 ^ slen s2 + str_value s2.
Proof. unfold str_value at 1. rewrite str_value_from_app, str_value_from_shift. done. Qed.

Lemma str_value_nonneg s : all_chars is_digit s = true → 0 ≤ str_value s.
Proof.
  induction s as [|c s IH]; intros Hs; [done |]. cbn in Hs. inv_ok. rewrite str_value_cons.
  match goal with H : is_digit c = true |- _ => unfold is_digit in H; inv_ok end.
  assert (0 ≤ str_value s) by auto.
  pose proof (Z.pow_nonneg 10 (slen s)). nia.
Qed.

Lemma zeros_facts n :
  all_chars is_digit (zeros n) = true ∧ str_value (zeros n) = 0 ∧ slen (zeros n) = Z.of_nat n.
Proof.
  induction n as [|n (Ha & Hv & Hl)]; [done |]. cbn [zeros]. split; [done |]. split.
  - unfold str_value in *. cbn. done.
  - rewrite slen_cons. lia.
Qed.

(** ** Printing and reading back *)

Lemma digits_go_acc fuel n acc : digits_go fuel n acc = digits_go fuel n "" +:+ acc.
Proof.
  revert n acc. induction fuel as [|fuel IH]; intros n acc; [done |]. cbn [digits_go].
  destruct (n <? 10); [done |].
  rewrite (IH _ (String _ acc)), (IH _ (String _ "")), app_assoc_str. done.
Qed.

Lemma digits_go_value fuel n :
  0 ≤ n < 10 ^ Z.of_nat fuel → str_value (digits_go fuel n "") = n.
Proof.
  revert n. induction fuel as [|fuel IH]; intros n Hn; [cbn in *; lia |].
  rewrite Nat2Z.inj_succ, Z.pow_succ_r in Hn by lia. cbn [digits_go].
  assert (0 ≤ n mod 10 ≤ 9) by (pose proof (Z.mod_pos_bound n 10); lia).
  destruct (n <? 10) eqn:E; inv_ok.
  - rewrite str_value_single, char_digit_digit_char by done. apply Z.mod_small. lia.
  - rewrite digits_go_acc, str_value_app, IH.
    + rewrite str_value_single, slen_single, char_digit_digit_char by done.
      pose proof (Z.div_mod n 10). lia.
    + split; [apply Z.div_pos; lia | apply Z.div_lt_upper_bound; lia].
Qed.

Lemma digits_go_digits fuel n : 0 ≤ n → all_chars is_digit (digits_go fuel n "") = true.
Proof.
  revert n. induction fuel as [|fuel IH]; intros n Hn; [done |]. cbn [digits_go].
  assert (0 ≤ n mod 10 ≤ 9) by (pose proof (Z.mod_pos_bound n 10); lia).
  assert (is_digit (digit_char (n mod 10)) = true) by by apply is_digit_digit_char.
  destruct (n <? 10).
  - cbn. by rewrite andb_true_r.
  - rewrite digits_go_acc, all_chars_app, IH by (apply Z.div_pos; lia). cbn.
    by rewrite andb_true_r.
Qed.

Lemma digits_go_length fuel n (k : nat) :
  (0 < k)%nat → 0 ≤ n < 10 ^ Z.of_nat k → slen (digits_go fuel n "") ≤ Z.of_nat k.
Proof.
  revert n k. induction fuel as [|fuel IH]; intros n k Hk Hn; [change (0 ≤ Z.of_nat k); lia |].
  cbn [digits_go]. destruct (n <? 10) eqn:E; inv_ok; [change (1 ≤ Z.of_nat k); lia |].
  rewrite digits_go_acc, slen_app. destruct k as [|k]; [lia |].
  rewrite Nat2Z.inj_succ, Z.pow_succ_r in Hn by lia.
  destruct k as [|k]; [cbn in Hn; lia |].
  assert (slen (digits_go fuel (n / 10) "") ≤ Z.of_nat (S k)).
  { apply IH; [lia |]. split; [apply Z.div_pos; lia | apply Z.div_lt_upper_bound; lia]. }
  rewrite slen_single. lia.
Qed.

Lemma digits_go_nonempty fuel n : digits_go (S fuel) n "" ≠ ""%string.
Proof.
  cbn [digits_go]. destruct (n <? 10); [done |].
  rewrite digits_go_acc. by destruct (digits_go fuel (n / 10) "").
Qed.

Lemma show_nonneg_value n : 0 ≤ n → str_value (show_nonneg n) = n.
Proof.
  intros Hn. apply digits_go_value. split; [done |].
  rewrite Nat2Z.inj_succ, Z2Nat.id by apply Z.log2_nonneg.
  destruct (decide (n = 0)) as [->|]; [done |].
  apply Z.lt_le_trans with (2 ^ Z.succ (Z.log2 n)); [apply Z.log2_spec; lia |].
  apply Z.pow_le_mono_l. lia.
Qed.

Lemma show_nonneg_digits n : 0 ≤ n → all_chars is_digit (show_nonneg n) = true.
Proof. apply digits_go_digits. Qed.

Lemma show_nonneg_nonempty n : show_nonneg n ≠ ""%string.
Proof. apply digits_go_nonempty. Qed.

(** Nine digits, zero padded, for a number that has at most nine. *)
Lemma show_pad9_facts n :
  0 ≤ n < 10 ^ 9 →
  all_chars is_digit (show_pad9 n) = true ∧ str_value (show_pad9 n) = n ∧ slen (show_pad9 n) = 9.
Proof.
  intros Hn. unfold show_pad9. rewrite (proj2 (Z.ltb_ge n 0)) by lia.
  assert (Hlen : slen (show_nonneg n) ≤ 9) by (apply (digits_go_length _ n 9); [lia | done]).
  destruct (zeros_facts (9 - String.length (show_nonneg n))) as (Hz1 & Hz2 & Hz3).
  rewrite all_chars_app, str_value_app, slen_app, Hz1, Hz2, Hz3, show_nonneg_digits by lia.
  rewrite show_nonneg_value by lia. unfold slen in *. repeat split; lia.
Qed.

(** ** Cutting a string in two *)

Lemma substring_all s : String.substring 0 (String.length s) s = s.
Proof. induction s as [|c s IH]; [done |]. cbn. by rewrite IH. Qed.

Lemma substring_cut k s :
  (k ≤ String.length s)%nat →
  String.substring 0 k s +:+ String.substring k (String.length s - k) s = s ∧
  String.length (String.substring 0 k s) = k ∧
  String.length (String.substring k (String.length s - k) s) = (String.length s - k)%nat.
Proof.
  revert s. induction k as [|k IH]; intros s Hk.
  - rewrite Nat.sub_0_r, substring_all. by destruct s.
  - destruct s as [|c s]; [cbn in Hk; lia |]. cbn in Hk |- *. destruct (IH s) as (H1 & H2 & H3); [lia |].
    rewrite app_cons_str, H1, H2, H3. done.
Qed.

(** ** Trimming trailing characters *)

Lemma trim_end_matches_app c s1 s2 :
  trim_end_matches c (s1 +:+ s2) =
  match trim_end_matches c s2 with
  | EmptyString => trim_end_matches c s1
  | t => s1 +:+ t
  end.
Proof.
  induction s1 as [|a s1 IH].
  { rewrite app_empty_l. by destruct (trim_end_matches c s2). }
  rewrite app_cons_str. cbn [trim_end_matches]. rewrite IH.
  destruct (trim_end_matches c s2) eqn:E; [done |]. by destruct s1.
Qed.

(** What trailing-zero trimming leaves of a digit string: it denotes the value without its trailing
    factors of ten, and does not end in a zero. *)
Lemma trim_zeros_facts s :
  all_chars is_digit s = true →
  let t := trim_end_matches "0" s in
  all_chars is_digit t = true ∧ slen t ≤ slen s ∧
  str_value s = str_value t * 10 ^ (slen s - slen t) ∧
  (t = ""%string ∨ str_value t mod 10 ≠ 0).
Proof.
  induction s as [|c s IH]; intros Hs.
  { split_and!; [done | done | done | by left]. }
  cbn in Hs. inv_ok. match goal with H : all_chars _ s = true |- _ => specialize (IH H) end.
  cbn zeta in IH. destruct IH as (Ht & Hlen & Hval & Hend). cbn [trim_end_matches].
  pose proof (slen_nonneg s).
  match goal with H : is_digit c = true |- _ => rename H into Hc end.
  assert (0 ≤ char_digit c ≤ 9) by (unfold is_digit in Hc; lia).
  destruct (trim_end_matches "0" s) as [|a t].
  - rewrite slen_empty in *. change (str_value "") with 0 in *.
    destruct (Ascii.eqb c "0") eqn:Ec.
    + apply Ascii.eqb_eq in Ec as ->. rewrite str_value_cons, slen_cons, slen_empty, Hval.
      change (char_digit "0") with 0. change (str_value "") with 0.
      split_and!; [done | lia | lia | by left].
    + apply Ascii.eqb_neq in Ec. rewrite !str_value_cons, !slen_cons, slen_empty, Hval.
      replace (slen s + 1 - (0 + 1)) with (slen s) by lia.
      change (str_value "") with 0. change (10 ^ 0) with 1.
      split_and!; [by cbn; rewrite Hc | lia | lia | right].
      rewrite Z.mod_small by lia. intros Hz. apply Ec.
      rewrite <- (ascii_N_embedding c), <- (ascii_N_embedding "0"). f_equal.
      unfold char_digit in *. cbn. lia.
  - set (u := String a t) in *.
    assert (0 < slen u) by (unfold u; rewrite slen_cons; pose proof (slen_nonneg t); lia).
    rewrite !slen_cons, !str_value_cons.
    split_and!; [by cbn [all_chars]; rewrite Hc | lia | | right].
    + rewrite Hval. replace (slen s + 1 - (slen u + 1)) with (slen s - slen u) by lia.
      replace (slen s) with (slen u + (slen s - slen u)) at 1 by lia.
      rewrite Z.pow_add_r by lia. lia.
    + destruct Hend as [?|Hend]; [done |].
      replace (slen u) with (1 + (slen u - 1)) by lia. rewrite Z.pow_add_r by lia.
      replace (char_digit c * (10 ^ 1 * 10 ^ (slen u - 1)) + str_value u)
        with (str_value u + char_digit c * 10 ^ (slen u - 1) * 10) by lia.
      by rewrite Z_mod_plus_full.
Qed.

Lemma trim_end_matches_last c a : a ≠ c → trim_end_matches c (String a "") = String a "".
Proof. intros Ha. cbn. by rewrite (proj2 (Ascii.eqb_neq a c)). Qed.

(** Digits hold no point, so trimming points leaves them as they are. *)
Lemma trim_point_digits s : all_chars is_digit s = true → trim_end_matches "." s = s.
Proof.
  induction s as [|c s IH]; intros Hs; [done |]. cbn in Hs. inv_ok. cbn. rewrite IH by done.
  destruct s; [| done]. destruct (Ascii.eqb c ".") eqn:E; [| done].
  apply Ascii.eqb_eq in E as ->. done.
Qed.
