(* ===== verification/Decimals.v ===== *)
(** * The decimal library

    [rust_decimal::Decimal] is a dependency of the program, not part of it: a 96-bit coefficient,
    a scale from 0 to 28 and a sign. It enters the development as the class [DecimalOps] of the
    operations the engine calls and the class [DecimalLaws] of the documented behaviour the engine
    relies on. [RefDecimal] is a concrete instance, used to run the definitions on examples and to
    show that the laws can hold together. *)

From stdpp Require Import base tactics gmap list strings.
From Stdlib Require Import ZArith Lia Ascii String.
From S2P Require Import Prelude Text.

(** ** The operations *)

Class DecimalOps := {
  Decimal : Type;
  mantissa : Decimal → Z;             (* [Decimal::mantissa], an i128 *)
  scale : Decimal → Z;                (* [Decimal::scale], a u32 *)
  normalize : Decimal → Decimal;      (* [Decimal::normalize] *)
  dec_cmp : Decimal → Decimal → comparison;   (* [Ord::cmp] *)
  dec_zero : Decimal;                 (* [Decimal::ZERO] *)
  dec_one : Decimal;                  (* [Decimal::ONE] *)
  dec_abs : Decimal → Decimal;        (* [Decimal::abs] *)
  from_str_exact : string → option Decimal;   (* [Decimal::from_str_exact] *)
  from_i128_with_scale : Z → Z → Decimal;     (* [Decimal::from_i128_with_scale] *)
  dec_to_string : Decimal → string;   (* [Display] *)
  dec_add : Decimal → Decimal → option Decimal;   (* [+]: [None] is the overflow panic *)
  dec_sub : Decimal → Decimal → option Decimal;   (* [-] *)
  dec_mul : Decimal → Decimal → option Decimal;   (* [*] *)
  dec_half : Decimal → option Decimal;            (* [/ Decimal::TWO] *)
  err_try_from_bigint : string;       (* message of a failed [i128::try_from(BigInt)] *)
}.

Section comparisons.
Context {D : DecimalOps}.

(** [PartialEq], [PartialOrd] of [Decimal]. *)
Definition dec_eqb (a b : Decimal) : bool := match dec_cmp a b with Eq => true | _ => false end.
Definition dec_ltb (a b : Decimal) : bool := match dec_cmp a b with Lt => true | _ => false end.
Definition dec_leb (a b : Decimal) : bool := match dec_cmp a b with Gt => false | _ => true end.

(** [Decimal::is_zero]. *)
Definition dec_is_zero (a : Decimal) : bool := mantissa a =? 0.

(** [Ord::min]: the first of two equal values. *)
Definition dec_min (a b : Decimal) : Decimal := if dec_leb a b then a else b.

Definition opt_dec_eqb (a b : option Decimal) : bool :=
  match a, b with
  | Some x, Some y => dec_eqb x y
  | None, None => true
  | _, _ => false
  end.

(** The number a decimal stands for, in units of [10^-28]: the finest a scale can express, so
    every decimal has an exact integer value. *)
Definition raw (d : Decimal) : Z := mantissa d * 10 ^ (28 - scale d).
End comparisons.

#[global] Arguments raw : simpl never.
#[global] Arguments dec_eqb : simpl never.
#[global] Arguments dec_ltb : simpl never.
#[global] Arguments dec_leb : simpl never.

(** ** The laws *)

Class DecimalLaws (D : DecimalOps) : Prop := {
  scale_range d : 0 ≤ scale d ≤ 28;
  mantissa_range d : Z.abs (mantissa d) < 2 ^ 96;
  dec_cmp_raw a b : dec_cmp a b = Z.compare (raw a) (raw b);
  normalize_raw d : raw (normalize d) = raw d;
  normalize_minimal d : scale (normalize d) = 0 ∨ mantissa (normalize d) mod 10 ≠ 0;
  zero_raw : raw dec_zero = 0;
  one_raw : raw dec_one = 10 ^ 28;
  abs_raw d : raw (dec_abs d) = Z.abs (raw d);
  (** A string of digits, with or without a point, is read without rounding or not at all. *)
  exact_int_sound i d :
    i ≠ ""%string → all_chars is_digit i = true → from_str_exact i = Some d →
    mantissa d = str_value i ∧ scale d = 0;
  exact_frac_sound i f d :
    i ≠ ""%string → f ≠ ""%string → all_chars is_digit i = true → all_chars is_digit f = true →
    from_str_exact (i +:+ String "." f) = Some d →
    mantissa d = str_value (i +:+ f) ∧ scale d = slen f;
  (** It is read whenever 96 bits and 28 places are enough. *)
  exact_int_total i :
    i ≠ ""%string → all_chars is_digit i = true → str_value i < 2 ^ 96 →
    is_Some (from_str_exact i);
  exact_frac_total i f :
    i ≠ ""%string → f ≠ ""%string → all_chars is_digit i = true → all_chars is_digit f = true →
    slen f ≤ 28 → str_value (i +:+ f) < 2 ^ 96 →
    is_Some (from_str_exact (i +:+ String "." f));
  from_i128_exact m s :
    Z.abs m < 2 ^ 96 → 0 ≤ s ≤ 28 →
    mantissa (from_i128_with_scale m s) = m ∧ scale (from_i128_with_scale m s) = s;
  (** A sum or difference is exact when it fits 96 bits at the larger of the two scales. *)
  dec_add_exact a b :
    Z.abs ((raw a + raw b) / 10 ^ (28 - Z.max (scale a) (scale b))) < 2 ^ 96 →
    ∃ c, dec_add a b = Some c ∧ raw c = raw a + raw b;
  dec_sub_exact a b :
    Z.abs ((raw a - raw b) / 10 ^ (28 - Z.max (scale a) (scale b))) < 2 ^ 96 →
    ∃ c, dec_sub a b = Some c ∧ raw c = raw a - raw b;
}.

Section laws.
Context {D : DecimalOps} {L : DecimalLaws D}.

Lemma dec_eqb_raw a b : dec_eqb a b = (raw a =? raw b).
Proof.
  unfold dec_eqb. rewrite dec_cmp_raw. destruct (Z.compare_spec (raw a) (raw b)); lia.
Qed.

Lemma dec_ltb_raw a b : dec_ltb a b = (raw a <? raw b).
Proof.
  unfold dec_ltb. rewrite dec_cmp_raw. destruct (Z.compare_spec (raw a) (raw b)); lia.
Qed.

Lemma dec_leb_raw a b : dec_leb a b = (raw a <=? raw b).
Proof.
  unfold dec_leb. rewrite dec_cmp_raw. destruct (Z.compare_spec (raw a) (raw b)); lia.
Qed.

Lemma dec_min_raw a b : raw (dec_min a b) = Z.min (raw a) (raw b).
Proof. unfold dec_min. rewrite dec_leb_raw. destruct (Z.leb_spec (raw a) (raw b)); lia. Qed.

Lemma dec_is_zero_raw a : dec_is_zero a = (raw a =? 0).
Proof.
  unfold dec_is_zero, raw. pose proof (scale_range a).
  assert (0 < 10 ^ (28 - scale a)) by (apply Z.pow_pos_nonneg; lia).
  destruct (Z.eqb_spec (mantissa a) 0) as [->|], (Z.eqb_spec (mantissa a * 10 ^ (28 - scale a)) 0); nia.
Qed.

Lemma raw_nonneg d : 0 ≤ raw d ↔ 0 ≤ mantissa d.
Proof.
  unfold raw. pose proof (scale_range d).
  assert (0 < 10 ^ (28 - scale d)) by (apply Z.pow_pos_nonneg; lia). nia.
Qed.

Lemma dec_eqb_refl a : dec_eqb a a = true.
Proof. rewrite dec_eqb_raw. lia. Qed.

Lemma opt_dec_eqb_refl a : opt_dec_eqb a a = true.
Proof. destruct a; [apply dec_eqb_refl | done]. Qed.
End laws.

Create Rewrite HintDb decimal.

(** Comparisons of decimals as comparisons of the numbers they stand for. *)
#[export] Hint Rewrite @dec_eqb_raw @dec_ltb_raw @dec_leb_raw @dec_min_raw @dec_is_zero_raw
  @zero_raw @one_raw @abs_raw using typeclasses eauto : decimal.

Ltac dec_simpl :=
  autorewrite with decimal in *; inv_ok;
  repeat match goal with
    | H : (_ =? _)%Z = true |- _ => apply Z.eqb_eq in H
    | H : (_ =? _)%Z = false |- _ => apply Z.eqb_neq in H
    end.
