(* ===== verification/Amount.v ===== *)
(** * Exact amounts ([engine/amount.rs])

    Prices, quantities and balances are decimals in the program and are computed on as integers of
    [10^-9] units, the precision of the [NUMERIC(30,9)] columns. Every function either returns the
    exact value or fails: nothing is rounded except the fee, which is rounded down on purpose. *)

From stdpp Require Import base tactics gmap list strings.
From Stdlib Require Import ZArith Lia Znumtheory Ascii String.
From S2P Require Import Prelude Text Decimals.

Section amount.
Context {D : DecimalOps}.

Definition SCALE : Z := 9.
Definition FACTOR : Z := 1000000000.
Definition MAX_UNITS : Z := 999999999999999999999999999999.

(** [amount::units]: the decimal as an integer of [10^-9] units. *)
Definition units (value : Decimal) : result Z :=
  let value := normalize value in
  _ ← ensure (dec_leb dec_zero value && (scale value <=? SCALE))
        "Invalid settlement precision or negative balance";
  amount ← ok_or (checked_mul (mantissa value) (10 ^ (SCALE - scale value)))
        "Settlement value exceeds integer range";
  _ ← ensure (amount <=? MAX_UNITS) "Settlement value exceeds NUMERIC(30,9)";
  Ok amount.

(** [amount::decimal]: print the units with nine places, drop what is not precision, read back. *)
Definition decimal (amount : Z) : result Decimal :=
  let text := show_int (Z.quot amount FACTOR) +:+ String "." (show_pad9 (Z.rem amount FACTOR)) in
  ok_or (from_str_exact (trim_end_matches "." (trim_end_matches "0" text)))
    "Settlement balance is not exactly representable as Decimal".

(** [i128::try_from(BigInt)]. *)
Definition i128_try_from (z : Z) : result Z :=
  if in_i128 z then Ok z else Err err_try_from_bigint.

(** [amount::quote]: price times quantity, exact or an error. *)
Definition quote (price amount : Decimal) : result Decimal :=
  p ← units price;
  a ← units amount;
  let product := p * a in
  _ ← ensure (Z.rem product FACTOR =? 0) "Quote value requires rounding";
  value ← with_context (i128_try_from (Z.quot product FACTOR)) "Quote value exceeds settlement range";
  _ ← ensure (value <=? MAX_UNITS) "Quote exceeds NUMERIC(30,9)";
  decimal value.

Definition add (left right : Decimal) : result Decimal :=
  l ← units left;
  r ← units right;
  value ← ok_or (checked_add l r) "Amount addition overflow";
  _ ← ensure (value <=? MAX_UNITS) "Amount exceeds NUMERIC(30,9)";
  decimal value.

Definition subtract (left right : Decimal) : result Decimal :=
  l ← units left;
  r ← units right;
  let value := l - r in
  _ ← ensure (0 <=? value) "Amount would become negative";
  decimal value.

(** The loop [while a != 0 { remainder = b % a; b = a; a = remainder }], returning the final [b].
    The product [a * b] at least halves in every round, so 64 rounds are enough for two numbers
    of at most [10^9]. *)
Fixpoint euclid (fuel : nat) (a b : Z) : option Z :=
  if a =? 0 then Some b else
  match fuel with
  | O => None
  | S fuel => euclid fuel (Z.rem b a) a
  end.

(** [amount::quantity_for_budget]. [None] of the loop never happens (see [euclid_gcd]). *)
Definition quantity_for_budget (budget price remaining : Decimal) : result Decimal :=
  price ← units price;
  _ ← ensure (0 <? price) "Invalid maker price";
  b ← units budget;
  r ← units remaining;
  let maximum := Z.min (Z.quot (b * FACTOR) price) r in
  maximum ← i128_try_from maximum;
  g ← expect (euclid 64 (Z.rem price FACTOR) FACTOR);
  let step := Z.quot FACTOR g in
  decimal (Z.quot maximum step * step).

(** [amount::fee]: rounded down, never more than the amount received. *)
Definition fee (received rate : Decimal) : result Decimal :=
  _ ← ensure (dec_ltb rate dec_one && (scale (normalize rate) <=? 6)) "Invalid fee rate";
  r ← units received;
  t ← units rate;
  value ← i128_try_from (Z.quot (r * t) FACTOR);
  decimal value.

(** ** What a decimal amounts to *)

(** The decimal stands for [a] units, and [a] is within the column's range. *)
Definition in_units (d : Decimal) (a : Z) : Prop :=
  raw d = a * 10 ^ 19 ∧ 0 ≤ a ≤ MAX_UNITS.

(** Some way of writing [a] units as a coefficient over a power of ten fits 96 bits. *)
Definition representable (a : Z) : Prop :=
  ∃ c k, 0 ≤ k ≤ 9 ∧ a = c * 10 ^ (9 - k) ∧ c < 2 ^ 96.
End amount.

Section facts.
Context {D : DecimalOps} {L : DecimalLaws D}.

Lemma in_units_inj d a b : in_units d a → in_units d b → a = b.
Proof. unfold in_units. intros [Ha _] [Hb _]. lia. Qed.

Lemma in_units_range d a : in_units d a → 0 ≤ a ≤ MAX_UNITS.
Proof. by intros [_ ?]. Qed.

Lemma in_units_raw d e a : raw d = raw e → in_units d a → in_units e a.
Proof. unfold in_units. intros ->. done. Qed.

Lemma in_units_zero d : raw d = 0 → in_units d 0.
Proof. intros Hd. split; [by rewrite Hd | done]. Qed.

Lemma MAX_UNITS_lt_pow : MAX_UNITS = 10 ^ 30 - 1.
Proof. done. Qed.

(** The shape of a normalized decimal of at most nine places. *)
Lemma normalized_units d a :
  scale (normalize d) ≤ 9 → a = mantissa (normalize d) * 10 ^ (9 - scale (normalize d)) →
  raw d = a * 10 ^ 19.
Proof.
  intros Hs ->. rewrite <- normalize_raw. unfold raw.
  pose proof (scale_range (normalize d)).
  replace (28 - scale (normalize d)) with (9 - scale (normalize d) + 19) by lia.
  rewrite Z.pow_add_r by lia. lia.
Qed.

(** A decimal with a whole number of [10^-9] units has at most nine places once normalized. *)
Lemma raw_units_scale d a : raw d = a * 10 ^ 19 → scale (normalize d) ≤ 9.
Proof.
  rewrite <- normalize_raw. unfold raw. intros Hraw. pose proof (scale_range (normalize d)).
  destruct (normalize_minimal d) as [|Hmod]; [lia |].
  destruct (Z.le_gt_cases (scale (normalize d)) 9) as [|Hgt]; [done | exfalso; apply Hmod].
  set (s := scale (normalize d)) in *. set (m := mantissa (normalize d)) in *.
  replace 19 with (28 - s + (1 + (s - 10))) in Hraw by lia.
  rewrite !Z.pow_add_r in Hraw by lia. change (10 ^ 1) with 10 in Hraw.
  assert (0 < 10 ^ (28 - s)) by (apply Z.pow_pos_nonneg; lia).
  assert (m = a * 10 ^ (s - 10) * 10) as -> by nia. apply Z_mod_mult.
Qed.

(** The unit count of an accepted decimal, and exactly which decimals are accepted. *)
Lemma units_ok d a : units d = Ok a ↔ in_units d a.
Proof.
  pose proof (scale_range (normalize d)). pose proof (mantissa_range (normalize d)).
  split.
  - intros Hu. unfold units in Hu. inv_ok. rewrite dec_leb_raw, zero_raw in *. inv_ok.
    match goal with H : checked_mul _ _ = Some _ |- _ => apply checked_mul_some in H as [-> ?] end.
    unfold in_units, SCALE in *. split; [by apply normalized_units |]. split; [| lia].
    match goal with H : 0 ≤ raw (normalize d) |- _ => rewrite raw_nonneg in H end.
    pose proof (Z.pow_pos_nonneg 10 (9 - scale (normalize d))). nia.
  - intros [Hraw Ha]. pose proof (raw_units_scale d a Hraw) as Hs.
    unfold units. rewrite dec_leb_raw, zero_raw, normalize_raw. unfold SCALE.
    rewrite (proj2 (Z.leb_le 0 (raw d))) by lia. rewrite (proj2 (Z.leb_le _ 9)) by done.
    assert (Heq : mantissa (normalize d) * 10 ^ (9 - scale (normalize d)) = a).
    { pose proof (normalized_units d _ Hs eq_refl) as Hr. rewrite Hraw in Hr. lia. }
    unfold checked_mul. rewrite Heq. cbn [ensure ok_or mbind result_bind andb].
    rewrite in_i128_true by (unfold I128_MIN, I128_MAX, MAX_UNITS in *; lia). cbn.
    by rewrite (proj2 (Z.leb_le a MAX_UNITS)) by lia.
Qed.

(** Every accepted decimal witnesses that its unit count can be written in 96 bits. *)
Lemma in_units_representable d a : in_units d a → representable a.
Proof.
  intros [Hraw Ha]. pose proof (raw_units_scale d a Hraw) as Hs.
  pose proof (scale_range (normalize d)). pose proof (mantissa_range (normalize d)).
  exists (mantissa (normalize d)), (scale (normalize d)).
  pose proof (normalized_units d _ Hs eq_refl). split_and!; lia.
Qed.

(** ** Printing units and reading them back *)

(** What [decimal] passes to [from_str_exact]: the integer part, and the fraction without its
    trailing zeros if anything is left of it. *)
Lemma decimal_text i f :
  all_chars is_digit i = true → all_chars is_digit f = true →
  trim_end_matches "." (trim_end_matches "0" (i +:+ String "." f)) =
  match trim_end_matches "0" f with
  | EmptyString => i
  | t => i +:+ String "." t
  end.
Proof.
  intros Hi Hf. destruct (trim_zeros_facts f Hf) as (Ht & _).
  rewrite trim_end_matches_app. cbn [trim_end_matches].
  destruct (trim_end_matches "0" f) as [|c t] eqn:E.
  - change (Ascii.eqb "." "0") with false. cbn match.
    rewrite trim_end_matches_app. cbn. by apply trim_point_digits.
  - pose proof (trim_point_digits (String c t) Ht) as Hp. set (u := String c t) in *.
    rewrite trim_end_matches_app. change (trim_end_matches "." (String "." u)) with
      (match trim_end_matches "." u with
       | EmptyString => if Ascii.eqb "." "." then EmptyString else String "." EmptyString
       | t => String "." t
       end). by rewrite Hp.
Qed.

Lemma decimal_parts a :
  0 ≤ a →
  let i := show_int (Z.quot a FACTOR) in
  let f := show_pad9 (Z.rem a FACTOR) in
  i ≠ ""%string ∧ all_chars is_digit i = true ∧ all_chars is_digit f = true ∧
  slen f = 9 ∧ a = str_value i * 10 ^ 9 + str_value f.
Proof.
  intros Ha. unfold FACTOR. rewrite Z.quot_div_nonneg, Z.rem_mod_nonneg by lia. cbn zeta.
  assert (0 ≤ a / 1000000000) by (apply Z.div_pos; lia).
  pose proof (Z.mod_pos_bound a 1000000000).
  destruct (show_pad9_facts (a mod 1000000000)) as (Hf1 & Hf2 & Hf3); [lia |].
  unfold show_int. rewrite (proj2 (Z.ltb_ge (a / 1000000000) 0)) by done.
  split_and!; [apply show_nonneg_nonempty | by apply show_nonneg_digits | done | done |].
  rewrite Hf2, show_nonneg_value by done. pose proof (Z.div_mod a 1000000000). lia.
Qed.

(** If [a] units can be written in 96 bits at all, they can be without trailing zeros. *)
Lemma stripped_fits a c k m j :
  0 ≤ k ≤ 9 → a = c * 10 ^ (9 - k) → c < 2 ^ 96 →
  0 ≤ j ≤ 9 → a = m * 10 ^ (9 - j) → (j = 0 ∨ m mod 10 ≠ 0) → 0 ≤ m → m < 2 ^ 96.
Proof.
  intros Hk Hac Hc Hj Ham Hmin Hm. destruct (Z.le_gt_cases j k) as [Hle|Hgt].
  - assert (m * 10 ^ (k - j) = c).
    { replace (9 - j) with (k - j + (9 - k)) in Ham by lia. rewrite Z.pow_add_r in Ham by lia.
      assert (0 < 10 ^ (9 - k)) by (apply Z.pow_pos_nonneg; lia). nia. }
    assert (0 < 10 ^ (k - j)) by (apply Z.pow_pos_nonneg; lia). nia.
  - exfalso. destruct Hmin as [|Hmod]; [lia | apply Hmod].
    replace (9 - k) with (9 - j + (1 + (j - k - 1))) in Hac by lia.
    rewrite !Z.pow_add_r in Hac by lia. change (10 ^ 1) with 10 in Hac.
    assert (0 < 10 ^ (9 - j)) by (apply Z.pow_pos_nonneg; lia).
    assert (m = c * 10 ^ (j - k - 1) * 10) as -> by nia. apply Z_mod_mult.
Qed.

(** A number with nine places, without its trailing zeros: what it is read back as, and that it is
    read back whenever 96 bits are enough. *)
Section places.
Context (i f : string) (a : Z).
Hypotheses (Hi0 : i ≠ ""%string) (Hi : all_chars is_digit i = true) (Hf : all_chars is_digit f = true).
Hypotheses (Hlen : slen f = 9) (Hval : a = str_value i * 10 ^ 9 + str_value f).

Let text : string := trim_end_matches "." (trim_end_matches "0" (i +:+ String "." f)).

Lemma places_sound d : from_str_exact text = Some d → raw d = a * 10 ^ 19.
Proof.
  unfold text. intros Hd. rewrite decimal_text in Hd by done.
  destruct (trim_zeros_facts _ Hf) as (Ht & Htlen & Htval & Hend). cbn zeta in *. unfold raw.
  destruct (trim_end_matches "0" f) as [|c t] eqn:E.
  - apply exact_int_sound in Hd as [-> ->]; [| done | done].
    change (str_value "") with 0 in *. lia.
  - set (u := String c t) in *. apply exact_frac_sound in Hd as [-> ->]; [| done..].
    rewrite str_value_app.
    assert (0 ≤ slen u) by apply slen_nonneg. rewrite Hlen in *. rewrite Hval, Htval.
    replace (28 - slen u) with (9 - slen u + 19) by lia. rewrite Z.pow_add_r by lia.
    rewrite (Z.mul_add_distr_r (_ * 10 ^ slen u)).
    replace (10 ^ 9) with (10 ^ slen u * 10 ^ (9 - slen u)).
    { lia. }
    rewrite <- Z.pow_add_r by lia. f_equal. lia.
Qed.

Lemma places_total : representable a → is_Some (from_str_exact text).
Proof.
  intros (c & k & Hk & Hac & Hc). unfold text. rewrite decimal_text by done.
  destruct (trim_zeros_facts _ Hf) as (Ht & Htlen & Htval & Hend). cbn zeta in *.
  pose proof (str_value_nonneg _ Hi). pose proof (str_value_nonneg _ Ht).
  destruct (trim_end_matches "0" f) as [|x t] eqn:E.
  - apply exact_int_total; [done | done |]. change (str_value "") with 0 in *.
    apply (stripped_fits a c k _ 0); [lia | done | done | lia | | by left | lia].
    change (10 ^ (9 - 0)) with (10 ^ 9). lia.
  - set (u := String x t) in *. destruct Hend as [?|Hend]; [done |].
    assert (0 < slen u) by (unfold u; rewrite slen_cons; pose proof (slen_nonneg t); lia).
    assert (0 < 10 ^ slen u) by (apply Z.pow_pos_nonneg; lia).
    apply exact_frac_total; [done..| lia |]. rewrite str_value_app.
    apply (stripped_fits a c k _ (slen u)); [lia | done | done | lia | | right | nia].
    + rewrite Hval, Htval, Hlen, Z.mul_add_distr_r, <- Z.mul_assoc, <- Z.pow_add_r by lia.
      by replace (slen u + (9 - slen u)) with 9 by lia.
    + replace (slen u) with (slen u - 1 + 1) by lia. rewrite Z.pow_add_r by lia.
      change (10 ^ 1) with 10. rewrite Z.mul_assoc, Z.add_comm, Z_mod_plus_full. done.
Qed.
End places.

Lemma decimal_sound a d : 0 ≤ a ≤ MAX_UNITS → decimal a = Ok d → in_units d a.
Proof.
  intros Ha Hd. unfold decimal in Hd. apply ok_or_ok in Hd.
  destruct (decimal_parts a) as (Hi0 & Hi & Hf & Hlen & Hval); [lia |]. split; [| done].
  exact (places_sound _ _ a Hi0 Hi Hf Hlen Hval d Hd).
Qed.

Lemma decimal_total a : 0 ≤ a ≤ MAX_UNITS → representable a → ∃ d, decimal a = Ok d.
Proof.
  intros Ha Hrep. unfold decimal.
  destruct (decimal_parts a) as (Hi0 & Hi & Hf & Hlen & Hval); [lia |].
  destruct (places_total _ _ a Hi0 Hi Hf Hlen Hval Hrep) as [d Hd]. exists d. by rewrite Hd.
Qed.

(** [decimal] succeeds exactly on the representable unit counts. *)
Lemma decimal_ok a : 0 ≤ a ≤ MAX_UNITS → (∃ d, decimal a = Ok d) ↔ representable a.
Proof.
  intros Ha. split; [| by apply decimal_total].
  intros [d Hd]. eapply in_units_representable, decimal_sound; done.
Qed.

(** ** Sums and differences *)

Lemma add_ok l r a b d :
  in_units l a → in_units r b → add l r = Ok d → in_units d (a + b).
Proof.
  intros Ha Hb Hd. unfold add in Hd. inv_ok. rewrite !units_ok in *.
  repeat match goal with
    | H1 : in_units ?x ?a, H2 : in_units ?x ?b |- _ =>
        rewrite (in_units_inj x a b H1 H2) in *; clear H1
    end.
  match goal with H : checked_add _ _ = Some _ |- _ => apply checked_add_some in H as [-> ?] end.
  apply decimal_sound; [| done].
  repeat match goal with H : in_units _ _ |- _ => apply in_units_range in H end. lia.
Qed.

Lemma add_total l r a b :
  in_units l a → in_units r b → a + b ≤ MAX_UNITS → representable (a + b) →
  ∃ d, add l r = Ok d.
Proof.
  intros Ha Hb Hmax Hrep. pose proof (in_units_range _ _ Ha). pose proof (in_units_range _ _ Hb).
  unfold add. rewrite (proj2 (units_ok l a) Ha), (proj2 (units_ok r b) Hb).
  cbn. unfold checked_add.
  rewrite in_i128_true by (unfold I128_MIN, I128_MAX, MAX_UNITS in *; lia). cbn.
  rewrite (proj2 (Z.leb_le _ _) Hmax). cbn. apply decimal_total; [lia | done].
Qed.

(** A successful addition had two amounts to add. *)
Lemma add_inv l r d : add l r = Ok d → ∃ a b, in_units l a ∧ in_units r b.
Proof. unfold add. intros Hd. inv_ok. rewrite !units_ok in *. eauto. Qed.

Lemma subtract_ok l r a b d :
  in_units l a → in_units r b → subtract l r = Ok d → in_units d (a - b).
Proof.
  intros Ha Hb Hd. unfold subtract in Hd. inv_ok. rewrite !units_ok in *.
  repeat match goal with
    | H1 : in_units ?x ?a, H2 : in_units ?x ?b |- _ =>
        rewrite (in_units_inj x a b H1 H2) in *; clear H1
    end.
  apply decimal_sound; [| done].
  repeat match goal with H : in_units _ _ |- _ => apply in_units_range in H end. lia.
Qed.

Lemma subtract_inv l r d :
  subtract l r = Ok d → ∃ a b, in_units l a ∧ in_units r b ∧ b ≤ a.
Proof. unfold subtract. intros Hd. inv_ok. rewrite !units_ok in *. eexists _, _. split_and!; [done..|lia]. Qed.

Lemma subtract_total l r a b :
  in_units l a → in_units r b → b ≤ a → representable (a - b) → ∃ d, subtract l r = Ok d.
Proof.
  intros Ha Hb Hle Hrep. pose proof (in_units_range _ _ Ha). pose proof (in_units_range _ _ Hb).
  unfold subtract. rewrite (proj2 (units_ok l a) Ha), (proj2 (units_ok r b) Hb). cbn.
  rewrite (proj2 (Z.leb_le 0 (a - b))) by lia. cbn. apply decimal_total; [lia | done].
Qed.

(** ** Quotes *)

Lemma quote_ok p q d :
  quote p q = Ok d →
  ∃ a b c, in_units p a ∧ in_units q b ∧ in_units d c ∧ a * b = c * FACTOR.
Proof.
  unfold quote, i128_try_from. intros Hd. inv_ok. rewrite !units_ok in *.
  destruct (in_i128 _); inv_ok.
  match goal with Ha : in_units p ?a, Hb : in_units q ?b |- _ =>
    pose proof (in_units_range _ _ Ha); pose proof (in_units_range _ _ Hb);
    rewrite Z.quot_div_nonneg, Z.rem_mod_nonneg in * by (unfold FACTOR; nia);
    exists a, b, (a * b / FACTOR) end.
  split_and!; [done | done | |].
  - apply decimal_sound; [| done]. split; [| done]. apply Z.div_pos; unfold FACTOR; nia.
  - match goal with |- ?x = _ => pose proof (Z.div_mod x FACTOR) end. unfold FACTOR in *. lia.
Qed.

Lemma quote_total p q a b c :
  in_units p a → in_units q b → a * b = c * FACTOR → c ≤ MAX_UNITS → representable c →
  ∃ d, quote p q = Ok d.
Proof.
  intros Ha Hb Hc Hmax Hrep.
  pose proof (in_units_range _ _ Ha). pose proof (in_units_range _ _ Hb).
  unfold quote. rewrite (proj2 (units_ok p a) Ha), (proj2 (units_ok q b) Hb). cbn.
  rewrite Hc, Z.rem_mul, Z.quot_mul by done. cbn. unfold i128_try_from.
  assert (0 ≤ c) by (unfold FACTOR in *; nia).
  rewrite in_i128_true by (unfold I128_MIN, I128_MAX, MAX_UNITS in *; lia). cbn.
  rewrite (proj2 (Z.leb_le _ _) Hmax). cbn. by apply decimal_total.
Qed.

(** ** The quantity a budget buys *)

Lemma euclid_gcd fuel a b :
  0 ≤ a < b → a * b < 2 ^ Z.of_nat fuel → euclid fuel a b = Some (Z.gcd a b).
Proof.
  revert a b. induction fuel as [|fuel IH]; intros a b Hab Hlt.
  - assert (a = 0) as -> by (cbn in Hlt; nia). cbn. by rewrite Z.abs_eq by lia.
  - cbn [euclid]. destruct (Z.eqb_spec a 0) as [->|Ha].
    { by rewrite Z.gcd_0_l, Z.abs_eq by lia. }
    rewrite Z.rem_mod_nonneg by lia. pose proof (Z.mod_pos_bound b a).
    rewrite IH; [by rewrite Z.gcd_mod, Z.gcd_comm by lia | lia |].
    rewrite Nat2Z.inj_succ, Z.pow_succ_r in Hlt by lia.
    pose proof (Z.div_mod b a). assert (1 ≤ b / a) by (apply Z.div_le_lower_bound; lia). nia.
Qed.

(** The smallest quantity whose value at the price is a whole number of units. *)
Lemma step_divides p a :
  0 < p → (FACTOR | p * a) ↔ (FACTOR / Z.gcd (p mod FACTOR) FACTOR | a).
Proof.
  intros Hp. rewrite Z.gcd_mod by done.
  set (g := Z.gcd FACTOR p). assert (0 < g).
  { pose proof (Z.gcd_nonneg FACTOR p). assert (g ≠ 0); [| lia].
    intros Hg. by apply Z.gcd_eq_0_l in Hg. }
  destruct (Z.gcd_divide_l FACTOR p) as [f Hf]. destruct (Z.gcd_divide_r FACTOR p) as [q Hq].
  fold g in Hf, Hq. rewrite Hf at 2. rewrite Z.div_mul by lia.
  assert (Z.gcd f q = 1).
  { apply (Z.mul_reg_r _ _ g); [lia |]. rewrite Z.mul_comm, <- Z.gcd_mul_mono_l_nonneg by lia.
    rewrite (Z.mul_comm g f), (Z.mul_comm g q), <- Hf, <- Hq. fold g. lia. }
  split.
  - intros [k Hk]. apply (Z.gauss f q a); [| done]. exists k.
    apply (Z.mul_reg_r _ _ g); [lia |]. rewrite Hq, Hf in Hk. lia.
  - intros [k ->]. exists (q * k). rewrite Hf at 1. rewrite Hq. lia.
Qed.

(** The unit count that [quantity_for_budget] computes from the unit counts of its arguments. *)
Definition affordable (b p r : Z) : Z :=
  let step := FACTOR / Z.gcd (p mod FACTOR) FACTOR in
  Z.min (b * FACTOR / p) r / step * step.

Lemma step_positive p : 0 < p → 0 < FACTOR / Z.gcd (p mod FACTOR) FACTOR.
Proof.
  intros Hp. set (g := Z.gcd (p mod FACTOR) FACTOR).
  assert (0 < g).
  { pose proof (Z.gcd_nonneg (p mod FACTOR) FACTOR). assert (g ≠ 0); [| lia].
    intros Hg. by apply Z.gcd_eq_0_r in Hg. }
  assert (g ≤ FACTOR) by (apply Z.divide_pos_le; [done | apply Z.gcd_divide_r]).
  apply Z.div_str_pos. lia.
Qed.

(** It is the greatest quantity that does not exceed what is on offer, has an exact value at the
    price, and whose value is within the budget. *)
Lemma affordable_spec b p r :
  0 ≤ b → 0 < p → 0 ≤ r →
  let a := affordable b p r in
  0 ≤ a ≤ r ∧ (FACTOR | p * a) ∧ p * a ≤ b * FACTOR ∧
  ∀ a', 0 ≤ a' ≤ r → (FACTOR | p * a') → p * a' ≤ b * FACTOR → a' ≤ a.
Proof.
  intros Hb Hp Hr a. unfold a, affordable. pose proof (step_positive p Hp) as Hs.
  pose proof (step_divides p) as Hstep. set (s := FACTOR / Z.gcd (p mod FACTOR) FACTOR) in *.
  assert (0 < FACTOR) by done.
  assert (0 ≤ b * FACTOR / p) by (apply Z.div_pos; nia).
  assert (p * (b * FACTOR / p) ≤ b * FACTOR) by (apply Z.mul_div_le; lia).
  set (m := Z.min (b * FACTOR / p) r).
  assert (0 ≤ m ≤ r ∧ p * m ≤ b * FACTOR) as [Hm1 Hm2] by (unfold m; nia).
  assert (0 ≤ m / s) by (apply Z.div_pos; lia).
  assert (s * (m / s) ≤ m) by (apply Z.mul_div_le; lia).
  split_and!; [nia | lia | apply Hstep; [lia |]; by exists (m / s) | nia |].
  intros a' Ha' Hdiv Hle. apply Hstep in Hdiv as [k ->]; [| lia].
  apply Z.mul_le_mono_nonneg_r; [lia |]. apply Z.div_le_lower_bound; [lia |].
  rewrite Z.mul_comm. unfold m. apply Z.min_glb; [| lia]. apply Z.div_le_lower_bound; lia.
Qed.

Lemma quantity_for_budget_run budget price remaining d :
  quantity_for_budget budget price remaining = Ok d →
  ∃ b p r, in_units budget b ∧ in_units price p ∧ in_units remaining r ∧ 0 < p ∧
    in_units d (affordable b p r).
Proof.
  unfold quantity_for_budget, i128_try_from. intros Hd. inv_ok. rewrite !units_ok in *.
  destruct (in_i128 _); inv_ok.
  match goal with
  | Hp : in_units price ?p0, Hb : in_units budget ?b0, Hr : in_units remaining ?r0 |- _ =>
      rename p0 into p; rename b0 into b; rename r0 into r;
      pose proof (in_units_range _ _ Hp); pose proof (in_units_range _ _ Hb);
      pose proof (in_units_range _ _ Hr)
  end.
  exists b, p, r. split_and!; [done..|].
  destruct (affordable_spec b p r) as ([Ha0 Ha1] & _); [lia.. |]. cbn zeta in *.
  assert (0 < FACTOR) by done.
  match goal with H : euclid _ _ _ = Some _ |- _ => rename H into Hg end.
  rewrite Z.rem_mod_nonneg in Hg by lia.
  pose proof (Z.mod_pos_bound p FACTOR eq_refl).
  rewrite euclid_gcd in Hg by (unfold FACTOR in *; cbn; lia). injection Hg as <-.
  pose proof (step_positive p) as Hs.
  assert (Z.quot FACTOR (Z.gcd (p mod FACTOR) FACTOR) = FACTOR / Z.gcd (p mod FACTOR) FACTOR) as Hq.
  { apply Z.quot_div_nonneg; [lia |]. pose proof (Z.gcd_nonneg (p mod FACTOR) FACTOR).
    assert (Z.gcd (p mod FACTOR) FACTOR ≠ 0); [| lia]. intros Hg. by apply Z.gcd_eq_0_r in Hg. }
  rewrite Hq, (Z.quot_div_nonneg (b * FACTOR) p) in * by nia.
  rewrite Z.quot_div_nonneg in * by (first [lia | apply Z.min_glb; [apply Z.div_pos; nia | lia]]).
  apply decimal_sound; [unfold affordable in *; lia | done].
Qed.

(** ** Fees *)

Lemma fee_ok received rate d :
  fee received rate = Ok d →
  ∃ r t, in_units received r ∧ in_units rate t ∧ in_units d (r * t / FACTOR) ∧
    t < FACTOR ∧ r * t / FACTOR ≤ r.
Proof.
  unfold fee, i128_try_from. intros Hd. inv_ok. rewrite !units_ok in *.
  destruct (in_i128 _); inv_ok.
  match goal with Hr : in_units received ?r0, Ht : in_units rate ?t0 |- _ =>
    rename r0 into r; rename t0 into t; pose proof (in_units_range _ _ Hr);
    pose proof (in_units_range _ _ Ht) end.
  rewrite dec_ltb_raw, one_raw in *. inv_ok.
  assert (t < FACTOR) by (unfold in_units, FACTOR in *; lia).
  rewrite Z.quot_div_nonneg in * by (unfold FACTOR; nia).
  assert (0 ≤ r * t / FACTOR) by (apply Z.div_pos; unfold FACTOR; nia).
  assert (r * t / FACTOR ≤ r).
  { apply Z.div_le_upper_bound; [done |]. nia. }
  exists r, t. split_and!; [done | done | apply decimal_sound; [lia | done] | done | done].
Qed.

(** ** No amount function panics *)

Lemma units_no_panic d : no_panic (units d).
Proof. unfold units. solve_no_panic. Qed.
Lemma decimal_no_panic a : no_panic (decimal a).
Proof. unfold decimal. solve_no_panic. Qed.
Lemma i128_try_from_no_panic a : no_panic (i128_try_from a).
Proof. unfold i128_try_from. by destruct in_i128. Qed.
End facts.

#[export] Hint Resolve units_no_panic decimal_no_panic i128_try_from_no_panic : no_panic.

Section no_panic_facts.
Context {D : DecimalOps} {L : DecimalLaws D}.

Lemma quote_no_panic p q : no_panic (quote p q).
Proof. unfold quote. solve_no_panic. Qed.
Lemma add_no_panic l r : no_panic (add l r).
Proof. unfold add. solve_no_panic. Qed.
Lemma subtract_no_panic l r : no_panic (subtract l r).
Proof. unfold subtract. solve_no_panic. Qed.
Lemma fee_no_panic r t : no_panic (fee r t).
Proof. unfold fee. solve_no_panic. Qed.

Lemma quantity_for_budget_no_panic b p r : no_panic (quantity_for_budget b p r).
Proof.
  unfold quantity_for_budget. apply no_panic_bind; [eauto with no_panic |].
  intros price Hp%units_ok. pose proof (in_units_range _ _ Hp). solve_no_panic.
  apply no_panic_expect. rewrite Z.rem_mod_nonneg by (unfold FACTOR; lia).
  pose proof (Z.mod_pos_bound price FACTOR eq_refl).
  rewrite euclid_gcd; [done | done |]. unfold FACTOR in *. cbn. lia.
Qed.
End no_panic_facts.

#[export] Hint Resolve quote_no_panic add_no_panic subtract_no_panic fee_no_panic
  quantity_for_budget_no_panic : no_panic.
