(* ===== verification/RefDecimal.v ===== *)
(** * A reference decimal

    A concrete instance of the decimal interface: a signed coefficient below [2^96] and a scale up
    to 28. It is what the examples and witnesses of the development compute with, and it shows that
    the laws of [Decimals] hold together. It stands for no file of the program. *)

From stdpp Require Import base tactics gmap list strings.
From Stdlib Require Import ZArith Lia Ascii String.
From S2P Require Import Prelude Text Decimals.

Definition fits (m s : Z) : bool := (Z.abs m <? 2 ^ 96) && (0 <=? s) && (s <=? 28).

Definition rdec : Type := { p : Z * Z | fits p.1 p.2 = true }.

Definition rd_mantissa (d : rdec) : Z := (proj1_sig d).1.
Definition rd_scale (d : rdec) : Z := (proj1_sig d).2.

Definition rd_make (m s : Z) : option rdec :=
  match bool_dec (fits m s) true with
  | left H => Some (exist _ (m, s) H)
  | right _ => None
  end.

Definition rd_zero : rdec := exist _ (0, 0) eq_refl.
Definition rd_one : rdec := exist _ (1, 0) eq_refl.

Definition rd_make_or (d : rdec) (p : Z * Z) : rdec := default d (rd_make p.1 p.2).

Fixpoint strip_tens (fuel : nat) (m s : Z) : Z * Z :=
  match fuel with
  | O => (m, s)
  | S fuel => if (0 <? s) && (m mod 10 =? 0) then strip_tens fuel (m / 10) (s - 1) else (m, s)
  end.

Definition rd_normalize (d : rdec) : rdec :=
  rd_make_or d (strip_tens 28 (rd_mantissa d) (rd_scale d)).

Definition rd_raw (d : rdec) : Z := rd_mantissa d * 10 ^ (28 - rd_scale d).

Definition rd_abs (d : rdec) : rdec := rd_make_or d (Z.abs (rd_mantissa d), rd_scale d).

Fixpoint split_point (s : string) : string * option string :=
  match s with
  | EmptyString => (EmptyString, None)
  | String c s' =>
      if Ascii.eqb c "." then (EmptyString, Some s')
      else let '(i, f) := split_point s' in (String c i, f)
  end.

Definition rd_parse_digits (s : string) : option rdec :=
  let '(i, f) := split_point s in
  if is_empty i || negb (all_chars is_digit i) then None else
  match f with
  | None => rd_make (str_value i) 0
  | Some f =>
      if is_empty f || negb (all_chars is_digit f) then None
      else rd_make (str_value (i +:+ f)) (slen f)
  end.

(** A sign may come first. *)
Definition rd_parse (s : string) : option rdec :=
  match s with
  | String "-" s' => d ← rd_parse_digits s'; rd_make (- rd_mantissa d) (rd_scale d)
  | String "+" s' => rd_parse_digits s'
  | _ => rd_parse_digits s
  end.

Definition rd_print (d : rdec) : string :=
  let p := 10 ^ rd_scale d in
  let a := Z.abs (rd_mantissa d) in
  let digits := show_nonneg (a mod p) in
  (if rd_mantissa d <? 0 then "-" else "") +:+ show_nonneg (a / p) +:+
  (if rd_scale d =? 0 then ""
   else String "." (zeros (Z.to_nat (rd_scale d - slen digits)) +:+ digits)).

Definition rd_combine (f : Z → Z → Z) (a b : rdec) : option rdec :=
  let s := Z.max (rd_scale a) (rd_scale b) in
  rd_make (f (rd_mantissa a * 10 ^ (s - rd_scale a)) (rd_mantissa b * 10 ^ (s - rd_scale b))) s.

#[local] Instance ref_decimal : DecimalOps := {|
  Decimal := rdec;
  mantissa := rd_mantissa;
  scale := rd_scale;
  normalize := rd_normalize;
  dec_cmp a b := Z.compare (rd_raw a) (rd_raw b);
  dec_zero := rd_zero;
  dec_one := rd_one;
  dec_abs := rd_abs;
  from_str_exact := rd_parse;
  from_i128_with_scale m s := rd_make_or rd_zero (m, s);
  dec_to_string := rd_print;
  dec_add := rd_combine Z.add;
  dec_sub := rd_combine Z.sub;
  dec_mul a b := rd_make (rd_mantissa a * rd_mantissa b) (rd_scale a + rd_scale b);
  dec_half a := rd_make (rd_mantissa a * 5) (rd_scale a + 1);
  err_try_from_bigint := "out of range conversion regarding big integer attempted";
|}.

(** A decimal literal, for examples. *)
Definition rd_literal (s : string) : rdec := default rd_zero (rd_parse s).

Lemma fits_spec m s : fits m s = true ↔ Z.abs m < 2 ^ 96 ∧ 0 ≤ s ≤ 28.
Proof. unfold fits. rewrite !andb_true_iff, Z.ltb_lt, !Z.leb_le. tauto. Qed.

Lemma rd_bounds (d : rdec) : Z.abs (rd_mantissa d) < 2 ^ 96 ∧ 0 ≤ rd_scale d ≤ 28.
Proof. apply fits_spec. exact (proj2_sig d). Qed.

Lemma rd_make_some m s d : rd_make m s = Some d → rd_mantissa d = m ∧ rd_scale d = s.
Proof. unfold rd_make. destruct bool_dec; [| done]. intros [= <-]. done. Qed.

Lemma rd_make_fits m s :
  fits m s = true → ∃ d, rd_make m s = Some d ∧ rd_mantissa d = m ∧ rd_scale d = s.
Proof. intros H. unfold rd_make. destruct bool_dec; [eexists; done | congruence]. Qed.

Lemma strip_tens_facts fuel m s :
  0 ≤ s ≤ Z.of_nat fuel → s ≤ 28 →
  let '(m', s') := strip_tens fuel m s in
  0 ≤ s' ≤ s ∧ Z.abs m' ≤ Z.abs m ∧ m' * 10 ^ (28 - s') = m * 10 ^ (28 - s) ∧
  (s' = 0 ∨ m' mod 10 ≠ 0).
Proof.
  revert m s. induction fuel as [|fuel IH]; intros m s Hs H28; cbn [strip_tens].
  - assert (s = 0) by lia. subst. split_and!; lia.
  - destruct ((0 <? s) && (m mod 10 =? 0)) eqn:E.
    + inv_ok. specialize (IH (m / 10) (s - 1)). destruct strip_tens as [m' s'].
      destruct IH as (? & ? & Heq & ?); [lia | lia |].
      pose proof (Z.div_mod m 10). split_and!; [lia | lia | lia | | done].
      rewrite Heq. replace (28 - (s - 1)) with (28 - s + 1) by lia.
      rewrite Z.pow_add_r by lia. change (10 ^ 1) with 10. nia.
    + split_and!; [lia | lia | lia | done |].
      apply andb_false_iff in E as [E|E]; inv_ok; [left; lia | by right].
Qed.

Lemma rd_normalize_facts d :
  rd_raw (rd_normalize d) = rd_raw d ∧
  (rd_scale (rd_normalize d) = 0 ∨ rd_mantissa (rd_normalize d) mod 10 ≠ 0).
Proof.
  destruct (rd_bounds d) as [Hm Hs].
  pose proof (strip_tens_facts 28 (rd_mantissa d) (rd_scale d)) as H.
  unfold rd_normalize, rd_make_or. destruct strip_tens as [m' s']. cbn in H |- *.
  destruct H as (? & ? & ? & ?); [lia | lia |].
  destruct (rd_make_fits m' s') as (d' & -> & <- & <-); [apply fits_spec; lia |]. done.
Qed.

Lemma split_point_digits i rest :
  all_chars is_digit i = true →
  split_point (i +:+ rest) = (i +:+ (split_point rest).1, (split_point rest).2).
Proof.
  induction i as [|c i IH]; intros Hi.
  - rewrite !app_empty_l. by destruct (split_point rest).
  - cbn in Hi. inv_ok. rewrite !app_cons_str. cbn. rewrite IH by done.
    destruct (Ascii.eqb c ".") eqn:E; [| done]. apply Ascii.eqb_eq in E as ->. done.
Qed.

(** Digits have no sign in front. *)
Lemma rd_parse_unsigned i rest :
  i ≠ ""%string → all_chars is_digit i = true → rd_parse (i +:+ rest) = rd_parse_digits (i +:+ rest).
Proof.
  destruct i as [|c i]; [done |]. intros _ Hi. cbn in Hi. inv_ok. rewrite app_cons_str.
  by destruct c as [[] [] [] [] [] [] [] []].
Qed.

Lemma rd_parse_int i :
  i ≠ ""%string → all_chars is_digit i = true → rd_parse i = rd_make (str_value i) 0.
Proof.
  intros Hi0 Hi. rewrite <- (app_empty_r i) at 1. rewrite rd_parse_unsigned, app_empty_r by done. unfold rd_parse_digits.
  rewrite <- (app_empty_r i) at 1.
  rewrite split_point_digits by done. cbn. rewrite app_empty_r, Hi. by destruct i.
Qed.

Lemma rd_parse_frac i f :
  i ≠ ""%string → f ≠ ""%string → all_chars is_digit i = true → all_chars is_digit f = true →
  rd_parse (i +:+ String "." f) = rd_make (str_value (i +:+ f)) (slen f).
Proof.
  intros Hi0 Hf0 Hi Hf. rewrite rd_parse_unsigned by done. unfold rd_parse_digits. rewrite split_point_digits by done. cbn.
  rewrite app_empty_r, Hi, Hf. by destruct i, f.
Qed.

Lemma rd_combine_exact f g a b :
  (∀ x y z, f x y * z = f (x * z) (y * z)) →
  g = f (rd_raw a) (rd_raw b) →
  Z.abs (g / 10 ^ (28 - Z.max (rd_scale a) (rd_scale b))) < 2 ^ 96 →
  ∃ c, rd_combine f a b = Some c ∧ rd_raw c = g.
Proof.
  intros Hf -> Hlt. destruct (rd_bounds a) as [_ Ha], (rd_bounds b) as [_ Hb].
  unfold rd_combine, rd_raw in *. set (s := Z.max (rd_scale a) (rd_scale b)) in *.
  assert (Hsplit : ∀ d, rd_scale d ≤ s → rd_mantissa d * 10 ^ (28 - rd_scale d) =
    rd_mantissa d * 10 ^ (s - rd_scale d) * 10 ^ (28 - s)).
  { intros d Hd. rewrite <- Z.mul_assoc, <- Z.pow_add_r by lia. do 2 f_equal. lia. }
  rewrite (Hsplit a), (Hsplit b), <- Hf in * by lia.
  rewrite Z.div_mul in Hlt by (apply Z.pow_nonzero; lia).
  edestruct rd_make_fits as (c & -> & Hm & Hs); [apply fits_spec; split; [exact Hlt | lia] |].
  exists c. split; [done |]. by rewrite Hm, Hs.
Qed.

Lemma rd_abs_raw d : rd_raw (rd_abs d) = Z.abs (rd_raw d).
Proof.
  destruct (rd_bounds d) as [Hm Hs]. unfold rd_abs, rd_make_or, rd_raw.
  destruct (rd_make_fits (Z.abs (rd_mantissa d)) (rd_scale d)) as (d' & Hd & Hm' & Hs');
    [apply fits_spec; lia |]. cbn [fst snd]. rewrite Hd. cbn [default]. unfold id.
  rewrite Hm', Hs', Z.abs_mul, (Z.abs_eq (10 ^ _)); [done |]. apply Z.pow_nonneg. lia.
Qed.

#[local] Instance ref_decimal_laws : DecimalLaws ref_decimal.
Proof.
  split.
  - intros d. apply (rd_bounds d).
  - intros d. apply (rd_bounds d).
  - intros a b. reflexivity.
  - intros d. apply (rd_normalize_facts d).
  - intros d. apply (rd_normalize_facts d).
  - vm_compute. reflexivity.
  - vm_compute. reflexivity.
  - intros d. apply rd_abs_raw.
  - intros i d Hi0 Hi. change (from_str_exact i) with (rd_parse i). rewrite rd_parse_int by done. apply rd_make_some.
  - intros i f d Hi0 Hf0 Hi Hf. change (from_str_exact ?s) with (rd_parse s). rewrite rd_parse_frac by done.
    apply rd_make_some.
  - intros i Hi0 Hi Hlt. change (from_str_exact i) with (rd_parse i). rewrite rd_parse_int by done.
    pose proof (str_value_nonneg i Hi).
    destruct (rd_make_fits (str_value i) 0) as (d & -> & _); [apply fits_spec; lia | done].
  - intros i f Hi0 Hf0 Hi Hf Hlen Hlt. change (from_str_exact ?s) with (rd_parse s). rewrite rd_parse_frac by done.
    pose proof (slen_nonneg f).
    assert (0 ≤ str_value (i +:+ f)) by (apply str_value_nonneg; rewrite all_chars_app, Hi; done).
    destruct (rd_make_fits (str_value (i +:+ f)) (slen f)) as (d & -> & _);
      [apply fits_spec; lia | done].
  - intros m s Hm Hs. cbn. unfold rd_make_or. cbn [fst snd].
    destruct (rd_make_fits m s) as (d & -> & H1 & H2); [apply fits_spec; lia | done].
  - intros a b Hlt. apply rd_combine_exact; [intros; lia | done | done].
  - intros a b Hlt. apply rd_combine_exact; [intros; lia | done | done].
Qed.
