(* ===== verification/Types.v ===== *)
(** * Engine types ([engine/types.rs], [models/order.rs], [engine/mod.rs])

    The records the engine works on, with the source's fields. A [u64] is a [Z]; the equality of
    two orders is the derived [PartialEq], which compares decimals by value, so "1.0" and "1.00"
    are the same price. Time stamps ([chrono]) and UUIDs ([uuid]) are library types and enter as
    parameters. The trait [Engine] is a class; the handle of [Handle] is its instance and the order
    service of [Orders] its client. *)

From stdpp Require Import base tactics gmap list strings.
From Stdlib Require Import ZArith Lia String.
From S2P Require Import Prelude Text Decimals Amount RefDecimal.

(** ** Types of the libraries the engine stores but does not compute on *)

Class Externals := {
  ext_decimal :: DecimalOps;
  Timestamp : Type;                       (* [chrono::DateTime<Utc>] *)
  timestamp_eq_dec :: EqDecision Timestamp;
  Uuid : Type;                            (* [uuid::Uuid] *)
  uuid_eq_dec :: EqDecision Uuid;
  uuid_countable :: Countable Uuid;
  uuid_nil : Uuid;                        (* the nil UUID, tested by [is_nil] *)
}.

(** ** Trading pairs *)

Record TradingPair := mk_pair { base_mint : string; quote_mint : string }.

#[global] Instance trading_pair_eq_dec : EqDecision TradingPair.
Proof. solve_decision. Defined.

#[global] Instance trading_pair_countable : Countable TradingPair.
Proof.
  apply (inj_countable' (fun p => (base_mint p, quote_mint p)) (fun q => mk_pair q.1 q.2)).
  by intros [].
Defined.

(** [TradingPair::new] and [TradingPair::to_string]. *)
Definition pair_new (base quote : string) : TradingPair := mk_pair base quote.
Definition pair_to_string (p : TradingPair) : string := base_mint p +:+ "/" +:+ quote_mint p.

Section types.
Context {E : Externals}.

(** ** Orders in the engine *)

Record OrderEntry := {
  oe_fee_rate : Decimal;
  oe_id : Z;
  oe_user_id : Z;
  oe_order_type : string;        (* "buy" or "sell" *)
  oe_order_side : string;        (* "limit" or "market" *)
  oe_base_mint : string;
  oe_quote_mint : string;
  oe_price : option Decimal;
  oe_amount : Decimal;
  oe_quote_amount : option Decimal;
  oe_filled_amount : Decimal;
  oe_remaining_amount : Decimal;
  oe_remaining_quote_amount : option Decimal;
  oe_created_at : Timestamp;
}.

(** The derived [PartialEq] of [OrderEntry]. *)
Definition oe_eqb (a b : OrderEntry) : bool :=
  dec_eqb (oe_fee_rate a) (oe_fee_rate b) &&
  (oe_id a =? oe_id b) && (oe_user_id a =? oe_user_id b) &&
  String.eqb (oe_order_type a) (oe_order_type b) &&
  String.eqb (oe_order_side a) (oe_order_side b) &&
  String.eqb (oe_base_mint a) (oe_base_mint b) &&
  String.eqb (oe_quote_mint a) (oe_quote_mint b) &&
  opt_dec_eqb (oe_price a) (oe_price b) &&
  dec_eqb (oe_amount a) (oe_amount b) &&
  opt_dec_eqb (oe_quote_amount a) (oe_quote_amount b) &&
  dec_eqb (oe_filled_amount a) (oe_filled_amount b) &&
  dec_eqb (oe_remaining_amount a) (oe_remaining_amount b) &&
  opt_dec_eqb (oe_remaining_quote_amount a) (oe_remaining_quote_amount b) &&
  bool_decide (oe_created_at a = oe_created_at b).

Definition is_fully_filled (o : OrderEntry) : bool := dec_eqb (oe_remaining_amount o) dec_zero.
Definition is_buy (o : OrderEntry) : bool := String.eqb (oe_order_type o) "buy".
Definition is_sell (o : OrderEntry) : bool := String.eqb (oe_order_type o) "sell".
Definition is_market (o : OrderEntry) : bool := String.eqb (oe_order_side o) "market".
Definition is_limit (o : OrderEntry) : bool := String.eqb (oe_order_side o) "limit".

(** Record updates of the fields the matcher assigns. *)
Definition set_amount (a : Decimal) (o : OrderEntry) : OrderEntry :=
  {| oe_fee_rate := oe_fee_rate o; oe_id := oe_id o; oe_user_id := oe_user_id o;
     oe_order_type := oe_order_type o; oe_order_side := oe_order_side o;
     oe_base_mint := oe_base_mint o; oe_quote_mint := oe_quote_mint o; oe_price := oe_price o;
     oe_amount := a; oe_quote_amount := oe_quote_amount o;
     oe_filled_amount := oe_filled_amount o; oe_remaining_amount := oe_remaining_amount o;
     oe_remaining_quote_amount := oe_remaining_quote_amount o;
     oe_created_at := oe_created_at o |}.
Definition set_filled (a : Decimal) (o : OrderEntry) : OrderEntry :=
  {| oe_fee_rate := oe_fee_rate o; oe_id := oe_id o; oe_user_id := oe_user_id o;
     oe_order_type := oe_order_type o; oe_order_side := oe_order_side o;
     oe_base_mint := oe_base_mint o; oe_quote_mint := oe_quote_mint o; oe_price := oe_price o;
     oe_amount := oe_amount o; oe_quote_amount := oe_quote_amount o;
     oe_filled_amount := a; oe_remaining_amount := oe_remaining_amount o;
     oe_remaining_quote_amount := oe_remaining_quote_amount o;
     oe_created_at := oe_created_at o |}.
Definition set_remaining (a : Decimal) (o : OrderEntry) : OrderEntry :=
  {| oe_fee_rate := oe_fee_rate o; oe_id := oe_id o; oe_user_id := oe_user_id o;
     oe_order_type := oe_order_type o; oe_order_side := oe_order_side o;
     oe_base_mint := oe_base_mint o; oe_quote_mint := oe_quote_mint o; oe_price := oe_price o;
     oe_amount := oe_amount o; oe_quote_amount := oe_quote_amount o;
     oe_filled_amount := oe_filled_amount o; oe_remaining_amount := a;
     oe_remaining_quote_amount := oe_remaining_quote_amount o;
     oe_created_at := oe_created_at o |}.
Definition set_remaining_quote (a : option Decimal) (o : OrderEntry) : OrderEntry :=
  {| oe_fee_rate := oe_fee_rate o; oe_id := oe_id o; oe_user_id := oe_user_id o;
     oe_order_type := oe_order_type o; oe_order_side := oe_order_side o;
     oe_base_mint := oe_base_mint o; oe_quote_mint := oe_quote_mint o; oe_price := oe_price o;
     oe_amount := oe_amount o; oe_quote_amount := oe_quote_amount o;
     oe_filled_amount := oe_filled_amount o; oe_remaining_amount := oe_remaining_amount o;
     oe_remaining_quote_amount := a; oe_created_at := oe_created_at o |}.
Definition set_created_at (t : Timestamp) (o : OrderEntry) : OrderEntry :=
  {| oe_fee_rate := oe_fee_rate o; oe_id := oe_id o; oe_user_id := oe_user_id o;
     oe_order_type := oe_order_type o; oe_order_side := oe_order_side o;
     oe_base_mint := oe_base_mint o; oe_quote_mint := oe_quote_mint o; oe_price := oe_price o;
     oe_amount := oe_amount o; oe_quote_amount := oe_quote_amount o;
     oe_filled_amount := oe_filled_amount o; oe_remaining_amount := oe_remaining_amount o;
     oe_remaining_quote_amount := oe_remaining_quote_amount o; oe_created_at := t |}.

(** ** Trades *)

Record MatchResult := {
  mr_buyer_fee_rate : Decimal;
  mr_seller_fee_rate : Decimal;
  mr_buy_order_id : Z;
  mr_sell_order_id : Z;
  mr_buyer_id : Z;
  mr_seller_id : Z;
  mr_price : Decimal;
  mr_amount : Decimal;
  mr_base_mint : string;
  mr_quote_mint : string;
}.

(** [MatchResult::total_value]: a plain decimal product, which can overflow. *)
Definition total_value (m : MatchResult) : result Decimal := expect (dec_mul (mr_price m) (mr_amount m)).

Inductive EngineEvent :=
  | OrderCreated (order : OrderEntry)
  | OrderCancelled (order_id user_id : Z) (trading_pair : TradingPair)
  | TradeExecuted (match_result : MatchResult) (buyer_id seller_id : Z).

(** ** Orders as the platform sees them ([models/order.rs]) *)

Record Order := {
  o_id : Z;
  o_user_id : Z;
  o_order_type : string;
  o_order_side : string;
  o_base_mint : string;
  o_quote_mint : string;
  o_price : option Decimal;
  o_amount : Decimal;
  o_filled_amount : Decimal;
  o_filled_quote_amount : Decimal;
  o_status : string;
  o_created_at : Timestamp;
  o_updated_at : Timestamp;
}.

(** [engine::entry_to_order]; [now] is the clock reading of the call. *)
Definition entry_to_order (now : Timestamp) (entry : OrderEntry) : Order :=
  let status :=
    if dec_eqb (oe_filled_amount entry) dec_zero then "pending"
    else if is_fully_filled entry then "filled"
    else "partial" in
  {| o_id := oe_id entry; o_user_id := oe_user_id entry;
     o_order_type := oe_order_type entry; o_order_side := oe_order_side entry;
     o_base_mint := oe_base_mint entry; o_quote_mint := oe_quote_mint entry;
     o_price := oe_price entry; o_amount := oe_amount entry;
     o_filled_amount := oe_filled_amount entry; o_filled_quote_amount := dec_zero;
     o_status := status; o_created_at := oe_created_at entry; o_updated_at := now |}.

(** ** The interface of the engine ([trait Engine]); [W] is what the calls work on *)

Class Engine (W : Type) := {
  engine_submit_order : OrderEntry → st W unit;
  engine_cancel_order : Z → Z → TradingPair → st W OrderEntry;
  engine_get_orderbook : TradingPair → option nat → st W (list OrderEntry * list OrderEntry);
  engine_get_best_bid : TradingPair → st W (option Decimal);
  engine_get_best_ask : TradingPair → st W (option Decimal);
  engine_lock_balance : Z → string → Decimal → st W unit;
  engine_unlock_balance : Z → string → Decimal → st W unit;
  engine_get_balance : Z → string → st W (Decimal * Decimal);
  engine_update_balance : Z → string → Decimal → st W unit;
}.
End types.

(** ** Order status *)

Inductive OrderStatus := Pending | Partial | Filled | Cancelled.

Definition status_as_str (s : OrderStatus) : string :=
  match s with
  | Pending => "pending"
  | Partial => "partial"
  | Filled => "filled"
  | Cancelled => "cancelled"
  end.

Definition status_from_str (s : string) : option OrderStatus :=
  if String.eqb s "pending" then Some Pending
  else if String.eqb s "partial" then Some Partial
  else if String.eqb s "filled" then Some Filled
  else if String.eqb s "cancelled" then Some Cancelled
  else None.

(** ** A concrete set of library types, for examples *)

Definition ref_externals : Externals := {|
  ext_decimal := ref_decimal;
  Timestamp := Z;
  Uuid := Z;
  uuid_nil := 0;
|}.

(** A decimal literal, for examples: [dz "12.50"]. *)
Definition dz (s : string) : @Decimal (@ext_decimal ref_externals) := rd_literal s.
