(* ===== verification/BalanceCache.v ===== *)
(** * Balances ([engine/balance_cache.rs], [engine/balance_cache/settlement.rs],
      [engine/executor.rs])

    One row per user and asset, split into an available and a locked part. The cache is the state
    of mutating functions in the [st] monad, so that what a failed call leaves behind is visible.
    Statements about money use [raw], the exact number a decimal stands for. *)

From stdpp Require Import base tactics gmap list strings sorting.
From Stdlib Require Import ZArith Lia.
From S2P Require Import Prelude Text Decimals Amount RefDecimal Types.

(** The key of a row: user and asset. *)
Abbreviation account := (Z * string)%type.

Section balance_cache.
Context {E : Externals}.

(** ** Data *)

Record Balance := mk_balance { available : Decimal; locked : Decimal }.

Definition balance_new : Balance := mk_balance dec_zero dec_zero.
Definition with_available (amount : Decimal) : Balance := mk_balance amount dec_zero.

(** [Balance::total]: a plain addition, which panics on overflow. *)
Definition total (b : Balance) : result Decimal := expect (dec_add (available b) (locked b)).

Record BalanceCache := mk_cache { balances : gmap account Balance }.

Definition cache_new : BalanceCache := mk_cache ∅.
(** [BalanceCache::with_capacity]: the capacity is a hint to the allocator. *)
Definition with_capacity (capacity : nat) : BalanceCache := mk_cache ∅.

(** ** Operations *)

Definition set_balance (user_id : Z) (mint : string) (available locked : Decimal)
    (c : BalanceCache) : BalanceCache :=
  mk_cache (<[(user_id, mint) := mk_balance available locked]> (balances c)).

(** [get_balance_mut]: the row behind the returned reference; a missing row is created. *)
Definition get_balance_mut (user_id : Z) (mint : string) : st BalanceCache Balance := fun c =>
  match balances c !! (user_id, mint) with
  | Some b => (Ok b, c)
  | None => (Ok balance_new, mk_cache (<[(user_id, mint) := balance_new]> (balances c)))
  end.

Definition get_balance (user_id : Z) (mint : string) (c : BalanceCache) : option Balance :=
  balances c !! (user_id, mint).

Definition check_sufficient_balance (user_id : Z) (mint : string) (required_amount : Decimal)
    (c : BalanceCache) : bool :=
  match get_balance user_id mint c with
  | Some balance => dec_leb required_amount (available balance)
  | None => false
  end.

Definition change_reservation (user_id : Z) (mint : string) (value : Decimal) (lock : bool) :
    st BalanceCache unit :=
  _ ← lift (ensure (dec_ltb dec_zero value) "Reservation amount must be positive");
  _ ← lift (units value);
  c ← sget;
  balance ← lift (ok_or (get_balance user_id mint c) "Missing reservation balance");
  '(a, l) ← lift (if lock
    then a ← subtract (available balance) value; l ← add (locked balance) value; Ok (a, l)
    else a ← add (available balance) value; l ← subtract (locked balance) value; Ok (a, l));
  sput (set_balance user_id mint a l c).

Definition lock_balance (user_id : Z) (mint : string) (amount : Decimal) : st BalanceCache unit :=
  change_reservation user_id mint amount true.
Definition unlock_balance (user_id : Z) (mint : string) (amount : Decimal) : st BalanceCache unit :=
  change_reservation user_id mint amount false.

(** [self.copy_account_from(source, user, asset)]. *)
Definition copy_account_from (source : BalanceCache) (user : Z) (asset : string)
    (self : BalanceCache) : BalanceCache :=
  match get_balance user asset self with
  | Some _ => self
  | None =>
      match get_balance user asset source with
      | Some balance => set_balance user asset (available balance) (locked balance) self
      | None => self
      end
  end.

(** [self.commit_prepared(prepared)]: every prepared row replaces the row of the same key. *)
Definition commit_prepared (prepared self : BalanceCache) : BalanceCache :=
  mk_cache (insert_all (map_to_list (balances prepared)) (balances self)).

(** [add_available]: [balance.available += delta] on the row's reference, then clamp at zero. *)
Definition add_available (user_id : Z) (mint : string) (delta : Decimal) : st BalanceCache unit :=
  balance ← get_balance_mut user_id mint;
  sum ← lift (expect (dec_add (available balance) delta));
  let sum := if dec_ltb sum dec_zero then dec_zero else sum in
  smodify (set_balance user_id mint sum (locked balance)).

(** The order of [rows.sort_by(|a, b| (a.0, &a.1).cmp(&(b.0, &b.1)))]: user, then asset bytes. *)
Definition account_le (a b : account) : bool :=
  (a.1 <? b.1) || ((a.1 =? b.1) && String.leb a.2 b.2).

Definition seed_row : Type := account * (Decimal * Decimal).
Definition seed_le (a b : seed_row) : Prop := account_le a.1 b.1 = true.
#[export] Instance seed_le_dec a b : Decision (seed_le a b).
Proof. unfold seed_le. apply _. Defined.

Definition journal_seed (c : BalanceCache) : list seed_row :=
  merge_sort seed_le
    (map (fun row => (row.1, (available row.2, locked row.2))) (map_to_list (balances c))).

Definition clear (c : BalanceCache) : BalanceCache := mk_cache ∅.

(** ** Settlement *)

(** One entry of the [changes] array: the account and the two deltas. *)
Definition change : Type := account * (Z * Z).

Definition valid_asset (asset : string) : bool :=
  negb (is_empty asset) && String.eqb (trim asset) asset && (slen asset <=? 255).

(** The checks and the four account changes at the head of [settle_trade]. *)
Definition settlement_changes (trade : MatchResult) : result (list change) :=
  _ ← ensure ((0 <? mr_buyer_id trade) && (0 <? mr_seller_id trade)) "Invalid settlement user";
  _ ← ensure ((0 <? mr_buy_order_id trade) && (0 <? mr_sell_order_id trade) &&
              negb (mr_buy_order_id trade =? mr_sell_order_id trade))
        "Invalid settlement order ids";
  _ ← ensure (valid_asset (mr_base_mint trade)) "Invalid settlement asset";
  _ ← ensure (valid_asset (mr_quote_mint trade)) "Invalid settlement asset";
  _ ← ensure (negb (String.eqb (mr_base_mint trade) (mr_quote_mint trade)))
        "Settlement assets must differ";
  _ ← ensure (dec_ltb dec_zero (mr_price trade) && dec_ltb dec_zero (mr_amount trade))
        "Settlement price and amount must be positive";
  amount ← units (mr_amount trade);
  quote_value ← quote (mr_price trade) (mr_amount trade);
  quote_units ← units quote_value;
  buyer_fee ← fee (mr_amount trade) (mr_buyer_fee_rate trade);
  buyer_fee ← units buyer_fee;
  seller_fee ← fee quote_value (mr_seller_fee_rate trade);
  seller_fee ← units seller_fee;
  Ok [ ((mr_buyer_id trade, mr_quote_mint trade), (0, - quote_units));
       ((mr_seller_id trade, mr_quote_mint trade), (quote_units - seller_fee, 0));
       ((mr_seller_id trade, mr_base_mint trade), (0, - amount));
       ((mr_buyer_id trade, mr_base_mint trade), (amount - buyer_fee, 0)) ].

(** One round of the staging loop of [settle_trade]. *)
Definition stage (rows : gmap account Balance) (staged : gmap account (Z * Z)) (ch : change) :
    result (gmap account (Z * Z)) :=
  let key := ch.1 in
  staged ← match staged !! key with
           | Some _ => Ok staged
           | None =>
               let balance := default balance_new (rows !! key) in
               a ← units (available balance);
               l ← units (locked balance);
               Ok (<[key := (a, l)]> staged)
           end;
  balance ← expect (staged !! key);
  a ← ok_or (checked_add balance.1 ch.2.1) "Available overflow";
  l ← ok_or (checked_add balance.2 ch.2.2) "Locked overflow";
  _ ← ensure ((0 <=? a) && (0 <=? l)) "Insufficient settlement balance";
  _ ← ensure ((a <=? MAX_UNITS) && (l <=? MAX_UNITS)) "Settlement balance exceeds NUMERIC(30,9)";
  Ok (<[key := (a, l)]> staged).

(** The pair of unit counts of a staged row, as a balance. *)
Definition staged_balance (v : Z * Z) : result Balance :=
  a ← decimal v.1;
  l ← decimal v.2;
  Ok (mk_balance a l).

Definition settle_trade (trade : MatchResult) : st BalanceCache unit :=
  changes ← lift (settlement_changes trade);
  c ← sget;
  staged ← lift (fold_result (stage (balances c)) ∅ changes);
  prepared ← lift (map_results (fun row => b ← staged_balance row.2; Ok (row.1, b))
                     (map_to_list staged));
  sput (mk_cache (insert_all prepared (balances c))).

(** ** The executor: the owner of the cache *)

Record Executor := mk_executor { balance_cache : BalanceCache }.

Definition executor_new : Executor := mk_executor cache_new.
(** Work on the cache the executor owns ([balance_cache_mut]). *)
Definition balance_cache_mut {A} (m : st BalanceCache A) : st Executor A :=
  zoom balance_cache (fun c _ => mk_executor c) m.

Definition lock_balance_for_order (order_id user_id : Z) (mint : string) (amount : Decimal) :
    st Executor unit :=
  scontext (balance_cache_mut (lock_balance user_id mint amount))
    ("Failed to lock balance for order " +:+ show_int order_id).
Definition unlock_balance_for_cancel (order_id user_id : Z) (mint : string) (amount : Decimal) :
    st Executor unit :=
  scontext (balance_cache_mut (unlock_balance user_id mint amount))
    ("Failed to unlock balance for order " +:+ show_int order_id).

(** ** What a cache holds *)

(** The available and locked money of an account, zero for an absent row. *)
Definition available_of (c : BalanceCache) (k : account) : Z :=
  mval (fun _ b => raw (available b)) (balances c) k.
Definition locked_of (c : BalanceCache) (k : account) : Z :=
  mval (fun _ b => raw (locked b)) (balances c) k.

(** All the money in an asset, whoever owns it. *)
Definition holding (mint : string) (k : account) (b : Balance) : Z :=
  if decide (k.2 = mint) then raw (available b) + raw (locked b) else 0.
Definition supply (c : BalanceCache) (mint : string) : Z := msum (holding mint) (balances c).

(** Both parts are amounts the arithmetic accepts. *)
Definition balance_wf (b : Balance) : Prop :=
  (∃ a, in_units (available b) a) ∧ (∃ l, in_units (locked b) l).
Definition cache_wf (c : BalanceCache) : Prop := ∀ k b, balances c !! k = Some b → balance_wf b.

(** Two caches that hold the same money: the same rows up to the way a decimal is written. *)
Definition balance_equiv (a b : Balance) : Prop :=
  raw (available a) = raw (available b) ∧ raw (locked a) = raw (locked b).
Definition cache_equiv (c d : BalanceCache) : Prop :=
  ∀ k, option_Forall2 balance_equiv (balances c !! k) (balances d !! k).
End balance_cache.

Section balance_facts.
Context {E : Externals} {L : DecimalLaws ext_decimal}.

(** ** Rows and the money in them *)

Lemma available_of_row c k b : balances c !! k = Some b → available_of c k = raw (available b).
Proof. unfold available_of, mval. by intros ->. Qed.
Lemma locked_of_row c k b : balances c !! k = Some b → locked_of c k = raw (locked b).
Proof. unfold locked_of, mval. by intros ->. Qed.
Lemma available_of_default c k :
  available_of c k = raw (available (default balance_new (balances c !! k))).
Proof. unfold available_of, mval. destruct (balances c !! k); cbn; [done | by rewrite zero_raw]. Qed.
Lemma locked_of_default c k :
  locked_of c k = raw (locked (default balance_new (balances c !! k))).
Proof. unfold locked_of, mval. destruct (balances c !! k); cbn; [done | by rewrite zero_raw]. Qed.

Lemma cache_wf_insert c k b :
  cache_wf c → balance_wf b → cache_wf (mk_cache (<[k := b]> (balances c))).
Proof. intros Hc Hb j bj. cbn. rewrite lookup_insert_Some. naive_solver. Qed.

Lemma cache_wf_nonneg c k : cache_wf c → 0 ≤ available_of c k ∧ 0 ≤ locked_of c k.
Proof.
  intros Hc. unfold available_of, locked_of, mval. destruct (balances c !! k) as [b|] eqn:Hk; [| done].
  destruct (Hc k b Hk) as [[a [Ha ?]] [l [Hl ?]]]. cbn. lia.
Qed.

(** Caches that hold the same money are the same for every account of the money. *)
#[export] Instance balance_equiv_equivalence : Equivalence balance_equiv.
Proof.
  split; [by split | intros a b [Ha Hl]; by split | intros a b c [Ha Hl] [Hb Hm]; split; congruence].
Qed.
#[export] Instance cache_equiv_equivalence : Equivalence cache_equiv.
Proof.
  split.
  - intros c k. destruct (balances c !! k); by constructor.
  - intros c d Hcd k. destruct (Hcd k); constructor. by symmetry.
  - intros c d e Hcd Hde k. specialize (Hcd k). specialize (Hde k).
    destruct Hcd as [x y Hxy|]; inversion Hde; constructor. by etransitivity.
Qed.
#[export] Instance available_of_proper : Proper (cache_equiv ==> eq ==> eq) available_of.
Proof. intros c d Hcd k ? <-. unfold available_of, mval. by destruct (Hcd k) as [x y [H _]|]. Qed.
#[export] Instance locked_of_proper : Proper (cache_equiv ==> eq ==> eq) locked_of.
Proof. intros c d Hcd k ? <-. unfold locked_of, mval. by destruct (Hcd k) as [x y [_ H]|]. Qed.
#[export] Instance supply_proper : Proper (cache_equiv ==> eq ==> eq) supply.
Proof.
  intros c d Hcd mint ? <-. unfold supply. apply msum_val_eq. intros k. unfold mval, holding.
  destruct (Hcd k) as [x y [Ha Hl]|]; [| done]. cbn. by rewrite Ha, Hl.
Qed.
#[export] Instance cache_wf_proper : Proper (cache_equiv ==> iff) cache_wf.
Proof.
  assert (Hone : ∀ c d, cache_equiv c d → cache_wf c → cache_wf d).
  { intros c d Hcd Hc k b Hb. specialize (Hcd k). rewrite Hb in Hcd. inversion Hcd as [x y [Ha Hl] Hx Hy|]; subst.
    symmetry in Hx. destruct (Hc k x Hx) as [[a [Hav ?]] [l [Hlv ?]]]. split; [exists a | exists l]; split;
      congruence. }
  intros c d Hcd. split; apply Hone; [done | by symmetry].
Qed.

(** A list of money movements, read per account and per asset: if every account moved by what the
    list gives it, the supply of an asset moved by what the list gives that asset. *)
Lemma supply_changes (c d : BalanceCache) (moves : list (account * Z)) mint :
  (∀ k, available_of d k + locked_of d k = available_of c k + locked_of c k + change_at k moves) →
  supply d mint = supply c mint + lsum snd (filter (fun m => m.1.2 = mint) moves).
Proof.
  intros Hk. unfold supply. apply msum_changes. intros k. specialize (Hk k).
  assert (Hval : ∀ e, mval (holding mint) (balances e) k =
    if decide (k.2 = mint) then available_of e k + locked_of e k else 0).
  { intros e. unfold mval, available_of, locked_of, holding, mval.
    destruct (balances e !! k); cbn; by case_decide. }
  rewrite !Hval. assert (Hch : change_at k (filter (fun m => m.1.2 = mint) moves) =
    if decide (k.2 = mint) then change_at k moves else 0).
  { unfold change_at. clear. induction moves as [|[j w] l IH]; [by case_decide |].
    rewrite filter_cons, lsum_cons. cbn [fst snd].
    destruct (decide (j.2 = mint)); rewrite ?lsum_cons; cbn [fst snd]; rewrite IH; repeat case_decide;
      naive_solver lia. }
  rewrite Hch. case_decide; lia.
Qed.

(** ** Reservations *)

Lemma change_reservation_run u m v lock c c' :
  change_reservation u m v lock c = (Ok tt, c') →
  ∃ b b' x, balances c !! (u, m) = Some b ∧ balances c' = <[(u, m) := b']> (balances c) ∧
    in_units v x ∧ 0 < x ∧ balance_wf b ∧ balance_wf b' ∧
    let s := if lock then -1 else 1 in
    raw (available b') = raw (available b) + s * raw v ∧
    raw (locked b') = raw (locked b) - s * raw v.
Proof.
  unfold change_reservation, get_balance. intros H. inv_st. destruct_and?. dec_simpl.
  rewrite units_ok in *. destruct lock; inv_st.
  all: match goal with Hs : subtract _ _ = Ok _, Ha : add _ _ = Ok _, Hv : in_units _ ?x |- _ =>
      pose proof (subtract_inv _ _ _ Hs) as (ua & uv & Ia & Iv & _);
      pose proof (add_inv _ _ _ Ha) as (ul & uw & Il & Iw);
      pose proof (subtract_ok _ _ _ _ _ Ia Iv Hs); pose proof (add_ok _ _ _ _ _ Il Iw Ha);
      eexists _, _, x end.
  all: split_and!; [done | done | done | ..]; unfold balance_wf, in_units in *; cbn; naive_solver lia.
Qed.

(** When a reservation is possible: the row exists, the part it takes from covers the value, and
    both results are amounts. *)
Lemma change_reservation_total u m v (lock : bool) c b a l x :
  balances c !! (u, m) = Some b → in_units (available b) a → in_units (locked b) l →
  in_units v x → 0 < x →
  (if lock then x ≤ a else x ≤ l) →
  let s := if lock then -1 else 1 in
  a + s * x ≤ MAX_UNITS → l - s * x ≤ MAX_UNITS →
  representable (a + s * x) → representable (l - s * x) →
  ∃ c', change_reservation u m v lock c = (Ok tt, c').
Proof.
  intros Hb Ha Hl Hx Hpos Hle s Hma Hml Hra Hrl. unfold change_reservation.
  rewrite dec_ltb_raw, zero_raw. rewrite (proj2 (Z.ltb_lt 0 (raw v))) by (destruct Hx; lia).
  rewrite (lift_bind _ _ _ tt) by done. rewrite (lift_bind _ _ _ x) by by apply units_ok.
  unfold mbind at 1, st_bind at 1, sget. unfold get_balance. rewrite Hb.
  rewrite (lift_bind _ _ _ b) by done.
  unfold s in *. destruct lock.
  - destruct (subtract_total (available b) v a x) as [d1 ->];
    [done | done | lia | by replace (a - x) with (a + -1 * x) by lia |].
    destruct (add_total (locked b) v l x) as [d2 ->];
      [done | done | lia | by replace (l + x) with (l - -1 * x) by lia |].
    by eexists.
  - destruct (add_total (available b) v a x) as [d1 ->];
    [done | done | lia | by replace (a + x) with (a + 1 * x) by lia |].
    destruct (subtract_total (locked b) v l x) as [d2 ->];
      [done | done | lia | by replace (l - x) with (l - 1 * x) by lia |].
    by eexists.
Qed.

Lemma change_reservation_atomic u m v lock : atomic (change_reservation u m v lock).
Proof.
  unfold change_reservation. repeat (apply atomic_bind_lift; intros ? _).
  apply atomic_bind_get. intros c. repeat (apply atomic_bind_lift; intros [] _).
  apply atomic_ok. done.
Qed.

(** The money a reservation moves, per account. *)
Lemma change_reservation_moves u m v (lock : bool) c c' :
  change_reservation u m v lock c = (Ok tt, c') →
  let s := if lock then -1 else 1 in
  ∀ k, (k ≠ (u, m) → balances c' !! k = balances c !! k) ∧
    available_of c' k = available_of c k + (if decide (k = (u, m)) then s * raw v else 0) ∧
    locked_of c' k = locked_of c k - (if decide (k = (u, m)) then s * raw v else 0).
Proof.
  intros (b & b' & x & Hb & Hc' & _ & _ & _ & _ & Ha & Hl)%change_reservation_run s k.
  unfold available_of, locked_of, mval. rewrite Hc'.
  destruct (decide (k = (u, m))) as [->|Hk].
  - rewrite lookup_insert_eq, Hb. cbn. unfold s. naive_solver.
  - rewrite lookup_insert_ne by congruence. split_and!; [done | lia | lia].
Qed.

Lemma change_reservation_wf u m v lock c c' :
  change_reservation u m v lock c = (Ok tt, c') → cache_wf c → cache_wf c'.
Proof.
  intros (b & b' & x & _ & Hc' & _ & _ & _ & Hb' & _)%change_reservation_run Hc k bk.
  rewrite Hc', lookup_insert_Some. naive_solver.
Qed.

Lemma change_reservation_supply u m v lock c c' mint :
  change_reservation u m v lock c = (Ok tt, c') → supply c' mint = supply c mint.
Proof.
  intros Hrun. rewrite (supply_changes c c' []); [cbn; lia |].
  intros k. destruct (change_reservation_moves _ _ _ _ _ _ Hrun k) as (_ & -> & ->).
  unfold change_at. cbn. lia.
Qed.

(** ** Copying and publishing rows *)

Lemma copy_account_lookup source u m self k :
  balances (copy_account_from source u m self) !! k =
  match balances self !! k with
  | Some b => Some b
  | None => if decide (k = (u, m)) then balances source !! k else None
  end.
Proof.
  unfold copy_account_from, get_balance.
  destruct (balances self !! (u, m)) as [b|] eqn:Hs; [| destruct (balances source !! (u, m)) as [[a l]|] eqn:Hr].
  - destruct (balances self !! k) eqn:Hk; [done |]. case_decide; naive_solver.
  - cbn. destruct (decide (k = (u, m))) as [->|Hk].
    + by rewrite lookup_insert_eq, Hs, Hr.
    + rewrite lookup_insert_ne by congruence. by destruct (balances self !! k).
  - destruct (balances self !! k) eqn:Hk; [done |]. case_decide; naive_solver.
Qed.

Lemma commit_prepared_lookup prepared self k :
  balances (commit_prepared prepared self) !! k =
  match balances prepared !! k with Some b => Some b | None => balances self !! k end.
Proof.
  unfold commit_prepared. cbn.
  rewrite insert_all_lookup by apply NoDup_fst_map_to_list. by rewrite list_to_map_to_list.
Qed.

Lemma commit_prepared_wf prepared self :
  cache_wf prepared → cache_wf self → cache_wf (commit_prepared prepared self).
Proof.
  intros Hp Hs k b. rewrite commit_prepared_lookup.
  destruct (balances prepared !! k) eqn:Hk; naive_solver.
Qed.
End balance_facts.

(** ** Settlement *)

Section settlement_facts.
Context {E : Externals} {L : DecimalLaws ext_decimal}.

(** The available and the locked part of a list of changes. *)
Definition available_moves (chs : list change) : list (account * Z) :=
  map (fun ch => (ch.1, ch.2.1)) chs.
Definition locked_moves (chs : list change) : list (account * Z) :=
  map (fun ch => (ch.1, ch.2.2)) chs.

(** The units of a trade: what is exchanged and what each side pays out of what it receives. *)
Record trade_units (t : MatchResult) (amount quote_units buyer_fee seller_fee : Z) : Prop := {
  tu_amount : in_units (mr_amount t) amount;
  tu_quote : ∃ p, in_units (mr_price t) p ∧ 0 < p ∧ p * amount = quote_units * FACTOR;
  tu_buyer_fee : ∃ r, in_units (mr_buyer_fee_rate t) r ∧ r < FACTOR ∧ buyer_fee = amount * r / FACTOR;
  tu_seller_fee : ∃ r, in_units (mr_seller_fee_rate t) r ∧ r < FACTOR ∧
    seller_fee = quote_units * r / FACTOR;
  tu_positive : 0 < amount ∧ 0 < quote_units;
  tu_fees : 0 ≤ buyer_fee ≤ amount ∧ 0 ≤ seller_fee ≤ quote_units;
}.

Lemma settlement_changes_run t chs :
  settlement_changes t = Ok chs →
  ∃ a q bf sf, trade_units t a q bf sf ∧ 0 < mr_buyer_id t ∧ 0 < mr_seller_id t ∧
    mr_base_mint t ≠ mr_quote_mint t ∧
    chs = [ ((mr_buyer_id t, mr_quote_mint t), (0, - q));
            ((mr_seller_id t, mr_quote_mint t), (q - sf, 0));
            ((mr_seller_id t, mr_base_mint t), (0, - a));
            ((mr_buyer_id t, mr_base_mint t), (a - bf, 0)) ].
Proof.
  unfold settlement_changes. intros H. inv_ok. rewrite !units_ok in *. rewrite !dec_ltb_raw, zero_raw in *.
  repeat match goal with
  | H : fee _ _ = Ok _ |- _ => apply fee_ok in H as (? & ? & ? & ? & ? & ? & ?)
  | H : quote _ _ = Ok _ |- _ => apply quote_ok in H as (? & ? & ? & ? & ? & ? & ?)
  end.
  repeat match goal with
    | H1 : in_units ?x ?a, H2 : in_units ?x ?b |- _ =>
        assert_fails (unify a b); assert (a = b) as <- by (eapply in_units_inj; eassumption)
    end. inv_ok.
  eexists _, _, _, _. split_and!; [| done | done | | reflexivity].
  - repeat match goal with H : in_units _ _ |- _ => pose proof (in_units_range _ _ H); revert H end. intros.
    match goal with Ha : in_units (mr_amount t) ?a, Hp : in_units (mr_price t) ?p |- _ =>
      assert (0 < a) by (destruct Ha; lia); assert (0 < p) by (destruct Hp; lia) end.
    assert (0 < FACTOR) by done.
    split; try done; try (eexists; split_and!; (done || lia)); nia.
  - match goal with H : String.eqb _ _ = false |- _ => by apply String.eqb_neq in H end.
Qed.

(** What the staging map says after a prefix of the changes: each staged account has the cached
    amounts moved by the prefix, and both are amounts. *)
Definition staged_ok (rows : gmap account Balance) (prefix : list change)
    (staged : gmap account (Z * Z)) : Prop :=
  ∀ k, match staged !! k with
       | Some (a, l) => ∃ a0 l0,
           in_units (available (default balance_new (rows !! k))) a0 ∧
           in_units (locked (default balance_new (rows !! k))) l0 ∧
           a = a0 + change_at k (available_moves prefix) ∧
           l = l0 + change_at k (locked_moves prefix) ∧
           0 ≤ a ≤ MAX_UNITS ∧ 0 ≤ l ≤ MAX_UNITS ∧ k ∈ prefix.*1
       | None => k ∉ prefix.*1
       end.

Lemma available_moves_snoc k l ch :
  change_at k (available_moves (l ++ [ch])) =
  change_at k (available_moves l) + (if decide (ch.1 = k) then ch.2.1 else 0).
Proof. unfold available_moves. rewrite map_app, change_at_app. f_equal. apply (change_at_single k (ch.1, ch.2.1)). Qed.

Lemma locked_moves_snoc k l ch :
  change_at k (locked_moves (l ++ [ch])) =
  change_at k (locked_moves l) + (if decide (ch.1 = k) then ch.2.2 else 0).
Proof. unfold locked_moves. rewrite map_app, change_at_app. f_equal. apply (change_at_single k (ch.1, ch.2.2)). Qed.

Lemma moves_absent k chs :
  k ∉ chs.*1 → change_at k (available_moves chs) = 0 ∧ change_at k (locked_moves chs) = 0.
Proof.
  intros Hk. split.
  - apply change_at_absent. unfold available_moves. by rewrite map_map.
  - apply change_at_absent. unfold locked_moves. by rewrite map_map.
Qed.

(** One round: the row is taken from the staging map or read from the cache, moved, checked. *)
Lemma stage_run rows staged ch staged' :
  stage rows staged ch = Ok staged' →
  ∃ a0 l0,
    match staged !! ch.1 with
    | Some v => v = (a0, l0)
    | None => in_units (available (default balance_new (rows !! ch.1))) a0 ∧
              in_units (locked (default balance_new (rows !! ch.1))) l0
    end ∧
    0 ≤ a0 + ch.2.1 ≤ MAX_UNITS ∧ 0 ≤ l0 + ch.2.2 ≤ MAX_UNITS ∧
    staged' = <[ch.1 := (a0 + ch.2.1, l0 + ch.2.2)]> staged.
Proof.
  unfold stage. intros H. inv_ok.
  repeat match goal with H : checked_add _ _ = Some ?x |- _ => apply checked_add_some in H as [-> _] end.
  destruct (staged !! ch.1) as [[a0 l0]|] eqn:Hst; inv_ok.
  - exists a0, l0. split_and!; (done || lia).
  - rewrite lookup_insert_eq in *. simplify_eq. cbn [fst snd] in *. rewrite !units_ok in *.
    eexists _, _. split_and!; [done | done | lia | lia | lia | lia |]. by rewrite insert_insert_eq.
Qed.

Lemma stage_step rows prefix ch staged staged' :
  staged_ok rows prefix staged → stage rows staged ch = Ok staged' →
  staged_ok rows (prefix ++ [ch]) staged'.
Proof.
  intros Hok (a0 & l0 & Hbase & Ha & Hl & ->)%stage_run k. specialize (Hok k).
  rewrite available_moves_snoc, locked_moves_snoc, fmap_app.
  destruct (decide (ch.1 = k)) as [<-|Hk].
  - rewrite lookup_insert_eq. destruct (staged !! ch.1) as [v|].
    + subst v. destruct Hok as (a & l & ? & ? & -> & -> & _). exists a, l.
      split_and!; (done || lia || set_solver).
    + destruct Hbase as [? ?]. exists a0, l0. destruct (moves_absent ch.1 prefix Hok) as [-> ->].
      split_and!; (done || lia || set_solver).
  - rewrite lookup_insert_ne by done. rewrite !Z.add_0_r. destruct (staged !! k) as [[a l]|].
    + destruct Hok as (a1 & l1 & ? & ? & ? & ? & ? & ? & ?). exists a1, l1.
      split_and!; (done || lia || set_solver).
    + set_solver.
Qed.

Lemma stage_all rows chs staged :
  fold_result (stage rows) ∅ chs = Ok staged → staged_ok rows chs staged.
Proof.
  apply (fold_result_ind (staged_ok rows)).
  - intros k. rewrite lookup_empty. set_solver.
  - intros prefix ch rest s s' _. apply stage_step.
Qed.

(** What settling a trade does to every account: exactly the four changes. *)
Lemma settle_trade_run t c c' :
  settle_trade t c = (Ok tt, c') →
  ∃ chs, settlement_changes t = Ok chs ∧
    ∀ k, available_of c' k = available_of c k + change_at k (available_moves chs) * 10 ^ 19 ∧
         locked_of c' k = locked_of c k + change_at k (locked_moves chs) * 10 ^ 19 ∧
         (k ∉ chs.*1 → balances c' !! k = balances c !! k) ∧
         (k ∈ chs.*1 → ∃ b, balances c' !! k = Some b ∧ balance_wf b).
Proof.
  unfold settle_trade. intros H. inv_st. eexists. split; [done |]. intros k.
  match goal with H : fold_result _ _ _ = Ok ?s |- _ => rename s into staged; apply stage_all in H as Hst end.
  match goal with H : map_results _ _ = Ok _ |- _ => apply map_results_rows in H as [Hnd Hrows] end.
  specialize (Hrows k). specialize (Hst k).
  rewrite !available_of_default, !locked_of_default. cbn [balances].
  rewrite insert_all_lookup by done.
  destruct (staged !! k) as [[a l]|] eqn:Hk.
  - destruct Hrows as (b & Hb & ->). unfold staged_balance in Hb. inv_ok. cbn in *.
    destruct Hst as (a0 & l0 & [Ha0 _] & [Hl0 _] & -> & -> & Ha & Hl & Hin).
    repeat match goal with H : decimal _ = Ok _ |- _ => apply decimal_sound in H; [| done] end.
    split_and!.
    + match goal with H : in_units ?d _ |- raw ?d = _ => destruct H as [-> _] end. rewrite Ha0. lia.
    + match goal with H : in_units ?d _ |- raw ?d = _ => destruct H as [-> _] end. rewrite Hl0. lia.
    + done.
    + intros _. eexists. split; [done |]. split; eexists; done.
  - rewrite Hrows. destruct (moves_absent k _ Hst) as [-> ->].
    split_and!; [lia | lia | done | done].
Qed.

Lemma settle_trade_atomic t : atomic (settle_trade t).
Proof.
  unfold settle_trade. apply atomic_bind_lift; intros chs _. apply atomic_bind_get; intros c.
  apply atomic_bind_lift; intros staged _. apply atomic_bind_lift; intros rows _.
  apply atomic_ok. done.
Qed.

Lemma settle_trade_wf t c c' : settle_trade t c = (Ok tt, c') → cache_wf c → cache_wf c'.
Proof.
  intros (chs & _ & Hk)%settle_trade_run Hc k b Hb.
  destruct (Hk k) as (_ & _ & Hout & Hin). destruct (decide (k ∈ chs.*1)) as [H|H].
  - destruct (Hin H) as (b' & Hb' & Hwf). naive_solver.
  - apply (Hc k). by rewrite <- Hout.
Qed.

(** The supply of every asset after a settlement: the fees are what is missing. *)
Lemma settle_trade_supply t c c' :
  settle_trade t c = (Ok tt, c') →
  ∃ a q bf sf, trade_units t a q bf sf ∧ mr_base_mint t ≠ mr_quote_mint t ∧
    ∀ mint, supply c' mint = supply c mint
      - (if decide (mint = mr_base_mint t) then bf * 10 ^ 19 else 0)
      - (if decide (mint = mr_quote_mint t) then sf * 10 ^ 19 else 0).
Proof.
  intros Hrun. apply settle_trade_run in Hrun as (chs & Hchs & Hk).
  apply settlement_changes_run in Hchs as (a & q & bf & sf & Hu & _ & _ & Hne & ->).
  exists a, q, bf, sf. split; [done |]. split; [done |]. intros mint.
  rewrite (supply_changes c c'
      [((mr_buyer_id t, mr_quote_mint t), - q * 10 ^ 19);
       ((mr_seller_id t, mr_quote_mint t), (q - sf) * 10 ^ 19);
       ((mr_seller_id t, mr_base_mint t), - a * 10 ^ 19);
       ((mr_buyer_id t, mr_base_mint t), (a - bf) * 10 ^ 19)]).
  - rewrite !filter_cons, filter_nil; cbn [fst snd]; repeat case_decide; simplify_eq; cbn; lia.
  - intros k. destruct (Hk k) as (-> & -> & _).
    unfold change_at. cbn. repeat case_decide; simplify_eq; lia.
Qed.

(** The rows of a settled cache are those of the cache before and those of the four changes. *)
Lemma settle_trade_other t c c' k :
  settle_trade t c = (Ok tt, c') →
  k ∉ [(mr_buyer_id t, mr_quote_mint t); (mr_seller_id t, mr_quote_mint t);
       (mr_seller_id t, mr_base_mint t); (mr_buyer_id t, mr_base_mint t)] →
  balances c' !! k = balances c !! k.
Proof.
  intros (chs & Hchs & Hk)%settle_trade_run Hout.
  apply settlement_changes_run in Hchs as (a & q & bf & sf & _ & _ & _ & _ & ->).
  by apply (Hk k).
Qed.

Lemma stage_no_panic rows staged ch : no_panic (stage rows staged ch).
Proof.
  unfold stage. destruct (staged !! ch.1) as [v|] eqn:Hst; cbn [mbind result_bind].
  - rewrite Hst. cbn. solve_no_panic.
  - solve_no_panic. inv_ok. apply no_panic_expect. rewrite lookup_insert_eq. done.
Qed.

Lemma settlement_changes_no_panic t : no_panic (settlement_changes t).
Proof. unfold settlement_changes. solve_no_panic. Qed.
End settlement_facts.

#[export] Hint Resolve stage_no_panic settlement_changes_no_panic : no_panic.

Section cache_no_panic.
Context {E : Externals} {L : DecimalLaws ext_decimal}.

Lemma settle_trade_safe t : safe (settle_trade t).
Proof. unfold settle_trade, staged_balance. solve_no_panic. Qed.

Lemma change_reservation_safe u m v lock : safe (change_reservation u m v lock).
Proof. unfold change_reservation. solve_no_panic. Qed.
End cache_no_panic.

#[export] Hint Resolve settle_trade_safe change_reservation_safe : no_panic.

(** ** Properties *)

Section balance_properties.
Context {E : Externals} {L : DecimalLaws ext_decimal}.

(** Settling a trade moves exactly the traded money: the buyer's reserved quote and the
    seller's reserved base go down by the quote value and the amount, the counterparties receive
    them net of a fee that is rounded down and never exceeds what is received, and every other
    row keeps its contents. *)
Theorem settle_trade_exact t c c' :
  settle_trade t c = (Ok tt, c') →
  ∃ a q bf sf, trade_units t a q bf sf ∧ ∀ k,
    available_of c' k = available_of c k
      + (if decide (k = (mr_buyer_id t, mr_base_mint t)) then (a - bf) * 10 ^ 19 else 0)
      + (if decide (k = (mr_seller_id t, mr_quote_mint t)) then (q - sf) * 10 ^ 19 else 0) ∧
    locked_of c' k = locked_of c k
      - (if decide (k = (mr_buyer_id t, mr_quote_mint t)) then q * 10 ^ 19 else 0)
      - (if decide (k = (mr_seller_id t, mr_base_mint t)) then a * 10 ^ 19 else 0) ∧
    (k ∉ [(mr_buyer_id t, mr_quote_mint t); (mr_seller_id t, mr_quote_mint t);
          (mr_seller_id t, mr_base_mint t); (mr_buyer_id t, mr_base_mint t)] →
     balances c' !! k = balances c !! k).
Proof.
  intros (chs & Hchs & Hk)%settle_trade_run.
  apply settlement_changes_run in Hchs as (a & q & bf & sf & Hu & _ & _ & _ & ->).
  exists a, q, bf, sf. split; [done |]. intros k. destruct (Hk k) as (Ha & Hl & Hout & _).
  rewrite Ha, Hl. unfold change_at. cbn. split_and!; [| | exact Hout].
  all: repeat case_decide; simplify_eq; lia.
Qed.

(** A settlement that fails leaves the cache exactly as it was, rows included, and it never
    panics: the staged row it looks up is always there. *)
Theorem settle_trade_all_or_nothing t c r c' :
  settle_trade t c = (r, c') → r ≠ Ok tt → c' = c ∧ r ≠ Panic.
Proof.
  intros Hrun Hr. split.
  - eapply settle_trade_atomic; [done |]. by destruct r as [[]| |].
  - pose proof (settle_trade_safe t c) as Hsafe. by rewrite Hrun in Hsafe.
Qed.

(** Settlement conserves money: the supply of the base asset drops by the buyer's fee, that of
    the quote asset by the seller's fee, no other asset changes, and every row of a well-formed
    cache still holds two non-negative amounts within the column's range. *)
Theorem settle_trade_conserves t c c' :
  settle_trade t c = (Ok tt, c') → cache_wf c →
  cache_wf c' ∧
  ∃ a q bf sf, trade_units t a q bf sf ∧
    supply c' (mr_base_mint t) = supply c (mr_base_mint t) - bf * 10 ^ 19 ∧
    supply c' (mr_quote_mint t) = supply c (mr_quote_mint t) - sf * 10 ^ 19 ∧
    ∀ mint, mint ≠ mr_base_mint t → mint ≠ mr_quote_mint t → supply c' mint = supply c mint.
Proof.
  intros Hrun Hwf. split; [by eapply settle_trade_wf |].
  destruct (settle_trade_supply _ _ _ Hrun) as (a & q & bf & sf & Hu & Hne & Hsup).
  exists a, q, bf, sf. split; [done |].
  split_and!; intros; rewrite Hsup; repeat case_decide; simplify_eq; lia.
Qed.

(** A reservation moves its value between the available and the locked part of one row and
    nothing else: the total of every row and the supply of every asset stay the same. *)
Theorem reservation_moves u m v (lock : bool) c c' :
  change_reservation u m v lock c = (Ok tt, c') →
  0 < raw v ∧
  (∀ k, k ≠ (u, m) → balances c' !! k = balances c !! k) ∧
  available_of c' (u, m) = available_of c (u, m) + (if lock then - raw v else raw v) ∧
  locked_of c' (u, m) = locked_of c (u, m) + (if lock then raw v else - raw v) ∧
  (∀ mint, supply c' mint = supply c mint) ∧ (cache_wf c → cache_wf c').
Proof.
  intros Hrun. pose proof (change_reservation_moves _ _ _ _ _ _ Hrun) as Hk.
  pose proof (Hk (u, m)) as (_ & Ha & Hl). rewrite decide_True in Ha, Hl by done.
  split_and!; [| naive_solver | destruct lock; lia | destruct lock; lia | | ].
  - apply change_reservation_run in Hrun as (_ & _ & x & _ & _ & [Hx _] & ? & _). lia.
  - intros mint. by eapply change_reservation_supply.
  - intros Hwf. by eapply change_reservation_wf.
Qed.

(** Releasing what was reserved restores the cache: after a successful [lock_balance] the
    matching [unlock_balance] succeeds and every row holds the same money again. *)
Theorem lock_unlock_roundtrip u m v c c1 :
  lock_balance u m v c = (Ok tt, c1) →
  ∃ c2, unlock_balance u m v c1 = (Ok tt, c2) ∧ cache_equiv c2 c.
Proof.
  unfold lock_balance, unlock_balance. intros Hrun.
  pose proof (change_reservation_run _ _ _ _ _ _ Hrun)
    as (b & b' & x & Hb & Hc1 & Hx & Hpos & [[a Ha] [l Hl]] & [[a' Ha'] [l' Hl']] & Hav & Hlo).
  pose proof (in_units_range _ _ Ha). pose proof (in_units_range _ _ Hl).
  pose proof (in_units_range _ _ Ha'). pose proof (in_units_range _ _ Hl').
  assert (a' = a - x ∧ l' = l + x) as [-> ->] by (unfold in_units in *; lia).
  destruct (change_reservation_total u m v false c1 b' (a - x) (l + x) x) as [c2 Hrun2];
    [by rewrite Hc1, lookup_insert_eq | done | done | done | done | lia | lia | lia | | |].
  - replace (a - x + 1 * x) with a by lia. by eapply in_units_representable.
  - replace (l + x - 1 * x) with l by lia. by eapply in_units_representable.
  - exists c2. split; [done |]. intros k.
    apply change_reservation_run in Hrun2 as (b1 & b2 & x2 & Hb1 & Hc2 & _ & _ & _ & _ & Hav2 & Hlo2).
    rewrite Hc1, lookup_insert_eq in Hb1. injection Hb1 as <-. rewrite Hc2, Hc1.
    destruct (decide (k = (u, m))) as [->|Hk].
    + rewrite lookup_insert_eq, Hb. constructor. split; lia.
    + rewrite !lookup_insert_ne by congruence. destruct (balances c !! k); constructor. by split.
Qed.

(** So the money of every account and the supply of every asset are what they were. *)
Corollary lock_unlock_money u m v c c1 :
  lock_balance u m v c = (Ok tt, c1) →
  ∃ c2, unlock_balance u m v c1 = (Ok tt, c2) ∧
    (∀ k, available_of c2 k = available_of c k ∧ locked_of c2 k = locked_of c k) ∧ (∀ mint, supply c2 mint = supply c mint).
Proof.
  intros (c2 & Hrun & Heq)%lock_unlock_roundtrip. exists c2. split; [done |].
  split; [intros k; by rewrite !Heq | intros mint; by rewrite Heq].
Qed.
End balance_properties.

(** ** The properties at concrete inputs *)

Section balance_examples.
#[local] Existing Instance ref_externals.
#[local] Existing Instance ref_decimal_laws.

Definition ex_cache : BalanceCache :=
  set_balance 1 "USDT" (dz "50") (dz "100")
    (set_balance 2 "SOL" (dz "0.5") (dz "10") cache_new).

(** Ten SOL at 2 USDT, the buyer pays 0.1%, the seller 0.2%. *)
Definition ex_trade : MatchResult :=
  {| mr_buyer_fee_rate := dz "0.001"; mr_seller_fee_rate := dz "0.002";
     mr_buy_order_id := 11; mr_sell_order_id := 12; mr_buyer_id := 1; mr_seller_id := 2;
     mr_price := dz "2"; mr_amount := dz "10"; mr_base_mint := "SOL"; mr_quote_mint := "USDT" |}.

Definition ex_settled : BalanceCache := (settle_trade ex_trade ex_cache).2.

Definition money (c : BalanceCache) (k : account) : string * string :=
  let b := default balance_new (balances c !! k) in
  (dec_to_string (available b), dec_to_string (locked b)).

Example ex_settled_money :
  map (money ex_settled) [(1, "SOL"); (1, "USDT"); (2, "SOL"); (2, "USDT")]%string =
  [("9.99", "0"); ("50", "80"); ("0.5", "0"); ("19.96", "0")]%string.
Proof. vm_compute. reflexivity. Qed.

Lemma ex_settled_run : settle_trade ex_trade ex_cache = (Ok tt, ex_settled).
Proof. apply run_pair. vm_compute. reflexivity. Qed.

Lemma ex_cache_wf : cache_wf ex_cache.
Proof.
  intros k b. unfold ex_cache. cbn. rewrite !lookup_insert_Some, lookup_empty.
  intros [[_ <-] | [_ [[_ <-] | [_ ?]]]]; [| | done].
  - split; [exists (50 * 10 ^ 9) | exists (100 * 10 ^ 9)]; by vm_compute.
  - split; [exists (5 * 10 ^ 8) | exists (10 * 10 ^ 9)]; by vm_compute.
Qed.

Lemma settle_trade_exact_witness :
  settle_trade ex_trade ex_cache = (Ok tt, ex_settled) ∧
  ∃ a q bf sf, trade_units ex_trade a q bf sf ∧
    available_of ex_settled (1, "SOL"%string) = available_of ex_cache (1, "SOL"%string) + (a - bf) * 10 ^ 19 + 0.
Proof.
  split; [exact ex_settled_run |].
  destruct (settle_trade_exact ex_trade ex_cache ex_settled ex_settled_run)
    as (a & q & bf & sf & Hu & Hk).
  exists a, q, bf, sf. split; [exact Hu |]. exact (proj1 (Hk (1, "SOL"%string))).
Defined.

(** The seller does not hold enough: nothing happens to the buyer's row either. *)
Definition ex_poor : BalanceCache := set_balance 1 "USDT" (dz "50") (dz "100") cache_new.

Definition ex_failed : BalanceCache := (settle_trade ex_trade ex_poor).2.

Lemma settle_trade_all_or_nothing_witness :
  settle_trade ex_trade ex_poor = (Err "Insufficient settlement balance", ex_failed) ∧
  ex_failed = ex_poor ∧ Err (A:=unit) "Insufficient settlement balance" ≠ Panic.
Proof.
  assert (Hrun : settle_trade ex_trade ex_poor = (Err "Insufficient settlement balance", ex_failed))
    by (apply run_pair; vm_compute; reflexivity).
  split; [exact Hrun |].
  apply (settle_trade_all_or_nothing _ _ _ _ Hrun). discriminate.
Defined.

Lemma settle_trade_conserves_witness :
  cache_wf ex_settled ∧ ∃ a q bf sf, trade_units ex_trade a q bf sf ∧
    supply ex_settled "SOL" = supply ex_cache "SOL" - bf * 10 ^ 19.
Proof.
  destruct (settle_trade_conserves ex_trade ex_cache ex_settled ex_settled_run ex_cache_wf)
    as (Hwf & a & q & bf & sf & Hu & Hs & _).
  split; [exact Hwf |]. exists a, q, bf, sf. split; [exact Hu | exact Hs].
Defined.

Definition ex_locked : BalanceCache := (lock_balance 2 "SOL" (dz "0.2") ex_cache).2.

Lemma ex_locked_run : lock_balance 2 "SOL" (dz "0.2") ex_cache = (Ok tt, ex_locked).
Proof. apply run_pair. vm_compute. reflexivity. Qed.

Lemma reservation_moves_witness :
  change_reservation 2 "SOL" (dz "0.2") true ex_cache = (Ok tt, ex_locked) ∧
  locked_of ex_locked (2, "SOL"%string) = locked_of ex_cache (2, "SOL"%string) + raw (dz "0.2").
Proof.
  split; [exact ex_locked_run |].
  exact (proj1 (proj2 (proj2 (proj2 (reservation_moves _ _ _ true _ _ ex_locked_run))))).
Defined.

Lemma lock_unlock_roundtrip_witness :
  ∃ c2, unlock_balance 2 "SOL" (dz "0.2") ex_locked = (Ok tt, c2) ∧ cache_equiv c2 ex_cache.
Proof. exact (lock_unlock_roundtrip _ _ _ _ _ ex_locked_run). Defined.
End balance_examples.
