(* ===== verification/BTree.v ===== *)
(** * Ordered maps keyed by a price

    [BTreeMap<Decimal, V>] of the standard library, as the list of its entries in ascending key
    order. Keys are compared with [Ord::cmp] of [Decimal], which looks at the value and not at how
    it is written, so two keys of the same value are the same key; like [BTreeMap::insert], an
    update of an existing entry keeps the key that is already there. *)

From stdpp Require Import base tactics gmap list sorting.
From Stdlib Require Import ZArith Lia.
From S2P Require Import Prelude Decimals.

Section btree.
Context {D : DecimalOps} {V : Type}.

Definition btree : Type := list (Decimal * V).

(** [BTreeMap::get]. *)
Fixpoint bt_get (k : Decimal) (m : btree) : option V :=
  match m with
  | [] => None
  | (j, v) :: m => match dec_cmp k j with Eq => Some v | _ => bt_get k m end
  end.

(** Change, create or remove the entry of a key: what [entry], [insert], [get_mut] and [remove]
    do to the map. *)
Fixpoint bt_alter (f : option V → option V) (k : Decimal) (m : btree) : btree :=
  match m with
  | [] => match f None with Some v => [(k, v)] | None => [] end
  | (j, v) :: m' =>
      match dec_cmp k j with
      | Lt => match f None with Some w => (k, w) :: m | None => m end
      | Eq => match f (Some v) with Some w => (j, w) :: m' | None => m' end
      | Gt => (j, v) :: bt_alter f k m'
      end
  end.

Definition bt_insert (k : Decimal) (v : V) (m : btree) : btree := bt_alter (fun _ => Some v) k m.
Definition bt_remove (k : Decimal) (m : btree) : btree := bt_alter (fun _ => None) k m.

(** Ascending keys. *)
Definition bt_lt (a b : Decimal * V) : Prop := raw a.1 < raw b.1.
Definition bt_sorted (m : btree) : Prop := StronglySorted bt_lt m.
End btree.
Arguments btree {D} V.

Section btree_facts.
Context {D : DecimalOps} {L : DecimalLaws D} {V : Type}.
Implicit Types (m : btree V) (f : option V → option V).

Lemma bt_get_raw k k' m : raw k = raw k' → bt_get k m = bt_get k' m.
Proof.
  intros Hk. induction m as [|[j v] m IH]; [done |]. cbn. by rewrite !dec_cmp_raw, Hk, IH.
Qed.

Lemma bt_get_elem k m v : bt_get k m = Some v → ∃ j, (j, v) ∈ m ∧ raw j = raw k.
Proof.
  induction m as [|[j w] m IH]; [done |]. cbn. rewrite dec_cmp_raw.
  destruct (Z.compare_spec (raw k) (raw j)); intros Hv; simplify_eq.
  - exists j. split; [left | done].
  - destruct (IH Hv) as (i & ? & ?). exists i. split; [by right | done].
  - destruct (IH Hv) as (i & ? & ?). exists i. split; [by right | done].
Qed.

Lemma bt_sorted_cons e m :
  bt_sorted (e :: m) ↔ bt_sorted m ∧ ∀ e', e' ∈ m → raw e.1 < raw e'.1.
Proof.
  unfold bt_sorted. split.
  - intros [Hs Hf]%StronglySorted_inv. split; [done |]. by rewrite Forall_forall in Hf.
  - intros [Hs Hf]. constructor; [done |]. by rewrite Forall_forall.
Qed.

Lemma bt_get_small k m :
  (∀ e, e ∈ m → raw k < raw e.1) → bt_get k m = None.
Proof.
  induction m as [|[j v] m IH]; intros Hm; [done |]. cbn. rewrite dec_cmp_raw.
  pose proof (Hm (j, v) ltac:(left)). cbn in *.
  destruct (Z.compare_spec (raw k) (raw j)); try lia. apply IH. intros e He. apply Hm. by right.
Qed.

(** In a sorted map an entry is what its key finds. *)
Lemma bt_elem_get j v m : bt_sorted m → (j, v) ∈ m → bt_get j m = Some v.
Proof.
  induction m as [|[i w] m IH]; intros Hs Hin; [by apply elem_of_nil in Hin |].
  apply bt_sorted_cons in Hs as [Hs Hlt]. cbn. rewrite dec_cmp_raw.
  apply elem_of_cons in Hin as [Heq|Hin].
  - simplify_eq. by rewrite Z.compare_refl.
  - pose proof (Hlt (j, v) Hin). cbn in *.
    destruct (Z.compare_spec (raw j) (raw i)); try lia; by apply IH.
Qed.

(** An entry is named by the value of its key. *)
Lemma bt_elem_unique m e e' : bt_sorted m → e ∈ m → e' ∈ m → raw e.1 = raw e'.1 → e = e'.
Proof.
  intros Hs. induction Hs as [|x m Hs IH Hall]; intros He He' Hr; [by apply elem_of_nil in He |].
  rewrite Forall_forall in Hall. unfold bt_lt in Hall.
  apply elem_of_cons in He as [->|He]; apply elem_of_cons in He' as [->|He']; [done | | | by apply IH].
  - specialize (Hall _ He'). lia.
  - specialize (Hall _ He). lia.
Qed.

Lemma bt_alter_bound f k m (z : Z) :
  z < raw k → (∀ e, e ∈ m → z < raw e.1) → ∀ e, e ∈ bt_alter f k m → z < raw e.1.
Proof.
  intros Hk. induction m as [|[j v] m IH]; intros Hm e; cbn.
  - destruct (f None); [| set_solver]. by intros ->%list_elem_of_singleton.
  - assert (Hm' : ∀ e, e ∈ m → z < raw e.1) by (intros; apply Hm; by right).
    pose proof (Hm (j, v) ltac:(left)).
    destruct (dec_cmp k j); [destruct (f (Some v)) | destruct (f None) |];
      rewrite ?elem_of_cons; intros Hin; destruct_or?; subst; cbn in *; auto.
Qed.

Lemma bt_alter_sorted f k m : bt_sorted m → bt_sorted (bt_alter f k m).
Proof.
  induction m as [|[j v] m IH]; intros Hs; cbn.
  - destruct (f None); repeat constructor.
  - pose proof Hs as Hs0. apply bt_sorted_cons in Hs as [Hs Hlt]. cbn in Hlt.
    rewrite dec_cmp_raw. destruct (Z.compare_spec (raw k) (raw j)) as [Heq|Hkj|Hkj].
    + destruct (f (Some v)); [| done]. by apply bt_sorted_cons.
    + destruct (f None); [| done]. apply bt_sorted_cons. split; [done |].
      intros e [->|He]%elem_of_cons; [done |]. specialize (Hlt e He). cbn in *. lia.
    + apply bt_sorted_cons. split; [by apply IH |]. cbn. by apply bt_alter_bound.
Qed.

Lemma bt_get_alter f k k' m :
  bt_sorted m →
  bt_get k' (bt_alter f k m) = if raw k' =? raw k then f (bt_get k m) else bt_get k' m.
Proof.
  induction m as [|[j v] m IH]; intros Hs; cbn.
  - destruct (Z.eqb_spec (raw k') (raw k)) as [Hk|Hk].
    + destruct (f None); [| done]. cbn. by rewrite dec_cmp_raw, Hk, Z.compare_refl.
    + destruct (f None); [| done]. cbn. rewrite dec_cmp_raw. by destruct (Z.compare_spec (raw k') (raw k)).
  - apply bt_sorted_cons in Hs as [Hs Hlt]. cbn in Hlt. rewrite !dec_cmp_raw.
    destruct (Z.compare_spec (raw k) (raw j)) as [Heq|Hkj|Hkj].
    + destruct (Z.eqb_spec (raw k') (raw k)) as [Hk|Hk].
      * destruct (f (Some v)); cbn; rewrite ?dec_cmp_raw, ?Hk, ?Heq, ?Z.compare_refl; [done |].
        rewrite (bt_get_raw k' j) by congruence. apply bt_get_small. intros e He. by apply Hlt.
      * destruct (f (Some v)); cbn; rewrite ?dec_cmp_raw; destruct (Z.compare_spec (raw k') (raw j)); done || lia.
    + assert (bt_get k m = None) as Hn.
      { apply bt_get_small. intros e He. specialize (Hlt e He). lia. }
      destruct (Z.eqb_spec (raw k') (raw k)) as [Hk|Hk].
      * rewrite Hn. destruct (f None); cbn; rewrite ?dec_cmp_raw, ?Hk, ?Z.compare_refl; [done |].
        destruct (Z.compare_spec (raw k) (raw j)); try lia. by rewrite (bt_get_raw k' k).
      * destruct (f None); cbn; rewrite ?dec_cmp_raw; [| done].
        destruct (Z.compare_spec (raw k') (raw k)); done || lia.
    + cbn. rewrite dec_cmp_raw, IH by done.
      destruct (Z.compare_spec (raw k') (raw j)), (Z.eqb_spec (raw k') (raw k)); done || lia.
Qed.

Lemma bt_get_insert k k' v m :
  bt_sorted m → bt_get k' (bt_insert k v m) = if raw k' =? raw k then Some v else bt_get k' m.
Proof. apply bt_get_alter. Qed.

Lemma bt_get_remove k k' m :
  bt_sorted m → bt_get k' (bt_remove k m) = if raw k' =? raw k then None else bt_get k' m.
Proof. apply bt_get_alter. Qed.

(** The keys of an altered map: no new values but the altered key. *)
Lemma bt_alter_elem f k m j w :
  bt_sorted m → (j, w) ∈ bt_alter f k m →
  if raw j =? raw k then f (bt_get k m) = Some w else (j, w) ∈ m.
Proof.
  intros Hs Hin. pose proof (bt_elem_get j w _ (bt_alter_sorted f k m Hs) Hin) as Hget.
  rewrite bt_get_alter in Hget by done. destruct (Z.eqb_spec (raw j) (raw k)) as [|Hne]; [done |].
  clear Hget Hs. induction m as [|[i v] m IH]; cbn in Hin.
  - destruct (f None); [| by apply elem_of_nil in Hin]. apply list_elem_of_singleton in Hin. by simplify_eq.
  - rewrite dec_cmp_raw in Hin.
    destruct (Z.compare_spec (raw k) (raw i)); [destruct (f (Some v)) | destruct (f None) |];
      rewrite ?elem_of_cons in Hin; rewrite ?elem_of_cons; destruct_or?; simplify_eq; auto.
Qed.

(** A sum over the entries, after an update of one of them. *)
Lemma bt_alter_sum (g : V → Z) f k m :
  bt_sorted m →
  lsum (fun e => g e.2) (bt_alter f k m) =
  lsum (fun e => g e.2) m + from_option g 0 (f (bt_get k m)) - from_option g 0 (bt_get k m).
Proof.
  induction m as [|[j v] m IH]; intros Hs; cbn [bt_alter bt_get].
  - destruct (f None); cbn; lia.
  - apply bt_sorted_cons in Hs as [Hs Hlt]. rewrite dec_cmp_raw, lsum_cons.
    destruct (Z.compare_spec (raw k) (raw j)) as [Heq|Hkj|Hkj].
    + destruct (f (Some v)); rewrite ?lsum_cons; cbn [from_option snd]; lia.
    + rewrite bt_get_small; [destruct (f None); rewrite ?lsum_cons; cbn [from_option snd]; lia |].
      intros e He. specialize (Hlt e He). cbn in *. lia.
    + rewrite lsum_cons, IH by done. cbn [snd]. lia.
Qed.

(** Only what an update makes of the entry found matters. *)
Lemma bt_alter_ext f g k m :
  bt_sorted m → f (bt_get k m) = g (bt_get k m) → bt_alter f k m = bt_alter g k m.
Proof.
  induction m as [|[j v] m IH]; intros Hs Hfg; cbn in *; [by rewrite Hfg |].
  apply bt_sorted_cons in Hs as [Hs Hlt]. rewrite dec_cmp_raw in *.
  destruct (Z.compare_spec (raw k) (raw j)) as [Heq|Hkj|Hkj].
  - by rewrite Hfg.
  - rewrite bt_get_small in Hfg; [by rewrite Hfg |].
    intros e He. specialize (Hlt e He). cbn in *. lia.
  - by rewrite IH.
Qed.

Lemma bt_sorted_nil : bt_sorted (V:=V) [].
Proof. constructor. Qed.
End btree_facts.
