(* ===== verification/OrderBook.v ===== *)
(** * The order book ([engine/orderbook.rs])

    One side is a price-ordered map from a price to the queue of orders resting there, oldest
    first, with a cached number of orders. Functions that the code writes with [expect] or with an
    unsigned subtraction return [Panic] where the code would panic; the lemmas show that a
    well-formed side never gets there. *)

From stdpp Require Import base tactics gmap list sorting strings.
From Stdlib Require Import ZArith Lia.
From S2P Require Import Prelude Text Decimals BTree RefDecimal Types.

Section orderbook.
Context {E : Externals}.

(** ** One side *)

Record OrderBookSide := mk_side {
  orders : btree (list OrderEntry);
  total_orders : Z;
}.

Definition side_new : OrderBookSide := mk_side [] 0.

(** [OrderBookSide::add_order]: behind the orders of the same price. *)
Definition side_add_order (order : OrderEntry) : st OrderBookSide unit :=
  price ← lift (expect (oe_price order));
  smodify (fun s =>
    mk_side (bt_alter (fun q => Some (default [] q ++ [order])) price (orders s))
            (total_orders s + 1)).

(** [usize] subtraction: below zero is a panic. *)
Definition usize_sub (a b : Z) : result Z := if b <=? a then Ok (a - b) else Panic.

(** [OrderBookSide::remove_order]: the first order with the id at the price. *)
Definition side_remove_order (order_id : Z) (price : Decimal) :
    st OrderBookSide (option OrderEntry) :=
  s ← sget;
  match bt_get price (orders s) with
  | Some queue =>
      match list_find (fun o => oe_id o = order_id) queue with
      | Some (pos, order) =>
          let queue := delete pos queue in
          let rows := if bool_decide (queue = []) then bt_remove price (orders s)
                      else bt_insert price queue (orders s) in
          _ ← sput (mk_side rows (total_orders s));
          total ← lift (usize_sub (total_orders s) 1);
          _ ← sput (mk_side rows total);
          mret (Some order)
      | None => mret None
      end
  | None => mret None
  end.

(** The loop [while !changed.is_empty()] of [apply_prepared_orders]: pop orders from the front of
    the queue until every change is used up; what stays goes to the prefix. *)
Fixpoint drain (changed : gmap Z OrderEntry) (queue prefix : list OrderEntry) :
    result (list OrderEntry * list OrderEntry) :=
  if bool_decide (changed = ∅) then Ok (prefix, queue) else
  match queue with
  | [] => Panic
  | order :: queue =>
      let rest := delete (oe_id order) changed in
      match changed !! oe_id order with
      | Some next =>
          if dec_ltb dec_zero (oe_remaining_amount next) then drain rest queue (prefix ++ [next])
          else drain rest queue prefix
      | None => drain rest queue (prefix ++ [order])
      end
  end.

(** [while let Some(order) = prefix.pop_back() { queue.push_front(order) }]. *)
Definition push_front_all (prefix queue : list OrderEntry) : list OrderEntry :=
  foldl (fun q o => o :: q) queue (reverse prefix).

(** The body of the loop over the changed price levels. *)
Definition apply_level (price : Decimal) (changed : gmap Z OrderEntry) : st OrderBookSide unit :=
  s ← sget;
  queue ← lift (expect (bt_get price (orders s)));
  let before := Z.of_nat (length queue) in
  '(prefix, rest) ← lift (drain changed queue []);
  let queue := push_front_all prefix rest in
  gone ← lift (usize_sub before (Z.of_nat (length queue)));
  total ← lift (usize_sub (total_orders s) gone);
  sput (mk_side (if bool_decide (queue = []) then bt_remove price (orders s)
                 else bt_insert price queue (orders s)) total).

Fixpoint apply_prepared_orders (changes : btree (gmap Z OrderEntry)) : st OrderBookSide unit :=
  match changes with
  | [] => mret tt
  | (price, changed) :: rest => _ ← apply_level price changed; apply_prepared_orders rest
  end.

(** [get_best_price]: the last key for a buy side, the first for a sell side. *)
Definition get_best_price (is_buy : bool) (s : OrderBookSide) : option Decimal :=
  if is_buy then fst <$> last (orders s) else fst <$> head (orders s).

Definition get_orders_at_price (price : Decimal) (s : OrderBookSide) : option (list OrderEntry) :=
  bt_get price (orders s).
Definition price_levels (s : OrderBookSide) : Z := Z.of_nat (length (orders s)).
Definition side_is_empty (s : OrderBookSide) : bool :=
  match orders s with [] => true | _ => false end.
(** [iter]: the levels in ascending price order. *)
Definition iter (s : OrderBookSide) : list (Decimal * list OrderEntry) := orders s.

(** ** Both sides *)

Record OrderBook := mk_book {
  trading_pair : TradingPair;
  buy_orders : OrderBookSide;
  sell_orders : OrderBookSide;
}.

Definition book_new (pair : TradingPair) : OrderBook := mk_book pair side_new side_new.

Definition on_buy {A} (m : st OrderBookSide A) : st OrderBook A :=
  zoom buy_orders (fun s b => mk_book (trading_pair b) s (sell_orders b)) m.
Definition on_sell {A} (m : st OrderBookSide A) : st OrderBook A :=
  zoom sell_orders (fun s b => mk_book (trading_pair b) (buy_orders b) s) m.

Definition book_add_order (order : OrderEntry) : st OrderBook unit :=
  if String.eqb (oe_order_type order) "buy" then on_buy (side_add_order order)
  else if String.eqb (oe_order_type order) "sell" then on_sell (side_add_order order)
  else mret tt.

Definition book_remove_order (order_id : Z) (order_type : string) (price : Decimal) :
    st OrderBook (option OrderEntry) :=
  if String.eqb order_type "buy" then on_buy (side_remove_order order_id price)
  else if String.eqb order_type "sell" then on_sell (side_remove_order order_id price)
  else mret None.

Definition get_best_bid (b : OrderBook) : option Decimal := get_best_price true (buy_orders b).
Definition get_best_ask (b : OrderBook) : option Decimal := get_best_price false (sell_orders b).

(** Plain decimal arithmetic: an overflow is a panic. *)
Definition get_spread (b : OrderBook) : result (option Decimal) :=
  match get_best_ask b, get_best_bid b with
  | Some ask, Some bid => d ← expect (dec_sub ask bid); Ok (Some d)
  | _, _ => Ok None
  end.
Definition get_mid_price (b : OrderBook) : result (option Decimal) :=
  match get_best_ask b, get_best_bid b with
  | Some ask, Some bid =>
      sum ← expect (dec_add ask bid);
      mid ← expect (dec_half sum);
      Ok (Some mid)
  | _, _ => Ok None
  end.

(** [Iterator::sum] of decimals. *)
Definition dec_sum (l : list Decimal) : result Decimal :=
  fold_result (fun acc d => expect (dec_add acc d)) dec_zero l.

(** One row of the depth view: the price and the total of its queue. *)
Definition depth_row (level : Decimal * list OrderEntry) : result (Decimal * Decimal) :=
  total_amount ← dec_sum (map oe_remaining_amount level.2);
  Ok (level.1, total_amount).

Definition get_buy_orders (depth : nat) (b : OrderBook) : result (list (Decimal * Decimal)) :=
  map_results depth_row (take depth (rev (orders (buy_orders b)))).
Definition get_sell_orders (depth : nat) (b : OrderBook) : result (list (Decimal * Decimal)) :=
  map_results depth_row (take depth (orders (sell_orders b))).

Definition total_buy_orders (b : OrderBook) : Z := total_orders (buy_orders b).
Definition total_sell_orders (b : OrderBook) : Z := total_orders (sell_orders b).
Definition book_is_empty (b : OrderBook) : bool :=
  side_is_empty (buy_orders b) && side_is_empty (sell_orders b).

(** ** Well-formed sides *)

(** The queue at a price, empty when there is no such level. *)
Definition level (s : OrderBookSide) (p : Decimal) : list OrderEntry := default [] (bt_get p (orders s)).

(** The number of orders, counted. *)
Definition count (s : OrderBookSide) : Z := lsum (fun e => Z.of_nat (length e.2)) (orders s).

Record side_wf (s : OrderBookSide) : Prop := {
  sw_sorted : bt_sorted (orders s);
  sw_nonempty : ∀ p, bt_get p (orders s) ≠ Some [];
  sw_total : total_orders s = count s;
  sw_price : ∀ p o, o ∈ level s p → ∃ q, oe_price o = Some q ∧ raw q = raw p;
  sw_nodup : ∀ p, NoDup (map oe_id (level s p));
  sw_unique : ∀ p q o o', o ∈ level s p → o' ∈ level s q → oe_id o = oe_id o' → raw p = raw q;
}.

(** What committing the changes of a level does to one of its orders. *)
Definition replace (changed : gmap Z OrderEntry) (o : OrderEntry) : option OrderEntry :=
  match changed !! oe_id o with
  | Some next => if dec_ltb dec_zero (oe_remaining_amount next) then Some next else None
  | None => Some o
  end.
End orderbook.

Section orderbook_facts.
Context {E : Externals} {L : DecimalLaws ext_decimal}.

Lemma level_raw s p q : raw p = raw q → level s p = level s q.
Proof. intros Hr. unfold level. by rewrite (bt_get_raw p q). Qed.

Lemma push_front_all_app prefix queue : push_front_all prefix queue = prefix ++ queue.
Proof.
  unfold push_front_all. revert queue. induction prefix as [|o prefix IH] using rev_ind; intros queue; [done |].
  by rewrite reverse_snoc; cbn; rewrite IH, <- app_assoc.
Qed.

Lemma usize_sub_ok a b : b ≤ a → usize_sub a b = Ok (a - b).
Proof. intros H. unfold usize_sub. by rewrite (proj2 (Z.leb_le b a)). Qed.

(** A level's queue counts as part of the whole. *)
Lemma count_level s p : side_wf s → Z.of_nat (length (level s p)) ≤ count s.
Proof.
  intros Hwf. pose proof (bt_alter_sum (fun q : list OrderEntry => Z.of_nat (length q)) (fun _ => None)
    p (orders s) (sw_sorted _ Hwf)) as Hsum.
  assert (0 ≤ lsum (fun e => Z.of_nat (length e.2)) (bt_alter (fun _ => None) p (orders s)))
    by (apply lsum_nonneg; lia).
  unfold count, level. destruct (bt_get p (orders s)); cbn in *; lia.
Qed.

(** Replace the queue of one level, dropping the level when nothing is left. *)
Definition set_level (p : Decimal) (q : list OrderEntry) (total : Z) (s : OrderBookSide) : OrderBookSide :=
  mk_side (if bool_decide (q = []) then bt_remove p (orders s) else bt_insert p q (orders s)) total.

Lemma set_level_level p q total s k :
  bt_sorted (orders s) → level (set_level p q total s) k = if raw k =? raw p then q else level s k.
Proof.
  intros Hs. unfold level, set_level. cbn. case_bool_decide as Hq; subst.
  - rewrite bt_get_remove by done. by destruct (raw k =? raw p).
  - rewrite bt_get_insert by done. by destruct (raw k =? raw p).
Qed.

Lemma set_level_sorted p q total s : bt_sorted (orders s) → bt_sorted (orders (set_level p q total s)).
Proof. intros Hs. unfold set_level. cbn. case_bool_decide; by apply bt_alter_sorted. Qed.

Lemma set_level_nonempty p q total s :
  bt_sorted (orders s) → (∀ k, bt_get k (orders s) ≠ Some []) →
  ∀ k, bt_get k (orders (set_level p q total s)) ≠ Some [].
Proof.
  intros Hs Hne k. unfold set_level. cbn. case_bool_decide.
  - rewrite bt_get_remove by done. by destruct (raw k =? raw p).
  - rewrite bt_get_insert by done. destruct (raw k =? raw p); naive_solver.
Qed.

Lemma set_level_count p q total s :
  bt_sorted (orders s) →
  count (set_level p q total s) = count s + Z.of_nat (length q) - Z.of_nat (length (level s p)).
Proof.
  intros Hs. unfold count, set_level, level. cbn [orders].
  case_bool_decide as Hq; subst; unfold bt_remove, bt_insert;
    rewrite (bt_alter_sum (fun q : list OrderEntry => Z.of_nat (length q))) by done;
    destruct (bt_get p (orders s)); cbn; lia.
Qed.

(** A level may be replaced by any queue of orders at its price whose ids are new to the side or
    were already in the level. *)
Lemma set_level_wf p q total s :
  side_wf s → total = count s + Z.of_nat (length q) - Z.of_nat (length (level s p)) →
  (∀ o, o ∈ q → ∃ r, oe_price o = Some r ∧ raw r = raw p) →
  NoDup (map oe_id q) →
  (∀ o, o ∈ q → (∃ o', o' ∈ level s p ∧ oe_id o' = oe_id o) ∨
                (∀ k o', o' ∈ level s k → oe_id o' ≠ oe_id o)) →
  side_wf (set_level p q total s).
Proof.
  intros Hwf Ht Hp Hnd Hids. pose proof (sw_sorted _ Hwf) as Hs.
  split; [by apply set_level_sorted | apply set_level_nonempty;
    [done | apply Hwf] | | intros k o | intros k | intros k j o o' ].
  - by rewrite set_level_count.
  - rewrite set_level_level by done. destruct (Z.eqb_spec (raw k) (raw p)) as [->|]; [apply Hp | apply Hwf].
  - rewrite set_level_level by done. destruct (raw k =? raw p); [done | apply Hwf].
  - rewrite !set_level_level by done.
    destruct (Z.eqb_spec (raw k) (raw p)) as [Hk|Hk], (Z.eqb_spec (raw j) (raw p)) as [Hj|Hj]; intros Ho Ho' Hid.
    + congruence.
    + destruct (Hids o Ho) as [(o1 & Ho1 & Hid1)|Hfresh]; [| by destruct (Hfresh j o')].
      rewrite Hk. apply (sw_unique _ Hwf p j o1 o'); [done | done | congruence].
    + destruct (Hids o' Ho') as [(o1 & Ho1 & Hid1)|Hfresh]; [| by destruct (Hfresh k o)].
      rewrite Hj. apply (sw_unique _ Hwf k p o o1); [done | done | congruence].
    + by apply (sw_unique _ Hwf k j o o').
Qed.

(** ** Adding *)

Lemma side_add_order_run order s p :
  oe_price order = Some p → side_wf s →
  ∃ s', side_add_order order s = (Ok tt, s') ∧
    s' = mk_side (bt_alter (fun q => Some (default [] q ++ [order])) p (orders s)) (total_orders s + 1) ∧
    ∀ k, level s' k = if raw k =? raw p then level s p ++ [order] else level s k.
Proof.
  intros Hp Hwf. unfold side_add_order. rewrite Hp. eexists. split; [done |]. split; [done |].
  intros k. unfold level at 1. cbn. rewrite bt_get_alter by apply Hwf. by destruct (raw k =? raw p).
Qed.

Lemma side_add_order_wf order s s' :
  side_wf s → side_add_order order s = (Ok tt, s') →
  (∀ k o, o ∈ level s k → oe_id o ≠ oe_id order) → side_wf s'.
Proof.
  intros Hwf Hrun Hfresh. destruct (oe_price order) as [p|] eqn:Hp.
  2: { unfold side_add_order in Hrun. rewrite Hp in Hrun. done. }
  destruct (side_add_order_run order s p Hp Hwf) as (s1 & Hrun1 & Hs1 & Hlev).
  rewrite Hrun in Hrun1. injection Hrun1 as <-.
  assert (s' = set_level p (level s p ++ [order]) (total_orders s + 1) s) as ->.
  { rewrite Hs1. unfold set_level. rewrite bool_decide_false by by destruct (level s p).
    f_equal. by apply bt_alter_ext; [apply Hwf |]. }
  apply set_level_wf; [done | | | | ].
  - rewrite (sw_total _ Hwf), length_app. cbn. lia.
  - intros o [Ho | ->%list_elem_of_singleton]%elem_of_app; [by apply (sw_price _ Hwf) | eauto].
  - rewrite map_app. apply NoDup_app. split_and!; [apply Hwf | | apply NoDup_singleton].
    intros i Hi ->%list_elem_of_singleton. apply list_elem_of_fmap in Hi as (o & Hid & Ho).
    by apply (Hfresh p o Ho).
  - intros o [Ho | ->%list_elem_of_singleton]%elem_of_app; [left; eauto | right; eauto].
Qed.

(** ** Removing *)

(** The order with an id at a price: at most one in a well-formed side. *)
Lemma side_remove_order_run s id p pos o :
  side_wf s → list_find (fun o => oe_id o = id) (level s p) = Some (pos, o) →
  ∃ s', side_remove_order id p s = (Ok (Some o), s') ∧
    s' = set_level p (delete pos (level s p)) (total_orders s - 1) s.
Proof.
  intros Hwf Hfind. unfold side_remove_order, mbind at 1, st_bind at 1, sget.
  pose proof (count_level s p Hwf) as Hc. rewrite <- (sw_total _ Hwf) in Hc.
  unfold level in *. destruct (bt_get p (orders s)) as [queue|] eqn:Hq; [| done]. cbn in *.
  rewrite Hfind. apply list_find_Some in Hfind as (Hpos & _). apply lookup_lt_Some in Hpos.
  unfold mbind, st_bind, sput, lift. rewrite usize_sub_ok by lia.
  eexists. split; [done |]. unfold set_level. done.
Qed.

Lemma delete_elem_of {A} (l : list A) i x : x ∈ delete i l → x ∈ l.
Proof. intros Hx. apply (elem_of_submseteq _ _ _ Hx), sublist_submseteq, sublist_delete. Qed.

Lemma side_remove_order_wf s id p pos o s' :
  side_wf s → list_find (fun o => oe_id o = id) (level s p) = Some (pos, o) →
  side_remove_order id p s = (Ok (Some o), s') → side_wf s'.
Proof.
  intros Hwf Hfind Hrun.
  destruct (side_remove_order_run _ _ _ _ _ Hwf Hfind) as (s1 & Hrun1 & ->).
  rewrite Hrun in Hrun1. injection Hrun1 as ->.
  apply list_find_Some in Hfind as (Hpos & _). apply lookup_lt_Some in Hpos as Hlt.
  apply set_level_wf; [done | | | | ].
  - rewrite (sw_total _ Hwf), length_delete by eauto. lia.
  - intros o1 Ho1%delete_elem_of. by apply (sw_price _ Hwf).
  - apply (sublist_NoDup _ (map oe_id (level s p))); [apply Hwf | apply (fmap_sublist oe_id), sublist_delete].
  - intros o1 Ho1%delete_elem_of. left. eauto.
Qed.

(** ** Committing prepared changes *)

Lemma replace_empty (queue : list OrderEntry) : omap (replace ∅) queue = queue.
Proof.
  induction queue as [|o queue IH]; [done |]. cbn. unfold replace at 1. rewrite lookup_empty.
  by rewrite IH.
Qed.

(** The drain loop rebuilds the queue: each changed order is replaced in place or dropped when
    nothing of it remains, the others keep their positions. *)
Lemma drain_run changed queue prefix :
  NoDup (map oe_id queue) → (∀ id n, changed !! id = Some n → id ∈ map oe_id queue) →
  ∃ p r, drain changed queue prefix = Ok (p, r) ∧ p ++ r = prefix ++ omap (replace changed) queue.
Proof.
  revert changed prefix. induction queue as [|o queue IH]; intros changed prefix Hnd Hids; cbn.
  - assert (changed = ∅) as ->. { apply map_empty. intros i. destruct (changed !! i) eqn:Hi; [| done].
      apply Hids in Hi. by apply elem_of_nil in Hi. }
    rewrite bool_decide_true by done. eauto.
  - cbn in Hnd. apply NoDup_cons in Hnd as [Ho Hnd].
    assert (Htail : omap (replace (delete (oe_id o) changed)) queue = omap (replace changed) queue).
    { apply list_omap_ext, Forall_Forall2_diag, Forall_forall. intros o2 H2.
      unfold replace. rewrite lookup_delete_ne; [done |]. intros Heq. apply Ho.
      rewrite Heq. apply list_elem_of_fmap. by exists o2. }
    assert (Hids' : ∀ id n, delete (oe_id o) changed !! id = Some n → id ∈ map oe_id queue).
    { intros id n [Hne Hn]%lookup_delete_Some. apply Hids in Hn. cbn in Hn.
      apply elem_of_cons in Hn as [->|]; done. }
    case_bool_decide as Hc.
    { subst. exists prefix, (o :: queue). split; [done |]. f_equal.
      symmetry. apply (replace_empty (o :: queue)). }
    unfold replace at 1. destruct (changed !! oe_id o) as [next|] eqn:Hn.
    + destruct (dec_ltb dec_zero (oe_remaining_amount next)).
      * destruct (IH (delete (oe_id o) changed) (prefix ++ [next]) Hnd Hids') as (p & r & Hd & Hpr).
        exists p, r. split; [done |]. by rewrite Hpr, <- app_assoc, Htail.
      * destruct (IH (delete (oe_id o) changed) prefix Hnd Hids') as (p & r & Hd & Hpr).
        exists p, r. split; [done |]. by rewrite Hpr, Htail.
    + destruct (IH (delete (oe_id o) changed) (prefix ++ [o]) Hnd Hids') as (p & r & Hd & Hpr).
      exists p, r. split; [done |]. by rewrite Hpr, <- app_assoc, Htail.
Qed.

(** Changes fit a level when each is for an order resting there and keeps its id and price. *)
Definition level_changes_ok (s : OrderBookSide) (p : Decimal) (changed : gmap Z OrderEntry) : Prop :=
  changed ≠ ∅ ∧ ∀ id n, changed !! id = Some n →
    oe_id n = id ∧ ∃ o, o ∈ level s p ∧ oe_id o = id ∧ oe_price n = oe_price o.

Definition changes_ok (s : OrderBookSide) (changes : btree (gmap Z OrderEntry)) : Prop :=
  bt_sorted changes ∧ ∀ p ch, (p, ch) ∈ changes → level_changes_ok s p ch.

Lemma replaced_elem changed (queue : list OrderEntry) o :
  o ∈ omap (replace changed) queue →
  (o ∈ queue ∧ changed !! oe_id o = None) ∨
  (∃ o', o' ∈ queue ∧ changed !! oe_id o' = Some o ∧ 0 < raw (oe_remaining_amount o)).
Proof.
  intros (o' & Ho' & Hr)%list_elem_of_omap. unfold replace in Hr.
  destruct (changed !! oe_id o') as [n|] eqn:Hn; [| naive_solver].
  rewrite dec_ltb_raw, zero_raw in Hr. destruct (Z.ltb_spec 0 (raw (oe_remaining_amount n))); naive_solver.
Qed.

(** A replaced queue keeps the ids it keeps in their order. *)
Lemma replaced_ids changed (queue : list OrderEntry) :
  (∀ id n, changed !! id = Some n → oe_id n = id) →
  map oe_id (omap (replace changed) queue) `sublist_of` map oe_id queue.
Proof.
  intros Hids. induction queue as [|o queue IH]; cbn; [done |].
  destruct (replace changed o) as [n|] eqn:Hr; [| by constructor].
  assert (oe_id n = oe_id o) as Heq.
  { unfold replace in Hr. destruct (changed !! oe_id o) eqn:Hn; [| naive_solver].
    apply Hids in Hn. case_match; naive_solver. }
  cbn. rewrite Heq. by constructor.
Qed.

Lemma apply_level_run s p ch :
  side_wf s → level_changes_ok s p ch →
  ∃ s', apply_level p ch s = (Ok tt, s') ∧ side_wf s' ∧
    ∀ k, level s' k = if raw k =? raw p then omap (replace ch) (level s p) else level s k.
Proof.
  intros Hwf [Hne Hch]. unfold apply_level, mbind at 1, st_bind at 1, sget.
  destruct (bt_get p (orders s)) as [queue|] eqn:Hq.
  2: { exfalso. apply Hne, map_empty. intros id. destruct (ch !! id) eqn:Hid; [| done].
       destruct (Hch _ _ Hid) as (_ & o' & Ho & _). unfold level in Ho. rewrite Hq in Ho.
       by apply elem_of_nil in Ho. }
  assert (Hlev : level s p = queue) by (unfold level; by rewrite Hq).
  rewrite (lift_bind _ _ _ queue) by done.
  destruct (drain_run ch queue []) as (pre & rest & Hd & Hpr).
  { rewrite <- Hlev. apply Hwf. }
  { intros id n Hn. destruct (Hch _ _ Hn) as (_ & o & Ho & <- & _). rewrite <- Hlev.
    apply list_elem_of_fmap. eauto. }
  rewrite (lift_bind _ _ _ (pre, rest)) by done. cbn beta iota.
  rewrite push_front_all_app, Hpr. cbn [app].
  pose proof (replaced_ids ch queue (fun id n Hn => proj1 (Hch id n Hn))) as Hsub.
  apply sublist_length in Hsub as Hlen. rewrite !length_map in Hlen.
  pose proof (count_level s p Hwf) as Hcount. rewrite Hlev in Hcount.
  pose proof (sw_total _ Hwf) as Htotal.
  rewrite usize_sub_ok by lia. rewrite (lift_bind (Ok _) _ _ _ eq_refl).
  rewrite usize_sub_ok by lia. rewrite (lift_bind (Ok _) _ _ _ eq_refl).
  eexists. split; [reflexivity |]. split.
  - apply set_level_wf; [done | rewrite (sw_total _ Hwf), Hlev; lia | | | ].
    + intros o Ho. rewrite <- Hlev in Ho. apply replaced_elem in Ho as [[Ho _] | (o' & Ho' & Hn & _)].
      * by apply (sw_price _ Hwf).
      * destruct (Hch _ _ Hn) as (_ & o1 & Ho1 & _ & ->). by apply (sw_price _ Hwf).
    + apply (sublist_NoDup _ (map oe_id queue)); [| done]. rewrite <- Hlev. apply Hwf.
    + intros o Ho. left. rewrite <- Hlev in Ho. apply replaced_elem in Ho as [[Ho _] | (o' & Ho' & Hn & _)]; [eauto |].
      destruct (Hch _ _ Hn) as (Hid & _). eauto.
  - intros k. rewrite <- Hlev. apply (set_level_level p (omap (replace ch) (level s p))), Hwf.
Qed.

(** Committing a batch of changes: the queue of every changed level is rebuilt, no other level is
    touched, and nothing panics. *)
Lemma apply_prepared_orders_run s changes :
  side_wf s → changes_ok s changes →
  ∃ s', apply_prepared_orders changes s = (Ok tt, s') ∧ side_wf s' ∧
    ∀ k, level s' k = omap (replace (default ∅ (bt_get k changes))) (level s k).
Proof.
  intros Hwf [Hsorted Hok]. revert s Hwf Hok.
  induction changes as [|[p ch] changes IH]; intros s Hwf Hok.
  - exists s. split_and!; [done | done |]. intros k. by rewrite replace_empty.
  - apply bt_sorted_cons in Hsorted as [Hsorted Hlt]. cbn in Hlt.
    destruct (apply_level_run s p ch Hwf) as (s1 & Hrun1 & Hwf1 & Hlev1); [apply Hok; left |].
    assert (Hoff : ∀ q c, (q, c) ∈ changes → level s1 q = level s q).
    { intros q c Hq. rewrite Hlev1. pose proof (Hlt _ Hq). cbn in *.
      by destruct (Z.eqb_spec (raw q) (raw p)); [lia |]. }
    destruct (IH Hsorted s1 Hwf1) as (s2 & Hrun2 & Hwf2 & Hlev2).
    { intros q c Hq. destruct (Hok q c) as [Hne Hch]; [by right |]. split; [done |].
      by rewrite (Hoff q c). }
    exists s2. split; [| split; [done |]].
    + cbn. unfold mbind, st_bind. by rewrite Hrun1.
    + intros k. rewrite Hlev2, Hlev1. cbn. rewrite dec_cmp_raw.
      destruct (Z.compare_spec (raw k) (raw p)) as [Heq|Hkp|Hkp];
        destruct (Z.eqb_spec (raw k) (raw p)); try lia; try done.
      rewrite (bt_get_small k changes) by (intros e' He; rewrite Heq; by apply Hlt).
      cbn. by rewrite replace_empty, (level_raw s k p).
Qed.

Lemma side_new_wf : side_wf side_new.
Proof.
  split; cbn; try done; [constructor | | | ].
  - intros p o Ho. by apply elem_of_nil in Ho.
  - intros p. apply NoDup_nil_2.
  - intros p q o o' Ho. by apply elem_of_nil in Ho.
Qed.

(** ** Best price *)

(** Some order rests at the price. *)
Definition has_level (s : OrderBookSide) (p : Decimal) : Prop := ∃ o, o ∈ level s p.

Lemma level_elem s p : side_wf s → (∃ q, (p, q) ∈ orders s) → has_level s p.
Proof.
  intros Hwf [q Hq]. pose proof (bt_elem_get _ _ _ (sw_sorted _ Hwf) Hq) as Hget.
  unfold has_level, level. rewrite Hget. cbn. destruct q as [|o q]; [| exists o; left].
  by destruct (sw_nonempty _ Hwf p).
Qed.

Lemma level_key s p : has_level s p → ∃ j q, (j, q) ∈ orders s ∧ raw j = raw p.
Proof.
  intros [o Ho]. unfold level in Ho. destruct (bt_get p (orders s)) as [q|] eqn:Hq;
    [| by apply elem_of_nil in Ho].
  apply bt_get_elem in Hq as (j & Hj & Hr). eauto.
Qed.
End orderbook_facts.

(** ** Properties *)

Section orderbook_properties.
Context {E : Externals} {L : DecimalLaws ext_decimal}.

(** Committing the makers of a plan on a well-formed side never panics, keeps the side
    well-formed (the cached order counter included) and rebuilds each queue in place: a changed
    order takes the position it had, one with nothing left disappears, every other order of every
    level keeps its place in the queue. *)
Theorem apply_prepared_orders_exact s changes :
  side_wf s → changes_ok s changes →
  ∃ s', apply_prepared_orders changes s = (Ok tt, s') ∧ side_wf s' ∧
    total_orders s' = count s' ∧
    ∀ k, level s' k = omap (replace (default ∅ (bt_get k changes))) (level s k).
Proof.
  intros Hwf Hok. destruct (apply_prepared_orders_run s changes Hwf Hok) as (s' & Hrun & Hwf' & Hlev).
  exists s'. split_and!; [done | done | by apply Hwf' | done].
Qed.

(** The best price is a price at which an order rests, no resting order has a better one, and
    there is none exactly when the side is empty. *)
Theorem best_price_optimal s is_buy :
  side_wf s →
  match get_best_price is_buy s with
  | Some p => has_level s p ∧
      ∀ q, has_level s q → if is_buy then raw q ≤ raw p else raw p ≤ raw q
  | None => side_is_empty s = true ∧ ∀ q, ¬ has_level s q
  end.
Proof.
  intros Hwf. pose proof (sw_sorted _ Hwf) as Hs. unfold get_best_price, side_is_empty. destruct is_buy.
  - destruct (orders s) as [|x l _] eqn:Ho using rev_ind.
    + split; [done |]. intros q (j & r & Hj & _)%level_key. rewrite Ho in Hj. by apply elem_of_nil in Hj.
    + rewrite last_snoc. cbn. split.
      * apply level_elem; [done |]. exists x.2. rewrite Ho. destruct x. set_solver.
      * intros q (j & r & Hj & <-)%level_key. rewrite Ho in Hj.
        unfold bt_sorted in Hs.
        apply elem_of_app in Hj as [Hj | <-%list_elem_of_singleton]; [| done].
        assert (raw j < raw x.1); [| lia].
        change (bt_lt (j, r) x). apply StronglySorted_app in Hs as (Hs & _). apply Hs; [done | by left].
  - destruct (orders s) as [|x l] eqn:Ho; cbn.
    + split; [done |]. intros q (j & r & Hj & _)%level_key. rewrite Ho in Hj. by apply elem_of_nil in Hj.
    + split.
      * apply level_elem; [done |]. exists x.2. rewrite Ho. destruct x. left.
      * intros q (j & r & Hj & <-)%level_key. rewrite Ho in Hj.
        apply bt_sorted_cons in Hs as [_ Hlt].
        apply elem_of_cons in Hj as [<-|Hj]; [done |]. specialize (Hlt _ Hj). cbn in Hlt. lia.
Qed.

(** Adding an order with a new id and removing it again by its id gives the order back and
    leaves every level as it was: the order went behind all orders of its price. *)
Theorem add_remove_roundtrip s order p s1 :
  side_wf s → oe_price order = Some p → (∀ k o, o ∈ level s k → oe_id o ≠ oe_id order) →
  side_add_order order s = (Ok tt, s1) →
  side_wf s1 ∧ level s1 p = level s p ++ [order] ∧
  ∃ s2, side_remove_order (oe_id order) p s1 = (Ok (Some order), s2) ∧ side_wf s2 ∧
    ∀ k, level s2 k = level s k.
Proof.
  intros Hwf Hp Hfresh Hrun.
  pose proof (side_add_order_wf _ _ _ Hwf Hrun Hfresh) as Hwf1.
  destruct (side_add_order_run order s p Hp Hwf) as (s1' & Hrun' & _ & Hlev).
  rewrite Hrun in Hrun'. injection Hrun' as <-.
  assert (Hlp : level s1 p = level s p ++ [order]) by by rewrite Hlev, Z.eqb_refl.
  split_and!; [done | done |].
  assert (Hfind : list_find (fun o => oe_id o = oe_id order) (level s1 p) =
                  Some (length (level s p), order)).
  { rewrite Hlp. apply list_find_Some. split_and!; [by apply list_lookup_middle | done |].
    intros j y Hy Hj. rewrite lookup_app_l in Hy by done. eapply Hfresh, list_elem_of_lookup_2. done. }
  destruct (side_remove_order_run s1 _ p _ _ Hwf1 Hfind) as (s2 & Hrun2 & Hs2).
  exists s2. split_and!; [done | by eapply side_remove_order_wf |].
  intros k. rewrite Hs2, set_level_level, Hlp by apply Hwf1. rewrite Hlev.
  destruct (Z.eqb_spec (raw k) (raw p)) as [Hk|]; [| done].
  rewrite delete_middle, app_nil_r. symmetry. by apply level_raw.
Qed.
End orderbook_properties.

(** ** The properties at concrete inputs *)

Section orderbook_examples.
#[local] Existing Instance ref_externals.
#[local] Existing Instance ref_decimal_laws.

(** A limit order for SOL against USDT, with part of it already filled. *)
Definition ex_limit (id user : Z) (kind : string) (price amount filled remaining : string) : OrderEntry :=
  {| oe_fee_rate := dz "0.001"; oe_id := id; oe_user_id := user; oe_order_type := kind;
     oe_order_side := "limit"; oe_base_mint := "SOL"; oe_quote_mint := "USDT";
     oe_price := Some (dz price); oe_amount := dz amount; oe_quote_amount := None;
     oe_filled_amount := dz filled; oe_remaining_amount := dz remaining;
     oe_remaining_quote_amount := None; oe_created_at := 0 |}.

Definition ex_ask1 : OrderEntry := ex_limit 1 10 "sell" "2" "5" "0" "5".
Definition ex_ask2 : OrderEntry := ex_limit 2 11 "sell" "2.0" "3" "0" "3".
Definition ex_asks1 : OrderBookSide := (side_add_order ex_ask1 side_new).2.
Definition ex_asks : OrderBookSide := (side_add_order ex_ask2 ex_asks1).2.

Lemma ex_asks1_run : side_add_order ex_ask1 side_new = (Ok tt, ex_asks1).
Proof. apply run_pair. reflexivity. Qed.
Lemma ex_asks_run : side_add_order ex_ask2 ex_asks1 = (Ok tt, ex_asks).
Proof. apply run_pair. reflexivity. Qed.

Lemma ex_asks1_wf : side_wf ex_asks1.
Proof.
  apply (side_add_order_wf ex_ask1 side_new); [apply side_new_wf | apply ex_asks1_run |].
  intros k o Ho. by apply elem_of_nil in Ho.
Qed.

Lemma ex_asks1_level k : level ex_asks1 k = if raw k =? raw (dz "2") then [ex_ask1] else [].
Proof.
  destruct (side_add_order_run ex_ask1 side_new (dz "2") eq_refl side_new_wf) as (s' & Hrun & _ & Hlev).
  rewrite ex_asks1_run in Hrun. injection Hrun as <-. exact (Hlev k).
Qed.

Lemma ex_asks1_fresh k o : o ∈ level ex_asks1 k → oe_id o ≠ oe_id ex_ask2.
Proof.
  rewrite ex_asks1_level. destruct (raw k =? raw (dz "2")).
  - by intros ->%list_elem_of_singleton.
  - intros Ho. by apply elem_of_nil in Ho.
Qed.

Lemma ex_asks_level k : level ex_asks k = if raw k =? raw (dz "2") then [ex_ask1; ex_ask2] else [].
Proof.
  destruct (side_add_order_run ex_ask2 ex_asks1 (dz "2.0") eq_refl ex_asks1_wf) as (s' & Hrun & _ & Hlev).
  rewrite ex_asks_run in Hrun. injection Hrun as <-. rewrite Hlev, !ex_asks1_level.
  assert (raw (dz "2.0") = raw (dz "2")) as -> by (vm_compute; reflexivity).
  rewrite Z.eqb_refl. by destruct (raw k =? raw (dz "2")).
Qed.

Lemma ex_asks_wf : side_wf ex_asks.
Proof. exact (side_add_order_wf _ _ _ ex_asks1_wf ex_asks_run ex_asks1_fresh). Qed.

(** The first ask is used up, the second one is left with one unit. *)
Definition ex_changes : btree (gmap Z OrderEntry) :=
  [(dz "2", {[ 1 := ex_limit 1 10 "sell" "2" "5" "5" "0"; 2 := ex_limit 2 11 "sell" "2.0" "3" "2" "1" ]})].

Lemma ex_changes_ok : changes_ok ex_asks ex_changes.
Proof.
  split; [apply bt_sorted_cons; split; [constructor | intros e He; by apply elem_of_nil in He] |].
  intros p ch Hin%list_elem_of_singleton. apply pair_equal_spec in Hin as [-> ->].
  split; [apply insert_non_empty |].
  rewrite ex_asks_level, Z.eqb_refl. intros id n. rewrite lookup_insert_Some, lookup_singleton_Some.
  intros [[<- <-] | (_ & <- & <-)]; (split; [reflexivity |]).
  - exists ex_ask1. split; [left | split; reflexivity].
  - exists ex_ask2. split; [right; left | split; reflexivity].
Qed.

Lemma apply_prepared_orders_exact_witness :
  ∃ s', apply_prepared_orders ex_changes ex_asks = (Ok tt, s') ∧ side_wf s' ∧
    total_orders s' = count s' ∧
    ∀ k, level s' k = omap (replace (default ∅ (bt_get k ex_changes))) (level ex_asks k).
Proof. exact (apply_prepared_orders_exact ex_asks ex_changes ex_asks_wf ex_changes_ok). Defined.

Example ex_changes_effect :
  map (fun o => (oe_id o, dec_to_string (oe_remaining_amount o)))
    (level (apply_prepared_orders ex_changes ex_asks).2 (dz "2.00")) = [(2, "1"%string)].
Proof. vm_compute. reflexivity. Qed.

Lemma best_price_optimal_witness :
  get_best_price false ex_asks = Some (dz "2") ∧ has_level ex_asks (dz "2") ∧
  ∀ q, has_level ex_asks q → raw (dz "2") ≤ raw q.
Proof. split; [reflexivity |]. exact (best_price_optimal ex_asks false ex_asks_wf). Defined.

Lemma add_remove_roundtrip_witness :
  level ex_asks (dz "2.0") = level ex_asks1 (dz "2.0") ++ [ex_ask2].
Proof.
  exact (proj1 (proj2 (add_remove_roundtrip ex_asks1 ex_ask2 (dz "2.0") ex_asks ex_asks1_wf eq_refl
                         ex_asks1_fresh ex_asks_run))).
Defined.
End orderbook_examples.
