(* ===== verification/Matcher.v ===== *)
(** * Matching ([engine/matcher.rs])

    [plan_order] computes what an incoming order would trade against a book, without changing the
    book: the matches, the changed makers, the order that is left. The two nested loops of
    [plan_levels] become two recursive functions; [break] and the early [return] are the [Stop]
    flow. [commit_book] publishes a plan. *)

From stdpp Require Import base tactics gmap list sorting strings.
From Stdlib Require Import ZArith Lia Znumtheory.
From S2P Require Import Prelude Text Decimals Amount BTree RefDecimal Types BalanceCache OrderBook.

Section matcher.
Context {E : Externals}.

(** ** Validation *)

Definition one_of (s : string) (l : list string) : bool := existsb (String.eqb s) l.

(** The part of [validate] about quantities, prices and budgets. *)
Definition validate_quantity (order : OrderEntry) : result unit :=
  if String.eqb (oe_order_side order) "market" && String.eqb (oe_order_type order) "buy" then
    budget ← ok_or (oe_quote_amount order) "Missing market budget";
    _ ← ensure (dec_ltb dec_zero budget && bool_decide (oe_price order = None) &&
                dec_eqb (oe_amount order) dec_zero && dec_eqb (oe_remaining_amount order) dec_zero &&
                opt_dec_eqb (oe_remaining_quote_amount order) (Some budget))
          "Invalid market buy";
    _ ← units budget;
    Ok tt
  else
    _ ← ensure (dec_ltb dec_zero (oe_amount order) && dec_ltb dec_zero (oe_remaining_amount order) &&
                bool_decide (oe_quote_amount order = None) &&
                bool_decide (oe_remaining_quote_amount order = None))
          "Invalid quantity order";
    sum ← add (oe_filled_amount order) (oe_remaining_amount order);
    _ ← ensure (dec_eqb sum (oe_amount order)) "Inconsistent order quantity";
    if String.eqb (oe_order_side order) "limit" then
      price ← ok_or (oe_price order) "Missing limit price";
      _ ← ensure (dec_ltb dec_zero price) "Invalid limit price";
      _ ← quote price (oe_amount order);
      Ok tt
    else ensure (bool_decide (oe_price order = None)) "Market sell has price".

Definition validate (order : OrderEntry) (incoming : bool) : result unit :=
  _ ← fee dec_zero (oe_fee_rate order);
  _ ← ensure ((0 <? oe_id order) && (oe_id order <=? I64_MAX) &&
              (0 <? oe_user_id order) && (oe_user_id order <=? I64_MAX))
        "Invalid order identity";
  _ ← ensure (one_of (oe_order_type order) ["buy"; "sell"]%string &&
              one_of (oe_order_side order) ["limit"; "market"]%string)
        "Invalid order kind";
  _ ← ensure (valid_asset (oe_base_mint order)) "Invalid order asset";
  _ ← ensure (valid_asset (oe_quote_mint order)) "Invalid order asset";
  _ ← ensure (negb (String.eqb (oe_base_mint order) (oe_quote_mint order))) "Identical order assets";
  _ ← (if incoming
       then ensure (dec_eqb (oe_filled_amount order) dec_zero) "Incoming order is not fresh"
       else Ok tt);
  validate_quantity order.

(** ** Plans *)

Record MatchPlan := mk_plan {
  p_order : OrderEntry;
  p_matches : list MatchResult;
  p_total_amount : Decimal;
  p_total_quote : Decimal;
  p_makers : btree (gmap Z OrderEntry);
  p_maker_buy : bool;
}.

Definition set_order (o : OrderEntry) (p : MatchPlan) : MatchPlan :=
  mk_plan o (p_matches p) (p_total_amount p) (p_total_quote p) (p_makers p) (p_maker_buy p).

(** Whether the loops go on ([continue] or the next round) or leave ([return Ok(())]). *)
Inductive flow := Go (plan : MatchPlan) | Stop (plan : MatchPlan).

(** Nothing left to trade: the budget if there is one, the quantity otherwise. *)
Definition satisfied (order : OrderEntry) : bool :=
  match oe_remaining_quote_amount order with
  | Some budget => dec_eqb budget dec_zero
  | None => dec_eqb (oe_remaining_amount order) dec_zero
  end.

(** The trade between the order of the plan and a maker. *)
Definition match_result (plan : MatchPlan) (maker : OrderEntry) (price quantity : Decimal) : MatchResult :=
  let buy := if p_maker_buy plan then maker else p_order plan in
  let sell := if p_maker_buy plan then p_order plan else maker in
  {| mr_buyer_fee_rate := oe_fee_rate buy; mr_seller_fee_rate := oe_fee_rate sell;
     mr_buy_order_id := oe_id buy; mr_sell_order_id := oe_id sell;
     mr_buyer_id := oe_user_id buy; mr_seller_id := oe_user_id sell;
     mr_price := price; mr_amount := quantity;
     mr_base_mint := oe_base_mint (p_order plan); mr_quote_mint := oe_quote_mint (p_order plan) |}.

(** The changes to the order of the plan when [quantity] is traded for [value]. *)
Definition fill_order (order : OrderEntry) (quantity value : Decimal) : result OrderEntry :=
  order ← match oe_remaining_quote_amount order with
          | Some budget =>
              left ← subtract budget value;
              amount ← add (oe_amount order) quantity;
              Ok (set_amount amount (set_remaining_quote (Some left) order))
          | None =>
              left ← subtract (oe_remaining_amount order) quantity;
              Ok (set_remaining left order)
          end;
  filled ← add (oe_filled_amount order) quantity;
  Ok (set_filled filled order).

(** The body of the inner loop of [plan_levels], for one resting order. *)
Definition plan_maker (price : Decimal) (plan : MatchPlan) (original : OrderEntry) : result flow :=
  if satisfied (p_order plan) then Ok (Stop plan) else
  _ ← validate original false;
  _ ← ensure (opt_dec_eqb (oe_price original) (Some price) &&
              String.eqb (oe_order_side original) "limit" &&
              Bool.eqb (String.eqb (oe_order_type original) "buy") (p_maker_buy plan) &&
              String.eqb (oe_base_mint original) (oe_base_mint (p_order plan)) &&
              String.eqb (oe_quote_mint original) (oe_quote_mint (p_order plan)))
        "Maker does not match its orderbook level";
  _ ← ensure (negb (oe_id original =? oe_id (p_order plan)))
        "Incoming order already exists in orderbook";
  if oe_user_id original =? oe_user_id (p_order plan) then Ok (Go plan) else
  quantity ← match oe_remaining_quote_amount (p_order plan) with
             | Some budget => quantity_for_budget budget price (oe_remaining_amount original)
             | None => Ok (dec_min (oe_remaining_amount (p_order plan)) (oe_remaining_amount original))
             end;
  if dec_eqb quantity dec_zero then Ok (Go plan) else
  value ← quote price quantity;
  remaining ← subtract (oe_remaining_amount original) quantity;
  filled ← add (oe_filled_amount original) quantity;
  let maker := set_filled filled (set_remaining remaining original) in
  order ← fill_order (p_order plan) quantity value;
  let plan := set_order order plan in
  total_amount ← add (p_total_amount plan) quantity;
  total_quote ← add (p_total_quote plan) value;
  let trade := match_result plan maker price quantity in
  let level := default ∅ (bt_get price (p_makers plan)) in
  _ ← ensure (bool_decide (level !! oe_id maker = None)) "Duplicate maker order id";
  Ok (Go {| p_order := p_order plan; p_matches := p_matches plan ++ [trade];
            p_total_amount := total_amount; p_total_quote := total_quote;
            p_makers := bt_insert price (<[oe_id maker := maker]> level) (p_makers plan);
            p_maker_buy := p_maker_buy plan |}).

(** The inner loop: the queue of one level. *)
Fixpoint plan_queue (price : Decimal) (plan : MatchPlan) (queue : list OrderEntry) : result flow :=
  match queue with
  | [] => Ok (Go plan)
  | original :: queue =>
      next ← plan_maker price plan original;
      match next with
      | Go plan => plan_queue price plan queue
      | Stop plan => Ok (Stop plan)
      end
  end.

(** A level the order's limit excludes. *)
Definition beyond (limit : option Decimal) (maker_buy : bool) (price : Decimal) : bool :=
  match limit with
  | Some limit => (maker_buy && dec_ltb price limit) || (negb maker_buy && dec_ltb limit price)
  | None => false
  end.

(** The outer loop: the levels, best price first. *)
Fixpoint plan_levels (plan : MatchPlan) (levels : list (Decimal * list OrderEntry)) : result MatchPlan :=
  match levels with
  | [] => Ok plan
  | (price, queue) :: levels =>
      if beyond (oe_price (p_order plan)) (p_maker_buy plan) price then Ok plan else
      next ← plan_queue price plan queue;
      match next with
      | Go plan => plan_levels plan levels
      | Stop plan => Ok plan
      end
  end.

(** The levels of the opposite side, best price first. *)
Definition opposite_levels (maker_buy : bool) (book : OrderBook) : list (Decimal * list OrderEntry) :=
  if maker_buy then rev (orders (buy_orders book)) else orders (sell_orders book).

Definition plan_order (incoming : OrderEntry) (book : OrderBook) : result MatchPlan :=
  _ ← validate incoming true;
  let maker_buy := String.eqb (oe_order_type incoming) "sell" in
  let plan := {| p_order := incoming; p_matches := []; p_total_amount := dec_zero;
                 p_total_quote := dec_zero; p_makers := []; p_maker_buy := maker_buy |} in
  plan_levels plan (opposite_levels maker_buy book).

(** [MatchPlan::commit_book]. *)
Definition commit_book (plan : MatchPlan) : st OrderBook unit :=
  _ ← (if p_maker_buy plan then on_buy (apply_prepared_orders (p_makers plan))
       else on_sell (apply_prepared_orders (p_makers plan)));
  if String.eqb (oe_order_side (p_order plan)) "limit" &&
     dec_ltb dec_zero (oe_remaining_amount (p_order plan))
  then book_add_order (p_order plan)
  else mret tt.

(** ** Reference: price-time priority on unit counts *)

(** What a taker still wants: a quantity, or a budget to spend. *)
Inductive want := Quantity (q : Z) | Budget (b : Z).

Definition unit_count (d : Decimal) : Z := raw d / 10 ^ 19.

Definition want_of (o : OrderEntry) : want :=
  match oe_remaining_quote_amount o with
  | Some budget => Budget (unit_count budget)
  | None => Quantity (unit_count (oe_remaining_amount o))
  end.
Definition want_done (w : want) : bool := match w with Quantity q => q =? 0 | Budget b => b =? 0 end.
(** How much of an offer of [r] units at [p] per coin is taken, and what is then still wanted. *)
Definition take_from (w : want) (p r : Z) : Z :=
  match w with Quantity q => Z.min q r | Budget b => affordable b p r end.
Definition want_less (w : want) (p q : Z) : want :=
  match w with Quantity r => Quantity (r - q) | Budget b => Budget (b - p * q / FACTOR) end.

(** The fills of a taker against a list of offers: take from each what is wanted, in order. *)
Fixpoint fills (w : want) (offers : list (Decimal * OrderEntry)) : list (Z * (Decimal * OrderEntry)) :=
  match offers with
  | [] => []
  | offer :: offers =>
      if want_done w then [] else
      let p := unit_count offer.1 in
      let q := take_from w p (unit_count (oe_remaining_amount offer.2)) in
      if q =? 0 then fills w offers else (q, offer) :: fills (want_less w p q) offers
  end.

(** The orders of a level that belong to somebody else. *)
Definition queue_offers (user_id : Z) (price : Decimal) (queue : list OrderEntry) :
    list (Decimal * OrderEntry) :=
  map (pair price) (List.filter (fun o => negb (oe_user_id o =? user_id)) queue).

(** What a taker may trade with: the levels within its limit, best first, oldest order first. *)
Fixpoint offers_of (incoming : OrderEntry) (maker_buy : bool)
    (levels : list (Decimal * list OrderEntry)) : list (Decimal * OrderEntry) :=
  match levels with
  | [] => []
  | (price, queue) :: levels =>
      if beyond (oe_price incoming) maker_buy price then []
      else queue_offers (oe_user_id incoming) price queue ++ offers_of incoming maker_buy levels
  end.

(** ** Reference: what may be traded with, and in which order, stated without the matcher's walk *)

(** The limit of an order allows a price: a seller wants at least it, a buyer gives at most it. *)
Definition crosses (incoming : OrderEntry) (price : Decimal) : bool :=
  match oe_price incoming with
  | None => true
  | Some limit =>
      if String.eqb (oe_order_type incoming) "sell" then raw limit <=? raw price else raw price <=? raw limit
  end.
Definition tradable (incoming : OrderEntry) (offer : Decimal * OrderEntry) : bool :=
  crosses incoming offer.1 && negb (oe_user_id offer.2 =? oe_user_id incoming).

(** A price is strictly better for a seller if it is higher, for a buyer if it is lower. *)
Definition beats (seller : bool) (p q : Decimal) : bool := if seller then raw q <? raw p else raw p <? raw q.

(** Every resting order of a side with its price, the orders of one price oldest first. *)
Definition flatten (levels : list (Decimal * list OrderEntry)) : list (Decimal * OrderEntry) :=
  mjoin (map (fun level => map (pair level.1) level.2) levels).

(** Insertion sort by price; an order goes before those of its own price that were behind it. *)
Fixpoint place (seller : bool) (offer : Decimal * OrderEntry) (sorted : list (Decimal * OrderEntry)) :
    list (Decimal * OrderEntry) :=
  match sorted with
  | [] => [offer]
  | other :: rest => if beats seller other.1 offer.1 then other :: place seller offer rest else offer :: sorted
  end.

Definition priority_offers (incoming : OrderEntry) (book : OrderBook) : list (Decimal * OrderEntry) :=
  let seller := String.eqb (oe_order_type incoming) "sell" in
  let side := if seller then buy_orders book else sell_orders book in
  foldr (place seller) [] (List.filter (tradable incoming) (flatten (orders side))).
End matcher.

Section matcher_facts.
Context {E : Externals} {L : DecimalLaws ext_decimal}.

(** ** What a valid order looks like *)

Definition order_identity (o : OrderEntry) : Prop :=
  0 < oe_id o ≤ I64_MAX ∧ 0 < oe_user_id o ≤ I64_MAX ∧
  (oe_order_type o = "buy"%string ∨ oe_order_type o = "sell"%string) ∧
  (oe_order_side o = "limit"%string ∨ oe_order_side o = "market"%string) ∧
  valid_asset (oe_base_mint o) = true ∧ valid_asset (oe_quote_mint o) = true ∧
  oe_base_mint o ≠ oe_quote_mint o.

(** A market buy: a budget to spend, no price and no quantity. *)
Definition budget_order (o : OrderEntry) : Prop :=
  oe_order_side o = "market"%string ∧ oe_order_type o = "buy"%string ∧ oe_price o = None ∧
  raw (oe_amount o) = 0 ∧ raw (oe_remaining_amount o) = 0 ∧
  ∃ d d' b, oe_quote_amount o = Some d ∧ oe_remaining_quote_amount o = Some d' ∧
    in_units d b ∧ in_units d' b ∧ 0 < b.

(** Any other order: what is filled and what remains add up to the quantity. *)
Definition quantity_order (o : OrderEntry) : Prop :=
  ¬ (oe_order_side o = "market"%string ∧ oe_order_type o = "buy"%string) ∧
  oe_quote_amount o = None ∧ oe_remaining_quote_amount o = None ∧
  (∃ f r, in_units (oe_filled_amount o) f ∧ in_units (oe_remaining_amount o) r ∧ 0 < r ∧
     in_units (oe_amount o) (f + r)) ∧
  if String.eqb (oe_order_side o) "limit"
  then ∃ p v, oe_price o = Some p ∧ 0 < raw p ∧ quote p (oe_amount o) = Ok v
  else oe_price o = None.

Lemma one_of_two s a b : one_of s [a; b] = true ↔ s = a ∨ s = b.
Proof.
  unfold one_of. cbn. rewrite orb_false_r, orb_true_iff, !String.eqb_eq. done.
Qed.

Lemma validate_run o inc :
  validate o inc = Ok tt →
  order_identity o ∧ (∃ d, fee dec_zero (oe_fee_rate o) = Ok d) ∧
  (inc = true → raw (oe_filled_amount o) = 0) ∧ (budget_order o ∨ quantity_order o).
Proof.
  unfold validate. intros H. inv_ok. rewrite !one_of_two in *.
  repeat match goal with H : String.eqb _ _ = false |- _ => apply String.eqb_neq in H end.
  split; [unfold order_identity; tauto |]. split; [eauto |]. split.
  { intros ->. inv_ok. dec_simpl. done. }
  match goal with H : validate_quantity _ = Ok _ |- _ => rename H into Hq end.
  unfold validate_quantity in Hq. destruct (_ && _)%bool eqn:Hm.
  - left. apply andb_true_iff in Hm as [Hs%String.eqb_eq Ht%String.eqb_eq]. inv_ok.
    destruct (oe_remaining_quote_amount o) as [d'|] eqn:Hrq; [| done]. cbn [opt_dec_eqb] in *.
    dec_simpl. rewrite units_ok in *. split_and!; [done..|].
    eexists _, d', _. split_and!; [done | done | done | | ].
    + eapply in_units_raw; [| done]. done.
    + match goal with H : in_units _ ?b |- 0 < ?b => destruct H; lia end.
  - right. inv_ok. dec_simpl.
    match goal with H : add _ _ = Ok _ |- _ => rename H into Hadd end.
    pose proof (add_inv _ _ _ Hadd) as (f & r & Hf & Hr). pose proof (add_ok _ _ _ _ _ Hf Hr Hadd) as Hsum.
    split_and!; [| done | done | |].
    + intros [Hs Ht]. rewrite Hs, Ht in Hm. done.
    + exists f, r. split_and!; [done | done | destruct Hr; lia |]. by eapply in_units_raw.
    + destruct (String.eqb (oe_order_side o) "limit"); inv_ok; [| done]. dec_simpl. eauto.
Qed.

(** ** Fills in numbers *)

Definition fill : Type := Z * (Decimal * OrderEntry).
(** The value of a fill in quote units. *)
Definition fill_value (f : fill) : Z := unit_count f.2.1 * f.1 / FACTOR.
Definition fills_amount (fs : list fill) : Z := lsum fst fs.
Definition fills_quote (fs : list fill) : Z := lsum fill_value fs.

Lemma unit_count_in d a : in_units d a → unit_count d = a.
Proof. intros [Hr _]. unfold unit_count. rewrite Hr. apply Z.div_mul. lia. Qed.

(** The maker [o] after [q] of it has been traded. *)
Definition filled_maker (o : OrderEntry) (q : Z) (n : OrderEntry) : Prop :=
  ∃ f r f0 r0, n = set_filled f (set_remaining r o) ∧
    in_units (oe_filled_amount o) f0 ∧ in_units (oe_remaining_amount o) r0 ∧
    in_units f (f0 + q) ∧ in_units r (r0 - q).

(** The match that a fill of the incoming order leads to. *)
Definition trade_of (inc : OrderEntry) (maker_buy : bool) (m : MatchResult) (f : fill) : Prop :=
  let maker := f.2.2 in
  let buy := if maker_buy then maker else inc in
  let sell := if maker_buy then inc else maker in
  in_units (mr_amount m) f.1 ∧ mr_price m = f.2.1 ∧
  mr_buyer_fee_rate m = oe_fee_rate buy ∧ mr_seller_fee_rate m = oe_fee_rate sell ∧
  mr_buy_order_id m = oe_id buy ∧ mr_sell_order_id m = oe_id sell ∧
  mr_buyer_id m = oe_user_id buy ∧ mr_seller_id m = oe_user_id sell ∧
  mr_base_mint m = oe_base_mint inc ∧ mr_quote_mint m = oe_quote_mint inc.

(** What the matcher has checked of a maker it trades with. *)
Definition maker_checked (inc : OrderEntry) (maker_buy : bool) (f : fill) : Prop :=
  let maker := f.2.2 in
  validate maker false = Ok tt ∧ (∃ p, oe_price maker = Some p ∧ raw p = raw f.2.1) ∧
  oe_order_side maker = "limit"%string ∧
  String.eqb (oe_order_type maker) "buy" = maker_buy ∧
  oe_base_mint maker = oe_base_mint inc ∧ oe_quote_mint maker = oe_quote_mint inc ∧
  oe_id maker ≠ oe_id inc ∧ oe_user_id maker ≠ oe_user_id inc ∧
  (∃ p, in_units f.2.1 p ∧ (FACTOR | p * f.1)) ∧
  ∃ r, in_units (oe_remaining_amount maker) r ∧ 0 < f.1 ≤ r.

(** The order of the plan after the fills [fs], and what it still wants. *)
Definition order_after (inc : OrderEntry) (fs : list fill) (w : want) (o : OrderEntry) : Prop :=
  ∃ a r f rq, o = set_filled f (set_amount a (set_remaining r (set_remaining_quote rq inc))) ∧
    in_units f (fills_amount fs) ∧
    match oe_remaining_quote_amount inc with
    | None => rq = None ∧ a = oe_amount inc ∧
        ∃ r0, in_units (oe_remaining_amount inc) r0 ∧ in_units r (r0 - fills_amount fs) ∧
          w = Quantity (r0 - fills_amount fs)
    | Some b => r = oe_remaining_amount inc ∧
        ∃ b0 b', in_units b b0 ∧ rq = Some b' ∧ in_units b' (b0 - fills_quote fs) ∧
          in_units a (fills_amount fs) ∧ w = Budget (b0 - fills_quote fs)
    end.

(** Where the maker of a fill rests. *)
Definition maker_key (f : fill) : Z * Z := (raw f.2.1, oe_id f.2.2).

(** The plan has made exactly the trades [fs] and still wants [w]. *)
Record plan_inv (inc : OrderEntry) (maker_buy : bool) (fs : list fill) (w : want)
    (plan : MatchPlan) : Prop := {
  pi_order : order_after inc fs w (p_order plan);
  pi_matches : Forall2 (trade_of inc maker_buy) (p_matches plan) fs;
  pi_checked : Forall (maker_checked inc maker_buy) fs;
  pi_amount : in_units (p_total_amount plan) (fills_amount fs);
  pi_quote : in_units (p_total_quote plan) (fills_quote fs);
  pi_side : p_maker_buy plan = maker_buy;
  pi_sorted : bt_sorted (p_makers plan);
  pi_nonempty : ∀ k, bt_get k (p_makers plan) ≠ Some ∅;
  pi_found : ∀ k id n, default ∅ (bt_get k (p_makers plan)) !! id = Some n →
    ∃ q p o, (q, (p, o)) ∈ fs ∧ raw p = raw k ∧ oe_id o = id ∧ filled_maker o q n;
  pi_made : ∀ q p o, (q, (p, o)) ∈ fs →
    ∃ n, default ∅ (bt_get p (p_makers plan)) !! oe_id o = Some n ∧ filled_maker o q n;
  pi_once : NoDup (map maker_key fs);
  pi_prefix : ∀ fs1 fs2, fs = fs1 ++ fs2 → ∃ d, in_units d (fills_amount fs1);
}.

Lemma fills_amount_snoc fs f : fills_amount (fs ++ [f]) = fills_amount fs + f.1.
Proof. apply lsum_snoc. Qed.
Lemma fills_quote_snoc fs f : fills_quote (fs ++ [f]) = fills_quote fs + fill_value f.
Proof. apply lsum_snoc. Qed.

Lemma plan_inv_init inc maker_buy :
  validate inc true = Ok tt →
  plan_inv inc maker_buy [] (want_of inc)
    {| p_order := inc; p_matches := []; p_total_amount := dec_zero; p_total_quote := dec_zero;
       p_makers := []; p_maker_buy := maker_buy |}.
Proof.
  intros (_ & _ & Hfresh & Hkind)%validate_run. specialize (Hfresh eq_refl).
  pose proof (in_units_zero dec_zero zero_raw). split; cbn; try done.
  - exists (oe_amount inc), (oe_remaining_amount inc), (oe_filled_amount inc), (oe_remaining_quote_amount inc).
    split; [by destruct inc |]. split; [by apply in_units_zero |]. unfold want_of.
    destruct Hkind as [(_ & _ & _ & Ha & Hr & d & d' & b & _ & -> & _ & Hb & _) | (_ & _ & -> & (f & r & _ & Hr &
      _) & _)].
    + split; [done |]. exists b, d'. rewrite (unit_count_in d' b) by done. cbn.
      rewrite Z.sub_0_r. split_and!; [done | done | done | by apply in_units_zero | done].
    + split; [done |]. split; [done |]. exists r. rewrite (unit_count_in _ r) by done. cbn.
      by rewrite Z.sub_0_r.
  - constructor.
  - intros q p o Ho. by apply elem_of_nil in Ho.
  - constructor.
  - intros fs1 fs2 Hfs. symmetry in Hfs. apply app_eq_nil in Hfs as [-> ->]. by exists dec_zero.
Qed.

(** The order of a plan has the identity of the incoming order. *)
Lemma order_after_same inc fs w o :
  order_after inc fs w o →
  oe_id o = oe_id inc ∧ oe_user_id o = oe_user_id inc ∧ oe_order_type o = oe_order_type inc ∧
  oe_order_side o = oe_order_side inc ∧ oe_base_mint o = oe_base_mint inc ∧
  oe_quote_mint o = oe_quote_mint inc ∧ oe_price o = oe_price inc ∧
  oe_fee_rate o = oe_fee_rate inc.
Proof. by intros (a & r & f & rq & -> & _). Qed.

Lemma order_after_want inc fs w o :
  order_after inc fs w o → satisfied o = want_done w.
Proof.
  intros (a & r & f & rq & -> & _ & H). unfold satisfied. cbn.
  destruct (oe_remaining_quote_amount inc) as [b|].
  - destruct H as (_ & b0 & b' & _ & -> & [Hb' _] & _ & ->). cbn.
    rewrite dec_eqb_raw, zero_raw, Hb'. cbn. lia.
  - destruct H as (-> & _ & r0 & _ & [Hr _] & ->). cbn.
    rewrite dec_eqb_raw, zero_raw, Hr. cbn. lia.
Qed.

(** Filling the order of a plan. *)
Lemma fill_order_after inc fs w o quantity value o' q p m :
  order_after inc fs w o → fill_order o quantity value = Ok o' →
  in_units quantity q → in_units value (p * q / FACTOR) → unit_count m.1 = p →
  order_after inc (fs ++ [(q, m)]) (want_less w p q) o'.
Proof.
  intros (a & r & f & rq & -> & Hf & H) Hfill Hq Hv Hp. unfold fill_order in Hfill. cbn in Hfill.
  unfold order_after. rewrite fills_amount_snoc, fills_quote_snoc. unfold fill_value. cbn [fst snd]. rewrite Hp.
  destruct (oe_remaining_quote_amount inc) as [b|].
  - destruct H as (-> & b0 & b' & Hb & -> & Hb' & Ha & ->). cbn in Hfill. inv_ok. cbn in *.
    match goal with
    | Hs : subtract b' _ = Ok ?left, Hd : add a _ = Ok ?amount, He : add f _ = Ok ?filled |- _ =>
        exists amount, (oe_remaining_amount inc), filled, (Some left);
        pose proof (subtract_ok _ _ _ _ _ Hb' Hv Hs); pose proof (add_ok _ _ _ _ _ Ha Hq Hd);
        pose proof (add_ok _ _ _ _ _ Hf Hq He)
    end.
    split; [reflexivity |]. split; [done |]. split; [done |].
    exists b0. eexists. rewrite Z.sub_add_distr. by split_and!.
  - destruct H as (-> & -> & r0 & Hr0 & Hr & ->). cbn in Hfill. inv_ok. cbn in *.
    match goal with
    | Hs : subtract r _ = Ok ?left, He : add f _ = Ok ?filled |- _ =>
        exists (oe_amount inc), left, filled, None;
        pose proof (subtract_ok _ _ _ _ _ Hr Hq Hs); pose proof (add_ok _ _ _ _ _ Hf Hq He)
    end.
    split; [reflexivity |]. split; [done |]. split; [done |]. split; [done |].
    exists r0. rewrite Z.sub_add_distr. done.
Qed.

(** The quantity the matcher takes from a maker is the one the reference takes. *)
Lemma quantity_taken inc fs w o price maker r quantity :
  order_after inc fs w o → in_units (oe_remaining_amount maker) r →
  (match oe_remaining_quote_amount o with
   | Some budget => quantity_for_budget budget price (oe_remaining_amount maker)
   | None => Ok (dec_min (oe_remaining_amount o) (oe_remaining_amount maker))
   end) = Ok quantity →
  in_units quantity (take_from w (unit_count price) (unit_count (oe_remaining_amount maker))) ∧
  0 ≤ take_from w (unit_count price) (unit_count (oe_remaining_amount maker)) ≤ r.
Proof.
  intros (a & r1 & f & rq & -> & _ & H) Hr Hq. cbn in Hq. rewrite (unit_count_in _ _ Hr).
  pose proof (in_units_range _ _ Hr) as Hr_range.
  destruct (oe_remaining_quote_amount inc) as [b|].
  - destruct H as (_ & b0 & b' & _ & -> & Hb' & _ & ->).
    apply quantity_for_budget_run in Hq as (b1 & p & r2 & Hb1 & Hp & Hr2 & Hpos & Hres).
    pose proof (in_units_range _ _ Hb1).
    rewrite (in_units_inj _ _ _ Hb1 Hb') in *. rewrite (in_units_inj _ _ _ Hr2 Hr) in *.
    cbn. rewrite (unit_count_in _ p) by done. split; [done |].
    destruct (affordable_spec (b0 - fills_quote fs) p r) as (? & _); [lia.. |]. done.
  - destruct H as (-> & _ & r0 & _ & Hr1 & ->). inv_ok. cbn.
    pose proof (in_units_range _ _ Hr1). split; [| lia]. split; [| lia].
    rewrite dec_min_raw. destruct Hr as [-> _], Hr1 as [-> _]. lia.
Qed.

(** Publishing a trade in the plan's maker map. *)
Lemma makers_insert makers price (maker : OrderEntry) k :
  bt_sorted makers →
  default ∅ (bt_get k (bt_insert price (<[oe_id maker := maker]> (default ∅ (bt_get price makers))) makers)) =
  if raw k =? raw price then <[oe_id maker := maker]> (default ∅ (bt_get k makers) : gmap Z OrderEntry)
  else default ∅ (bt_get k makers).
Proof.
  intros Hs. rewrite bt_get_insert by done. destruct (Z.eqb_spec (raw k) (raw price)) as [Hk|]; [| done].
  cbn. by rewrite (bt_get_raw k price).
Qed.

(** One trade: the plan that results has one fill more. *)
Lemma plan_inv_trade inc maker_buy fs w plan price original q maker order total_amount total_quote trade :
  plan_inv inc maker_buy fs w plan →
  maker_checked inc maker_buy (q, (price, original)) → filled_maker original q maker →
  order_after inc (fs ++ [(q, (price, original))]) (want_less w (unit_count price) q) order →
  in_units total_amount (fills_amount (fs ++ [(q, (price, original))])) →
  in_units total_quote (fills_quote (fs ++ [(q, (price, original))])) →
  trade_of inc maker_buy trade (q, (price, original)) →
  default ∅ (bt_get price (p_makers plan)) !! oe_id original = None →
  plan_inv inc maker_buy (fs ++ [(q, (price, original))]) (want_less w (unit_count price) q)
    {| p_order := order; p_matches := p_matches plan ++ [trade];
       p_total_amount := total_amount; p_total_quote := total_quote;
       p_makers := bt_insert price (<[oe_id maker := maker]> (default ∅ (bt_get price (p_makers plan)))) (p_makers plan);
       p_maker_buy := p_maker_buy plan |}.
Proof.
  intros Hinv Hch Hm Ho Ha Hq Ht Hnew.
  assert (Hid : oe_id maker = oe_id original) by by destruct Hm as (? & ? & ? & ? & -> & _).
  pose proof (pi_sorted _ _ _ _ _ Hinv) as Hs.
  split; cbn [p_order p_matches p_total_amount p_total_quote p_makers p_maker_buy]; try done.
  - apply Forall2_app; [apply Hinv | by constructor].
  - apply Forall_app. split; [apply Hinv | by constructor].
  - apply Hinv.
  - by apply bt_alter_sorted.
  - intros k. rewrite bt_get_insert by done. destruct (raw k =? raw price); [| apply Hinv].
    intros [= H]. by apply insert_non_empty in H.
  - intros k id n. rewrite makers_insert by done. destruct (Z.eqb_spec (raw k) (raw price)) as [Hk|Hk].
    + intros [[<- <-] | [_ Hn]]%lookup_insert_Some.
      * exists q, price, original. rewrite Hid. split_and!; [set_solver | done | done | done].
      * destruct (pi_found _ _ _ _ _ Hinv k id n Hn) as (q' & p & o & ? & ?). exists q', p, o. set_solver.
    + intros Hn. destruct (pi_found _ _ _ _ _ Hinv k id n Hn) as (q' & p & o & ? & ?). exists q', p, o. set_solver.
  - intros q' p o Hin. rewrite makers_insert by done.
    apply elem_of_app in Hin as [Hin | Hin%list_elem_of_singleton].
    + destruct (pi_made _ _ _ _ _ Hinv q' p o Hin) as (n & Hn & Hfm). exists n. split; [| done].
      destruct (Z.eqb_spec (raw p) (raw price)) as [Hp|]; [| done].
      rewrite lookup_insert_ne; [done |]. rewrite Hid. intros Heq.
      rewrite (bt_get_raw p price) in Hn by done. congruence.
    + injection Hin as -> -> ->. rewrite Z.eqb_refl, Hid, lookup_insert_eq. eauto.
  - rewrite map_app. apply NoDup_app. split_and!; [apply Hinv | | apply NoDup_singleton].
    intros [z id] ([q' [p o]] & Hk & Hin)%list_elem_of_fmap. cbn in Hk. intros Hk2%list_elem_of_singleton.
    rewrite Hk in Hk2. injection Hk2 as Hp Ho2. cbn in Hp, Ho2. destruct (pi_made _ _ _ _ _ Hinv q' p o Hin)
      as (n & Hn & _).
    rewrite (bt_get_raw p price) in Hn by done. rewrite Ho2 in Hn. congruence.
  - intros fs1 fs2 Hfs. destruct fs2 as [|f fs2 _] using rev_ind.
    + rewrite app_nil_r in Hfs. subst fs1. eauto.
    + rewrite app_assoc in Hfs. apply app_inj_tail in Hfs as [Hfs _]. by eapply pi_prefix.
Qed.

(** The body of the inner loop, against the reference: leave when nothing is wanted, skip the
    taker's own orders and offers nothing can be taken from, otherwise take what the reference
    takes. *)
Lemma plan_maker_run inc maker_buy fs w plan price original next :
  plan_inv inc maker_buy fs w plan → plan_maker price plan original = Ok next →
  match next with
  | Stop plan' => plan' = plan ∧ want_done w = true
  | Go plan' => want_done w = false ∧
      ((oe_user_id original = oe_user_id inc ∧ plan' = plan) ∨
       (oe_user_id original ≠ oe_user_id inc ∧
        let q := take_from w (unit_count price) (unit_count (oe_remaining_amount original)) in
        if q =? 0 then plan' = plan
        else plan_inv inc maker_buy (fs ++ [(q, (price, original))])
               (want_less w (unit_count price) q) plan'))
  end.
Proof.
  intros Hinv H. pose proof (pi_order _ _ _ _ _ Hinv) as Ho.
  pose proof (order_after_same _ _ _ _ Ho) as (Hid & Hus & Hty & Hsd & Hbm & Hqm & Hpr & Hfr).
  unfold plan_maker in H. rewrite (order_after_want _ _ _ _ Ho) in H.
  rewrite Hid, Hus, Hbm, Hqm, (pi_side _ _ _ _ _ Hinv) in H.
  destruct (want_done w); inv_ok; [done |].
  match goal with H : validate _ _ = Ok ?x |- _ => destruct x; rename H into Hval end.
  pose proof (validate_run _ _ Hval) as (_ & _ & _ & Hkind).
  destruct (Z.eqb_spec (oe_user_id original) (oe_user_id inc)) as [Hu|Hu]; inv_ok; [eauto |].
  repeat match goal with H : String.eqb _ _ = true |- _ => apply String.eqb_eq in H end.
  match goal with H : Bool.eqb _ _ = true |- _ => apply Bool.eqb_prop in H end.
  destruct Hkind as [(Hm & _)|(_ & _ & _ & (f0 & r0 & Hf0 & Hr0 & Hrpos & _) & _)]; [congruence |].
  match goal with H : _ = Ok ?x |- _ =>
    destruct (quantity_taken _ _ _ _ price original r0 x Ho Hr0 H) as [Hq Hqr]; rename x into quantity; clear H end.
  set (q := take_from w (unit_count price) (unit_count (oe_remaining_amount original))) in *.
  rewrite dec_eqb_raw, zero_raw in H. pose proof (proj1 Hq) as Hraw.
  destruct (Z.eqb_spec (raw quantity) 0) as [Hz|Hz], (Z.eqb_spec q 0) as [Hq0|Hq0]; try lia.
  { injection H as <-. split; [done |]. right. split; [done |]. cbn zeta. fold q. by rewrite (proj2 (Z.eqb_eq q 0)). }
  inv_ok.
  split; [done |]. right. split; [done |]. cbn zeta. fold q. rewrite (proj2 (Z.eqb_neq q 0)) by done.
  match goal with H : quote _ _ = Ok _ |- _ =>
    pose proof (quote_ok _ _ _ H) as (p & q' & c & Hp & Hq' & Hv & Hpq); clear H end.
  rewrite (in_units_inj _ _ _ Hq' Hq) in *. clear q' Hq'.
  assert (Hval_units : p * q / FACTOR = c) by (rewrite Hpq; by apply Z.div_mul).
  pose proof (unit_count_in _ _ Hp) as Hup.
  match goal with Hs : subtract (oe_remaining_amount original) _ = Ok _, Ha : add (oe_filled_amount original)
    _ = Ok _ |- _ =>
    pose proof (subtract_ok _ _ _ _ _ Hr0 Hq Hs); pose proof (add_ok _ _ _ _ _ Hf0 Hq Ha) end.
  match goal with H : fill_order _ _ _ = Ok ?o |- _ => rename o into order'; rename H into Hfill end.
  assert (Ho' : order_after inc (fs ++ [(q, (price, original))]) (want_less w (unit_count price) q) order').
  { rewrite Hup. eapply (fill_order_after _ _ _ _ _ _ _ _ _ _ Ho Hfill Hq); [by rewrite Hval_units | done]. }
  pose proof (order_after_same _ _ _ _ Ho') as (Hid' & Hus' & _ & _ & Hbm' & Hqm' & _ & Hfr').
  apply (plan_inv_trade inc _ fs w plan price original q (set_filled _ (set_remaining _ original)) order'); try done.
  - split_and!; try done.
    + cbn [fst snd]. match goal with H : opt_dec_eqb _ _ = true |- _ => destruct (oe_price original) as [pr|];
      [| done]; cbn [opt_dec_eqb] in H; rewrite dec_eqb_raw in H end.
      exists pr. split; [done | lia].
    + exists p. split; [done |]. exists c. exact Hpq.
    + exists r0. split; [done |]. cbn. lia.
  - eexists _, _, f0, r0. split; [reflexivity |]. by split_and!.
  - match goal with H : add (p_total_amount _) _ = Ok _ |- _ =>
      rewrite fills_amount_snoc; apply (add_ok _ _ _ _ _ (pi_amount _ _ _ _ _ Hinv) Hq H) end.
  - match goal with H : add (p_total_quote _) _ = Ok _ |- _ =>
      rewrite fills_quote_snoc; unfold fill_value; cbn [fst snd]; rewrite Hup, Hval_units;
      apply (add_ok _ _ _ _ _ (pi_quote _ _ _ _ _ Hinv) Hv H) end.
  - unfold trade_of, match_result. cbn. rewrite (pi_side _ _ _ _ _ Hinv).
    destruct (String.eqb _ "buy"); split_and!; done.
Qed.

(** The inner loop takes from a queue what the reference takes from the offers of that queue. *)
Lemma plan_queue_run inc maker_buy price queue fs w plan next :
  plan_inv inc maker_buy fs w plan → plan_queue price plan queue = Ok next →
  ∃ fs',
  match next with
  | Go plan' => ∃ w', plan_inv inc maker_buy (fs ++ fs') w' plan' ∧
      ∀ rest, fills w (queue_offers (oe_user_id inc) price queue ++ rest) = fs' ++ fills w' rest
  | Stop plan' => (∃ w', plan_inv inc maker_buy (fs ++ fs') w' plan') ∧
      ∀ rest, fills w (queue_offers (oe_user_id inc) price queue ++ rest) = fs'
  end.
Proof.
  revert fs w plan. induction queue as [|original queue IH]; intros fs w plan Hinv H; cbn [plan_queue] in H.
  - inv_ok. exists []. exists w. by rewrite app_nil_r.
  - inv_ok. match goal with H : plan_maker _ _ _ = Ok ?x |- _ =>
      rename x into mid; pose proof (plan_maker_run _ _ _ _ _ _ _ _ Hinv H) as Hmk; clear H end.
    unfold queue_offers in *. cbn [List.filter].
    destruct mid as [plan1|plan1].
    + destruct Hmk as [Hw [[Hu ->] | [Hu Hq]]].
      * rewrite Hu, Z.eqb_refl. cbn [negb]. by eapply IH.
      * rewrite (proj2 (Z.eqb_neq _ _) Hu). cbn [negb map app]. cbn zeta in Hq.
        set (q := take_from w (unit_count price) (unit_count (oe_remaining_amount original))) in *.
        assert (Hfills : ∀ rest, fills w ((price, original) :: rest) =
          if q =? 0 then fills w rest
          else (q, (price, original)) :: fills (want_less w (unit_count price) q) rest).
        { intros rest. cbn [fills fst snd]. by rewrite Hw. }
        destruct (q =? 0).
        -- subst plan1. destruct (IH fs w plan Hinv H) as (fs' & Hrec). exists fs'.
           destruct next as [plan'|plan'].
           ++ destruct Hrec as (w' & Hinv' & Hr). exists w'. split; [done |]. intros rest. by rewrite Hfills, Hr.
           ++ destruct Hrec as (Hinv' & Hr). split; [done |]. intros rest. by rewrite Hfills, Hr.
        -- destruct (IH _ _ plan1 Hq H) as (fs' & Hrec). exists ((q, (price, original)) :: fs').
           rewrite <- app_assoc in Hrec. cbn [app] in Hrec. destruct next as [plan'|plan'].
           ++ destruct Hrec as (w' & Hinv' & Hr). exists w'. split; [done |]. intros rest. by rewrite Hfills, Hr.
           ++ destruct Hrec as (Hinv' & Hr). split; [done |]. intros rest. by rewrite Hfills, Hr.
    + destruct Hmk as [-> Hw]. inv_ok. exists []. split; [exists w; by rewrite app_nil_r |].
      intros rest. destruct (negb _); cbn [map app]; [cbn [fills]; by rewrite Hw |].
      destruct (_ ++ rest); [done |]. cbn [fills]. by rewrite Hw.
Qed.

(** The outer loop. *)
Lemma plan_levels_run inc maker_buy levels fs w plan plan' :
  plan_inv inc maker_buy fs w plan → plan_levels plan levels = Ok plan' →
  ∃ w', plan_inv inc maker_buy (fs ++ fills w (offers_of inc maker_buy levels)) w' plan'.
Proof.
  revert fs w plan. induction levels as [|[price queue] levels IH]; intros fs w plan Hinv H;
    cbn [plan_levels offers_of] in *.
  - inv_ok. exists w. by rewrite app_nil_r.
  - pose proof (order_after_same _ _ _ _ (pi_order _ _ _ _ _ Hinv)) as (_ & _ & _ & _ & _ & _ & Hpr & _).
    rewrite Hpr, (pi_side _ _ _ _ _ Hinv) in H.
    destruct (beyond (oe_price inc) maker_buy price); [inv_ok; exists w; by rewrite app_nil_r |].
    inv_ok. match goal with H : plan_queue _ _ _ = Ok ?x |- _ =>
      rename x into next; destruct (plan_queue_run _ _ _ _ _ _ _ _ Hinv H) as (fs' & Hq); clear H end.
    destruct next as [plan1|plan1].
    + destruct Hq as (w1 & Hinv1 & Hq). rewrite Hq, app_assoc. by eapply IH.
    + destruct Hq as ((w1 & Hinv1) & Hq). rewrite Hq. inv_ok. eauto.
Qed.

Lemma plan_order_run inc book plan :
  plan_order inc book = Ok plan →
  let maker_buy := String.eqb (oe_order_type inc) "sell" in
  validate inc true = Ok tt ∧
  ∃ w, plan_inv inc maker_buy
    (fills (want_of inc) (offers_of inc maker_buy (opposite_levels maker_buy book))) w plan.
Proof.
  intros H maker_buy. unfold plan_order in H. inv_ok.
  match goal with H : validate _ _ = Ok ?x |- _ => destruct x; rename H into Hval end.
  split; [done |]. eapply (plan_levels_run inc maker_buy _ [] _ _ plan); [| done].
  by apply plan_inv_init.
Qed.
End matcher_facts.

(** ** What the reference achieves *)

Section reference_facts.
Context {E : Externals} {L : DecimalLaws ext_decimal}.
Implicit Types offers : list (Decimal * OrderEntry).

(** The size of an offer in units. *)
Definition offered (offer : Decimal * OrderEntry) : Z := unit_count (oe_remaining_amount offer.2).

(** A quantity is filled as far as the offers reach. *)
Lemma fills_quantity_total q offers :
  0 ≤ q → Forall (fun offer => 0 ≤ offered offer) offers →
  fills_amount (fills (Quantity q) offers) = Z.min q (lsum offered offers).
Proof.
  revert q. induction offers as [|offer offers IH]; intros q Hq Hall; [cbn; lia |].
  apply Forall_cons in Hall as [Ho Hall].
  assert (0 ≤ lsum offered offers).
  { apply lsum_nonneg. intros a Ha. by apply (proj1 (Forall_forall _ _) Hall). }
  cbn [fills want_done take_from want_less]. rewrite lsum_cons. fold (offered offer).
  destruct (Z.eqb_spec q 0) as [->|Hq0]; [change (fills_amount []) with 0; lia |].
  destruct (Z.eqb_spec (Z.min q (offered offer)) 0) as [Hz|Hz].
  - rewrite IH by done. lia.
  - unfold fills_amount in *. rewrite lsum_cons. cbn [fst]. rewrite IH by (done || lia). lia.
Qed.

(** A later fill means that every earlier one took all that was offered. *)
Lemma fills_quantity_priority q offers l f1 f2 r :
  0 ≤ q → Forall (fun offer => 0 ≤ offered offer) offers →
  fills (Quantity q) offers = l ++ f1 :: r → f2 ∈ r → f1.1 = offered f1.2.
Proof.
  revert q l. induction offers as [|offer offers IH]; intros q l Hq Hall Heq Hin; [by destruct l |].
  apply Forall_cons in Hall as [Ho Hall].
  cbn [fills want_done take_from want_less] in Heq. fold (offered offer) in Heq.
  destruct (q =? 0); [by destruct l |].
  destruct (Z.eqb_spec (Z.min q (offered offer)) 0) as [Hz|Hz]; [by apply (IH q l) |].
  destruct l as [|f l]; cbn in Heq; injection Heq as <- Hr.
  - cbn [fst snd]. destruct (Z.le_gt_cases (offered offer) q) as [|Hgt]; [lia |].
    rewrite Z.min_l, Z.sub_diag in Hr by lia.
    destruct offers; cbn in Hr; subst r; by apply elem_of_nil in Hin.
  - eapply (IH (q - Z.min q (offered offer)) l); [lia | done | exact Hr | done].
Qed.

(** Fills are offers, in the order of the offers. *)
Lemma fills_sublist w offers : map snd (fills w offers) `sublist_of` offers.
Proof.
  revert w. induction offers as [|offer offers IH]; intros w; cbn; [done |].
  destruct (want_done w); [apply sublist_nil_l |]. destruct (_ =? 0).
  - by apply sublist_cons.
  - cbn. by apply sublist_skip.
Qed.

(** ** What is on offer *)

(** Levels listed best price first: for a buyer ascending, for a seller descending. *)
Definition better (maker_buy : bool) (p q : Decimal) : Prop :=
  if maker_buy then raw q < raw p else raw p < raw q.
Definition best_first (maker_buy : bool) (levels : list (Decimal * list OrderEntry)) : Prop :=
  StronglySorted (fun a b => better maker_buy a.1 b.1) levels.

Lemma rev_sorted {A} (R : A → A → Prop) l : StronglySorted R l → StronglySorted (flip R) (rev l).
Proof.
  induction 1 as [|a l Hs IH Hf]; [constructor |]. cbn. apply StronglySorted_app_2; [| done | repeat constructor].
  intros x y Hx ->%list_elem_of_singleton. rewrite Forall_forall in Hf. apply Hf.
  apply list_elem_of_In, in_rev, list_elem_of_In. done.
Qed.

Lemma opposite_best_first maker_buy book :
  bt_sorted (orders (buy_orders book)) → bt_sorted (orders (sell_orders book)) →
  best_first maker_buy (opposite_levels maker_buy book).
Proof.
  intros Hb Hs. unfold best_first, opposite_levels, better. destruct maker_buy; [by apply rev_sorted | done].
Qed.

Lemma beyond_worse limit maker_buy p q :
  beyond limit maker_buy p = true → better maker_buy p q → beyond limit maker_buy q = true.
Proof.
  unfold beyond, better. destruct limit as [l|]; [| done]. rewrite !dec_ltb_raw.
  destruct maker_buy; cbn; rewrite ?orb_false_r, ?orb_false_l, !Z.ltb_lt; lia.
Qed.

Lemma queue_offers_elem user price queue p o :
  (p, o) ∈ queue_offers user price queue ↔ p = price ∧ o ∈ queue ∧ oe_user_id o ≠ user.
Proof.
  unfold queue_offers. rewrite list_elem_of_fmap. setoid_rewrite list_elem_of_In. setoid_rewrite filter_In.
  setoid_rewrite negb_true_iff. setoid_rewrite Z.eqb_neq. split.
  - intros (o' & [= -> ->] & ?). tauto.
  - intros (-> & ?). exists o. tauto.
Qed.

(** Exactly the orders of others at the prices the limit allows are on offer. *)
Lemma offers_of_elem inc maker_buy levels p o :
  best_first maker_buy levels →
  (p, o) ∈ offers_of inc maker_buy levels ↔
  ∃ queue, (p, queue) ∈ levels ∧ o ∈ queue ∧ oe_user_id o ≠ oe_user_id inc ∧
    beyond (oe_price inc) maker_buy p = false.
Proof.
  induction levels as [|[price queue] levels IH]; intros Hs; cbn [offers_of].
  - split; [intros Ho; by apply elem_of_nil in Ho | intros (q & Hq & _); by apply elem_of_nil in Hq].
  - apply StronglySorted_inv in Hs as [Hs Hf]. rewrite Forall_forall in Hf.
    destruct (beyond (oe_price inc) maker_buy price) eqn:Hb.
    + split; [intros Ho; by apply elem_of_nil in Ho |].
      intros (q & Hq & _ & _ & Hnb). apply elem_of_cons in Hq as [[= -> ->]|Hq]; [congruence |].
      apply Hf in Hq. cbn in Hq. by rewrite (beyond_worse _ _ _ _ Hb Hq) in Hnb.
    + rewrite elem_of_app, queue_offers_elem, IH by done. split.
      * intros [(-> & ? & ?) | (q & ? & ?)]; [exists queue | exists q]; rewrite elem_of_cons; tauto.
      * intros (q & Hq & ? & ? & ?). apply elem_of_cons in Hq as [[= -> ->]|Hq]; [tauto | right; eauto].
Qed.

(** Offers come best price first. *)
Lemma offers_of_best_first inc maker_buy levels :
  best_first maker_buy levels →
  StronglySorted (fun a b => ¬ better maker_buy b.1 a.1) (offers_of inc maker_buy levels).
Proof.
  induction levels as [|[price queue] levels IH]; intros Hs; cbn [offers_of]; [constructor |].
  pose proof Hs as Hs0. apply StronglySorted_inv in Hs as [Hs Hf]. rewrite Forall_forall in Hf.
  destruct (beyond _ _ _); [constructor |]. apply StronglySorted_app_2; [| | by apply IH].
  - intros [p1 o1] [p2 o2] (-> & _)%queue_offers_elem (q & Hq & _)%(offers_of_elem inc _ _ _ _ Hs).
    apply Hf in Hq. unfold better in *. cbn in *. destruct maker_buy; lia.
  - unfold queue_offers. clear. induction (List.filter _ queue); cbn; constructor; [done |].
    apply Forall_forall. intros x (o & -> & _)%list_elem_of_fmap. unfold better. cbn. destruct maker_buy; lia.
Qed.

(** ** The walk of the matcher and the reference order agree *)

Lemma crosses_beyond inc price :
  crosses inc price = negb (beyond (oe_price inc) (String.eqb (oe_order_type inc) "sell") price).
Proof.
  unfold crosses, beyond. destruct (oe_price inc) as [limit|]; [| done]. rewrite !dec_ltb_raw.
  destruct (String.eqb _ _); cbn; rewrite ?orb_false_r; lia.
Qed.

Lemma beats_better seller p q : beats seller p q = true ↔ better seller p q.
Proof. unfold beats, better. destruct seller; apply Z.ltb_lt. Qed.

Lemma flatten_app l1 l2 : flatten (l1 ++ l2) = flatten l1 ++ flatten l2.
Proof. unfold flatten. by rewrite map_app, join_app. Qed.

Lemma flatten_elem levels p o : (p, o) ∈ flatten levels ↔ ∃ queue, (p, queue) ∈ levels ∧ o ∈ queue.
Proof.
  unfold flatten. rewrite list_elem_of_join. split.
  - intros (l & Hin & Hl). apply list_elem_of_fmap in Hl as ([p' queue] & -> & Hl).
    apply list_elem_of_fmap in Hin as (o' & [= -> ->] & Hin). by exists queue.
  - intros (queue & Hl & Ho). exists (map (pair p) queue). split; [by apply list_elem_of_fmap_2 |].
    by apply (list_elem_of_fmap_2 (fun level : Decimal * list OrderEntry => map (pair level.1) level.2) levels (p, queue)).
Qed.

Lemma filter_none {A} (f : A → bool) l : (∀ a, a ∈ l → f a = false) → List.filter f l = [].
Proof.
  induction l as [|a l IH]; intros Hf; [done |]. cbn. rewrite Hf by left. apply IH. intros b Hb. apply Hf. by right.
Qed.

(** The orders of one level that may be traded with. *)
Lemma tradable_level inc price queue :
  List.filter (tradable inc) (map (pair price) queue) =
  if beyond (oe_price inc) (String.eqb (oe_order_type inc) "sell") price then []
  else queue_offers (oe_user_id inc) price queue.
Proof.
  destruct (beyond _ _ price) eqn:Hb.
  - apply filter_none. intros a (o & -> & _)%list_elem_of_fmap. unfold tradable. cbn. by rewrite crosses_beyond, Hb.
  - unfold queue_offers. induction queue as [|o queue IH]; [done |]. cbn [map List.filter]. rewrite IH.
    unfold tradable at 1. cbn [fst snd]. rewrite crosses_beyond, Hb. cbn [negb andb]. by destruct (negb _).
Qed.

(** Stopping at the first level beyond the limit leaves out nothing that could be traded with. *)
Lemma walk_tradable inc levels :
  best_first (String.eqb (oe_order_type inc) "sell") levels →
  offers_of inc (String.eqb (oe_order_type inc) "sell") levels = List.filter (tradable inc) (flatten levels).
Proof.
  induction levels as [|[price queue] levels IH]; intros Hs; [done |].
  apply StronglySorted_inv in Hs as [Hs Hf]. rewrite Forall_forall in Hf.
  change (flatten ((price, queue) :: levels)) with (map (pair price) queue ++ flatten levels).
  rewrite List.filter_app, tradable_level, <- IH by done. cbn [offers_of].
  destruct (beyond _ _ price) eqn:Hb; [| done]. cbn. symmetry. rewrite IH by done. apply filter_none.
  intros [p o] (q & Hq & _)%flatten_elem. apply Hf in Hq. unfold tradable. cbn in Hq |- *.
  by rewrite crosses_beyond, (beyond_worse _ _ _ _ Hb Hq).
Qed.

Lemma place_front seller offer l : Forall (fun other => beats seller other.1 offer.1 = false) l → place seller offer l = offer :: l.
Proof. destruct 1 as [|other l Hb _]; [done |]. cbn. by rewrite Hb. Qed.
Lemma place_behind seller offer l1 l2 :
  Forall (fun other => beats seller other.1 offer.1 = true) l1 → place seller offer (l1 ++ l2) = l1 ++ place seller offer l2.
Proof. induction 1 as [|other l1 Hb _ IH]; [done |]. cbn. by rewrite Hb, IH. Qed.

(** A list that is in order stays as it is. *)
Lemma place_sorted seller l :
  StronglySorted (fun a b => ¬ better seller b.1 a.1) l → foldr (place seller) [] l = l.
Proof.
  induction 1 as [|a l _ IH Hf]; [done |]. cbn. rewrite IH. apply place_front. eapply Forall_impl; [exact Hf |].
  cbn. intros b Hb. apply not_true_is_false. by rewrite beats_better.
Qed.

(** Orders of one price go, in their order, behind all that is better. *)
Lemma place_level seller price better_ones l :
  Forall (fun other => beats seller other.1 price = true) better_ones → Forall (fun offer => offer.1 = price) l →
  foldr (place seller) better_ones l = better_ones ++ l.
Proof.
  intros Hb. induction 1 as [|offer l <- Hl IH]; cbn; [by rewrite app_nil_r |].
  rewrite IH, place_behind by done. f_equal. apply place_front. eapply Forall_impl; [exact Hl |].
  cbn. intros other ->. apply not_true_is_false. rewrite beats_better. unfold better. destruct seller; lia.
Qed.

(** A side listed worst price first is turned round, level by level. *)
Lemma place_reversed seller keep levels :
  StronglySorted (fun a b => better seller b.1 a.1) levels →
  foldr (place seller) [] (List.filter keep (flatten levels)) = List.filter keep (flatten (rev levels)).
Proof.
  induction 1 as [|[price queue] levels _ IH Hf]; [done |].
  change (flatten ((price, queue) :: levels)) with (map (pair price) queue ++ flatten levels).
  cbn [rev]. rewrite flatten_app, !List.filter_app, foldr_app, IH. cbn [flatten map mjoin list_join].
  rewrite app_nil_r. apply (place_level seller price); apply Forall_forall.
  - intros [p o] Hin. apply list_elem_of_In, filter_In in Hin as [Hin%list_elem_of_In _].
    apply flatten_elem in Hin as (q & Hq & _). apply list_elem_of_In, in_rev, list_elem_of_In in Hq.
    rewrite Forall_forall in Hf. apply beats_better. by apply (Hf (p, q)).
  - intros offer Hin. apply list_elem_of_In, filter_In in Hin as [Hin%list_elem_of_In _].
    by apply list_elem_of_fmap in Hin as (o & -> & _).
Qed.

Lemma sublist_sorted {A} (R : A → A → Prop) l1 l2 :
  l1 `sublist_of` l2 → StronglySorted R l2 → StronglySorted R l1.
Proof.
  induction 1 as [|a l1 l2 Hsub IH|a l1 l2 Hsub IH]; intros Hs; [done | |].
  - apply StronglySorted_inv in Hs as [Hs Hf]. constructor; [by apply IH |].
    rewrite Forall_forall in *. intros x Hx. apply Hf. apply (elem_of_submseteq _ _ _ Hx).
    by apply sublist_submseteq.
  - apply StronglySorted_inv in Hs as [Hs _]. by apply IH.
Qed.
End reference_facts.

(** ** Committing a plan *)

Section commit_facts.
Context {E : Externals} {L : DecimalLaws ext_decimal}.

Lemma validate_total o :
  order_identity o → (∃ d, fee dec_zero (oe_fee_rate o) = Ok d) → quantity_order o →
  validate o false = Ok tt.
Proof.
  intros (Hid & Hus & Hty & Hsd & Hb & Hq & Hne) (d & Hfee) (Hnm & Hqa & Hrq & (f & r & Hf & Hr & Hpos & Ha) & Hpr).
  unfold validate. rewrite Hfee, Hb, Hq. cbn [mbind result_bind ensure].
  rewrite (proj2 (one_of_two _ _ _) Hty), (proj2 (one_of_two _ _ _) Hsd), (proj2 (String.eqb_neq _ _) Hne).
  rewrite !(proj2 (Z.ltb_lt _ _)), !(proj2 (Z.leb_le _ _)) by lia. cbn [mbind result_bind ensure andb negb].
  unfold validate_quantity. rewrite Hqa, Hrq. rewrite (bool_decide_true (@None Decimal = None)) by done.
  assert (String.eqb (oe_order_side o) "market" && String.eqb (oe_order_type o) "buy" = false)%bool as ->.
  { apply not_true_iff_false. rewrite andb_true_iff, !String.eqb_eq. done. }
  pose proof (in_units_range _ _ Hf). pose proof (in_units_range _ _ Ha).
  rewrite !dec_ltb_raw, zero_raw. rewrite !(proj2 (Z.ltb_lt _ _)) by (destruct Ha, Hr; lia).
  cbn [mbind result_bind ensure andb].
  destruct (add_total _ _ _ _ Hf Hr) as (sum & Hsum); [lia | by eapply in_units_representable |].
  pose proof (add_ok _ _ _ _ _ Hf Hr Hsum) as Hs. rewrite Hsum. cbn [mbind result_bind].
  rewrite dec_eqb_raw. rewrite (proj2 (Z.eqb_eq _ _)) by (destruct Hs, Ha; lia).
  cbn [mbind result_bind ensure].
  destruct (String.eqb (oe_order_side o) "limit").
  - destruct Hpr as (p & v & -> & Hp & Hv). cbn. rewrite dec_ltb_raw, zero_raw.
    rewrite (proj2 (Z.ltb_lt _ _)) by done. cbn. by rewrite Hv.
  - by rewrite Hpr.
Qed.

(** Nothing in planning can panic. *)
Lemma validate_no_panic o inc : no_panic (validate o inc).
Proof. unfold validate, validate_quantity. solve_no_panic. Qed.

Lemma plan_maker_no_panic price plan o : no_panic (plan_maker price plan o).
Proof.
  pose proof validate_no_panic. unfold plan_maker, fill_order. solve_no_panic.
Qed.

Lemma plan_order_no_panic inc book : no_panic (plan_order inc book).
Proof.
  pose proof validate_no_panic. unfold plan_order. apply no_panic_bind; [done |]. intros _ _.
  generalize (mk_plan inc [] dec_zero dec_zero [] (String.eqb (oe_order_type inc) "sell")).
  induction (opposite_levels _ book) as [|[price queue] levels IH]; intros plan; [done |].
  cbn [plan_levels]. destruct (beyond _ _ _); [done |]. apply no_panic_bind.
  - revert plan. induction queue as [|o queue IHq]; intros plan; [done |]. cbn [plan_queue].
    apply no_panic_bind; [apply plan_maker_no_panic |]. intros [plan'|plan'] _; [apply IHq | done].
  - intros [plan'|plan'] _; [apply IH | done].
Qed.

(** An order resting in a book of [pair], on the buy or the sell side. *)
Definition order_resting (pair : TradingPair) (buy : bool) (o : OrderEntry) : Prop :=
  validate o false = Ok tt ∧ oe_order_side o = "limit"%string ∧
  oe_order_type o = (if buy then "buy" else "sell")%string ∧
  oe_base_mint o = base_mint pair ∧ oe_quote_mint o = quote_mint pair.

Definition side_of (buy : bool) (b : OrderBook) : OrderBookSide := if buy then buy_orders b else sell_orders b.

Record book_wf (b : OrderBook) : Prop := {
  bw_side : ∀ buy, side_wf (side_of buy b);
  bw_resting : ∀ buy p o, o ∈ level (side_of buy b) p → order_resting (trading_pair b) buy o;
  bw_disjoint : ∀ p q o o', o ∈ level (buy_orders b) p → o' ∈ level (sell_orders b) q → oe_id o ≠ oe_id o';
}.

(** A partly traded maker is a valid resting order if something of it is left. *)
Lemma filled_maker_resting pair buy o q n :
  order_resting pair buy o → filled_maker o q n → 0 < raw (oe_remaining_amount n) →
  order_resting pair buy n.
Proof.
  intros (Hval & Hside & Htype & Hb & Hq) (f & r & f0 & r0 & -> & Hf0 & Hr0 & Hf & Hr) Hpos.
  apply validate_run in Hval as (Hid & Hfee & _ & [(Hm & _) | Hqo]); [congruence |].
  split; [| done]. apply validate_total; [done | done |].
  destruct Hqo as (Hnm & Hqa & Hrq & (f1 & r1 & Hf1 & Hr1 & _ & Ha) & Hpr).
  rewrite (in_units_inj _ _ _ Hf1 Hf0), (in_units_inj _ _ _ Hr1 Hr0) in Ha.
  split_and!; [done | done | done | | done].
  exists (f0 + q), (r0 - q). cbn in *. split_and!; [done | done | destruct Hr; lia |].
  by replace (f0 + q + (r0 - q)) with (f0 + r0) by lia.
Qed.

(** The offers of a plan rest in the book. *)
Lemma offer_in_book inc maker_buy book p o :
  book_wf book → (p, o) ∈ offers_of inc maker_buy (opposite_levels maker_buy book) →
  o ∈ level (side_of maker_buy book) p ∧ oe_user_id o ≠ oe_user_id inc ∧
  beyond (oe_price inc) maker_buy p = false.
Proof.
  intros Hwf Hin.
  apply offers_of_elem in Hin as (queue & Hq & Ho & Hu & Hb);
    [| apply opposite_best_first; [apply (bw_side _ Hwf true) | apply (bw_side _ Hwf false)]].
  split; [| done]. unfold level. rewrite (bt_elem_get p queue); [done | apply Hwf |].
  unfold opposite_levels, side_of in *. destruct maker_buy; [| done].
  apply list_elem_of_In, in_rev, list_elem_of_In. done.
Qed.

Lemma plan_changes_ok inc maker_buy fs w plan side :
  plan_inv inc maker_buy fs w plan →
  (∀ q p o, (q, (p, o)) ∈ fs → o ∈ level side p) →
  changes_ok side (p_makers plan).
Proof.
  intros Hinv Hin. split; [apply Hinv |]. intros p ch Hch.
  pose proof (bt_elem_get _ _ _ (pi_sorted _ _ _ _ _ Hinv) Hch) as Hget. split.
  - intros ->. by apply (pi_nonempty _ _ _ _ _ Hinv p).
  - intros id n Hn. destruct (pi_found _ _ _ _ _ Hinv p id n) as (q & p' & o & Ho & Hp & Hid & Hfm).
    { by rewrite Hget. }
    destruct Hfm as (? & ? & ? & ? & -> & _). split; [done |]. exists o. split; [| done].
    rewrite <- (level_raw side p' p) by done. by eapply Hin.
Qed.

(** What of the incoming order goes to rest. *)
Definition rests (o : OrderEntry) : bool :=
  String.eqb (oe_order_side o) "limit" && dec_ltb dec_zero (oe_remaining_amount o).

Lemma plan_order_resting inc fs w o pair :
  validate inc true = Ok tt → order_after inc fs w o → rests o = true →
  pair = mk_pair (oe_base_mint inc) (oe_quote_mint inc) →
  order_resting pair (negb (String.eqb (oe_order_type inc) "sell")) o ∧ is_Some (oe_price o).
Proof.
  intros Hval Ho Hrests ->. unfold rests in Hrests. inv_ok. dec_simpl.
  match goal with H : String.eqb _ _ = true |- _ => apply String.eqb_eq in H; rename H into Hside end.
  apply validate_run in Hval as (Hid & Hfee & Hfresh & Hkind). specialize (Hfresh eq_refl).
  pose proof (order_after_same _ _ _ _ Ho) as (_ & _ & _ & Hsd & _ & _ & Hprice & _).
  destruct Hkind as [(Hm & _) | (Hnm & Hqa & Hrq & (f & r & Hf & Hr & Hpos & Ha) & Hpr)]; [congruence |].
  destruct Ho as (a & r' & f' & rq & -> & Hf' & H). rewrite Hrq in H.
  destruct H as (-> & -> & r0 & Hr0 & Hr' & _). cbn in *.
  assert (f = 0) as -> by (destruct Hf; lia). rewrite (in_units_inj _ _ _ Hr0 Hr) in *.
  rewrite Hside in Hpr. cbn in Hpr. destruct Hpr as (p & v & Hp & Hppos & Hv).
  split; [| by rewrite Hp].
  assert (Hty : oe_order_type inc = (if negb (String.eqb (oe_order_type inc) "sell") then "buy" else "sell")%string).
  { destruct Hid as (_ & _ & [-> | ->] & _); done. }
  split; [| by split_and!]. apply validate_total; [done | done |].
  split_and!; [cbn; naive_solver | done | done | | cbn; rewrite Hside; cbn; eauto].
  exists (fills_amount fs), (r - fills_amount fs). cbn. split_and!; [done | done | destruct Hr'; lia |].
  by replace (fills_amount fs + (r - fills_amount fs)) with (0 + r) by lia.
Qed.

(** One side of a book after the makers of a plan were committed. *)
Lemma committed_resting pair maker_buy inc fs w plan side side' :
  plan_inv inc maker_buy fs w plan →
  (∀ p o, o ∈ level side p → order_resting pair maker_buy o) →
  (∀ q p o, (q, (p, o)) ∈ fs → o ∈ level side p) →
  (∀ k, level side' k = omap (replace (default ∅ (bt_get k (p_makers plan)))) (level side k)) →
  ∀ p o, o ∈ level side' p →
    order_resting pair maker_buy o ∧ ∃ o', o' ∈ level side p ∧ oe_id o' = oe_id o.
Proof.
  intros Hinv Hrest Hin Hlev p o Ho. rewrite Hlev in Ho.
  apply replaced_elem in Ho as [[Ho _] | (o' & Ho' & Hn & Hpos)]; [split; [by eapply Hrest | eauto] |].
  destruct (pi_found _ _ _ _ _ Hinv p _ _ Hn) as (q & p' & o1 & Ho1 & Hp & Hid & Hfm).
  split; [eapply filled_maker_resting; [by eapply Hrest, Hin | done | done] |].
  exists o'. split; [done |]. rewrite <- Hid. by destruct Hfm as (? & ? & ? & ? & -> & _).
Qed.

Lemma side_of_on_buy {A} (m : st OrderBookSide A) b r s :
  m (buy_orders b) = (r, s) → on_buy m b = (r, mk_book (trading_pair b) s (sell_orders b)).
Proof. intros H. unfold on_buy, zoom. by rewrite H. Qed.
Lemma side_of_on_sell {A} (m : st OrderBookSide A) b r s :
  m (sell_orders b) = (r, s) → on_sell m b = (r, mk_book (trading_pair b) (buy_orders b) s).
Proof. intros H. unfold on_sell, zoom. by rewrite H. Qed.

(** A book in which one side was replaced by a well-formed one. *)
Lemma book_wf_update b b' buy :
  book_wf b → trading_pair b' = trading_pair b →
  side_of (negb buy) b' = side_of (negb buy) b → side_wf (side_of buy b') →
  (∀ p o, o ∈ level (side_of buy b') p →
     order_resting (trading_pair b) buy o ∧
     ((∃ q o', o' ∈ level (side_of buy b) q ∧ oe_id o' = oe_id o) ∨
      (∀ q o', o' ∈ level (side_of (negb buy) b) q → oe_id o' ≠ oe_id o))) →
  book_wf b'.
Proof.
  intros Hwf Hpair Hother Hside Hnew.
  assert (Hsides : ∀ x, x = buy ∨ x = negb buy) by (intros x; destruct x, buy; auto).
  assert (Hdis : ∀ p q o o', o ∈ level (side_of buy b') p → o' ∈ level (side_of (negb buy) b') q →
    oe_id o ≠ oe_id o').
  { intros p q o o' Ho Ho'. rewrite Hother in Ho'.
    destruct (Hnew p o Ho) as [_ [(q' & o1 & Ho1 & <-)|Hf]]; [| intros Heq; by destruct (Hf q o' Ho')].
    destruct buy; cbn in *; [by eapply (bw_disjoint _ Hwf) |].
    intros Heq. by eapply (bw_disjoint _ Hwf q q' o' o1). }
  split.
  - intros x. destruct (Hsides x) as [-> | ->]; [done |]. rewrite Hother. apply Hwf.
  - intros x p o. rewrite Hpair. destruct (Hsides x) as [-> | ->].
    + intros Ho. by destruct (Hnew p o Ho).
    + rewrite Hother. apply Hwf.
  - intros p q o o' Ho Ho'. destruct buy; cbn in *; [by eapply Hdis |].
    intros Heq. symmetry in Heq. revert Heq. by eapply Hdis.
Qed.

(** The order rests at the price. *)
Definition priced_at (o : OrderEntry) (k : Decimal) : bool :=
  match oe_price o with Some p => raw k =? raw p | None => false end.

(** Adding a valid order with a new id to its side. *)
Lemma book_add_order_run b o buy p :
  book_wf b → order_resting (trading_pair b) buy o → oe_price o = Some p →
  (∀ x k o', o' ∈ level (side_of x b) k → oe_id o' ≠ oe_id o) →
  ∃ b', book_add_order o b = (Ok tt, b') ∧ book_wf b' ∧ trading_pair b' = trading_pair b ∧
    side_of (negb buy) b' = side_of (negb buy) b ∧
    ∀ k, level (side_of buy b') k =
         level (side_of buy b) k ++ (if priced_at o k then [o] else []).
Proof.
  intros Hwf Hrest Hp Hfresh. pose proof Hrest as (_ & _ & Hty & _).
  pose proof (bw_side _ Hwf buy) as Hside.
  destruct (side_add_order_run o (side_of buy b) p Hp Hside) as (s' & Hrun & _ & Hlev).
  set (b' := if buy then mk_book (trading_pair b) s' (sell_orders b)
             else mk_book (trading_pair b) (buy_orders b) s').
  assert (Hs1 : side_of buy b' = s') by (unfold b'; by destruct buy).
  assert (Hs2 : side_of (negb buy) b' = side_of (negb buy) b) by (unfold b'; by destruct buy).
  assert (Hp1 : trading_pair b' = trading_pair b) by (unfold b'; by destruct buy).
  assert (Hlev' : ∀ k, level (side_of buy b') k = level (side_of buy b) k ++ (if priced_at o k then [o] else [])).
  { intros k. rewrite Hs1, Hlev. unfold priced_at. rewrite Hp.
    destruct (Z.eqb_spec (raw k) (raw p)); [by rewrite (level_raw _ k p) | by rewrite app_nil_r]. }
  exists b'. split_and!; [| | done | done | done].
  - unfold book_add_order. rewrite Hty. unfold b'.
    destruct buy; cbn; [by apply side_of_on_buy | by apply side_of_on_sell].
  - apply (book_wf_update b b' buy); [done | done | done | |].
    + rewrite Hs1. eapply side_add_order_wf; [exact Hside | done | apply Hfresh].
    + intros k o1. rewrite Hlev'. intros [Ho1|Ho1]%elem_of_app.
      * split; [by apply (bw_resting _ Hwf _ k) | left; eauto].
      * destruct (priced_at o k); [| by apply elem_of_nil in Ho1].
        apply list_elem_of_singleton in Ho1 as ->. split; [done | right; apply Hfresh].
Qed.

(** Ids on both sides of a book. *)
Definition in_book (b : OrderBook) (buy : bool) (p : Decimal) (o : OrderEntry) : Prop :=
  o ∈ level (side_of buy b) p.

(** The makers of a plan, committed: their queues are rebuilt, the other side is left alone. *)
Lemma commit_makers_run inc maker_buy book plan fs w :
  plan_inv inc maker_buy fs w plan → book_wf book → (∀ q p o, (q, (p, o)) ∈ fs → o ∈ level (side_of maker_buy book) p) →
  ∃ book1, (if maker_buy then on_buy (apply_prepared_orders (p_makers plan))
            else on_sell (apply_prepared_orders (p_makers plan))) book = (Ok tt, book1) ∧ book_wf book1 ∧
    trading_pair book1 = trading_pair book ∧ side_of (negb maker_buy) book1 = side_of (negb maker_buy) book ∧
    (∀ k, level (side_of maker_buy book1) k =
          omap (replace (default ∅ (bt_get k (p_makers plan)))) (level (side_of maker_buy book) k)) ∧
    ∀ p o, o ∈ level (side_of maker_buy book1) p → ∃ o', in_book book maker_buy p o' ∧ oe_id o' = oe_id o.
Proof.
  intros Hinv Hwf Hin.
  destruct (apply_prepared_orders_run _ _ (bw_side _ Hwf maker_buy) (plan_changes_ok _ _ _ _ _ _ Hinv Hin))
    as (side' & Hrun & Hside' & Hlev).
  pose proof (committed_resting _ _ _ _ _ _ _ side' Hinv (bw_resting _ Hwf maker_buy) Hin Hlev) as Hcom.
  set (book1 := if maker_buy then mk_book (trading_pair book) side' (sell_orders book)
                else mk_book (trading_pair book) (buy_orders book) side').
  assert (Hs1 : side_of maker_buy book1 = side') by (unfold book1; by destruct maker_buy).
  assert (Hs2 : side_of (negb maker_buy) book1 = side_of (negb maker_buy) book) by (unfold book1;
    by destruct maker_buy).
  exists book1. rewrite Hs1. split_and!; [| | by unfold book1; destruct maker_buy | exact Hs2 | exact Hlev |].
  - unfold book1. destruct maker_buy; [by apply side_of_on_buy | by apply side_of_on_sell].
  - apply (book_wf_update book book1 maker_buy); [done | by unfold book1; destruct maker_buy | done | by rewrite Hs1 |].
    intros p o Hpo. rewrite Hs1 in Hpo. destruct (Hcom p o Hpo) as [? (o' & Ho' & ?)]. split; [done |]. left. eauto.
  - intros p o (_ & o' & Ho' & Hid)%Hcom. eauto.
Qed.

(** Publishing a plan for an order with a new id on a well-formed book: it cannot panic, the book
    stays well-formed, the makers' queues are rebuilt in place and what is left of a limit order
    goes behind the queue of its price. *)
Lemma commit_book_run inc book plan :
  plan_order inc book = Ok plan → book_wf book →
  trading_pair book = mk_pair (oe_base_mint inc) (oe_quote_mint inc) →
  (∀ buy p o, in_book book buy p o → oe_id o ≠ oe_id inc) →
  let maker_buy := String.eqb (oe_order_type inc) "sell" in
  ∃ book', commit_book plan book = (Ok tt, book') ∧ book_wf book' ∧
    trading_pair book' = trading_pair book ∧
    (∀ k, level (side_of maker_buy book') k =
          omap (replace (default ∅ (bt_get k (p_makers plan)))) (level (side_of maker_buy book) k)) ∧
    (∀ k, level (side_of (negb maker_buy) book') k = level (side_of (negb maker_buy) book) k ++
          (if rests (p_order plan) && priced_at (p_order plan) k
           then [p_order plan] else [])) ∧
    (∀ buy p o, in_book book' buy p o →
       (∃ o', in_book book buy p o' ∧ oe_id o' = oe_id o) ∨ oe_id o = oe_id inc).
Proof.
  intros Hplan Hwf Hpair Hfresh maker_buy.
  apply plan_order_run in Hplan as (Hval & w & Hinv). fold maker_buy in Hinv.
  set (fs := fills _ _) in Hinv.
  assert (Hin : ∀ q p o, (q, (p, o)) ∈ fs → o ∈ level (side_of maker_buy book) p).
  { intros q p o Hf. apply (offer_in_book inc maker_buy book p o Hwf).
    apply (elem_of_submseteq (map snd fs)); [| apply sublist_submseteq, fills_sublist].
    apply list_elem_of_fmap. by exists (q, (p, o)). }
  destruct (commit_makers_run _ _ _ _ _ _ Hinv Hwf Hin) as (book1 & Hrun1 & Hwf1 & Hp1 & Hs2 & Hlev & Hcom).
  pose proof (pi_order _ _ _ _ _ Hinv) as Ho.
  pose proof (order_after_same _ _ _ _ Ho) as (Hid & _ & Hty & _).
  assert (Hmine : negb maker_buy = negb (String.eqb (oe_order_type inc) "sell")) by done.
  assert (Hids : ∀ b', (∀ k o, in_book b' maker_buy k o → o ∈ level (side_of maker_buy book1) k) →
    (∀ k o, in_book b' (negb maker_buy) k o → in_book book (negb maker_buy) k o ∨ oe_id o = oe_id inc) →
    ∀ buy p o, in_book b' buy p o → (∃ o', in_book book buy p o' ∧ oe_id o' = oe_id o) ∨ oe_id o = oe_id inc).
  { intros b' H1 H2 buy p o Ho1. destruct (bool_decide_reflect (buy = maker_buy)) as [->|Hx].
    - apply H1, Hcom in Ho1 as (o1 & Ho1 & Hid1). left. eauto.
    - assert (buy = negb maker_buy) as -> by (by destruct buy, maker_buy).
      apply H2 in Ho1 as [Ho1|Ho1]; [left; eauto | by right]. }
  unfold commit_book. rewrite (pi_side _ _ _ _ _ Hinv). unfold mbind, st_bind. rewrite Hrun1.
  fold (rests (p_order plan)). destruct (rests (p_order plan)) eqn:Hr; cbn [andb].
  - destruct (plan_order_resting _ _ _ _ _ Hval Ho Hr Hpair) as [Hrest [p Hp]].
    rewrite <- Hmine, <- Hp1 in Hrest.
    destruct (book_add_order_run book1 (p_order plan) (negb maker_buy) p)
      as (book' & Hrun' & Hwf' & Hpair' & Hother & Hlev');
      [done | done | done | |].
    { intros x k o'. rewrite Hid. destruct (bool_decide_reflect (x = maker_buy)) as [->|Hx].
      - intros (o1 & Ho1 & <-)%Hcom. by apply (Hfresh maker_buy k).
      - assert (x = negb maker_buy) as -> by (by destruct x, maker_buy). rewrite Hs2. apply Hfresh. }
    rewrite negb_involutive in Hother. exists book'. rewrite Hother.
    split_and!; [done | done | congruence | done | |]; [intros k; by rewrite Hlev', Hs2 |].
    apply Hids; [intros k o; unfold in_book; by rewrite Hother |].
    intros k o. unfold in_book. rewrite Hlev', Hs2, elem_of_app. intros [Ho1|Ho1]; [by left |].
    destruct (priced_at _ _); [apply list_elem_of_singleton in Ho1 as ->; by right | by apply elem_of_nil in Ho1].
  - exists book1. rewrite Hs2. split_and!; [done | done | done | done | |].
    + intros k. by rewrite app_nil_r.
    + apply Hids; intros k o; unfold in_book; [done | rewrite Hs2; by left].
Qed.
End commit_facts.

(** ** Properties *)

Section matcher_properties.
Context {E : Externals} {L : DecimalLaws ext_decimal}.

(** What the incoming order may trade with in a book. *)
Definition offers (inc : OrderEntry) (book : OrderBook) : list (Decimal * OrderEntry) :=
  let maker_buy := String.eqb (oe_order_type inc) "sell" in
  offers_of inc maker_buy (opposite_levels maker_buy book).

(** In a well-formed book the matcher walks through exactly what the reference lists. *)
Lemma offers_by_priority inc book : book_wf book → offers inc book = priority_offers inc book.
Proof.
  intros Hwf. unfold offers, priority_offers. cbn zeta. pose proof (sw_sorted _ (bw_side _ Hwf true)) as Hb.
  pose proof (sw_sorted _ (bw_side _ Hwf false)) as Hs. cbn [side_of] in Hb, Hs.
  pose proof (opposite_best_first (String.eqb (oe_order_type inc) "sell") book Hb Hs) as Hbest.
  rewrite walk_tradable by done. unfold opposite_levels in *. destruct (String.eqb _ _) eqn:Hsell.
  - symmetry. by apply place_reversed.
  - symmetry. apply place_sorted. rewrite <- Hsell. rewrite <- walk_tradable by by rewrite Hsell.
    apply offers_of_best_first. by rewrite Hsell.
Qed.

(** C29. A plan makes exactly the trades of price-time priority. The reference takes every order of
    other users on the opposite side whose price the limit allows, sorts them by price, the best
    first, and leaves orders of one price in the order in which they came; from each it takes what is
    still wanted. On a well-formed book the matches of a plan are, one for one and in order, the fills
    of that reference, and its totals are the sums of those fills. *)
Theorem plan_order_priority inc book plan :
  book_wf book → plan_order inc book = Ok plan →
  let fs := fills (want_of inc) (priority_offers inc book) in
  Forall2 (trade_of inc (String.eqb (oe_order_type inc) "sell")) (p_matches plan) fs ∧
  in_units (p_total_amount plan) (fills_amount fs) ∧
  in_units (p_total_quote plan) (fills_quote fs).
Proof.
  intros Hwf (Hval & w & Hinv)%plan_order_run fs. unfold fs. rewrite <- offers_by_priority by done.
  split_and!; apply Hinv.
Qed.

(** The offers are exactly the orders of other users on the opposite side of a well-formed
    book whose price the limit allows, and they come best price first. *)
Theorem offers_complete inc book :
  book_wf book →
  let maker_buy := String.eqb (oe_order_type inc) "sell" in
  (∀ p o, (p, o) ∈ offers inc book → o ∈ level (side_of maker_buy book) p) ∧
  (∀ k o, o ∈ level (side_of maker_buy book) k → oe_user_id o ≠ oe_user_id inc →
     beyond (oe_price inc) maker_buy k = false → ∃ p, raw p = raw k ∧ (p, o) ∈ offers inc book) ∧
  StronglySorted (fun a b => ¬ better maker_buy b.1 a.1) (offers inc book).
Proof.
  intros Hwf maker_buy.
  assert (Hbf : best_first maker_buy (opposite_levels maker_buy book))
    by (apply opposite_best_first; [apply (bw_side _ Hwf true) | apply (bw_side _ Hwf false)]).
  split_and!.
  - intros p o Ho. by apply (offer_in_book inc maker_buy book).
  - intros k o Ho Hu Hb. unfold level in Ho.
    destruct (bt_get k (orders (side_of maker_buy book))) as [queue|] eqn:Hk; [| by apply elem_of_nil in Ho].
    apply bt_get_elem in Hk as (p & Hp & Hraw). exists p. split; [done |].
    apply (offers_of_elem inc maker_buy _ p o Hbf). exists queue. split_and!; [| done | done |].
    + unfold opposite_levels, side_of in *. destruct maker_buy; [| done].
      apply list_elem_of_In. rewrite <- in_rev. by apply list_elem_of_In.
    + unfold beyond in *. destruct (oe_price inc); [| done]. rewrite !dec_ltb_raw in *. by rewrite Hraw.
  - by apply offers_of_best_first.
Qed.


(** C40. A market buy spends at most its budget, and spent and remaining budget add up to it. *)
Theorem budget_order_bounded inc book plan b d :
  plan_order inc book = Ok plan → oe_remaining_quote_amount inc = Some d → in_units d b →
  ∃ spent left, in_units (p_total_quote plan) spent ∧
    oe_remaining_quote_amount (p_order plan) = Some left ∧ in_units left (b - spent) ∧
    0 ≤ spent ≤ b.
Proof.
  intros (Hval & w & Hinv)%plan_order_run Hrq Hb. fold (offers inc book) in Hinv.
  pose proof (pi_order _ _ _ _ _ Hinv) as (a & r' & f & rq & -> & Hf & Hcase). rewrite Hrq in Hcase.
  destruct Hcase as (-> & b0 & b' & Hb0 & -> & Hb' & _). rewrite (in_units_inj _ _ _ Hb0 Hb) in Hb'.
  eexists _, b'. split_and!; [apply Hinv | done | done | |].
  - apply (in_units_range _ _ (pi_quote _ _ _ _ _ Hinv)).
  - apply in_units_range in Hb'. lia.
Qed.

(** Every trade of a plan is legitimate: between two different users and two different orders,
    for a positive amount, at the price of a resting order that the incoming order's limit
    allows, with each side's own fee rate, in the order's market. *)
Theorem trades_legitimate inc book plan m :
  plan_order inc book = Ok plan → book_wf book → m ∈ p_matches plan →
  let maker_buy := String.eqb (oe_order_type inc) "sell" in
  ∃ maker, maker ∈ level (side_of maker_buy book) (mr_price m) ∧
    mr_buyer_id m ≠ mr_seller_id m ∧ mr_buy_order_id m ≠ mr_sell_order_id m ∧
    0 < raw (mr_amount m) ≤ raw (oe_remaining_amount maker) ∧
    beyond (oe_price inc) maker_buy (mr_price m) = false ∧
    mr_base_mint m = oe_base_mint inc ∧ mr_quote_mint m = oe_quote_mint inc ∧
    let buy := if maker_buy then maker else inc in
    let sell := if maker_buy then inc else maker in
    mr_buyer_id m = oe_user_id buy ∧ mr_seller_id m = oe_user_id sell ∧
    mr_buyer_fee_rate m = oe_fee_rate buy ∧ mr_seller_fee_rate m = oe_fee_rate sell.
Proof.
  intros (Hval & w & Hinv)%plan_order_run Hwf Hm maker_buy. fold maker_buy in Hinv.
  apply list_elem_of_lookup in Hm as [i Hi].
  destruct (Forall2_lookup_l _ _ _ _ _ (pi_matches _ _ _ _ _ Hinv) Hi) as ([q [p o]] & Hf & Ht).
  pose proof (Forall_lookup_1 _ _ _ _ (pi_checked _ _ _ _ _ Hinv) Hf)
    as (_ & _ & _ & _ & _ & _ & Hid & Hus & _ & r & Hr & Hq). cbn [fst snd] in *.
  destruct (offer_in_book inc maker_buy book p o Hwf) as (Ho & _ & Hb).
  { apply (elem_of_submseteq (map snd (fills (want_of inc) (offers_of inc maker_buy (opposite_levels maker_buy
    book)))));
      [| apply sublist_submseteq, fills_sublist].
    apply list_elem_of_fmap. exists (q, (p, o)). split; [done |]. by eapply list_elem_of_lookup_2. }
  destruct Ht as ([Ha _] & Hp & Hbf & Hsf & Hbo & Hso & Hbu & Hsu & Hbm & Hqm). cbn [fst snd] in *.
  exists o. rewrite Hp, Hbu, Hsu, Hbo, Hso, Ha. destruct Hr as [-> _].
  split_and!; try done; try lia; destruct maker_buy; congruence.
Qed.

(** C34. Committing a plan for an order with a new id on a well-formed book cannot panic and leaves
    a well-formed book: on the makers' side every queue is rebuilt in place with the traded
    amounts taken off and used-up orders gone, on the other side what is left of a limit order is
    appended behind the orders of its price and nothing else changes. *)
Theorem commit_book_exact inc book plan :
  plan_order inc book = Ok plan → book_wf book →
  trading_pair book = mk_pair (oe_base_mint inc) (oe_quote_mint inc) →
  (∀ buy p o, in_book book buy p o → oe_id o ≠ oe_id inc) →
  let maker_buy := String.eqb (oe_order_type inc) "sell" in
  ∃ book', commit_book plan book = (Ok tt, book') ∧ book_wf book' ∧
    trading_pair book' = trading_pair book ∧
    (∀ k, level (side_of maker_buy book') k =
          omap (replace (default ∅ (bt_get k (p_makers plan)))) (level (side_of maker_buy book) k)) ∧
    (∀ k, level (side_of (negb maker_buy) book') k = level (side_of (negb maker_buy) book) k ++
          (if rests (p_order plan) && priced_at (p_order plan) k then [p_order plan] else [])) ∧
    ∀ f, f ∈ fills (want_of inc) (offers inc book) →
      ∃ n, default ∅ (bt_get f.2.1 (p_makers plan)) !! oe_id f.2.2 = Some n ∧ filled_maker f.2.2 f.1 n.
Proof.
  intros Hplan Hwf Hpair Hfresh maker_buy.
  destruct (commit_book_run _ _ _ Hplan Hwf Hpair Hfresh) as (book' & ? & ? & ? & ? & ? & _).
  apply plan_order_run in Hplan as (_ & w & Hinv).
  exists book'. split_and!; [done..|]. intros [q [p o]] Hf. by apply (pi_made _ _ _ _ _ Hinv).
Qed.
End matcher_properties.

(** ** The properties at concrete inputs *)

Section matcher_examples.
#[local] Existing Instance ref_externals.
#[local] Existing Instance ref_decimal_laws.

Definition ex_pair : TradingPair := mk_pair "SOL" "USDT".
(** Five and three SOL for sale at 2 USDT, nothing to buy. *)
Definition ex_book : OrderBook := mk_book ex_pair side_new ex_asks.

Lemma ex_ask1_resting : order_resting ex_pair false ex_ask1.
Proof. split; [vm_compute; reflexivity | by split_and!]. Qed.
Lemma ex_ask2_resting : order_resting ex_pair false ex_ask2.
Proof. split; [vm_compute; reflexivity | by split_and!]. Qed.

Lemma ex_book_level p o : o ∈ level ex_asks p → raw p = raw (dz "2") ∧ (o = ex_ask1 ∨ o = ex_ask2).
Proof.
  rewrite ex_asks_level. destruct (Z.eqb_spec (raw p) (raw (dz "2"))) as [Hp|Hp].
  - intros [Ho | Ho%list_elem_of_singleton]%elem_of_cons; auto.
  - intros Ho. by apply elem_of_nil in Ho.
Qed.

Lemma ex_book_wf : book_wf ex_book.
Proof.
  split.
  - intros []; [apply side_new_wf | apply ex_asks_wf].
  - intros [] p o Ho; [by apply elem_of_nil in Ho |].
    apply ex_book_level in Ho as [_ [-> | ->]]; [apply ex_ask1_resting | apply ex_ask2_resting].
  - intros p q o o' Ho. by apply elem_of_nil in Ho.
Qed.

(** A bid for six SOL at up to 2.5 USDT. *)
Definition ex_bid : OrderEntry := ex_limit 9 20 "buy" "2.5" "6" "0" "6".
Definition ex_empty_plan : MatchPlan := mk_plan ex_bid [] dec_zero dec_zero [] false.
Definition ex_plan : MatchPlan := get_ok ex_empty_plan (plan_order ex_bid ex_book).

Lemma ex_plan_run : plan_order ex_bid ex_book = Ok ex_plan.
Proof. apply get_ok_run. vm_compute. reflexivity. Qed.

(** Five from the older ask, one from the younger. *)
Example ex_plan_fills :
  map (fun f => (f.1, oe_id f.2.2)) (fills (want_of ex_bid) (offers ex_bid ex_book)) =
  [(5 * 10 ^ 9, 1); (1 * 10 ^ 9, 2)].
Proof. vm_compute. reflexivity. Qed.

Lemma ex_fresh buy p o : in_book ex_book buy p o → oe_id o ≠ oe_id ex_bid.
Proof.
  intros Ho. destruct buy; [by apply elem_of_nil in Ho |].
  by apply ex_book_level in Ho as [_ [-> | ->]].
Qed.

Lemma ex_units_six : in_units (oe_remaining_amount ex_bid) (6 * 10 ^ 9).
Proof. by vm_compute. Qed.

Lemma ex_offers_nonneg : Forall (fun o => 0 ≤ offered o) (offers ex_bid ex_book).
Proof.
  apply Forall_forall. intros [p o] [Ho _]%(offer_in_book _ _ _ _ _ ex_book_wf).
  apply ex_book_level in Ho as [_ [-> | ->]]; by vm_compute.
Qed.

Lemma plan_order_priority_witness :
  plan_order ex_bid ex_book = Ok ex_plan ∧
  Forall2 (trade_of ex_bid false) (p_matches ex_plan) (fills (want_of ex_bid) (priority_offers ex_bid ex_book)).
Proof. split; [exact ex_plan_run |]. exact (proj1 (plan_order_priority _ _ _ ex_book_wf ex_plan_run)). Defined.

Lemma offers_complete_witness :
  ∃ p, raw p = raw (dz "2") ∧ (p, ex_ask1) ∈ offers ex_bid ex_book.
Proof.
  apply (proj1 (proj2 (offers_complete ex_bid ex_book ex_book_wf))).
  - change (ex_ask1 ∈ level ex_asks (dz "2")). rewrite ex_asks_level, Z.eqb_refl. left.
  - discriminate.
  - vm_compute. reflexivity.
Defined.


(** A market buy with five USDT to spend. *)
Definition ex_market : OrderEntry :=
  {| oe_fee_rate := dz "0.001"; oe_id := 8; oe_user_id := 20; oe_order_type := "buy";
     oe_order_side := "market"; oe_base_mint := "SOL"; oe_quote_mint := "USDT"; oe_price := None;
     oe_amount := dz "0"; oe_quote_amount := Some (dz "5"); oe_filled_amount := dz "0";
     oe_remaining_amount := dz "0"; oe_remaining_quote_amount := Some (dz "5"); oe_created_at := 0 |}.
Definition ex_market_plan : MatchPlan := get_ok ex_empty_plan (plan_order ex_market ex_book).

Lemma ex_market_run : plan_order ex_market ex_book = Ok ex_market_plan.
Proof. apply get_ok_run. vm_compute. reflexivity. Qed.

Lemma budget_order_bounded_witness :
  ∃ spent left, in_units (p_total_quote ex_market_plan) spent ∧
    oe_remaining_quote_amount (p_order ex_market_plan) = Some left ∧
    in_units left (5 * 10 ^ 9 - spent) ∧ 0 ≤ spent ≤ 5 * 10 ^ 9.
Proof.
  apply (budget_order_bounded ex_market ex_book ex_market_plan (5 * 10 ^ 9) (dz "5") ex_market_run eq_refl).
  by vm_compute.
Defined.

Example ex_plan_trades : length (p_matches ex_plan) = 2%nat.
Proof. vm_compute. reflexivity. Qed.

(** The first trade of the plan. *)
Definition ex_first_trade : MatchResult :=
  default (match_result ex_plan ex_ask1 (dz "2") (dz "5")) (head (p_matches ex_plan)).

Lemma ex_first_trade_in : ex_first_trade ∈ p_matches ex_plan.
Proof.
  unfold ex_first_trade. pose proof ex_plan_trades as Hlen.
  destruct (p_matches ex_plan); [discriminate | left].
Qed.

Lemma trades_legitimate_witness :
  ∃ maker, maker ∈ level (sell_orders ex_book) (mr_price ex_first_trade) ∧
    mr_buyer_id ex_first_trade ≠ mr_seller_id ex_first_trade.
Proof.
  destruct (trades_legitimate _ _ _ _ ex_plan_run ex_book_wf ex_first_trade_in) as (maker & H1 & H2 & _).
  exists maker. split; [exact H1 | exact H2].
Defined.

Lemma commit_book_exact_witness :
  ∃ book', commit_book ex_plan ex_book = (Ok tt, book') ∧ book_wf book'.
Proof.
  destruct (commit_book_exact _ _ _ ex_plan_run ex_book_wf eq_refl ex_fresh) as (book' & H1 & H2 & _).
  exists book'. split; [exact H1 | exact H2].
Defined.
End matcher_examples.
