(* ===== verification/Submission.v ===== *)
(** * Submitting an order ([engine/runtime/submission.rs])

    A new order is planned against the book, paid for on a private copy of the accounts it touches,
    and published only when everything worked. The state is the pair of the books and the executor
    that the function borrows. *)

From stdpp Require Import base tactics gmap list sorting strings.
From Stdlib Require Import ZArith Lia.
From S2P Require Import Prelude Text Decimals Amount BTree RefDecimal Types BalanceCache OrderBook Matcher.

(** Run mutating code on a local value; the value is lost when the code fails. *)
Definition run_local {S A} (m : st S A) (s : S) : result S :=
  match m s with
  | (Ok _, s') => Ok s'
  | (Err e, _) => Err e
  | (Panic, _) => Panic
  end.

Section submission.
Context {E : Externals}.

(** ** Data *)

Record MarketCompletion := {
  mc_order_id : Z;
  mc_user_id : Z;
  mc_order_type : string;
  mc_base_mint : string;
  mc_quote_mint : string;
  mc_filled_amount : Decimal;
  mc_filled_quote_amount : Decimal;
  mc_reserved_amount : Decimal;
  mc_refund_amount : Decimal;
  mc_trade_count : Z;
  mc_status : string;
}.

Record AppliedSubmission := {
  as_order_id : Z;
  as_matches : list MatchResult;
  as_completion : option MarketCompletion;
}.

(** The books and the executor, as the caller lends them. *)
Record Core := mk_core { orderbooks : gmap TradingPair OrderBook; executor : Executor }.

(** ** Operations *)

(** The four accounts of a trade, in the order they are copied. *)
Definition trade_accounts (trade : MatchResult) : list account :=
  [ (mr_buyer_id trade, mr_base_mint trade); (mr_buyer_id trade, mr_quote_mint trade);
    (mr_seller_id trade, mr_base_mint trade); (mr_seller_id trade, mr_quote_mint trade) ].

Definition copy_accounts (source : BalanceCache) (keys : list account) (self : BalanceCache) : BalanceCache :=
  foldl (fun c k => copy_account_from source k.1 k.2 c) self keys.

(** [for trade in &plan.matches { prepared.settle_trade(trade)?; }] *)
Fixpoint settle_all (trades : list MatchResult) : st BalanceCache unit :=
  match trades with
  | [] => mret tt
  | trade :: trades => _ ← settle_trade trade; settle_all trades
  end.

Definition market_completion (order : OrderEntry) (plan : MatchPlan) (reserved refund : Decimal) :
    option MarketCompletion :=
  if String.eqb (oe_order_side order) "market" then
    Some {| mc_order_id := oe_id order; mc_user_id := oe_user_id order;
            mc_order_type := oe_order_type order; mc_base_mint := oe_base_mint order;
            mc_quote_mint := oe_quote_mint order; mc_filled_amount := p_total_amount plan;
            mc_filled_quote_amount := p_total_quote plan; mc_reserved_amount := reserved;
            mc_refund_amount := refund; mc_trade_count := Z.of_nat (length (p_matches plan));
            mc_status := if dec_is_zero refund then "filled" else "expired" |}
  else None.

(** The asset an order pays with. *)
Definition refund_mint (order : OrderEntry) : string :=
  if String.eqb (oe_order_type order) "buy" then oe_quote_mint order else oe_base_mint order.

(** What an order may cost at most. *)
Definition reserved_for (order : OrderEntry) : result Decimal :=
  if String.eqb (oe_order_type order) "buy" then
    match oe_price order with
    | Some price => quote price (oe_amount order)
    | None => expect (oe_quote_amount order)
    end
  else Ok (oe_amount order).

(** What the rest of an order keeps reserved. *)
Definition remaining_for (order rest : OrderEntry) : result Decimal :=
  if String.eqb (oe_order_side order) "market" then Ok dec_zero
  else if String.eqb (oe_order_type order) "buy" then
    price ← expect (oe_price order);
    quote price (oe_remaining_amount rest)
  else Ok (oe_remaining_amount rest).

(** The part of [apply] that works on the private copy of the accounts. *)
Definition prepare (order : OrderEntry) (plan : MatchPlan) (source : BalanceCache) :
    result (BalanceCache * Decimal * Decimal) :=
  let buy := String.eqb (oe_order_type order) "buy" in
  reserved ← reserved_for order;
  let prepared := with_capacity (1 + length (p_matches plan) * 4) in
  let prepared := copy_account_from source (oe_user_id order) (refund_mint order) prepared in
  let prepared := copy_accounts source (mjoin (map trade_accounts (p_matches plan))) prepared in
  prepared ← run_local (lock_balance (oe_user_id order) (refund_mint order) reserved) prepared;
  prepared ← run_local (settle_all (p_matches plan)) prepared;
  remaining ← remaining_for order (p_order plan);
  let used := if buy then p_total_quote plan else p_total_amount plan in
  left ← subtract reserved used;
  refund ← subtract left remaining;
  prepared ← (if dec_ltb dec_zero refund
              then run_local (unlock_balance (oe_user_id order) (refund_mint order) refund) prepared
              else Ok prepared);
  Ok (prepared, reserved, refund).

(** [books.entry(pair).or_insert_with(..)], then work on the book behind the reference. *)
Definition with_book {A} (pair : TradingPair) (m : st OrderBook A) : st Core A :=
  zoom (fun c => default (book_new pair) (orderbooks c !! pair))
       (fun b c => mk_core (<[pair := b]> (orderbooks c)) (executor c)) m.

Definition apply (order : OrderEntry) : st Core AppliedSubmission :=
  let pair := pair_new (oe_base_mint order) (oe_quote_mint order) in
  c ← sget;
  let book := default (book_new pair) (orderbooks c !! pair) in
  plan ← lift (plan_order order book);
  '(prepared, reserved, refund) ← lift (prepare order plan (balance_cache (executor c)));
  let completion := market_completion order plan reserved refund in
  _ ← with_book pair (commit_book plan);
  _ ← smodify (fun c => mk_core (orderbooks c)
                          (mk_executor (commit_prepared prepared (balance_cache (executor c)))));
  mret {| as_order_id := oe_id (p_order plan); as_matches := p_matches plan;
          as_completion := completion |}.
End submission.

(** ** Working on a copy is working on the original *)

Section locality.
Context {E : Externals} {L : DecimalLaws ext_decimal}.
Implicit Types (K : list account) (m : st BalanceCache unit) (P D : BalanceCache).

Definition agree K P D : Prop := ∀ k, k ∈ K → balances P !! k = balances D !! k.

(** An operation that reads and writes only the rows of [K] and never removes one. *)
Record local_op K m : Prop := {
  lo_result : ∀ P D, agree K P D → (m P).1 = (m D).1;
  lo_agree : ∀ P D, agree K P D → agree K (m P).2 (m D).2;
  lo_frame : ∀ P k, k ∉ K → balances (m P).2 !! k = balances P !! k;
  lo_keep : ∀ P k, is_Some (balances P !! k) → is_Some (balances (m P).2 !! k);
}.

Lemma local_op_weaken K K' m : (∀ k, k ∈ K → k ∈ K') → local_op K m → local_op K' m.
Proof.
  intros Hsub Hm. split.
  - intros P D H. apply (lo_result _ _ Hm). intros k Hk. by apply H, Hsub.
  - intros P D H k Hk. destruct (decide (k ∈ K)) as [Hin|Hout].
    + apply (lo_agree _ _ Hm P D); [| done]. intros j Hj. by apply H, Hsub.
    + rewrite !(lo_frame _ _ Hm) by done. by apply H.
  - intros P k Hk. apply (lo_frame _ _ Hm). intros Hin. by apply Hk, Hsub.
  - apply Hm.
Qed.

Lemma local_op_ret K : local_op K (mret tt).
Proof. by split. Qed.

Lemma local_op_bind K m1 (m2 : unit → st BalanceCache unit) :
  local_op K m1 → (∀ u, local_op K (m2 u)) → local_op K (m1 ≫= m2).
Proof.
  intros H1 H2.
  assert (Hsplit : ∀ P, (m1 ≫= m2) P = match (m1 P).1 with Ok u => m2 u (m1 P).2 | Err e => (Err e,
    (m1 P).2) | Panic => (Panic, (m1 P).2) end).
  { intros P. unfold mbind, st_bind. by destruct (m1 P) as [[] ?]. }
  split.
  - intros P D Ha. rewrite !Hsplit, (lo_result _ _ H1 P D Ha).
    destruct (m1 D).1; [| done..]. by apply (lo_result _ _ (H2 _)), (lo_agree _ _ H1).
  - intros P D Ha. rewrite !Hsplit, (lo_result _ _ H1 P D Ha).
    destruct (m1 D).1; [apply (lo_agree _ _ (H2 _)) | |]; by apply (lo_agree _ _ H1).
  - intros P k Hk. rewrite Hsplit. destruct (m1 P).1; cbn;
      rewrite ?(lo_frame _ _ (H2 _)) by done; by apply (lo_frame _ _ H1).
  - intros P k Hk. rewrite Hsplit. destruct (m1 P).1; cbn; [apply (lo_keep _ _ (H2 _)) | |]; by apply (lo_keep _ _ H1).
Qed.

(** A reservation as a function of the one row it reads. *)
Definition reservation_result (v : Decimal) (lock : bool) (row : option Balance) : result (Decimal * Decimal) :=
  _ ← ensure (dec_ltb dec_zero v) "Reservation amount must be positive";
  _ ← units v;
  balance ← ok_or row "Missing reservation balance";
  if lock
  then a ← subtract (available balance) v; l ← add (locked balance) v; Ok (a, l)
  else a ← add (available balance) v; l ← subtract (locked balance) v; Ok (a, l).

Lemma change_reservation_eq u mint v lock P :
  change_reservation u mint v lock P =
  match reservation_result v lock (balances P !! (u, mint)) with
  | Ok (a, l) => (Ok tt, set_balance u mint a l P)
  | Err e => (Err e, P)
  | Panic => (Panic, P)
  end.
Proof.
  unfold change_reservation, reservation_result, lift, mbind, st_bind, result_bind, sget, sput, get_balance.
  by repeat case_match; simplify_eq.
Qed.

Lemma change_reservation_local u mint v lock : local_op [(u, mint)] (change_reservation u mint v lock).
Proof.
  split.
  - intros P D Ha. rewrite !change_reservation_eq, (Ha (u, mint)) by left.
    by destruct (reservation_result _ _ _) as [[a l]| |].
  - intros P D Ha. rewrite !change_reservation_eq, (Ha (u, mint)) by left.
    destruct (reservation_result _ _ _) as [[a l]| |]; [| done..].
    intros k ->%list_elem_of_singleton. cbn. by rewrite !lookup_insert_eq.
  - intros P k Hk. rewrite change_reservation_eq.
    destruct (reservation_result _ _ _) as [[a l]| |]; [| done..]. cbn.
    apply lookup_insert_ne. intros <-. apply Hk. left.
  - intros P k Hk. rewrite change_reservation_eq.
    destruct (reservation_result _ _ _) as [[a l]| |]; [| done..]. cbn.
    destruct (decide (k = (u, mint))) as [->|Hne]; [by rewrite lookup_insert_eq |].
    by rewrite lookup_insert_ne by congruence.
Qed.

Lemma stage_agree K rows rows' staged ch :
  (∀ k, k ∈ K → rows !! k = rows' !! k) → ch.1 ∈ K → stage rows staged ch = stage rows' staged ch.
Proof. intros Ha Hin. unfold stage. by rewrite (Ha ch.1 Hin). Qed.

Lemma stage_all_agree K rows rows' chs staged :
  (∀ k, k ∈ K → rows !! k = rows' !! k) → (∀ ch, ch ∈ chs → ch.1 ∈ K) →
  fold_result (stage rows) staged chs = fold_result (stage rows') staged chs.
Proof.
  intros Ha. revert staged. induction chs as [|ch chs IH]; intros staged Hin; [done |]. cbn.
  rewrite (stage_agree K rows rows') by (done || (apply Hin; left)).
  destruct (stage rows' staged ch); [| done..]. cbn. apply IH. intros c Hc. apply Hin. by right.
Qed.

(** A settlement as a function of the rows it reads. *)
Definition settle_rows (t : MatchResult) (rows : gmap account Balance) : result (list (account * Balance)) :=
  chs ← settlement_changes t;
  staged ← fold_result (stage rows) ∅ chs;
  map_results (fun row => b ← staged_balance row.2; Ok (row.1, b)) (map_to_list staged).

Lemma settle_trade_eq t P :
  settle_trade t P =
  match settle_rows t (balances P) with
  | Ok rows => (Ok tt, mk_cache (insert_all rows (balances P)))
  | Err e => (Err e, P)
  | Panic => (Panic, P)
  end.
Proof.
  unfold settle_trade, settle_rows, lift, mbind, st_bind, result_bind, sget, sput.
  by repeat case_match; simplify_eq.
Qed.

Lemma settle_rows_keys t rows out :
  settle_rows t rows = Ok out → NoDup out.*1 ∧ ∀ k, k ∈ out.*1 → k ∈ trade_accounts t.
Proof.
  intros H. unfold settle_rows in H. inv_ok.
  match goal with H : settlement_changes t = Ok _ |- _ =>
    apply settlement_changes_run in H as (a & q & bf & sf & _ & _ & _ & _ & ->) end.
  match goal with H : fold_result _ _ _ = Ok ?s |- _ => rename s into staged; apply stage_all in H as Hst end.
  apply map_results_rows in H as [Hnd Hmap]. split; [done |].
  intros k Hk. specialize (Hst k). specialize (Hmap k). destruct (staged !! k) as [[? ?]|].
  - destruct Hst as (? & ? & _ & _ & _ & _ & _ & _ & Hin). unfold trade_accounts. cbn in Hin. set_solver.
  - by apply not_elem_of_list_to_map in Hmap.
Qed.

Lemma settle_rows_agree t P D :
  agree (trade_accounts t) P D → settle_rows t (balances P) = settle_rows t (balances D).
Proof.
  intros Ha. unfold settle_rows. destruct (settlement_changes t) as [chs| |] eqn:Hch; [| done..].
  cbn [mbind result_bind].
  rewrite (stage_all_agree (trade_accounts t) (balances P) (balances D)); [done | done |].
  apply settlement_changes_run in Hch as (a & q & bf & sf & _ & _ & _ & _ & ->).
  intros ch Hin. unfold trade_accounts. rewrite !elem_of_cons in *.
  destruct Hin as [-> | [-> | [-> | [-> | Hin]]]]; cbn; try (by apply elem_of_nil in Hin); auto.
Qed.

Lemma settle_trade_local t : local_op (trade_accounts t) (settle_trade t).
Proof.
  split.
  - intros P D Ha. rewrite !settle_trade_eq, (settle_rows_agree _ _ _ Ha). by destruct (settle_rows _ _).
  - intros P D Ha. rewrite !settle_trade_eq, (settle_rows_agree _ _ _ Ha).
    destruct (settle_rows t (balances D)) as [rows| |] eqn:Hr; [| done..].
    apply settle_rows_keys in Hr as [Hnd _]. intros k Hk. cbn.
    rewrite !insert_all_lookup by done. by rewrite (Ha k Hk).
  - intros P k Hk. rewrite settle_trade_eq.
    destruct (settle_rows t (balances P)) as [rows| |] eqn:Hr; [| done..].
    apply settle_rows_keys in Hr as [Hnd Hin]. cbn. rewrite insert_all_lookup by done.
    rewrite not_elem_of_list_to_map_1; [done |]. intros H. by apply Hk, Hin.
  - intros P k Hk. rewrite settle_trade_eq.
    destruct (settle_rows t (balances P)) as [rows| |] eqn:Hr; [| done..].
    apply settle_rows_keys in Hr as [Hnd _]. cbn. rewrite insert_all_lookup by done. by case_match.
Qed.

Lemma settle_all_local trades : local_op (mjoin (map trade_accounts trades)) (settle_all trades).
Proof.
  induction trades as [|t trades IH]; [apply local_op_ret |]. cbn [settle_all map].
  change (mjoin (trade_accounts t :: map trade_accounts trades))
    with (trade_accounts t ++ mjoin (map trade_accounts trades)).
  apply local_op_bind; [| intros _]; (eapply local_op_weaken; [| apply settle_trade_local || apply IH]);
    intros k Hk; apply elem_of_app; auto.
Qed.

(** ** The private copy *)

Lemma copy_accounts_lookup source keys self k :
  balances (copy_accounts source keys self) !! k =
  match balances self !! k with
  | Some b => Some b
  | None => if decide (k ∈ keys) then balances source !! k else None
  end.
Proof.
  unfold copy_accounts. revert self. induction keys as [|[u m] keys IH]; intros self; cbn [foldl fst snd].
  - by destruct (balances self !! k).
  - rewrite IH, copy_account_lookup. destruct (balances self !! k) as [b|]; [done |].
    destruct (decide (k = (u, m))) as [->|Hk].
    + rewrite (decide_True (P := _ ∈ (u, m) :: keys)) by left.
      destruct (balances source !! (u, m)); [done |]. by case_decide.
    + destruct (decide (k ∈ keys)); [rewrite decide_True by (by right) | rewrite decide_False by set_solver]; done.
Qed.

(** Work done on a copy of the rows it needs and then published is the work done in place. *)
Lemma publish_local K m (source copy copy' : BalanceCache) :
  local_op K m → agree K copy source → (∀ k, k ∉ K → balances copy !! k = None) →
  m copy = (Ok tt, copy') → m source = (Ok tt, commit_prepared copy' source).
Proof.
  intros Hm Ha Hout Hrun.
  pose proof (lo_result _ _ Hm _ _ Ha) as Hr. pose proof (lo_agree _ _ Hm _ _ Ha) as Hag.
  rewrite Hrun in Hr, Hag. cbn [fst snd] in Hr, Hag.
  rewrite (run_pair m source (Ok tt)) by done. f_equal.
  assert (Heta : ∀ c, c = mk_cache (balances c)) by by intros [].
  rewrite (Heta (m source).2), (Heta (commit_prepared copy' source)). f_equal.
  apply map_eq. intros k. rewrite commit_prepared_lookup.
  destruct (decide (k ∈ K)) as [Hk|Hk].
  - rewrite <- (Hag k Hk). destruct (balances copy' !! k) eqn:Hc; [done |].
    destruct (balances source !! k) eqn:Hs; [| done].
    destruct (lo_keep _ _ Hm source k) as [? Hsome]; [by rewrite Hs |].
    rewrite <- (Hag k Hk) in Hsome. congruence.
  - rewrite (lo_frame _ _ Hm) by done.
    pose proof (lo_frame _ _ Hm copy k Hk) as Hf. rewrite Hrun in Hf. cbn in Hf.
    by rewrite Hf, Hout.
Qed.
End locality.

Section submission_facts.
Context {E : Externals} {L : DecimalLaws ext_decimal}.

(** The work of a submission on the accounts, done in place. *)
Definition in_place (order : OrderEntry) (plan : MatchPlan) (reserved refund : Decimal) :
    st BalanceCache unit :=
  _ ← lock_balance (oe_user_id order) (refund_mint order) reserved;
  _ ← settle_all (p_matches plan);
  if dec_ltb dec_zero refund
  then unlock_balance (oe_user_id order) (refund_mint order) refund
  else mret tt.

Lemma run_local_ok {S A} (m : st S A) s s' : run_local m s = Ok s' ↔ ∃ a, m s = (Ok a, s').
Proof. unfold run_local. destruct (m s) as [[] ?]; naive_solver. Qed.

Definition touched (order : OrderEntry) (plan : MatchPlan) : list account :=
  (oe_user_id order, refund_mint order) :: mjoin (map trade_accounts (p_matches plan)).

Lemma in_place_local order plan reserved refund :
  local_op (touched order plan) (in_place order plan reserved refund).
Proof.
  assert (Hres : ∀ v lock, local_op (touched order plan)
    (change_reservation (oe_user_id order) (refund_mint order) v lock)).
  { intros v lock. eapply local_op_weaken; [| apply change_reservation_local].
    intros k ->%list_elem_of_singleton. left. }
  apply local_op_bind; [apply Hres | intros _]. apply local_op_bind; [| intros _].
  - eapply local_op_weaken; [| apply settle_all_local]. intros k Hk. by right.
  - destruct (dec_ltb _ _); [apply Hres | apply local_op_ret].
Qed.

Lemma prepare_run order plan source prepared reserved refund :
  prepare order plan source = Ok (prepared, reserved, refund) →
  in_place order plan reserved refund source = (Ok tt, commit_prepared prepared source) ∧
  reserved_for order = Ok reserved ∧
  ∃ remaining left, remaining_for order (p_order plan) = Ok remaining ∧
    subtract reserved (if String.eqb (oe_order_type order) "buy" then p_total_quote plan else p_total_amount plan) = Ok left ∧
    subtract left remaining = Ok refund.
Proof.
  intros H. unfold prepare in H. inv_ok.
  repeat match goal with H : run_local _ _ = Ok _ |- _ => apply run_local_ok in H as [[] H] end.
  match goal with H : lock_balance _ _ _ ?c = _ |- _ => set (copy := c) in H; rename H into Hlock end.
  match goal with H : settle_all _ _ = _ |- _ => rename H into Hsettle end.
  split; [| eauto 10].
  apply (publish_local (touched order plan) _ _ copy); [apply in_place_local | | |].
  - intros k Hk. unfold copy. rewrite copy_accounts_lookup, copy_account_lookup. cbn [with_capacity balances].
    rewrite lookup_empty.
    apply elem_of_cons in Hk as [->|Hk].
    + rewrite decide_True by done. destruct (balances source !! _); [done | by case_decide].
    + rewrite (decide_True (P := k ∈ _)) by done. destruct (decide (k = _));
      [by destruct (balances source !! k) | done].
  - intros k Hk. unfold copy. rewrite copy_accounts_lookup, copy_account_lookup. cbn [with_capacity balances].
    rewrite lookup_empty.
    unfold touched in Hk. apply not_elem_of_cons in Hk as [Hk1 Hk2]. by rewrite !decide_False by done.
  - unfold in_place. unfold mbind, st_bind. rewrite Hlock, Hsettle.
    destruct (dec_ltb dec_zero _) eqn:Hpos; inv_ok; [| done].
    by match goal with H : run_local _ _ = Ok _ |- _ => apply run_local_ok in H as [[] H] end.
Qed.

Definition cache (c : Core) : BalanceCache := balance_cache (executor c).
Definition book_at (c : Core) (pair : TradingPair) : OrderBook :=
  default (book_new pair) (orderbooks c !! pair).
Definition pair_of (o : OrderEntry) : TradingPair := pair_new (oe_base_mint o) (oe_quote_mint o).

(** Committing a plan reports no errors. *)
Lemma drain_infallible ch queue prefix e : drain ch queue prefix ≠ Err e.
Proof.
  revert ch prefix. induction queue as [|o queue IH]; intros ch prefix; cbn;
    (case_bool_decide; [done |]); [done |]. repeat case_match; apply IH.
Qed.

Lemma apply_level_infallible p ch : infallible (apply_level p ch).
Proof.
  unfold apply_level. apply infallible_bind; [by apply infallible_ok | intros s].
  apply infallible_bind; [apply infallible_lift; by destruct (bt_get p (orders s)) | intros queue].
  apply infallible_bind; [apply infallible_lift, drain_infallible | intros [prefix rest]].
  repeat (apply infallible_bind; [apply infallible_lift; intros e; unfold usize_sub; by case_match | intros ?]).
  by apply infallible_ok.
Qed.

Lemma side_add_order_infallible o : infallible (side_add_order o).
Proof.
  unfold side_add_order. apply infallible_bind; [| intros p; by apply infallible_ok].
  apply infallible_lift. by destruct (oe_price o).
Qed.

Lemma commit_book_infallible plan : infallible (commit_book plan).
Proof.
  assert (Hall : ∀ changes, infallible (apply_prepared_orders changes)).
  { induction changes as [|[p ch] changes IH]; [by apply infallible_ok |].
    apply infallible_bind; [apply apply_level_infallible | done]. }
  unfold commit_book, book_add_order. apply infallible_bind.
  - destruct (p_maker_buy plan); apply infallible_zoom, Hall.
  - intros _. repeat case_match; try (by apply infallible_ok); apply infallible_zoom, side_add_order_infallible.
Qed.

(** A successful submission, taken apart. *)
Lemma apply_ok_run order c app c' :
  apply order c = (Ok app, c') →
  ∃ plan reserved refund book',
    plan_order order (book_at c (pair_of order)) = Ok plan ∧
    in_place order plan reserved refund (cache c) = (Ok tt, cache c') ∧
    reserved_for order = Ok reserved ∧
    (∃ remaining left, remaining_for order (p_order plan) = Ok remaining ∧
      subtract reserved (if String.eqb (oe_order_type order) "buy" then p_total_quote plan else p_total_amount plan) = Ok left ∧
      subtract left remaining = Ok refund) ∧
    commit_book plan (book_at c (pair_of order)) = (Ok tt, book') ∧
    orderbooks c' = <[pair_of order := book']> (orderbooks c) ∧
    app = {| as_order_id := oe_id (p_order plan); as_matches := p_matches plan;
             as_completion := market_completion order plan reserved refund |}.
Proof.
  unfold apply. intros H. inv_st.
  match goal with H : plan_order _ _ = Ok ?p |- _ => rename p into plan end.
  match goal with H : context [with_book _ _] |- _ => rename H into Hw end.
  match goal with x : BalanceCache * Decimal * Decimal |- _ => destruct x as [[prepared reserved] refund] end.
  cbn iota beta in *. inv_st.
  match goal with H : with_book _ _ ?c0 = _ |- _ => rename c0 into c; rename H into Hw end.
  unfold with_book, zoom in Hw.
  destruct (commit_book plan _) as [r book'] eqn:Hc. injection Hw as -> <-.
  match goal with H : prepare _ _ _ = Ok _ |- _ => apply prepare_run in H as (Hin & Hres & Hrem) end.
  exists plan, reserved, refund, book'. cbn. match goal with u : () |- _ => destruct u end.
  split_and!; done.
Qed.

(** ** No panics *)

Lemma run_local_no_panic {S A} (m : st S A) s : safe m → no_panic (run_local m s).
Proof. intros Hm. unfold run_local. specialize (Hm s). by destruct (m s) as [[] ?]. Qed.

Lemma settle_all_safe ts : safe (settle_all ts).
Proof. induction ts as [|t ts IH]; [done |]. cbn. apply safe_bind; [apply settle_trade_safe | done]. Qed.

(** A valid limit order has a price, a valid buy without one has a budget. *)
Lemma validated_price order :
  validate order true = Ok tt →
  (oe_order_side order ≠ "market"%string → is_Some (oe_price order)) ∧
  (oe_order_type order = "buy"%string → is_Some (oe_price order) ∨ is_Some (oe_quote_amount order)).
Proof.
  intros ((_ & _ & _ & Hside & _) & _ & _ & Hkind)%validate_run.
  destruct Hkind as [(Hm & _ & _ & _ & _ & d & d' & b & -> & _) | (Hnm & _ & _ & _ & Hpr)].
  { split; [congruence |]. intros _. right. eauto. }
  destruct Hside as [Hs|Hs]; rewrite Hs in Hpr; cbn in Hpr.
  - destruct Hpr as (p & v & -> & _). split; [by eauto |]. intros _. left. eauto.
  - split; [congruence |]. intros Hb. by destruct Hnm.
Qed.

Lemma prepare_no_panic order plan source : validate order true = Ok tt → no_panic (prepare order plan source).
Proof.
  intros [Hlimit Hbuy]%validated_price.
  assert (Hres : no_panic (reserved_for order)).
  { unfold reserved_for. destruct (String.eqb_spec (oe_order_type order) "buy") as [Hb|]; [| done].
    destruct (oe_price order); [apply quote_no_panic |].
    apply no_panic_expect. destruct (Hbuy Hb) as [[? ?]|]; done. }
  assert (Hrem : no_panic (remaining_for order (p_order plan))).
  { unfold remaining_for. destruct (String.eqb_spec (oe_order_side order) "market") as [|Hs]; [done |].
    destruct (String.eqb _ _); [| done]. apply no_panic_bind; [by apply no_panic_expect, Hlimit |].
    intros. apply quote_no_panic. }
  pose proof (@run_local_no_panic BalanceCache unit) as Hrun.
  pose proof change_reservation_safe as Hcr. pose proof settle_all_safe as Hsa.
  unfold prepare, lock_balance, unlock_balance. apply no_panic_bind; [done | intros reserved _].
  apply no_panic_bind; [by apply Hrun | intros c1 _]. apply no_panic_bind; [by apply Hrun | intros c2 _].
  apply no_panic_bind; [done | intros remaining _]. solve_no_panic.
Qed.

(** ** What the caller must provide *)

(** Every book is well-formed and filed under its own pair. *)
Definition books_wf (c : Core) : Prop :=
  ∀ pair b, orderbooks c !! pair = Some b → book_wf b ∧ trading_pair b = pair.
(** No resting order has the id. *)
Definition id_fresh (c : Core) (id : Z) : Prop :=
  ∀ pair buy p o, in_book (book_at c pair) buy p o → oe_id o ≠ id.

Lemma book_new_wf pair : book_wf (book_new pair).
Proof.
  split.
  - intros []; apply side_new_wf.
  - intros [] p o Ho; by apply elem_of_nil in Ho.
  - intros p q o o' Ho. by apply elem_of_nil in Ho.
Qed.

Lemma book_at_wf c pair : books_wf c → book_wf (book_at c pair) ∧ trading_pair (book_at c pair) = pair.
Proof.
  intros Hwf. unfold book_at. destruct (orderbooks c !! pair) as [b|] eqn:Hb; cbn; [by apply Hwf |].
  split; [apply book_new_wf | done].
Qed.

(** Every failing submission leaves the core as it was, and none panics. *)
Lemma apply_fails order c r c' :
  books_wf c → id_fresh c (oe_id order) → apply order c = (r, c') → is_ok r = false →
  c' = c ∧ r ≠ Panic.
Proof.
  intros Hwf Hfresh Hrun Hr. unfold apply in Hrun.
  apply st_bind_split in Hrun as [(c0 & c1 & [= <- <-] & Hrun) | [(e & [=] & _)|([=] & _)]].
  apply st_bind_split in Hrun
    as [(plan & c1 & [Hplan ->]%lift_run & Hrun) | [(e & [Hplan ->]%lift_run & ->)|([Hplan _]%lift_run & _)]];
    [| done | by apply plan_order_no_panic in Hplan].
  pose proof (plan_order_run _ _ _ Hplan) as (Hval & _).
  apply st_bind_split in Hrun
    as [(x & c1 & [Hprep ->]%lift_run & Hrun) | [(e & [Hprep ->]%lift_run & ->)|([Hprep _]%lift_run & _)]];
    [| done | by apply prepare_no_panic in Hprep].
  destruct x as [[prepared reserved] refund]. exfalso.
  destruct (book_at_wf c (pair_of order) Hwf) as [Hbwf Hpair].
  destruct (commit_book_run order (book_at c (pair_of order)) plan Hplan Hbwf) as (book' & Hc & _);
    [by rewrite Hpair | intros buy p o; apply Hfresh |].
  unfold with_book, zoom, mbind, st_bind in Hrun. fold (book_at c (pair_of order)) in Hrun.
  fold (pair_of order) in Hrun. unfold book_at in Hc. rewrite Hc in Hrun.
  unfold smodify, mret, st_ret in Hrun. by simplify_eq.
Qed.

(** The books after a successful submission: still well-formed, and every order that rests in them
    either rested in the same market before or is the submitted one, in its own market. *)
Lemma apply_books order c app c' :
  books_wf c → id_fresh c (oe_id order) → apply order c = (Ok app, c') →
  books_wf c' ∧
  ∀ pair buy p o, in_book (book_at c' pair) buy p o →
    (∃ o', in_book (book_at c pair) buy p o' ∧ oe_id o' = oe_id o) ∨
    (oe_id o = oe_id order ∧ pair = pair_of order).
Proof.
  intros Hwf Hfresh (plan & reserved & refund & book' & Hplan & _ & _ & _ & Hc & Hb & _)%apply_ok_run.
  destruct (book_at_wf c (pair_of order) Hwf) as [Hbwf Hpair].
  destruct (commit_book_run order (book_at c (pair_of order)) plan Hplan Hbwf)
    as (b' & Hc' & Hbwf' & Hpair' & _ & _ & Hids); [by rewrite Hpair | intros buy p o; apply Hfresh |].
  rewrite Hc in Hc'. injection Hc' as <-. rewrite Hpair in Hpair'. split.
  - intros pair b. rewrite Hb. intros [[<- <-] | [_ Hold]]%lookup_insert_Some; [done | by apply Hwf].
  - intros pair buy p o. unfold book_at at 1. rewrite Hb.
    destruct (decide (pair = pair_of order)) as [->|Hne].
    + rewrite lookup_insert_eq. cbn. intros [?|?]%Hids; [by left | by right].
    + rewrite lookup_insert_ne by done. intros Ho. left. by exists o.
Qed.
End submission_facts.

(** ** The money a submission moves *)

Section money.
Context {E : Externals} {L : DecimalLaws ext_decimal}.

(** The parts of a trade in units: its value, the fees, what an account pays from its reservations
    and what it receives. *)
Definition trade_value (t : MatchResult) : Z := unit_count (mr_price t) * unit_count (mr_amount t) / FACTOR.
Definition base_fee (t : MatchResult) : Z :=
  unit_count (mr_amount t) * unit_count (mr_buyer_fee_rate t) / FACTOR.
Definition quote_fee (t : MatchResult) : Z := trade_value t * unit_count (mr_seller_fee_rate t) / FACTOR.

Definition fee_in (mint : string) (t : MatchResult) : Z :=
  (if decide (mint = mr_base_mint t) then base_fee t else 0) +
  (if decide (mint = mr_quote_mint t) then quote_fee t else 0).
Definition spent_by (k : account) (t : MatchResult) : Z :=
  (if decide (k = (mr_buyer_id t, mr_quote_mint t)) then trade_value t else 0) +
  (if decide (k = (mr_seller_id t, mr_base_mint t)) then unit_count (mr_amount t) else 0).
Definition received_by (k : account) (t : MatchResult) : Z :=
  (if decide (k = (mr_buyer_id t, mr_base_mint t)) then unit_count (mr_amount t) - base_fee t else 0) +
  (if decide (k = (mr_seller_id t, mr_quote_mint t)) then trade_value t - quote_fee t else 0).

Lemma trade_units_counts t a q bf sf :
  trade_units t a q bf sf →
  a = unit_count (mr_amount t) ∧ q = trade_value t ∧ bf = base_fee t ∧ sf = quote_fee t.
Proof.
  intros [Ha (p & Hp & _ & Hpq) (rb & Hrb & _ & ->) (rs & Hrs & _ & ->) _ _].
  unfold base_fee, quote_fee, trade_value.
  rewrite (unit_count_in _ _ Ha), (unit_count_in _ _ Hp), (unit_count_in _ _ Hrb), (unit_count_in _ _ Hrs).
  rewrite Hpq, Z.div_mul by done. done.
Qed.

Lemma settle_trade_money t c c' :
  settle_trade t c = (Ok tt, c') →
  (∀ k, available_of c' k = available_of c k + received_by k t * 10 ^ 19 ∧
        locked_of c' k = locked_of c k - spent_by k t * 10 ^ 19) ∧
  (∀ mint, supply c' mint = supply c mint - fee_in mint t * 10 ^ 19).
Proof.
  intros Hrun. split.
  - intros k. apply settle_trade_run in Hrun as (chs & Hchs & Hk).
    apply settlement_changes_run in Hchs as (a & q & bf & sf & Hu & _ & _ & _ & ->).
    apply trade_units_counts in Hu as (-> & -> & -> & ->).
    destruct (Hk k) as (-> & -> & _). unfold change_at, received_by, spent_by. cbn.
    repeat case_decide; simplify_eq; lia.
  - intros mint. destruct (settle_trade_supply _ _ _ Hrun) as (a & q & bf & sf & Hu & _ & Hsup).
    apply trade_units_counts in Hu as (-> & -> & -> & ->). rewrite Hsup. unfold fee_in.
    repeat case_decide; lia.
Qed.

Lemma settle_all_money ts c c' :
  settle_all ts c = (Ok tt, c') →
  (∀ k, available_of c' k = available_of c k + lsum (received_by k) ts * 10 ^ 19 ∧
        locked_of c' k = locked_of c k - lsum (spent_by k) ts * 10 ^ 19) ∧
  (∀ mint, supply c' mint = supply c mint - lsum (fee_in mint) ts * 10 ^ 19) ∧
  (cache_wf c → cache_wf c').
Proof.
  revert c. induction ts as [|t ts IH]; intros c Hrun.
  - cbn in Hrun. inv_st. split_and!; [intros k; cbn; lia | intros mint; cbn; lia | done].
  - cbn [settle_all] in Hrun. apply st_bind_ok in Hrun as ([] & c1 & Ht & Hrun).
    destruct (settle_trade_money _ _ _ Ht) as [Hk Hs]. destruct (IH _ Hrun) as (IHk & IHs & IHwf).
    split_and!.
    + intros k. destruct (Hk k) as [Ha Hl], (IHk k) as [IHa IHl]. rewrite !lsum_cons, IHa, IHl, Ha, Hl. lia.
    + intros mint. rewrite lsum_cons, IHs, Hs. lia.
    + intros Hwf. by eapply IHwf, settle_trade_wf.
Qed.

Lemma reservation_shift u m v (lock : bool) c c' k :
  change_reservation u m v lock c = (Ok tt, c') →
  available_of c' k = available_of c k - (if decide (k = (u, m)) then (if lock then raw v else - raw v) else 0) ∧
  locked_of c' k = locked_of c k + (if decide (k = (u, m)) then (if lock then raw v else - raw v) else 0).
Proof.
  intros Hrun. destruct (change_reservation_moves _ _ _ _ _ _ Hrun k) as (_ & -> & ->).
  destruct lock; case_decide; lia.
Qed.

(** All the money moved by the in-place form of a submission. *)
Lemma in_place_money order plan reserved refund c c' :
  in_place order plan reserved refund c = (Ok tt, c') → 0 ≤ raw refund →
  (∀ k, let own := decide (k = (oe_user_id order, refund_mint order)) in
        available_of c' k = available_of c k + lsum (received_by k) (p_matches plan) * 10 ^ 19
          - (if own then raw reserved - raw refund else 0) ∧
        locked_of c' k = locked_of c k - lsum (spent_by k) (p_matches plan) * 10 ^ 19
          + (if own then raw reserved - raw refund else 0)) ∧
  (∀ mint, supply c' mint = supply c mint - lsum (fee_in mint) (p_matches plan) * 10 ^ 19) ∧
  (cache_wf c → cache_wf c').
Proof.
  unfold in_place, lock_balance, unlock_balance. intros Hrun Hpos.
  apply st_bind_ok in Hrun as ([] & c1 & H1 & Hrun). apply st_bind_ok in Hrun as ([] & c2 & H2 & H3).
  destruct (settle_all_money _ _ _ H2) as (Hk2 & Hs2 & Hwf2).
  rewrite dec_ltb_raw, zero_raw in H3. destruct (Z.ltb_spec 0 (raw refund)) as [Hr|Hr].
  - split_and!.
    + intros k. destruct (reservation_shift _ _ _ _ _ _ k H1) as [Ha1 Hl1], (Hk2 k) as [Ha2 Hl2],
        (reservation_shift _ _ _ _ _ _ k H3) as [Ha3 Hl3]. cbn zeta.
      rewrite Ha3, Hl3, Ha2, Hl2, Ha1, Hl1. case_decide; lia.
    + intros mint. rewrite (change_reservation_supply _ _ _ _ _ _ mint H3), Hs2.
      by rewrite (change_reservation_supply _ _ _ _ _ _ mint H1).
    + intros Hwf. eapply change_reservation_wf; [exact H3 |]. by eapply Hwf2, change_reservation_wf.
  - unfold mret, st_ret in H3. injection H3 as <-. assert (raw refund = 0) as -> by lia. split_and!.
    + intros k. destruct (reservation_shift _ _ _ _ _ _ k H1) as [Ha1 Hl1], (Hk2 k) as [Ha2 Hl2]. cbn zeta.
      rewrite Ha2, Hl2, Ha1, Hl1. case_decide; lia.
    + intros mint. rewrite Hs2. by rewrite (change_reservation_supply _ _ _ _ _ _ mint H1).
    + intros Hwf. by eapply Hwf2, change_reservation_wf.
Qed.

(** What the fills of a plan take from the account the order pays with. *)
Lemma spent_by_taker inc maker_buy ms fs k :
  Forall2 (trade_of inc maker_buy) ms fs → Forall (maker_checked inc maker_buy) fs →
  maker_buy = String.eqb (oe_order_type inc) "sell" →
  (oe_order_type inc = "buy"%string ∨ oe_order_type inc = "sell"%string) →
  k = (oe_user_id inc, refund_mint inc) →
  lsum (spent_by k) ms = if String.eqb (oe_order_type inc) "buy" then fills_quote fs else fills_amount fs.
Proof.
  intros Hms Hch Hmb Hty ->. unfold refund_mint, fills_quote, fills_amount.
  induction Hms as [|m [q [p o]] ms fs Ht _ IH]; [destruct (String.eqb (oe_order_type inc) "buy"); reflexivity |].
  apply Forall_cons in Hch as [Hc Hch]. specialize (IH Hch). rewrite !lsum_cons, IH.
  destruct Ht as (Ha & Hp & _ & _ & _ & _ & Hb & Hs & Hbm & Hqm).
  destruct Hc as (_ & _ & _ & _ & _ & _ & _ & Hu & _). cbn [fst snd] in *.
  unfold spent_by, trade_value, fill_value. cbn [fst snd]. rewrite Hp, (unit_count_in _ _ Ha), Hb, Hs, Hbm, Hqm.
  destruct Hty as [Hty|Hty]; rewrite Hty in *; cbn in Hmb; subst maker_buy; cbn [String.eqb Ascii.eqb Bool.eqb];
    repeat case_decide; simplify_eq; lia.
Qed.
End money.

(** ** Properties *)

Section submission_properties.
Context {E : Externals} {L : DecimalLaws ext_decimal}.

(** The refund is what the reservation exceeds the use and the rest by. *)
Lemma refund_raw reserved used left remaining refund :
  subtract reserved used = Ok left → subtract left remaining = Ok refund →
  raw refund = raw reserved - raw used - raw remaining ∧ 0 ≤ raw refund ∧
  (∃ u, in_units refund u) ∧ (∃ u, in_units remaining u).
Proof.
  intros H1 H2. destruct (subtract_inv _ _ _ H1) as (a & b & Ha & Hb & _).
  pose proof (subtract_ok _ _ _ _ _ Ha Hb H1) as Hl.
  destruct (subtract_inv _ _ _ H2) as (x & d & Hx & Hd & Hle).
  rewrite (in_units_inj _ _ _ Hx Hl) in *. pose proof (subtract_ok _ _ _ _ _ Hl Hd H2) as Hr.
  split_and!; [| | eauto..]; destruct Ha, Hb, Hd, Hr; lia.
Qed.

(** C30. A submission that fails changes nothing at all, and no submission panics: with
    well-formed books and an id that is not resting yet, a failure leaves every book and every
    balance as it was. *)
Theorem submission_atomic order c r c' :
  books_wf c → id_fresh c (oe_id order) → apply order c = (r, c') → is_ok r = false →
  c' = c ∧ ∃ reason, r = Err reason.
Proof.
  intros Hwf Hfresh Hrun Hr. destruct (apply_fails _ _ _ _ Hwf Hfresh Hrun Hr) as [-> Hp].
  split; [done |]. destruct r; [done | eauto | done].
Qed.

(** C32. Working on a private copy of the accounts and publishing it is the same as doing the work
    in place: a successful submission leaves the accounts that reserving the cost, settling the
    trades of the plan one by one and releasing the refund would leave, the book of its market
    with the plan committed, and every other book untouched. *)
Theorem submission_refines_in_place order c app c' :
  apply order c = (Ok app, c') →
  ∃ plan reserved refund book',
    plan_order order (book_at c (pair_of order)) = Ok plan ∧
    in_place order plan reserved refund (cache c) = (Ok tt, cache c') ∧
    commit_book plan (book_at c (pair_of order)) = (Ok tt, book') ∧
    orderbooks c' = <[pair_of order := book']> (orderbooks c) ∧
    as_order_id app = oe_id order ∧ as_matches app = p_matches plan.
Proof.
  intros (plan & reserved & refund & book' & Hplan & Hin & _ & _ & Hc & Hb & ->)%apply_ok_run.
  exists plan, reserved, refund, book'. split_and!; [done..| | done]. cbn.
  apply plan_order_run in Hplan as (_ & w & Hinv).
  by destruct (order_after_same _ _ _ _ (pi_order _ _ _ _ _ Hinv)).
Qed.

(** C33. A submission conserves money: the supply of each asset drops by exactly the fees its
    trades charge in that asset, and every account keeps non-negative amounts in range. *)
Theorem submission_conserves order c app c' :
  apply order c = (Ok app, c') →
  (∀ mint, supply (cache c') mint = supply (cache c) mint - lsum (fee_in mint) (as_matches app) * 10 ^ 19) ∧
  (cache_wf (cache c) → cache_wf (cache c')).
Proof.
  intros (plan & reserved & refund & book' & _ & Hin & _ & (remaining & left & _ & H1 & H2) & _ & _ & ->)%apply_ok_run.
  destruct (refund_raw _ _ _ _ _ H1 H2) as (_ & Hpos & _).
  destruct (in_place_money _ _ _ _ _ _ Hin Hpos) as (_ & Hs & Hwf). by split.
Qed.

(** The reservation of an order is exact: after a submission the account the order pays with
    has exactly what the rest of the order may still cost locked on top of what was locked
    before, whatever was saved by better prices is available again, and the account of every
    other user changed only by the trades. *)
Theorem submission_reserves_rest order c app c' :
  apply order c = (Ok app, c') →
  let k := (oe_user_id order, refund_mint order) in
  ∃ plan remaining, plan_order order (book_at c (pair_of order)) = Ok plan ∧
    remaining_for order (p_order plan) = Ok remaining ∧
    locked_of (cache c') k = locked_of (cache c) k + raw remaining ∧
    ∀ j, j.1 ≠ oe_user_id order →
      available_of (cache c') j = available_of (cache c) j + lsum (received_by j) (as_matches app) * 10 ^ 19 ∧
      locked_of (cache c') j = locked_of (cache c) j - lsum (spent_by j) (as_matches app) * 10 ^ 19.
Proof.
  intros (plan & reserved & refund & book' & Hplan & Hin & _ & (remaining & left & Hrem & H1 & H2)
    & _ & _ & ->)%apply_ok_run k.
  destruct (refund_raw _ _ _ _ _ H1 H2) as (Href & Hpos & _).
  destruct (in_place_money _ _ _ _ _ _ Hin Hpos) as (Hk & _ & _).
  exists plan, remaining. split_and!; [done | done | |].
  - apply plan_order_run in Hplan as (Hval & w & Hinv).
    pose proof (validate_run _ _ Hval) as ((_ & _ & Hty & _) & _).
    destruct (Hk k) as [_ ->]. rewrite decide_True by done.
    rewrite (spent_by_taker _ _ _ _ k (pi_matches _ _ _ _ _ Hinv) (pi_checked _ _ _ _ _ Hinv)) by done.
    destruct (String.eqb (oe_order_type order) "buy").
    + destruct (pi_quote _ _ _ _ _ Hinv) as [Hq _]. rewrite Hq in Href. lia.
    + destruct (pi_amount _ _ _ _ _ Hinv) as [Hq _]. rewrite Hq in Href. lia.
  - intros j Hj. destruct (Hk j) as [-> ->]. rewrite !decide_False by (intros ->; done). cbn [as_matches]. lia.
Qed.

(** The completion of a market order adds up: there is one exactly for market orders, what was
    reserved is what was used plus the refund, nothing stays reserved, and the status is "filled"
    exactly when the whole reservation was used. *)
Theorem market_completion_adds_up order c app c' :
  apply order c = (Ok app, c') →
  match as_completion app with
  | None => oe_order_side order ≠ "market"%string
  | Some done => oe_order_side order = "market"%string ∧
      mc_order_id done = oe_id order ∧ mc_user_id done = oe_user_id order ∧
      mc_trade_count done = Z.of_nat (length (as_matches app)) ∧
      raw (mc_reserved_amount done) = raw (mc_refund_amount done) +
        raw (if String.eqb (oe_order_type order) "buy" then mc_filled_quote_amount done else mc_filled_amount done) ∧
      locked_of (cache c') (oe_user_id order, refund_mint order) =
      locked_of (cache c) (oe_user_id order, refund_mint order) ∧
      mc_status done = (if (raw (mc_refund_amount done) =? 0)%Z then "filled" else "expired")%string
  end.
Proof.
  intros (plan & reserved & refund & book' & Hplan & Hin & _ & (remaining & left & Hrem & H1 & H2)
    & _ & _ & ->)%apply_ok_run.
  destruct (refund_raw _ _ _ _ _ H1 H2) as (Href & Hpos & _).
  cbn [as_completion]. unfold market_completion, remaining_for in *.
  destruct (String.eqb_spec (oe_order_side order) "market") as [Hm|Hm]; [| done].
  injection Hrem as <-. rewrite zero_raw in Href. cbn.
  split_and!; try done.
  - destruct (String.eqb _ "buy"); lia.
  - destruct (in_place_money _ _ _ _ _ _ Hin Hpos) as (Hk & _ & _).
    apply plan_order_run in Hplan as (Hval & w & Hinv).
    pose proof (validate_run _ _ Hval) as ((_ & _ & Hty & _) & _).
    destruct (Hk (oe_user_id order, refund_mint order)) as [_ ->]. rewrite decide_True by done.
    rewrite (spent_by_taker _ _ _ _ _ (pi_matches _ _ _ _ _ Hinv) (pi_checked _ _ _ _ _ Hinv)) by done.
    destruct (pi_quote _ _ _ _ _ Hinv) as [Hq _], (pi_amount _ _ _ _ _ Hinv) as [Ha _].
    destruct (String.eqb (oe_order_type order) "buy"); rewrite ?Hq, ?Ha in Href; lia.
  - by rewrite dec_is_zero_raw.
Qed.
End submission_properties.

(** ** The properties at concrete inputs *)

Section submission_examples.
#[local] Existing Instance ref_externals.
#[local] Existing Instance ref_decimal_laws.

(** Two sellers with five and three SOL locked behind their asks, a buyer with 20 USDT. *)
Definition ex_accounts : BalanceCache :=
  set_balance 10 "SOL" (dz "0") (dz "5") (set_balance 11 "SOL" (dz "0") (dz "3")
    (set_balance 20 "USDT" (dz "20") (dz "0") cache_new)).
Definition ex_core : Core := mk_core {[ ex_pair := ex_book ]} (mk_executor ex_accounts).
(** The buyer without money. *)
Definition ex_broke : Core := mk_core {[ ex_pair := ex_book ]} (mk_executor cache_new).

Definition ex_nothing : AppliedSubmission := {| as_order_id := 0; as_matches := []; as_completion := None |}.
Definition ex_applied : AppliedSubmission := get_ok ex_nothing (apply ex_bid ex_core).1.
Definition ex_after : Core := (apply ex_bid ex_core).2.

Lemma ex_apply_run : apply ex_bid ex_core = (Ok ex_applied, ex_after).
Proof. apply run_pair, get_ok_run. vm_compute. reflexivity. Qed.

Lemma ex_books_wf cache : books_wf (mk_core {[ ex_pair := ex_book ]} cache).
Proof.
  intros pair b. cbn [orderbooks]. intros [<- <-]%lookup_singleton_Some. split; [apply ex_book_wf | done].
Qed.

Lemma ex_book_at pair cache :
  book_at (mk_core {[ ex_pair := ex_book ]} cache) pair = if decide (pair = ex_pair) then ex_book else book_new pair.
Proof.
  unfold book_at. cbn [orderbooks]. case_decide as Hp; subst; [by rewrite lookup_singleton_eq |].
  by rewrite lookup_singleton_ne.
Qed.

Lemma ex_id_fresh cache : id_fresh (mk_core {[ ex_pair := ex_book ]} cache) (oe_id ex_bid).
Proof.
  intros pair buy p o. rewrite ex_book_at. case_decide; [apply ex_fresh |].
  destruct buy; intros Ho; by apply elem_of_nil in Ho.
Qed.

Definition ex_rejection : string := "Missing reservation balance".
Lemma ex_broke_run : apply ex_bid ex_broke = (Err ex_rejection, (apply ex_bid ex_broke).2).
Proof.
  assert (Hmsg : match (apply ex_bid ex_broke).1 with Err e => e | _ => "" end%string = ex_rejection)
    by (vm_compute; reflexivity).
  apply run_pair. destruct (apply ex_bid ex_broke).1; [discriminate | by rewrite <- Hmsg | discriminate].
Qed.

Lemma submission_atomic_witness :
  (apply ex_bid ex_broke).2 = ex_broke ∧ ∃ reason, Err (A := AppliedSubmission) ex_rejection = Err reason.
Proof.
  exact (submission_atomic ex_bid ex_broke _ _ (ex_books_wf _) (ex_id_fresh _) ex_broke_run eq_refl).
Defined.

Lemma submission_refines_in_place_witness :
  ∃ plan, plan_order ex_bid (book_at ex_core ex_pair) = Ok plan ∧ as_matches ex_applied = p_matches plan.
Proof.
  destruct (submission_refines_in_place _ _ _ _ ex_apply_run)
    as (plan & reserved & refund & book' & H1 & _ & _ & _ & _ & H2).
  exists plan. split; [exact H1 | exact H2].
Defined.

Lemma submission_conserves_witness :
  supply (cache ex_after) "USDT" =
  supply (cache ex_core) "USDT" - lsum (fee_in "USDT") (as_matches ex_applied) * 10 ^ 19.
Proof. exact (proj1 (submission_conserves _ _ _ _ ex_apply_run) "USDT"%string). Defined.

(** Two trades of 5 and 1 SOL at 2 USDT: the sellers pay 0.1%, the bid kept nothing reserved. *)
Example ex_after_money :
  map (money (cache ex_after))
    [(20, "SOL"); (20, "USDT"); (10, "SOL"); (10, "USDT"); (11, "SOL"); (11, "USDT")]%string =
  [("5.994", "0"); ("8", "0"); ("0", "0"); ("9.99", "0"); ("0", "2"); ("1.998", "0")]%string.
Proof. vm_compute. reflexivity. Qed.

Lemma submission_reserves_rest_witness :
  ∃ plan remaining, plan_order ex_bid (book_at ex_core ex_pair) = Ok plan ∧
    remaining_for ex_bid (p_order plan) = Ok remaining ∧
    locked_of (cache ex_after) (20, "USDT"%string) = locked_of (cache ex_core) (20, "USDT"%string) + raw remaining.
Proof.
  destruct (submission_reserves_rest _ _ _ _ ex_apply_run) as (plan & remaining & H1 & H2 & H3 & _).
  exists plan, remaining. split; [exact H1 |]. split; [exact H2 | exact H3].
Defined.

Definition ex_market_applied : AppliedSubmission := get_ok ex_nothing (apply ex_market ex_core).1.
Definition ex_market_after : Core := (apply ex_market ex_core).2.

Lemma ex_market_apply_run : apply ex_market ex_core = (Ok ex_market_applied, ex_market_after).
Proof. apply run_pair, get_ok_run. vm_compute. reflexivity. Qed.

Lemma market_completion_adds_up_witness :
  match as_completion ex_market_applied with
  | None => oe_order_side ex_market ≠ "market"%string
  | Some done => mc_order_id done = 8
  end.
Proof.
  pose proof (market_completion_adds_up _ _ _ _ ex_market_apply_run) as H.
  destruct (as_completion ex_market_applied) as [done|]; [| exact H].
  exact (proj1 (proj2 H)).
Defined.
End submission_examples.
