(* ===== verification/State.v ===== *)
(** * The state of the core ([runtime/engine.rs], [runtime/output.rs], [runtime/deposit.rs],
      [runtime/withdrawal.rs], [runtime/journal.rs])

    The state that the engine worker owns exclusively, the commands it executes and the results it
    hands to the journal. The fields [orderbooks] and [executor] of [EngineState] are kept together
    as the [Core] that a submission borrows. *)

From stdpp Require Import base tactics gmap list strings.
From Stdlib Require Import ZArith Lia.
From S2P Require Import Prelude Text Decimals Amount RefDecimal Types BalanceCache OrderBook Matcher Submission.

Section state.
Context {E : Externals}.

(** ** Deposits and withdrawals *)

Record DepositCredit := {
  dc_deposit_id : Uuid;
  dc_user_id : Z;
  dc_asset : string;
  dc_amount : Decimal;
}.

Record DepositReceipt := { dr_original : DepositCredit; dr_rejection : option string }.

Record WithdrawalFunds := {
  wf_withdrawal_id : Uuid;
  wf_user_id : Z;
  wf_asset : string;
  wf_amount : Decimal;
}.

Inductive WithdrawalAction := Reserve | Release | Complete.
#[export] Instance withdrawal_action_eq_dec : EqDecision WithdrawalAction.
Proof. solve_decision. Defined.

Record WithdrawalCommand := { wc_action : WithdrawalAction; wc_funds : WithdrawalFunds }.

Inductive Status := Reserved | Released | Completed | Rejected (reason : string).

Record WithdrawalReceipt := { wr_original : WithdrawalFunds; wr_status : Status }.

(** [WithdrawalAction::event_type]. *)
Definition event_type (a : WithdrawalAction) : string :=
  match a with
  | Reserve => "withdrawal_reserved"
  | Release => "withdrawal_released"
  | Complete => "withdrawal_completed"
  end.

(** The derived equalities: decimals are compared by value. *)
Definition credit_eqb (a b : DepositCredit) : bool :=
  bool_decide (dc_deposit_id a = dc_deposit_id b) && (dc_user_id a =? dc_user_id b) &&
  String.eqb (dc_asset a) (dc_asset b) && dec_eqb (dc_amount a) (dc_amount b).
Definition funds_eqb (a b : WithdrawalFunds) : bool :=
  bool_decide (wf_withdrawal_id a = wf_withdrawal_id b) && (wf_user_id a =? wf_user_id b) &&
  String.eqb (wf_asset a) (wf_asset b) && dec_eqb (wf_amount a) (wf_amount b).

(** ** Results *)

Record TradeOutput := { to_trade : MatchResult; to_buyer_fee : Decimal; to_seller_fee : Decimal }.

Inductive OutputBatch :=
  | WithdrawalChanged (command : WithdrawalCommand)
  | WithdrawalRejected (funds : WithdrawalFunds) (reason : string)
  | DepositCredited (credit : DepositCredit)
  | Submitted (order_id : Z) (trades : list TradeOutput) (completion : option MarketCompletion)
  | BatchCancelled (order : OrderEntry)
  | BatchRejected (order : OrderEntry) (reason : string).

(** The fees of one trade, recomputed for the output; a failure would be a panic. *)
Definition trade_output (trade : MatchResult) : result TradeOutput :=
  buyer_fee ← expect_ok (fee (mr_amount trade) (mr_buyer_fee_rate trade));
  value ← expect_ok (quote (mr_price trade) (mr_amount trade));
  seller_fee ← expect_ok (fee value (mr_seller_fee_rate trade));
  Ok {| to_trade := trade; to_buyer_fee := buyer_fee; to_seller_fee := seller_fee |}.

(** [OutputBatch::submitted]. *)
Definition submitted (applied : AppliedSubmission) : result OutputBatch :=
  trades ← map_results trade_output (as_matches applied);
  Ok (Submitted (as_order_id applied) trades (as_completion applied)).

(** ** Commands and outcomes *)

Inductive Command :=
  | CmdWithdrawal (command : WithdrawalCommand)
  | CmdCreditDeposit (credit : DepositCredit)
  | CmdSubmit (order : OrderEntry)
  | CmdCancel (order_id user_id : Z) (pair : TradingPair)
  | CmdBalance (user_id : Z) (mint : string) (delta : Decimal)
  | CmdLock (user_id : Z) (mint : string) (amount : Decimal)
  | CmdUnlock (user_id : Z) (mint : string) (amount : Decimal).

Inductive Outcome :=
  | Applied (output : option OutputBatch)
  | Failed (reason : string)
  | DuplicateCancellation (order : OrderEntry).

(** ** The state *)

Record EngineState := mk_state {
  withdrawal_receipts : gmap Uuid WithdrawalReceipt;
  deposit_receipts : gmap Uuid DepositReceipt;
  submissions : gmap Z OrderEntry;
  cancellations : gmap Z OrderEntry;
  core : Core;
}.

Definition state_new : EngineState := mk_state ∅ ∅ ∅ ∅ (mk_core ∅ executor_new).

Definition set_withdrawal_receipt (id : Uuid) (r : WithdrawalReceipt) (s : EngineState) : EngineState :=
  mk_state (<[id := r]> (withdrawal_receipts s)) (deposit_receipts s) (submissions s)
    (cancellations s) (core s).
Definition set_deposit_receipt (id : Uuid) (r : DepositReceipt) (s : EngineState) : EngineState :=
  mk_state (withdrawal_receipts s) (<[id := r]> (deposit_receipts s)) (submissions s)
    (cancellations s) (core s).
Definition set_submission (o : OrderEntry) (s : EngineState) : EngineState :=
  mk_state (withdrawal_receipts s) (deposit_receipts s) (<[oe_id o := o]> (submissions s))
    (cancellations s) (core s).
Definition set_cancellation (id : Z) (o : OrderEntry) (s : EngineState) : EngineState :=
  mk_state (withdrawal_receipts s) (deposit_receipts s) (submissions s)
    (<[id := o]> (cancellations s)) (core s).
Definition set_core (c : Core) (s : EngineState) : EngineState :=
  mk_state (withdrawal_receipts s) (deposit_receipts s) (submissions s) (cancellations s) c.

(** Work on the books and the executor, on the executor, on the balances. *)
Definition with_core {A} (m : st Core A) : st EngineState A := zoom core set_core m.
Definition with_executor {A} (m : st Executor A) : st Core A :=
  zoom executor (fun e c => mk_core (orderbooks c) e) m.
Definition with_cache {A} (m : st BalanceCache A) : st EngineState A :=
  with_core (with_executor (balance_cache_mut m)).

(** The balances of a state. *)
Definition state_cache (s : EngineState) : BalanceCache := cache (core s).
Definition set_state_cache (b : BalanceCache) (s : EngineState) : EngineState :=
  set_core (mk_core (orderbooks (core s)) (mk_executor b)) s.

(** Assign one field of a row through the reference of [get_balance_mut]. *)
Definition set_available (user_id : Z) (mint : string) (value : Decimal) : st BalanceCache unit :=
  row ← get_balance_mut user_id mint;
  smodify (set_balance user_id mint value (locked row)).
Definition set_locked (user_id : Z) (mint : string) (value : Decimal) : st BalanceCache unit :=
  row ← get_balance_mut user_id mint;
  smodify (set_balance user_id mint (available row) value).

(** Look at the outcome of fallible code instead of returning its error. *)
Definition attempt {S A} (m : st S A) : st S (result A) := fun s =>
  match m s with
  | (Panic, s') => (Panic, s')
  | (r, s') => (Ok r, s')
  end.
End state.

Section state_facts.
Context {E : Externals} {L : DecimalLaws ext_decimal}.

Lemma with_cache_run {A} (m : st BalanceCache A) s :
  with_cache m s = let '(r, b) := m (state_cache s) in (r, set_state_cache b s).
Proof.
  unfold with_cache, with_core, with_executor, balance_cache_mut, zoom, state_cache, cache, set_state_cache.
  by destruct (m _).
Qed.

Lemma set_state_cache_same s : set_state_cache (state_cache s) s = s.
Proof. by destruct s as [? ? ? ? [? [?]]]. Qed.

Lemma credit_eqb_refl a : credit_eqb a a = true.
Proof.
  unfold credit_eqb. by rewrite bool_decide_true, Z.eqb_refl, String.eqb_refl, dec_eqb_refl.
Qed.
Lemma funds_eqb_refl a : funds_eqb a a = true.
Proof.
  unfold funds_eqb. by rewrite bool_decide_true, Z.eqb_refl, String.eqb_refl, dec_eqb_refl.
Qed.

(** Equal funds are the same account and the same amount. *)
Lemma funds_eqb_spec a b :
  funds_eqb a b = true →
  wf_withdrawal_id a = wf_withdrawal_id b ∧ wf_user_id a = wf_user_id b ∧ wf_asset a = wf_asset b ∧
  raw (wf_amount a) = raw (wf_amount b).
Proof.
  unfold funds_eqb. intros H. inv_ok. rewrite dec_eqb_raw in *.
  match goal with H : String.eqb _ _ = true |- _ => apply String.eqb_eq in H end. split_and!; (done || lia).
Qed.

Lemma funds_eqb_intro a b :
  wf_withdrawal_id a = wf_withdrawal_id b → wf_user_id a = wf_user_id b → wf_asset a = wf_asset b →
  raw (wf_amount a) = raw (wf_amount b) → funds_eqb a b = true.
Proof.
  intros Hi Hu Ha Hr. unfold funds_eqb.
    by rewrite Hi, Hu, Ha, dec_eqb_raw, Hr, bool_decide_true, !Z.eqb_refl, String.eqb_refl.
Qed.
Lemma funds_eqb_sym a b : funds_eqb a b = funds_eqb b a.
Proof.
  assert (Himp : ∀ x y, funds_eqb x y = true → funds_eqb y x = true)
    by (intros x y (? & ? & ? & ?)%funds_eqb_spec; by apply funds_eqb_intro).
  destruct (funds_eqb a b) eqn:Hab, (funds_eqb b a) eqn:Hba; try done; [apply Himp in Hab | apply Himp in Hba];
    congruence.
Qed.
Lemma funds_eqb_trans a b c : funds_eqb a b = true → funds_eqb b c = true → funds_eqb a c = true.
Proof. intros (? & ? & ? & ?)%funds_eqb_spec (? & ? & ? & ?)%funds_eqb_spec. apply funds_eqb_intro; congruence. Qed.

(** The fees an output reports in an asset. *)
Definition fees_reported (mint : string) (t : TradeOutput) : Z :=
  (if decide (mint = mr_base_mint (to_trade t)) then raw (to_buyer_fee t) else 0) +
  (if decide (mint = mr_quote_mint (to_trade t)) then raw (to_seller_fee t) else 0).

(** A trade that can be settled has an output, which reports the fees that were charged. *)
Lemma trade_output_run t chs :
  settlement_changes t = Ok chs →
  ∃ out, trade_output t = Ok out ∧ to_trade out = t ∧
    ∀ mint, fees_reported mint out = fee_in mint t * 10 ^ 19.
Proof.
  unfold settlement_changes, trade_output. intros H. inv_ok.
  match goal with H : quote _ _ = Ok ?v, Hb : fee (mr_amount t) _ = Ok ?b, Hs : fee ?v _ = Ok ?f |- _ =>
    rename v into value; rename b into bf; rename f into sf; rename H into Hq; rename Hb into Hbf;
      rename Hs into Hsf end.
  rewrite Hbf, Hq. cbn [expect_ok mbind result_bind]. rewrite Hsf. cbn [expect_ok mbind result_bind].
  eexists. split; [done |]. split; [done |]. intros mint.
    unfold fees_reported, fee_in, base_fee, quote_fee, trade_value.
  cbn [to_trade to_buyer_fee to_seller_fee].
  apply fee_ok in Hbf as (a & r & Ha & Hr & [Hd _] & _). apply fee_ok in Hsf as (a' & r' & Ha' & Hr' & [Hd' _] & _).
  apply quote_ok in Hq as (p & b & v & Hp & Hb & Hv & Hmul).
  rewrite (in_units_inj _ _ _ Hb Ha) in *. rewrite (in_units_inj _ _ _ Hv Ha') in *.
  rewrite (unit_count_in _ _ Ha), (unit_count_in _ _ Hp), (unit_count_in _ _ Hr), (unit_count_in _ _ Hr').
  rewrite Hmul, Z.div_mul by done. rewrite Hd, Hd'. repeat case_decide; lia.
Qed.

Lemma settle_all_outputs ts c c' :
  settle_all ts c = (Ok tt, c') →
  ∃ outs, map_results trade_output ts = Ok outs ∧ map to_trade outs = ts ∧
    ∀ mint, lsum (fees_reported mint) outs = lsum (fee_in mint) ts * 10 ^ 19.
Proof.
  revert c. induction ts as [|t ts IH]; intros c Hrun; [by exists [] |].
  cbn [settle_all] in Hrun. apply st_bind_ok in Hrun as ([] & c1 & Ht & Hrun).
  destruct (IH _ Hrun) as (outs & Houts & Hts & Hfees).
  apply settle_trade_run in Ht as (chs & Hchs & _). destruct (trade_output_run _ _ Hchs) as (out & Hout & Hto & Hf).
  exists (out :: outs). cbn [map_results map]. rewrite Hout, Houts. cbn [mbind result_bind].
  split_and!; [done | congruence |]. intros mint. rewrite !lsum_cons, Hfees, Hf. lia.
Qed.

Lemma set_available_run user mint value c :
  set_available user mint value c =
  (Ok tt, set_balance user mint value (locked (default balance_new (balances c !! (user, mint)))) c).
Proof.
  unfold set_available, get_balance_mut, mbind, st_bind, smodify.
  destruct (balances c !! (user, mint)) as [b|]; cbn; [done |].
  unfold set_balance. cbn. by rewrite insert_insert_eq.
Qed.
Lemma set_locked_run user mint value c :
  set_locked user mint value c =
  (Ok tt, set_balance user mint (available (default balance_new (balances c !! (user, mint)))) value c).
Proof.
  unfold set_locked, get_balance_mut, mbind, st_bind, smodify.
  destruct (balances c !! (user, mint)) as [b|]; cbn; [done |].
  unfold set_balance. cbn. by rewrite insert_insert_eq.
Qed.

Lemma set_available_safe user mint value : safe (set_available user mint value).
Proof. intros c. by rewrite set_available_run. Qed.
Lemma set_locked_safe user mint value : safe (set_locked user mint value).
Proof. intros c. by rewrite set_locked_run. Qed.

(** The money in a cache after one row was rewritten. *)
Lemma set_balance_money user mint a l c :
  (∀ k, available_of (set_balance user mint a l c) k =
          (if decide (k = (user, mint)) then raw a else available_of c k) ∧
        locked_of (set_balance user mint a l c) k =
          (if decide (k = (user, mint)) then raw l else locked_of c k)) ∧
  (∀ m, supply (set_balance user mint a l c) m = supply c m +
     if decide (m = mint)
     then raw a + raw l - available_of c (user, mint) - locked_of c (user, mint) else 0).
Proof.
  assert (Hk : ∀ k, available_of (set_balance user mint a l c) k =
          (if decide (k = (user, mint)) then raw a else available_of c k) ∧
        locked_of (set_balance user mint a l c) k =
          (if decide (k = (user, mint)) then raw l else locked_of c k)).
  { intros k. unfold available_of, locked_of, mval, set_balance. cbn [balances].
    case_decide as Hk; subst; [by rewrite lookup_insert_eq | by rewrite lookup_insert_ne by congruence]. }
  split; [done |]. intros m.
  rewrite (supply_changes c (set_balance user mint a l c)
    [((user, mint), raw a + raw l - available_of c (user, mint) - locked_of c (user, mint))]).
  - rewrite filter_cons, filter_nil. cbn [fst snd]. repeat case_decide; simplify_eq; cbn; lia.
  - intros k. destruct (Hk k) as [-> ->]. rewrite change_at_single. cbn [fst snd].
    repeat case_decide; simplify_eq; lia.
Qed.

Lemma set_balance_wf user mint a l c :
  cache_wf c → balance_wf (mk_balance a l) → cache_wf (set_balance user mint a l c).
Proof. intros Hc Hb. by apply cache_wf_insert. Qed.

Lemma default_balance_wf c k : cache_wf c → balance_wf (default balance_new (balances c !! k)).
Proof.
  intros Hc. destruct (balances c !! k) as [b|] eqn:Hk; cbn; [by eapply Hc |].
  split; exists 0; apply in_units_zero, zero_raw.
Qed.
End state_facts.

#[export] Hint Resolve set_available_safe set_locked_safe : no_panic.
