(* ===== verification/Deposit.v ===== *)
(** * Deposits ([runtime/deposit.rs])

    A confirmed deposit is credited once. The receipt of the first execution, successful or not,
    decides the result of every later command with the same identifier. *)

From stdpp Require Import base tactics gmap list strings.
From Stdlib Require Import ZArith Lia.
From S2P Require Import Prelude Text Decimals Amount RefDecimal Types BalanceCache OrderBook Matcher Submission State.

Section deposit.
Context {E : Externals}.

(** The format checks before anything is recorded. *)
Definition deposit_format (credit : DepositCredit) : result unit :=
  _ ← ensure (bool_decide (dc_deposit_id credit ≠ uuid_nil) && (0 <? dc_user_id credit))
        "Invalid deposit identity";
  _ ← ensure (negb (is_empty (dc_asset credit)) && (slen (dc_asset credit) <=? 128) &&
              String.eqb (trim (dc_asset credit)) (dc_asset credit))
        "Invalid deposit asset";
  _ ← ensure (dec_ltb dec_zero (dc_amount credit)) "Deposit amount must be positive";
  _ ← units (dc_amount credit);
  Ok tt.

(** The closure: the addition is checked before the row is touched. *)
Definition deposit_credit (credit : DepositCredit) : st BalanceCache (option OutputBatch) :=
  cache ← sget;
  let old := match get_balance (dc_user_id credit) (dc_asset credit) cache with
             | Some b => available b
             | None => dec_zero
             end in
  next ← lift (add old (dc_amount credit));
  _ ← set_available (dc_user_id credit) (dc_asset credit) next;
  mret (Some (DepositCredited credit)).

(** [deposit::apply]. *)
Definition deposit_apply (credit : DepositCredit) : st EngineState (option OutputBatch) :=
  state ← sget;
  match deposit_receipts state !! dc_deposit_id credit with
  | Some receipt =>
      _ ← lift (ensure (credit_eqb (dr_original receipt) credit)
                  "Deposit id conflicts with original financial content");
      match dr_rejection receipt with
      | Some reason => lift (Err reason)
      | None => mret None
      end
  | None =>
      _ ← lift (deposit_format credit);
      outcome ← attempt (with_cache (deposit_credit credit));
      _ ← smodify (set_deposit_receipt (dc_deposit_id credit)
            {| dr_original := credit;
               dr_rejection := match outcome with Err reason => Some reason | _ => None end |});
      lift outcome
  end.
End deposit.

Section deposit_facts.
Context {E : Externals} {L : DecimalLaws ext_decimal}.

Lemma deposit_credit_run credit c :
  deposit_credit credit c =
  match add (available (default balance_new (balances c !! (dc_user_id credit, dc_asset credit)))) (dc_amount credit) with
  | Ok next => (Ok (Some (DepositCredited credit)),
      set_balance (dc_user_id credit) (dc_asset credit) next
        (locked (default balance_new (balances c !! (dc_user_id credit, dc_asset credit)))) c)
  | Err e => (Err e, c)
  | Panic => (Panic, c)
  end.
Proof.
  unfold deposit_credit, get_balance, mbind, st_bind, sget, lift, mret, st_ret.
  assert (Hold : match balances c !! (dc_user_id credit, dc_asset credit) with
    | Some b => available b | None => dec_zero end =
    available (default balance_new (balances c !! (dc_user_id credit, dc_asset credit))))
    by by destruct (balances c !! _).
  rewrite Hold. destruct (add _ _); [| done..]. by rewrite set_available_run.
Qed.

(** The whole command in one equation. *)
Lemma deposit_apply_run credit s :
  deposit_apply credit s =
  match deposit_receipts s !! dc_deposit_id credit with
  | Some receipt =>
      if credit_eqb (dr_original receipt) credit
      then match dr_rejection receipt with Some reason => (Err reason, s) | None => (Ok None, s) end
      else (Err "Deposit id conflicts with original financial content", s)
  | None =>
      match deposit_format credit with
      | Ok _ =>
          let '(r, c) := deposit_credit credit (state_cache s) in
          match r with
          | Panic => (Panic, set_state_cache c s)
          | _ => (r, set_deposit_receipt (dc_deposit_id credit)
                   {| dr_original := credit;
                      dr_rejection := match r with Err reason => Some reason | _ => None end |}
                   (set_state_cache c s))
          end
      | Err e => (Err e, s)
      | Panic => (Panic, s)
      end
  end.
Proof.
  unfold deposit_apply. unfold mbind at 1, st_bind at 1, sget.
  destruct (deposit_receipts s !! dc_deposit_id credit) as [receipt|].
  - unfold mbind, st_bind, lift, ensure. destruct (credit_eqb _ _); [| done].
    by destruct (dr_rejection receipt).
  - unfold mbind, st_bind, lift. destruct (deposit_format credit) as [[]| |]; [| done..].
    unfold attempt. rewrite with_cache_run.
    destruct (deposit_credit credit (state_cache s)) as [[o|e|] c]; done.
Qed.

Lemma deposit_apply_safe credit : safe (deposit_apply credit).
Proof.
  intros s. rewrite deposit_apply_run. destruct (deposit_receipts s !! _) as [r|].
  - destruct (credit_eqb _ _); [by destruct (dr_rejection r) | done].
  - assert (no_panic (deposit_format credit)) as Hf by (unfold deposit_format; solve_no_panic).
    destruct (deposit_format credit) as [[]| |]; [| done..]. rewrite deposit_credit_run.
    pose proof (add_no_panic (available (default balance_new (balances (state_cache s) !! (dc_user_id credit,
      dc_asset credit)))) (dc_amount credit)) as Ha.
    by destruct (add _ _).
Qed.

(** What a successful first execution does. *)
Lemma deposit_effect credit s batch s' :
  deposit_apply credit s = (Ok (Some batch), s') →
  batch = DepositCredited credit ∧ deposit_receipts s !! dc_deposit_id credit = None ∧
  deposit_receipts s' !! dc_deposit_id credit = Some {| dr_original := credit; dr_rejection := None |} ∧
  orderbooks (core s') = orderbooks (core s) ∧
  (∀ k, available_of (state_cache s') k = available_of (state_cache s) k +
          (if decide (k = (dc_user_id credit, dc_asset credit)) then raw (dc_amount credit) else 0) ∧
        locked_of (state_cache s') k = locked_of (state_cache s) k) ∧
  (∀ mint, supply (state_cache s') mint = supply (state_cache s) mint +
          (if decide (dc_asset credit = mint) then raw (dc_amount credit) else 0)) ∧
  0 < raw (dc_amount credit) ∧
  (cache_wf (state_cache s) → cache_wf (state_cache s')).
Proof.
  rewrite deposit_apply_run. intros H.
  destruct (deposit_receipts s !! dc_deposit_id credit) as [r|] eqn:Hr.
  { destruct (credit_eqb _ _); [by destruct (dr_rejection r) | done]. }
  destruct (deposit_format credit) as [u| |] eqn:Hf; [| done..].
  assert (0 < raw (dc_amount credit)) as Hpos.
  { unfold deposit_format in Hf. inv_ok. rewrite dec_ltb_raw, zero_raw in *. inv_ok. done. }
  rewrite deposit_credit_run in H.
  set (k0 := (dc_user_id credit, dc_asset credit)) in *.
    set (row := default balance_new (balances (state_cache s) !! k0)) in *.
  destruct (add (available row) (dc_amount credit)) as [next| |] eqn:Ha; [| done..].
  cbn iota beta in H. injection H as <- <-.
  destruct (add_inv _ _ _ Ha) as (a & b & Ia & Ib). pose proof (add_ok _ _ _ _ _ Ia Ib Ha) as In.
  destruct (set_balance_money (dc_user_id credit) (dc_asset credit) next (locked row) (state_cache s)) as [Hk Hs].
  assert (Hrow : raw (available row) = available_of (state_cache s) k0 ∧
    raw (locked row) = locked_of (state_cache s) k0).
  { by rewrite available_of_default, locked_of_default. }
  assert (Hnext : raw next = raw (available row) + raw (dc_amount credit)) by (destruct Ia, Ib, In; lia).
  change (state_cache (set_deposit_receipt _ _ (set_state_cache ?c s))) with c.
  split_and!; [done | done | | done | | | done |].
  - cbn. by rewrite lookup_insert_eq.
  - intros k. destruct (Hk k) as [-> ->]. fold k0. destruct (decide (k = k0)) as [->|]; lia.
  - intros mint. rewrite Hs. fold k0. repeat case_decide; try congruence; lia.
  - intros Hwf. apply set_balance_wf; [done |]. split; [by exists (a + b) |].
    apply (default_balance_wf (state_cache s) k0 Hwf).
Qed.

(** ** Properties *)

(** C37. A deposit is credited exactly once and exactly: its first successful execution adds the
    amount to the available money of its account and to the supply of its asset, touches no other
    account, no lock and no book, and records the receipt. *)
Theorem deposit_exact credit s batch s' :
  deposit_apply credit s = (Ok (Some batch), s') →
  batch = DepositCredited credit ∧ deposit_receipts s !! dc_deposit_id credit = None ∧
  deposit_receipts s' !! dc_deposit_id credit = Some {| dr_original := credit; dr_rejection := None |} ∧
  orderbooks (core s') = orderbooks (core s) ∧
  (∀ k, available_of (state_cache s') k = available_of (state_cache s) k +
          (if decide (k = (dc_user_id credit, dc_asset credit)) then raw (dc_amount credit) else 0) ∧
        locked_of (state_cache s') k = locked_of (state_cache s) k) ∧
  (∀ mint, supply (state_cache s') mint = supply (state_cache s) mint +
          (if decide (dc_asset credit = mint) then raw (dc_amount credit) else 0)) ∧
  0 < raw (dc_amount credit) ∧
  (cache_wf (state_cache s) → cache_wf (state_cache s')).
Proof. apply deposit_effect. Qed.

(** Deposits are idempotent: repeating any deposit command, right after it was executed, changes
    nothing, answers with the recorded result, and credits nothing. *)
Theorem deposit_idempotent credit s r s' :
  deposit_apply credit s = (r, s') →
  deposit_apply credit s' = (match r with Ok _ => Ok None | other => other end, s').
Proof.
  intros Hrun. pose proof Hrun as Hrun0. rewrite deposit_apply_run in Hrun.
  destruct (deposit_receipts s !! dc_deposit_id credit) as [receipt|] eqn:Hr.
  { assert (s' = s) as ->.
    { destruct (credit_eqb _ _); [destruct (dr_rejection receipt) |]; by injection Hrun. }
    rewrite Hrun0. destruct (credit_eqb _ _); [destruct (dr_rejection receipt) |]; by injection Hrun as <-. }
  destruct (deposit_format credit) as [u|e|] eqn:Hf.
  - destruct (deposit_credit credit (state_cache s)) as [out c] eqn:Hc.
    assert (out ≠ Panic).
    { intros ->. pose proof (deposit_apply_safe credit s) as Hsafe.
      rewrite Hrun0 in Hsafe. injection Hrun as <- _. by apply Hsafe. }
    destruct out as [o|e|]; [| | done]; injection Hrun as <- <-; rewrite deposit_apply_run; cbn;
      rewrite lookup_insert_eq; cbn; by rewrite credit_eqb_refl.
  - injection Hrun as <- <-. by rewrite Hrun0.
  - injection Hrun as <- <-. by rewrite Hrun0.
Qed.

(** A deposit identifier is bound to its first content: once a receipt exists, a command with
    the same identifier never changes the state, and one with a different user, asset or amount
    is refused. *)
Theorem deposit_bound_to_receipt credit s receipt :
  deposit_receipts s !! dc_deposit_id credit = Some receipt →
  ∃ r, deposit_apply credit s = (r, s) ∧
    (credit_eqb (dr_original receipt) credit = false → is_ok r = false) ∧
    (∀ batch, r ≠ Ok (Some batch)).
Proof.
  intros Hr. rewrite deposit_apply_run, Hr.
  destruct (credit_eqb (dr_original receipt) credit); [destruct (dr_rejection receipt) |]; eexists; by split_and!.
Qed.
End deposit_facts.

(** ** The properties at concrete inputs *)

Section deposit_examples.
#[local] Existing Instance ref_externals.
#[local] Existing Instance ref_decimal_laws.

Definition ex_credit : DepositCredit :=
  {| dc_deposit_id := 77; dc_user_id := 5; dc_asset := "SOL"; dc_amount := dz "1.5" |}.
Definition ex_deposited : EngineState := (deposit_apply ex_credit state_new).2.

Lemma ex_deposit_run : deposit_apply ex_credit state_new = (Ok (Some (DepositCredited ex_credit)), ex_deposited).
Proof.
  apply run_pair. rewrite deposit_apply_run.
  assert (deposit_receipts state_new !! dc_deposit_id ex_credit = None) as -> by reflexivity.
  assert (deposit_format ex_credit = Ok tt) as -> by (vm_compute; reflexivity).
  rewrite deposit_credit_run.
  assert (Hok : is_ok (add (available (default balance_new (balances (state_cache state_new) !!
    (dc_user_id ex_credit, dc_asset ex_credit)))) (dc_amount ex_credit)) = true) by (vm_compute; reflexivity).
  by destruct (add _ _).
Qed.

Lemma deposit_exact_witness :
  deposit_receipts ex_deposited !! 77 = Some {| dr_original := ex_credit; dr_rejection := None |} ∧
  supply (state_cache ex_deposited) "SOL" = supply (state_cache state_new) "SOL" + raw (dz "1.5").
Proof.
  destruct (deposit_exact _ _ _ _ ex_deposit_run) as (_ & _ & H1 & _ & _ & H2 & _).
  split; [exact H1 | exact (H2 "SOL"%string)].
Defined.

Lemma deposit_idempotent_witness : deposit_apply ex_credit ex_deposited = (Ok None, ex_deposited).
Proof. exact (deposit_idempotent _ _ _ _ ex_deposit_run). Defined.

(** The same identifier for another amount. *)
Definition ex_forged : DepositCredit :=
  {| dc_deposit_id := 77; dc_user_id := 5; dc_asset := "SOL"; dc_amount := dz "2" |}.

Lemma ex_receipt : deposit_receipts ex_deposited !! dc_deposit_id ex_forged =
  Some {| dr_original := ex_credit; dr_rejection := None |}.
Proof.
  unfold ex_deposited. pose proof ex_deposit_run as H. unfold ex_deposited in H.
  rewrite deposit_apply_run in *.
  destruct (deposit_format ex_credit); [| discriminate..].
  destruct (deposit_credit _ _) as [[|?|] ?]; cbn in *; try discriminate. reflexivity.
Qed.

Lemma deposit_bound_to_receipt_witness :
  ∃ r, deposit_apply ex_forged ex_deposited = (r, ex_deposited) ∧
    (credit_eqb ex_credit ex_forged = false → is_ok r = false) ∧ (∀ batch, r ≠ Ok (Some batch)).
Proof. exact (deposit_bound_to_receipt _ _ _ ex_receipt). Defined.
End deposit_examples.
