(* ===== verification/Withdrawal.v ===== *)
(** * Withdrawals ([runtime/withdrawal.rs])

    A withdrawal reserves money once and then either gives it back or lets it leave. The receipt of
    its identifier is the state machine. *)

From stdpp Require Import base tactics gmap list strings.
From Stdlib Require Import ZArith Lia.
From S2P Require Import Prelude Text Decimals Amount RefDecimal Types BalanceCache OrderBook Matcher Submission State.

Section withdrawal.
Context {E : Externals}.

Definition withdrawal_format (funds : WithdrawalFunds) : result unit :=
  _ ← ensure (bool_decide (wf_withdrawal_id funds ≠ uuid_nil) && (0 <? wf_user_id funds) &&
              (wf_user_id funds <=? I64_MAX))
        "Invalid withdrawal identity";
  _ ← ensure (negb (is_empty (wf_asset funds)) && (slen (wf_asset funds) <=? 128) &&
              all_chars (fun c => is_upper c || is_digit c) (wf_asset funds))
        "Invalid withdrawal asset";
  _ ← ensure (dec_ltb dec_zero (wf_amount funds)) "Withdrawal amount must be positive";
  _ ← units (wf_amount funds);
  Ok tt.

(** The match on the status and the action: whether to go on, or the result to return. *)
Definition withdrawal_step (status : Status) (action : WithdrawalAction) :
    option (result (option OutputBatch)) :=
  match status with
  | Rejected reason => Some (Err reason)
  | Reserved => match action with Reserve => Some (Ok None) | _ => None end
  | Released => match action with Release => Some (Ok None) | _ => Some (Err "Withdrawal reservation is already finalized") end
  | Completed => match action with Complete => Some (Ok None) | _ => Some (Err "Withdrawal reservation is already finalized") end
  end.

Definition status_after (action : WithdrawalAction) : Status :=
  match action with Reserve => Reserved | Release => Released | Complete => Completed end.

Definition is_reserve (action : WithdrawalAction) : bool :=
  match action with Reserve => true | _ => false end.

(** The movement of a release or a completion. *)
Definition withdrawal_move (action : WithdrawalAction) (funds : WithdrawalFunds) : st BalanceCache unit :=
  match action with
  | Reserve => lock_balance (wf_user_id funds) (wf_asset funds) (wf_amount funds)
  | Release => unlock_balance (wf_user_id funds) (wf_asset funds) (wf_amount funds)
  | Complete =>
      c ← sget;
      old ← lift (ok_or (get_balance (wf_user_id funds) (wf_asset funds) c) "Missing withdrawal balance");
      next ← lift (subtract (locked old) (wf_amount funds));
      set_locked (wf_user_id funds) (wf_asset funds) next
  end.

(** The part after the checks: move the money, record the receipt. The first refusal of a
    reservation is itself a recorded result. *)
Definition withdrawal_execute (command : WithdrawalCommand) : st EngineState (option OutputBatch) :=
  let funds := wc_funds command in
  let action := wc_action command in
  let id := wf_withdrawal_id funds in
  moved ← attempt (with_cache (withdrawal_move action funds));
  match moved, action with
  | Err reason, Reserve =>
      _ ← smodify (set_withdrawal_receipt id {| wr_original := funds; wr_status := Rejected reason |});
      mret (Some (WithdrawalRejected funds reason))
  | Err reason, _ => lift (Err reason)
  | Panic, _ => lift Panic
  | Ok _, _ =>
      _ ← smodify (set_withdrawal_receipt id {| wr_original := funds; wr_status := status_after action |});
      mret (Some (WithdrawalChanged command))
  end.

(** [withdrawal::apply]. *)
Definition withdrawal_apply (command : WithdrawalCommand) : st EngineState (option OutputBatch) :=
  let funds := wc_funds command in
  let action := wc_action command in
  _ ← lift (withdrawal_format funds);
  state ← sget;
  match withdrawal_receipts state !! wf_withdrawal_id funds with
  | Some receipt =>
      _ ← lift (ensure (funds_eqb (wr_original receipt) funds)
                  "Withdrawal id conflicts with original financial content");
      match withdrawal_step (wr_status receipt) action with
      | Some answer => lift answer
      | None => withdrawal_execute command
      end
  | None =>
      _ ← lift (ensure (is_reserve action) "Withdrawal reservation does not exist");
      withdrawal_execute command
  end.
End withdrawal.

Section withdrawal_facts.
Context {E : Externals} {L : DecimalLaws ext_decimal}.

Lemma withdrawal_move_safe action funds : safe (withdrawal_move action funds).
Proof.
  destruct action; [apply change_reservation_safe | apply change_reservation_safe |].
  unfold withdrawal_move. solve_no_panic.
Qed.

Lemma withdrawal_move_atomic action funds : atomic (withdrawal_move action funds).
Proof.
  destruct action; [apply change_reservation_atomic | apply change_reservation_atomic |].
  unfold withdrawal_move. apply atomic_bind_get. intros c.
  apply atomic_bind_lift; intros old _. apply atomic_bind_lift; intros next _.
  apply atomic_ok. intros s. by rewrite set_locked_run.
Qed.

(** The money a movement moves. *)
Definition move_available (action : WithdrawalAction) (funds : WithdrawalFunds) : Z :=
  match action with Reserve => - raw (wf_amount funds) | Release => raw (wf_amount funds) | Complete => 0 end.
Definition move_locked (action : WithdrawalAction) (funds : WithdrawalFunds) : Z :=
  match action with Reserve => raw (wf_amount funds) | _ => - raw (wf_amount funds) end.
Definition funds_account (funds : WithdrawalFunds) : account := (wf_user_id funds, wf_asset funds).

Lemma withdrawal_move_money action funds c c' :
  withdrawal_move action funds c = (Ok tt, c') →
  (∀ k, let own := decide (k = funds_account funds) in
     available_of c' k = available_of c k + (if own then move_available action funds else 0) ∧
     locked_of c' k = locked_of c k + (if own then move_locked action funds else 0)) ∧
  (∀ mint, supply c' mint = supply c mint +
     if decide (wf_asset funds = mint) then move_available action funds + move_locked action funds else 0) ∧
  (cache_wf c → cache_wf c').
Proof.
  intros Hrun.
  assert (Hkeep : action ≠ Complete → change_reservation (wf_user_id funds) (wf_asset funds)
    (wf_amount funds) (is_reserve action) c = (Ok tt, c')) by (destruct action; [done | done | by intros []]).
  assert (Hdec : action = Complete ∨ action ≠ Complete) by (destruct action; auto).
  destruct Hdec as [->|Hne].
  - unfold withdrawal_move in Hrun. inv_st. unfold get_balance in *.
    rewrite set_locked_run in Hrun. injection Hrun as <-.
    match goal with H : balances ?x !! _ = Some ?o, Hs : subtract _ _ = Ok ?n |- _ =>
      rename x into c; rename o into old; rename n into next; rename H into Hold; rename Hs into Hsub end.
    rewrite Hold. cbn [default from_option]. unfold id.
    destruct (subtract_inv _ _ _ Hsub) as (a & b & Ia & Ib & _). pose proof (subtract_ok _ _ _ _ _ Ia Ib Hsub) as In.
    assert (raw next = raw (locked old) - raw (wf_amount funds)) by (destruct Ia, Ib, In; lia).
    destruct (set_balance_money (wf_user_id funds) (wf_asset funds) (available old) next c) as [Hk Hs].
    pose proof (available_of_row _ _ _ Hold) as Hav. pose proof (locked_of_row _ _ _ Hold) as Hlo.
    unfold move_available, move_locked, funds_account. split_and!.
    + intros k. cbn zeta. destruct (Hk k) as [-> ->]. case_decide as Hd; [subst k | ]; lia.
    + intros mint. rewrite Hs. repeat case_decide; try congruence; lia.
    + intros Hwf. apply set_balance_wf; [done |]. split; [| by exists (a - b)]. apply (Hwf _ _ Hold).
  - pose proof (Hkeep Hne) as Hr. split_and!.
    + intros k. cbn zeta. destruct (change_reservation_moves _ _ _ _ _ _ Hr k) as (_ & -> & ->).
      unfold funds_account. case_decide; destruct action; cbn; lia || done.
    + intros mint. rewrite (change_reservation_supply _ _ _ _ _ _ mint Hr).
      destruct action; cbn; case_decide; lia || done.
    + by eapply change_reservation_wf.
Qed.

(** What executing a movement does, receipt included. *)
Definition execute_result (command : WithdrawalCommand) (s : EngineState) : result (option OutputBatch) * EngineState :=
  let funds := wc_funds command in
  match withdrawal_move (wc_action command) funds (state_cache s) with
  | (Ok _, c) =>
      (Ok (Some (WithdrawalChanged command)),
       set_withdrawal_receipt (wf_withdrawal_id funds)
         {| wr_original := funds; wr_status := status_after (wc_action command) |} (set_state_cache c s))
  | (Err reason, _) =>
      if is_reserve (wc_action command)
      then (Ok (Some (WithdrawalRejected funds reason)),
            set_withdrawal_receipt (wf_withdrawal_id funds)
              {| wr_original := funds; wr_status := Rejected reason |} s)
      else (Err reason, s)
  | (Panic, c) => (Panic, set_state_cache c s)
  end.

(** The whole command in one equation. *)
Lemma withdrawal_apply_run command s :
  withdrawal_apply command s =
  let funds := wc_funds command in
  match withdrawal_format funds with
  | Ok _ =>
      match withdrawal_receipts s !! wf_withdrawal_id funds with
      | Some receipt =>
          if funds_eqb (wr_original receipt) funds then
            match withdrawal_step (wr_status receipt) (wc_action command) with
            | Some answer => (answer, s)
            | None => execute_result command s
            end
          else (Err "Withdrawal id conflicts with original financial content", s)
      | None =>
          if is_reserve (wc_action command) then execute_result command s
          else (Err "Withdrawal reservation does not exist", s)
      end
  | Err e => (Err e, s)
  | Panic => (Panic, s)
  end.
Proof.
  assert (Hex : withdrawal_execute command s = execute_result command s).
  { unfold withdrawal_execute, mbind, st_bind, attempt. rewrite with_cache_run. unfold execute_result.
    pose proof (withdrawal_move_atomic (wc_action command) (wc_funds command) (state_cache s)) as Hat.
    destruct (withdrawal_move _ _ _) as [[u|e|] c]; [by destruct (wc_action command) | | done].
    rewrite (Hat _ _ eq_refl eq_refl), set_state_cache_same. by destruct (wc_action command). }
  unfold withdrawal_apply, mbind, st_bind, lift, sget, ensure. cbn zeta.
  destruct (withdrawal_format (wc_funds command)) as [[]| |]; [| done..].
  destruct (withdrawal_receipts s !! _) as [receipt|].
  - destruct (funds_eqb _ _); [| done]. destruct (withdrawal_step _ _); [done | exact Hex].
  - destruct (is_reserve _); [exact Hex | done].
Qed.
End withdrawal_facts.

Section withdrawal_properties.
Context {E : Externals} {L : DecimalLaws ext_decimal}.

Lemma execute_result_money command s r s' :
  execute_result command s = (r, s') →
  (r = Ok (Some (WithdrawalChanged command)) ∧
   withdrawal_move (wc_action command) (wc_funds command) (state_cache s) = (Ok tt, state_cache s') ∧
   withdrawal_receipts s' = <[wf_withdrawal_id (wc_funds command) :=
     {| wr_original := wc_funds command; wr_status := status_after (wc_action command) |}]> (withdrawal_receipts s) ∧
   orderbooks (core s') = orderbooks (core s) ∧ deposit_receipts s' = deposit_receipts s ∧
   submissions s' = submissions s ∧ cancellations s' = cancellations s) ∨
  (∃ reason, r = Ok (Some (WithdrawalRejected (wc_funds command) reason)) ∧ wc_action command = Reserve ∧
   s' = set_withdrawal_receipt (wf_withdrawal_id (wc_funds command))
          {| wr_original := wc_funds command; wr_status := Rejected reason |} s) ∨
  (∃ reason, r = Err reason ∧ wc_action command ≠ Reserve ∧ s' = s).
Proof.
  unfold execute_result. pose proof (withdrawal_move_safe (wc_action command) (wc_funds command) (state_cache s))
    as Hsafe.
  destruct (withdrawal_move _ _ _) as [[[]|e|] c]; cbn in Hsafe; [| | done].
  - intros [= <- <-]. left. by split_and!.
  - destruct (wc_action command); intros [= <- <-]; [right; left | right; right | right; right]; eexists; by split_and!.
Qed.

Lemma withdrawal_apply_safe command : safe (withdrawal_apply command).
Proof.
  intros s. rewrite withdrawal_apply_run. cbn zeta.
  assert (no_panic (withdrawal_format (wc_funds command))) by (unfold withdrawal_format; solve_no_panic).
  assert (Hex : no_panic (execute_result command s).1).
  { destruct (execute_result command s) as [r s'] eqn:He.
    apply execute_result_money in He as [(-> & _)|[(? & -> & _)|(? & -> & _)]]; done. }
  destruct (withdrawal_format _) as [[]| |]; [| done..].
  destruct (withdrawal_receipts s !! _) as [receipt|]; [| by destruct (is_reserve _)].
  destruct (funds_eqb _ _); [| done]. destruct (withdrawal_step _ _) as [answer|] eqn:Hst; [| done].
  unfold withdrawal_step in Hst. repeat case_match; by simplify_eq.
Qed.

(** The decisions of the state machine produce no output themselves. *)
Lemma withdrawal_step_no_output status action answer batch :
  withdrawal_step status action = Some answer → answer ≠ Ok (Some batch).
Proof. unfold withdrawal_step. intros H. repeat case_match; by simplify_eq. Qed.

(** A command either leaves everything as it was or executes its movement: a reservation without a
    receipt, anything else on a reserved receipt with the same content. *)
Lemma withdrawal_cases command s r s' :
  withdrawal_apply command s = (r, s') →
  (s' = s ∧ ∀ batch, r ≠ Ok (Some batch)) ∨
  (execute_result command s = (r, s') ∧
   match withdrawal_receipts s !! wf_withdrawal_id (wc_funds command) with
   | Some receipt => wr_status receipt = Reserved ∧ wc_action command ≠ Reserve ∧
       funds_eqb (wr_original receipt) (wc_funds command) = true
   | None => wc_action command = Reserve
   end).
Proof.
  rewrite withdrawal_apply_run. cbn zeta. intros Hrun.
  destruct (withdrawal_format _) as [[]| |]; [| simplify_eq; by left..].
  destruct (withdrawal_receipts s !! _) as [receipt|].
  - destruct (funds_eqb _ _) eqn:Hf; [| simplify_eq; by left].
    destruct (withdrawal_step _ _) as [answer|] eqn:Hst.
    + injection Hrun as <- <-. left. split; [done |]. intros batch.
      by apply (withdrawal_step_no_output _ _ _ batch) in Hst.
    + right. split; [done |]. unfold withdrawal_step in Hst. by destruct (wr_status receipt), (wc_action command).
  - destruct (wc_action command); cbn in Hrun; [by right | simplify_eq; by left..].
Qed.

(** An output comes from executing the movement. *)
Lemma withdrawal_output_run command s batch s' :
  withdrawal_apply command s = (Ok (Some batch), s') →
  execute_result command s = (Ok (Some batch), s').
Proof.
  rewrite withdrawal_apply_run. cbn zeta. intros H.
  destruct (withdrawal_format _) as [[]| |]; [| done..].
  destruct (withdrawal_receipts s !! _) as [receipt|]; [| by destruct (is_reserve _)].
  destruct (funds_eqb _ _); [| done]. destruct (withdrawal_step _ _) as [answer|] eqn:Hst; [| done].
  injection H as -> _. by apply withdrawal_step_no_output with (batch := batch) in Hst.
Qed.

(** C38. A withdrawal moves exactly its amount, once per stage: reserving takes it from available to
    locked, releasing takes it back, completing lets it leave the account and the supply; no other
    account, no book and no deposit receipt changes, and the receipt shows the new stage. *)
Theorem withdrawal_exact command s s' :
  withdrawal_apply command s = (Ok (Some (WithdrawalChanged command)), s') →
  let funds := wc_funds command in
  let action := wc_action command in
  (∀ k, available_of (state_cache s') k = available_of (state_cache s) k +
          (if decide (k = funds_account funds) then move_available action funds else 0) ∧
        locked_of (state_cache s') k = locked_of (state_cache s) k +
          (if decide (k = funds_account funds) then move_locked action funds else 0)) ∧
  (∀ mint, supply (state_cache s') mint = supply (state_cache s) mint -
          (match action with
           | Complete => if decide (wf_asset funds = mint) then raw (wf_amount funds) else 0
           | _ => 0
           end)) ∧
  orderbooks (core s') = orderbooks (core s) ∧ deposit_receipts s' = deposit_receipts s ∧
  withdrawal_receipts s' !! wf_withdrawal_id funds =
    Some {| wr_original := funds; wr_status := status_after action |} ∧
  (cache_wf (state_cache s) → cache_wf (state_cache s')).
Proof.
  intros He%withdrawal_output_run. cbn zeta.
  pose proof He as He0. unfold execute_result in He0.
  apply execute_result_money in He as [(_ & Hmove & Hrec & _)|[(? & [=] & _)|(? & [=] & _)]].
  destruct (withdrawal_move_money _ _ _ _ Hmove) as (Hk & Hs & Hwf).
  rewrite Hmove in He0. injection He0 as Hs'. split_and!; [exact Hk | | | | | exact Hwf].
  - intros mint. rewrite Hs. unfold move_available, move_locked.
    destruct (wc_action command); case_decide; lia.
  - by rewrite <- Hs'.
  - by rewrite <- Hs'.
  - by rewrite Hrec, lookup_insert_eq.
Qed.

(** A finished withdrawal is final: once its receipt says released, completed or rejected, no
    command with its identifier changes anything or produces an output. *)
Theorem withdrawal_final command s receipt :
  withdrawal_receipts s !! wf_withdrawal_id (wc_funds command) = Some receipt →
  wr_status receipt ≠ Reserved →
  ∃ r, withdrawal_apply command s = (r, s) ∧ ∀ batch, r ≠ Ok (Some batch).
Proof.
  intros Hr Hst. pose proof (withdrawal_apply_safe command s) as Hsafe.
  rewrite withdrawal_apply_run in *. cbn zeta in *. rewrite Hr in *.
  destruct (withdrawal_format _) as [[]| |]; [| by eexists | done].
  destruct (funds_eqb _ _); [| by eexists].
  destruct (wr_status receipt); try done; destruct (wc_action command); by eexists.
Qed.

(** Withdrawals are idempotent: repeating any withdrawal command, right after it was executed,
    changes nothing and moves no money. *)
Theorem withdrawal_idempotent command s r s' :
  withdrawal_apply command s = (r, s') →
  ∃ r', withdrawal_apply command s' = (r', s') ∧ ∀ batch, r' ≠ Ok (Some batch).
Proof.
  intros Hrun. pose proof Hrun as Hrun0. pose proof (withdrawal_apply_safe command s) as Hsafe.
  rewrite Hrun in Hsafe. rewrite withdrawal_apply_run in Hrun. cbn zeta in Hrun.
  destruct (withdrawal_format (wc_funds command)) as [[]|e|] eqn:Hf; simplify_eq; [| by eexists | done].
  assert (Hcase : (s' = s ∧ ∀ batch, r ≠ Ok (Some batch)) ∨ execute_result command s = (r, s')).
  { destruct (withdrawal_receipts s !! _) as [receipt|].
    - destruct (funds_eqb _ _); simplify_eq; [| by left].
      destruct (withdrawal_step _ _) as [answer|] eqn:Hst; [| by right].
      simplify_eq. left. split; [done |]. intros batch. by eapply withdrawal_step_no_output.
    - destruct (is_reserve _); [by right | left; by simplify_eq]. }
  destruct Hcase as [[-> Hb] | He]; [by exists r |].
  apply execute_result_money in He as [(-> & _ & Hrec & _)|[(reason & -> & Ha & ->)|(reason & -> & _ & ->)]].
  - exists (Ok None). split; [| done]. rewrite withdrawal_apply_run. cbn zeta.
    rewrite Hf, Hrec, lookup_insert_eq. cbn. rewrite funds_eqb_refl. by destruct (wc_action command).
  - exists (Err reason). split; [| done]. rewrite withdrawal_apply_run. cbn zeta.
    rewrite Hf. cbn. rewrite lookup_insert_eq. cbn. by rewrite funds_eqb_refl.
  - by exists (Err reason).
Qed.
End withdrawal_properties.

(** ** The properties at concrete inputs *)

Section withdrawal_examples.
#[local] Existing Instance ref_externals.
#[local] Existing Instance ref_decimal_laws.

Definition ex_funds : WithdrawalFunds :=
  {| wf_withdrawal_id := 31; wf_user_id := 5; wf_asset := "SOL"; wf_amount := dz "2" |}.
Definition ex_reserve : WithdrawalCommand := {| wc_action := Reserve; wc_funds := ex_funds |}.
Definition ex_complete : WithdrawalCommand := {| wc_action := Complete; wc_funds := ex_funds |}.
(** User 5 has three SOL. *)
Definition ex_funded : EngineState :=
  set_state_cache (set_balance 5 "SOL" (dz "3") (dz "0") cache_new) state_new.
Definition ex_reserved : EngineState := (withdrawal_apply ex_reserve ex_funded).2.
Definition ex_completed : EngineState := (withdrawal_apply ex_complete ex_reserved).2.

Definition is_changed (r : result (option OutputBatch)) : bool :=
  match r with Ok (Some (WithdrawalChanged _)) => true | _ => false end.

Lemma changed_run command s :
  is_changed (withdrawal_apply command s).1 = true →
  withdrawal_apply command s = (Ok (Some (WithdrawalChanged command)), (withdrawal_apply command s).2).
Proof.
  intros H. apply run_pair. rewrite withdrawal_apply_run in *. cbn zeta in *.
  assert (He : is_changed (execute_result command s).1 = true →
    (execute_result command s).1 = Ok (Some (WithdrawalChanged command))).
  { unfold execute_result. destruct (withdrawal_move _ _ _) as [[]?]; [done | by destruct (is_reserve _) | done]. }
  destruct (withdrawal_format _) as [[]| |]; [| done..].
  destruct (withdrawal_receipts s !! _) as [receipt|]; [| by destruct (is_reserve _); [apply He |]].
  destruct (funds_eqb _ _); [| done]. destruct (withdrawal_step _ _) as [answer|] eqn:Hst; [| by apply He].
  unfold withdrawal_step in Hst. repeat case_match; by simplify_eq.
Qed.

Lemma ex_reserve_run : withdrawal_apply ex_reserve ex_funded = (Ok (Some (WithdrawalChanged ex_reserve)), ex_reserved).
Proof. apply changed_run. vm_compute. reflexivity. Qed.
Lemma ex_complete_run : withdrawal_apply ex_complete ex_reserved = (Ok (Some (WithdrawalChanged ex_complete)), ex_completed).
Proof. apply changed_run. vm_compute. reflexivity. Qed.

Lemma withdrawal_exact_witness :
  supply (state_cache ex_completed) "SOL" = supply (state_cache ex_reserved) "SOL" - raw (dz "2") ∧
  withdrawal_receipts ex_completed !! 31 = Some {| wr_original := ex_funds; wr_status := Completed |}.
Proof.
  destruct (withdrawal_exact _ _ _ ex_complete_run) as (_ & Hs & _ & _ & Hr & _).
  split; [exact (Hs "SOL"%string) | exact Hr].
Defined.

Example ex_completed_money :
  map (fun s => money (state_cache s) (5, "SOL"%string)) [ex_funded; ex_reserved; ex_completed] =
  [("3", "0"); ("1", "2"); ("1", "0")]%string.
Proof. vm_compute. reflexivity. Qed.

Lemma ex_completed_receipt :
  withdrawal_receipts ex_completed !! wf_withdrawal_id (wc_funds ex_reserve) =
  Some {| wr_original := ex_funds; wr_status := Completed |}.
Proof.
  pose proof (withdrawal_output_run _ _ _ _ ex_complete_run) as He.
  apply execute_result_money in He as [(_ & _ & -> & _)|[(? & [=] & _)|(? & [=] & _)]].
  by rewrite lookup_insert_eq.
Qed.

Lemma withdrawal_final_witness :
  ∃ r, withdrawal_apply ex_reserve ex_completed = (r, ex_completed) ∧ ∀ batch, r ≠ Ok (Some batch).
Proof. apply (withdrawal_final _ _ _ ex_completed_receipt). discriminate. Defined.

Lemma withdrawal_idempotent_witness :
  ∃ r', withdrawal_apply ex_complete ex_completed = (r', ex_completed) ∧ ∀ batch, r' ≠ Ok (Some batch).
Proof. exact (withdrawal_idempotent _ _ _ _ ex_complete_run). Defined.
End withdrawal_examples.
