(* ===== verification/Cancel.v ===== *)
(** * Cancelling an order ([runtime/threads.rs])

    [cancel_order] looks the order up on both sides of the book, checks that it is what it seems,
    gives its reservation back and only then removes it. *)

From stdpp Require Import base tactics gmap list strings.
From Stdlib Require Import ZArith Lia.
From S2P Require Import Prelude Text Decimals Amount BTree RefDecimal Types BalanceCache OrderBook Matcher Submission State.

Section cancel.
Context {E : Externals}.

(** [orders.iter().find_map(|(level, orders)| orders.iter().find(..))]. *)
Fixpoint find_order (order_id : Z) (levels : list (Decimal * list OrderEntry)) :
    option (Decimal * OrderEntry) :=
  match levels with
  | [] => None
  | (level, queue) :: levels =>
      match List.find (fun o => oe_id o =? order_id) queue with
      | Some order => Some (level, order)
      | None => find_order order_id levels
      end
  end.

Definition cancel_order (order_id user_id : Z) (pair : TradingPair) : st Core OrderEntry :=
  c ← sget;
  book ← lift (ok_or (orderbooks c !! pair) "OrderBook not found");
  found_at ← lift (ok_or
    (match find_order order_id (orders (buy_orders book)) with
     | Some (level, order) => Some (level, true, order)
     | None =>
         match find_order order_id (orders (sell_orders book)) with
         | Some (level, order) => Some (level, false, order)
         | None => None
         end
     end) "Order not found");
  let level : Decimal := found_at.1.1 in
  let buy : bool := found_at.1.2 in
  let found : OrderEntry := found_at.2 in
  _ ← lift (ensure (oe_user_id found =? user_id) "Unauthorized cancellation");
  _ ← lift (ensure (String.eqb (oe_order_side found) "limit" &&
                    String.eqb (oe_order_type found) (if buy then "buy" else "sell"))
              "Invalid resting order kind");
  _ ← lift (ensure (opt_dec_eqb (oe_price found) (Some level) && dec_ltb dec_zero level &&
                    dec_ltb dec_zero (oe_remaining_amount found))
              "Invalid resting order price or remaining quantity");
  _ ← lift (ensure (String.eqb (oe_base_mint found) (base_mint pair) &&
                    String.eqb (oe_quote_mint found) (quote_mint pair))
              "Resting order market differs from book");
  let asset := if buy then oe_quote_mint found else oe_base_mint found in
  unlock ← lift (if buy then quote level (oe_remaining_amount found)
                 else Ok (oe_remaining_amount found));
  _ ← lift (ensure (0 <? total_orders (side_of buy book)) "Invalid order counter");
  _ ← with_executor (unlock_balance_for_cancel order_id user_id asset unlock);
  removed ← with_book pair (if buy then on_buy (side_remove_order order_id level)
                            else on_sell (side_remove_order order_id level));
  _ ← lift (expect removed);
  mret found.
End cancel.

Section cancel_facts.
Context {E : Externals} {L : DecimalLaws ext_decimal}.

Lemma find_some id (queue : list OrderEntry) o :
  List.find (fun o => oe_id o =? id) queue = Some o →
  ∃ pos, list_find (fun o => oe_id o = id) queue = Some (pos, o).
Proof.
  induction queue as [|x queue IH]; [done |]. cbn. destruct (Z.eqb_spec (oe_id x) id) as [Hx|Hx].
  - intros [= ->]. exists 0%nat. by rewrite decide_True.
  - intros Ho. destruct (IH Ho) as [pos Hpos]. exists (S pos). rewrite decide_False by done. by rewrite Hpos.
Qed.

(** The order found is the one resting in the side. *)
Lemma find_order_some id s l o :
  side_wf s → find_order id (orders s) = Some (l, o) →
  oe_id o = id ∧ o ∈ level s l ∧ ∃ pos, list_find (fun o => oe_id o = id) (level s l) = Some (pos, o).
Proof.
  intros Hwf Hf. assert (Hin : ∃ queue, (l, queue) ∈ orders s ∧ List.find (fun o => oe_id o =? id) queue = Some o).
  { revert Hf. generalize (orders s). induction b as [|[j queue] rest IH]; [done |]. cbn.
    destruct (List.find _ queue) as [x|] eqn:Hx.
    - intros [= -> ->]. exists queue. split; [left | done].
    - intros H. destruct (IH H) as (q & ? & ?). exists q. split; [by right | done]. }
  destruct Hin as (queue & Hq & Hx). pose proof (bt_elem_get _ _ _ (sw_sorted _ Hwf) Hq) as Hget.
  assert (level s l = queue) as -> by (unfold level; by rewrite Hget).
  apply List.find_some in Hx as Hx'. destruct Hx' as [Ho Hid%Z.eqb_eq].
  split; [done |]. split; [by apply list_elem_of_In | by apply find_some].
Qed.

Lemma find_order_none id s :
  find_order id (orders s) = None → ∀ p o, o ∈ level s p → oe_id o ≠ id.
Proof.
  intros Hf p o Ho. unfold level in Ho. destruct (bt_get p (orders s)) as [queue|] eqn:Hq;
    [| by apply elem_of_nil in Ho].
  apply bt_get_elem in Hq as (j & Hj & _). revert Hf Hj. generalize (orders s).
  induction b as [|[i q] rest IH]; [intros _ Hj; by apply elem_of_nil in Hj |]. cbn.
  destruct (List.find _ q) as [x|] eqn:Hx; [done |]. intros Hf [Heq|Hj]%elem_of_cons; [| by apply IH].
  injection Heq as -> ->. apply list_elem_of_In in Ho. pose proof (find_none _ _ Hx _ Ho) as Hne. cbn in Hne. lia.
Qed.

(** An order resting in a well-formed side is found there. *)
Lemma find_order_total id s p o :
  side_wf s → o ∈ level s p → oe_id o = id → ∃ l, raw l = raw p ∧ find_order id (orders s) = Some (l, o).
Proof.
  intros Hwf Ho Hid. destruct (find_order id (orders s)) as [[l o']|] eqn:Hf.
  - destruct (find_order_some _ _ _ _ Hwf Hf) as (Hid' & Ho' & _).
    assert (Hlp : raw l = raw p) by (apply (sw_unique _ Hwf l p o' o); [done | done | congruence]).
    exists l. split; [done |]. f_equal. f_equal.
    rewrite (level_raw s l p Hlp) in Ho'. pose proof (sw_nodup _ Hwf p) as Hnd.
    apply list_elem_of_lookup in Ho as [i Hi]. apply list_elem_of_lookup in Ho' as [j Hj].
    assert (i = j) as ->.
    { apply (NoDup_lookup _ i j id Hnd); rewrite list_lookup_fmap; [by rewrite Hi; cbn; f_equal | by rewrite Hj;
      cbn; f_equal]. }
    congruence.
  - exfalso. by eapply find_order_none.
Qed.

Definition without (id : Z) (queue : list OrderEntry) : list OrderEntry :=
  List.filter (fun o => negb (oe_id o =? id)) queue.

Lemma without_cons id o queue :
  without id (o :: queue) = if oe_id o =? id then without id queue else o :: without id queue.
Proof. unfold without. cbn. by destruct (oe_id o =? id). Qed.

Lemma without_absent id queue : id ∉ map oe_id queue → without id queue = queue.
Proof.
  induction queue as [|o queue IH]; [done |]. intros Hn. cbn [map] in Hn.
  apply not_elem_of_cons in Hn as [Ho Hn]. rewrite without_cons.
  rewrite (proj2 (Z.eqb_neq _ _)) by congruence. by rewrite IH.
Qed.

Lemma delete_found id (queue : list OrderEntry) pos o :
  NoDup (map oe_id queue) → list_find (fun o => oe_id o = id) queue = Some (pos, o) →
  delete pos queue = without id queue.
Proof.
  revert pos. induction queue as [|x queue IH]; intros pos Hnd Hf; [done |]. cbn [map] in Hnd.
  apply NoDup_cons in Hnd as [Hx Hnd]. cbn in Hf. rewrite without_cons.
  destruct (decide (oe_id x = id)) as [Hid|Hid].
  - injection Hf as <- <-. cbn. rewrite Hid, Z.eqb_refl. symmetry. apply without_absent. by rewrite <- Hid.
  - destruct (list_find _ queue) as [[j y]|] eqn:Hj; [| done]. cbn in Hf. injection Hf as <- <-.
    rewrite (proj2 (Z.eqb_neq _ _)) by done. cbn. f_equal. by apply IH.
Qed.

(** Removing the found order from its side. *)
Lemma remove_found s id l o :
  side_wf s → find_order id (orders s) = Some (l, o) →
  ∃ s', side_remove_order id l s = (Ok (Some o), s') ∧ side_wf s' ∧
    ∀ k, level s' k = without id (level s k).
Proof.
  intros Hwf Hf. destruct (find_order_some _ _ _ _ Hwf Hf) as (Hid & Ho & pos & Hpos).
  destruct (side_remove_order_run _ _ _ _ _ Hwf Hpos) as (s' & Hrun & Hs').
  exists s'. split_and!; [done | by eapply side_remove_order_wf |].
  intros k. rewrite Hs', set_level_level by apply Hwf.
  destruct (Z.eqb_spec (raw k) (raw l)) as [Hk|Hk].
  - rewrite (delete_found _ _ _ _ (sw_nodup _ Hwf l) Hpos). by rewrite (level_raw s k l).
  - symmetry. apply without_absent. intros Hin. apply list_elem_of_fmap in Hin as (o' & Hid' & Ho').
    apply Hk. apply (sw_unique _ Hwf k l o' o); [done | done | congruence].
Qed.

Lemma without_elem id queue o : o ∈ without id queue ↔ o ∈ queue ∧ oe_id o ≠ id.
Proof.
  unfold without. rewrite !list_elem_of_In, filter_In, negb_true_iff, Z.eqb_neq. done.
Qed.

(** The place of an order in a book. *)
Definition locate (order_id : Z) (book : OrderBook) : option (Decimal * bool * OrderEntry) :=
  match find_order order_id (orders (buy_orders book)) with
  | Some (level, order) => Some (level, true, order)
  | None =>
      match find_order order_id (orders (sell_orders book)) with
      | Some (level, order) => Some (level, false, order)
      | None => None
      end
  end.

(** Everything that is checked before anything changes: the order, where it is, what to unlock. *)
Definition cancel_checks (order_id user_id : Z) (pair : TradingPair) (c : Core) :
    result (Decimal * bool * OrderEntry * Decimal) :=
  book ← ok_or (orderbooks c !! pair) "OrderBook not found";
  found_at ← ok_or (locate order_id book) "Order not found";
  let level : Decimal := found_at.1.1 in
  let buy : bool := found_at.1.2 in
  let found : OrderEntry := found_at.2 in
  _ ← ensure (oe_user_id found =? user_id) "Unauthorized cancellation";
  _ ← ensure (String.eqb (oe_order_side found) "limit" &&
              String.eqb (oe_order_type found) (if buy then "buy" else "sell"))
        "Invalid resting order kind";
  _ ← ensure (opt_dec_eqb (oe_price found) (Some level) && dec_ltb dec_zero level &&
              dec_ltb dec_zero (oe_remaining_amount found))
        "Invalid resting order price or remaining quantity";
  _ ← ensure (String.eqb (oe_base_mint found) (base_mint pair) &&
              String.eqb (oe_quote_mint found) (quote_mint pair))
        "Resting order market differs from book";
  unlock ← (if buy then quote level (oe_remaining_amount found) else Ok (oe_remaining_amount found));
  _ ← ensure (0 <? total_orders (side_of buy book)) "Invalid order counter";
  Ok (found_at, unlock).

(** The changes once everything is checked. *)
Definition cancel_changes (order_id user_id : Z) (pair : TradingPair)
    (x : Decimal * bool * OrderEntry * Decimal) : st Core OrderEntry :=
  let level : Decimal := x.1.1.1 in
  let buy : bool := x.1.1.2 in
  let found : OrderEntry := x.1.2 in
  let asset := if buy then oe_quote_mint found else oe_base_mint found in
  _ ← with_executor (unlock_balance_for_cancel order_id user_id asset x.2);
  removed ← with_book pair (if buy then on_buy (side_remove_order order_id level)
                            else on_sell (side_remove_order order_id level));
  _ ← lift (expect removed);
  mret found.

Lemma cancel_order_eq order_id user_id pair c :
  cancel_order order_id user_id pair c =
  match cancel_checks order_id user_id pair c with
  | Ok x => cancel_changes order_id user_id pair x c
  | Err e => (Err e, c)
  | Panic => (Panic, c)
  end.
Proof.
  unfold cancel_order, cancel_checks, cancel_changes. unfold mbind, st_bind, result_bind, sget, lift.
  destruct (ok_or (orderbooks c !! pair) _) as [book| |]; [| done..]. fold (locate order_id book).
  destruct (ok_or (locate order_id book) _) as [[[level buy] found]| |]; [| done..]. cbn [fst snd].
  repeat (match goal with |- context [ensure ?b ?m] => destruct (ensure b m); [| done..] end).
  destruct (if buy then quote level (oe_remaining_amount found) else Ok (oe_remaining_amount found)) as [v| |];
    [| done..].
  by destruct (ensure _ _).
Qed.

Lemma locate_some id book l buy o :
  book_wf book → locate id book = Some (l, buy, o) →
  find_order id (orders (side_of buy book)) = Some (l, o).
Proof.
  intros Hwf H. unfold locate in H.
  destruct (find_order id (orders (buy_orders book))) as [[l1 o1]|] eqn:H1; [by injection H as -> <- -> |].
  destruct (find_order id (orders (sell_orders book))) as [[l2 o2]|] eqn:H2; [by injection H as -> <- -> | done].
Qed.

Definition level_of (b : OrderBook) (buy : bool) (k : Decimal) : list OrderEntry := level (side_of buy b) k.

(** The changes on well-formed books: only the unlocking can fail, and then nothing changed. *)
Lemma cancel_changes_run order_id user_id pair c book level buy found v :
  books_wf c → orderbooks c !! pair = Some book → locate order_id book = Some (level, buy, found) →
  let asset := if buy then oe_quote_mint found else oe_base_mint found in
  (∃ e e' b', unlock_balance user_id asset v (cache c) = (Err e', b') ∧
     cancel_changes order_id user_id pair (level, buy, found, v) c = (Err e, c)) ∨
  ∃ b' book', unlock_balance user_id asset v (cache c) = (Ok tt, b') ∧
    cancel_changes order_id user_id pair (level, buy, found, v) c =
      (Ok found, mk_core (<[pair := book']> (orderbooks c)) (mk_executor b')) ∧
    book_wf book' ∧ trading_pair book' = pair ∧
    (∀ k, level_of book' buy k = without order_id (level_of book buy k)) ∧
    (∀ k, level_of book' (negb buy) k = level_of book (negb buy) k).
Proof.
  intros Hwf Hbook Hloc asset. destruct (Hwf _ _ Hbook) as [Hbwf Hpair].
  pose proof (locate_some _ _ _ _ _ Hbwf Hloc) as Hfind.
  destruct (remove_found (side_of buy book) order_id level found (bw_side _ Hbwf buy) Hfind)
    as (s' & Hrem & Hswf & Hlev).
  set (book' := if buy then mk_book (trading_pair book) s' (sell_orders book)
                else mk_book (trading_pair book) (buy_orders book) s').
  assert (Hs1 : side_of buy book' = s') by (unfold book'; by destruct buy).
  assert (Hs2 : side_of (negb buy) book' = side_of (negb buy) book) by (unfold book'; by destruct buy).
  assert (Hp1 : trading_pair book' = trading_pair book) by (unfold book'; by destruct buy).
  assert (Hbwf' : book_wf book').
  { apply (book_wf_update book book' buy); [done | done | done | by rewrite Hs1 |].
    intros p o. rewrite Hs1, Hlev, without_elem. intros [Ho _].
    split; [by apply (bw_resting _ Hbwf _ p) | left; eauto]. }
  assert (Hrem' : (if buy then on_buy (side_remove_order order_id level)
                   else on_sell (side_remove_order order_id level)) book = (Ok (Some found), book')).
  { unfold book'. destruct buy; [by apply side_of_on_buy | by apply side_of_on_sell]. }
  unfold cancel_changes. cbn [fst snd]. fold asset.
  unfold with_executor, unlock_balance_for_cancel, scontext, balance_cache_mut.
  unfold mbind, st_bind, zoom. cbn [fst snd]. fold (cache c).
  pose proof (change_reservation_atomic user_id asset v false (cache c)) as Hat.
  pose proof (change_reservation_safe user_id asset v false (cache c)) as Hsafe.
  unfold unlock_balance.
  destruct (change_reservation user_id asset v false (cache c)) as [[[]|e|] b'] eqn:Hres; cbn in Hsafe; [| | done].
  - right. exists b', book'. split; [done |]. split; [| by rewrite Hp1; split_and!; [done..| intros k;
    unfold level_of; by rewrite Hs1 | intros k; unfold level_of; by rewrite Hs2]].
    unfold with_book, mbind, st_bind, zoom. cbn [orderbooks executor]. rewrite Hbook. cbn [default from_option].
    unfold id. rewrite Hrem'. done.
  - left. rewrite (Hat _ _ eq_refl eq_refl). unfold cache. by destruct c as [? []]; eexists _, _, _.
Qed.
End cancel_facts.

Section cancel_properties.
Context {E : Externals} {L : DecimalLaws ext_decimal}.

Lemma cancel_checks_run order_id user_id pair c x :
  cancel_checks order_id user_id pair c = Ok x →
  ∃ book, orderbooks c !! pair = Some book ∧ locate order_id book = Some x.1 ∧
    oe_user_id x.1.2 = user_id ∧
    (if x.1.1.2 then quote x.1.1.1 (oe_remaining_amount x.1.2) else Ok (oe_remaining_amount x.1.2)) = Ok x.2.
Proof.
  unfold cancel_checks. intros H. inv_ok. cbn [fst snd] in *. eexists. split_and!; [done | | done | done].
  match goal with H : locate _ _ = Some ?y |- _ => by destruct y as [[? ?] ?] end.
Qed.

Lemma cancel_checks_no_panic order_id user_id pair c : no_panic (cancel_checks order_id user_id pair c).
Proof. unfold cancel_checks. solve_no_panic. Qed.

(** A cancellation on well-formed books, taken apart. *)
Lemma cancel_run order_id user_id pair c r c' :
  books_wf c → cancel_order order_id user_id pair c = (r, c') →
  (∃ e, r = Err e ∧ c' = c) ∨
  ∃ book level buy found v b' book',
    orderbooks c !! pair = Some book ∧ locate order_id book = Some (level, buy, found) ∧
    oe_user_id found = user_id ∧
    (if buy then quote level (oe_remaining_amount found) else Ok (oe_remaining_amount found)) = Ok v ∧
    unlock_balance user_id (if buy then oe_quote_mint found else oe_base_mint found) v (cache c) = (Ok tt, b') ∧
    r = Ok found ∧ c' = mk_core (<[pair := book']> (orderbooks c)) (mk_executor b') ∧
    book_wf book' ∧ trading_pair book' = pair ∧
    (∀ k, level_of book' buy k = without order_id (level_of book buy k)) ∧
    (∀ k, level_of book' (negb buy) k = level_of book (negb buy) k).
Proof.
  intros Hwf. rewrite cancel_order_eq. pose proof (cancel_checks_no_panic order_id user_id pair c) as Hnp.
  destruct (cancel_checks order_id user_id pair c) as [[[[level buy] found] v]|e|] eqn:Hch;
    [| intros [= <- <-]; left; eauto | done].
  apply cancel_checks_run in Hch as (book & Hbook & Hloc & Hu & Hv). cbn [fst snd] in *.
  destruct (cancel_changes_run order_id user_id pair c book level buy found v Hwf Hbook Hloc)
    as [(e & _ & _ & _ & ->) | (b' & book' & Hb & -> & Hrest)].
  - intros [= <- <-]. left. eauto.
  - intros [= <- <-]. right. exists book, level, buy, found, v, b', book'. destruct Hrest as (? & ? & ? & ?).
    by split_and!.
Qed.

(** A failing cancellation changes nothing, and no cancellation panics: on well-formed books the
    order is only removed once its money has been released. *)
Theorem cancel_all_or_nothing order_id user_id pair c r c' :
  books_wf c → cancel_order order_id user_id pair c = (r, c') → is_ok r = false →
  c' = c ∧ ∃ reason, r = Err reason.
Proof.
  intros Hwf Hrun Hr.
  destruct (cancel_run _ _ _ _ _ _ Hwf Hrun)
    as [(e & -> & ->) | (? & ? & ? & ? & ? & ? & ? & _ & _ & _ & _ & _ & -> & _)];
    [eauto | done].
Qed.

(** C35. A successful cancellation removes exactly the named order of the named user from its queue,
    keeps every other order of every book in place, and moves exactly what the order had reserved
    (the quote value of the rest of a buy, the rest of a sell) from locked back to available. *)
Theorem cancel_exact order_id user_id pair c found c' :
  books_wf c → cancel_order order_id user_id pair c = (Ok found, c') →
  oe_id found = order_id ∧ oe_user_id found = user_id ∧ books_wf c' ∧
  ∃ buy p v, in_book (book_at c pair) buy p found ∧
    (if buy then quote p (oe_remaining_amount found) else Ok (oe_remaining_amount found)) = Ok v ∧
    (∀ k, level_of (book_at c' pair) buy k = without order_id (level_of (book_at c pair) buy k)) ∧
    (∀ k, level_of (book_at c' pair) (negb buy) k = level_of (book_at c pair) (negb buy) k) ∧
    (∀ other, other ≠ pair → orderbooks c' !! other = orderbooks c !! other) ∧
    let account := (user_id, if buy then quote_mint pair else base_mint pair) in
    (∀ k, available_of (cache c') k = available_of (cache c) k + (if decide (k = account) then raw v else 0) ∧
          locked_of (cache c') k = locked_of (cache c) k - (if decide (k = account) then raw v else 0)) ∧
    (∀ mint, supply (cache c') mint = supply (cache c) mint) ∧
    (cache_wf (cache c) → cache_wf (cache c')).
Proof.
  intros Hwf Hrun.
  destruct (cancel_run _ _ _ _ _ _ Hwf Hrun) as [(e & [=] & _) |
    (book & level & buy & found' & v & b' & book' & Hbook & Hloc & Hu & Hv & Hun & [= <-]
      & -> & Hbwf' & Hpair' & Hl1 & Hl2)].
  destruct (Hwf _ _ Hbook) as [Hbwf Hpair].
  pose proof (locate_some _ _ _ _ _ Hbwf Hloc) as Hf.
  destruct (find_order_some _ _ _ _ (bw_side _ Hbwf buy) Hf) as (Hid & Hin & _).
  assert (Hold : book_at c pair = book) by (unfold book_at; by rewrite Hbook).
  assert (Hnew : book_at (mk_core (<[pair := book']> (orderbooks c)) (mk_executor b')) pair = book')
    by (unfold book_at; cbn; by rewrite lookup_insert_eq).
  pose proof (bw_resting _ Hbwf buy level found Hin) as (_ & _ & _ & Hbm & Hqm). rewrite Hpair in Hbm, Hqm.
  assert (Hasset : (if buy then oe_quote_mint found else oe_base_mint found) =
                   (if buy then quote_mint pair else base_mint pair)) by (destruct buy; congruence).
  rewrite Hasset in Hun. unfold unlock_balance in Hun.
  split_and!; [done | done | |].
  - intros other b Hb. cbn in Hb. apply lookup_insert_Some in Hb as [[<- <-] | [_ Hb]]; [done | by apply Hwf].
  - exists buy, level, v. rewrite Hold, Hnew. cbn zeta. split_and!; [done | done | done | done | | | |].
    + intros other Ho. cbn. by rewrite lookup_insert_ne.
    + intros k. destruct (change_reservation_moves _ _ _ _ _ _ Hun k) as (_ & Ha & Hl).
      unfold cache at 1 3. cbn [executor balance_cache]. rewrite Ha, Hl. case_decide; lia.
    + intros mint. exact (change_reservation_supply _ _ _ _ _ _ mint Hun).
    + intros Hc. exact (change_reservation_wf _ _ _ _ _ _ Hun Hc).
Qed.

(** The quote value depends on the price only through its value. *)
Lemma quote_raw p p' q v : raw p = raw p' → quote p q = Ok v → quote p' q = Ok v.
Proof.
  intros Hp Hq. destruct (quote_ok _ _ _ Hq) as (a & b & _ & Ha & Hb & _).
  unfold quote in *. rewrite (proj2 (units_ok p a) Ha) in Hq.
  by rewrite (proj2 (units_ok p' a) (in_units_raw _ _ _ Hp Ha)).
Qed.

(** An order resting in a well-formed book is located. *)
Lemma locate_total book buy p o :
  book_wf book → in_book book buy p o →
  ∃ l, raw l = raw p ∧ in_book book buy l o ∧ locate (oe_id o) book = Some (l, buy, o).
Proof.
  intros Hwf Ho. destruct (find_order_total _ _ _ _ (bw_side _ Hwf buy) Ho eq_refl) as (l & Hl & Hf).
  exists l. split; [done |]. split; [by apply (find_order_some _ _ _ _ (bw_side _ Hwf buy) Hf) |].
  unfold locate. destruct buy; cbn [side_of] in Hf; [by rewrite Hf |].
  destruct (find_order _ (orders (buy_orders book))) as [[l1 o1]|] eqn:H1; [| by rewrite Hf].
  destruct (find_order_some _ _ _ _ (bw_side _ Hwf true) H1) as (Hid & Ho1 & _).
  exfalso. by apply (bw_disjoint _ Hwf l1 p o1 o Ho1 Ho).
Qed.

(** What resting in a well-formed book says of an order. *)
Lemma resting_terms book buy p o :
  book_wf book → in_book book buy p o →
  0 < raw p ∧ 0 < raw (oe_remaining_amount o) ∧ opt_dec_eqb (oe_price o) (Some p) = true ∧
  oe_order_side o = "limit"%string ∧ oe_order_type o = (if buy then "buy" else "sell")%string ∧
  oe_base_mint o = base_mint (trading_pair book) ∧ oe_quote_mint o = quote_mint (trading_pair book) ∧
  0 < total_orders (side_of buy book).
Proof.
  intros Hwf Ho. destruct (bw_resting _ Hwf _ _ _ Ho) as (Hval & Hside & Htype & Hb & Hq).
  destruct (sw_price _ (bw_side _ Hwf buy) _ _ Ho) as (q & Hpr & Hqp).
  apply validate_run in Hval as (_ & _ & _ & [(Hm & _) | (_ & _ & _ & (f & r & _ & Hr & Hpos & _) & Hlim)]);
    [congruence |].
  rewrite Hside in Hlim. cbn in Hlim. destruct Hlim as (q' & v & Hpr' & Hqpos & _).
  rewrite Hpr in Hpr'. injection Hpr' as <-.
  split_and!; [lia | destruct Hr; lia | | done | done | done | done |].
  - rewrite Hpr. cbn. rewrite dec_eqb_raw. lia.
  - pose proof (count_level _ p (bw_side _ Hwf buy)) as Hc. rewrite (sw_total _ (bw_side _ Hwf buy)).
    enough (length (level (side_of buy book) p) ≠ 0%nat) by lia.
    intros H0%nil_length_inv. unfold in_book in Ho. rewrite H0 in Ho. by apply elem_of_nil in Ho.
Qed.

(** Only the owner can cancel a resting order, and the owner always can while the account still
    has locked what the order reserves and the released money remains an amount: every consistency
    check of the cancellation passes and the order is returned. *)
Lemma owner_can_cancel pair c book buy p o user_id :
  books_wf c → orderbooks c !! pair = Some book → in_book book buy p o →
  (user_id ≠ oe_user_id o →
     cancel_order (oe_id o) user_id pair c = (Err "Unauthorized cancellation", c)) ∧
  ∀ v b a l x, user_id = oe_user_id o →
    (if buy then quote p (oe_remaining_amount o) else Ok (oe_remaining_amount o)) = Ok v →
    balances (cache c) !! (user_id, if buy then quote_mint pair else base_mint pair) = Some b →
    in_units (available b) a → in_units (locked b) l → in_units v x → x ≤ l →
    a + x ≤ MAX_UNITS → representable (a + x) → representable (l - x) →
    ∃ c', cancel_order (oe_id o) user_id pair c = (Ok o, c').
Proof.
  intros Hwf Hbook Ho. destruct (Hwf _ _ Hbook) as [Hbwf Hpair].
  destruct (locate_total _ _ _ _ Hbwf Ho) as (k & Hk & Hok & Hloc).
  destruct (resting_terms _ _ _ _ Hbwf Hok) as (Hkpos & Hrpos & Hprice & Hside & Htype & Hbm & Hqm & Htot).
  rewrite Hpair in Hbm, Hqm. rewrite cancel_order_eq. unfold cancel_checks.
  rewrite Hbook. cbn [ok_or mbind result_bind]. rewrite Hloc. cbn [ok_or mbind result_bind fst snd].
  split.
  { intros Hne. by rewrite (proj2 (Z.eqb_neq _ _)) by done. }
  intros v b a l x -> Hv Hb Ha Hl Hx Hxl Hmax Hr1 Hr2.
  assert (Hvk : (if buy then quote k (oe_remaining_amount o) else Ok (oe_remaining_amount o)) = Ok v).
  { destruct buy; [| done]. by eapply quote_raw. }
  assert (Hxpos : 0 < x).
  { enough (0 < raw v) by (destruct Hx; lia). destruct buy; [| by injection Hv as <-].
    destruct (quote_ok _ _ _ Hvk) as (a1 & b1 & c1 & Ha1 & Hb1 & Hc1 & Hmul).
    destruct Ha1, Hb1, Hc1. assert (0 < a1) by lia. assert (0 < b1) by lia. unfold FACTOR in Hmul. nia. }
  rewrite Hside, Htype, Hprice, Hbm, Hqm, Hvk, !dec_ltb_raw, zero_raw, Z.eqb_refl, !String.eqb_refl.
  rewrite !(proj2 (Z.ltb_lt _ _)) by done. cbn [andb ensure mbind result_bind].
  set (asset := (if buy then quote_mint pair else base_mint pair)) in *.
  assert (Hun : ∃ c2, unlock_balance (oe_user_id o) asset v (cache c) = (Ok tt, c2)).
  { apply (change_reservation_total (oe_user_id o) asset v false (cache c) b a l x); try done; destruct Hl; try lia.
    - by rewrite Z.mul_1_l.
    - by rewrite Z.mul_1_l. }
  destruct Hun as [c2 Hun].
  destruct (cancel_changes_run (oe_id o) (oe_user_id o) pair c book k buy o v Hwf Hbook Hloc)
    as [(e & e' & b' & He & _) | (b' & book' & _ & Hrun & _)]; [| by eexists].
  assert ((if buy then oe_quote_mint o else oe_base_mint o) = asset) as Hasset
    by (unfold asset; destruct buy; congruence).
  rewrite Hasset, Hun in He. done.
Qed.
End cancel_properties.

(** ** The properties at concrete inputs *)

Section cancel_examples.
#[local] Existing Instance ref_externals.
#[local] Existing Instance ref_decimal_laws.

(** User 10 cancels the ask of 5 SOL; user 11 tries to. *)
Definition ex_cancelled : OrderEntry := get_ok ex_bid (cancel_order 1 10 ex_pair ex_core).1.
Definition ex_cancel_after : Core := (cancel_order 1 10 ex_pair ex_core).2.

Lemma ex_cancel_run : cancel_order 1 10 ex_pair ex_core = (Ok ex_cancelled, ex_cancel_after).
Proof. apply run_pair, get_ok_run. vm_compute. reflexivity. Qed.

Definition ex_stranger : string := "Unauthorized cancellation".
Lemma ex_stranger_run :
  cancel_order 1 11 ex_pair ex_core = (Err ex_stranger, (cancel_order 1 11 ex_pair ex_core).2).
Proof.
  assert (Hmsg : match (cancel_order 1 11 ex_pair ex_core).1 with Err e => e | _ => "" end%string = ex_stranger)
    by (vm_compute; reflexivity).
  apply run_pair. destruct (cancel_order 1 11 ex_pair ex_core).1; [discriminate | by rewrite <- Hmsg | discriminate].
Qed.

Lemma cancel_all_or_nothing_witness :
  (cancel_order 1 11 ex_pair ex_core).2 = ex_core ∧ ∃ reason, Err (A := OrderEntry) ex_stranger = Err reason.
Proof. exact (cancel_all_or_nothing _ _ _ _ _ _ (ex_books_wf _) ex_stranger_run eq_refl). Defined.

Lemma cancel_exact_witness : oe_id ex_cancelled = 1 ∧ oe_user_id ex_cancelled = 10 ∧ books_wf ex_cancel_after.
Proof.
  destruct (cancel_exact _ _ _ _ _ _ (ex_books_wf _) ex_cancel_run) as (H1 & H2 & H3 & _).
  split; [exact H1 | split; [exact H2 | exact H3]].
Defined.

Example ex_cancel_money :
  map (money (cache ex_cancel_after)) [(10, "SOL"); (11, "SOL")]%string =
  [("5", "0"); ("0", "3")]%string.
Proof. vm_compute. reflexivity. Qed.

Lemma ex_ask1_in_book : in_book ex_book false (dz "2") ex_ask1.
Proof. unfold in_book. cbn [side_of ex_book sell_orders]. rewrite ex_asks_level, Z.eqb_refl. left. Qed.

Lemma ex_five : in_units (dz "5") (5 * 10 ^ 9).
Proof. by vm_compute. Qed.
Lemma ex_zero : in_units (dz "0") 0.
Proof. by vm_compute. Qed.
Lemma ex_five_fits : 0 + 5 * 10 ^ 9 ≤ MAX_UNITS ∧ representable (0 + 5 * 10 ^ 9) ∧ representable (5 * 10 ^ 9 - 5 * 10 ^ 9).
Proof. split_and!; [by vm_compute | exists 5, 0; by vm_compute | exists 0, 0; by vm_compute]. Qed.

Lemma owner_can_cancel_witness :
  cancel_order 1 11 ex_pair ex_core = (Err ex_stranger, ex_core) ∧
  ∃ c', cancel_order 1 10 ex_pair ex_core = (Ok ex_ask1, c').
Proof.
  destruct (owner_can_cancel ex_pair ex_core ex_book false (dz "2") ex_ask1 11 (ex_books_wf _) eq_refl
    ex_ask1_in_book) as [H1 _]. split; [apply H1; cbn; lia |].
  destruct (owner_can_cancel ex_pair ex_core ex_book false (dz "2") ex_ask1 10 (ex_books_wf _) eq_refl
    ex_ask1_in_book) as [_ H2].
  apply (H2 (dz "5") (mk_balance (dz "0") (dz "5")) 0 (5 * 10 ^ 9) (5 * 10 ^ 9));
    [reflexivity | exact eq_refl | apply lookup_insert_eq | exact ex_zero | exact ex_five | exact ex_five
    | exact (Z.le_refl _) | apply ex_five_fits..].
Defined.
End cancel_examples.
