(* ===== verification/Journal.v ===== *)
(** * Executing journaled commands ([runtime/journal.rs])

    Every change of the engine state is one command executed by [journal_apply]; its outcome is what
    the journal records and what the reply is computed from. The invariant of the whole state, the
    account of all money and the rules for repeated commands are proved here, once for every
    command. *)

From stdpp Require Import base tactics gmap list strings.
From Stdlib Require Import ZArith Lia.
From S2P Require Import Prelude Text Decimals Amount BTree RefDecimal Types BalanceCache OrderBook Matcher Submission State Deposit Withdrawal Cancel.

Section journal.
Context {E : Externals}.

(** [threads::process_submit_order]. *)
Definition process_submit_order (order : OrderEntry) : st Core AppliedSubmission := apply order.

Definition conflict : string := "Order id is already bound to another command".

(** The [Command::Submit] arm of [execute]: a known id is compared, a new one is recorded and
    executed; a refused execution is an output too. *)
Definition execute_submit (order : OrderEntry) : st EngineState (option OutputBatch) :=
  state ← sget;
  match submissions state !! oe_id order with
  | Some original =>
      let repeated := set_created_at (oe_created_at original) order in
      _ ← lift (ensure (oe_eqb repeated original) conflict);
      mret None
  | None =>
      _ ← smodify (set_submission order);
      outcome ← attempt (with_core (process_submit_order order));
      batch ← lift (match outcome with
                    | Ok applied => submitted applied
                    | Err reason => Ok (BatchRejected order reason)
                    | Panic => Panic
                    end);
      mret (Some batch)
  end.

(** The [Command::Balance] arm: the exact sum or difference, checked before the row exists. *)
Definition execute_balance (user_id : Z) (mint : string) (delta : Decimal) :
    st EngineState (option OutputBatch) :=
  _ ← lift (ensure ((0 <? user_id) && negb (is_empty mint) && String.eqb (trim mint) mint)
              "Invalid balance account");
  with_cache (
    cache ← sget;
    let old := match get_balance user_id mint cache with
               | Some b => available b
               | None => dec_zero
               end in
    next ← lift (if dec_leb dec_zero delta then add old delta else subtract old (dec_abs delta));
    _ ← set_available user_id mint next;
    mret None).

(** [execute]. *)
Definition execute (command : Command) : st EngineState (option OutputBatch) :=
  match command with
  | CmdWithdrawal command => withdrawal_apply command
  | CmdCreditDeposit credit => deposit_apply credit
  | CmdSubmit order => execute_submit order
  | CmdCancel order_id user_id market =>
      order ← with_core (cancel_order order_id user_id market);
      _ ← smodify (set_cancellation order_id order);
      mret (Some (BatchCancelled order))
  | CmdBalance user_id mint delta => execute_balance user_id mint delta
  | CmdLock user_id mint amount =>
      _ ← with_core (with_executor (lock_balance_for_order 0 user_id mint amount));
      mret None
  | CmdUnlock user_id mint amount =>
      _ ← with_core (with_executor (unlock_balance_for_cancel 0 user_id mint amount));
      mret None
  end.

(** The answer to a cancellation that already happened. *)
Definition cancelled_before (command : Command) (state : EngineState) : option Outcome :=
  match command with
  | CmdCancel order_id user_id market =>
      match cancellations state !! order_id with
      | Some order =>
          Some (if (oe_user_id order =? user_id) && String.eqb (oe_base_mint order) (base_mint market) &&
                   String.eqb (oe_quote_mint order) (quote_mint market)
                then DuplicateCancellation order
                else Failed "Unauthorized cancellation")
      | None => None
      end
  | _ => None
  end.

(** [journal::apply]. *)
Definition journal_apply (command : Command) : st EngineState Outcome :=
  state ← sget;
  match cancelled_before command state with
  | Some outcome => mret outcome
  | None =>
      result ← attempt (execute command);
      lift (match result with
            | Ok output => Ok (Applied output)
            | Err error => Ok (Failed error)
            | Panic => Panic
            end)
  end.

(** ** Replies

    A reply channel is named by a number; sending is the pair of the name and the value. *)

Inductive Reply :=
  | ReplySubmit (sender : Z)
  | ReplyCancel (sender : Z)
  | ReplyUnit (sender : Z)
  | ReplyWithdrawal (sender : Z)
  | ReplyBook (sender : Z) (value : list OrderEntry * list OrderEntry)
  | ReplyBalance (sender : Z) (value : Decimal * Decimal).

Inductive Answer :=
  | AnswerUnit (r : result unit)
  | AnswerOrder (r : result OrderEntry)
  | AnswerBook (r : result (list OrderEntry * list OrderEntry))
  | AnswerBalance (r : result (Decimal * Decimal)).

Record Pending := { p_command : option Command; p_outcome : Outcome; p_reply : Reply }.

(** [Pending::finish]. *)
Definition finish (p : Pending) : Z * Answer :=
  match p_reply p with
  | ReplySubmit sender =>
      (sender, AnswerUnit match p_outcome p with Failed reason => Err reason | _ => Ok tt end)
  | ReplyCancel sender =>
      (sender, AnswerOrder match p_outcome p with
                           | Applied (Some (BatchCancelled order)) | DuplicateCancellation order => Ok order
                           | Failed reason => Err reason
                           | _ => Err "Invalid cancellation outcome"
                           end)
  | ReplyWithdrawal sender =>
      (sender, AnswerUnit match p_outcome p with
                          | Failed reason | Applied (Some (WithdrawalRejected _ reason)) => Err reason
                          | _ => Ok tt
                          end)
  | ReplyUnit sender =>
      (sender, AnswerUnit match p_outcome p with Failed reason => Err reason | _ => Ok tt end)
  | ReplyBook sender value => (sender, AnswerBook (Ok value))
  | ReplyBalance sender value => (sender, AnswerBalance (Ok value))
  end.
End journal.

(** ** The invariant of the state and the account of the money *)

Section journal_spec.
Context {E : Externals}.

(** An order resting in the book of a market. *)
Definition resting (s : EngineState) (market : TradingPair) (buy : bool) (p : Decimal) (o : OrderEntry) : Prop :=
  in_book (book_at (core s) market) buy p o.

(** The books and balances are well-formed; every resting order was submitted and rests in one
    market only; the indexes are keyed by the id; a cancelled order rests nowhere. *)
Record state_wf (s : EngineState) : Prop := {
  st_books : books_wf (core s);
  st_cache : cache_wf (state_cache s);
  st_known : ∀ market buy p o, resting s market buy p o → is_Some (submissions s !! oe_id o);
  st_market : ∀ market buy p o market' buy' p' o',
    resting s market buy p o → resting s market' buy' p' o' → oe_id o = oe_id o' → market = market';
  st_keys : ∀ id o, submissions s !! id = Some o → oe_id o = id;
  st_gone : ∀ id o, cancellations s !! id = Some o →
    oe_id o = id ∧ is_Some (submissions s !! id) ∧
    ∀ market buy p o', resting s market buy p o' → oe_id o' ≠ id;
}.

(** What a command brings into the exchange (or takes out) of an asset, read off its output. *)
Definition flow (command : Command) (output : option OutputBatch) (mint : string) : Z :=
  match output with
  | Some (DepositCredited credit) => if decide (dc_asset credit = mint) then raw (dc_amount credit) else 0
  | Some (WithdrawalChanged c) =>
      match wc_action c with
      | Complete => if decide (wf_asset (wc_funds c) = mint) then - raw (wf_amount (wc_funds c)) else 0
      | _ => 0
      end
  | Some (Submitted _ trades _) => - lsum (fees_reported mint) trades
  | Some _ => 0
  | None =>
      match command with
      | CmdBalance _ asset delta => if decide (asset = mint) then raw delta else 0
      | _ => 0
      end
  end.

Definition outcome_flow (command : Command) (outcome : Outcome) (mint : string) : Z :=
  match outcome with Applied output => flow command output mint | _ => 0 end.

(** A command that was refused, with the reason in its outcome or in its output. *)
Definition refused (outcome : Outcome) : bool :=
  match outcome with
  | Failed _ | Applied (Some (BatchRejected _ _)) | Applied (Some (WithdrawalRejected _ _)) => true
  | _ => false
  end.

Definition outcome_of (r : result (option OutputBatch)) : Outcome :=
  match r with Ok output => Applied output | Err e => Failed e | Panic => Applied None end.

(** What every command guarantees of the state it leaves. *)
Record step_ok (command : Command) (s : EngineState) (outcome : Outcome) (s' : EngineState) : Prop := {
  so_wf : state_wf s';
  so_supply : ∀ mint, supply (state_cache s') mint = supply (state_cache s) mint + outcome_flow command outcome mint;
  so_refused : refused outcome = true → core s' = core s ∧ cancellations s' = cancellations s;
  so_failed : ∀ reason, outcome = Failed reason → submissions s' = submissions s;
}.
End journal_spec.

Section journal_facts.
Context {E : Externals} {L : DecimalLaws ext_decimal}.

(** The state that a first start makes of the balances it was given: no orders and no receipts. *)
Lemma initial_no_orders c market buy p o : ¬ resting (set_state_cache c state_new) market buy p o.
Proof. intros Ho. destruct buy; by apply elem_of_nil in Ho. Qed.

Lemma state_wf_initial c : cache_wf c → state_wf (set_state_cache c state_new).
Proof.
  intros Hc. pose proof (initial_no_orders c) as Hno. split.
  - intros pair b Hb. cbn in Hb. by apply lookup_empty_Some in Hb.
  - exact Hc.
  - intros market buy p o Ho. by apply Hno in Ho.
  - intros market buy p o market' buy' p' o' Ho. by apply Hno in Ho.
  - intros id o Ho. cbn in Ho. by apply lookup_empty_Some in Ho.
  - intros id o Ho. cbn in Ho. by apply lookup_empty_Some in Ho.
Qed.

Lemma state_wf_new : state_wf state_new.
Proof. apply (state_wf_initial cache_new). intros k b Hb. cbn in Hb. by apply lookup_empty_Some in Hb. Qed.

(** A command that leaves the books and the order indexes alone. *)
Lemma state_wf_money s s' :
  state_wf s → orderbooks (core s') = orderbooks (core s) →
  submissions s' = submissions s → cancellations s' = cancellations s →
  cache_wf (state_cache s') → state_wf s'.
Proof.
  intros Hwf Hb Hs Hc Hcache.
  assert (Hr : ∀ market buy p o, resting s' market buy p o ↔ resting s market buy p o).
  { intros. unfold resting, book_at. by rewrite Hb. }
  destruct Hwf as [H1 H2 H3 H4 H5 H6]. split.
  - intros pair b. rewrite Hb. apply H1.
  - done.
  - intros market buy p o. rewrite Hr, Hs. apply H3.
  - intros market buy p o market' buy' p' o'. rewrite !Hr. apply H4.
  - intros id o. rewrite Hs. apply H5.
  - intros id o. rewrite Hc, Hs. intros Ho. destruct (H6 _ _ Ho) as (? & ? & H).
    split_and!; [done | done |]. intros market buy p o'. rewrite Hr. apply H.
Qed.

(** The same, when the balances did not change either. *)
Lemma step_ok_same command s s' outcome :
  state_wf s → core s' = core s → submissions s' = submissions s → cancellations s' = cancellations s →
  (∀ mint, outcome_flow command outcome mint = 0) → step_ok command s outcome s'.
Proof.
  intros Hwf Hc Hs Hca Hf. assert (Hcache : state_cache s' = state_cache s) by (unfold state_cache; by rewrite Hc).
  split.
  - apply (state_wf_money s); [done | by rewrite Hc | done | done |]. rewrite Hcache. apply Hwf.
  - intros mint. rewrite Hcache, Hf. lia.
  - done.
  - done.
Qed.

Lemma withdrawal_step_ok command s r s' :
  state_wf s → withdrawal_apply command s = (r, s') →
  r ≠ Panic ∧ step_ok (CmdWithdrawal command) s (outcome_of r) s'.
Proof.
  intros Hwf Hrun. pose proof (withdrawal_apply_safe command s) as Hsafe. rewrite Hrun in Hsafe. split; [done |].
  destruct (withdrawal_cases _ _ _ _ Hrun) as [[-> Hno] | [Hex _]].
  { apply step_ok_same; [done..|]. intros mint. destruct r as [[batch|]| |]; [by destruct (Hno batch) | done..]. }
  apply execute_result_money in Hex as [(-> & Hmove & _ & Hb & _ & Hs & Hc) | [(reason & -> & _ & ->)
    | (reason & -> & _ & ->)]].
  - apply withdrawal_move_money in Hmove as (_ & Hsup & Hcache). split.
    + apply (state_wf_money s); [done.. |]. apply Hcache, Hwf.
    + intros mint. rewrite Hsup. cbn. unfold move_available, move_locked.
      destruct (wc_action command); repeat case_decide; lia.
    + done.
    + done.
  - apply step_ok_same; try done.
  - apply step_ok_same; done.
Qed.

Lemma deposit_step_ok credit s r s' :
  state_wf s → deposit_apply credit s = (r, s') →
  r ≠ Panic ∧ step_ok (CmdCreditDeposit credit) s (outcome_of r) s'.
Proof.
  intros Hwf Hrun. pose proof (deposit_apply_safe credit s) as Hsafe. rewrite Hrun in Hsafe. split; [done |].
  destruct r as [[batch|]|e|]; [| | | done].
  - pose proof (deposit_effect _ _ _ _ Hrun) as (-> & _ & _ & Hb & _ & Hsup & _ & Hcache).
    rewrite deposit_apply_run in Hrun.
    assert (submissions s' = submissions s ∧ cancellations s' = cancellations s) as [Hs Hc].
    { repeat case_match; simplify_eq; done. }
    split; [| | done | done].
    + apply (state_wf_money s); [done.. |]. apply Hcache, Hwf.
    + intros mint. by rewrite Hsup.
  - rewrite deposit_apply_run in Hrun. rewrite deposit_credit_run in Hrun. apply step_ok_same; try done;
    repeat case_match; by simplify_eq.
  - rewrite deposit_apply_run, deposit_credit_run in Hrun.
    assert (core s' = core s ∧ submissions s' = submissions s ∧ cancellations s' = cancellations s) as (? & ? & ?).
    { repeat case_match; simplify_eq; try done. by destruct s as [? ? ? ? [? [?]]]. }
    by apply step_ok_same.
Qed.

Lemma balance_step_ok user mint delta s r s' :
  state_wf s → execute_balance user mint delta s = (r, s') →
  r ≠ Panic ∧ step_ok (CmdBalance user mint delta) s (outcome_of r) s'.
Proof.
  intros Hwf. unfold execute_balance. unfold mbind at 1, st_bind at 1, lift at 1.
  destruct (ensure _ _) as [[]|e|] eqn:Hen; [| intros [= <- <-]; split; [done | by apply step_ok_same]
    | exfalso; by apply no_panic_ensure in Hen].
  rewrite with_cache_run. unfold get_balance, mbind, st_bind, sget, lift. cbn zeta.
  set (k0 := (user, mint)). set (row := default balance_new (balances (state_cache s) !! k0)).
  assert (Hold : match balances (state_cache s) !! k0 with Some b => available b | None => dec_zero end = available row)
    by (unfold row; by destruct (balances _ !! _)).
  rewrite Hold. rewrite dec_leb_raw, zero_raw.
  assert (Hnp : no_panic (if 0 <=? raw delta then add (available row) delta else subtract (available row)
    (dec_abs delta)))
    by (destruct (0 <=? raw delta); [apply add_no_panic | apply subtract_no_panic]).
  destruct (if 0 <=? raw delta then _ else _) as [next|e|] eqn:Hnext; [| | done].
  - rewrite set_available_run. intros [= <- <-]. split; [done |].
    assert (Hraw : raw next = raw (available row) + raw delta ∧ ∃ a, in_units next a).
    { destruct (Z.leb_spec 0 (raw delta)).
      - destruct (add_inv _ _ _ Hnext) as (a & b & Ia & Ib). pose proof (add_ok _ _ _ _ _ Ia Ib Hnext) as In.
        split; [destruct Ia, Ib, In; lia | eauto].
      - destruct (subtract_inv _ _ _ Hnext) as (a & b & Ia & Ib & _).
        pose proof (subtract_ok _ _ _ _ _ Ia Ib Hnext) as In.
        split; [| eauto]. pose proof (abs_raw delta). destruct Ia, Ib, In. lia. }
    destruct Hraw as [Hraw Hin].
    destruct (set_balance_money user mint next (locked row) (state_cache s)) as [_ Hs].
    assert (Hrow : raw (available row) = available_of (state_cache s) k0 ∧
      raw (locked row) = locked_of (state_cache s) k0).
    { by rewrite available_of_default, locked_of_default. }
    split; [| | done | done].
    + apply (state_wf_money s); [done.. |]. apply set_balance_wf; [apply Hwf |].
      split; [done |]. apply (default_balance_wf (state_cache s) k0), Hwf.
    + intros m. change (state_cache (set_state_cache ?c s)) with c. rewrite Hs. fold k0. cbn.
      repeat case_decide; try congruence; lia.
  - intros [= <- <-]. split; [done |]. rewrite set_state_cache_same. by apply step_ok_same.
Qed.

Lemma reservation_step_ok command user mint amount (lock : bool) msg s r s' :
  (∀ m, flow command None m = 0) →
  state_wf s →
  (_ ← with_core (with_executor (scontext (balance_cache_mut (change_reservation user mint amount lock)) msg));
   mret (M := st EngineState) (None : option OutputBatch)) s = (r, s') →
  r ≠ Panic ∧ step_ok command s (outcome_of r) s'.
Proof.
  intros Hflow Hwf. unfold with_core, with_executor, balance_cache_mut, scontext, mbind, st_bind, zoom.
  fold (cache (core s)). fold (state_cache s).
  pose proof (change_reservation_atomic user mint amount lock (state_cache s)) as Hat.
  pose proof (change_reservation_safe user mint amount lock (state_cache s)) as Hsafe.
  destruct (change_reservation user mint amount lock (state_cache s)) as [[[]|e|] c] eqn:Hrun; cbn in Hsafe; [| | done].
  - cbn. intros [= <- <-]. split; [done |]. split; [| | done | done].
    + apply (state_wf_money s); [done.. |]. eapply change_reservation_wf; [exact Hrun | apply Hwf].
    + intros m. transitivity (supply c m); [reflexivity |]. rewrite (change_reservation_supply _ _ _ _ _ _ m Hrun).
      cbn [outcome_flow outcome_of]. rewrite Hflow. lia.
  - cbn. intros [= <- <-]. split; [done |]. rewrite (Hat _ _ eq_refl eq_refl).
    apply step_ok_same; try done. by destruct s as [? ? ? ? [? [?]]].
Qed.

(** What rests after a cancellation rested before, and it is not the cancelled order. *)
Lemma cancelled_rests s order_id market buy0 p0 found book book' b' :
  state_wf s → orderbooks (core s) !! market = Some book → oe_id found = order_id →
  in_book book buy0 p0 found →
  (∀ k, level_of book' buy0 k = without order_id (level_of book buy0 k)) →
  (∀ k, level_of book' (negb buy0) k = level_of book (negb buy0) k) →
  let s2 := set_cancellation order_id found
              (set_core (mk_core (<[market := book']> (orderbooks (core s))) (mk_executor b')) s) in
  ∀ m buy p o, resting s2 m buy p o → resting s m buy p o ∧ oe_id o ≠ order_id.
Proof.
  intros Hwf Hbook Hid Hin Hl1 Hl2 s2 m buy p o. destruct (st_books _ Hwf _ _ Hbook) as [Hbwf _].
  assert (Hfound : resting s market buy0 p0 found) by (unfold resting, book_at; by rewrite Hbook).
  unfold resting, book_at. cbn [core s2 set_cancellation set_core orderbooks].
  destruct (decide (m = market)) as [->|Hm].
  - rewrite lookup_insert_eq, Hbook. cbn [default from_option]. unfold id, in_book.
    destruct (bool_decide_reflect (buy = buy0)) as [->|Hb].
    + specialize (Hl1 p). unfold level_of in Hl1. rewrite Hl1, without_elem. done.
    + assert (buy = negb buy0) as -> by (by destruct buy, buy0).
      specialize (Hl2 p). unfold level_of in Hl2. rewrite Hl2. intros Ho. split; [done |].
      destruct buy0; cbn in *; [intros Heq; by eapply (bw_disjoint _ Hbwf p0 p found o); [..| congruence]|].
      intros Heq. by eapply (bw_disjoint _ Hbwf p p0 o found); [..| congruence].
  - rewrite lookup_insert_ne by done. intros Ho. split; [done |]. intros Heq. apply Hm. symmetry.
    eapply (st_market _ Hwf market buy0 p0 found m buy p o); [done | exact Ho | congruence].
Qed.

Lemma cancel_step_ok order_id user_id market s r s' :
  state_wf s → execute (CmdCancel order_id user_id market) s = (r, s') →
  r ≠ Panic ∧ step_ok (CmdCancel order_id user_id market) s (outcome_of r) s'.
Proof.
  intros Hwf. cbn [execute]. unfold with_core, zoom. unfold mbind, st_bind.
  destruct (cancel_order order_id user_id market (core s)) as [r0 c'] eqn:Hrun.
  destruct (cancel_run _ _ _ _ _ _ (st_books _ Hwf) Hrun) as [(e & -> & ->) |
    (book & p0 & buy0 & found & v & b' & book' & Hbook & Hloc & Hu & Hv & Hun & -> & -> & Hbwf' & Hpair' & Hl1 & Hl2)].
  { intros [= <- <-]. split; [done |]. by apply step_ok_same. }
  unfold unlock_balance in Hun.
  cbn [smodify]. intros [= <- <-]. split; [done |].
  destruct (st_books _ Hwf _ _ Hbook) as [Hbwf Hpair].
  pose proof (locate_some _ _ _ _ _ Hbwf Hloc) as Hf.
  destruct (find_order_some _ _ _ _ (bw_side _ Hbwf buy0) Hf) as (Hid & Hin & _).
  set (s2 := set_cancellation _ _ _).
  pose proof (cancelled_rests s order_id market buy0 p0 found book book' b' Hwf Hbook Hid Hin Hl1 Hl2) as Hrest.
  fold s2 in Hrest.
  assert (Hfound : resting s market buy0 p0 found) by (unfold resting, book_at; by rewrite Hbook).
  split; [| | done | done].
  - split.
    + intros m b. cbn [core s2 set_cancellation set_core orderbooks].
      intros [[<- <-] | [_ Hb]]%lookup_insert_Some; [done | by apply (st_books _ Hwf)].
    + eapply change_reservation_wf; [exact Hun | apply Hwf].
    + intros m buy p o [Ho _]%Hrest. by apply (st_known _ Hwf) in Ho.
    + intros m buy p o m' buy' p' o' [Ho _]%Hrest [Ho' _]%Hrest. by eapply (st_market _ Hwf).
    + apply (st_keys _ Hwf).
    + intros id o. cbn [cancellations submissions s2 set_cancellation set_core].
      intros [[<- <-] | [_ Ho]]%lookup_insert_Some.
      * split_and!; [done | rewrite <- Hid; by eapply (st_known _ Hwf) |].
        intros m buy p o' Ho'. by apply Hrest in Ho' as [_ ?].
      * destruct (st_gone _ Hwf _ _ Ho) as (? & ? & Hno). split_and!; [done | done |].
        intros m buy p o' [Ho' _]%Hrest. by eapply Hno.
  - intros mint. transitivity (supply b' mint); [reflexivity |].
    rewrite (change_reservation_supply _ _ _ _ _ _ mint Hun). cbn. unfold state_cache. lia.
Qed.

Lemma state_wf_submission order s :
  state_wf s → submissions s !! oe_id order = None → state_wf (set_submission order s).
Proof.
  intros [H1 H2 H3 H4 H5 H6] Hnew. split; [done | done | | done | |].
  - intros market buy p o Ho. cbn. apply lookup_insert_is_Some'. right. by eapply H3.
  - intros id o. cbn. intros [[<- <-] | [_ Ho]]%lookup_insert_Some; [done | by apply H5].
  - intros id o Ho. destruct (H6 _ _ Ho) as (? & ? & ?). split_and!; [done | | done].
    cbn. apply lookup_insert_is_Some'. by right.
Qed.

Lemma submitted_wf order s c' :
  state_wf s → submissions s !! oe_id order = None → books_wf c' → cache_wf (cache c') →
  (∀ market buy p o, in_book (book_at c' market) buy p o →
     (∃ o', resting s market buy p o' ∧ oe_id o' = oe_id o) ∨ (oe_id o = oe_id order ∧ market = pair_of order)) →
  state_wf (set_core c' (set_submission order s)).
Proof.
  intros Hwf Hnew Hbooks Hcache Hids.
  assert (Hfresh : ∀ m b p o, resting s m b p o → oe_id o ≠ oe_id order).
  { intros m b p o Ho Heq. apply (st_known _ Hwf) in Ho as [? Ho]. congruence. }
  split.
  - exact Hbooks.
  - exact Hcache.
  - intros market buy p o Ho. cbn. apply lookup_insert_is_Some'.
    apply Hids in Ho as [(o' & Ho' & <-) | [-> _]]; [right; by eapply (st_known _ Hwf) | by left].
  - intros m buy p o m' buy' p' o' Ho Ho' Heq.
    apply Hids in Ho as [(o1 & Ho1 & Hid1) | [Hid1 ->]]; apply Hids in Ho' as [(o2 & Ho2 & Hid2) | [Hid2 ->]].
    + eapply (st_market _ Hwf m buy p o1 m' buy' p' o2); [done | done | congruence].
    + exfalso. eapply (Hfresh m buy p o1); [done | congruence].
    + exfalso. eapply (Hfresh m' buy' p' o2); [done | congruence].
    + done.
  - apply (st_keys _ (state_wf_submission _ _ Hwf Hnew)).
  - intros id o Ho. destruct (st_gone _ Hwf _ _ Ho) as (Hid & Hsub & Hno). split_and!; [done | |].
    + cbn. apply lookup_insert_is_Some'. by right.
    + intros m buy p o' Ho'. apply Hids in Ho' as [(o1 & Ho1 & <-) | [-> _]]; [by eapply Hno |].
      intros Heq. rewrite <- Heq, Hnew in Hsub. by destruct Hsub.
Qed.

Lemma submit_step_ok order s r s' :
  state_wf s → execute_submit order s = (r, s') →
  r ≠ Panic ∧ step_ok (CmdSubmit order) s (outcome_of r) s'.
Proof.
  intros Hwf. unfold execute_submit. unfold mbind at 1, st_bind at 1, sget.
  destruct (submissions s !! oe_id order) as [original|] eqn:Hnew.
  { cbn zeta. unfold mbind, st_bind, lift, ensure. destruct (oe_eqb _ _); intros [= <- <-]; (split; [done |]);
    by apply step_ok_same. }
  assert (Hwf1 : state_wf (set_submission order s)) by by apply state_wf_submission.
  unfold mbind, st_bind, smodify, attempt, with_core, zoom, process_submit_order.
  change (core (set_submission order s)) with (core s).
  assert (Hfresh : id_fresh (core s) (oe_id order)).
  { intros market buy p o Ho Heq. apply (st_known _ Hwf) in Ho as [? Ho]. congruence. }
  destruct (apply order (core s)) as [[app|e|] c'] eqn:Hrun; cycle 1.
  { destruct (apply_fails _ _ _ _ (st_books _ Hwf) Hfresh Hrun eq_refl) as [-> _].
    cbn. intros [= <- <-]. split; [done |]. split; [by destruct s | | by destruct s | done].
    intros mint. cbn. unfold state_cache. cbn. lia. }
  { by destruct (apply_fails _ _ _ _ (st_books _ Hwf) Hfresh Hrun eq_refl). }
  pose proof (apply_books _ _ _ _ (st_books _ Hwf) Hfresh Hrun) as [Hbooks Hids].
  apply apply_ok_run in Hrun as (plan & reserved & refund & book' & _ & Hin & _ & (remaining & left & _ & H1 & H2)
    & _ & _ & ->).
  destruct (refund_raw _ _ _ _ _ H1 H2) as (_ & Hpos & _).
  destruct (in_place_money _ _ _ _ _ _ Hin Hpos) as (_ & Hsup & Hcache).
  assert (Hout : ∃ outs, map_results trade_output (p_matches plan) = Ok outs ∧ map to_trade outs = p_matches plan ∧
    ∀ mint, lsum (fees_reported mint) outs = lsum (fee_in mint) (p_matches plan) * 10 ^ 19).
  { unfold in_place in Hin. apply st_bind_ok in Hin as ([] & c1 & _ & Hin).
    apply st_bind_ok in Hin as ([] & c2 & Hset & _). by eapply settle_all_outputs. }
  destruct Hout as (outs & Houts & _ & Hfees).
  unfold submitted, lift. cbn [as_matches as_order_id as_completion]. rewrite Houts. cbn [mbind result_bind].
  intros [= <- <-]. split; [done |]. split; [| | done | done].
  - apply submitted_wf; [done | done | exact Hbooks | apply Hcache, (st_cache _ Hwf) | exact Hids].
  - intros mint. transitivity (supply (cache c') mint); [reflexivity |]. rewrite Hsup.
    cbn [outcome_flow outcome_of flow]. rewrite Hfees. unfold state_cache. lia.
Qed.

(** The outcome of a command is a remembered cancellation or the result of executing it. *)
Lemma journal_cases command s outcome s' :
  journal_apply command s = (Ok outcome, s') →
  (s' = s ∧ cancelled_before command s = Some outcome) ∨
  ∃ r, execute command s = (r, s') ∧ r ≠ Panic ∧ outcome = outcome_of r.
Proof.
  unfold journal_apply. unfold mbind at 1, st_bind at 1, sget.
  destruct (cancelled_before command s) as [o|] eqn:Hbefore; [intros [= <- <-]; by left |].
  unfold mbind, st_bind, attempt, lift. destruct (execute command s) as [r s1] eqn:Hex. intros H. right.
  exists r. destruct r; by simplify_eq.
Qed.

(** Every command runs to an outcome and keeps what it must. *)
Lemma journal_step_ok command s :
  state_wf s → ∃ outcome s', journal_apply command s = (Ok outcome, s') ∧ step_ok command s outcome s'.
Proof.
  intros Hwf. unfold journal_apply. unfold mbind at 1, st_bind at 1, sget.
  destruct (cancelled_before command s) as [outcome|] eqn:Hbefore.
  { exists outcome, s. split; [done |]. destruct command; try done. cbn in Hbefore.
    destruct (cancellations s !! order_id); [| done]. injection Hbefore as <-.
    by destruct (_ && _)%bool; apply step_ok_same. }
  assert (Hex : (execute command s).1 ≠ Panic ∧ step_ok command s (outcome_of (execute command s).1)
    (execute command s).2).
  { destruct (execute command s) as [r s'] eqn:Hrun. cbn [fst snd]. destruct command.
    - by apply withdrawal_step_ok.
    - by apply deposit_step_ok.
    - by apply submit_step_ok.
    - by apply cancel_step_ok.
    - by apply balance_step_ok.
    - by eapply reservation_step_ok.
    - by eapply reservation_step_ok. }
  unfold mbind, st_bind, attempt, lift. destruct (execute command s) as [[output|e|] s']; cbn in Hex;
    [| | by destruct Hex].
  - exists (Applied output), s'. by destruct Hex.
  - exists (Failed e), s'. by destruct Hex.
Qed.
End journal_facts.
