(* ===== verification/History.v ===== *)
(** * Histories of commands ([runtime/journal.rs])

    The engine worker executes one command after the other. Here: what holds after any history of
    commands from any balances to start with, however the commands were chosen, repeated or ordered. *)

From stdpp Require Import base tactics gmap list strings.
From Stdlib Require Import ZArith Lia.
From S2P Require Import Prelude Text Decimals Amount BTree RefDecimal Types BalanceCache OrderBook Matcher Submission State Deposit Withdrawal Cancel Journal.

Section history.
Context {E : Externals}.

(** Execute commands one by one. *)
Fixpoint run_commands (commands : list Command) : st EngineState (list Outcome) :=
  match commands with
  | [] => mret []
  | command :: commands =>
      outcome ← journal_apply command;
      outcomes ← run_commands commands;
      mret (outcome :: outcomes)
  end.

(** The effects that must not happen twice. *)
Inductive Effect :=
  | OrderExecuted (id : Z)
  | OrderCancelled (id : Z)
  | DepositEntered (id : Uuid)
  | WithdrawalDecided (id : Uuid)
  | WithdrawalSettled (id : Uuid).

Definition effect_of_output (output : OutputBatch) : Effect :=
  match output with
  | Submitted id _ _ => OrderExecuted id
  | BatchRejected order _ => OrderExecuted (oe_id order)
  | BatchCancelled order => OrderCancelled (oe_id order)
  | DepositCredited credit => DepositEntered (dc_deposit_id credit)
  | WithdrawalRejected funds _ => WithdrawalDecided (wf_withdrawal_id funds)
  | WithdrawalChanged command =>
      match wc_action command with
      | Reserve => WithdrawalDecided (wf_withdrawal_id (wc_funds command))
      | _ => WithdrawalSettled (wf_withdrawal_id (wc_funds command))
      end
  end.

Definition effect_of (outcome : Outcome) : option Effect :=
  match outcome with Applied (Some output) => Some (effect_of_output output) | _ => None end.

(** The state remembers the effect. *)
Definition spent (s : EngineState) (e : Effect) : Prop :=
  match e with
  | OrderExecuted id => is_Some (submissions s !! id)
  | OrderCancelled id => is_Some (cancellations s !! id)
  | DepositEntered id => is_Some (deposit_receipts s !! id)
  | WithdrawalDecided id => is_Some (withdrawal_receipts s !! id)
  | WithdrawalSettled id => ∃ r, withdrawal_receipts s !! id = Some r ∧ wr_status r ≠ Reserved
  end.

(** What later commands keep of the receipts and indexes. *)
Record durable (s s' : EngineState) : Prop := {
  du_submissions : submissions s ⊆ submissions s';
  du_cancellations : cancellations s ⊆ cancellations s';
  du_deposits : deposit_receipts s ⊆ deposit_receipts s';
  du_withdrawals : ∀ id r, withdrawal_receipts s !! id = Some r →
    ∃ r', withdrawal_receipts s' !! id = Some r' ∧ (wr_status r ≠ Reserved → r' = r) ∧
      funds_eqb (wr_original r') (wr_original r) = true ∧ (∀ reason, wr_status r' = Rejected reason → r' = r);
}.

(** The money that entered the exchange during a history. *)
Fixpoint total_flow (commands : list Command) (outcomes : list Outcome) (mint : string) : Z :=
  match commands, outcomes with
  | command :: commands, outcome :: outcomes =>
      outcome_flow command outcome mint + total_flow commands outcomes mint
  | _, _ => 0
  end.
End history.

Section history_facts.
Context {E : Externals} {L : DecimalLaws ext_decimal}.

Lemma same_withdrawals s s' :
  withdrawal_receipts s' = withdrawal_receipts s →
  ∀ id r, withdrawal_receipts s !! id = Some r →
  ∃ r', withdrawal_receipts s' !! id = Some r' ∧ (wr_status r ≠ Reserved → r' = r) ∧
    funds_eqb (wr_original r') (wr_original r) = true ∧ (∀ reason, wr_status r' = Rejected reason → r' = r).
Proof. intros -> id r Hr. exists r. by rewrite funds_eqb_refl. Qed.

Lemma durable_refl s : durable s s.
Proof. split; [done..|]. by apply same_withdrawals. Qed.

Lemma durable_trans s1 s2 s3 : durable s1 s2 → durable s2 s3 → durable s1 s3.
Proof.
  intros [H1 H2 H3 H4] [G1 G2 G3 G4]. split; [by etrans..|]. intros id r Hr.
  destruct (H4 _ _ Hr) as (r' & Hr' & Hs & Hf & Hrej). destruct (G4 _ _ Hr') as (r'' & Hr'' & Hs' & Hf' & Hrej').
  exists r''. split; [done |]. split; [| split].
  - intros Hst. rewrite <- (Hs Hst). apply Hs'. by rewrite (Hs Hst).
  - by eapply funds_eqb_trans.
  - intros reason Hreason. pose proof (Hrej' _ Hreason) as ->. by apply (Hrej reason).
Qed.

Lemma spent_durable s s' e : durable s s' → spent s e → spent s' e.
Proof.
  intros [H1 H2 H3 H4]. destruct e; cbn.
  - intros [o Ho]. exists o. by eapply lookup_weaken.
  - intros [o Ho]. exists o. by eapply lookup_weaken.
  - intros [o Ho]. exists o. by eapply lookup_weaken.
  - intros [r Hr]. destruct (H4 _ _ Hr) as (r' & Hr' & _). by exists r'.
  - intros (r & Hr & Hst). destruct (H4 _ _ Hr) as (r' & Hr' & Hs & _). exists r'.
    split; [done | by rewrite (Hs Hst)].
Qed.

(** A command that keeps all receipts and has no effect of its own. *)
Definition remembers (s : EngineState) (outcome : Outcome) (s' : EngineState) : Prop :=
  durable s s' ∧ ∀ e, effect_of outcome = Some e → ¬ spent s e ∧ spent s' e.

Lemma remembers_nothing s outcome s' :
  withdrawal_receipts s' = withdrawal_receipts s → deposit_receipts s' = deposit_receipts s →
  submissions s' = submissions s → cancellations s' = cancellations s →
  effect_of outcome = None → remembers s outcome s'.
Proof.
  intros Hw Hd Hs Hc He. split; [| intros e; by rewrite He].
  split; [by rewrite ?Hs, ?Hc, ?Hd..|]. by apply same_withdrawals.
Qed.

Lemma withdrawal_remembers command s r s' :
  withdrawal_apply command s = (r, s') → remembers s (outcome_of r) s'.
Proof.
  intros Hrun. set (id0 := wf_withdrawal_id (wc_funds command)).
  destruct (withdrawal_cases _ _ _ _ Hrun) as [[-> Hno] | [Hex Hcase]]; fold id0 in Hcase || idtac.
  { split; [apply durable_refl |]. intros e. destruct r as [[batch|]| |]; [by destruct (Hno batch) | done..]. }
  apply execute_result_money in Hex as [(-> & _ & Hw & _ & Hd & Hs & Hc) | [(reason & -> & Ha & ->)
    | (reason & -> & _ & ->)]].
  - fold id0 in Hw. split.
    + split; [by rewrite ?Hs, ?Hc, ?Hd..|]. intros id w Hid. rewrite Hw.
      destruct (decide (id = id0)) as [->|Hne]; [| exists w; rewrite lookup_insert_ne by done;
        by rewrite funds_eqb_refl].
      rewrite lookup_insert_eq. eexists. split; [done |]. rewrite Hid in Hcase. destruct Hcase as (? & _ & Hf).
      split; [done |]. split; [cbn [wr_original]; by rewrite funds_eqb_sym | by destruct (wc_action command)].
    + intros e [= <-]. destruct (wc_action command) eqn:Ha; cbn; fold id0; rewrite Hw, lookup_insert_eq.
      * split; [| done]. destruct (withdrawal_receipts s !! id0); [by destruct Hcase as (_ & ? & _) | by intros [? ?]].
      * destruct (withdrawal_receipts s !! id0) as [w|]; [| done]. destruct Hcase as [Hst _].
        split; [intros (? & [= <-] & ?); done | by eexists].
      * destruct (withdrawal_receipts s !! id0) as [w|]; [| done]. destruct Hcase as [Hst _].
        split; [intros (? & [= <-] & ?); done | by eexists].
  - rewrite Ha in Hcase. destruct (withdrawal_receipts s !! id0) as [w|] eqn:Hw;
    [by destruct Hcase as (_ & ? & _) |]. split.
    + split; [done..|]. intros id w Hid. cbn. fold id0. exists w.
      rewrite lookup_insert_ne by congruence. by rewrite funds_eqb_refl.
    + intros e [= <-]. cbn. fold id0. rewrite Hw, lookup_insert_eq. split; [by intros [? ?] | done].
  - split; [apply durable_refl | done].
Qed.

Lemma deposit_remembers credit s r s' :
  r ≠ Panic → deposit_apply credit s = (r, s') → remembers s (outcome_of r) s'.
Proof.
  intros Hp. rewrite deposit_apply_run. destruct (deposit_receipts s !! dc_deposit_id credit) as [receipt|] eqn:Hr.
  { intros Hrun. assert (s' = s ∧ ∀ batch, r ≠ Ok (Some batch)) as [-> Hno].
    { destruct (credit_eqb _ _); [destruct (dr_rejection receipt) |]; by simplify_eq. }
    split; [apply durable_refl |]. intros e. destruct r as [[batch|]| |]; [by destruct (Hno batch) | done..]. }
  destruct (deposit_format credit) as [[]| |]; [| by intros [= <- <-]; apply remembers_nothing | by intros [= <- <-]].
  rewrite deposit_credit_run.
  assert (Hins : ∀ c rej, durable s (set_deposit_receipt (dc_deposit_id credit) {| dr_original := credit;
    dr_rejection := rej |} (set_state_cache c s))).
  { intros c rej. split; [done | done | cbn; by apply insert_subseteq |]. by apply same_withdrawals. }
  destruct (add _ _) as [next|e|]; intros [= <- <-]; [| | done].
  - split; [apply Hins |]. intros e [= <-]. cbn. rewrite Hr, lookup_insert_eq. split; [by intros [? ?] | done].
  - split; [apply Hins | done].
Qed.

Lemma submit_remembers order s r s' :
  state_wf s → execute_submit order s = (r, s') → remembers s (outcome_of r) s'.
Proof.
  intros Hwf Hrun. destruct (submissions s !! oe_id order) as [original|] eqn:Hnew.
  { unfold execute_submit, mbind, st_bind, sget in Hrun. rewrite Hnew in Hrun. cbn zeta in Hrun.
    unfold lift, ensure in Hrun. destruct (oe_eqb _ _); injection Hrun as <- <-; by apply remembers_nothing. }
  destruct (submit_step_ok _ _ _ _ Hwf Hrun) as [Hp _].
  unfold execute_submit, mbind, st_bind, sget in Hrun. rewrite Hnew in Hrun.
  unfold smodify, attempt, with_core, zoom, process_submit_order in Hrun.
  change (core (set_submission order s)) with (core s) in Hrun.
  destruct (apply order (core s)) as [result c'] eqn:Happ.
  assert (Hdur : durable s (set_core c' (set_submission order s))).
  { split; [cbn; by apply insert_subseteq | done | done |]. by apply same_withdrawals. }
  assert (Hafter : is_Some (submissions (set_core c' (set_submission order s)) !! oe_id order)).
  { cbn. by rewrite lookup_insert_eq. }
  unfold lift in Hrun. destruct result as [app|e|]; [| | by injection Hrun as <- _].
  - destruct (submitted app) as [batch| |] eqn:Hsub; injection Hrun as <- <-; [| by split | done].
    split; [done |]. intros e [= <-]. unfold submitted in Hsub. inv_ok. cbn.
    apply apply_ok_run in Happ as (plan & ? & ? & ? & Hplan & _ & _ & _ & _ & _ & ->). cbn.
    apply plan_order_run in Hplan as (_ & w & Hinv).
    destruct (order_after_same _ _ _ _ (pi_order _ _ _ _ _ Hinv)) as (-> & _). rewrite Hnew.
    split; [by intros [? ?] | done].
  - injection Hrun as <- <-. split; [done |]. intros e' [= <-]. cbn [effect_of_output spent]. rewrite Hnew.
    split; [by intros [? ?] | done].
Qed.

Lemma cancel_remembers order_id user_id market s r s' :
  state_wf s → execute (CmdCancel order_id user_id market) s = (r, s') → remembers s (outcome_of r) s'.
Proof.
  intros Hwf. cbn [execute]. unfold with_core, zoom. unfold mbind, st_bind.
  destruct (cancel_order order_id user_id market (core s)) as [r0 c'] eqn:Hrun.
  destruct (cancel_run _ _ _ _ _ _ (st_books _ Hwf) Hrun) as [(e & -> & ->) |
    (book & p0 & buy0 & found & v & b' & book' & Hbook & Hloc & _ & _ & _ & -> & -> & _)].
  { intros [= <- <-]. by apply remembers_nothing. }
  cbn [smodify]. intros [= <- <-].
  destruct (st_books _ Hwf _ _ Hbook) as [Hbwf Hpair].
  pose proof (locate_some _ _ _ _ _ Hbwf Hloc) as Hf.
  destruct (find_order_some _ _ _ _ (bw_side _ Hbwf buy0) Hf) as (Hid & Hin & _).
  assert (Hnone : cancellations s !! order_id = None).
  { destruct (cancellations s !! order_id) as [o|] eqn:Ho; [| done].
    destruct (st_gone _ Hwf _ _ Ho) as (_ & _ & Hno). exfalso. apply (Hno market buy0 p0 found); [| done].
    unfold resting, in_book, book_at. by rewrite Hbook. }
  split.
  - split; [done | cbn; by apply insert_subseteq | done |]. by apply same_withdrawals.
  - intros e [= <-]. cbn. rewrite Hid, Hnone, lookup_insert_eq. split; [by intros [? ?] | done].
Qed.

(** Commands on the balances alone. *)
Lemma money_remembers {A} (m : st BalanceCache A) s r s' :
  with_cache m s = (r, s') → ∀ outcome, effect_of outcome = None → remembers s outcome s'.
Proof. rewrite with_cache_run. destruct (m _). intros [= <- <-] outcome He. by apply remembers_nothing. Qed.

Lemma journal_remembers command s outcome s' :
  state_wf s → journal_apply command s = (Ok outcome, s') → remembers s outcome s'.
Proof.
  intros Hwf. unfold journal_apply. unfold mbind at 1, st_bind at 1, sget.
  destruct (cancelled_before command s) as [o|] eqn:Hbefore.
  { intros [= <- <-]. apply remembers_nothing; try done. destruct command; try done. cbn in Hbefore.
    destruct (cancellations s !! order_id); [| done]. injection Hbefore as <-. by destruct (_ && _)%bool. }
  unfold mbind, st_bind, attempt, lift. destruct (execute command s) as [r s1] eqn:Hrun.
  assert (Hres : r ≠ Panic → remembers s (outcome_of r) s1).
  { intros Hp. destruct command; cbn [execute] in Hrun.
    - by eapply withdrawal_remembers.
    - by eapply deposit_remembers.
    - by eapply submit_remembers.
    - by eapply cancel_remembers.
    - unfold execute_balance in Hrun.
      apply st_bind_split in Hrun as [(u & s0 & [_ ->]%lift_run & Hrun) | [(e & [_ ->]%lift_run & ->) | [_ ->]]];
        [| by apply remembers_nothing | done].
      pose proof (money_remembers _ _ _ _ Hrun) as H. apply H.
      rewrite with_cache_run in Hrun. revert Hrun. unfold mbind, st_bind, sget, lift. cbn zeta.
      destruct (if dec_leb dec_zero delta then _ else _) as [next|e|]; [| by intros [= <- _] ..].
      rewrite set_available_run. by intros [= <- _].
    - apply st_bind_split in Hrun as [(u & s0 & Hrun & Hret) | [(e & Hrun & ->) | [_ ->]]]; [| | done].
      + unfold lock_balance_for_order in Hrun.
        injection Hret as <- <-. unfold with_core, with_executor, scontext, zoom in Hrun.
        destruct (balance_cache_mut _ _) in Hrun. injection Hrun as _ <-. by apply remembers_nothing.
      + unfold lock_balance_for_order, with_core, with_executor, scontext, zoom in Hrun.
        destruct (balance_cache_mut _ _) in Hrun. injection Hrun as _ <-. by apply remembers_nothing.
    - apply st_bind_split in Hrun as [(u & s0 & Hrun & Hret) | [(e & Hrun & ->) | [_ ->]]]; [| | done].
      + unfold unlock_balance_for_cancel in Hrun.
        injection Hret as <- <-. unfold with_core, with_executor, scontext, zoom in Hrun.
        destruct (balance_cache_mut _ _) in Hrun. injection Hrun as _ <-. by apply remembers_nothing.
      + unfold unlock_balance_for_cancel, with_core, with_executor, scontext, zoom in Hrun.
        destruct (balance_cache_mut _ _) in Hrun. injection Hrun as _ <-. by apply remembers_nothing. }
  destruct r as [output|e|]; intros [= <- <-]; by apply Hres.
Qed.
End history_facts.

(** ** Properties *)

Section history_properties.
Context {E : Externals} {L : DecimalLaws ext_decimal}.

(** Histories in two parts. *)
Lemma run_commands_app c1 c2 s o1 s1 o2 s2 :
  run_commands c1 s = (Ok o1, s1) → run_commands c2 s1 = (Ok o2, s2) → run_commands (c1 ++ c2) s = (Ok (o1 ++ o2), s2).
Proof.
  revert s o1. induction c1 as [|c c1 IH]; intros s o1 H1 H2; [by injection H1 as <- <- |].
  cbn [run_commands app] in *. apply st_bind_ok in H1 as (o & s3 & Ho & H1).
  apply st_bind_ok in H1 as (os & s4 & Hos & Hret). injection Hret as <- <-.
  unfold mbind, st_bind. by rewrite Ho, (IH _ _ Hos H2).
Qed.

Lemma run_commands_split c1 c2 s os s2 :
  run_commands (c1 ++ c2) s = (Ok os, s2) →
  ∃ o1 o2 s1, os = o1 ++ o2 ∧ length o1 = length c1 ∧ run_commands c1 s = (Ok o1, s1) ∧ run_commands c2 s1 = (Ok o2, s2).
Proof.
  revert s os. induction c1 as [|c c1 IH]; intros s os H; [by exists [], os, s |].
  cbn [run_commands app] in *. apply st_bind_ok in H as (o & s3 & Ho & H).
  apply st_bind_ok in H as (os' & s4 & Hos & Hret). injection Hret as <- <-.
  destruct (IH _ _ Hos) as (o1 & o2 & s1 & -> & Hlen & H1 & H2).
  exists (o :: o1), o2, s1. split_and!; [done | cbn; lia | | done]. unfold mbind, st_bind. by rewrite Ho, H1.
Qed.

(** A whole history: it runs to the end, and everything every step guarantees adds up. *)
Lemma run_commands_run commands s :
  state_wf s →
  ∃ outcomes s', run_commands commands s = (Ok outcomes, s') ∧ state_wf s' ∧ durable s s' ∧
    length outcomes = length commands ∧
    (∀ mint, supply (state_cache s') mint = supply (state_cache s) mint + total_flow commands outcomes mint) ∧
    NoDup (omap effect_of outcomes) ∧
    ∀ e, e ∈ omap effect_of outcomes → ¬ spent s e ∧ spent s' e.
Proof.
  revert s. induction commands as [|command commands IH]; intros s Hwf.
  { exists [], s. split_and!; try done; [apply durable_refl | intros mint; cbn; lia | constructor |].
    intros e He. by apply elem_of_nil in He. }
  destruct (journal_step_ok command s Hwf) as (outcome & s1 & Hrun & Hok).
  destruct (journal_remembers _ _ _ _ Hwf Hrun) as [Hdur Heff].
  destruct (IH s1 (so_wf _ _ _ _ Hok)) as (outcomes & s' & Hrest & Hwf' & Hdur' & Hlen & Hsup & Hnd & Hspent).
  exists (outcome :: outcomes), s'. cbn [run_commands]. split_and!.
  - unfold mbind, st_bind. by rewrite Hrun, Hrest.
  - done.
  - by eapply durable_trans.
  - cbn. by f_equal.
  - intros mint. rewrite Hsup, (so_supply _ _ _ _ Hok). cbn. lia.
  - cbn. destruct (effect_of outcome) as [e|] eqn:He; [| done]. apply NoDup_cons. split; [| done].
    intros Hin. destruct (Hspent _ Hin) as [Hno _]. by apply Hno, Heff.
  - intros e Hin. cbn in Hin.
    assert (Hor : effect_of outcome = Some e ∨ e ∈ omap effect_of outcomes).
    { destruct (effect_of outcome) as [e'|]; [| by right]. apply elem_of_cons in Hin as [->|?]; [by left | by right]. }
    destruct Hor as [He | He].
    + destruct (Heff e He) as [Hno Hyes]. split; [done | by eapply spent_durable].
    + destruct (Hspent e He) as [Hno Hyes]. split; [| done]. intros Hs. by eapply Hno, spent_durable.
Qed.

(** C2. The exchange is sound over every history: starting from any balances that a first start can
    have, any list of commands runs to the end without a panic, one outcome per command; the state is
    well-formed (books sorted, consistent and filed under their market, no resting order without a
    submission or after its cancellation, no negative or out-of-range money); and the money of every
    asset is, to the last unit, what was there at the start, plus what the outcomes say came in, minus
    what they say went out: credited deposits and adjustments, completed withdrawals and reported
    fees. *)
Theorem history_sound c commands :
  cache_wf c →
  ∃ outcomes s', run_commands commands (set_state_cache c state_new) = (Ok outcomes, s') ∧
    length outcomes = length commands ∧ state_wf s' ∧
    (∀ mint, supply (state_cache s') mint = supply c mint + total_flow commands outcomes mint) ∧
    (∀ k, 0 ≤ available_of (state_cache s') k ∧ 0 ≤ locked_of (state_cache s') k).
Proof.
  intros Hc. destruct (run_commands_run commands _ (state_wf_initial c Hc))
    as (outcomes & s' & Hrun & Hwf & _ & Hlen & Hsup & _).
  exists outcomes, s'. split_and!; [done..| exact Hsup |].
  - intros k. unfold available_of, locked_of, mval. destruct (balances _ !! k) as [b|] eqn:Hb; cbn; [| lia].
    destruct (st_cache _ Hwf _ _ Hb) as [[a [Ha ?]] [l [Hl ?]]]. lia.
Qed.

(** C3. Nothing happens twice: over any history, from any well-formed state and with commands repeated
    and mixed at will, each order is executed at most once, each order is cancelled at most once, each
    deposit is credited at most once, each withdrawal is decided at most once, and it is settled
    (released or completed, not both) at most once; what the state remembers from before does not
    happen again, and what happened is remembered. *)
Theorem effects_happen_once commands s outcomes s' :
  state_wf s → run_commands commands s = (Ok outcomes, s') →
  NoDup (omap effect_of outcomes) ∧ ∀ e, e ∈ omap effect_of outcomes → ¬ spent s e ∧ spent s' e.
Proof.
  intros Hwf Hrun. destruct (run_commands_run commands s Hwf)
    as (outcomes' & s1 & Hrun' & _ & _ & _ & _ & Hnd & Hspent).
  rewrite Hrun in Hrun'. by injection Hrun' as <- <-.
Qed.

(** C36. A refused command changes no book, no balance and no cancellation: this covers every
    failure, every order whose execution was rejected and every withdrawal refused for want of
    money. A failed command does not even take its order id. *)
Theorem refused_changes_nothing command s outcome s' :
  state_wf s → journal_apply command s = (Ok outcome, s') → refused outcome = true →
  core s' = core s ∧ cancellations s' = cancellations s ∧
  (∀ reason, outcome = Failed reason → submissions s' = submissions s).
Proof.
  intros Hwf Hrun Href. destruct (journal_step_ok command s Hwf) as (outcome' & s1 & Hrun' & Hok).
  rewrite Hrun in Hrun'. injection Hrun' as <- <-.
  destruct (so_refused _ _ _ _ Hok Href). split_and!; [done | done | apply (so_failed _ _ _ _ Hok)].
Qed.

(** An order id is bound to its first content for ever: once an order was submitted, then after
    any later history a submission with its id changes nothing; it is acknowledged when the content
    is the same up to the time stamp, and refused as a conflict otherwise. *)
Theorem resubmission_changes_nothing order s outcome s1 commands outcomes s2 repeated :
  state_wf s → submissions s !! oe_id order = None →
  journal_apply (CmdSubmit order) s = (Ok outcome, s1) → run_commands commands s1 = (Ok outcomes, s2) →
  oe_id repeated = oe_id order →
  journal_apply (CmdSubmit repeated) s2 =
    (Ok (if oe_eqb (set_created_at (oe_created_at order) repeated) order
         then Applied None else Failed conflict), s2).
Proof.
  intros Hwf Hnew Hrun Hruns Hid.
  assert (Hsub : submissions s1 !! oe_id order = Some order).
  { unfold journal_apply, mbind, st_bind, sget in Hrun. cbn [cancelled_before execute] in Hrun.
    unfold attempt, execute_submit, mbind, st_bind, sget in Hrun. rewrite Hnew in Hrun.
    unfold smodify, attempt, with_core, zoom, process_submit_order, lift in Hrun.
    destruct (apply order _) as [[app|e|] c'].
    - destruct (submitted app); injection Hrun as _ <-; cbn; by rewrite lookup_insert_eq.
    - injection Hrun as _ <-. cbn. by rewrite lookup_insert_eq.
    - by injection Hrun. }
  destruct (journal_step_ok (CmdSubmit order) s Hwf) as (o' & s1' & Hrun' & Hok). rewrite Hrun in Hrun'.
    injection Hrun' as <- <-.
  destruct (run_commands_run commands s1 (so_wf _ _ _ _ Hok)) as (os' & s2' & Hruns' & _ & Hdur & _).
  rewrite Hruns in Hruns'. injection Hruns' as <- <-.
  pose proof (lookup_weaken _ _ _ _ Hsub (du_submissions _ _ Hdur)) as Hs2.
  unfold journal_apply, mbind, st_bind, sget. cbn [cancelled_before execute].
  unfold attempt, execute_submit, mbind, st_bind, sget. rewrite Hid, Hs2. cbn zeta.
  unfold lift, ensure. by destruct (oe_eqb _ _).
Qed.

(** A cancellation is final and repeatable: after an order was cancelled, and after any later
    history, the owner's cancellation is answered with the same order, anybody else's (or one for
    another market) is refused, and neither changes anything. *)
Theorem recancellation_changes_nothing order_id user_id market s order s1 commands outcomes s2 user market' :
  state_wf s →
  journal_apply (CmdCancel order_id user_id market) s = (Ok (Applied (Some (BatchCancelled order))), s1) →
  run_commands commands s1 = (Ok outcomes, s2) →
  journal_apply (CmdCancel order_id user market') s2 =
    (Ok (if (oe_user_id order =? user) && String.eqb (oe_base_mint order) (base_mint market') &&
            String.eqb (oe_quote_mint order) (quote_mint market')
         then DuplicateCancellation order else Failed "Unauthorized cancellation"), s2).
Proof.
  intros Hwf Hrun Hruns.
  destruct (journal_step_ok (CmdCancel order_id user_id market) s Hwf) as (o' & s1' & Hrun' & Hok).
    rewrite Hrun in Hrun'. injection Hrun' as <- <-.
  destruct (run_commands_run commands s1 (so_wf _ _ _ _ Hok)) as (os' & s2' & Hruns' & _ & Hdur & _).
  rewrite Hruns in Hruns'. injection Hruns' as <- <-.
  assert (Hc : cancellations s1 !! order_id = Some order).
  { unfold journal_apply, mbind, st_bind, sget in Hrun. cbn [cancelled_before execute] in Hrun.
    destruct (cancellations s !! order_id) as [o|]; [by destruct (_ && _)%bool |].
    unfold attempt, with_core, zoom, mbind, st_bind, lift, smodify in Hrun.
    destruct (cancel_order _ _ _ _) as [[o|e|] c']; [| by injection Hrun..].
    injection Hrun as <- <-. cbn. by rewrite lookup_insert_eq. }
  pose proof (lookup_weaken _ _ _ _ Hc (du_cancellations _ _ Hdur)) as Hs2.
  unfold journal_apply, mbind, st_bind, sget. cbn [cancelled_before]. rewrite Hs2. by destruct (_ && _)%bool.
Qed.
End history_properties.

(** ** The properties at concrete inputs *)

Section history_examples.
#[local] Existing Instance ref_externals.
#[local] Existing Instance ref_decimal_laws.

Definition outcome_kind (o : Outcome) : string :=
  match o with
  | Applied (Some (Submitted _ trades _)) => "executed " +:+ show_int (Z.of_nat (length trades))
  | Applied (Some (BatchRejected _ reason)) => "rejected: " +:+ reason
  | Applied (Some (BatchCancelled _)) => "cancelled"
  | Applied (Some (DepositCredited _)) => "credited"
  | Applied (Some (WithdrawalChanged _)) => "withdrawal"
  | Applied (Some (WithdrawalRejected _ _)) => "withdrawal rejected"
  | Applied None => "applied"
  | Failed reason => "failed: " +:+ reason
  | DuplicateCancellation _ => "cancelled before"
  end%string.

(** A day at the exchange, with every command repeated. *)
Definition ex_history : list Command :=
  [ CmdCreditDeposit {| dc_deposit_id := 1; dc_user_id := 10; dc_asset := "SOL"; dc_amount := dz "5" |};
    CmdCreditDeposit {| dc_deposit_id := 1; dc_user_id := 10; dc_asset := "SOL"; dc_amount := dz "5" |};
    CmdBalance 20 "USDT" (dz "20");
    CmdSubmit ex_ask1; CmdSubmit ex_ask1;
    CmdSubmit ex_bid; CmdSubmit ex_bid;
    CmdCancel (oe_id ex_bid) 20 ex_pair; CmdCancel (oe_id ex_bid) 20 ex_pair; CmdCancel (oe_id ex_bid) 21 ex_pair;
    CmdLock 20 "USDT" (dz "1000") ].

Definition ex_outcomes : list Outcome := get_ok [] (run_commands ex_history state_new).1.
Definition ex_end : EngineState := (run_commands ex_history state_new).2.

Lemma ex_history_run : run_commands ex_history state_new = (Ok ex_outcomes, ex_end).
Proof. apply (get_run [] (run_commands ex_history) state_new). vm_compute. reflexivity. Qed.

(** The balances of a first start: the seller's SOL was there before. *)
Definition ex_seeds : BalanceCache := set_balance 10 "SOL" (dz "7") (dz "0") cache_new.
Lemma ex_seeds_wf : cache_wf ex_seeds.
Proof.
  apply cache_wf_insert; [intros k b Hb; cbn in Hb; by apply lookup_empty_Some in Hb |].
  split; [exists (7 * 10 ^ 9) | exists 0]; by vm_compute.
Qed.
Lemma history_sound_witness :
  ∃ outcomes s', run_commands ex_history (set_state_cache ex_seeds state_new) = (Ok outcomes, s') ∧
    length outcomes = length ex_history ∧ state_wf s' ∧
    (∀ mint, supply (state_cache s') mint = supply ex_seeds mint + total_flow ex_history outcomes mint).
Proof.
  destruct (history_sound ex_seeds ex_history ex_seeds_wf) as (outcomes & s' & H1 & H2 & H3 & H4 & _).
  exists outcomes, s'. split; [exact H1 | split; [exact H2 | split; [exact H3 | exact H4]]].
Defined.

Example ex_outcome_kinds :
  map outcome_kind ex_outcomes =
  ["credited"; "applied"; "applied"; "executed 0"; "applied"; "executed 1"; "applied";
   "cancelled"; "cancelled before"; "failed: Unauthorized cancellation";
   "failed: Failed to lock balance for order 0"]%string.
Proof. vm_compute. reflexivity. Qed.

Example ex_end_money :
  map (money (state_cache ex_end)) [(10, "SOL"); (10, "USDT"); (20, "SOL"); (20, "USDT")]%string =
  [("0", "0"); ("9.99", "0"); ("4.995", "0"); ("10", "0")]%string.
Proof. vm_compute. reflexivity. Qed.

Lemma effects_happen_once_witness : NoDup (omap effect_of ex_outcomes).
Proof. exact (proj1 (effects_happen_once _ _ _ _ state_wf_new ex_history_run)). Defined.

(** A withdrawal without money. *)
Definition ex_poor : Command :=
  CmdWithdrawal {| wc_action := Reserve;
    wc_funds := {| wf_withdrawal_id := 3; wf_user_id := 7; wf_asset := "SOL"; wf_amount := dz "1" |} |}.
Definition ex_poor_outcome : Outcome := get_ok (Failed "") (journal_apply ex_poor state_new).1.
Definition ex_poor_after : EngineState := (journal_apply ex_poor state_new).2.

Lemma ex_poor_run : journal_apply ex_poor state_new = (Ok ex_poor_outcome, ex_poor_after).
Proof. apply run_pair, get_ok_run. vm_compute. reflexivity. Qed.

Lemma refused_changes_nothing_witness :
  core ex_poor_after = core state_new ∧ cancellations ex_poor_after = cancellations state_new.
Proof.
  destruct (refused_changes_nothing _ _ _ _ state_wf_new ex_poor_run) as (H1 & H2 & _);
    [vm_compute; reflexivity | split; [exact H1 | exact H2]].
Defined.

Definition ex_submit_outcome : Outcome := get_ok (Failed "") (journal_apply (CmdSubmit ex_ask1) state_new).1.
Definition ex_submit_after : EngineState := (journal_apply (CmdSubmit ex_ask1) state_new).2.
Lemma ex_submit_run : journal_apply (CmdSubmit ex_ask1) state_new = (Ok ex_submit_outcome, ex_submit_after).
Proof. apply run_pair, get_ok_run. vm_compute. reflexivity. Qed.

Definition ex_later : OrderEntry := @set_created_at ref_externals (99 : Z) ex_ask1.

(** The same order again, and another order under its id. *)
Lemma resubmission_changes_nothing_witness :
  journal_apply (CmdSubmit (ex_later)) ex_submit_after = (Ok (Applied None), ex_submit_after) ∧
  journal_apply (CmdSubmit (set_remaining (dz "4") ex_ask1)) ex_submit_after =
    (Ok (Failed conflict), ex_submit_after).
Proof.
  pose proof (fun repeated => resubmission_changes_nothing ex_ask1 state_new _ _ [] [] ex_submit_after repeated
    state_wf_new eq_refl ex_submit_run eq_refl) as H. split.
  - rewrite (H (ex_later) eq_refl).
    assert (oe_eqb (set_created_at (oe_created_at ex_ask1) (ex_later)) ex_ask1 = true) as ->
      by (vm_compute; reflexivity). reflexivity.
  - rewrite (H (set_remaining (dz "4") ex_ask1) eq_refl).
    assert (oe_eqb (set_created_at (oe_created_at ex_ask1) (set_remaining (dz "4") ex_ask1)) ex_ask1 = false) as ->
      by (vm_compute; reflexivity). reflexivity.
Defined.

(** The exchange with the ask of user 10 resting, and then cancelled. *)
Definition ex_open : list Command := [CmdBalance 10 "SOL" (dz "5"); CmdSubmit ex_ask1].
Definition ex_opened : EngineState := (run_commands ex_open state_new).2.
Definition ex_recancelled (r : result Outcome) : OrderEntry :=
  match r with Ok (Applied (Some (BatchCancelled order))) => order | _ => ex_bid end.
Definition is_cancelled (r : result Outcome) : bool :=
  match r with Ok (Applied (Some (BatchCancelled _))) => true | _ => false end.
Definition ex_cancel_result : result Outcome * EngineState := journal_apply (CmdCancel 1 10 ex_pair) ex_opened.

Lemma ex_opened_wf : state_wf ex_opened.
Proof.
  destruct (run_commands_run ex_open state_new state_wf_new) as (outs & s' & Hrun & Hwf & _).
  unfold ex_opened. by rewrite Hrun.
Qed.

Lemma cancelled_order_run r : is_cancelled r = true → r = Ok (Applied (Some (BatchCancelled (ex_recancelled r)))).
Proof. destruct r as [[[[]|]| |]| |]; done. Qed.

Lemma ex_cancel_result_run :
  journal_apply (CmdCancel 1 10 ex_pair) ex_opened =
  (Ok (Applied (Some (BatchCancelled (ex_recancelled ex_cancel_result.1)))), ex_cancel_result.2).
Proof. apply run_pair, cancelled_order_run. vm_compute. reflexivity. Qed.

Lemma recancellation_changes_nothing_witness :
  journal_apply (CmdCancel 1 11 ex_pair) ex_cancel_result.2 =
    (Ok (Failed "Unauthorized cancellation"), ex_cancel_result.2).
Proof.
  rewrite (recancellation_changes_nothing 1 10 ex_pair ex_opened _ _ [] [] ex_cancel_result.2 11 ex_pair
    ex_opened_wf ex_cancel_result_run eq_refl).
  assert ((oe_user_id (ex_recancelled ex_cancel_result.1) =? 11) = false) as -> by (vm_compute; reflexivity).
  reflexivity.
Defined.
End history_examples.
