(* ===== verification/Resting.v ===== *)
(** * What rests in the books after a command

    Only a submission and a cancellation touch the books. For those two the orders that rest
    afterwards, and what is left of each, are described order by order; everything that watches the
    books from outside (the public market data) is proved against this description. *)

From stdpp Require Import base tactics gmap list strings.
From Stdlib Require Import ZArith Lia.
From S2P Require Import Prelude Text Decimals Amount BTree RefDecimal Types BalanceCache OrderBook Matcher Submission State Deposit Withdrawal Cancel Journal History.

(** ** Code that leaves a part of the state alone *)

Definition keeps {S A B} (f : S → B) (m : st S A) : Prop := ∀ s, f (m s).2 = f s.

Section keeps.
Context {S B : Type} (f : S → B).

Lemma keeps_ret {A} (a : A) : keeps f (mret a).
Proof. done. Qed.
Lemma keeps_lift {A} (r : result A) : keeps f (lift r).
Proof. done. Qed.
Lemma keeps_get : keeps f sget.
Proof. done. Qed.
Lemma keeps_bind {A C} (m : st S A) (k : A → st S C) : keeps f m → (∀ a, keeps f (k a)) → keeps f (m ≫= k).
Proof.
  intros Hm Hk s. unfold mbind, st_bind. specialize (Hm s). destruct (m s) as [[a|e|] s1]; cbn in *; [| done..].
  by rewrite Hk.
Qed.
Lemma keeps_modify g : (∀ s, f (g s) = f s) → keeps f (smodify g).
Proof. intros Hg s. apply Hg. Qed.
End keeps.

Section books.
Context {E : Externals} {L : DecimalLaws ext_decimal}.

Definition books_of (s : EngineState) : gmap TradingPair OrderBook := orderbooks (core s).

Lemma keeps_attempt {A} (m : st EngineState A) : keeps books_of m → keeps books_of (attempt m).
Proof. intros Hm s. specialize (Hm s). unfold attempt. by destruct (m s) as [[]]. Qed.
Lemma keeps_cache {A} (m : st BalanceCache A) : keeps books_of (with_cache m).
Proof. intros s. rewrite with_cache_run. by destruct (m _). Qed.
Lemma keeps_executor {A} (m : st Executor A) : keeps books_of (with_core (with_executor m)).
Proof. intros s. unfold with_core, with_executor, zoom. by destruct (m _). Qed.

Ltac keep_books :=
  repeat lazymatch goal with
  | |- keeps _ (mbind _ _) => apply keeps_bind; [| intros ?]
  | |- keeps _ (mret _) => apply keeps_ret
  | |- keeps _ (lift _) => apply keeps_lift
  | |- keeps _ sget => apply keeps_get
  | |- keeps _ (smodify _) => apply keeps_modify; intros ?; reflexivity
  | |- keeps _ (attempt _) => apply keeps_attempt
  | |- keeps _ (with_cache _) => apply keeps_cache
  | |- keeps _ (with_core (with_executor _)) => apply keeps_executor
  | |- keeps _ (match _ with _ => _ end) => case_match
  end.

Lemma keeps_withdrawal command : keeps books_of (withdrawal_apply command).
Proof.
  assert (Hex : keeps books_of (withdrawal_execute command)).
  { unfold withdrawal_execute. keep_books. }
  unfold withdrawal_apply. keep_books; done.
Qed.
Lemma keeps_deposit credit : keeps books_of (deposit_apply credit).
Proof. unfold deposit_apply. keep_books. Qed.
Lemma keeps_balance user_id mint delta : keeps books_of (execute_balance user_id mint delta).
Proof. unfold execute_balance. keep_books. Qed.

(** The two outcomes that come with a change of the books. *)
Definition book_event (outcome : Outcome) : bool :=
  match outcome with Applied (Some (Submitted _ _ _)) | Applied (Some (BatchCancelled _)) => true | _ => false end.

(** Recomputing the fees reports no errors. *)
Lemma trade_outputs_infallible ts e : map_results trade_output ts ≠ Err e.
Proof.
  assert (Hx : ∀ A (m : result A) e, expect_ok m ≠ Err e) by by intros A [].
  assert (Hone : ∀ t e, trade_output t ≠ Err e).
  { intros t e'. unfold trade_output. unfold mbind, result_bind.
    destruct (expect_ok (fee _ _)) eqn:H1; [| by apply Hx in H1 | done].
    destruct (expect_ok (quote _ _)) eqn:H2; [| by apply Hx in H2 | done].
    destruct (expect_ok (fee a0 _)) eqn:H3; [done | by apply Hx in H3 | done]. }
  induction ts as [|t ts IH]; [done |]. cbn [map_results]. unfold mbind, result_bind.
  destruct (trade_output t) eqn:Ht; [| by apply Hone in Ht | done].
  by destruct (map_results trade_output ts).
Qed.

(** The outputs are about the trades. *)
Lemma trade_outputs_trades ts outs : map_results trade_output ts = Ok outs → map to_trade outs = ts.
Proof.
  intros Hm%map_results_Forall2. induction Hm as [|t o ts os Ho _ IH]; [done |].
  cbn. rewrite IH. f_equal. unfold trade_output in Ho.
  apply bind_ok in Ho as (a & _ & Ho). apply bind_ok in Ho as (v & _ & Ho). apply bind_ok in Ho as (b & _ & Ho).
  injection Ho as <-. reflexivity.
Qed.

(** A submission that went through, and what it published. *)
Lemma submit_applied order s id outs completion s' :
  state_wf s → journal_apply (CmdSubmit order) s = (Ok (Applied (Some (Submitted id outs completion))), s') →
  submissions s !! oe_id order = None ∧ id_fresh (core s) (oe_id order) ∧
  ∃ app, apply order (core s) = (Ok app, core s') ∧ id = as_order_id app ∧
    map_results trade_output (as_matches app) = Ok outs ∧ completion = as_completion app.
Proof.
  intros Hwf Hrun. unfold journal_apply, mbind, st_bind, sget, attempt, lift in Hrun.
    cbn [cancelled_before execute] in Hrun.
  destruct (execute_submit order s) as [[output|e|] s1] eqn:Hex; [| done..]. injection Hrun as -> ->.
  unfold execute_submit in Hex. unfold mbind at 1, st_bind at 1, sget in Hex.
  destruct (submissions s !! oe_id order) as [original|] eqn:Hnew.
  { unfold mbind, st_bind, lift, ensure in Hex. destruct (oe_eqb _ _); done. }
  assert (Hfresh : id_fresh (core s) (oe_id order)).
  { intros market buy p o Ho Heq. apply (st_known _ Hwf) in Ho as [? Ho]. congruence. }
  unfold mbind, st_bind, smodify, attempt, with_core, zoom, process_submit_order in Hex.
  change (core (set_submission order s)) with (core s) in Hex.
  destruct (apply order (core s)) as [[app|e|] c'] eqn:Hap; [| done..].
  unfold lift, submitted in Hex. destruct (map_results trade_output (as_matches app)) as [outs'|e|] eqn:Hm; [| done..].
  injection Hex as <- <- <- <-. split_and!; [done | done |]. by exists app.
Qed.

(** The same, taken apart. *)
Lemma submit_run order s id outs completion s' :
  state_wf s → journal_apply (CmdSubmit order) s = (Ok (Applied (Some (Submitted id outs completion))), s') →
  submissions s !! oe_id order = None ∧ id_fresh (core s) (oe_id order) ∧
  ∃ plan book', plan_order order (book_at (core s) (pair_of order)) = Ok plan ∧
    commit_book plan (book_at (core s) (pair_of order)) = (Ok tt, book') ∧
    books_of s' = <[pair_of order := book']> (books_of s) ∧
    map to_trade outs = p_matches plan ∧
    ∃ reserved refund remaining left, in_place order plan reserved refund (state_cache s) = (Ok tt, state_cache s') ∧
      remaining_for order (p_order plan) = Ok remaining ∧
      subtract reserved (if String.eqb (oe_order_type order) "buy" then p_total_quote plan else p_total_amount plan) = Ok left ∧
      subtract left remaining = Ok refund.
Proof.
  intros Hwf Hrun. destruct (submit_applied _ _ _ _ _ _ Hwf Hrun) as (Hnew & Hfresh & app & Hap & _ & Hm & _).
  apply apply_ok_run in Hap as (plan & reserved & refund & book' & Hplan & Hin & _ & (remaining & left & Hmoney)
    & Hc & Hb & ->).
  split_and!; [done | done |]. exists plan, book'. split_and!;
    [done | done | exact Hb | by apply trade_outputs_trades |].
  by exists reserved, refund, remaining, left.
Qed.

(** A cancellation that went through. *)
Lemma cancelled_run order_id user_id market order s s' :
  journal_apply (CmdCancel order_id user_id market) s = (Ok (Applied (Some (BatchCancelled order))), s') →
  cancel_order order_id user_id market (core s) = (Ok order, core s').
Proof.
  unfold journal_apply, mbind, st_bind, sget, attempt, lift. cbn [cancelled_before].
  destruct (cancellations s !! order_id) as [o|]; [by destruct (_ && _)%bool |].
  cbn [execute]. unfold with_core, zoom, mbind, st_bind.
  destruct (cancel_order order_id user_id market (core s)) as [[found|e|] c']; cbn; [| done..].
  by intros [= -> <-].
Qed.

(** Every other outcome leaves the books as they were. *)
Lemma other_outcomes command s outcome s' :
  state_wf s → journal_apply command s = (Ok outcome, s') → book_event outcome = false → books_of s' = books_of s.
Proof.
  intros Hwf Hrun Hev. unfold journal_apply in Hrun. unfold mbind at 1, st_bind at 1, sget in Hrun.
  destruct (cancelled_before command s) as [o|]; [by injection Hrun as _ <- |].
  unfold mbind, st_bind, attempt, lift in Hrun. destruct (execute command s) as [r s1] eqn:Hex.
  assert (s1 = s') as -> by (by destruct r; injection Hrun).
  assert (Hk : keeps books_of (execute command) → books_of s' = books_of s).
  { intros Hk. specialize (Hk s). by rewrite Hex in Hk. }
  destruct command as [command|credit|order|order_id user_id market|user_id mint delta|user_id mint amount|user_id
    mint amount]; cbn [execute] in Hex, Hk.
  - apply Hk, keeps_withdrawal.
  - apply Hk, keeps_deposit.
  - unfold execute_submit in Hex. unfold mbind at 1, st_bind at 1, sget in Hex.
    destruct (submissions s !! oe_id order) as [original|] eqn:Hnew.
    { unfold mbind, st_bind, lift, ensure in Hex. by destruct (oe_eqb _ _); injection Hex as _ <-. }
    assert (Hfresh : id_fresh (core s) (oe_id order)).
    { intros market buy p o Ho Heq. apply (st_known _ Hwf) in Ho as [? Ho]. congruence. }
    unfold mbind, st_bind, smodify, attempt, with_core, zoom, process_submit_order in Hex.
    change (core (set_submission order s)) with (core s) in Hex.
    destruct (apply order (core s)) as [[app|e|] c'] eqn:Hap.
    + unfold lift, submitted, mbind, result_bind in Hex.
      destruct (map_results trade_output (as_matches app)) as [outs|e|] eqn:Hm;
        [| by apply trade_outputs_infallible in Hm |]; injection Hex as <- _; cbn in Hrun; [| done].
      by injection Hrun as <-.
    + destruct (apply_fails _ _ _ _ (st_books _ Hwf) Hfresh Hap eq_refl) as [-> _]. cbn in Hex.
      by injection Hex as _ <-.
    + by destruct (apply_fails _ _ _ _ (st_books _ Hwf) Hfresh Hap eq_refl).
  - unfold with_core, zoom, mbind, st_bind in Hex.
    destruct (cancel_order order_id user_id market (core s)) as [r0 c'] eqn:Hc.
    destruct (cancel_run _ _ _ _ _ _ (st_books _ Hwf) Hc)
      as [(e & -> & ->) | (? & ? & ? & ? & ? & ? & ? & _ & _ & _ & _ & _ & -> & _)].
    + injection Hex as _ <-. done.
    + cbn in Hex. injection Hex as <- _. cbn in Hrun. by injection Hrun as <-.
  - apply Hk, keeps_balance.
  - apply Hk. keep_books.
  - apply Hk. keep_books.
Qed.
End books.

(** ** Order by order *)

Section resting.
Context {E : Externals} {L : DecimalLaws ext_decimal}.

(** An order of [n] units of the user [u] stands on a side of a book at the price [z]. *)
Definition stands_in (b : OrderBook) (id u : Z) (buy : bool) (z n : Z) : Prop :=
  ∃ p o, in_book b buy p o ∧ oe_id o = id ∧ oe_user_id o = u ∧ raw p = z ∧ in_units (oe_remaining_amount o) n.

(** A maker of the plan, and nothing is left of the order with this id as it was. *)
Definition traded (fs : list fill) (id : Z) : Prop := ∃ f, f ∈ fs ∧ oe_id f.2.2 = id.

Lemma same_id_same (queue : list OrderEntry) o o' :
  NoDup (map oe_id queue) → o ∈ queue → o' ∈ queue → oe_id o = oe_id o' → o = o'.
Proof.
  intros Hnd [i Hi]%list_elem_of_lookup_1 [j Hj]%list_elem_of_lookup_1 Hid.
  assert (i = j) as ->; [| congruence].
  apply (NoDup_lookup _ i j (oe_id o) Hnd); rewrite list_lookup_fmap; [by rewrite Hi | by rewrite Hj, Hid].
Qed.

(** The makers rest in the book. *)
Lemma fill_in_book inc book q p o :
  book_wf book → (q, (p, o)) ∈ fills (want_of inc) (offers inc book) →
  in_book book (String.eqb (oe_order_type inc) "sell") p o.
Proof.
  intros Hwf Hf. apply (offer_in_book inc _ book p o Hwf).
  apply (elem_of_submseteq (map snd (fills (want_of inc) (offers inc book))));
    [| apply sublist_submseteq, fills_sublist].
  apply list_elem_of_fmap. by exists (q, (p, o)).
Qed.

(** The makers of the fills are different orders. *)
Lemma fills_ids_nodup inc book plan w :
  book_wf book → plan_inv inc (String.eqb (oe_order_type inc) "sell") (fills (want_of inc) (offers inc book)) w plan →
  NoDup (map (fun f => oe_id f.2.2) (fills (want_of inc) (offers inc book))).
Proof.
  intros Hwf Hinv. pose proof (pi_once _ _ _ _ _ Hinv) as Hnd. set (fs := fills _ _) in *.
  assert (Hin : ∀ f, f ∈ fs → in_book book (String.eqb (oe_order_type inc) "sell") f.2.1 f.2.2).
  { intros [q [p o]]. by apply fill_in_book. }
  clearbody fs. clear Hinv. induction fs as [|f fs IH]; [constructor |]. cbn [map] in *.
  apply NoDup_cons in Hnd as [Hf Hnd]. apply NoDup_cons. split; [| apply IH; [done | intros g Hg; apply Hin; by right]].
  intros (g & Hid & Hg)%list_elem_of_fmap. apply Hf. apply list_elem_of_fmap. exists g. split; [| done].
  unfold maker_key. rewrite Hid. f_equal. symmetry.
  eapply (sw_unique _ (bw_side _ Hwf _) g.2.1 f.2.1 g.2.2 f.2.2); [apply Hin; by right | apply Hin; by left | done].
Qed.

Lemma classic_traded (fs : list fill) id : traded fs id ∨ ¬ traded fs id.
Proof.
  destruct (decide (id ∈ map (fun f : fill => oe_id f.2.2) fs)) as [Hin|Hno]; [left | right].
  - apply list_elem_of_fmap in Hin as (f & -> & Hf). by exists f.
  - intros (f & Hf & Hid). apply Hno. apply list_elem_of_fmap. by exists f.
Qed.

Lemma fill_once (fs : list fill) (f g : fill) :
  NoDup (map (fun f : fill => oe_id f.2.2) fs) → f ∈ fs → g ∈ fs → oe_id f.2.2 = oe_id g.2.2 → f = g.
Proof.
  intros Hnd [i Hi]%list_elem_of_lookup_1 [j Hj]%list_elem_of_lookup_1 Hid.
  assert (i = j) as ->; [| congruence].
  apply (NoDup_lookup _ i j (oe_id f.2.2) Hnd); rewrite list_lookup_fmap; [by rewrite Hi | by rewrite Hj; cbn;
    rewrite Hid].
Qed.

(** What the prepared changes say about an order of the makers' side. *)
Lemma maker_change inc book plan w k o :
  let maker_buy := String.eqb (oe_order_type inc) "sell" in
  let fs := fills (want_of inc) (offers inc book) in
  book_wf book → plan_inv inc maker_buy fs w plan → in_book book maker_buy k o →
  let changed := default ∅ (bt_get k (p_makers plan)) in
  (changed !! oe_id o = None ∧ ¬ traded fs (oe_id o)) ∨
  ∃ q p n, (q, (p, o)) ∈ fs ∧ raw p = raw k ∧ changed !! oe_id o = Some n ∧ filled_maker o q n.
Proof.
  intros maker_buy fs Hwf Hinv Hin changed.
  assert (Hfs : ∀ q p o, (q, (p, o)) ∈ fs → o ∈ level (side_of maker_buy book) p)
    by (intros q p o'; by apply fill_in_book).
  pose proof (bw_side _ Hwf maker_buy) as Hside.
  destruct (changed !! oe_id o) as [n|] eqn:Hn; [right | left].
  - destruct (pi_found _ _ _ _ _ Hinv _ _ _ Hn) as (q & p & o1 & Hf & Hp & Hid & Hfm).
    assert (o1 = o) as ->; [| by exists q, p, n].
    apply (same_id_same (level (side_of maker_buy book) k)); [apply Hside | | done | done].
    rewrite (level_raw _ k p) by done. by eapply Hfs.
  - split; [done |]. intros ([q [p o1]] & Hf & Hid). cbn in Hid.
    assert (Hp : raw p = raw k) by (eapply (sw_unique _ Hside p k o1 o); [by eapply Hfs | done | done]).
    destruct (pi_made _ _ _ _ _ Hinv _ _ _ Hf) as (n & Hn' & _).
    rewrite (bt_get_raw p k) in Hn' by done. rewrite Hid in Hn'. unfold changed in Hn. congruence.
Qed.

(** The orders in a book after a plan was published: the makers with what is left of them, the other
    orders as they were, and the rest of the incoming order. *)
Lemma commit_stands inc book plan book' :
  plan_order inc book = Ok plan → book_wf book →
  trading_pair book = mk_pair (oe_base_mint inc) (oe_quote_mint inc) →
  (∀ buy p o, in_book book buy p o → oe_id o ≠ oe_id inc) →
  commit_book plan book = (Ok tt, book') →
  let maker_buy := String.eqb (oe_order_type inc) "sell" in
  let fs := fills (want_of inc) (offers inc book) in
  ∀ id u buy z n, stands_in book' id u buy z n ↔
    (buy = maker_buy ∧ 0 < n ∧ ∃ q p o, (q, (p, o)) ∈ fs ∧ oe_id o = id ∧ oe_user_id o = u ∧ raw p = z ∧
       in_units (oe_remaining_amount o) (n + q)) ∨
    (¬ traded fs id ∧ stands_in book id u buy z n) ∨
    (id = oe_id inc ∧ u = oe_user_id inc ∧ buy = negb maker_buy ∧ rests (p_order plan) = true ∧
     (∃ p, oe_price inc = Some p ∧ raw p = z) ∧ in_units (oe_remaining_amount (p_order plan)) n).
Proof.
  intros Hplan Hwf Hpair Hfresh Hc maker_buy fs id u buy z n.
  destruct (commit_book_run inc book plan Hplan Hwf Hpair Hfresh) as (b & Hc' & Hwf' & _ & Hmakers & Hown & _).
  rewrite Hc in Hc'. injection Hc' as <-. fold maker_buy in Hmakers, Hown.
  apply plan_order_run in Hplan as (Hval & w & Hinv). fold maker_buy in Hinv. change (fills _ _) with fs in Hinv.
  pose proof (order_after_same _ _ _ _ (pi_order _ _ _ _ _ Hinv)) as (Hid & Hu & _ & _ & _ & _ & Hprice & _).
  pose proof (maker_change inc book plan w) as Hch. cbn zeta in Hch. fold maker_buy fs in Hch.
  split.
  - intros (p & o & Ho & <- & <- & <- & Hn). unfold in_book in Ho.
    destruct (bool_decide_reflect (buy = maker_buy)) as [->|Hb].
    + rewrite Hmakers in Ho. apply list_elem_of_omap in Ho as (o' & Ho' & Hrep). unfold replace in Hrep.
      destruct (Hch p o' Hwf Hinv Ho') as [[Hnone Hnt] | (q & p' & n' & Hf & Hp & Hsome & Hfm)].
      * rewrite Hnone in Hrep. injection Hrep as ->. right. left. split; [done |]. by exists p, o.
      * rewrite Hsome in Hrep. destruct (dec_ltb _ _) eqn:Hpos; [| done]. injection Hrep as ->. left.
        destruct Hfm as (f & r & f0 & r0 & -> & _ & Hr0 & _ & Hr). cbn in Hn, Hpos |- *.
        pose proof (in_units_inj _ _ _ Hn Hr) as ->. rewrite dec_ltb_raw, zero_raw in Hpos.
        split; [done |]. split; [destruct Hr as [Hr _]; rewrite Hr in Hpos; lia |].
        exists q, p', o'. split_and!; [done | done | done | done |]. by replace (r0 - q + q) with r0 by lia.
    + assert (buy = negb maker_buy) as -> by (by destruct buy, maker_buy). rewrite Hown in Ho. right.
      apply elem_of_app in Ho as [Ho|Ho].
      * left. split; [| by exists p, o]. intros ([q [p' o']] & Hf & Hid'). cbn in Hid'.
        assert (Ho' : in_book book maker_buy p' o') by by eapply fill_in_book.
        destruct maker_buy; cbn in Ho, Ho';
          [by eapply (bw_disjoint _ Hwf p' p o' o) | by eapply (bw_disjoint _ Hwf p p' o o')].
      * right. destruct (rests (p_order plan)) eqn:Hr; [| by apply elem_of_nil in Ho]. cbn [andb] in Ho.
        unfold priced_at in Ho. rewrite Hprice in Ho. destruct (oe_price inc) as [pr|]; [| by apply elem_of_nil in Ho].
        destruct (Z.eqb_spec (raw p) (raw pr)) as [Hp|]; [| by apply elem_of_nil in Ho].
        apply list_elem_of_singleton in Ho as ->. split_and!; try done. eauto.
  - intros [(-> & Hn & q & p & o & Hf & <- & <- & <- & Hr) | [(Hnt & p & o & Ho & <- & <- & <- & Hn)
    | (-> & -> & -> & Hrest & (p & Hp & <-) & Hn)]].
    + assert (Ho : in_book book maker_buy p o) by by eapply fill_in_book.
      destruct (pi_made _ _ _ _ _ Hinv _ _ _ Hf) as (m & Hm & Hfm).
      destruct Hfm as (f & r & f0 & r0 & -> & _ & Hr0 & _ & Hrm). pose proof (in_units_inj _ _ _ Hr Hr0) as <-.
      exists p, (set_filled f (set_remaining r o)). split_and!;
        [| done | done | done | by replace n with (n + q - q) by lia].
      unfold in_book. rewrite Hmakers. apply list_elem_of_omap. exists o. split; [done |].
      unfold replace. rewrite Hm. cbn. rewrite dec_ltb_raw, zero_raw. destruct Hrm as [Hrm _]. rewrite Hrm.
      by rewrite (proj2 (Z.ltb_lt _ _)) by lia.
    + exists p, o. split_and!; [| done..]. unfold in_book. destruct (bool_decide_reflect (buy = maker_buy)) as [->|Hb].
      * rewrite Hmakers. apply list_elem_of_omap. exists o. split; [done |]. unfold replace.
        destruct (Hch p o Hwf Hinv Ho) as [[-> _] | (q & p' & n' & Hf & _)]; [done |].
        destruct Hnt. by exists (q, (p', o)).
      * assert (buy = negb maker_buy) as -> by (by destruct buy, maker_buy). rewrite Hown. apply elem_of_app. by left.
    + exists p, (p_order plan). split_and!; [| done..]. unfold in_book. rewrite Hown, Hrest. cbn [andb].
      unfold priced_at. rewrite Hprice, Hp, Z.eqb_refl. apply elem_of_app. right. left.
Qed.

Definition stands_at (s : EngineState) (id u : Z) (market : TradingPair) (buy : bool) (z n : Z) : Prop :=
  stands_in (book_at (core s) market) id u buy z n.

(** The same, whoever owns the order. *)
Definition rests_at (s : EngineState) (id : Z) (market : TradingPair) (buy : bool) (z n : Z) : Prop :=
  ∃ u, stands_at s id u market buy z n.

Lemma book_at_insert s s' market book' :
  books_of s' = <[market := book']> (books_of s) →
  ∀ m, book_at (core s') m = if decide (m = market) then book' else book_at (core s) m.
Proof.
  intros Hb m. unfold book_at. unfold books_of in Hb. rewrite Hb. case_decide as Hm.
  - subst m. by rewrite lookup_insert_eq.
  - by rewrite lookup_insert_ne.
Qed.

(** An id rests in one place. *)
Lemma stands_at_unique s id u m b z n u' m' b' z' n' :
  state_wf s → stands_at s id u m b z n → stands_at s id u' m' b' z' n' →
  u' = u ∧ m' = m ∧ b' = b ∧ z' = z ∧ n' = n.
Proof.
  intros Hwf (p & o & Ho & Hid & Hu & Hp & Hn) (p' & o' & Ho' & Hid' & Hu' & Hp' & Hn').
  assert (m' = m) as -> by (eapply (st_market _ Hwf m' b' p' o' m b p o); [done | done | congruence]).
  destruct (book_at_wf (core s) m (st_books _ Hwf)) as [Hbwf _]. unfold in_book in *.
  assert (b' = b) as ->.
  { destruct b, b'; try done; exfalso; cbn in Ho, Ho'.
    - eapply (bw_disjoint _ Hbwf p p' o o'); [done | done | congruence].
    - eapply (bw_disjoint _ Hbwf p' p o' o); [done | done | congruence]. }
  pose proof (bw_side _ Hbwf b) as Hside.
  assert (Hpp : raw p' = raw p) by (eapply (sw_unique _ Hside p' p o' o); [done | done | congruence]).
  rewrite (level_raw _ p' p) in Ho' by done.
  assert (o' = o) as -> by (eapply same_id_same; [apply Hside | done | done | congruence]).
  split_and!; [congruence | done | done | congruence | by eapply in_units_inj].
Qed.

Lemma rests_at_unique s id m b z n m' b' z' n' :
  state_wf s → rests_at s id m b z n → rests_at s id m' b' z' n' → m' = m ∧ b' = b ∧ z' = z ∧ n' = n.
Proof. intros Hwf [u H] [u' H']. by destruct (stands_at_unique _ _ _ _ _ _ _ _ _ _ _ _ Hwf H H'). Qed.

(** Everything that rests has a quantity. *)
Lemma rests_positive s id m b z n : state_wf s → rests_at s id m b z n → 0 < n.
Proof.
  intros Hwf (u & p & o & Ho & _ & _ & _ & Hn). destruct (book_at_wf (core s) m (st_books _ Hwf)) as [Hbwf _].
  destruct (bw_resting _ Hbwf b p o Ho) as (Hval & Hside & _).
  apply validate_run in Hval as (_ & _ & _ & [(Hm & _) | (_ & _ & _ & (f & r & _ & Hr & Hpos & _) & _)]);
    [congruence |].
  by rewrite (in_units_inj _ _ _ Hn Hr).
Qed.

Lemma resting_stands s market buy p o :
  state_wf s → resting s market buy p o →
  ∃ n, in_units (oe_remaining_amount o) n ∧ 0 < n ∧ stands_at s (oe_id o) (oe_user_id o) market buy (raw p) n.
Proof.
  intros Hwf Ho. destruct (book_at_wf (core s) market (st_books _ Hwf)) as [Hbwf _].
  destruct (bw_resting _ Hbwf buy p o Ho) as (Hval & Hside & _).
  apply validate_run in Hval as (_ & _ & _ & [(Hm & _) | (_ & _ & _ & (f & r & _ & Hr & Hpos & _) & _)]);
    [congruence |].
  exists r. split_and!; [done | done |]. by exists p, o.
Qed.

Lemma resting_rests s market buy p o :
  state_wf s → resting s market buy p o →
  ∃ n, in_units (oe_remaining_amount o) n ∧ 0 < n ∧ rests_at s (oe_id o) market buy (raw p) n.
Proof. intros Hwf (n & ? & ? & ?)%resting_stands; [| done]. exists n. split_and!; [done | done | by eexists]. Qed.

(** A cancellation takes one order away and leaves everything else as it was. *)
Lemma cancel_stands order_id user_id market found s s' :
  state_wf s → cancel_order order_id user_id market (core s) = (Ok found, core s') →
  oe_id found = order_id ∧ pair_of found = market ∧
  (∃ b z n, stands_at s order_id (oe_user_id found) market b z n ∧ in_units (oe_remaining_amount found) n) ∧
  ∀ id u m b z n, stands_at s' id u m b z n ↔ id ≠ order_id ∧ stands_at s id u m b z n.
Proof.
  intros Hwf Hrun.
  destruct (cancel_run _ _ _ _ _ _ (st_books _ Hwf) Hrun) as [(e & [=] & _) |
    (book & p0 & b0 & found' & v & b' & book' & Hbook & Hloc & _ & _ & _ & [= <-] & Hc & _ & _ & Hl1 & Hl2)].
  destruct (st_books _ Hwf _ _ Hbook) as [Hbwf Hpair].
  destruct (find_order_some _ _ _ _ (bw_side _ Hbwf b0) (locate_some _ _ _ _ _ Hbwf Hloc)) as (Hid & Hin & _).
  assert (Hat : book_at (core s) market = book) by (unfold book_at; by rewrite Hbook).
  assert (Hfound : resting s market b0 p0 found) by (unfold resting; by rewrite Hat).
  destruct (resting_stands _ _ _ _ _ Hwf Hfound) as (n0 & Hn0 & _ & Hrest).
  destruct (bw_resting _ Hbwf b0 p0 found Hin) as (_ & _ & _ & Hbase & Hquote).
  split_and!; [done | unfold pair_of, pair_new; rewrite Hbase, Hquote, Hpair; by destruct market |
    exists b0, (raw p0), n0; by rewrite <- Hid |].
  intros id u m b z n. unfold stands_at. rewrite (book_at_insert s s' market book') by (unfold books_of; by rewrite Hc).
  case_decide as Hm; cycle 1.
  { split; [| tauto]. intros Hr. split; [| done]. intros ->. rewrite <- Hid in Hr.
    destruct (stands_at_unique _ _ _ _ _ _ _ _ _ _ _ _ Hwf Hrest Hr) as (_ & -> & _). done. }
  subst m. rewrite Hat. unfold stands_in, in_book.
  assert (Hl : ∀ k o, o ∈ level_of book' b k ↔ o ∈ level_of book b k ∧ (oe_id o ≠ order_id)).
  { intros k o. destruct (bool_decide_reflect (b = b0)) as [->|Hb].
    - by rewrite Hl1, without_elem.
    - assert (b = negb b0) as -> by (by destruct b, b0). rewrite Hl2. split; [| tauto]. intros Ho. split; [done |].
      intros Heq. unfold level_of in Ho. destruct b0; cbn in *.
      + by eapply (bw_disjoint _ Hbwf p0 k found o); [done | done | congruence].
      + by eapply (bw_disjoint _ Hbwf k p0 o found); [done | done | congruence]. }
  unfold level_of in Hl. split.
  - intros (p & o & [Ho Hne]%Hl & <- & ?). split; [done |]. by exists p, o.
  - intros (Hne & p & o & Ho & <- & ?). exists p, o. split; [by apply Hl | done].
Qed.

Lemma cancel_rests order_id user_id market found s s' :
  state_wf s → cancel_order order_id user_id market (core s) = (Ok found, core s') →
  oe_id found = order_id ∧ pair_of found = market ∧
  (∃ b z n, rests_at s order_id market b z n ∧ in_units (oe_remaining_amount found) n) ∧
  ∀ id m b z n, rests_at s' id m b z n ↔ id ≠ order_id ∧ rests_at s id m b z n.
Proof.
  intros Hwf Hrun. destruct (cancel_stands _ _ _ _ _ _ Hwf Hrun) as (Hid & Hm & (b & z & n & Hs & Hn) & Hiff).
  split_and!; [done | done | exists b, z, n; split; [by eexists | done] |].
  intros id m b' z' n'. split.
  - intros [u [Hne Hr]%Hiff]. split; [done | by exists u].
  - intros [Hne [u Hr]]. exists u. by apply Hiff.
Qed.

(** A submission: [commit_stands] in its own market, everything else as it was. *)
Lemma submit_stands order s id outs completion s' :
  state_wf s → journal_apply (CmdSubmit order) s = (Ok (Applied (Some (Submitted id outs completion))), s') →
  let market := pair_of order in
  let maker_buy := String.eqb (oe_order_type order) "sell" in
  let fs := fills (want_of order) (offers order (book_at (core s) market)) in
  id_fresh (core s) (oe_id order) ∧
  ∃ plan w, plan_order order (book_at (core s) market) = Ok plan ∧
    plan_inv order maker_buy fs w plan ∧ validate order true = Ok tt ∧ map to_trade outs = p_matches plan ∧
    ∀ id u m b z n, stands_at s' id u m b z n ↔
      (m = market ∧ b = maker_buy ∧ 0 < n ∧
       ∃ q p o, (q, (p, o)) ∈ fs ∧ oe_id o = id ∧ oe_user_id o = u ∧ raw p = z ∧
         in_units (oe_remaining_amount o) (n + q)) ∨
      (¬ traded fs id ∧ stands_at s id u m b z n) ∨
      (m = market ∧ id = oe_id order ∧ u = oe_user_id order ∧ b = negb maker_buy ∧ rests (p_order plan) = true ∧
       (∃ p, oe_price order = Some p ∧ raw p = z) ∧ in_units (oe_remaining_amount (p_order plan)) n).
Proof.
  intros Hwf Hrun market maker_buy fs.
  destruct (submit_run _ _ _ _ _ _ Hwf Hrun) as (_ & Hfresh & plan & book' & Hplan & Hc & Hb & Houts & _).
  split; [done |]. fold market in Hplan, Hc, Hb.
  destruct (book_at_wf (core s) market (st_books _ Hwf)) as [Hbwf Hpair].
  pose proof (plan_order_run _ _ _ Hplan) as (Hval & w & Hinv). exists plan, w. split_and!;
    [done | done | done | done |].
  intros id' u m b z n. unfold stands_at. rewrite (book_at_insert s s' market book' Hb). case_decide as Hm; cycle 1.
  { split; [| intros [(? & _) | [(_ & ?) | (? & _)]]; done]. intros Hr. right. left. split; [| done].
    intros ([q [p o]] & Hf & Hid). cbn in Hid. apply (fill_in_book order _ q p o Hbwf) in Hf.
    destruct (resting_stands s market _ p o Hwf Hf) as (n1 & _ & _ & Hr1). rewrite Hid in Hr1.
    destruct (stands_at_unique _ _ _ _ _ _ _ _ _ _ _ _ Hwf Hr1 Hr) as (_ & ? & _). done. }
  subst m. rewrite (commit_stands _ _ _ _ Hplan Hbwf Hpair (Hfresh market) Hc). fold maker_buy fs. naive_solver.
Qed.

Lemma submit_rests order s id outs completion s' :
  state_wf s → journal_apply (CmdSubmit order) s = (Ok (Applied (Some (Submitted id outs completion))), s') →
  let market := pair_of order in
  let maker_buy := String.eqb (oe_order_type order) "sell" in
  let fs := fills (want_of order) (offers order (book_at (core s) market)) in
  id_fresh (core s) (oe_id order) ∧
  ∃ plan w, plan_inv order maker_buy fs w plan ∧ validate order true = Ok tt ∧ map to_trade outs = p_matches plan ∧
    ∀ id m b z n, rests_at s' id m b z n ↔
      (m = market ∧ b = maker_buy ∧ 0 < n ∧
       ∃ q p o, (q, (p, o)) ∈ fs ∧ oe_id o = id ∧ raw p = z ∧ in_units (oe_remaining_amount o) (n + q)) ∨
      (¬ traded fs id ∧ rests_at s id m b z n) ∨
      (m = market ∧ id = oe_id order ∧ b = negb maker_buy ∧ rests (p_order plan) = true ∧
       (∃ p, oe_price order = Some p ∧ raw p = z) ∧ in_units (oe_remaining_amount (p_order plan)) n).
Proof.
  intros Hwf Hrun market maker_buy fs.
  destruct (submit_stands _ _ _ _ _ _ Hwf Hrun) as (Hfresh & plan & w & _ & Hinv & Hval & Houts & Hiff).
  split; [done |]. exists plan, w. split_and!; [done..|]. intros id' m b z n. split.
  - intros [u [(? & ? & ? & q & p & o & ? & ? & _ & ? & ?) | [[? ?] | (Hm & Hid & _ & Hrest)]]%Hiff].
    + left. split_and!; [done..|]. by exists q, p, o.
    + right. left. split; [done | by exists u].
    + right. right. exact (conj Hm (conj Hid Hrest)).
  - intros [(? & ? & ? & q & p & o & ? & ? & ? & ?) | [[? [u ?]] | (Hm & Hid & Hrest)]].
    + exists (oe_user_id o). apply Hiff. left. split_and!; [done..|]. by exists q, p, o.
    + exists u. apply Hiff. right. by left.
    + exists (oe_user_id order). apply Hiff. right. right.
      exact (conj Hm (conj Hid (conj eq_refl Hrest))).
Qed.
End resting.

(** ** Which outcomes a command can have *)

Section shapes.
Context {E : Externals} {L : DecimalLaws ext_decimal}.

Definition shape_ok (command : Command) (outcome : Outcome) : Prop :=
  match outcome, command with
  | Failed _, _ => True
  | DuplicateCancellation _, CmdCancel _ _ _ => True
  | Applied None, CmdCancel _ _ _ => False
  | Applied None, _ => True
  | Applied (Some (Submitted _ _ _ | BatchRejected _ _)), CmdSubmit _ => True
  | Applied (Some (BatchCancelled _)), CmdCancel _ _ _ => True
  | Applied (Some (WithdrawalChanged _ | WithdrawalRejected _ _)), CmdWithdrawal _ => True
  | Applied (Some (DepositCredited _)), CmdCreditDeposit _ => True
  | _, _ => False
  end.

Lemma withdrawal_shape command s r s' :
  withdrawal_apply command s = (r, s') → shape_ok (CmdWithdrawal command) (outcome_of r).
Proof.
  assert (Hex : ∀ s, shape_ok (CmdWithdrawal command) (outcome_of (withdrawal_execute command s).1)).
  { intros s1. unfold withdrawal_execute, mbind, st_bind, attempt, lift, smodify. cbn zeta.
    destruct (with_cache _ s1) as [[[]|e|] s2]; [done | | done]. by destruct (wc_action command). }
  intros Hrun. assert (r = (withdrawal_apply command s).1) as -> by by rewrite Hrun. clear Hrun.
  unfold withdrawal_apply, mbind, st_bind, sget, lift. cbn zeta.
  destruct (withdrawal_format _) as [[]|e|]; [| done..].
  destruct (withdrawal_receipts s !! _) as [receipt|].
  - destruct (ensure _ _); [| done..]. destruct (wr_status receipt), (wc_action command) eqn:Ha; cbn; try done;
    apply Hex.
  - destruct (ensure _ _); [| done..]. apply Hex.
Qed.

Lemma submit_shape order s r s' :
  execute_submit order s = (r, s') → shape_ok (CmdSubmit order) (outcome_of r).
Proof.
  unfold execute_submit, mbind, st_bind, sget. destruct (submissions s !! oe_id order) as [original|].
  - unfold lift. destruct (ensure _ _); by intros [= <- <-].
  - unfold smodify, attempt, lift. destruct (with_core _ _) as [[app|e|] c]; [| by intros [= <- <-]..].
    unfold submitted, mbind, result_bind. destruct (map_results _ _); by intros [= <- <-].
Qed.

Lemma outcome_shape command s outcome s' :
  journal_apply command s = (Ok outcome, s') → shape_ok command outcome.
Proof.
  unfold journal_apply. unfold mbind at 1, st_bind at 1, sget.
  destruct (cancelled_before command s) as [o|] eqn:Hbefore.
  { intros [= <- <-]. destruct command; try done. cbn in Hbefore.
    destruct (cancellations s !! order_id); [| done]. injection Hbefore as <-. by destruct (_ && _)%bool. }
  unfold mbind, st_bind, attempt, lift. destruct (execute command s) as [r s1] eqn:Hrun.
  assert (Hshape : shape_ok command (outcome_of r) ∨ r = Panic).
  { destruct command; cbn [execute] in Hrun.
    - left. by eapply withdrawal_shape.
    - left. rewrite deposit_apply_run, deposit_credit_run in Hrun. repeat case_match; simplify_eq; done.
    - left. by eapply submit_shape.
    - apply st_bind_split in Hrun as [(o & s0 & Hrun & Hret) | [(e & Hrun & ->) | [_ ->]]]; [| by left | by right].
      injection Hret as <- _. by left.
    - left. unfold execute_balance in Hrun.
      apply st_bind_split in Hrun as [(u & s0 & _ & Hrun) | [(e & _ & ->) | [_ ->]]]; [| done..].
      rewrite with_cache_run in Hrun. revert Hrun. unfold mbind, st_bind, sget, lift. cbn zeta.
      destruct (if dec_leb dec_zero delta then _ else _) as [next|e|]; [| by intros [= <- _] ..].
      rewrite set_available_run. by intros [= <- _].
    - left. apply st_bind_split in Hrun as [(u & s0 & _ & Hret) | [(e & _ & ->) | [_ ->]]]; [| done..].
      by injection Hret as <- _.
    - left. apply st_bind_split in Hrun as [(u & s0 & _ & Hret) | [(e & _ & ->) | [_ ->]]]; [| done..].
      by injection Hret as <- _. }
  destruct r as [output|e|]; intros [= <- <-]; by destruct Hshape.
Qed.
End shapes.
