(* ===== verification/Reservations.v ===== *)
(** * Where locked money belongs

    Money is locked for two reasons only: an order that rests in a book, and a withdrawal that was
    reserved. Here the locked part of every account is compared, unit by unit, with what the resting
    orders may still cost and what the reserved withdrawals hold. *)

From stdpp Require Import base tactics gmap list strings.
From Stdlib Require Import ZArith Lia.
From S2P Require Import Prelude Text Decimals Amount BTree RefDecimal Types BalanceCache OrderBook Matcher Submission State Deposit Withdrawal Cancel Journal History Resting.

(** ** What is claimed *)

Section claims.
Context {E : Externals}.

(** The orders of a side and of all books, each level from the oldest to the newest. *)
Definition side_queue (s : OrderBookSide) : list OrderEntry := iter s ≫= snd.
Definition book_queue (b : OrderBook) : list OrderEntry := side_queue (buy_orders b) ++ side_queue (sell_orders b).
Definition resting_orders (s : EngineState) : list OrderEntry := map_to_list (books_of s) ≫= fun e => book_queue e.2.

(** What a resting order claims of an account: the value of the rest of a buy, the rest of a sell. *)
Definition order_claim (k : account) (o : OrderEntry) : Z :=
  if decide (k = (oe_user_id o, refund_mint o)) then
    if String.eqb (oe_order_type o) "buy"
    then unit_count (default dec_zero (oe_price o)) * unit_count (oe_remaining_amount o) * 10 ^ 10
    else unit_count (oe_remaining_amount o) * 10 ^ 19
  else 0.

(** What a withdrawal claims while it is reserved. *)
Definition receipt_claim (k : account) (receipt : WithdrawalReceipt) : Z :=
  match wr_status receipt with
  | Reserved => if decide (k = funds_account (wr_original receipt)) then raw (wf_amount (wr_original receipt)) else 0
  | _ => 0
  end.

Definition orders_claim (s : EngineState) (k : account) : Z := lsum (order_claim k) (resting_orders s).
Definition withdrawals_claim (s : EngineState) (k : account) : Z :=
  msum (fun _ receipt => receipt_claim k receipt) (withdrawal_receipts s).
Definition claimed (s : EngineState) (k : account) : Z := orders_claim s k + withdrawals_claim s k.

(** What the administrative commands lock and unlock by hand. *)
Definition manual_lock (k : account) (command : Command) (outcome : Outcome) : Z :=
  match command, outcome with
  | CmdLock user_id mint amount, Applied _ => if decide (k = (user_id, mint)) then raw amount else 0
  | CmdUnlock user_id mint amount, Applied _ => if decide (k = (user_id, mint)) then - raw amount else 0
  | _, _ => 0
  end.

Fixpoint manual_locks (k : account) (commands : list Command) (outcomes : list Outcome) : Z :=
  match commands, outcomes with
  | command :: commands, outcome :: outcomes => manual_lock k command outcome + manual_locks k commands outcomes
  | _, _ => 0
  end.
End claims.

(** ** The resting orders as a list *)

Section queues.
Context {E : Externals} {L : DecimalLaws ext_decimal}.

Lemma side_queue_elem s o : side_wf s → o ∈ side_queue s ↔ ∃ p, o ∈ level s p.
Proof.
  intros Hwf. unfold side_queue, iter. rewrite list_elem_of_bind. split.
  - intros ([p queue] & Ho & Hin). exists p. unfold level. by rewrite (bt_elem_get _ _ _ (sw_sorted _ Hwf) Hin).
  - intros [p Ho]. unfold level in Ho. destruct (bt_get p (orders s)) as [queue|] eqn:Hq;
    [| by apply elem_of_nil in Ho].
    apply bt_get_elem in Hq as (j & Hj & _). by exists (j, queue).
Qed.

Lemma map_bind {A B C} (f : A → list B) (g : B → C) (l : list A) : map g (l ≫= f) = l ≫= fun a => map g (f a).
Proof. induction l as [|a l IH]; [done |]. cbn. by rewrite map_app, IH. Qed.

Lemma side_queue_nodup s : side_wf s → NoDup (map oe_id (side_queue s)).
Proof.
  intros Hwf. unfold side_queue, iter. rewrite map_bind.
  assert (Hlev : ∀ e, e ∈ orders s → e.2 = level s e.1).
  { intros [p queue] Hin. unfold level. cbn. by rewrite (bt_elem_get _ _ _ (sw_sorted _ Hwf) Hin). }
  assert (Hkeys : ∀ e e', e ∈ orders s → e' ∈ orders s → raw e.1 = raw e'.1 → e = e').
  { intros [p q] [p' q'] H1 H2 Hp. apply (bt_elem_unique (orders s)); [apply Hwf | done..]. }
  apply NoDup_bind.
  - intros e1 e2 id H1 H2 (o1 & -> & Ho1)%list_elem_of_fmap (o2 & Hid & Ho2)%list_elem_of_fmap.
    apply Hkeys; [done | done |]. rewrite Hlev in Ho1, Ho2 by done. by eapply (sw_unique _ Hwf).
  - intros e He. rewrite Hlev by done. apply Hwf.
  - assert (Hs := sw_sorted _ Hwf). clear -Hs. induction Hs as [|e l Hs IH Hall]; [constructor |].
    apply NoDup_cons. split; [| done]. intros Hin. rewrite Forall_forall in Hall. specialize (Hall _ Hin).
    unfold bt_lt in Hall. lia.
Qed.

Lemma resting_orders_elem s o : state_wf s → o ∈ resting_orders s ↔ ∃ m b p, resting s m b p o.
Proof.
  intros Hwf. unfold resting_orders. rewrite list_elem_of_bind. unfold resting, in_book, book_queue.
  assert (Hside : ∀ m book b, books_of s !! m = Some book → side_wf (side_of b book)).
  { intros m book b Hb. apply bw_side. by eapply (st_books _ Hwf). }
  split.
  - intros ([m book] & Ho & Hin). apply elem_of_map_to_list in Hin. cbn [snd] in Ho.
    assert (Hat : book_at (core s) m = book) by (unfold book_at; unfold books_of in Hin; by rewrite Hin).
    apply elem_of_app in Ho as [Ho|Ho].
    + apply side_queue_elem in Ho as [p Ho]; [| by eapply (Hside m book true)]. exists m, true, p. by rewrite Hat.
    + apply side_queue_elem in Ho as [p Ho]; [| by eapply (Hside m book false)]. exists m, false, p. by rewrite Hat.
  - intros (m & b & p & Ho). unfold book_at in Ho. destruct (orderbooks (core s) !! m) as [book|] eqn:Hm.
    + exists (m, book). split; [| by apply elem_of_map_to_list]. cbn in Ho |- *. rewrite elem_of_app.
      pose proof (Hside m book b Hm) as Hs. destruct b; [left | right]; apply side_queue_elem; eauto.
    + destruct b; by apply elem_of_nil in Ho.
Qed.

Lemma resting_orders_nodup s : state_wf s → NoDup (map oe_id (resting_orders s)).
Proof.
  intros Hwf. unfold resting_orders. rewrite map_bind.
  assert (Hin : ∀ m book o, (m, book) ∈ map_to_list (books_of s) → o ∈ book_queue book →
    ∃ b p, in_book book b p o ∧ resting s m b p o).
  { intros m book o Hm Ho. apply elem_of_map_to_list in Hm. destruct (st_books _ Hwf _ _ Hm) as [Hb _].
    unfold resting, book_at. unfold books_of in Hm. rewrite Hm. cbn. unfold id.
    apply elem_of_app in Ho as [Ho|Ho];
      (apply side_queue_elem in Ho as [p Ho]; [| apply (bw_side _ Hb true) || apply (bw_side _ Hb false)]);
      [exists true, p | exists false, p]; done. }
  apply NoDup_bind.
  - intros [m1 b1] [m2 b2] id H1 H2 (o1 & -> & Ho1)%list_elem_of_fmap (o2 & Hid & Ho2)%list_elem_of_fmap.
    destruct (Hin _ _ _ H1 Ho1) as (c1 & p1 & _ & Hr1), (Hin _ _ _ H2 Ho2) as (c2 & p2 & _ & Hr2).
    assert (m1 = m2) as <- by (eapply (st_market _ Hwf m1 c1 p1 o1 m2 c2 p2 o2); done).
    apply elem_of_map_to_list in H1, H2. congruence.
  - intros [m book] Hm. apply elem_of_map_to_list in Hm. destruct (st_books _ Hwf _ _ Hm) as [Hb _].
    cbn [snd]. unfold book_queue. rewrite map_app. apply NoDup_app. split_and!.
    + apply side_queue_nodup, (bw_side _ Hb true).
    + intros id (o & -> & Ho)%list_elem_of_fmap (o' & Hid & Ho')%list_elem_of_fmap.
      apply side_queue_elem in Ho as [p Ho]; [| apply (bw_side _ Hb true)].
      apply side_queue_elem in Ho' as [p' Ho']; [| apply (bw_side _ Hb false)].
      by apply (bw_disjoint _ Hb p p' o o').
    + apply side_queue_nodup, (bw_side _ Hb false).
  - apply NoDup_map_to_list.
Qed.

(** The same orders by their id. *)
Definition resting_map (s : EngineState) : gmap Z OrderEntry :=
  list_to_map (map (fun o => (oe_id o, o)) (resting_orders s)).
Definition claim_of (s : EngineState) (k : account) (id : Z) : Z :=
  mval (fun _ o => order_claim k o) (resting_map s) id.

Lemma resting_map_lookup s id o :
  state_wf s → resting_map s !! id = Some o ↔ oe_id o = id ∧ o ∈ resting_orders s.
Proof.
  intros Hwf. unfold resting_map. rewrite <- elem_of_list_to_map.
  - rewrite list_elem_of_fmap. split; [by intros (o' & [= -> ->] & Ho) | intros [<- Ho]; by exists o].
  - rewrite map_map. cbn [fst]. by apply resting_orders_nodup.
Qed.

Lemma orders_claim_map s k : state_wf s → msum (fun _ o => order_claim k o) (resting_map s) = orders_claim s k.
Proof.
  intros Hwf. apply (msum_lsum _ _ oe_id); [by apply resting_orders_nodup | |].
  - intros o Ho. exists o. split; [| done]. by apply resting_map_lookup.
  - intros id o Ho Hno. apply resting_map_lookup in Ho as [<- Ho]; [| done]. destruct Hno.
    apply list_elem_of_fmap. by exists o.
Qed.

(** When the claim of every order moves by what a list of changes says, the sum moves by their sum. *)
Lemma orders_claim_shift s s' k l :
  state_wf s → state_wf s' → (∀ id, claim_of s' k id = claim_of s k id + change_at id l) →
  orders_claim s' k = orders_claim s k + lsum snd l.
Proof. intros Hwf Hwf' Hid. rewrite <- !orders_claim_map by done. by apply msum_changes. Qed.

(** The claim of [n] units of an order of [u] at the price [z]. *)
Definition claim_at (k : account) (u : Z) (m : TradingPair) (b : bool) (z n : Z) : Z :=
  if decide (k = (u, if b then quote_mint m else base_mint m))
  then (if b then z / 10 ^ 19 * n * 10 ^ 10 else n * 10 ^ 19) else 0.

Lemma claim_at_add k u m b z n1 n2 : claim_at k u m b z (n1 + n2) = claim_at k u m b z n1 + claim_at k u m b z n2.
Proof. unfold claim_at. case_decide; destruct b; lia. Qed.

Lemma order_claim_at s k m b p o n :
  state_wf s → resting s m b p o → in_units (oe_remaining_amount o) n →
  order_claim k o = claim_at k (oe_user_id o) m b (raw p) n.
Proof.
  intros Hwf Ho Hn. destruct (book_at_wf (core s) m (st_books _ Hwf)) as [Hbwf Hpair].
  destruct (bw_resting _ Hbwf b p o Ho) as (_ & _ & Hty & Hbase & Hquote). rewrite Hpair in Hbase, Hquote.
  destruct (sw_price _ (bw_side _ Hbwf b) p o Ho) as (q & Hq & Hqp).
  unfold order_claim, claim_at, refund_mint. rewrite Hty, Hq, Hbase, Hquote, (unit_count_in _ _ Hn).
  unfold unit_count. cbn [default from_option]. unfold id. rewrite Hqp. by destruct b.
Qed.

Lemma claim_of_stands s k id u m b z n :
  state_wf s → stands_at s id u m b z n → claim_of s k id = claim_at k u m b z n.
Proof.
  intros Hwf (p & o & Ho & <- & <- & <- & Hn). unfold claim_of, mval.
  rewrite (proj2 (resting_map_lookup s (oe_id o) o Hwf)).
  - by apply (order_claim_at s).
  - split; [done |]. apply resting_orders_elem; [done |]. by exists m, b, p.
Qed.

Lemma claim_of_none s k id : state_wf s → (∀ u m b z n, ¬ stands_at s id u m b z n) → claim_of s k id = 0.
Proof.
  intros Hwf Hno. unfold claim_of, mval. destruct (resting_map s !! id) as [o|] eqn:Ho; [| done].
  apply resting_map_lookup in Ho as [<- (m & b & p & Hr)%resting_orders_elem]; [| done..].
  destruct (resting_stands s m b p o Hwf Hr) as (n & _ & _ & Hs). by apply Hno in Hs.
Qed.

(** Orders that stand as before claim what they claimed. *)
Lemma claim_of_same s s' k id :
  state_wf s → state_wf s' → (∀ u m b z n, stands_at s' id u m b z n ↔ stands_at s id u m b z n) →
  claim_of s' k id = claim_of s k id.
Proof.
  intros Hwf Hwf' Hiff. destruct (resting_map s !! id) as [o|] eqn:Ho.
  - apply resting_map_lookup in Ho as [<- (m & b & p & Hr)%resting_orders_elem]; [| done..].
    destruct (resting_stands s m b p o Hwf Hr) as (n & _ & _ & Hs).
    rewrite (claim_of_stands _ _ _ _ _ _ _ _ Hwf Hs). by apply claim_of_stands, Hiff.
  - assert (Hno : ∀ u m b z n, ¬ stands_at s id u m b z n).
    { intros u m b z n (p & o & Hr & Hid & _). assert (resting_map s !! id = Some o); [| congruence].
      apply resting_map_lookup; [done |]. split; [done |]. apply resting_orders_elem; [done |]. by exists m, b, p. }
    rewrite !claim_of_none; [done | done | done | done |]. intros u m b z n Hs%Hiff. by apply Hno in Hs.
Qed.
End queues.

(** ** What each command does to the claims *)

Section steps.
Context {E : Externals} {L : DecimalLaws ext_decimal}.

(** Commands that leave the books alone leave the claims of the orders alone. *)
Lemma orders_claim_same s s' k : books_of s' = books_of s → orders_claim s' k = orders_claim s k.
Proof. intros Hb. unfold orders_claim, resting_orders. by rewrite Hb. Qed.

(** The value of an exact quote. *)
Lemma quote_value p q v : quote p q = Ok v → raw v = unit_count p * unit_count q * 10 ^ 10.
Proof.
  intros Hq. destruct (quote_ok _ _ _ Hq) as (a & b & c & Ha & Hb & [Hc _] & Hmul).
  rewrite (unit_count_in _ _ Ha), (unit_count_in _ _ Hb), Hmul, Hc. unfold FACTOR. lia.
Qed.

(** A cancellation takes away one claim, and exactly that much money is unlocked. *)
Lemma cancel_claims order_id user_id market found s s' k :
  state_wf s → state_wf s' → cancel_order order_id user_id market (core s) = (Ok found, core s') →
  locked_of (state_cache s') k - orders_claim s' k = locked_of (state_cache s) k - orders_claim s k.
Proof.
  intros Hwf Hwf' Hrun.
  destruct (cancel_stands _ _ _ _ _ _ Hwf Hrun) as (Hid & Hm & _ & Hiff).
  destruct (cancel_run _ _ _ _ _ _ (st_books _ Hwf) Hrun) as [(e & [=] & _) |
    (book & p0 & b0 & found' & v & b' & book' & Hbook & Hloc & Hu & Hv & Hun & [= <-] & Hc & _)].
  destruct (st_books _ Hwf _ _ Hbook) as [Hbwf Hpair].
  destruct (find_order_some _ _ _ _ (bw_side _ Hbwf b0) (locate_some _ _ _ _ _ Hbwf Hloc)) as (_ & Hin & _).
  assert (Hr : resting s market b0 p0 found) by (unfold resting, book_at; by rewrite Hbook).
  destruct (resting_stands s market b0 p0 found Hwf Hr) as (n & Hn & _ & Hst). rewrite Hid in Hst.
  pose proof (order_claim_at s k market b0 p0 found n Hwf Hr Hn) as Hclaim.
  rewrite (orders_claim_shift s s' k [(order_id, - order_claim k found)] Hwf Hwf'); cycle 1.
  { intros id. rewrite change_at_single. cbn [fst snd]. case_decide as Hd.
    - subst id. rewrite (claim_of_stands s k order_id _ _ _ _ _ Hwf Hst), claim_of_none; [lia | done |].
      intros u m b z n' [[] _]%Hiff. done.
    - rewrite (claim_of_same s s' k id Hwf Hwf'); [lia |]. intros u m b z n'. rewrite Hiff. split;
      [tauto | intros H; split; congruence]. }
  assert (Hl : locked_of (state_cache s') k = locked_of (state_cache s) k - order_claim k found); [| cbn; lia].
  unfold unlock_balance in Hun. destruct (reservation_shift _ _ _ _ _ _ k Hun) as [_ Hlock].
  assert (Hcache : state_cache s' = b') by (unfold state_cache, cache; by rewrite Hc). rewrite Hcache, Hlock.
  fold (state_cache s). destruct (bw_resting _ Hbwf b0 p0 found Hin) as (_ & _ & Hty & _).
  unfold order_claim, refund_mint. rewrite Hu, Hty.
  destruct (sw_price _ (bw_side _ Hbwf b0) p0 found Hin) as (q & Hq & Hqp). rewrite Hq. cbn [default from_option].
    unfold id.
  assert (Huc : unit_count q = unit_count p0) by (unfold unit_count; by rewrite Hqp).
  destruct b0; cbn [String.eqb Ascii.eqb Bool.eqb] in *; case_decide as Hk; try lia.
  - apply quote_value in Hv. rewrite Huc. lia.
  - injection Hv as <-. destruct Hn as [Hn Hn']. rewrite (unit_count_in _ n) by done. lia.
Qed.

(** The claim a fill takes from its maker. *)
Definition taken (k : account) (order : OrderEntry) (f : fill) : Z :=
  claim_at k (oe_user_id f.2.2) (pair_of order) (String.eqb (oe_order_type order) "sell") (raw f.2.1) f.1.

(** What the trades of a plan take from the reservations: from every maker what it claimed for the
    traded quantity, and from the incoming order what it uses. *)
Lemma spent_claims order ms fs k :
  let maker_buy := String.eqb (oe_order_type order) "sell" in
  Forall2 (trade_of order maker_buy) ms fs → Forall (maker_checked order maker_buy) fs →
  (oe_order_type order = "buy"%string ∨ oe_order_type order = "sell"%string) →
  lsum (spent_by k) ms * 10 ^ 19 = lsum (taken k order) fs +
    (if decide (k = (oe_user_id order, refund_mint order))
     then (if String.eqb (oe_order_type order) "buy" then fills_quote fs else fills_amount fs) * 10 ^ 19 else 0).
Proof.
  intros maker_buy Hms Hch Hty. unfold fills_quote, fills_amount.
  induction Hms as [|m [q [p o]] ms fs Ht _ IH].
  { cbn. case_decide; [| done]. by destruct (String.eqb (oe_order_type order) "buy"). }
  apply Forall_cons in Hch as [Hc Hch]. specialize (IH Hch). rewrite !lsum_cons.
  destruct Ht as (Ha & Hp & _ & _ & _ & _ & Hb & Hs & Hbm & Hqm).
  destruct Hc as (_ & _ & _ & _ & _ & _ & _ & Hu & (pu & Hpu & [c Hdiv]) & _). cbn [fst snd] in *.
  assert (Hval : unit_count p * q / FACTOR * 10 ^ 19 = raw p / 10 ^ 19 * q * 10 ^ 10).
  { fold (unit_count p). rewrite (unit_count_in _ _ Hpu), Hdiv, Z.div_mul by done. unfold FACTOR in *. lia. }
  unfold taken at 1. unfold spent_by at 1, trade_value, fill_value at 1. cbn [fst snd].
  rewrite Hp, (unit_count_in _ _ Ha), Hb, Hs, Hbm, Hqm. unfold claim_at, pair_of, refund_mint in *.
    cbn [base_mint quote_mint pair_new].
  rewrite Z.mul_add_distr_r, IH. unfold maker_buy in *.
  destruct Hty as [Hty|Hty]; rewrite Hty in *; cbn [String.eqb Ascii.eqb Bool.eqb] in *;
    repeat case_decide; simplify_eq; lia.
Qed.

(** What is left of an incoming order claims what stays reserved for it. *)
Lemma rest_claim order plan fs w remaining k :
  validate order true = Ok tt → order_after order fs w (p_order plan) →
  remaining_for order (p_order plan) = Ok remaining →
  (if decide (k = (oe_user_id order, refund_mint order)) then raw remaining else 0) =
  if rests (p_order plan)
  then claim_at k (oe_user_id order) (pair_of order) (negb (String.eqb (oe_order_type order) "sell"))
         (raw (default dec_zero (oe_price order))) (unit_count (oe_remaining_amount (p_order plan)))
  else 0.
Proof.
  intros Hval Hafter Hrem. pose proof (order_after_same _ _ _ _ Hafter) as (_ & _ & _ & Hside & _).
  apply validate_run in Hval as ((_ & _ & Hty & Hs & _) & _ & _ & Hkind).
  unfold remaining_for in Hrem. unfold rests. rewrite Hside.
  destruct (String.eqb_spec (oe_order_side order) "market") as [Hm|Hm].
  { injection Hrem as <-. rewrite Hm, zero_raw. cbn. by case_decide. }
  assert (Hlim : oe_order_side order = "limit"%string) by by destruct Hs.
  rewrite Hlim. cbn [String.eqb Ascii.eqb Bool.eqb andb]. rewrite dec_ltb_raw, zero_raw.
  assert (Hleft : ∃ r, in_units (oe_remaining_amount (p_order plan)) r).
  { destruct Hkind as [(? & _) | (_ & _ & Hrq & _)]; [congruence |].
    destruct Hafter as (a & r & f & rq & -> & _ & H). rewrite Hrq in H. destruct H as (_ & _ & r0 & _ & Hr & _).
      by eexists. }
  destruct Hleft as [r Hr]. rewrite (unit_count_in _ _ Hr).
  assert (Hraw : raw remaining = if String.eqb (oe_order_type order) "buy"
    then raw (default dec_zero (oe_price order)) / 10 ^ 19 * r * 10 ^ 10 else r * 10 ^ 19).
  { destruct (String.eqb (oe_order_type order) "buy").
    - inv_ok. destruct (oe_price order) as [price|]; [| done]. cbn [expect] in *. simplify_eq.
      cbn [default from_option].
      match goal with H : quote _ _ = Ok _ |- _ => apply quote_value in H as -> end. by rewrite (unit_count_in _ _ Hr).
    - injection Hrem as <-. by destruct Hr. }
  destruct Hr as [Hr Hr0]. rewrite Hr. destruct (Z.ltb_spec 0 (r * 10 ^ 19)).
  - unfold claim_at, refund_mint, pair_of. cbn [base_mint quote_mint pair_new].
    destruct Hty as [Ht|Ht]; rewrite Ht in *; cbn [String.eqb Ascii.eqb Bool.eqb negb] in *; case_decide; lia.
  - assert (r = 0) as -> by lia. rewrite Hraw. case_decide; [| done].
    destruct (String.eqb (oe_order_type order) "buy"); lia.
Qed.

Lemma lsum_map {A B} (f : B → Z) (g : A → B) (l : list A) : lsum f (map g l) = lsum (fun a => f (g a)) l.
Proof. induction l as [|a l IH]; [done |]. cbn [map]. by rewrite !lsum_cons, IH. Qed.

Lemma lsum_opp {A} (f : A → Z) (l : list A) : lsum (fun a => - f a) l = - lsum f l.
Proof. induction l as [|a l IH]; [done |]. rewrite !lsum_cons, IH. lia. Qed.

(** One submission that went through: what its plan says of the states before and after it. *)
Section one_submission.
Variables (order : OrderEntry) (s s' : EngineState) (plan : MatchPlan) (w : want) (k : account).
Let market := pair_of order.
Let maker_buy := String.eqb (oe_order_type order) "sell".
Let fs := fills (want_of order) (offers order (book_at (core s) market)).
Hypothesis Hwf : state_wf s.
Hypothesis Hwf' : state_wf s'.
Hypothesis Hfresh : id_fresh (core s) (oe_id order).
Hypothesis Hinv : plan_inv order maker_buy fs w plan.
Hypothesis Hval : validate order true = Ok tt.
Hypothesis Hiff : ∀ id u m b z n, stands_at s' id u m b z n ↔
  (m = market ∧ b = maker_buy ∧ 0 < n ∧
   ∃ q p o, (q, (p, o)) ∈ fs ∧ oe_id o = id ∧ oe_user_id o = u ∧ raw p = z ∧ in_units (oe_remaining_amount o) (n + q)) ∨
  (¬ traded fs id ∧ stands_at s id u m b z n) ∨
  (m = market ∧ id = oe_id order ∧ u = oe_user_id order ∧ b = negb maker_buy ∧ rests (p_order plan) = true ∧
   (∃ p, oe_price order = Some p ∧ raw p = z) ∧ in_units (oe_remaining_amount (p_order plan)) n).

(** What the rest of the order claims. *)
Definition own_claim : Z :=
  if rests (p_order plan)
  then claim_at k (oe_user_id order) market (negb maker_buy) (raw (default dec_zero (oe_price order)))
         (unit_count (oe_remaining_amount (p_order plan)))
  else 0.

Lemma fill_resting q p o : (q, (p, o)) ∈ fs → resting s market maker_buy p o.
Proof. destruct (book_at_wf (core s) market (st_books _ Hwf)) as [Hbwf _]. by apply fill_in_book. Qed.
Lemma own_not_traded : ¬ traded fs (oe_id order).
Proof. intros ([q [p o]] & Hf & Hid). by apply (Hfresh market _ p o (fill_resting _ _ _ Hf)). Qed.
Lemma own_not_resting u m b z n : ¬ stands_at s (oe_id order) u m b z n.
Proof. intros (p & o & Ho & Hid & _). by apply (Hfresh m b p o). Qed.

(** The order itself claims what is left of it. *)
Lemma own_claim_of : claim_of s' k (oe_id order) = own_claim.
Proof.
  unfold own_claim. destruct (rests (p_order plan)) eqn:Hr.
  - destruct (plan_order_resting order fs w (p_order plan) market Hval (pi_order _ _ _ _ _ Hinv) Hr eq_refl)
    as [Hres [price Hprice]].
    pose proof (order_after_same _ _ _ _ (pi_order _ _ _ _ _ Hinv)) as (_ & _ & _ & _ & _ & _ & Hsame & _).
    rewrite Hsame in Hprice. rewrite Hprice. cbn [default from_option]. destruct Hres as (Hval' & Hlim & _).
    apply validate_run in Hval' as (_ & _ & _ & [(? & _) | (_ & _ & _ & (f & r & _ & Hr' & _) & _)]); [congruence |].
    rewrite (unit_count_in _ _ Hr'). apply claim_of_stands; [done |]. apply Hiff. right. right. split_and!; eauto.
  - apply claim_of_none; [done |].
    intros u m b z n [(_ & _ & _ & q & p & o & Hf & Hid & _) | [(_ & Ho) | (_ & _ & _ & _ & ? & _)]]%Hiff.
    + apply own_not_traded. by exists (q, (p, o)).
    + by apply own_not_resting in Ho.
    + done.
Qed.

(** A maker claims less, by what was traded. *)
Lemma maker_claim_of q p o : (q, (p, o)) ∈ fs → claim_of s' k (oe_id o) = claim_of s k (oe_id o) - taken k order (q, (p, o)).
Proof.
  intros Hf. destruct (book_at_wf (core s) market (st_books _ Hwf)) as [Hbwf _].
  pose proof (fills_ids_nodup _ _ _ _ Hbwf Hinv) as Hnd. fold fs in Hnd.
  destruct (resting_stands s market maker_buy p o Hwf (fill_resting _ _ _ Hf)) as (n0 & Hn0 & _ & Hst).
  rewrite (claim_of_stands s k _ _ _ _ _ _ Hwf Hst).
  pose proof (pi_checked _ _ _ _ _ Hinv) as Hch. rewrite Forall_forall in Hch.
  destruct (Hch _ Hf) as (_ & _ & _ & _ & _ & _ & _ & _ & _ & r & Hr & Hq). cbn [fst snd] in *.
  rewrite (in_units_inj _ _ _ Hr Hn0) in Hq. unfold taken. cbn [fst snd]. fold market maker_buy.
  pose proof (claim_at_add k (oe_user_id o) market maker_buy (raw p) (n0 - q) q) as Hadd.
  replace (n0 - q + q) with n0 in Hadd by lia. destruct (decide (q < n0)) as [Hlt|Hge].
  - rewrite (claim_of_stands s' k (oe_id o) (oe_user_id o) market maker_buy (raw p) (n0 - q)); [lia | done |].
    apply Hiff. left. split_and!; [done | done | lia |]. exists q, p, o. split_and!; try done.
      by replace (n0 - q + q) with n0 by lia.
  - assert (n0 = q) as -> by lia. rewrite claim_of_none; [lia | done |].
    intros u m b z n [(_ & _ & Hn & q' & p' & o' & Hf' & Hid' & _ & _ & Hn') | [(Hno & _) | (_ & Heq & _)]]%Hiff.
    + pose proof (fill_once fs _ _ Hnd Hf' Hf Hid') as [= -> -> ->]. pose proof (in_units_inj _ _ _ Hn' Hn0). lia.
    + apply Hno. by exists (q, (p, o)).
    + apply own_not_traded. rewrite <- Heq. by exists (q, (p, o)).
Qed.

(** Every other order claims what it did. *)
Lemma other_claim_of id : id ≠ oe_id order → ¬ traded fs id → claim_of s' k id = claim_of s k id.
Proof.
  intros Hne Hnt. apply claim_of_same; [done | done |]. intros u m b z n. rewrite Hiff. split.
  - intros [(_ & _ & _ & q & p & o & Hf & Hid & _) | [(_ & ?) | (_ & Heq & _)]]; [| done | congruence].
    destruct Hnt. by exists (q, (p, o)).
  - intros Hs. right. by left.
Qed.

Lemma orders_claim_submitted : orders_claim s' k = orders_claim s k - lsum (taken k order) fs + own_claim.
Proof.
  set (taken_list := map (fun f : fill => (oe_id f.2.2, - taken k order f)) fs).
  assert (Hkeys : map fst taken_list = map (fun f : fill => oe_id f.2.2) fs) by (unfold taken_list; by rewrite map_map).
  rewrite (orders_claim_shift s s' k (taken_list ++ [(oe_id order, own_claim)]) Hwf Hwf').
  - rewrite lsum_app. unfold taken_list. rewrite lsum_map. cbn [snd]. rewrite lsum_opp, lsum_cons.
    change (lsum snd []) with 0. cbn [snd]. lia.
  - intros j. rewrite change_at_app, change_at_single. cbn [fst snd].
    assert (Habsent : ¬ traded fs j → change_at j taken_list = 0).
    { intros Hnt. apply change_at_absent. rewrite Hkeys. intros (f & -> & Hf)%list_elem_of_fmap. apply Hnt.
      by exists f. }
    destruct (decide (oe_id order = j)) as [<-|Hne].
    + rewrite Habsent, own_claim_of, (claim_of_none s); [lia | done | apply own_not_resting | apply own_not_traded].
    + destruct (classic_traded fs j) as [([q [p o]] & Hf & Hid)|Hnt];
      [| rewrite Habsent, other_claim_of by congruence; lia].
      cbn in Hid. subst j. rewrite (maker_claim_of q p o Hf), (change_at_unique (oe_id o) (- taken k order (q, (p,
        o))) taken_list); [lia | |].
      * rewrite Hkeys. destruct (book_at_wf (core s) market (st_books _ Hwf)) as [Hbwf _].
        exact (fills_ids_nodup _ _ _ _ Hbwf Hinv).
      * apply list_elem_of_fmap. by exists (q, (p, o)).
Qed.
End one_submission.

(** A submission takes from the claims of the makers what was traded and adds the claim of its rest. *)
Lemma submit_claims order s id outs completion s' k :
  state_wf s → state_wf s' →
  journal_apply (CmdSubmit order) s = (Ok (Applied (Some (Submitted id outs completion))), s') →
  locked_of (state_cache s') k - orders_claim s' k = locked_of (state_cache s) k - orders_claim s k.
Proof.
  intros Hwf Hwf' Hrun.
  destruct (submit_run _ _ _ _ _ _ Hwf Hrun)
    as (_ & _ & plan & _ & Hplan & _ & _ & _ & reserved & refund & remaining & left & Hin & Hrem & H1 & H2).
  destruct (submit_stands _ _ _ _ _ _ Hwf Hrun) as (Hfresh & plan' & w & Hplan' & Hinv & Hval & _ & Hiff).
  rewrite Hplan in Hplan'. injection Hplan' as <-.
  rewrite (orders_claim_submitted order s s' plan w k Hwf Hwf' Hfresh Hinv Hval Hiff).
  pose proof (validate_run _ _ Hval) as ((_ & _ & Hty & _) & _). destruct (refund_raw _ _ _ _ _ H1 H2)
    as (Href & Hpos & _).
  destruct (in_place_money _ _ _ _ _ _ Hin Hpos) as (Hk & _ & _). destruct (Hk k) as [_ ->]. cbn zeta.
  rewrite (spent_claims order _ _ k (pi_matches _ _ _ _ _ Hinv) (pi_checked _ _ _ _ _ Hinv) Hty).
  unfold own_claim. rewrite <- (rest_claim order plan _ w remaining k Hval (pi_order _ _ _ _ _ Hinv) Hrem).
  destruct (pi_quote _ _ _ _ _ Hinv) as [Hq _], (pi_amount _ _ _ _ _ Hinv) as [Ha _].
  case_decide; [| lia]. destruct (String.eqb _ "buy"); rewrite ?Hq, ?Ha in Href; lia.
Qed.

(** A withdrawal moves the claims of the withdrawals exactly as it moves the locked money. *)
Lemma withdrawal_claims command s r s' k :
  withdrawal_apply command s = (r, s') →
  locked_of (state_cache s') k - withdrawals_claim s' k = locked_of (state_cache s) k - withdrawals_claim s k ∧
  books_of s' = books_of s.
Proof.
  intros Hrun. split; cycle 1.
  { pose proof (keeps_withdrawal command s) as Hk. by rewrite Hrun in Hk. }
  destruct (withdrawal_cases _ _ _ _ Hrun) as [[-> _] | [Hex Hcase]]; [done |].
  unfold withdrawals_claim.
  apply execute_result_money in Hex as [(_ & Hmove & Hw & _) | [(reason & _ & Ha & ->) | (reason & _ & _ & ->)]];
    [| | done].
  - apply withdrawal_move_money in Hmove as (Hk & _ & _). destruct (Hk k) as [_ ->]. cbn zeta.
    rewrite Hw, msum_insert_val.
    unfold mval. destruct (withdrawal_receipts s !! _) as [receipt|]; cbn [from_option].
    + destruct Hcase as (Hst & Hact & Hf). apply funds_eqb_spec in Hf as (_ & Hu & Ham & Hraw).
      unfold receipt_claim. rewrite Hst. cbn [wr_status wr_original]. unfold funds_account. rewrite Hu, Ham, Hraw.
      destruct (wc_action command); cbn [status_after move_locked]; [done | case_decide; lia..].
    + rewrite Hcase. unfold receipt_claim. cbn [status_after move_locked wr_status wr_original]. case_decide; lia.
  - rewrite Ha in Hcase. cbn [withdrawal_receipts set_withdrawal_receipt]. rewrite msum_insert_val. unfold mval.
    destruct (withdrawal_receipts s !! _) as [receipt|]; [by destruct Hcase as (_ & [] & _) |].
    cbn. unfold state_cache. cbn. lia.
Qed.

Lemma keeps_receipts_core {A} (m : st Core A) : keeps withdrawal_receipts (with_core m).
Proof. intros s. unfold with_core, zoom. by destruct (m _). Qed.
Lemma keeps_receipts_attempt {A} (m : st EngineState A) : keeps withdrawal_receipts m → keeps withdrawal_receipts (attempt m).
Proof. intros Hm s. specialize (Hm s). unfold attempt. by destruct (m s) as [[]]. Qed.

(** Only withdrawals write the receipts of withdrawals. *)
Lemma keeps_receipts command :
  (∀ c, command ≠ CmdWithdrawal c) → keeps withdrawal_receipts (execute command).
Proof.
  intros Hno. destruct command; cbn [execute]; try (by destruct (Hno command));
    unfold deposit_apply, execute_submit, execute_balance, with_cache, process_submit_order;
    repeat lazymatch goal with
    | |- keeps _ (mbind _ _) => apply keeps_bind; [| intros ?]
    | |- keeps _ (mret _) => apply keeps_ret
    | |- keeps _ (lift _) => apply keeps_lift
    | |- keeps _ sget => apply keeps_get
    | |- keeps _ (smodify _) => apply keeps_modify; intros ?; reflexivity
    | |- keeps _ (attempt _) => apply keeps_receipts_attempt
    | |- keeps _ (with_core _) => apply keeps_receipts_core
    | |- keeps _ (match _ with _ => _ end) => case_match
    end.
Qed.

Lemma withdrawals_claim_same s s' k :
  withdrawal_receipts s' = withdrawal_receipts s → withdrawals_claim s' k = withdrawals_claim s k.
Proof. intros Hw. unfold withdrawals_claim. by rewrite Hw. Qed.

(** Commands on the accounts other than by hand leave the locked parts alone. *)
Lemma deposit_locked credit s r s' k :
  r ≠ Panic → deposit_apply credit s = (r, s') → locked_of (state_cache s') k = locked_of (state_cache s) k.
Proof.
  intros Hp Hrun. destruct r as [[batch|]|e|]; [by apply deposit_effect in Hrun as (_ & _ & _ & _ & Hk & _);
    destruct (Hk k) | | | done];
    rewrite deposit_apply_run, deposit_credit_run in Hrun; repeat case_match; simplify_eq; try done.
Qed.

Lemma balance_locked user mint delta s r s' k :
  execute_balance user mint delta s = (r, s') → locked_of (state_cache s') k = locked_of (state_cache s) k.
Proof.
  unfold execute_balance. intros Hrun.
  apply st_bind_split in Hrun as [(u & s0 & [_ ->]%lift_run & Hrun) | [(e & [_ ->]%lift_run & _)
    | [[_ ->]%lift_run _]]]; [| done..].
  rewrite with_cache_run in Hrun. revert Hrun. unfold mbind, st_bind, sget, lift. cbn zeta.
  destruct (if dec_leb dec_zero delta then _ else _) as [next|e|]; [| by intros [= _ <-];
    destruct s as [? ? ? ? [? [?]]]..].
  rewrite set_available_run. intros [= _ <-]. change (state_cache (set_state_cache ?c s)) with c.
  destruct (set_balance_money user mint next (locked (default balance_new (balances (state_cache s) !! (user,
    mint)))) (state_cache s)) as [Hk _].
  destruct (Hk k) as [_ ->]. case_decide; [| done]. subst k. by rewrite locked_of_default.
Qed.

Lemma reservation_locked user mint amount (lock : bool) msg s r s' k :
  (_ ← with_core (with_executor (scontext (balance_cache_mut (change_reservation user mint amount lock)) msg));
   mret (M := st EngineState) (None : option OutputBatch)) s = (r, s') → r ≠ Panic →
  locked_of (state_cache s') k = locked_of (state_cache s) k +
    (if is_ok r then if decide (k = (user, mint)) then (if lock then raw amount else - raw amount) else 0 else 0) ∧
  books_of s' = books_of s.
Proof.
  unfold with_core, with_executor, balance_cache_mut, scontext, mbind, st_bind, zoom.
  fold (cache (core s)). fold (state_cache s).
  pose proof (change_reservation_atomic user mint amount lock (state_cache s)) as Hat.
  destruct (change_reservation user mint amount lock (state_cache s)) as [[[]|e|] c] eqn:Hrun; cbn;
    intros [= <- <-] Hp; [| | done].
  - split; [| done]. transitivity (locked_of c k); [done |]. destruct (reservation_shift _ _ _ _ _ _ k Hrun)
    as [_ ->]. done.
  - rewrite (Hat _ _ eq_refl eq_refl). split; [| done]. transitivity (locked_of (state_cache s) k); [done | cbn; lia].
Qed.

(** Every command moves the locked money of an account by what it moves the claims on it, and by what
    it locks or unlocks by hand. *)
Lemma claims_step command s outcome s' k :
  state_wf s → journal_apply command s = (Ok outcome, s') →
  locked_of (state_cache s') k - claimed s' k =
  locked_of (state_cache s) k - claimed s k + manual_lock k command outcome.
Proof.
  intros Hwf Hrun. unfold claimed.
  destruct (journal_step_ok command s Hwf) as (outcome' & s1 & Hrun' & Hok).
  rewrite Hrun in Hrun'. injection Hrun' as <- <-. pose proof (so_wf _ _ _ _ Hok) as Hwf'.
  destruct (journal_cases _ _ _ _ Hrun) as [[-> Hbefore] | (r & Hex & Hp & Hout)].
  { destruct command; try done. cbn. lia. }
  assert (Hrec : (∀ c, command ≠ CmdWithdrawal c) → withdrawals_claim s' k = withdrawals_claim s k).
  { intros Hno. apply withdrawals_claim_same. pose proof (keeps_receipts command Hno s) as Hk. by rewrite Hex in Hk. }
  assert (Hbooks : book_event outcome = false → orders_claim s' k = orders_claim s k).
  { intros Hev. apply orders_claim_same. by eapply other_outcomes. }
  destruct command as [command|credit|order|order_id user_id market|user_id mint delta|user_id mint amount|user_id
    mint amount];
    cbn [execute] in Hex; cbn [manual_lock]; pose proof (outcome_shape _ _ _ _ Hrun) as Hshape.
  - destruct (withdrawal_claims _ _ _ _ k Hex) as [Hl Hb]. rewrite (orders_claim_same _ _ k Hb). lia.
  - rewrite (deposit_locked _ _ _ _ k Hp Hex), Hrec, Hbooks by (done || (subst outcome;
    rewrite deposit_apply_run, deposit_credit_run in Hex; repeat case_match; by simplify_eq)). lia.
  - rewrite Hrec by done. destruct (book_event outcome) eqn:Hev.
    + destruct outcome as [[[]|]|e|o]; try done. pose proof (submit_claims _ _ _ _ _ _ k Hwf Hwf' Hrun). lia.
    + rewrite Hbooks by done. assert (Hcore : core s' = core s); [| unfold state_cache; rewrite Hcore; lia].
      destruct outcome as [[[]|]|e|o]; try done;
        [by apply (so_refused _ _ _ _ Hok) | | by apply (so_refused _ _ _ _ Hok)].
      unfold execute_submit, mbind, st_bind, sget in Hex. destruct (submissions s !! _).
      * unfold lift in Hex. destruct (ensure _ _); by injection Hex as <- <-.
      * unfold smodify, attempt, lift in Hex. destruct (with_core _ _) as [[app|e|] c]; [| by injection Hex as <- <-..].
        unfold submitted, mbind, result_bind in Hex. destruct (map_results _ _); by injection Hex as <- <-.
  - rewrite Hrec by done. destruct (book_event outcome) eqn:Hev.
    + destruct outcome as [[[]|]|e|o]; try done.
      pose proof (cancel_claims _ _ _ _ _ _ k Hwf Hwf' (cancelled_run _ _ _ _ _ _ Hrun)). lia.
    + rewrite Hbooks by done. assert (Hcore : core s' = core s); [| unfold state_cache; rewrite Hcore; lia].
      destruct outcome as [[[]|]|e|o]; try done; [by apply (so_refused _ _ _ _ Hok) | by destruct r].
  - rewrite (balance_locked _ _ _ _ _ _ k Hex), Hrec, Hbooks; [lia | | done]. by destruct outcome as [[[]|]|e|o].
  - destruct (reservation_locked user_id mint amount true _ _ _ _ k Hex Hp) as [Hl Hb].
    rewrite Hl, Hrec, (orders_claim_same _ _ k Hb) by done.
    subst outcome. destruct r; cbn; [| | done]; lia.
  - destruct (reservation_locked user_id mint amount false _ _ _ _ k Hex Hp) as [Hl Hb].
    rewrite Hl, Hrec, (orders_claim_same _ _ k Hb) by done.
    subst outcome. destruct r; cbn; [| | done]; lia.
Qed.
End steps.

(** ** What holds on every reachable state *)

Section accounted.
Context {E : Externals} {L : DecimalLaws ext_decimal}.

(** The claims are covered by locked money, the value of every resting buy is exact, and every
    receipt of a withdrawal is in order. *)
Record accounted (s : EngineState) : Prop := {
  ac_wf : state_wf s;
  ac_covered : ∀ k, claimed s k ≤ locked_of (state_cache s) k;
  ac_exact : ∀ id u m z n, stands_at s id u m true z n → (FACTOR | z / 10 ^ 19 * n);
  ac_receipts : ∀ id r, withdrawal_receipts s !! id = Some r →
    withdrawal_format (wr_original r) = Ok tt ∧ wf_withdrawal_id (wr_original r) = id;
}.

Definition is_unlock (command : Command) : bool := match command with CmdUnlock _ _ _ => true | _ => false end.

Lemma lsum_elem {A} (f : A → Z) (l : list A) a : (∀ b, b ∈ l → 0 ≤ f b) → a ∈ l → f a ≤ lsum f l.
Proof.
  induction l as [|b l IH]; intros Hf Ha; [by apply elem_of_nil in Ha |]. rewrite lsum_cons.
  assert (Hl : ∀ c, c ∈ l → 0 ≤ f c) by (intros c Hc; apply Hf; by right).
  pose proof (lsum_nonneg f l Hl). assert (0 ≤ f b) by (apply Hf; left).
  apply elem_of_cons in Ha as [->|Ha]; [lia |]. specialize (IH Hl Ha). lia.
Qed.

Lemma claim_at_nonneg k u m b z n : 0 ≤ z → 0 ≤ n → 0 ≤ claim_at k u m b z n.
Proof. intros Hz Hn. unfold claim_at. case_decide; [| done]. pose proof (Z.div_pos z (10 ^ 19) Hz). destruct b;
  nia. Qed.

Lemma resting_price_pos s market buy p o : state_wf s → resting s market buy p o → 0 < raw p.
Proof.
  intros Hwf Ho. destruct (book_at_wf (core s) market (st_books _ Hwf)) as [Hbwf _].
  by destruct (resting_terms _ _ _ _ Hbwf Ho) as [? _].
Qed.

Lemma order_claim_nonneg s k o : state_wf s → o ∈ resting_orders s → 0 ≤ order_claim k o.
Proof.
  intros Hwf (m & b & p & Ho)%resting_orders_elem; [| done].
  destruct (resting_stands s m b p o Hwf Ho) as (n & Hn & Hpos & _).
  rewrite (order_claim_at s k m b p o n Hwf Ho Hn). pose proof (resting_price_pos _ _ _ _ _ Hwf Ho).
  apply claim_at_nonneg; lia.
Qed.

Lemma receipt_claim_nonneg k r : withdrawal_format (wr_original r) = Ok tt → 0 ≤ receipt_claim k r.
Proof.
  unfold withdrawal_format, receipt_claim. intros H. inv_ok. rewrite dec_ltb_raw, zero_raw in *. inv_ok.
  destruct (wr_status r); try done. case_decide; lia.
Qed.

(** One claim is covered. *)
Lemma order_covered s k o : accounted s → o ∈ resting_orders s → order_claim k o ≤ locked_of (state_cache s) k.
Proof.
  intros Hac Ho. pose proof (ac_wf _ Hac) as Hwf. etrans; [| apply (ac_covered _ Hac)].
    unfold claimed, orders_claim, withdrawals_claim.
  pose proof (lsum_elem (order_claim k) _ o (fun b Hb => order_claim_nonneg s k b Hwf Hb) Ho).
  assert (0 ≤ msum (fun _ r => receipt_claim k r) (withdrawal_receipts s)); [| lia].
  apply msum_nonneg. intros id r Hr. by apply receipt_claim_nonneg, (ac_receipts _ Hac id).
Qed.

Lemma receipt_covered s k id r :
  accounted s → withdrawal_receipts s !! id = Some r → receipt_claim k r ≤ locked_of (state_cache s) k.
Proof.
  intros Hac Hr. pose proof (ac_wf _ Hac) as Hwf. etrans; [| apply (ac_covered _ Hac)].
    unfold claimed, orders_claim, withdrawals_claim.
  assert (0 ≤ lsum (order_claim k) (resting_orders s)).
  { apply lsum_nonneg. intros o Ho. by eapply order_claim_nonneg. }
  rewrite (msum_delete _ _ _ _ Hr).
  assert (0 ≤ msum (fun _ r => receipt_claim k r) (delete id (withdrawal_receipts s))); [| lia].
  apply msum_nonneg. intros j r' [_ Hr']%lookup_delete_Some. by apply receipt_claim_nonneg, (ac_receipts _ Hac j).
Qed.

Lemma accounted_initial c : cache_wf c → accounted (set_state_cache c state_new).
Proof.
  intros Hc. split; [by apply state_wf_initial | | |].
  - intros k. change (orders_claim (set_state_cache c state_new) k + 0 ≤ locked_of c k).
    assert (orders_claim (set_state_cache c state_new) k = 0) as -> by by vm_compute.
    destruct (cache_wf_nonneg c k Hc). lia.
  - intros id u m z n (p & o & Ho & _). by apply initial_no_orders in Ho.
  - intros id r Hr. cbn in Hr. by apply lookup_empty_Some in Hr.
Qed.

(** What was locked by hand was something. *)
Lemma manual_lock_nonneg command s outcome s' k :
  journal_apply command s = (Ok outcome, s') → is_unlock command = false → 0 ≤ manual_lock k command outcome.
Proof.
  intros Hrun Hno. destruct command as [| | | | |user_id mint amount|]; try done. cbn [manual_lock].
  destruct outcome; try done. case_decide; [| done].
  destruct (journal_cases _ _ _ _ Hrun) as [[_ ?] | (r & Hex & Hp & Hout)]; [done |].
  destruct r as [o| |]; try done. cbn [execute] in Hex. apply st_bind_ok in Hex as (u & s1 & Hex & _).
  unfold with_core, with_executor, lock_balance_for_order, scontext, balance_cache_mut, zoom in Hex.
  destruct (lock_balance user_id mint amount _) as [[[]|e|] c] eqn:Hl; cbn in Hex; try done.
  apply change_reservation_run in Hl as (b & b' & x & _ & _ & Hx & Hpos & _). destruct Hx. lia.
Qed.
End accounted.

Section accounted_steps.
Context {E : Externals} {L : DecimalLaws ext_decimal}.

(** The values of resting buys stay exact. *)
Lemma exact_step command s outcome s' :
  accounted s → journal_apply command s = (Ok outcome, s') →
  ∀ id u m z n, stands_at s' id u m true z n → (FACTOR | z / 10 ^ 19 * n).
Proof.
  intros Hac Hrun id u m z n Hs. pose proof (ac_wf _ Hac) as Hwf. destruct (book_event outcome) eqn:Hev; cycle 1.
  { apply (ac_exact _ Hac id u m). unfold stands_at, book_at in *.
    pose proof (other_outcomes _ _ _ _ Hwf Hrun Hev) as Hb.
    unfold books_of in Hb. by rewrite <- Hb. }
  pose proof (outcome_shape _ _ _ _ Hrun) as Hshape.
  destruct outcome as [[[c|funds reason|credit|oid outs completion|found|order reason]|]|reason|order]; try done.
  - destruct command as [| |order| | | |]; try done.
    destruct (submit_run _ _ _ _ _ _ Hwf Hrun)
      as (_ & _ & plan & _ & Hplan & _ & _ & _ & reserved & refund & remaining & left & _ & Hrem & _).
    destruct (submit_stands _ _ _ _ _ _ Hwf Hrun) as (_ & plan' & w & Hplan' & Hinv & Hval & _ & Hiff).
    rewrite Hplan in Hplan'. injection Hplan' as <-.
    apply Hiff in Hs as [(-> & Hmb & Hn & q & p & o & Hf & <- & <- & <- & Hnq) | [(_ & Hs)
      | (-> & -> & -> & Hmb & Hr & (p & Hp & <-) & Hn)]].
    + destruct (book_at_wf (core s) (pair_of order) (st_books _ Hwf)) as [Hbwf _].
      pose proof (fill_in_book order _ q p o Hbwf Hf) as Ho. rewrite <- Hmb in Ho.
      assert (Hst : stands_at s (oe_id o) (oe_user_id o) (pair_of order) true (raw p) (n + q)) by by exists p, o.
      apply (ac_exact _ Hac) in Hst. pose proof (pi_checked _ _ _ _ _ Hinv) as Hch. rewrite Forall_forall in Hch.
      destruct (Hch _ Hf) as (_ & _ & _ & _ & _ & _ & _ & _ & (pu & Hpu & Hdiv) & _). cbn [fst snd] in *.
      fold (unit_count p) in *. rewrite (unit_count_in _ _ Hpu) in *. rewrite Z.mul_add_distr_l in Hst.
      apply Z.divide_add_cancel_r with (pu * q); [done |]. by rewrite Z.add_comm.
    + by apply (ac_exact _ Hac) in Hs.
    + assert (Hty : oe_order_type order = "buy"%string).
      { apply validate_run in Hval as ((_ & _ & [?|Ht] & _) & _); [done |]. by rewrite Ht in Hmb. }
      assert (Hlim : String.eqb (oe_order_side order) "market" = false).
      { unfold rests in Hr. pose proof (order_after_same _ _ _ _ (pi_order _ _ _ _ _ Hinv)) as (_ & _ & _ & Hside & _).
        rewrite Hside in Hr. by apply andb_true_iff in Hr as [->%String.eqb_eq _]. }
      unfold remaining_for in Hrem. rewrite Hlim, Hty, Hp in Hrem. cbn in Hrem.
      destruct (quote_ok _ _ _ Hrem) as (a & b & c & Ha & Hb & _ & Hmul).
      rewrite (in_units_inj _ _ _ Hn Hb). fold (unit_count p). rewrite (unit_count_in _ _ Ha). by exists c.
  - destruct command; try done. apply cancelled_run in Hrun.
    destruct (cancel_stands _ _ _ _ _ _ Hwf Hrun) as (_ & _ & _ & Hiff). apply Hiff in Hs as [_ Hs].
      by apply (ac_exact _ Hac) in Hs.
Qed.

(** The receipts stay in order. *)
Lemma receipts_step command s outcome s' :
  accounted s → journal_apply command s = (Ok outcome, s') →
  ∀ id r, withdrawal_receipts s' !! id = Some r →
    withdrawal_format (wr_original r) = Ok tt ∧ wf_withdrawal_id (wr_original r) = id.
Proof.
  intros Hac Hrun id r Hr.
  destruct (journal_cases _ _ _ _ Hrun) as [[-> _] | (res & Hex & _ & _)]; [by apply (ac_receipts _ Hac) |].
  destruct command as [command| | | | | |];
    try (match type of Hex with execute ?c s = _ =>
      pose proof (keeps_receipts c ltac:(done) s) as Hk; rewrite Hex in Hk; cbn [snd] in Hk; rewrite Hk in Hr;
        by apply (ac_receipts _ Hac) end).
  cbn [execute] in Hex.
  assert (Hformat : s' ≠ s → withdrawal_format (wc_funds command) = Ok tt).
  { intros Hne. rewrite withdrawal_apply_run in Hex. cbn zeta in Hex. by destruct (withdrawal_format _)
    as [[]| |]; simplify_eq. }
  destruct (withdrawal_cases _ _ _ _ Hex) as [[-> _] | [Hex' Hcase]]; [by apply (ac_receipts _ Hac) |].
  assert (Hnew : ∀ st, withdrawal_receipts s' =
      <[wf_withdrawal_id (wc_funds command) := {| wr_original := wc_funds command;
        wr_status := st |}]> (withdrawal_receipts s) →
    st ≠ Reserved ∨ withdrawal_receipts s !! wf_withdrawal_id (wc_funds command) = None →
    withdrawal_format (wr_original r) = Ok tt ∧ wf_withdrawal_id (wr_original r) = id).
  { intros st Hw Hst. rewrite Hw in Hr. apply lookup_insert_Some in Hr as [[<- <-] | [_ Hr]];
    [| by apply (ac_receipts _ Hac)].
    split; [| done]. cbn. apply Hformat. intros ->.
    assert (Hsame : withdrawal_receipts s !! wf_withdrawal_id (wc_funds command) =
      Some {| wr_original := wc_funds command; wr_status := st |}) by (rewrite Hw at 1; by rewrite lookup_insert_eq).
    rewrite Hsame in Hcase, Hst. destruct Hcase as (Hc & _), Hst as [Hst|Hst]; [exact (Hst Hc) | done]. }
  apply execute_result_money in Hex' as [(_ & _ & Hw & _) | [(reason & _ & Ha & ->) | (reason & _ & _ & ->)]].
  - apply (Hnew _ Hw). destruct (withdrawal_receipts s !! _) as [receipt|]; [left | by right].
    destruct Hcase as (_ & Hne & _). by destruct (wc_action command).
  - apply (Hnew (Rejected reason)); [done | by left].
  - by apply (ac_receipts _ Hac).
Qed.

Lemma accounted_step command s outcome s' :
  accounted s → is_unlock command = false → journal_apply command s = (Ok outcome, s') → accounted s'.
Proof.
  intros Hac Hno Hrun. destruct (journal_step_ok command s (ac_wf _ Hac)) as (outcome' & s1 & Hrun' & Hok).
  rewrite Hrun in Hrun'. injection Hrun' as <- <-. split.
  - apply (so_wf _ _ _ _ Hok).
  - intros k. pose proof (claims_step _ _ _ _ k (ac_wf _ Hac) Hrun). pose proof (manual_lock_nonneg _ _ _ _ k Hrun Hno).
    pose proof (ac_covered _ Hac k). lia.
  - by eapply exact_step.
  - by eapply receipts_step.
Qed.

Lemma accounted_run commands s outcomes s' :
  accounted s → Forall (fun c => is_unlock c = false) commands → run_commands commands s = (Ok outcomes, s') → accounted s'.
Proof.
  revert s outcomes. induction commands as [|c commands IH]; intros s outcomes Hac Hno Hrun;
    [by injection Hrun as _ <- |].
  apply Forall_cons in Hno as [Hc Hno]. cbn [run_commands] in Hrun.
  apply st_bind_ok in Hrun as (o & s1 & Ho & Hrun). apply st_bind_ok in Hrun as (os & s2 & Hos & Hret).
  injection Hret as _ <-. eapply IH; [| done | done]. by eapply accounted_step.
Qed.

Lemma locked_run commands s outcomes s' k :
  state_wf s → run_commands commands s = (Ok outcomes, s') →
  locked_of (state_cache s') k - claimed s' k = locked_of (state_cache s) k - claimed s k + manual_locks k commands outcomes.
Proof.
  revert s outcomes. induction commands as [|c commands IH]; intros s outcomes Hwf Hrun; [injection Hrun as <- <-;
    cbn; lia |].
  cbn [run_commands] in Hrun.
  apply st_bind_ok in Hrun as (o & s1 & Ho & Hrun). apply st_bind_ok in Hrun as (os & s2 & Hos & Hret).
    injection Hret as <- <-.
  destruct (journal_step_ok c s Hwf) as (o' & s1' & Ho' & Hok). rewrite Ho in Ho'. injection Ho' as <- <-.
  rewrite (IH _ _ (so_wf _ _ _ _ Hok) Hos), (claims_step _ _ _ _ k Hwf Ho). cbn [manual_locks]. lia.
Qed.
End accounted_steps.

(** ** Claims can always be redeemed *)

Section redeem.
Context {E : Externals} {L : DecimalLaws ext_decimal}.

(** An account whose money, available and locked, is below [2^96] units: every part of it and every
    sum of its parts can be written as a decimal. *)
Definition account_fits (s : EngineState) (k : account) : Prop :=
  available_of (state_cache s) k + locked_of (state_cache s) k < 2 ^ 96 * 10 ^ 19.

Lemma small_representable a : a < 2 ^ 96 → representable a.
Proof. intros Ha. exists a, 9. split_and!; [lia | lia | rewrite Z.sub_diag, Z.mul_1_r; done | done]. Qed.

(** The row of an account with locked money. *)
Lemma locked_row s k c :
  state_wf s → account_fits s k → 0 < c * 10 ^ 19 ≤ locked_of (state_cache s) k →
  ∃ b a l, balances (state_cache s) !! k = Some b ∧ in_units (available b) a ∧ in_units (locked b) l ∧
    0 < c ≤ l ∧ a + l < 2 ^ 96.
Proof.
  intros Hwf Hfits Hc. unfold account_fits in Hfits. destruct (balances (state_cache s) !! k) as [b|] eqn:Hb.
  - rewrite (available_of_row _ _ _ Hb), (locked_of_row _ _ _ Hb) in *.
    destruct (st_cache _ Hwf _ _ Hb) as [[a Ha] [l Hl]]. exists b, a, l.
    split_and!; try done; destruct Ha as [Har ?], Hl as [Hlr ?]; rewrite ?Har, ?Hlr in *; lia.
  - unfold locked_of, mval in Hc. rewrite Hb in Hc. cbn in Hc. lia.
Qed.

Lemma MAX_UNITS_big : 2 ^ 96 ≤ MAX_UNITS.
Proof. done. Qed.

(** The book of a resting order exists, and the order was not cancelled. *)
Lemma resting_book s market buy p o : resting s market buy p o → ∃ book, orderbooks (core s) !! market = Some book.
Proof.
  intros Ho. destruct (orderbooks (core s) !! market) as [book|] eqn:Hm; [eauto |].
  unfold resting, book_at in Ho. rewrite Hm in Ho. destruct buy; by apply elem_of_nil in Ho.
Qed.
Lemma resting_not_cancelled s market buy p o :
  state_wf s → resting s market buy p o → cancellations s !! oe_id o = None.
Proof.
  intros Hwf Ho. destruct (cancellations s !! oe_id o) as [x|] eqn:Hx; [| done].
  destruct (st_gone _ Hwf _ _ Hx) as (_ & _ & Hno). exfalso. by apply (Hno market buy p o).
Qed.

(** The level an order rests at is a positive number of units. *)
Lemma resting_price_units s market buy p o :
  state_wf s → resting s market buy p o → ∃ a, in_units p a ∧ 0 < a.
Proof.
  intros Hwf Ho. destruct (book_at_wf (core s) market (st_books _ Hwf)) as [Hbwf _].
  destruct (resting_terms _ _ _ _ Hbwf Ho) as (Hppos & _).
  destruct (sw_price _ (bw_side _ Hbwf buy) p o Ho) as (q & Hq & Hqp).
  destruct (bw_resting _ Hbwf buy p o Ho) as (Hval & Hlim & _).
  apply validate_run in Hval as (_ & _ & _ & [(? & _) | (_ & _ & _ & _ & Hkind)]); [congruence |].
  rewrite Hlim in Hkind. cbn in Hkind. destruct Hkind as (q' & v & Hq' & _ & Hquote).
  rewrite Hq in Hq'. injection Hq' as <-. destruct (quote_ok _ _ _ Hquote) as (a & _ & _ & Ha & _).
  exists a. apply (in_units_raw q p) in Ha; [| done]. split; [done |]. destruct Ha; lia.
Qed.

(** What a cancellation releases: the value of a buy at its level, the quantity of a sale. *)
Definition releases (buy : bool) (p amount : Decimal) : result Decimal := if buy then quote p amount else Ok amount.

Lemma releases_claim buy p amount a n c :
  in_units p a → in_units amount n → 0 ≤ c < 2 ^ 96 →
  (buy = true → a * n = c * FACTOR) → (buy = false → c = n) →
  ∃ v, releases buy p amount = Ok v ∧ in_units v c.
Proof.
  intros Ha Hn Hc Hbuy Hsell. pose proof MAX_UNITS_big. destruct buy; cbn [releases].
  - destruct (quote_total p amount a n c Ha Hn (Hbuy eq_refl)) as [v Hv];
      [lia | apply small_representable; lia |]. exists v. split; [done |].
    destruct (quote_ok _ _ _ Hv) as (x & y & z & Hx & Hy & Hz & Hmul).
    rewrite (in_units_inj _ _ _ Hx Ha), (in_units_inj _ _ _ Hy Hn), (Hbuy eq_refl) in Hmul.
    assert (z = c) as -> by (unfold FACTOR in Hmul; lia). done.
  - exists amount. split; [done |]. by rewrite (Hsell eq_refl).
Qed.

Lemma cancel_succeeds s market buy p o :
  accounted s → resting s market buy p o → account_fits s (oe_user_id o, refund_mint o) →
  ∃ s', journal_apply (CmdCancel (oe_id o) (oe_user_id o) market) s = (Ok (Applied (Some (BatchCancelled o))), s').
Proof.
  intros Hac Ho Hfits. pose proof (ac_wf _ Hac) as Hwf. pose proof MAX_UNITS_big as Hbig.
  destruct (book_at_wf (core s) market (st_books _ Hwf)) as [Hbwf Hpair].
  destruct (resting_terms _ _ _ _ Hbwf Ho) as (Hppos & _ & Hpo & _ & Hty & Hbm & Hqm & _). rewrite Hpair in Hbm, Hqm.
  destruct (resting_stands s market buy p o Hwf Ho) as (n & Hn & Hnpos & Hst).
  set (k := (oe_user_id o, refund_mint o)) in *.
  assert (Hmint : refund_mint o = if buy then quote_mint market else base_mint market).
  { unfold refund_mint. rewrite Hty, Hbm, Hqm. by destruct buy. }
  assert (Hclaim : order_claim k o = claim_at k (oe_user_id o) market buy (raw p) n) by by apply (order_claim_at s).
  assert (Hcov : order_claim k o ≤ locked_of (state_cache s) k).
  { apply order_covered; [done |]. apply resting_orders_elem; [done |]. by exists market, buy, p. }
  destruct (resting_price_units s market buy p o Hwf Ho) as (a0 & Ha0 & Ha0pos).
  (* what the order claims, in units *)
  assert (Hunits : ∃ c, order_claim k o = c * 10 ^ 19 ∧ 0 < c ∧ (buy = true → a0 * n = c * FACTOR) ∧
    (buy = false → c = n)).
  { rewrite Hclaim. unfold claim_at, k. rewrite Hmint. rewrite decide_True by done. destruct buy.
    - destruct (ac_exact _ Hac _ _ _ _ _ Hst) as [c Hc]. exists c. fold (unit_count p) in *.
      rewrite (unit_count_in _ _ Ha0) in *.
      rewrite Hc. unfold FACTOR in *. split_and!; [lia | nia | done | done].
    - exists n. by split_and!. }
  destruct Hunits as (c & Hc & Hcpos & Hcbuy & Hcsell).
  destruct (locked_row s k c Hwf Hfits) as (b & a & l & Hb & Ha & Hl & Hcl & Hsum); [lia |].
  assert (Hapos : 0 ≤ a) by (destruct Ha; lia).
  destruct (releases_claim buy p (oe_remaining_amount o) a0 n c Ha0 Hn ltac:(lia) Hcbuy Hcsell) as (v & Hv & Hvc).
  destruct (resting_book s market buy p o Ho) as [book Hbook].
  pose proof (resting_not_cancelled s market buy p o Hwf Ho) as Hgone.
  assert (Hat : book_at (core s) market = book) by (unfold book_at; by rewrite Hbook).
  unfold resting in Ho. rewrite Hat in Ho.
  destruct (owner_can_cancel market (core s) book buy p o (oe_user_id o) (st_books _ Hwf) Hbook Ho) as [_ Hcan].
  destruct (Hcan v b a l c eq_refl Hv) as [c' Hrun]; try done;
    [by rewrite <- Hmint | lia | lia | apply small_representable; lia..|].
  eexists. unfold journal_apply, mbind, st_bind, sget. cbn [cancelled_before]. rewrite Hgone.
  unfold attempt. cbn [execute]. unfold mbind, st_bind, with_core, zoom. rewrite Hrun. cbn. reflexivity.
Qed.

(** Nobody else can cancel. *)
Lemma cancel_unauthorized s market buy p o user_id :
  state_wf s → resting s market buy p o → user_id ≠ oe_user_id o →
  journal_apply (CmdCancel (oe_id o) user_id market) s = (Ok (Failed "Unauthorized cancellation"), s).
Proof.
  intros Hwf Ho Hne. destruct (resting_book s market buy p o Ho) as [book Hbook].
  assert (Hat : book_at (core s) market = book) by (unfold book_at; by rewrite Hbook).
  assert (Hin : in_book book buy p o) by (unfold resting in Ho; by rewrite Hat in Ho).
  destruct (owner_can_cancel market (core s) book buy p o user_id (st_books _ Hwf) Hbook Hin) as [Hstranger _].
  unfold journal_apply, mbind, st_bind, sget. cbn [cancelled_before].
    rewrite (resting_not_cancelled s market buy p o Hwf Ho).
  unfold attempt. cbn [execute]. unfold mbind, st_bind, with_core, zoom. rewrite (Hstranger Hne). cbn. by destruct s.
Qed.

(** What is left to do with a reserved withdrawal works. *)
Lemma settle_succeeds s id r action :
  accounted s → withdrawal_receipts s !! id = Some r → wr_status r = Reserved → action ≠ Reserve →
  account_fits s (funds_account (wr_original r)) →
  let command := {| wc_action := action; wc_funds := wr_original r |} in
  ∃ s', journal_apply (CmdWithdrawal command) s = (Ok (Applied (Some (WithdrawalChanged command))), s').
Proof.
  intros Hac Hr Hst Hact Hfits command. pose proof (ac_wf _ Hac) as Hwf. pose proof MAX_UNITS_big as Hbig.
  destruct (ac_receipts _ Hac _ _ Hr) as [Hformat Hid].
  pose proof (receipt_covered s (funds_account (wr_original r)) _ _ Hac Hr) as Hcov.
  unfold receipt_claim in Hcov. rewrite Hst, decide_True in Hcov by done.
  assert (Hamount : ∃ c, in_units (wf_amount (wr_original r)) c ∧ 0 < c).
  { unfold withdrawal_format in Hformat. inv_ok. rewrite dec_ltb_raw, zero_raw in *. inv_ok. rewrite units_ok in *.
    match goal with H : in_units _ ?c |- _ => exists c; split; [exact H | destruct H; lia] end. }
  destruct Hamount as (c & Hc & Hcpos).
  destruct (locked_row s (funds_account (wr_original r)) c Hwf Hfits) as (b & a & l & Hb & Ha & Hl & Hcl & Hsum);
    [destruct Hc; lia |]. assert (Hapos : 0 ≤ a) by (destruct Ha; lia).
  assert (Hmove : ∃ cache', withdrawal_move action (wr_original r) (state_cache s) = (Ok tt, cache')).
  { destruct action; [done | |].
    - apply (change_reservation_total _ _ _ false _ b a l c); try done; try lia; apply small_representable; lia.
    - destruct (subtract_total (locked b) (wf_amount (wr_original r)) l c Hl Hc) as [next Hnext];
      [lia | apply small_representable; lia |].
      unfold withdrawal_move, mbind, st_bind, sget, lift, get_balance. fold (funds_account (wr_original r)).
      rewrite Hb. cbn [ok_or]. rewrite Hnext, set_locked_run. by eexists. }
  destruct Hmove as [cache' Hmove].
  assert (Hrun : ∃ s', withdrawal_apply command s = (Ok (Some (WithdrawalChanged command)), s')).
  { rewrite withdrawal_apply_run. cbn zeta. cbn [command wc_funds wc_action].
    rewrite Hformat, Hid, Hr, funds_eqb_refl, Hst.
    assert (Hgo : withdrawal_step Reserved action = None) by by destruct action. rewrite Hgo.
    unfold execute_result, command. cbn [wc_funds wc_action]. rewrite Hmove. by eexists. }
  destruct Hrun as [s' Hrun]. exists s'. unfold journal_apply, mbind, st_bind, sget. cbn [cancelled_before].
  unfold attempt. cbn [execute]. by rewrite Hrun.
Qed.
End redeem.

(** ** Properties *)

Section reservation_properties.
Context {E : Externals} {L : DecimalLaws ext_decimal}.

(** C4. Every locked unit belongs to something: over any history of commands, from any well-formed state,
    what an account has locked is what its resting orders may still cost, plus what its reserved
    withdrawals hold, plus what was locked by hand; nothing stays locked for an order that was
    traded, cancelled or rejected, or for a withdrawal that was released or completed. *)
Theorem locked_money_accounted commands s outcomes s' k :
  state_wf s → run_commands commands s = (Ok outcomes, s') →
  locked_of (state_cache s') k =
  orders_claim s' k + withdrawals_claim s' k + manual_locks k commands outcomes
  + (locked_of (state_cache s) k - orders_claim s k - withdrawals_claim s k).
Proof.
  intros Hwf Hrun. pose proof (locked_run _ _ _ _ k Hwf Hrun). unfold claimed in *. lia.
Qed.

(** C5. Whoever has an order in a book can get out, unless the account is too large for the decimal
    type: after any history from the balances of a first start in which nothing was unlocked by hand,
    an order that rests in a book can be cancelled by its owner if the account that the money goes
    back to holds less than [2^96] units, available and locked together (otherwise the sum of the
    release may not be a decimal, and then the cancellation fails). The money to release is there and
    no check of the cancellation fails. Whatever the accounts hold, nobody else can cancel the order. *)
Theorem resting_order_cancellable c commands outcomes s o :
  cache_wf c → run_commands commands (set_state_cache c state_new) = (Ok outcomes, s) → Forall (fun c => is_unlock c = false) commands →
  o ∈ resting_orders s →
  (account_fits s (oe_user_id o, refund_mint o) →
     ∃ s', journal_apply (CmdCancel (oe_id o) (oe_user_id o) (pair_of o)) s =
       (Ok (Applied (Some (BatchCancelled o))), s')) ∧
  ∀ user_id, user_id ≠ oe_user_id o →
    journal_apply (CmdCancel (oe_id o) user_id (pair_of o)) s = (Ok (Failed "Unauthorized cancellation"), s).
Proof.
  intros Hc Hrun Hno Ho. pose proof (accounted_run _ _ _ _ (accounted_initial c Hc) Hno Hrun) as Hac.
    pose proof (ac_wf _ Hac) as Hwf.
  apply resting_orders_elem in Ho as (market & b & p & Ho); [| done].
  destruct (book_at_wf (core s) market (st_books _ Hwf)) as [Hbwf Hpair].
  destruct (bw_resting _ Hbwf b p o Ho) as (_ & _ & _ & Hbm & Hqm).
  assert (Hm : pair_of o = market) by (unfold pair_of, pair_new; rewrite Hbm, Hqm, Hpair; by destruct market).
  rewrite Hm. split; [intros Hfits; by eapply cancel_succeeds |]. intros user_id Hne. by eapply cancel_unauthorized.
Qed.

(** C6. A reserved withdrawal can be finished, unless the account is too large for the decimal type:
    after any history from the balances of a first start in which nothing was unlocked by hand, a
    withdrawal whose receipt says reserved can be released and can be completed, provided that its
    account holds less than [2^96] units, available and locked together (otherwise the sums of the
    account may not be decimals). The money is still locked and no check of the step fails. *)
Theorem reserved_withdrawal_settles c commands outcomes s id r action :
  cache_wf c → run_commands commands (set_state_cache c state_new) = (Ok outcomes, s) → Forall (fun c => is_unlock c = false) commands →
  withdrawal_receipts s !! id = Some r → wr_status r = Reserved → action ≠ Reserve →
  account_fits s (funds_account (wr_original r)) →
  let command := {| wc_action := action; wc_funds := wr_original r |} in
  ∃ s', journal_apply (CmdWithdrawal command) s = (Ok (Applied (Some (WithdrawalChanged command))), s').
Proof.
  intros Hc Hrun Hno Hr Hst Hact Hfits. pose proof (accounted_run _ _ _ _ (accounted_initial c Hc) Hno Hrun) as Hac.
  by eapply settle_succeeds.
Qed.
End reservation_properties.

(** ** The properties at concrete inputs *)

Section reservation_examples.
#[local] Existing Instance ref_externals.
#[local] Existing Instance ref_decimal_laws.

(** Five of nine SOL are offered, two of them are sold, one is reserved for a withdrawal and a half
    is locked by hand. *)
Definition ex_claims : list Command :=
  [ CmdBalance 10 "SOL" (dz "9"); CmdSubmit ex_ask1; CmdBalance 20 "USDT" (dz "20");
    CmdSubmit (ex_limit 9 20 "buy" "2" "2" "0" "2");
    CmdWithdrawal {| wc_action := Reserve; wc_funds :=
      {| wf_withdrawal_id := 31; wf_user_id := 10; wf_asset := "SOL"; wf_amount := dz "1" |} |};
    CmdLock 10 "SOL" (dz "0.5") ].
Definition ex_claims_outcomes : list Outcome := get_ok [] (run_commands ex_claims state_new).1.
Definition ex_claims_end : EngineState := (run_commands ex_claims state_new).2.
Lemma ex_claims_run : run_commands ex_claims state_new = (Ok ex_claims_outcomes, ex_claims_end).
Proof. apply (get_run [] (run_commands ex_claims) state_new). vm_compute. reflexivity. Qed.

(** 4.5 SOL are locked: 3 for the order, 1 for the withdrawal, 0.5 by hand (here in hundredths). *)
Example ex_claims_parts :
  map (fun n => n / 10 ^ 26)
    [ locked_of (state_cache ex_claims_end) (10, "SOL"%string); orders_claim ex_claims_end (10, "SOL"%string);
      withdrawals_claim ex_claims_end (10, "SOL"%string);
      manual_locks (10, "SOL"%string) ex_claims ex_claims_outcomes ] = [450; 300; 100; 50].
Proof. vm_compute. reflexivity. Qed.

Lemma locked_money_accounted_witness :
  locked_of (state_cache ex_claims_end) (10, "SOL"%string) =
  orders_claim ex_claims_end (10, "SOL"%string) + withdrawals_claim ex_claims_end (10, "SOL"%string) +
  manual_locks (10, "SOL"%string) ex_claims ex_claims_outcomes.
Proof.
  pose proof (locked_money_accounted ex_claims state_new _ _ (10, "SOL"%string) state_wf_new ex_claims_run) as H.
  assert (Hzero : locked_of (state_cache state_new) (10, "SOL"%string) - orders_claim state_new (10, "SOL"%string) -
    withdrawals_claim state_new (10, "SOL"%string) = 0) by (vm_compute; reflexivity).
  rewrite Hzero, Z.add_0_r in H. exact H.
Defined.

Lemma ex_claims_no_unlock : Forall (fun c => is_unlock c = false) ex_claims.
Proof. by repeat constructor. Qed.

(** The order that is left, and the money of its owner. *)
Definition ex_left : OrderEntry := default ex_bid (head (resting_orders ex_claims_end)).
Lemma ex_left_in : ex_left ∈ resting_orders ex_claims_end.
Proof.
  unfold ex_left. assert (Hlen : length (resting_orders ex_claims_end) = 1%nat) by (vm_compute; reflexivity).
  destruct (resting_orders ex_claims_end); [discriminate | left].
Qed.
Lemma ex_left_fits : account_fits ex_claims_end (oe_user_id ex_left, refund_mint ex_left).
Proof. unfold account_fits. apply Z.ltb_lt. vm_compute. reflexivity. Qed.
Example ex_left_id : (oe_id ex_left, oe_user_id ex_left) = (1, 10).
Proof. vm_compute. reflexivity. Qed.

Lemma resting_order_cancellable_witness :
  (∃ s', journal_apply (CmdCancel (oe_id ex_left) (oe_user_id ex_left) (pair_of ex_left)) ex_claims_end =
     (Ok (Applied (Some (BatchCancelled ex_left))), s')) ∧
  journal_apply (CmdCancel (oe_id ex_left) 20 (pair_of ex_left)) ex_claims_end =
    (Ok (Failed "Unauthorized cancellation"), ex_claims_end).
Proof.
  destruct (resting_order_cancellable cache_new ex_claims _ _ _ (st_cache _ state_wf_new)
    ex_claims_run ex_claims_no_unlock ex_left_in) as [H1 H2].
  split; [exact (H1 ex_left_fits) | apply H2]. intros H. apply Z.eqb_eq in H. vm_compute in H. discriminate H.
Defined.

(** The bound on the account is needed: a billionth of a coin is offered, the account then receives
    10^20 coins, and the sum that the release of the billionth would make has too many digits; the
    cancellation fails. *)
Definition ex_oversized : list Command :=
  [ CmdBalance 10 "SOL" (dz "0.000000001");
    CmdSubmit (ex_limit 1 10 "sell" "1" "0.000000001" "0" "0.000000001");
    CmdBalance 10 "SOL" (dz "100000000000000000000"); CmdCancel 1 10 ex_pair ].
Example ex_oversized_stuck :
  (match get_ok [] (run_commands ex_oversized state_new).1 with
   | [Applied _; Applied (Some (Submitted _ _ _)); Applied _; Failed reason] => String.eqb reason "Failed to unlock balance for order 1"
   | _ => false
   end) && bool_decide (map oe_id (resting_orders (run_commands ex_oversized state_new).2) = [1]) = true.
Proof. vm_compute. reflexivity. Qed.

(** The withdrawal that is still reserved. *)
Definition ex_open_receipt : WithdrawalReceipt :=
  default {| wr_original := ex_funds; wr_status := Released |} (withdrawal_receipts ex_claims_end !! (31 : Z)).
Lemma ex_open_receipt_found : withdrawal_receipts ex_claims_end !! (31 : Z) = Some ex_open_receipt.
Proof.
  unfold ex_open_receipt.
    assert (Hsome : match withdrawal_receipts ex_claims_end !! (31 : Z) with Some _ => true | None => false end = true)
    by (vm_compute; reflexivity).
  destruct (withdrawal_receipts ex_claims_end !! (31 : Z)); [reflexivity | discriminate].
Qed.
Lemma ex_open_receipt_reserved : wr_status ex_open_receipt = Reserved.
Proof.
  assert (H : match wr_status ex_open_receipt with Reserved => true | _ => false end = true) by (vm_compute;
    reflexivity).
  by destruct (wr_status ex_open_receipt).
Qed.
Lemma ex_open_receipt_fits : account_fits ex_claims_end (funds_account (wr_original ex_open_receipt)).
Proof. unfold account_fits. apply Z.ltb_lt. vm_compute. reflexivity. Qed.

Lemma reserved_withdrawal_settles_witness :
  ∃ s', journal_apply (CmdWithdrawal {| wc_action := Complete; wc_funds := wr_original ex_open_receipt |}) ex_claims_end =
    (Ok (Applied (Some (WithdrawalChanged {| wc_action := Complete; wc_funds := wr_original ex_open_receipt |}))), s').
Proof.
  exact (reserved_withdrawal_settles cache_new ex_claims _ _ _ _ Complete (st_cache _ state_wf_new)
    ex_claims_run ex_claims_no_unlock
    ex_open_receipt_found ex_open_receipt_reserved ltac:(discriminate) ex_open_receipt_fits).
Defined.
End reservation_examples.
