(* ===== verification/Events.v ===== *)
(** * The events of a result ([runtime/output.rs], [shared/kafka/events.rs])

    What the output worker makes of one confirmed outcome: the financial events, their identifiers
    and their order, encoded and handed to [send] one at a time until the first failure. JSON is a
    parameter; [send] is an argument, as in the source, where the delivery and the audit share the
    same visitor. *)

From stdpp Require Import base tactics gmap list strings.
From Stdlib Require Import ZArith Lia Ascii.
From S2P Require Import Prelude Text Decimals Amount BTree RefDecimal Types BalanceCache OrderBook Matcher Submission State Deposit Withdrawal Cancel Journal History.

Section events.
Context {E : Externals}.

Record Position := { po_engine_id : string; po_sequence : Z; po_timestamp : Timestamp }.
Record DeliveryError := mk_delivery_error { de_next_event : Z; de_reason : string }.

(** ** The events *)

Record TradeExecutedEvent := {
  te_event_id : string; te_engine_id : string; te_event_type : string;
  te_buy_order_id : Z; te_sell_order_id : Z; te_buyer_id : Z; te_seller_id : Z;
  te_price : Decimal; te_amount : Decimal; te_base_mint : string; te_quote_mint : string;
  te_timestamp : Timestamp;
  te_buyer_fee_rate : Decimal; te_seller_fee_rate : Decimal;
  te_buyer_fee : Decimal; te_seller_fee : Decimal;
}.

Record OrderCancelledEvent := {
  ce_event_id : string; ce_engine_id : string; ce_event_type : string;
  ce_order_id : Z; ce_user_id : Z; ce_base_mint : string; ce_quote_mint : string;
  ce_timestamp : Timestamp;
}.

Record MarketOrderCompletedEvent := {
  me_event_id : string; me_engine_id : string; me_event_type : string;
  me_timestamp : Timestamp; me_result : MarketCompletion;
}.

Record OrderRejectedEvent := {
  re_event_id : string; re_engine_id : string; re_event_type : string;
  re_order_id : Z; re_user_id : Z; re_order_type : string; re_order_side : string;
  re_base_mint : string; re_quote_mint : string;
  re_price : option Decimal; re_amount : option Decimal; re_quote_amount : option Decimal;
  re_fee_rate : Decimal; re_reason_code : string; re_timestamp : Timestamp;
}.

(** The JSON objects of withdrawals and deposits; a rejection has a reason code. *)
Record WithdrawalEvent := {
  we_event_id : string; we_engine_id : string; we_event_type : string;
  we_withdrawal_id : Uuid; we_user_id : Z; we_asset : string; we_amount : Decimal;
  we_reason_code : option string; we_timestamp : Timestamp;
}.

Record DepositEvent := {
  pe_event_id : string; pe_engine_id : string; pe_event_type : string;
  pe_deposit_id : Uuid; pe_user_id : Z; pe_asset : string; pe_amount : Decimal;
  pe_timestamp : Timestamp;
}.

Inductive FinancialEvent :=
  | EvTrade (e : TradeExecutedEvent)
  | EvCancelled (e : OrderCancelledEvent)
  | EvCompleted (e : MarketOrderCompletedEvent)
  | EvRejected (e : OrderRejectedEvent)
  | EvWithdrawal (e : WithdrawalEvent)
  | EvDeposit (e : DepositEvent).

(** [format!("{}:{}:{}", engine_id, sequence, index)]. *)
Definition event_id (position : Position) (index : Z) : string :=
  po_engine_id position +:+ String ":"%char (show_int (po_sequence position) +:+ String ":"%char (show_int index)).

Definition withdrawal_rejected_event (position : Position) (funds : WithdrawalFunds) : FinancialEvent :=
  EvWithdrawal {| we_event_id := event_id position 0; we_engine_id := po_engine_id position;
    we_event_type := "withdrawal_rejected"; we_withdrawal_id := wf_withdrawal_id funds;
    we_user_id := wf_user_id funds; we_asset := wf_asset funds; we_amount := wf_amount funds;
    we_reason_code := Some "RESERVATION_REJECTED"%string; we_timestamp := po_timestamp position |}.

Definition withdrawal_changed_event (position : Position) (command : WithdrawalCommand) : FinancialEvent :=
  let funds := wc_funds command in
  EvWithdrawal {| we_event_id := event_id position 0; we_engine_id := po_engine_id position;
    we_event_type := event_type (wc_action command); we_withdrawal_id := wf_withdrawal_id funds;
    we_user_id := wf_user_id funds; we_asset := wf_asset funds; we_amount := wf_amount funds;
    we_reason_code := None; we_timestamp := po_timestamp position |}.

Definition deposit_credited_event (position : Position) (credit : DepositCredit) : FinancialEvent :=
  EvDeposit {| pe_event_id := event_id position 0; pe_engine_id := po_engine_id position;
    pe_event_type := "deposit_credited"; pe_deposit_id := dc_deposit_id credit;
    pe_user_id := dc_user_id credit; pe_asset := dc_asset credit; pe_amount := dc_amount credit;
    pe_timestamp := po_timestamp position |}.

(** A market buy has no quantity to report. *)
Definition order_rejected_event (position : Position) (order : OrderEntry) : FinancialEvent :=
  let budget_buy := String.eqb (oe_order_side order) "market" && String.eqb (oe_order_type order) "buy" in
  EvRejected {| re_event_id := event_id position 0; re_engine_id := po_engine_id position;
    re_event_type := "order_rejected"; re_order_id := oe_id order; re_user_id := oe_user_id order;
    re_order_type := oe_order_type order; re_order_side := oe_order_side order;
    re_base_mint := oe_base_mint order; re_quote_mint := oe_quote_mint order;
    re_price := oe_price order; re_amount := if budget_buy then None else Some (oe_amount order);
    re_quote_amount := oe_quote_amount order; re_fee_rate := oe_fee_rate order;
    re_reason_code := "ENGINE_EXECUTION_REJECTED"; re_timestamp := po_timestamp position |}.

Definition trade_event (position : Position) (index : Z) (output : TradeOutput) : FinancialEvent :=
  let t := to_trade output in
  EvTrade {| te_event_id := event_id position index; te_engine_id := po_engine_id position;
    te_event_type := "trade_executed";
    te_buy_order_id := mr_buy_order_id t; te_sell_order_id := mr_sell_order_id t;
    te_buyer_id := mr_buyer_id t; te_seller_id := mr_seller_id t;
    te_price := mr_price t; te_amount := mr_amount t;
    te_base_mint := mr_base_mint t; te_quote_mint := mr_quote_mint t;
    te_timestamp := po_timestamp position;
    te_buyer_fee_rate := mr_buyer_fee_rate t; te_seller_fee_rate := mr_seller_fee_rate t;
    te_buyer_fee := to_buyer_fee output; te_seller_fee := to_seller_fee output |}.

Definition completed_event (position : Position) (index : Z) (completion : MarketCompletion) : FinancialEvent :=
  EvCompleted {| me_event_id := event_id position index; me_engine_id := po_engine_id position;
    me_event_type := "market_order_completed"; me_timestamp := po_timestamp position;
    me_result := completion |}.

Definition order_cancelled_event (position : Position) (order : OrderEntry) : FinancialEvent :=
  EvCancelled {| ce_event_id := event_id position 0; ce_engine_id := po_engine_id position;
    ce_event_type := "order_cancelled"; ce_order_id := oe_id order; ce_user_id := oe_user_id order;
    ce_base_mint := oe_base_mint order; ce_quote_mint := oe_quote_mint order;
    ce_timestamp := po_timestamp position |}.
End events.

(** [serde_json::to_string] of an event: an error or the text. *)
Class EventFormat (E : Externals) := { event_json : FinancialEvent → string + string }.

(** ** The visitor; its error is a [DeliveryError] *)

Section visit.
Context {E : Externals} {V : EventFormat E} {S : Type}.
Variable send : Z → string → st S (option DeliveryError).

(** [send(index, encode(&event, index)?)?]. *)
Definition send_event (index : Z) (event : FinancialEvent) : st S (option DeliveryError) :=
  match event_json event with
  | inr payload => send index payload
  | inl reason => mret (Some (mk_delivery_error index reason))
  end.

Fixpoint visit_trades (position : Position) (index : Z) (trades : list TradeOutput) : st S (option DeliveryError) :=
  match trades with
  | [] => mret None
  | output :: trades =>
      error ← send_event index (trade_event position index output);
      match error with
      | Some error => mret (Some error)
      | None => visit_trades position (index + 1) trades
      end
  end.

(** [visit_events]. *)
Definition visit_events (batch : OutputBatch) (position : Position) : st S (option DeliveryError) :=
  match batch with
  | WithdrawalRejected funds _ => send_event 0 (withdrawal_rejected_event position funds)
  | WithdrawalChanged command => send_event 0 (withdrawal_changed_event position command)
  | DepositCredited credit => send_event 0 (deposit_credited_event position credit)
  | BatchRejected order _ => send_event 0 (order_rejected_event position order)
  | Submitted _ trades completion =>
      error ← visit_trades position 0 trades;
      match error, completion with
      | Some error, _ => mret (Some error)
      | None, Some completion =>
          let index := Z.of_nat (length trades) in
          send_event index (completed_event position index completion)
      | None, None => mret None
      end
  | BatchCancelled order => send_event 0 (order_cancelled_event position order)
  end.

(** ** The events of a result, as a list *)

Fixpoint trade_events (position : Position) (index : Z) (trades : list TradeOutput) : list FinancialEvent :=
  match trades with
  | [] => []
  | output :: trades => trade_event position index output :: trade_events position (index + 1) trades
  end.

Definition batch_events (batch : OutputBatch) (position : Position) : list FinancialEvent :=
  match batch with
  | WithdrawalRejected funds _ => [withdrawal_rejected_event position funds]
  | WithdrawalChanged command => [withdrawal_changed_event position command]
  | DepositCredited credit => [deposit_credited_event position credit]
  | BatchRejected order _ => [order_rejected_event position order]
  | Submitted _ trades completion =>
      trade_events position 0 trades ++
      match completion with
      | Some completion => [completed_event position (Z.of_nat (length trades)) completion]
      | None => []
      end
  | BatchCancelled order => [order_cancelled_event position order]
  end.

(** Sending a list of events one after the other until the first failure. *)
Fixpoint send_all (index : Z) (events : list FinancialEvent) : st S (option DeliveryError) :=
  match events with
  | [] => mret None
  | event :: events =>
      error ← send_event index event;
      match error with
      | Some error => mret (Some error)
      | None => send_all (index + 1) events
      end
  end.

Lemma send_event_last index event s : send_all index [event] s = send_event index event s.
Proof.
  cbn. unfold mbind, st_bind. destruct (send_event index event s) as [[[error|]|e|] s']; done.
Qed.

Lemma send_all_app index events more s :
  send_all index (events ++ more) s =
  (error ← send_all index events;
   match error with
   | Some error => mret (Some error)
   | None => send_all (index + Z.of_nat (length events)) more
   end) s.
Proof.
  revert index s. induction events as [|event events IH]; intros index s.
  { cbn. unfold mbind, st_bind. by rewrite Z.add_0_r. }
  cbn [send_all app]. unfold mbind, st_bind. destruct (send_event index event s) as [[[error|]|e|] s']; try done.
  rewrite IH. unfold mbind, st_bind. destruct (send_all (index + 1) events s') as [[[error|]|e|] s1]; try done.
  f_equal. cbn [length]. lia.
Qed.

Lemma visit_trades_all position index trades s :
  visit_trades position index trades s = send_all index (trade_events position index trades) s.
Proof.
  revert index s. induction trades as [|output trades IH]; intros index s; [done |].
  cbn [visit_trades trade_events send_all]. unfold mbind, st_bind.
  destruct (send_event _ _ s) as [[[error|]|e|] s']; done.
Qed.

Lemma trade_events_length position index trades : length (trade_events position index trades) = length trades.
Proof. revert index. induction trades as [|t trades IH]; intros index; [done |]. cbn. by rewrite IH. Qed.

(** The visitor sends exactly the events of the result, in order. *)
Lemma visit_events_all batch position s : visit_events batch position s = send_all 0 (batch_events batch position) s.
Proof.
  destruct batch as [c|funds reason|credit|id trades completion|order|order reason];
    try (cbn [visit_events batch_events]; by rewrite send_event_last).
  cbn [visit_events batch_events]. rewrite send_all_app, trade_events_length. unfold mbind, st_bind.
  rewrite visit_trades_all. destruct (send_all 0 (trade_events position 0 trades) s) as [[[error|]|e|] s']; try done.
  destruct completion as [completion|]; [| done]. by rewrite Z.add_0_l, send_event_last.
Qed.
End visit.

(** ** Identifiers *)

Section ids.
Context {E : Externals}.

Definition id_of (event : FinancialEvent) : string :=
  match event with
  | EvTrade e => te_event_id e
  | EvCancelled e => ce_event_id e
  | EvCompleted e => me_event_id e
  | EvRejected e => re_event_id e
  | EvWithdrawal e => we_event_id e
  | EvDeposit e => pe_event_id e
  end.

Lemma trade_event_ids position index trades i event :
  trade_events position index trades !! i = Some event → id_of event = event_id position (index + Z.of_nat i).
Proof.
  revert index i. induction trades as [|t trades IH]; intros index [|i]; cbn; try done.
  - intros [= <-]. cbn. by rewrite Z.add_0_r.
  - intros H. rewrite (IH _ _ H). f_equal. lia.
Qed.

(** The events of a result are numbered from zero. *)
Lemma batch_event_ids batch position i event :
  batch_events batch position !! i = Some event → id_of event = event_id position (Z.of_nat i).
Proof.
  destruct batch as [c|funds reason|credit|id trades completion|order|order reason]; cbn [batch_events];
    try (destruct i; [intros [= <-]; done | done]).
  intros [H|[Hi H]]%lookup_app_Some.
  - by apply trade_event_ids in H.
  - rewrite trade_events_length in *. destruct completion; [| done].
    destruct (i - length trades)%nat eqn:Hd; [| done]. injection H as <-. cbn. f_equal. lia.
Qed.

(** Digits before a colon. *)
Lemma digits_colon a b c d :
  all_chars is_digit a = true → all_chars is_digit b = true →
  (a +:+ String ":"%char c)%string = (b +:+ String ":"%char d)%string → a = b ∧ c = d.
Proof.
  revert b. induction a as [|x a IH]; intros [|y b] Ha Hb Heq; cbn in *.
  - by injection Heq.
  - injection Heq as <- _. done.
  - injection Heq as -> _. done.
  - apply andb_true_iff in Ha as [_ Ha], Hb as [_ Hb]. injection Heq as -> Heq.
    destruct (IH b Ha Hb Heq) as [-> ->]. done.
Qed.

Lemma show_int_inj n m : 0 ≤ n → 0 ≤ m → show_int n = show_int m → n = m.
Proof.
  intros Hn Hm. unfold show_int. rewrite !(proj2 (Z.ltb_ge _ _)) by done. intros Heq.
  by rewrite <- (show_nonneg_value n), <- (show_nonneg_value m), Heq.
Qed.

Lemma app_str_inj a b c : (a +:+ b)%string = (a +:+ c)%string → b = c.
Proof. induction a as [|x a IH]; cbn; [done |]. intros [= H]. by apply IH. Qed.

Lemma event_id_inj position position' i i' :
  po_engine_id position = po_engine_id position' → 0 ≤ po_sequence position → 0 ≤ po_sequence position' → 0 ≤ i → 0 ≤ i' →
  event_id position i = event_id position' i' → po_sequence position = po_sequence position' ∧ i = i'.
Proof.
  intros He Hs Hs' Hi Hi'. unfold event_id. rewrite He. intros Heq. apply app_str_inj in Heq. injection Heq as Heq.
  assert (Hd : ∀ n, 0 ≤ n → all_chars is_digit (show_int n) = true).
  { intros n Hn. unfold show_int. rewrite (proj2 (Z.ltb_ge n 0)) by done. by apply show_nonneg_digits. }
  apply digits_colon in Heq as [H1 H2]; [| by apply Hd ..]. split; by apply show_int_inj.
Qed.
End ids.
