(* ===== verification/EventTypes.v ===== *)
(** * What the events carry ([runtime/output.rs], [shared/kafka/events.rs])

    The platform books the published events into columns of type [NUMERIC(30,9)] and [BIGINT] without
    asking the engine again. Here: every number of an event is one that such a column holds exactly,
    and the numbers of one event fit together. *)

From stdpp Require Import base tactics gmap list strings.
From Stdlib Require Import ZArith Lia.
From S2P Require Import Prelude Text Decimals Amount RefDecimal Types BalanceCache OrderBook Matcher Submission State Deposit Withdrawal Cancel Journal History Resting Events.

Section event_types.
Context {E : Externals}.

(** A [NUMERIC(30,9)] that is not negative, and one that is positive. *)
Definition numeric (d : Decimal) : Prop := ∃ n, in_units d n.
Definition positive (d : Decimal) : Prop := ∃ n, in_units d n ∧ 0 < n.

(** A trade: its value is exact, and neither side pays more in fees than it receives. *)
Definition trade_typed (t : MatchResult) (buyer_fee seller_fee : Decimal) : Prop :=
  (∃ p a v bf sf, in_units (mr_price t) p ∧ 0 < p ∧ in_units (mr_amount t) a ∧ 0 < a ∧ p * a = v * FACTOR ∧ 0 < v ∧
     in_units buyer_fee bf ∧ bf ≤ a ∧ in_units seller_fee sf ∧ sf ≤ v) ∧
  numeric (mr_buyer_fee_rate t) ∧ numeric (mr_seller_fee_rate t) ∧
  0 < mr_buyer_id t ∧ 0 < mr_seller_id t ∧ mr_base_mint t ≠ mr_quote_mint t.

(** A completion: what was reserved is what was used and what is given back. *)
Definition completion_typed (m : MarketCompletion) : Prop :=
  numeric (mc_filled_amount m) ∧ numeric (mc_filled_quote_amount m) ∧ numeric (mc_reserved_amount m) ∧ numeric (mc_refund_amount m) ∧
  0 ≤ mc_trade_count m ∧
  raw (mc_reserved_amount m) = raw (mc_refund_amount m) +
    raw (if String.eqb (mc_order_type m) "buy" then mc_filled_quote_amount m else mc_filled_amount m).

(** An event; a cancellation has no numbers but identifiers, a rejection those of the refused order. *)
Definition event_typed (event : FinancialEvent) : Prop :=
  match event with
  | EvTrade e =>
      trade_typed {| mr_buyer_fee_rate := te_buyer_fee_rate e; mr_seller_fee_rate := te_seller_fee_rate e;
          mr_buy_order_id := te_buy_order_id e; mr_sell_order_id := te_sell_order_id e;
          mr_buyer_id := te_buyer_id e; mr_seller_id := te_seller_id e; mr_price := te_price e; mr_amount := te_amount e;
          mr_base_mint := te_base_mint e; mr_quote_mint := te_quote_mint e |} (te_buyer_fee e) (te_seller_fee e)
  | EvCompleted e => completion_typed (me_result e)
  | EvWithdrawal e => positive (we_amount e) ∧ 0 < we_user_id e ≤ I64_MAX ∧ slen (we_asset e) ≤ 128 ∧ we_withdrawal_id e ≠ uuid_nil
  | EvDeposit e => positive (pe_amount e) ∧ 0 < pe_user_id e ∧ slen (pe_asset e) ≤ 128 ∧ pe_deposit_id e ≠ uuid_nil
  | EvCancelled _ | EvRejected _ => True
  end.
End event_types.

Section event_facts.
Context {E : Externals} {L : DecimalLaws ext_decimal}.

Lemma trade_output_typed t chs out :
  settlement_changes t = Ok chs → trade_output t = Ok out → trade_typed (to_trade out) (to_buyer_fee out) (to_seller_fee out).
Proof.
  intros (a & q & bf & sf & Hu & Hb & Hs & Hne & _)%settlement_changes_run Hout.
  destruct (tu_positive _ _ _ _ _ Hu) as [Ha0 Hq0]. destruct (tu_quote _ _ _ _ _ Hu) as (p & Hp & Hp0 & Hpq).
  pose proof (tu_amount _ _ _ _ _ Hu) as Ha. unfold trade_output in Hout.
  apply bind_ok in Hout as (fb & Hfb%expect_ok_ok%fee_ok & Hout).
    apply bind_ok in Hout as (v & Hv%expect_ok_ok%quote_ok & Hout).
  apply bind_ok in Hout as (fs & Hfs%expect_ok_ok%fee_ok & Hout). injection Hout as <-.
  destruct Hfb as (a1 & r1 & Ha1 & Hr1 & Hfb & _ & Hle1), Hfs as (v2 & r2 & Hv2 & Hr2 & Hfs & _ & Hle2), Hv
    as (p3 & a3 & v3 & Hp3 & Ha3 & Hv3 & Hmul).
  rewrite (in_units_inj _ _ _ Ha1 Ha) in *. rewrite (in_units_inj _ _ _ Ha3 Ha) in *.
  rewrite (in_units_inj _ _ _ Hp3 Hp) in *. rewrite (in_units_inj _ _ _ Hv2 Hv3) in *.
  split_and!; [| by exists r1 | by exists r2 | done..].
  assert (v3 = q) as -> by (unfold FACTOR in *; lia).
  by exists p, a, q, (a * r1 / FACTOR), (q * r2 / FACTOR).
Qed.

Lemma trade_outputs_typed ts c c' outs :
  settle_all ts c = (Ok tt, c') → map_results trade_output ts = Ok outs →
  Forall (fun out => trade_typed (to_trade out) (to_buyer_fee out) (to_seller_fee out)) outs.
Proof.
  intros Hrun Hm%map_results_Forall2. revert c Hrun. induction Hm as [|t out ts outs Ho _ IH]; intros c Hrun;
    [constructor |].
  cbn [settle_all] in Hrun. apply st_bind_ok in Hrun as ([] & c1 & Ht & Hrun).
  apply settle_trade_run in Ht as (chs & Hchs & _). constructor; [by eapply trade_output_typed | by eapply IH].
Qed.

Lemma market_completion_typed order buy plan w fs reserved refund remaining left m :
  plan_inv order buy fs w plan → market_completion order plan reserved refund = Some m →
  remaining_for order (p_order plan) = Ok remaining →
  subtract reserved (if String.eqb (oe_order_type order) "buy" then p_total_quote plan else p_total_amount plan) = Ok left →
  subtract left remaining = Ok refund → completion_typed m.
Proof.
  intros Hinv Hm Hrem H1 H2. destruct (refund_raw _ _ _ _ _ H1 H2) as (Href & _ & Hrefund & _).
  destruct (subtract_inv _ _ _ H1) as (a & b & Ha & _ & _). unfold market_completion, remaining_for in *.
  destruct (String.eqb (oe_order_side order) "market"); [| done]. injection Hm as <-. injection Hrem as <-.
    rewrite zero_raw in Href.
  split_and!; cbn; [by eexists; apply (pi_amount _ _ _ _ _ Hinv) | by eexists;
    apply (pi_quote _ _ _ _ _ Hinv) | by exists a | done | lia |].
  destruct (String.eqb _ "buy"); lia.
Qed.

Lemma trade_events_elem position index trades e :
  e ∈ trade_events position index trades → ∃ i output, output ∈ trades ∧ e = trade_event position i output.
Proof.
  revert index. induction trades as [|t trades IH]; intros index He; [by apply elem_of_nil in He |].
  apply elem_of_cons in He as [-> | He]; [exists index, t; by split; [left |] |].
  destruct (IH _ He) as (i & output & Hin & ->). exists i, output. by split; [right |].
Qed.

(** The three kinds of commands with numbers in their events. *)
Lemma submitted_typed order s id outs completion s' position e :
  state_wf s → journal_apply (CmdSubmit order) s = (Ok (Applied (Some (Submitted id outs completion))), s') →
  e ∈ batch_events (Submitted id outs completion) position → event_typed e.
Proof.
  intros Hwf Hrun He. destruct (submit_applied _ _ _ _ _ _ Hwf Hrun) as (_ & _ & app & Hap & _ & Hm & ->).
  apply apply_ok_run in Hap
    as (plan & reserved & refund & book' & Hplan & Hin & _ & (remaining & left & Hrem & H1 & H2) & _ & _ & ->).
  apply plan_order_run in Hplan as (_ & w & Hinv). cbn [as_matches as_completion] in *.
  cbn [batch_events] in He. apply elem_of_app in He as [(i & out & Hout & ->)%trade_events_elem | He].
  - unfold in_place in Hin. apply st_bind_ok in Hin as (u & c1 & _ & Hin).
    apply st_bind_ok in Hin as ([] & c2 & Hsettle & _).
    pose proof (trade_outputs_typed _ _ _ _ Hsettle Hm) as Hall. rewrite Forall_forall in Hall.
      specialize (Hall _ Hout).
    cbn [event_typed trade_event te_buyer_fee_rate te_seller_fee_rate te_buy_order_id te_sell_order_id te_buyer_id
      te_seller_id te_price te_amount
      te_base_mint te_quote_mint te_buyer_fee te_seller_fee]. by destruct (to_trade out).
  - destruct (market_completion _ _ _ _) as [m|] eqn:Hc; [| by apply elem_of_nil in He].
    apply list_elem_of_singleton in He as ->.
    cbn. by eapply market_completion_typed; [exact Hinv | ..].
Qed.

Lemma positive_amount d n : units d = Ok n → dec_ltb dec_zero d = true → positive d.
Proof.
  intros Hu%units_ok Hpos. rewrite dec_ltb_raw, zero_raw in Hpos. apply Z.ltb_lt in Hpos.
  exists n. split; [done |]. destruct Hu. lia.
Qed.

Lemma withdrawal_format_typed funds :
  withdrawal_format funds = Ok tt →
  positive (wf_amount funds) ∧ 0 < wf_user_id funds ≤ I64_MAX ∧ slen (wf_asset funds) ≤ 128 ∧ wf_withdrawal_id funds ≠ uuid_nil.
Proof.
  unfold withdrawal_format. intros H. apply bind_ok in H as (u1 & H1%ensure_ok & H).
    apply bind_ok in H as (u2 & H2%ensure_ok & H).
  apply bind_ok in H as (u3 & H3%ensure_ok & H). apply bind_ok in H as (n & Hn & _).
  rewrite !andb_true_iff, bool_decide_eq_true, ?Z.ltb_lt, ?Z.leb_le in H1. rewrite !andb_true_iff, Z.leb_le in H2.
    split; [by eapply positive_amount | tauto].
Qed.

Lemma deposit_format_typed credit :
  deposit_format credit = Ok tt →
  positive (dc_amount credit) ∧ 0 < dc_user_id credit ∧ slen (dc_asset credit) ≤ 128 ∧ dc_deposit_id credit ≠ uuid_nil.
Proof.
  unfold deposit_format. intros H. apply bind_ok in H as (u1 & H1%ensure_ok & H).
    apply bind_ok in H as (u2 & H2%ensure_ok & H).
  apply bind_ok in H as (u3 & H3%ensure_ok & H). apply bind_ok in H as (n & Hn & _).
  rewrite !andb_true_iff, bool_decide_eq_true, ?Z.ltb_lt, ?Z.leb_le in H1. rewrite !andb_true_iff, Z.leb_le in H2.
    split; [by eapply positive_amount | tauto].
Qed.

(** What a withdrawal or a deposit publishes is about the funds that passed the format. *)
Lemma withdrawal_output command s batch s' :
  withdrawal_apply command s = (Ok (Some batch), s') →
  withdrawal_format (wc_funds command) = Ok tt ∧
  (batch = WithdrawalChanged command ∨ ∃ reason, batch = WithdrawalRejected (wc_funds command) reason).
Proof.
  intros Hrun. unfold withdrawal_apply in Hrun. cbn zeta in Hrun. apply st_bind_ok in Hrun as ([] & s1 & Hf & Hrun).
  unfold lift in Hf. injection Hf as Hf <-. split; [done |].
  assert (Hex : ∀ s1, withdrawal_execute command s1 = (Ok (Some batch), s') →
    batch = WithdrawalChanged command ∨ ∃ reason, batch = WithdrawalRejected (wc_funds command) reason).
  { intros s2. unfold withdrawal_execute, mbind, st_bind, attempt, lift, smodify, mret, st_ret. cbn zeta.
    destruct (with_cache _ s2) as [[u|e|] s3]; [intros [= <- _]; by left | | done].
    destruct (wc_action command); [intros [= <- _]; right; by exists e | done | done]. }
  apply st_bind_ok in Hrun as (state & s2 & Hget & Hrun). injection Hget as <- <-.
  destruct (withdrawal_receipts s !! _) as [receipt|].
  - apply st_bind_ok in Hrun as (u & s3 & _ & Hrun).
    destruct (withdrawal_step (wr_status receipt) (wc_action command)) as [answer|] eqn:Hstep; [| by eapply Hex].
    unfold lift in Hrun. injection Hrun as -> _. unfold withdrawal_step in Hstep.
      by destruct (wr_status receipt), (wc_action command).
  - apply st_bind_ok in Hrun as (u & s3 & _ & Hrun). by eapply Hex.
Qed.

Lemma deposit_output credit s batch s' :
  deposit_apply credit s = (Ok (Some batch), s') → deposit_format credit = Ok tt ∧ batch = DepositCredited credit.
Proof.
  rewrite deposit_apply_run. destruct (deposit_receipts s !! _) as [receipt|].
  { destruct (credit_eqb _ _); [destruct (dr_rejection receipt) |]; by intros [=]. }
  destruct (deposit_format credit) as [[]|e|]; [| done..]. rewrite deposit_credit_run. destruct (add _ _); [| done..].
  by intros [= <- _].
Qed.

(** One command. *)
Lemma command_typed command s batch s' position e :
  state_wf s → journal_apply command s = (Ok (Applied (Some batch)), s') → e ∈ batch_events batch position → event_typed e.
Proof.
  intros Hwf Hrun He. pose proof (outcome_shape _ _ _ _ Hrun) as Hshape.
  destruct command, batch; try done; cbn in Hshape;
    try (by apply list_elem_of_singleton in He as ->); try (by eapply submitted_typed).
  all: destruct (journal_cases _ _ _ _ Hrun) as [[_ ?] | (r & Hex & Hp & Hout)]; [done |]; destruct r as [o|m|];
    try done;
    injection Hout as <-; cbn [execute] in Hex; apply list_elem_of_singleton in He as ->.
  - destruct (withdrawal_output _ _ _ _ Hex) as [Hf [[= <-] | [? ?]]]; [| done]. by apply withdrawal_format_typed.
  - destruct (withdrawal_output _ _ _ _ Hex) as [Hf [? | [? [= -> _]]]]; [done |]. by apply withdrawal_format_typed.
  - destruct (deposit_output _ _ _ _ Hex) as [Hf [= <-]]. by apply deposit_format_typed.
Qed.

(** A rejection is about the order that was submitted, as it was submitted. *)
Lemma execute_rejected order s order' reason s' :
  execute_submit order s = (Ok (Some (BatchRejected order' reason)), s') → order' = order.
Proof.
  unfold execute_submit, mbind, st_bind, sget. destruct (submissions s !! oe_id order) as [original|].
  - unfold lift. destruct (ensure _ _); by intros [=].
  - unfold smodify, attempt, lift. destruct (with_core _ _) as [[app|e|] c]; [| by intros [= <- _ _] | by intros [=]].
    unfold submitted, mbind, result_bind. by destruct (map_results _ _); intros [=].
Qed.

Lemma command_rejection command s batch s' position rejection :
  journal_apply command s = (Ok (Applied (Some batch)), s') → EvRejected rejection ∈ batch_events batch position →
  ∃ order, command = CmdSubmit order ∧ EvRejected rejection = order_rejected_event position order.
Proof.
  intros Hrun He. pose proof (outcome_shape _ _ _ _ Hrun) as Hshape.
  destruct batch as [| | |id outs completion| |order' reason]; cbn [batch_events] in He;
    try (by apply list_elem_of_singleton in He).
  - apply elem_of_app in He as [(i & out & _ & ?)%trade_events_elem | He]; [done |].
    destruct completion; [by apply list_elem_of_singleton in He | by apply elem_of_nil in He].
  - destruct command; try done. apply list_elem_of_singleton in He. exists order. split; [done |].
    destruct (journal_cases _ _ _ _ Hrun) as [[_ ?] | (r & Hex & Hp & Hout)]; [done |].
    destruct r as [o|m|]; try done. injection Hout as <-. cbn [execute] in Hex.
    by rewrite He, (execute_rejected _ _ _ _ _ Hex).
Qed.
End event_facts.

(** ** Properties *)

Section event_properties.
Context {E : Externals} {L : DecimalLaws ext_decimal}.

(** C14. What is published about money that moves can be booked as it is: over any history of commands
    from any well-formed state, every number of every event except that of a rejected order is exactly
    a [NUMERIC(30,9)]; a trade has a positive price and quantity, an exact value, and fees that neither
    side's receipts fall short of; in the completion of a market order what was reserved is what was
    used plus what is given back; deposits and withdrawals carry a positive amount, a user, an
    identifier that is not nil and an asset name of at most 128 bytes. The event of a rejected order
    promises nothing about its numbers: it repeats an order of the history exactly as it was submitted. *)
Theorem published_events_typed commands s outcomes s' batch position e :
  state_wf s → run_commands commands s = (Ok outcomes, s') → Applied (Some batch) ∈ outcomes →
  e ∈ batch_events batch position →
  event_typed e ∧
  (∀ rejection, e = EvRejected rejection → ∃ order, CmdSubmit order ∈ commands ∧ e = order_rejected_event position order).
Proof.
  intros Hwf Hrun Hin He. revert s outcomes Hwf Hrun Hin. induction commands as [|command commands IH];
    intros s outcomes Hwf Hrun Hin.
  { injection Hrun as <- <-. by apply elem_of_nil in Hin. }
  cbn [run_commands] in Hrun. apply st_bind_ok in Hrun as (outcome & s1 & Ho & Hrun).
  apply st_bind_ok in Hrun as (rest & s2 & Hrest & Hret). injection Hret as <- <-.
  destruct (journal_step_ok command s Hwf) as (outcome' & s1' & Hstep & Hok). rewrite Ho in Hstep.
    injection Hstep as <- <-.
  apply elem_of_cons in Hin as [<- | Hin].
  - split; [by eapply command_typed |]. intros rejection ->.
    destruct (command_rejection _ _ _ _ _ _ Ho He) as (order & -> & ->). exists order. split; [left | done].
  - destruct (IH _ _ (so_wf _ _ _ _ Hok) Hrest Hin) as [Ht Hr]. split; [done |].
    intros rejection Hrej. destruct (Hr _ Hrej) as (order & Ho' & ->). exists order. split; [by right | done].
Qed.
End event_properties.

(** ** The property at concrete inputs *)

Section event_examples.
#[local] Existing Instance ref_externals.
#[local] Existing Instance ref_decimal_laws.

Definition ex_position : Position := {| po_engine_id := "engine"; po_sequence := 6; po_timestamp := (0 : Z) |}.

(** The trade of the example history, and its event. *)
Definition ex_traded_batch : OutputBatch :=
  match ex_outcomes !! 5%nat with Some (Applied (Some batch)) => batch | _ => BatchCancelled ex_bid end.
Lemma ex_traded_in : Applied (Some ex_traded_batch) ∈ ex_outcomes.
Proof.
  assert (Hgen : ∀ (l : list Outcome) d, match l !! 5%nat with Some (Applied (Some _)) => true | _ => false end = true →
    Applied (Some (match l !! 5%nat with Some (Applied (Some batch)) => batch | _ => d end)) ∈ l).
  { intros l d H. apply (list_elem_of_lookup_2 l 5). by destruct (l !! 5%nat) as [[[batch|]| |]|]. }
  apply Hgen. vm_compute. reflexivity.
Qed.

Lemma published_events_typed_witness : Forall event_typed (batch_events ex_traded_batch ex_position).
Proof.
  apply Forall_forall. intros e He.
  exact (proj1 (published_events_typed ex_history state_new ex_outcomes ex_end ex_traded_batch ex_position e state_wf_new
    ex_history_run ex_traded_in He)).
Defined.
Example ex_traded_events : length (batch_events ex_traded_batch ex_position) = 1%nat.
Proof. vm_compute. reflexivity. Qed.
End event_examples.
