(* ===== verification/EngineLoop.v ===== *)
(** * The engine worker ([runtime/threads.rs], [runtime/commands.rs], [runtime/balance_commands.rs])

    One thread owns the state. It takes requests from two bounded queues, executes them one at a time
    and moves command, outcome and reply to the journal queue without ever blocking on it. The loop is
    a machine that takes one step per blocking point; everything else that happens meanwhile (requests
    arriving, the journal worker taking entries, a shutdown) is a step of its surroundings. *)

From stdpp Require Import base tactics gmap list strings.
From Stdlib Require Import ZArith Lia.
From S2P Require Import Prelude Text Decimals Amount BTree RefDecimal Types BalanceCache OrderBook Matcher Submission State Deposit Withdrawal Cancel Journal History Resting.

Section requests.
Context {E : Externals}.

(** ** The requests; a response channel is a number *)

Inductive BalanceCommand :=
  | BalWithdrawal (command : WithdrawalCommand) (response : Z)
  | BalCreditDeposit (credit : DepositCredit) (response : Z)
  | BalUpdateBalance (user_id : Z) (mint : string) (available_delta : Decimal) (response : Z).

Inductive OrderCommand :=
  | SubmitOrder (order : OrderEntry) (response : Z)
  | CancelOrder (order_id user_id : Z) (trading_pair : TradingPair) (response : Z)
  | GetOrderbook (trading_pair : TradingPair) (depth : option nat) (response : Z)
  | GetBalance (user_id : Z) (mint : string) (response : Z)
  | LockBalance (user_id : Z) (mint : string) (amount : Decimal) (response : Z)
  | UnlockBalance (user_id : Z) (mint : string) (amount : Decimal) (response : Z).

(** What the loop makes of a balance request. *)
Definition balance_request (input : BalanceCommand) : Command * Reply :=
  match input with
  | BalWithdrawal command response => (CmdWithdrawal command, ReplyWithdrawal response)
  | BalUpdateBalance user_id mint delta response => (CmdBalance user_id mint delta, ReplyUnit response)
  | BalCreditDeposit credit response => (CmdCreditDeposit credit, ReplyUnit response)
  end.

(** Without a depth the count is [usize::MAX], more than any queue holds. *)
Definition take_depth {A} (depth : option nat) (l : list A) : list A :=
  match depth with Some count => take count l | None => l end.

(** The orders shown for a market: buys from the highest price, sells from the lowest. *)
Definition book_orders (market : TradingPair) (depth : option nat) (state : EngineState) :
    list OrderEntry * list OrderEntry :=
  match orderbooks (core state) !! market with
  | Some book =>
      (take_depth depth (mjoin (map snd (rev (orders (buy_orders book))))),
       take_depth depth (mjoin (map snd (orders (sell_orders book)))))
  | None => ([], [])
  end.

Definition balance_of (user_id : Z) (mint : string) (state : EngineState) : Decimal * Decimal :=
  match get_balance user_id mint (state_cache state) with
  | Some b => (available b, locked b)
  | None => (dec_zero, dec_zero)
  end.

(** What the loop makes of an order request: a command to execute, or an answer already. *)
Definition order_request (input : OrderCommand) (state : EngineState) : option Command * Reply :=
  match input with
  | SubmitOrder order response => (Some (CmdSubmit order), ReplySubmit response)
  | CancelOrder order_id user_id market response =>
      (Some (CmdCancel order_id user_id market), ReplyCancel response)
  | LockBalance user_id mint amount response => (Some (CmdLock user_id mint amount), ReplyUnit response)
  | UnlockBalance user_id mint amount response => (Some (CmdUnlock user_id mint amount), ReplyUnit response)
  | GetBalance user_id mint response => (None, ReplyBalance response (balance_of user_id mint state))
  | GetOrderbook market depth response => (None, ReplyBook response (book_orders market depth state))
  end.

Inductive Request :=
  | BalanceRequest (input : BalanceCommand)
  | OrderRequest (input : OrderCommand).

Definition request (input : Request) (state : EngineState) : option Command * Reply :=
  match input with
  | BalanceRequest input => let '(command, reply) := balance_request input in (Some command, reply)
  | OrderRequest input => order_request input state
  end.

(** Execute one request: what is published for it. *)
Definition serve (input : Request) : st EngineState Pending :=
  state ← sget;
  let '(command, reply) := request input state in
  outcome ← (match command with
             | Some command => journal_apply command
             | None => mret (Applied None)
             end);
  mret {| p_command := command; p_outcome := outcome; p_reply := reply |}.

(** Serve requests one after the other. *)
Fixpoint serve_all (inputs : list Request) : st EngineState (list Pending) :=
  match inputs with
  | [] => mret []
  | input :: inputs =>
      pending ← serve input;
      rest ← serve_all inputs;
      mret (pending :: rest)
  end.

Definition response_of (input : Request) : Z :=
  match input with
  | BalanceRequest (BalWithdrawal _ r | BalCreditDeposit _ r | BalUpdateBalance _ _ _ r) => r
  | OrderRequest (SubmitOrder _ r | CancelOrder _ _ _ r | GetOrderbook _ _ r | GetBalance _ _ r |
                  LockBalance _ _ _ r | UnlockBalance _ _ _ r) => r
  end.

(** ** The loop *)

(** Where the worker is: at the top of the loop, about to receive an order, returned, or dead. *)
Inductive Pc := AtTop | AtReceive | Returned | Panicked.

Record Worker := mk_worker {
  w_state : EngineState;
  w_orders : list OrderCommand;         (* the receiver [orders] *)
  w_balances : list BalanceCommand;     (* the receiver [balances] *)
  w_journal : option (list Pending);    (* the sender [output]: what it still holds *)
  w_running : bool;
  w_closed : bool;
  w_connected : bool;                   (* some sender of [orders] is alive *)
  w_pc : Pc;
  w_taken : list Request;               (* the requests taken so far *)
  w_published : list Pending;           (* what was published so far *)
}.

Definition set_pc (pc : Pc) (w : Worker) : Worker :=
  mk_worker (w_state w) (w_orders w) (w_balances w) (w_journal w) (w_running w) (w_closed w)
    (w_connected w) pc (w_taken w) (w_published w).

(** Leaving the loop, on any path: the guard [CloseCore] closes the core. *)
Definition leave (pc : Pc) (w : Worker) : Worker :=
  mk_worker (w_state w) (w_orders w) (w_balances w) (w_journal w) (w_running w) true
    (w_connected w) pc (w_taken w) (w_published w).

Section capacity.
(** The capacity of the journal queue. *)
Variable capacity : nat.

Definition is_full (queue : list Pending) : bool := (capacity <=? length queue)%nat.

(** [publish]: a full queue is a failed assertion (the queue is never disconnected, because the
    control object keeps a receiver of its own); without a journal the reply goes out at once. *)
Definition publish (pending : Pending) (w : Worker) : Worker :=
  match w_journal w with
  | Some queue =>
      if is_full queue then leave Panicked w
      else mk_worker (w_state w) (w_orders w) (w_balances w) (Some (queue ++ [pending]))
             (w_running w) (w_closed w) (w_connected w) AtTop (w_taken w) (w_published w ++ [pending])
  | None =>
      mk_worker (w_state w) (w_orders w) (w_balances w) None
        (w_running w) (w_closed w) (w_connected w) AtTop (w_taken w) (w_published w ++ [pending])
  end.

(** Execute a request and publish it. *)
Definition serve_publish (input : Request) (w : Worker) : Worker :=
  match serve input (w_state w) with
  | (Ok pending, state) =>
      publish pending (mk_worker state (w_orders w) (w_balances w) (w_journal w) (w_running w)
        (w_closed w) (w_connected w) (w_pc w) (w_taken w ++ [input]) (w_published w))
  | (_, state) => leave Panicked w
  end.

Definition drop_balance (w : Worker) (rest : list BalanceCommand) : Worker :=
  mk_worker (w_state w) (w_orders w) rest (w_journal w) (w_running w) (w_closed w) (w_connected w)
    (w_pc w) (w_taken w) (w_published w).
Definition drop_order (w : Worker) (rest : list OrderCommand) : Worker :=
  mk_worker (w_state w) rest (w_balances w) (w_journal w) (w_running w) (w_closed w) (w_connected w)
    (w_pc w) (w_taken w) (w_published w).

(** One step of [engine_thread_loop]. *)
Definition worker_next (w : Worker) : Worker :=
  match w_pc w with
  | AtTop =>
      if w_running w && negb (w_closed w) then
        if from_option is_full false (w_journal w) then w
        else match w_balances w with
             | input :: rest => serve_publish (BalanceRequest input) (drop_balance w rest)
             | [] => set_pc AtReceive w
             end
      else leave Returned w
  | AtReceive =>
      match w_orders w with
      | [] => if w_connected w then set_pc AtTop w else leave Returned w
      | input :: rest =>
          if w_closed w || negb (w_running w) then leave Returned (drop_order w rest)
          else serve_publish (OrderRequest input) (drop_order w rest)
      end
  | Returned | Panicked => w
  end.

(** What happens around the worker: requests arrive, the journal worker takes the oldest entry,
    the engine is stopped, a worker closes the core, the last sender goes away. *)
Inductive surroundings : Worker → Worker → Prop :=
  | order_arrives w input :
      surroundings w (drop_order w (w_orders w ++ [input]))
  | balance_arrives w input :
      surroundings w (drop_balance w (w_balances w ++ [input]))
  | journal_takes w pending queue :
      w_journal w = Some (pending :: queue) →
      surroundings w (mk_worker (w_state w) (w_orders w) (w_balances w) (Some queue) (w_running w)
        (w_closed w) (w_connected w) (w_pc w) (w_taken w) (w_published w))
  | stopped w :
      surroundings w (mk_worker (w_state w) (w_orders w) (w_balances w) (w_journal w) false
        (w_closed w) (w_connected w) (w_pc w) (w_taken w) (w_published w))
  | closed w :
      surroundings w (mk_worker (w_state w) (w_orders w) (w_balances w) (w_journal w) (w_running w)
        true (w_connected w) (w_pc w) (w_taken w) (w_published w))
  | disconnected w :
      surroundings w (mk_worker (w_state w) (w_orders w) (w_balances w) (w_journal w) (w_running w)
        (w_closed w) false (w_pc w) (w_taken w) (w_published w)).

Inductive worker_step (w : Worker) : Worker → Prop :=
  | step_worker : worker_step w (worker_next w)
  | step_surroundings w' : surroundings w w' → worker_step w w'.

(** A worker that starts on a state, with or without a journal. *)
Definition worker_start (state : EngineState) (journal : bool) : Worker :=
  mk_worker state [] [] (if journal then Some [] else None) true false true AtTop [] [].

Definition reachable (state : EngineState) (journal : bool) : Worker → Prop :=
  rtc worker_step (worker_start state journal).
End capacity.
End requests.

Section loop_facts.
Context {E : Externals} {L : DecimalLaws ext_decimal}.

(** Serving is total on well-formed states and keeps them well-formed. *)
Lemma serve_run input s :
  state_wf s → ∃ p s', serve input s = (Ok p, s') ∧ state_wf s' ∧ (finish p).1 = response_of input.
Proof.
  intros Hwf. unfold serve. unfold mbind at 1, st_bind at 1, sget.
  destruct (request input s) as [command reply] eqn:Hreq.
  assert (Hresp : ∀ outcome, (finish {| p_command := command; p_outcome := outcome;
    p_reply := reply |}).1 = response_of input).
  { intros outcome. destruct input as [[]|[]]; cbn in Hreq; simplify_eq; done. }
  destruct command as [command|].
  - destruct (journal_step_ok command s Hwf) as (outcome & s' & Hrun & Hok).
    unfold mbind, st_bind. rewrite Hrun. do 2 eexists. split; [done |]. split; [apply Hok | apply Hresp].
  - do 2 eexists. split; [done |]. split; [done | apply Hresp].
Qed.

Lemma serve_all_app inputs input s ps s1 p s2 :
  serve_all inputs s = (Ok ps, s1) → serve input s1 = (Ok p, s2) →
  serve_all (inputs ++ [input]) s = (Ok (ps ++ [p]), s2).
Proof.
  revert s ps. induction inputs as [|i inputs IH]; intros s ps Hall Hone.
  - injection Hall as <- <-. cbn. unfold mbind, st_bind. by rewrite Hone.
  - cbn [serve_all app] in *. apply st_bind_ok in Hall as (p0 & s0 & Hp0 & Hall).
    apply st_bind_ok in Hall as (rest & s3 & Hrest & Hret). injection Hret as <- <-.
    unfold mbind, st_bind. rewrite Hp0, (IH _ _ Hrest Hone). done.
Qed.

(** The requests can be served in two parts. *)
Lemma serve_all_split inputs1 inputs2 s ps s2 :
  serve_all (inputs1 ++ inputs2) s = (Ok ps, s2) →
  ∃ ps1 ps2 s1, ps = ps1 ++ ps2 ∧ serve_all inputs1 s = (Ok ps1, s1) ∧ serve_all inputs2 s1 = (Ok ps2, s2).
Proof.
  revert s ps. induction inputs1 as [|i inputs1 IH]; intros s ps Hall; [by exists [], ps, s |].
  cbn [serve_all app] in *. apply st_bind_ok in Hall as (p0 & s0 & Hp0 & Hall).
  apply st_bind_ok in Hall as (rest & s3 & Hrest & Hret). injection Hret as <- <-.
  destruct (IH _ _ Hrest) as (ps1 & ps2 & s1 & -> & H1 & H2).
  exists (p0 :: ps1), ps2, s1. split_and!; [done | | done]. unfold mbind, st_bind. by rewrite Hp0, H1.
Qed.

Definition recorded (p : Pending) : option (Command * Outcome) :=
  match p_command p with Some command => Some (command, p_outcome p) | None => None end.

(** The commands that were published, executed again, give the published outcomes and the same state. *)
Lemma served_replays inputs s ps s' :
  serve_all inputs s = (Ok ps, s') →
  run_commands (map fst (omap recorded ps)) s = (Ok (map snd (omap recorded ps)), s').
Proof.
  revert s ps. induction inputs as [|input inputs IH]; intros s ps Hall; [by injection Hall as <- <- |].
  cbn [serve_all] in Hall. apply st_bind_ok in Hall as (p & s1 & Hp & Hall).
  apply st_bind_ok in Hall as (rest & s2 & Hrest & Hret). injection Hret as <- <-.
  specialize (IH _ _ Hrest). unfold serve in Hp. unfold mbind at 1, st_bind at 1, sget in Hp.
  destruct (request input s) as [[command|] reply]; apply st_bind_ok in Hp as (outcome & s3 & Ho & Hp);
    injection Hp as <- <-; cbn [omap list_omap recorded p_command p_outcome map run_commands].
  - unfold mbind, st_bind. cbn. unfold mbind, st_bind. by rewrite Ho, IH.
  - injection Ho as <- <-. done.
Qed.

(** What holds of a worker at every moment. *)
Record worker_ok (capacity : nat) (state : EngineState) (w : Worker) : Prop := {
  wo_alive : w_pc w ≠ Panicked;
  wo_state : state_wf (w_state w);
  wo_served : serve_all (w_taken w) state = (Ok (w_published w), w_state w);
  wo_queue : ∀ queue, w_journal w = Some queue → ∃ gone, w_published w = gone ++ queue;
  wo_room : ∀ queue, w_pc w = AtReceive → w_journal w = Some queue → is_full capacity queue = false;
  wo_responses : map (fun p => (finish p).1) (w_published w) = map response_of (w_taken w);
}.

Lemma serve_publish_ok capacity state w input :
  worker_ok capacity state w → (∀ queue, w_journal w = Some queue → is_full capacity queue = false) →
  worker_ok capacity state (serve_publish capacity input w).
Proof.
  intros [H1 H2 H3 H4 H5 H6] Hroom. unfold serve_publish.
  destruct (serve_run input (w_state w) H2) as (p & s' & Hrun & Hwf & Hresp). rewrite Hrun.
  unfold publish. cbn [w_journal w_state w_orders w_balances w_running w_closed w_connected w_pc w_taken w_published].
  assert (Hall : serve_all (w_taken w ++ [input]) state = (Ok (w_published w ++ [p]), s')) by by eapply serve_all_app.
  assert (Hmap : map (fun p => (finish p).1) (w_published w ++ [p]) = map response_of (w_taken w ++ [input])).
  { rewrite !map_app, H6. cbn. by rewrite Hresp. }
  destruct (w_journal w) as [queue|] eqn:Hj.
  - rewrite (Hroom queue eq_refl). split; cbn; try done.
    intros q [= <-]. destruct (H4 queue eq_refl) as [gone ->]. exists gone. by rewrite app_assoc.
  - split; cbn; done.
Qed.

Lemma worker_ok_next capacity state w : worker_ok capacity state w → worker_ok capacity state (worker_next capacity w).
Proof.
  intros Hok. pose proof Hok as [H1 H2 H3 H4 H5 H6]. unfold worker_next.
  destruct (w_pc w) eqn:Hpc; [| | done..].
  - destruct (w_running w && negb (w_closed w)); [| by split].
    destruct (from_option (is_full capacity) false (w_journal w)) eqn:Hfull; [done |].
    assert (Hroom : ∀ queue, w_journal w = Some queue → is_full capacity queue = false).
    { intros queue Hq. by rewrite Hq in Hfull. }
    destruct (w_balances w) as [|input rest]; [by split; try (intros; by apply Hroom) |].
    apply serve_publish_ok; [| done]. split; cbn; try done; by rewrite Hpc.
  - destruct (w_orders w) as [|input rest].
    + destruct (w_connected w); by split.
    + destruct (w_closed w || negb (w_running w)); [by split |].
      apply serve_publish_ok; [| intros queue Hq; by apply H5]. split; cbn; try done; by rewrite Hpc.
Qed.

Lemma worker_ok_surroundings capacity state w w' :
  worker_ok capacity state w → surroundings w w' → worker_ok capacity state w'.
Proof.
  intros [H1 H2 H3 H4 H5 H6] Hstep. destruct Hstep as [w input | w input | w pending queue Hq | w | w | w];
    try by split.
  split; cbn; try done.
  - intros q [= <-]. destruct (H4 _ Hq) as [gone ->]. exists (gone ++ [pending]). by rewrite <- app_assoc.
  - intros q Hpc [= <-]. specialize (H5 _ Hpc Hq). unfold is_full in *. cbn in H5.
    apply Nat.leb_gt in H5. apply Nat.leb_gt. lia.
Qed.

Lemma worker_ok_reachable capacity state journal w :
  (0 < capacity)%nat → state_wf state → reachable capacity state journal w → worker_ok capacity state w.
Proof.
  intros Hcap Hwf Hreach.
  assert (Hinv : ∀ x y, rtc (worker_step capacity) x y → worker_ok capacity state x → worker_ok capacity state y).
  { induction 1 as [x | x y z Hxy _ IH]; [done |]. intros Hx. apply IH.
    destruct Hxy; [by apply worker_ok_next | by eapply worker_ok_surroundings]. }
  apply (Hinv _ _ Hreach). split; cbn; try done. intros queue Hq. exists []. by destruct journal; simplify_eq.
Qed.

End loop_facts.

(** ** Properties *)

Section loop_properties.
Context {E : Externals} {L : DecimalLaws ext_decimal}.

(** C9. The worker is a sequential server: whatever arrives and whenever the journal is drained or
    the engine is stopped, the worker never panics (in particular the room it saw in the journal
    queue is still there when it publishes), what it has published is exactly what serving the
    requests it took one after the other produces, its state is the state after them and is
    well-formed, each request has one reply on its own channel in order, and the journal queue is
    the tail of what was published. *)
Theorem worker_serves_sequentially capacity state journal w :
  (0 < capacity)%nat → state_wf state → reachable capacity state journal w →
  w_pc w ≠ Panicked ∧ state_wf (w_state w) ∧
  serve_all (w_taken w) state = (Ok (w_published w), w_state w) ∧
  map (fun p => (finish p).1) (w_published w) = map response_of (w_taken w) ∧
  (∀ queue, w_journal w = Some queue → ∃ gone, w_published w = gone ++ queue).
Proof. intros Hcap Hwf Hreach. by destruct (worker_ok_reachable _ _ _ _ Hcap Hwf Hreach). Qed.

(** The published log determines the state: executing just the published commands again, from
    the state the worker started on, reproduces every published outcome and the worker's state. *)
Theorem published_log_replays capacity state journal w :
  (0 < capacity)%nat → state_wf state → reachable capacity state journal w →
  let log := omap recorded (w_published w) in
  run_commands (map fst log) state = (Ok (map snd log), w_state w).
Proof.
  intros Hcap Hwf Hreach log. eapply served_replays.
    exact (wo_served _ _ _ (worker_ok_reachable _ _ _ _ Hcap Hwf Hreach)).
Qed.

(** The reason an answer gives, if it is an error. *)
Definition answer_error (a : Answer) : option string :=
  match a with
  | AnswerUnit (Err e) | AnswerOrder (Err e) | AnswerBook (Err e) | AnswerBalance (Err e) => Some e
  | _ => None
  end.

(** A reply tells the outcome: the answer to a request is an error exactly when its command
    failed or was a withdrawal refused for want of money, with that reason; an order that was
    accepted but whose execution was rejected is still acknowledged; and a cancellation that is not
    refused is answered with the order it cancelled, never with "Invalid cancellation outcome". *)
Theorem reply_tells_outcome input s p s' :
  serve input s = (Ok p, s') →
  (finish p).1 = response_of input ∧
  answer_error (finish p).2 =
    match p_outcome p with
    | Failed reason | Applied (Some (WithdrawalRejected _ reason)) => Some reason
    | _ => None
    end ∧
  match (finish p).2 with
  | AnswerOrder (Ok order) => p_outcome p = Applied (Some (BatchCancelled order)) ∨ p_outcome p = DuplicateCancellation order
  | _ => True
  end.
Proof.
  unfold serve. unfold mbind at 1, st_bind at 1, sget. destruct (request input s) as [command reply] eqn:Hreq.
  intros Hrun. apply st_bind_ok in Hrun as (outcome & s1 & Ho & Hp). injection Hp as <- <-.
  assert (Hshape : match command with Some command => shape_ok command outcome | None => outcome = Applied None end).
  { destruct command; [by eapply outcome_shape | by injection Ho as <- _]. }
  clear Ho. unfold request in Hreq. destruct input as [[]|[]]; cbn in Hreq; injection Hreq as <- <-; cbn in Hshape |- *;
    repeat case_match; subst; try discriminate; try done; split_and!; solve [auto | congruence | simplify_eq; auto].
Qed.
End loop_properties.

(** ** The properties at concrete inputs *)

Section loop_examples.
#[local] Existing Instance ref_externals.
#[local] Existing Instance ref_decimal_laws.

(** A worker with room for two entries that gets a credit and a query. *)
Definition ex_update : BalanceCommand := BalUpdateBalance 20 "USDT" (dz "20") 1.
Definition ex_query : OrderCommand := GetBalance 20 "USDT" 2.
Definition ex_worker0 : Worker := worker_start state_new true.
Definition ex_worker1 : Worker := drop_balance ex_worker0 (w_balances ex_worker0 ++ [ex_update]).
Definition ex_worker2 : Worker := drop_order ex_worker1 (w_orders ex_worker1 ++ [ex_query]).
Definition ex_worker3 : Worker := worker_next 2 (worker_next 2 (worker_next 2 ex_worker2)).

Lemma ex_worker3_reachable : reachable 2 state_new true ex_worker3.
Proof.
  apply (rtc_l (worker_step 2) ex_worker0 ex_worker1);
    [exact (step_surroundings 2 _ _ (balance_arrives ex_worker0 ex_update)) |].
  apply (rtc_l (worker_step 2) ex_worker1 ex_worker2);
    [exact (step_surroundings 2 _ _ (order_arrives ex_worker1 ex_query)) |].
  unfold ex_worker3. generalize ex_worker2 as w. intros w.
  do 3 (eapply rtc_l; [apply step_worker |]). apply rtc_refl.
Qed.

Example ex_worker3_published :
  match map (fun p => (finish p).2) (w_published ex_worker3) with
  | [AnswerUnit r; AnswerBalance (Ok v)] => (is_ok r, dec_to_string v.1)
  | _ => (false, "")
  end%string = (true, "20")%string.
Proof. vm_compute. reflexivity. Qed.

Lemma worker_serves_sequentially_witness :
  w_pc ex_worker3 ≠ Panicked ∧ state_wf (w_state ex_worker3) ∧
  map (fun p => (finish p).1) (w_published ex_worker3) = map response_of (w_taken ex_worker3).
Proof.
  destruct (worker_serves_sequentially 2 state_new true ex_worker3) as (H1 & H2 & _ & H3 & _);
    [lia | apply state_wf_new | apply ex_worker3_reachable |]. split; [exact H1 | split; [exact H2 | exact H3]].
Defined.

Lemma published_log_replays_witness :
  run_commands (map fst (omap recorded (w_published ex_worker3))) state_new =
  (Ok (map snd (omap recorded (w_published ex_worker3))), w_state ex_worker3).
Proof.
  exact (published_log_replays 2 state_new true ex_worker3 (Nat.lt_0_succ 1) state_wf_new ex_worker3_reachable).
Defined.

Definition ex_served : Pending :=
  get_ok {| p_command := None; p_outcome := Applied None; p_reply := ReplyUnit 0 |}
    (serve (OrderRequest (CancelOrder 1 11 ex_pair 7)) ex_opened).1.
Lemma ex_serve_run :
  serve (OrderRequest (CancelOrder 1 11 ex_pair 7)) ex_opened =
  (Ok ex_served, (serve (OrderRequest (CancelOrder 1 11 ex_pair 7)) ex_opened).2).
Proof. apply get_run. vm_compute. reflexivity. Qed.

Lemma reply_tells_outcome_witness :
  (finish ex_served).1 = 7 ∧ answer_error (finish ex_served).2 = Some "Unauthorized cancellation"%string.
Proof.
  destruct (reply_tells_outcome _ _ _ _ ex_serve_run) as (H1 & H2 & _). split; [exact H1 |].
  rewrite H2. vm_compute. reflexivity.
Defined.
End loop_examples.
