(* ===== verification/Store.v ===== *)
(** * The journal on disk ([runtime/journal/store.rs])

    The journal is one SQLite database with three tables: the starting balances ([genesis]), one
    immutable row per executed command ([records]) and the delivery cursor ([delivery]). The tables
    are modelled by their rows and the statements by what they do to them; JSON, SHA-256 and the UUID
    syntax are parameters with the one law that is used: what was written is read back. *)

From stdpp Require Import base tactics gmap list strings sorting.
From Stdlib Require Import ZArith Lia.
From S2P Require Import Prelude Text Decimals Amount BTree RefDecimal Types BalanceCache OrderBook Matcher Submission State Deposit Withdrawal Cancel Journal History EngineLoop.

(** ** What is written *)

Section records.
Context {E : Externals}.

Record Genesis := { gn_version : Z; gn_engine_id : string; gn_balances : list seed_row }.

Record Record_ := mk_record {
  r_sequence : Z;
  r_timestamp : Timestamp;
  r_command : Command;
  r_outcome : Outcome;
}.
End records.

(** [serde_json], [sha2] and [uuid], as far as the journal uses them. *)
Class JournalFormat (E : Externals) := {
  Payload : Type;                          (* JSON text *)
  genesis_json : Genesis → Payload;        (* [serde_json::to_string], [serde_json::from_str] *)
  genesis_parse : Payload → option Genesis;
  record_json : Record_ → Payload;
  record_parse : Payload → option Record_;
  Json : Type;
  json_eq_dec :: EqDecision Json;
  outcome_value : Outcome → Json;          (* [serde_json::to_value] *)
  Digest : Type;
  digest_eq_dec :: EqDecision Digest;
  digest : Payload → Digest;               (* [Sha256::digest] *)
  uuid_parses : string → bool;             (* [Uuid::parse_str(..).is_ok()] *)
}.

Class JournalFormatLaws {E : Externals} (F : JournalFormat E) : Prop := {
  genesis_roundtrip g : genesis_parse (genesis_json g) = Some g;
  record_roundtrip r : record_parse (record_json r) = Some r;
}.

Section store.
Context {E : Externals} {F : JournalFormat E}.

(** ** The tables *)

(** A row: the payload and its checksum. *)
Definition row : Type := Payload * Digest.

Record Store := mk_store {
  s_genesis : option row;                  (* at most one row: the key is checked to be 1 *)
  s_records : list (Z * row);              (* by ascending sequence, the primary key *)
  s_delivery : Z;                          (* the one row of [delivery] *)
}.

(** [CREATE TABLE ..; INSERT INTO delivery VALUES(1,0)]. *)
Definition store_new : Store := mk_store None [] 0.

(** [INSERT INTO records]: the key must be positive and new. *)
Fixpoint insert_row (sequence : Z) (r : row) (rows : list (Z * row)) : option (list (Z * row)) :=
  match rows with
  | [] => Some [(sequence, r)]
  | (key, old) :: rest =>
      if sequence <? key then Some ((sequence, r) :: rows)
      else if sequence =? key then None
      else match insert_row sequence r rest with
           | Some rest => Some ((key, old) :: rest)
           | None => None
           end
  end.
Definition insert_record (sequence : Z) (r : row) (rows : list (Z * row)) : result (list (Z * row)) :=
  _ ← ensure (0 <? sequence) "CHECK constraint failed";
  ok_or (insert_row sequence r rows) "UNIQUE constraint failed".

Definition out_of_range : string := "out of range integral type conversion attempted".
(** [i64::try_from] of a [u64], [u64::try_from] of an [i64]. *)
Definition i64_of_u64 (n : Z) : result Z := if n <=? I64_MAX then Ok n else Err out_of_range.
Definition u64_of_i64 (n : Z) : result Z := if 0 <=? n then Ok n else Err out_of_range.

(** [decode]. *)
Definition decode {A} (parse : Payload → option A) (r : row) : result A :=
  _ ← ensure (bool_decide (digest r.1 = r.2)) "Journal checksum mismatch";
  ok_or (parse r.1) "Invalid journal record".

(** ** Reading *)

(** [last_sequence]: [SELECT coalesce(max(sequence),0)]. *)
Definition last_sequence (s : Store) : result Z :=
  u64_of_i64 (foldr (fun r m => Z.max r.1 m) 0 (s_records s)).

Definition delivered (s : Store) : result Z := u64_of_i64 (s_delivery s).

Definition initialized (s : Store) : result bool :=
  match s_genesis s with
  | Some _ => Ok true
  | None =>
      last ← last_sequence s;
      cursor ← (if last =? 0 then delivered s else Ok 1);
      _ ← ensure ((last =? 0) && (cursor =? 0)) "Journal has records without genesis";
      Ok false
  end.

Definition find_row (sequence : Z) (rows : list (Z * row)) : option row :=
  snd <$> List.find (fun r => r.1 =? sequence) rows.

Definition read (sequence : Z) (s : Store) : result Record_ :=
  key ← i64_of_u64 sequence;
  r ← ok_or (find_row key (s_records s)) "Query returned no rows";
  record ← decode record_parse r;
  _ ← ensure (r_sequence record =? sequence) "Journal sequence mismatch";
  Ok record.

(** ** Writing *)

(** [initialize]: the seed of the balances, and nothing else, becomes the genesis. *)
Definition initialize (engine_id : string) (state : EngineState) : st Store unit :=
  s ← sget;
  started ← lift (initialized s);
  _ ← lift (ensure (negb started) "Journal already initialized");
  _ ← lift (ensure (bool_decide (deposit_receipts state = ∅) && bool_decide (withdrawal_receipts state = ∅) &&
                    bool_decide (submissions state = ∅) && bool_decide (cancellations state = ∅) &&
                    bool_decide (orderbooks (core state) = ∅))
              "Genesis cannot replace executed financial history");
  let genesis := {| gn_version := 4; gn_engine_id := engine_id;
                    gn_balances := journal_seed (state_cache state) |} in
  let payload := genesis_json genesis in
  sput (mk_store (Some (payload, digest payload)) (s_records s) (s_delivery s)).

(** [mark_delivered]: the cursor moves by one, from the sequence before. *)
Definition mark_delivered (sequence : Z) : st Store unit :=
  s ← sget;
  new ← lift (i64_of_u64 sequence);
  before ← lift (usize_sub sequence 1);
  old ← lift (i64_of_u64 before);
  let changed := s_delivery s =? old in
  _ ← sput (if changed then mk_store (s_genesis s) (s_records s) new else s);
  lift (ensure changed "Non-contiguous delivery cursor").

(** The loop of [append]: every entry with a command becomes the next record; [now] gives the clock
    reading of a sequence. *)
Fixpoint append_rows (now : Z → Timestamp) (pending : list Pending) (next : Z) (rows : list (Z * row)) :
    result (Z * list (Z * row)) :=
  match pending with
  | [] => Ok (next, rows)
  | item :: pending =>
      match p_command item with
      | None => append_rows now pending next rows
      | Some command =>
          next ← ok_or (u64_checked_add next 1) "Journal sequence exhausted";
          let payload := record_json (mk_record next (now next) command (p_outcome item)) in
          key ← i64_of_u64 next;
          rows ← insert_record key (payload, digest payload) rows;
          append_rows now pending next rows
      end
  end.

(** How the commit of a transaction may end: done; failed and rolled back; or reported as failed
    although the rows are there. *)
Inductive Commit := Committed | RolledBack | CommittedUnreported.

(** [append]: one transaction; the sequence advances only when the commit is reported. *)
Definition append (now : Z → Timestamp) (commit : Commit) (pending : list Pending) (sequence : Z) :
    st Store Z :=
  s ← sget;
  '(next, rows) ← lift (append_rows now pending sequence (s_records s));
  _ ← sput (match commit with
            | RolledBack => s
            | _ => mk_store (s_genesis s) rows (s_delivery s)
            end);
  match commit with
  | Committed => mret next
  | _ => lift (Err "commit failed")
  end.

(** ** Recovery *)

(** The loop over the genesis balances. *)
Fixpoint seed_balances (rows : list seed_row) : st EngineState unit :=
  match rows with
  | [] => mret tt
  | ((user, mint), (available, locked)) :: rows =>
      _ ← lift (ensure ((0 <? user) && negb (is_empty mint) && String.eqb (trim mint) mint &&
                        dec_eqb locked dec_zero)
                  "Invalid genesis account");
      _ ← lift (units available);
      state ← sget;
      _ ← lift (ensure (bool_decide (get_balance user mint (state_cache state) = None)) "Duplicate genesis account");
      _ ← with_cache (smodify (set_balance user mint available locked));
      seed_balances rows
  end.

(** The loop over the records: replay, and compare with what was recorded. *)
Fixpoint replay (rows : list (Z * row)) (next : Z) : st EngineState Z :=
  match rows with
  | [] => mret next
  | (key, r) :: rows =>
      sequence ← lift (u64_of_i64 key);
      _ ← lift (ensure (sequence =? next) "Journal sequence gap");
      record ← lift (decode record_parse r);
      _ ← lift (ensure (r_sequence record =? sequence) "Journal sequence mismatch");
      replayed ← journal_apply (r_command record);
      _ ← lift (ensure (bool_decide (outcome_value replayed = outcome_value (r_outcome record)))
                  ("Journal replay differs at sequence " +:+ show_int sequence));
      replay rows (next + 1)
  end.

(** [recover]. *)
Definition recover (s : Store) : result (EngineState * string) :=
  r ← ok_or (s_genesis s) "Query returned no rows";
  genesis ← decode genesis_parse r;
  _ ← ensure ((gn_version genesis =? 4) && uuid_parses (gn_engine_id genesis)) "Unsupported journal genesis";
  let '(seeded, state) := seed_balances (gn_balances genesis) state_new in
  _ ← seeded;
  let '(replayed, state) := replay (s_records s) 1 state in
  next ← replayed;
  cursor ← delivered s;
  _ ← ensure (cursor <? next) "Delivery cursor is ahead of journal";
  Ok (state, gn_engine_id genesis).
End store.

Section store_facts.
Context {E : Externals} {L : DecimalLaws ext_decimal} {F : JournalFormat E} {FL : JournalFormatLaws F}.

(** What was written is decoded. *)
Lemma decode_written r : decode record_parse (record_json r, digest (record_json r)) = Ok r.
Proof. unfold decode. cbn. by rewrite bool_decide_true, record_roundtrip. Qed.
Lemma decode_genesis g : decode genesis_parse (genesis_json g, digest (genesis_json g)) = Ok g.
Proof. unfold decode. cbn. by rewrite bool_decide_true, genesis_roundtrip. Qed.

(** The keys of a journal that replays are an unbroken sequence. *)
Lemma replay_keys rows next s n s' :
  replay rows next s = (Ok n, s') →
  n = next + Z.of_nat (length rows) ∧ map fst rows = seqZ next (Z.of_nat (length rows)).
Proof.
  revert next s. induction rows as [|[key r] rows IH]; intros next s Hrun.
  { injection Hrun as <- <-. split; [cbn; lia | done]. }
  cbn [replay] in Hrun.
  apply st_bind_ok in Hrun as (sequence & s0 & [Hu ->]%lift_run & Hrun).
  apply st_bind_ok in Hrun as (u & s1 & [Hseq ->]%lift_run & Hrun).
  apply st_bind_ok in Hrun as (record & s1 & [_ ->]%lift_run & Hrun).
  apply st_bind_ok in Hrun as (u1 & s1 & [_ ->]%lift_run & Hrun).
  apply st_bind_ok in Hrun as (replayed & s1 & _ & Hrun).
  apply st_bind_ok in Hrun as (u2 & s2 & _ & Hrun).
  apply IH in Hrun as [-> Hk]. inv_ok. unfold u64_of_i64 in Hu. destruct (0 <=? key); [| done]. injection Hu as ->.
  cbn [length map fst]. split; [lia |]. rewrite Hk, Nat2Z.inj_succ, (seqZ_cons next) by lia.
  f_equal. f_equal; lia.
Qed.

Lemma replay_app rows more next s n s1 :
  replay rows next s = (Ok n, s1) → replay (rows ++ more) next s = replay more n s1.
Proof.
  revert next s. induction rows as [|[key r] rows IH]; intros next s Hrun; [by injection Hrun as <- <- |].
  cbn [replay app] in *.
  apply st_bind_ok in Hrun as (sequence & s0 & H0 & Hrun). unfold mbind at 1, st_bind at 1. rewrite H0.
  apply st_bind_ok in Hrun as (u & s2 & H2 & Hrun). unfold mbind at 1, st_bind at 1. rewrite H2.
  apply st_bind_ok in Hrun as (record & s3 & H3 & Hrun). unfold mbind at 1, st_bind at 1. rewrite H3.
  apply st_bind_ok in Hrun as (u1 & s4 & H4 & Hrun). unfold mbind at 1, st_bind at 1. rewrite H4.
  apply st_bind_ok in Hrun as (replayed & s5 & H5 & Hrun). unfold mbind at 1, st_bind at 1. rewrite H5.
  apply st_bind_ok in Hrun as (u2 & s6 & H6 & Hrun). unfold mbind at 1, st_bind at 1. rewrite H6.
  by apply IH.
Qed.

(** Replaying keeps the state well-formed. *)
Lemma replay_wf rows next s n s' : state_wf s → replay rows next s = (Ok n, s') → state_wf s'.
Proof.
  revert next s. induction rows as [|[key r] rows IH]; intros next s Hwf Hrun; [by injection Hrun as <- <- |].
  cbn [replay] in Hrun.
  apply st_bind_ok in Hrun as (sequence & s0 & [_ ->]%lift_run & Hrun).
  apply st_bind_ok in Hrun as (u & s1 & [_ ->]%lift_run & Hrun).
  apply st_bind_ok in Hrun as (record & s1 & [_ ->]%lift_run & Hrun).
  apply st_bind_ok in Hrun as (u1 & s1 & [_ ->]%lift_run & Hrun).
  apply st_bind_ok in Hrun as (replayed & s1 & Happ & Hrun).
  apply st_bind_ok in Hrun as (u2 & s2 & [_ ->]%lift_run & Hrun).
  destruct (journal_step_ok (r_command record) s Hwf) as (o & s'' & Happ' & Hok). rewrite Happ in Happ'.
  injection Happ' as <- <-. eapply IH; [apply Hok | exact Hrun].
Qed.

(** The state the genesis describes. *)
Lemma seed_balances_wf rows s s' :
  state_wf s → seed_balances rows s = (Ok tt, s') → state_wf s'.
Proof.
  revert s. induction rows as [|[[user mint] [av lo]] rows IH]; intros s Hwf Hrun; [by injection Hrun as <- |].
  cbn [seed_balances] in Hrun.
  apply st_bind_ok in Hrun as (u & s1 & [Hacc ->]%lift_run & Hrun).
  apply st_bind_ok in Hrun as (x & s1 & [Hx ->]%lift_run & Hrun).
  apply st_bind_ok in Hrun as (c & s1 & Hget & Hrun). unfold sget in Hget. injection Hget as <- <-.
  apply st_bind_ok in Hrun as (u' & s1 & [_ ->]%lift_run & Hrun).
  apply st_bind_ok in Hrun as ([] & s1 & Hset & Hrun). rewrite with_cache_run in Hset. cbn in Hset.
    injection Hset as <-.
  eapply IH; [| exact Hrun]. apply (state_wf_money s); try done. apply set_balance_wf; [apply Hwf |].
  inv_ok. rewrite dec_eqb_raw, zero_raw in *. apply units_ok in Hx.
  split; [by exists x | exists 0; apply in_units_zero]. cbn. lia.
Qed.

Lemma recover_run store s id :
  recover store = Ok (s, id) →
  ∃ s0 next, (∀ rows cursor, recover (mk_store (s_genesis store) rows cursor) =
      (let '(replayed, state) := replay rows 1 s0 in
       next ← replayed; cursor ← u64_of_i64 cursor;
       _ ← ensure (cursor <? next) "Delivery cursor is ahead of journal";
       Ok (state, id))) ∧
    state_wf s0 ∧ replay (s_records store) 1 s0 = (Ok next, s) ∧ delivered store = Ok (s_delivery store) ∧ s_delivery store < next.
Proof.
  unfold recover. intros H. apply bind_ok in H as (r & Hr & H). apply ok_or_ok in Hr.
  apply bind_ok in H as (g & Hg & H). apply bind_ok in H as (u & Hu & H).
  destruct (seed_balances (gn_balances g) state_new) as [seeded s0] eqn:Hseed.
  apply bind_ok in H as ([] & -> & H).
  destruct (replay (s_records store) 1 s0) as [replayed s1] eqn:Hrep.
  apply bind_ok in H as (next & -> & H). apply bind_ok in H as (cursor & Hcur & H).
  apply bind_ok in H as (u' & Hlt & H). injection H as <- <-. apply ensure_ok in Hlt.
  assert (cursor = s_delivery store) as ->.
  { unfold delivered, u64_of_i64 in Hcur. destruct (0 <=? s_delivery store); [by injection Hcur | done]. }
  exists s0, next. split_and!; [| | done | done | lia].
  - intros rows c. cbn [s_genesis s_records]. rewrite Hr. cbn [ok_or mbind result_bind]. rewrite Hg.
    cbn [mbind result_bind]. rewrite Hu. cbn [mbind result_bind]. by rewrite Hseed.
  - eapply seed_balances_wf; [apply state_wf_new | exact Hseed].
Qed.

(** The highest key of an unbroken sequence. *)
Lemma max_key (rows : list (Z * row)) n :
  map fst rows = seqZ 1 n → Z.of_nat (length rows) = n → foldr (fun r m => Z.max r.1 m) 0 rows = n.
Proof.
  assert (Hgen : ∀ a, 0 <= a → map fst rows = seqZ (a + 1) (Z.of_nat (length rows)) →
    foldr (fun r m => Z.max r.1 m) a rows = a + Z.of_nat (length rows) ∧
    ∀ b, b ≤ a → foldr (fun r m => Z.max r.1 m) b rows = match rows with [] => b | _ => a + Z.of_nat (length rows) end).
  { induction rows as [|[k r] rows IH]; intros a Ha Hk; [split; [cbn; lia | done] |].
    cbn [length map fst] in Hk. rewrite Nat2Z.inj_succ, seqZ_cons in Hk by lia. injection Hk as -> Hk.
    rewrite Z.pred_succ in Hk. destruct (IH (a + 1)) as [H1 H2]; [lia | by rewrite Hk; f_equal; lia |].
    cbn [foldr fst length]. split.
    - rewrite (H2 a) by lia. destruct rows; cbn [length]; lia.
    - intros b Hb. rewrite (H2 b) by lia. destruct rows; cbn [length]; lia. }
  intros Hk Hlen. destruct (Hgen 0) as [H _]; [lia | by rewrite Hlen | lia].
Qed.

Lemma last_sequence_recovered store s id :
  recover store = Ok (s, id) →
  last_sequence store = Ok (Z.of_nat (length (s_records store))) ∧
  map fst (s_records store) = seqZ 1 (Z.of_nat (length (s_records store))).
Proof.
  intros (s0 & next & _ & _ & Hrep & _)%recover_run. apply replay_keys in Hrep as [_ Hk].
  split; [| done]. unfold last_sequence. rewrite (max_key _ _ Hk eq_refl). unfold u64_of_i64.
  by rewrite (proj2 (Z.leb_le 0 _)) by lia.
Qed.

(** A key above all others is inserted at the end. *)
Lemma insert_row_last sequence r rows :
  Forall (fun k => k < sequence) (map fst rows) → insert_row sequence r rows = Some (rows ++ [(sequence, r)]).
Proof.
  induction rows as [|[k old] rows IH]; [done |]. cbn. intros [Hk Hrows]%Forall_cons.
  rewrite (proj2 (Z.ltb_ge _ _)) by lia. rewrite (proj2 (Z.eqb_neq _ _)) by lia. by rewrite IH.
Qed.

(** One more command at the end of a journal. *)
Lemma replay_snoc rows s0 s command outcome s' n time :
  replay rows 1 s0 = (Ok n, s) → 0 < n → journal_apply command s = (Ok outcome, s') →
  let payload := record_json (mk_record n time command outcome) in
  replay (rows ++ [(n, (payload, digest payload))]) 1 s0 = (Ok (n + 1), s').
Proof.
  intros Hrep Hn Happ payload. rewrite (replay_app _ _ _ _ _ _ Hrep). cbn [replay].
  unfold mbind, st_bind, lift. unfold u64_of_i64. rewrite (proj2 (Z.leb_le 0 n)) by lia.
  rewrite Z.eqb_refl. cbn [ensure]. unfold payload. rewrite decode_written. cbn [r_sequence r_command r_outcome].
  rewrite Z.eqb_refl. cbn [ensure]. rewrite Happ, bool_decide_true by done. done.
Qed.

(** Appending what was served: the journal then replays to the state after serving. *)
Lemma append_rows_replays now inputs s ps s' rows s0 n next rows' :
  serve_all inputs s = (Ok ps, s') → replay rows 1 s0 = (Ok (n + 1), s) → 0 ≤ n →
  append_rows now ps n rows = Ok (next, rows') →
  replay rows' 1 s0 = (Ok (next + 1), s') ∧ n ≤ next.
Proof.
  revert s ps rows n. induction inputs as [|input inputs IH]; intros s ps rows n Hall Hrep Hn Happ.
  { injection Hall as <- <-. injection Happ as <- <-. done. }
  cbn [serve_all] in Hall. apply st_bind_ok in Hall as (p & s1 & Hp & Hall).
  apply st_bind_ok in Hall as (rest & s2 & Hrest & Hret). injection Hret as <- <-.
  unfold serve in Hp. unfold mbind at 1, st_bind at 1, sget in Hp.
  destruct (request input s) as [[command|] reply]; apply st_bind_ok in Hp as (outcome & s3 & Ho & Hp);
    injection Hp as <- <-; cbn [append_rows p_command p_outcome] in Happ.
  - apply bind_ok in Happ as (m & Hm & Happ). apply ok_or_ok in Hm. unfold u64_checked_add in Hm.
    destruct (_ <=? U64_MAX); [| done]. injection Hm as <-.
    apply bind_ok in Happ as (key & Hkey & Happ). unfold i64_of_u64 in Hkey. destruct (_ <=? I64_MAX); [| done].
    injection Hkey as <-. apply bind_ok in Happ as (rows1 & Hins & Happ).
    unfold insert_record in Hins. apply bind_ok in Hins as (u & _ & Hins). apply ok_or_ok in Hins.
    rewrite insert_row_last in Hins; cycle 1.
    { destruct (replay_keys _ _ _ _ _ Hrep) as [Hlen ->]. apply Forall_forall. intros k Hk%elem_of_seqZ. lia. }
    injection Hins as <-.
    assert (Hrep1 := replay_snoc rows s0 s command outcome s3 (n + 1) (now (n + 1)) Hrep ltac:(lia) Ho).
    destruct (IH s3 rest _ (n + 1) Hrest Hrep1 ltac:(lia) Happ) as [H1 H2]. split; [done | lia].
  - injection Ho as <- <-. by eapply IH.
Qed.

(** How many entries of a group become records. *)
Definition commands_in (ps : list Pending) : Z := Z.of_nat (length (omap p_command ps)).

(** The rows are made exactly as long as their sequences fit into the column. *)
Lemma append_rows_total now ps n rows :
  map fst rows = seqZ 1 n → 0 ≤ n →
  ((0 < commands_in ps → n + commands_in ps ≤ I64_MAX) → ∃ rows', append_rows now ps n rows = Ok (n + commands_in ps, rows')) ∧
  (0 < commands_in ps → I64_MAX < n + commands_in ps → ∃ error, append_rows now ps n rows = Err error).
Proof.
  unfold commands_in. revert n rows. induction ps as [|p ps IH]; intros n rows Hkeys Hn.
  { cbn. rewrite Z.add_0_r. split; [by exists rows | lia]. }
  cbn [append_rows omap list_omap]. destruct (p_command p) as [command|]; [| by apply IH].
  cbn [length]. rewrite Nat2Z.inj_succ. set (m := Z.of_nat (length _)) in *.
  replace (n + Z.succ m) with (n + 1 + m) by lia. unfold u64_checked_add, i64_of_u64.
  destruct (Z.leb_spec (n + 1) U64_MAX) as [_|Hu]; cycle 1.
  { unfold U64_MAX, I64_MAX in *. split; [lia |]. intros _ _. by eexists. }
  cbn [ok_or mbind result_bind]. destruct (Z.leb_spec (n + 1) I64_MAX) as [Hi|Hi]; cycle 1.
  { split; [lia |]. intros _ _. by eexists. }
  cbn [mbind result_bind]. unfold insert_record. rewrite (proj2 (Z.ltb_lt 0 (n + 1))) by lia.
  cbn [ensure mbind result_bind]. rewrite insert_row_last; cycle 1.
  { rewrite Hkeys. apply Forall_forall. intros k Hk%elem_of_seqZ. lia. }
  cbn [ok_or mbind result_bind].
  assert (Hnext : ∀ r : row, map fst (rows ++ [(n + 1, r)]) = seqZ 1 (n + 1)).
  { intros r. rewrite map_app, Hkeys, seqZ_app by lia. cbn. by rewrite Z.add_comm. }
  match goal with |- context [rows ++ [(_, ?r)]] => destruct (IH (n + 1) _ (Hnext r) ltac:(lia)) as [H1 H2] end.
  split; [intros; apply H1; lia |].
  intros _ Hover. destruct (Z.eq_dec m 0) as [Hm|]; [lia | apply H2; lia].
Qed.

(** The two tables that [append] does not touch. *)
Lemma append_run now commit ps n store r store' :
  append now commit ps n store = (r, store') →
  store' = store ∨
  ∃ next rows, append_rows now ps n (s_records store) = Ok (next, rows) ∧
    store' = mk_store (s_genesis store) rows (s_delivery store) ∧ (r = Ok next ∨ is_ok r = false).
Proof.
  unfold append, mbind, st_bind, sget, lift. destruct (append_rows now ps n (s_records store)) as [[next rows]| |];
    [| intros [= <- <-]; by left..].
  cbn. destruct commit; cbn; intros [= <- <-]; [right | by left | right]; exists next, rows; by auto.
Qed.

Lemma recover_append store s id now inputs ps s' n next rows :
  recover store = Ok (s, id) → last_sequence store = Ok n → serve_all inputs s = (Ok ps, s') →
  append_rows now ps n (s_records store) = Ok (next, rows) →
  recover (mk_store (s_genesis store) rows (s_delivery store)) = Ok (s', id) ∧
  last_sequence (mk_store (s_genesis store) rows (s_delivery store)) = Ok next.
Proof.
  intros Hrec Hlast Hall Happ. destruct (last_sequence_recovered _ _ _ Hrec) as [Hlast' _].
  rewrite Hlast in Hlast'. injection Hlast' as ->.
  destruct (recover_run _ _ _ Hrec) as (s0 & next0 & Heq & Hwf & Hrep & Hdel & Hlt).
  pose proof (replay_keys _ _ _ _ _ Hrep) as [Hnext _].
  assert (next0 = Z.of_nat (length (s_records store)) + 1) as -> by lia.
  destruct (append_rows_replays _ _ _ _ _ _ _ _ _ _ Hall Hrep ltac:(lia) Happ) as [Hrep' Hle].
  assert (Hrec' : recover (mk_store (s_genesis store) rows (s_delivery store)) = Ok (s', id)).
  { rewrite Heq, Hrep'. cbn [mbind result_bind]. unfold delivered in Hdel. rewrite Hdel. cbn [mbind result_bind].
    by rewrite (proj2 (Z.ltb_lt _ _)) by lia. }
  split; [done |]. destruct (last_sequence_recovered _ _ _ Hrec') as [-> _]. cbn [s_records].
  pose proof (replay_keys _ _ _ _ _ Hrep') as [Hlen _]. f_equal. lia.
Qed.

(** What a cache must be to serve as a starting point: every account is valid and nothing is locked. *)
Definition seedable (c : BalanceCache) : Prop :=
  ∀ user mint b, balances c !! (user, mint) = Some b →
    0 < user ∧ is_empty mint = false ∧ trim mint = mint ∧ raw (locked b) = 0 ∧ ∃ a, in_units (available b) a.

Lemma seed_balances_run (rows : list (account * Balance)) s :
  NoDup rows.*1 → (∀ k b, (k, b) ∈ rows → balances (state_cache s) !! k = None) →
  (∀ user mint b, (user, mint, b) ∈ rows →
    0 < user ∧ is_empty mint = false ∧ trim mint = mint ∧ raw (locked b) = 0 ∧ ∃ a, in_units (available b) a) →
  seed_balances (map (fun row => (row.1, (available row.2, locked row.2))) rows) s =
  (Ok tt, set_state_cache (mk_cache (insert_all rows (balances (state_cache s)))) s).
Proof.
  revert s. induction rows as [|[[user mint] b] rows IH]; intros s Hnd Hnew Hval.
  { cbn. by destruct s as [? ? ? ? [? [[]]]]. }
  cbn in Hnd. apply NoDup_cons in Hnd as [Hk Hnd].
  destruct (Hval user mint b ltac:(left)) as (Hu & He & Ht & Hl & a & Ha).
  cbn [map seed_balances fst snd]. unfold mbind, st_bind, lift, sget.
  rewrite (proj2 (Z.ltb_lt 0 user)), He, Ht, String.eqb_refl, dec_eqb_raw, zero_raw, Hl by done.
  cbn [andb negb ensure Z.eqb]. rewrite (proj2 (units_ok _ _) Ha).
  unfold get_balance. rewrite (Hnew (user, mint) b ltac:(left)). rewrite bool_decide_true by done. cbn [ensure].
  rewrite with_cache_run. cbn [smodify].
  fold (seed_balances (E := E)). rewrite IH; [| done | |].
  - change (state_cache (set_state_cache ?c s)) with c. by destruct b.
  - intros k b' Hin. change (state_cache (set_state_cache ?c s)) with c. cbn.
    rewrite lookup_insert_ne; [by eapply Hnew; right |]. intros Heq. apply Hk. rewrite Heq.
      by apply (list_elem_of_fmap_2 fst) in Hin.
  - intros u m b' Hin. apply (Hval u m b'). by right.
Qed.

(** The seed lists the rows of the cache, in the order of the accounts. *)
Lemma journal_seed_rows c :
  ∃ rows, journal_seed c = map (fun row => (row.1, (available row.2, locked row.2))) rows ∧ rows ≡ₚ map_to_list (balances c).
Proof.
  unfold journal_seed.
  pose proof (merge_sort_Permutation seed_le (map (fun row => (row.1, (available row.2,
    locked row.2))) (map_to_list (balances c)))) as Hp.
  apply Permutation_map_inv in Hp as (rows & Hr & Hperm). exists rows. split; [done | by symmetry].
Qed.

Lemma insert_all_map (m : gmap account Balance) rows : rows ≡ₚ map_to_list m → insert_all rows ∅ = m.
Proof.
  intros Hp. apply map_eq. intros k.
  assert (Hnd : NoDup rows.*1) by (rewrite Hp; apply NoDup_fst_map_to_list).
  rewrite insert_all_lookup by done. rewrite (list_to_map_proper rows (map_to_list m)) by done.
  rewrite list_to_map_to_list, lookup_empty. by destruct (m !! k).
Qed.
End store_facts.

Section read_facts.
Context {E : Externals} {L : DecimalLaws ext_decimal} {F : JournalFormat E} {FL : JournalFormatLaws F}.

(** Every record of a journal that replays can be read by its sequence. *)
Lemma replay_reads rows next s n s' k :
  replay rows next s = (Ok n, s') → 0 ≤ next → next ≤ k < n →
  ∃ r record, find_row k rows = Some r ∧ decode record_parse r = Ok record ∧ r_sequence record = k.
Proof.
  revert next s. induction rows as [|[key r] rows IH]; intros next s Hrun H0 Hk; [injection Hrun as <- <-; lia |].
  pose proof (replay_keys _ _ _ _ _ Hrun) as [_ Hkeys]. cbn [length map fst] in Hkeys.
  rewrite Nat2Z.inj_succ, seqZ_cons in Hkeys by lia. injection Hkeys as -> _.
  cbn [replay] in Hrun.
  apply st_bind_ok in Hrun as (sequence & s0 & [Hu ->]%lift_run & Hrun).
  apply st_bind_ok in Hrun as (u & s1 & [Hseq ->]%lift_run & Hrun).
  apply st_bind_ok in Hrun as (record & s1 & [Hdec ->]%lift_run & Hrun).
  apply st_bind_ok in Hrun as (u1 & s1 & [Hsame ->]%lift_run & Hrun).
  apply st_bind_ok in Hrun as (replayed & s1 & _ & Hrun).
  apply st_bind_ok in Hrun as (u2 & s2 & _ & Hrun).
  apply ensure_ok, Z.eqb_eq in Hseq. apply ensure_ok, Z.eqb_eq in Hsame. unfold find_row. cbn [List.find fst].
  destruct (Z.eqb_spec next k) as [->|Hne].
  - exists r, record. cbn. split; [done |]. split; [done |]. congruence.
  - apply (IH (next + 1) s2); [done | lia | lia].
Qed.

Lemma recovered_reads store s id k :
  recover store = Ok (s, id) → 1 ≤ k ≤ Z.of_nat (length (s_records store)) → k ≤ I64_MAX →
  ∃ record, read k store = Ok record ∧ r_sequence record = k.
Proof.
  intros Hrec Hk Hmax. destruct (recover_run _ _ _ Hrec) as (s0 & next & _ & _ & Hrep & _).
  destruct (replay_keys _ _ _ _ _ Hrep) as [Hn _].
  destruct (replay_reads _ _ _ _ _ k Hrep ltac:(lia) ltac:(lia)) as (r & record & Hf & Hdec & Hseq).
  exists record. unfold read, i64_of_u64. rewrite (proj2 (Z.leb_le _ _)) by done. cbn [mbind result_bind].
  rewrite Hf. cbn [ok_or mbind result_bind]. rewrite Hdec. cbn [mbind result_bind]. by rewrite Hseq, Z.eqb_refl.
Qed.
End read_facts.

(** ** Properties *)

Section store_properties.
Context {E : Externals} {L : DecimalLaws ext_decimal} {F : JournalFormat E} {FL : JournalFormatLaws F}.

(** C10. The journal remembers everything that was appended. A journal recovers to a state, requests
    are served from that state and what was published is appended; [next] is the last sequence plus the
    number of published commands. If the transaction is committed, reported or not, and the new sequences
    fit into 63 bits, the journal recovers to exactly the state after those requests with [next] as its
    last sequence; a reported commit returns it, an unreported one is an error. If the transaction is
    rolled back or the new sequences do not fit, nothing is written and an error is returned. There is no
    other case. *)
Theorem append_then_recover store s id inputs ps s' now commit n r store' :
  recover store = Ok (s, id) → last_sequence store = Ok n → serve_all inputs s = (Ok ps, s') →
  append now commit ps n store = (r, store') →
  let next := n + commands_in ps in
  let fits := 0 < commands_in ps → next ≤ I64_MAX in
  (commit ≠ RolledBack → fits →
     recover store' = Ok (s', id) ∧ last_sequence store' = Ok next ∧
     r = match commit with Committed => Ok next | _ => Err "commit failed" end) ∧
  (commit = RolledBack ∨ ¬ fits → store' = store ∧ ∃ error, r = Err error).
Proof.
  intros Hrec Hlast Hall Happ next fits.
  destruct (last_sequence_recovered _ _ _ Hrec) as [Hlast' Hkeys]. rewrite Hlast in Hlast'. injection Hlast' as Hn.
  rewrite <- Hn in Hkeys. destruct (append_rows_total now ps n (s_records store) Hkeys ltac:(lia)) as [Hfit Hover].
  fold next fits in Hfit, Hover. unfold append, mbind, st_bind, sget, lift in Happ.
  assert (Hcase : fits ∨ 0 < commands_in ps ∧ I64_MAX < next) by (unfold fits; lia).
  destruct Hcase as [Hle|[Hc Hgt]].
  - destruct (Hfit Hle) as [rows Hrows]. rewrite Hrows in Happ.
    destruct (recover_append _ _ _ _ _ _ _ _ _ _ Hrec Hlast Hall Hrows) as [Hrec' Hlast'].
    cbn in Happ. destruct commit; cbn in Happ; injection Happ as <- <-; (split; [done |]); intros Hcase;
      [by destruct Hcase | split; [done |]; by eexists | by destruct Hcase].
  - destruct (Hover Hc Hgt) as [e He]. rewrite He in Happ. injection Happ as <- <-. split.
    + intros _ Hf. specialize (Hf Hc). lia.
    + intros _. split; [done |]. by exists e.
Qed.

(** C18. Whatever recovers is sound: the state is well-formed, the sequences of the records are
    1, 2, .. without a gap, every one of them can be read back under its own number, and the delivery
    cursor is not ahead of them. *)
Theorem recovered_journal_sound store s id :
  recover store = Ok (s, id) →
  let n := Z.of_nat (length (s_records store)) in
  state_wf s ∧ map fst (s_records store) = seqZ 1 n ∧ last_sequence store = Ok n ∧
  (∃ cursor, delivered store = Ok cursor ∧ 0 ≤ cursor ≤ n) ∧
  (∀ k, 1 ≤ k ≤ n → k ≤ I64_MAX → ∃ record, read k store = Ok record ∧ r_sequence record = k).
Proof.
  intros Hrec n. destruct (last_sequence_recovered _ _ _ Hrec) as [Hlast Hkeys].
  destruct (recover_run _ _ _ Hrec) as (s0 & next & _ & Hwf & Hrep & Hdel & Hlt).
  destruct (replay_keys _ _ _ _ _ Hrep) as [Hn _]. split_and!; [| done | done | |].
  - by eapply replay_wf.
  - exists (s_delivery store). split; [done |]. unfold delivered, u64_of_i64 in Hdel.
    destruct (Z.leb_spec 0 (s_delivery store)); [lia | done].
  - intros k Hk Hmax. by eapply recovered_reads.
Qed.

(** Initializing an empty journal and recovering it. *)
Lemma genesis_run c engine_id :
  seedable c → uuid_parses engine_id = true →
  let start := mk_state ∅ ∅ ∅ ∅ (mk_core ∅ (mk_executor c)) in
  ∃ store, initialize engine_id start store_new = (Ok tt, store) ∧ recover store = Ok (start, engine_id).
Proof.
  intros Hseed Hid start. unfold initialize, mbind, st_bind, sget, lift.
  cbn [initialized store_new s_genesis last_sequence s_records foldr delivered s_delivery mbind result_bind
    u64_of_i64 Z.leb Z.compare Z.eqb andb ensure negb].
  rewrite !bool_decide_true by done. cbn [andb ensure]. unfold sput. eexists. split; [done |].
  unfold recover. cbn [s_genesis s_records ok_or mbind result_bind]. rewrite decode_genesis.
  cbn [mbind result_bind gn_version gn_engine_id gn_balances]. rewrite Hid. cbn [Z.eqb andb ensure Pos.eqb].
  destruct (journal_seed_rows (state_cache start)) as (rows & -> & Hperm).
  change (balances (state_cache start)) with (balances c) in Hperm.
  rewrite seed_balances_run.
  - change (balances (state_cache state_new)) with (∅ : gmap account Balance). rewrite (insert_all_map _ _ Hperm).
    cbn [replay mret st_ret mbind result_bind delivered s_delivery u64_of_i64 Z.leb Z.compare Z.ltb ensure].
    by destruct c.
  - rewrite Hperm. apply NoDup_fst_map_to_list.
  - intros k b _. apply lookup_empty.
  - intros user mint b Hin. rewrite Hperm, elem_of_map_to_list in Hin. by apply Hseed in Hin.
Qed.
(** The starting balances survive the genesis: a cache whose accounts are valid and have nothing
    locked initializes an empty journal, and recovering it gives back exactly that cache and nothing
    else. *)
Theorem genesis_recovers c engine_id :
  seedable c → uuid_parses engine_id = true →
  let start := mk_state ∅ ∅ ∅ ∅ (mk_core ∅ (mk_executor c)) in
  ∃ store, initialize engine_id start store_new = (Ok tt, store) ∧ recover store = Ok (start, engine_id).
Proof. apply genesis_run. Qed.
End store_properties.

(** ** The properties at concrete inputs *)

Section store_examples.
#[local] Existing Instance ref_externals.
#[local] Existing Instance ref_decimal_laws.

(** A format whose text is the value itself. *)
Definition ref_format : JournalFormat ref_externals := {|
  Payload := Genesis + Record_;
  genesis_json := inl;
  genesis_parse p := match p with inl g => Some g | inr _ => None end;
  record_json := inr;
  record_parse p := match p with inr r => Some r | inl _ => None end;
  Json := string;
  outcome_value := outcome_kind;
  Digest := Z;
  digest p := match p with inl g => gn_version g | inr r => r_sequence r end;
  uuid_parses := String.eqb "engine";
|}.
#[local] Existing Instance ref_format.

Lemma ref_format_laws : JournalFormatLaws ref_format.
Proof. by split. Qed.
#[local] Existing Instance ref_format_laws.

Definition ex_seed : BalanceCache := set_balance 20 "USDT" (dz "20") (dz "0") cache_new.
Definition ex_start : EngineState := mk_state ∅ ∅ ∅ ∅ (mk_core ∅ (mk_executor ex_seed)).

Lemma ex_seedable : seedable ex_seed.
Proof.
  intros user mint b Hb. unfold ex_seed, set_balance in Hb. cbn [balances] in Hb.
    apply lookup_insert_Some in Hb as [[Hk <-] | [_ Hb]]; [| cbn in Hb; by apply lookup_empty_Some in Hb].
  injection Hk as <- <-. split_and!; [lia | done | by vm_compute | by vm_compute |].
  exists (20 * 10 ^ 9). by vm_compute.
Qed.

Lemma genesis_recovers_witness :
  ∃ store, initialize "engine" ex_start store_new = (Ok tt, store) ∧ recover store = Ok (ex_start, "engine"%string).
Proof. exact (genesis_recovers ex_seed "engine" ex_seedable eq_refl). Defined.

Definition ex_store : Store := (initialize "engine" ex_start store_new).2.
Lemma ex_store_recovers : recover ex_store = Ok (ex_start, "engine"%string).
Proof.
  unfold ex_store.
  assert (H : ∀ p : result unit * Store, (∃ store, p = (Ok tt, store) ∧ recover store = Ok (ex_start,
    "engine"%string)) →
    recover p.2 = Ok (ex_start, "engine"%string)) by (intros p (store & -> & Hr); exact Hr).
  apply H. exact (genesis_run ex_seed "engine" ex_seedable eq_refl).
Qed.

Lemma ex_start_wf : state_wf ex_start.
Proof.
  destruct (recover_run _ _ _ ex_store_recovers) as (s0 & next & _ & Hwf & Hrep & _).
  by eapply replay_wf.
Qed.

Lemma recovered_journal_sound_witness : state_wf ex_start ∧ last_sequence ex_store = Ok 0.
Proof.
  destruct (recovered_journal_sound _ _ _ ex_store_recovers) as (H1 & _ & H2 & _). split; [exact H1 | exact H2].
Defined.

(** One request served and its command appended. *)
Definition ex_inputs : list Request := [OrderRequest ex_query; BalanceRequest ex_update].
Definition ex_ps : list Pending := get_ok [] (serve_all ex_inputs ex_start).1.
Definition ex_served_state : EngineState := (serve_all ex_inputs ex_start).2.
Definition ex_clock (n : Z) : @Timestamp ref_externals := n.
Definition ex_appended : Store := (append ex_clock Committed ex_ps 0 ex_store).2.
Definition ex_next : Z := get_ok 0 (append ex_clock Committed ex_ps 0 ex_store).1.

Lemma ex_serve_all_run : serve_all ex_inputs ex_start = (Ok ex_ps, ex_served_state).
Proof. apply (get_run [] (serve_all ex_inputs) ex_start). vm_compute. reflexivity. Qed.

Lemma ex_append_run : append ex_clock Committed ex_ps 0 ex_store = (Ok ex_next, ex_appended).
Proof. apply (get_run 0 (append ex_clock Committed ex_ps 0) ex_store). vm_compute. reflexivity. Qed.

Example ex_next_one : ex_next = 1.
Proof. vm_compute. reflexivity. Qed.

Lemma ex_last_sequence : last_sequence ex_store = Ok 0.
Proof. by destruct (last_sequence_recovered _ _ _ ex_store_recovers) as [-> _]. Qed.

(** The same group when the commit is rolled back. *)
Definition ex_rolled_back := append ex_clock RolledBack ex_ps 0 ex_store.

Lemma append_then_recover_witness :
  (recover ex_appended = Ok (ex_served_state, "engine"%string) ∧ last_sequence ex_appended = Ok 1) ∧ ex_rolled_back.2 = ex_store.
Proof.
  assert (Hcount : commands_in ex_ps = 1) by (vm_compute; reflexivity).
  pose proof (append_then_recover _ _ _ _ _ _ _ _ _ _ _ ex_store_recovers ex_last_sequence ex_serve_all_run ex_append_run)
    as [H1 _].
  pose proof (append_then_recover _ _ _ _ _ _ ex_clock RolledBack _ ex_rolled_back.1 ex_rolled_back.2
    ex_store_recovers ex_last_sequence ex_serve_all_run (surjective_pairing _)) as [_ H2].
  cbn zeta in H1, H2. rewrite Hcount in H1, H2. split.
  - destruct H1 as (Ha & Hb & _); [discriminate | intros _; unfold I64_MAX; lia |]. split; [exact Ha | exact Hb].
  - apply H2. left. reflexivity.
Defined.
End store_examples.
