(* ===== verification/Durability.v ===== *)
(** * The journal worker and crashes ([run] of [runtime/journal/store.rs])

    A second thread takes what the engine worker publishes, appends it in groups, one transaction per
    group, and answers the requests only after the commit. Both threads run against each other here;
    a crash is the loss of everything but the store, at any moment. *)

From stdpp Require Import base tactics gmap list strings.
From Stdlib Require Import ZArith Lia.
From S2P Require Import Prelude Text Decimals Amount BTree RefDecimal Types BalanceCache OrderBook Matcher Submission State Deposit Withdrawal Cancel Journal History EngineLoop Store.

Section system.
Context {E : Externals} {F : JournalFormat E}.
(** The capacity of the journal queue and the clock. *)
Variable capacity : nat.
Variable now : Z → Timestamp.

(** Where the journal worker is: waiting for an entry, collecting a group, about to commit it,
    answering it; stopped by an error (the guard closes the core), or finished. *)
Inductive Phase :=
  | Receiving
  | Grouping (group : list Pending)
  | Appending (group : list Pending)
  | Answering (group : list Pending)
  | JournalFailed
  | JournalDone.

Record System := mk_system {
  y_worker : Worker;
  y_store : Store;
  y_sequence : Z;                      (* the local [sequence] *)
  y_durable : Z;                       (* [progress.durable] *)
  y_phase : Phase;
  y_answers : list (Z * Answer);       (* what was sent on the reply channels *)
}.

(** The worker after the journal took from its queue, or closed the core. *)
Definition with_journal (queue : list Pending) (w : Worker) : Worker :=
  mk_worker (w_state w) (w_orders w) (w_balances w) (Some queue) (w_running w) (w_closed w)
    (w_connected w) (w_pc w) (w_taken w) (w_published w).
Definition close_core (w : Worker) : Worker :=
  mk_worker (w_state w) (w_orders w) (w_balances w) (w_journal w) (w_running w) true
    (w_connected w) (w_pc w) (w_taken w) (w_published w).

(** The sender is gone: the engine worker left its loop. *)
Definition sender_gone (w : Worker) : bool :=
  match w_pc w with Returned | Panicked => true | _ => false end.

(** One step of [run]; [commit] is how the transaction ends, where there is one. *)
Definition journal_next (commit : Commit) (y : System) : System :=
  let queue := default [] (w_journal (y_worker y)) in
  match y_phase y with
  | Receiving =>
      match queue with
      | first :: queue =>
          mk_system (with_journal queue (y_worker y)) (y_store y) (y_sequence y) (y_durable y)
            (Grouping [first]) (y_answers y)
      | [] =>
          if sender_gone (y_worker y)
          then mk_system (y_worker y) (y_store y) (y_sequence y) (y_durable y) JournalDone (y_answers y)
          else y
      end
  | Grouping group =>
      match queue with
      | next :: queue =>
          if (length group <? 256)%nat
          then mk_system (with_journal queue (y_worker y)) (y_store y) (y_sequence y) (y_durable y)
                 (Grouping (group ++ [next])) (y_answers y)
          else mk_system (y_worker y) (y_store y) (y_sequence y) (y_durable y) (Appending group) (y_answers y)
      | [] => mk_system (y_worker y) (y_store y) (y_sequence y) (y_durable y) (Appending group) (y_answers y)
      end
  | Appending group =>
      match append now commit group (y_sequence y) (y_store y) with
      | (Ok next, store) => mk_system (y_worker y) store next next (Answering group) (y_answers y)
      | (_, store) =>
          mk_system (close_core (y_worker y)) store (y_sequence y) (y_durable y) JournalFailed (y_answers y)
      end
  | Answering (item :: group) =>
      mk_system (y_worker y) (y_store y) (y_sequence y) (y_durable y) (Answering group)
        (y_answers y ++ [finish item])
  | Answering [] =>
      mk_system (y_worker y) (y_store y) (y_sequence y) (y_durable y) Receiving (y_answers y)
  | JournalFailed | JournalDone => y
  end.

Definition set_worker (w : Worker) (y : System) : System :=
  mk_system w (y_store y) (y_sequence y) (y_durable y) (y_phase y) (y_answers y).

(** The two threads and what happens around them; only the journal worker takes from the queue. *)
Inductive system_step (y : System) : System → Prop :=
  | step_engine : system_step y (set_worker (worker_next capacity (y_worker y)) y)
  | step_around w : surroundings (y_worker y) w → w_journal w = w_journal (y_worker y) →
      system_step y (set_worker w y)
  | step_journal commit : system_step y (journal_next commit y).

(** A start on a recovered journal. *)
Definition system_start (store : Store) (state : EngineState) (sequence : Z) : System :=
  mk_system (worker_start state true) store sequence sequence Receiving [].
End system.

Section durability.
Context {E : Externals} {L : DecimalLaws ext_decimal} {F : JournalFormat E} {FL : JournalFormatLaws F}.
Variable capacity : nat.
Variable now : Z → Timestamp.

(** One step of the engine worker, as far as the journal can see it. *)
Lemma worker_next_publishes w state queue :
  worker_ok capacity state w → w_journal w = Some queue →
  (w_taken (worker_next capacity w) = w_taken w ∧ w_published (worker_next capacity w) = w_published w ∧
   w_journal (worker_next capacity w) = Some queue) ∨
  ∃ input p, w_taken (worker_next capacity w) = w_taken w ++ [input] ∧
    w_published (worker_next capacity w) = w_published w ++ [p] ∧
    w_journal (worker_next capacity w) = Some (queue ++ [p]).
Proof.
  intros Hok Hj. pose proof (worker_ok_next _ _ _ Hok) as Hok'. revert Hok'. unfold worker_next.
  assert (Hpub : ∀ input v, w_journal v = Some queue → w_taken v = w_taken w → w_published v = w_published w →
    w_pc (serve_publish capacity input v) ≠ Panicked →
    ∃ input' p, w_taken (serve_publish capacity input v) = w_taken w ++ [input'] ∧
      w_published (serve_publish capacity input v) = w_published w ++ [p] ∧
      w_journal (serve_publish capacity input v) = Some (queue ++ [p])).
  { intros input v Hv Ht Hp. unfold serve_publish. destruct (serve input (w_state v)) as [[p|e|] s'];
    [| by intros []..].
    unfold publish. cbn [w_journal]. rewrite Hv. destruct (is_full capacity queue); [by intros [] |].
    intros _. exists input, p. cbn. by rewrite Ht, Hp. }
  destruct (w_pc w) eqn:Hpc; [| | by left..].
  - destruct (w_running w && negb (w_closed w)); [| by left].
    destruct (from_option (is_full capacity) false (w_journal w)); [by left |].
    destruct (w_balances w) as [|input rest]; [by left |]. intros Hok'. right. apply Hpub; [done.. |]. apply Hok'.
  - destruct (w_orders w) as [|input rest]; [destruct (w_connected w); by left |].
    destruct (w_closed w || negb (w_running w)); [by left |]. intros Hok'. right. apply Hpub; [done.. |]. apply Hok'.
Qed.

(** What the journal has in hand, and what it still has to answer. *)
Definition in_hand (phase : Phase) : list Pending :=
  match phase with Grouping group | Appending group => group | _ => [] end.
Definition unanswered (phase : Phase) : list Pending :=
  match phase with Answering group => group | _ => [] end.

(** The invariant: what was written is a prefix of what was published, the store recovers to the state
    after it, and what was answered is a prefix of what was written. *)
Record system_ok (state : EngineState) (id : string) (y : System) : Prop := {
  sy_worker : worker_ok capacity state (y_worker y);
  sy_progress : ∃ queue inputs1 inputs2 written s answered later lost,
    w_journal (y_worker y) = Some queue ∧
    w_taken (y_worker y) = inputs1 ++ inputs2 ∧
    serve_all inputs1 state = (Ok written, s) ∧
    recover (y_store y) = Ok (s, id) ∧
    w_published (y_worker y) = written ++ lost ++ in_hand (y_phase y) ++ queue ∧
    written = answered ++ unanswered (y_phase y) ++ later ∧
    y_answers y = map finish answered ∧
    (y_phase y = JournalFailed ∨
     (lost = [] ∧ later = [] ∧ last_sequence (y_store y) = Ok (y_sequence y) ∧ y_durable y = y_sequence y));
  sy_done : y_phase y = JournalDone → w_journal (y_worker y) = Some [] ∧ sender_gone (y_worker y) = true;
}.

Lemma serve_all_length inputs s ps s' : serve_all inputs s = (Ok ps, s') → length ps = length inputs.
Proof.
  revert s ps. induction inputs as [|i inputs IH]; intros s ps Hall; [by injection Hall as <- <- |].
  cbn [serve_all] in Hall. apply st_bind_ok in Hall as (p & s1 & _ & Hall).
  apply st_bind_ok in Hall as (rest & s2 & Hrest & Hret). injection Hret as <- <-. cbn. f_equal. by eapply IH.
Qed.

(** The part of what was served that belongs to the first requests. *)
Lemma serve_all_prefix inputs1 inputs2 s ps1 more s1 s' :
  serve_all (inputs1 ++ inputs2) s = (Ok (ps1 ++ more), s') → serve_all inputs1 s = (Ok ps1, s1) →
  serve_all inputs2 s1 = (Ok more, s').
Proof.
  intros Hall H1. destruct (serve_all_split _ _ _ _ _ Hall) as (qs1 & qs2 & s2 & Heq & Hq1 & Hq2).
  rewrite H1 in Hq1. injection Hq1 as <- <-. by apply app_inv_head in Heq as <-.
Qed.

Lemma serve_all_cut inputs s group rest s' :
  serve_all inputs s = (Ok (group ++ rest), s') →
  ∃ inputs1 inputs2 s1, inputs = inputs1 ++ inputs2 ∧ serve_all inputs1 s = (Ok group, s1).
Proof.
  intros Hall. exists (take (length group) inputs), (drop (length group) inputs).
  rewrite <- (take_drop (length group) inputs) in Hall.
  destruct (serve_all_split _ _ _ _ _ Hall) as (qs1 & qs2 & s2 & Heq & Hq1 & _).
  exists s2. split; [by rewrite take_drop |]. rewrite Hq1. f_equal. f_equal.
  apply serve_all_length in Hq1 as Hl. apply serve_all_length in Hall as Hl2.
  rewrite length_take in Hl. rewrite take_drop, length_app in Hl2.
  symmetry. apply (app_inj_1 group qs1 rest qs2); [lia | done].
Qed.

(** A worker that left its loop does nothing more. *)
Lemma worker_next_gone w : sender_gone w = true → worker_next capacity w = w.
Proof. unfold sender_gone, worker_next. by destruct (w_pc w). Qed.

Lemma system_ok_engine state id y :
  system_ok state id y → system_ok state id (set_worker (worker_next capacity (y_worker y)) y).
Proof.
  intros [Hw (queue & i1 & i2 & written & s & answered & later & lost & Hj & Ht & Hserve & Hrec & Hp & Hwr & Ha &
    Hrest) Hdone].
  split; [by apply worker_ok_next | | ]; cycle 1.
  { cbn. intros Hph. destruct (Hdone Hph) as [Hq Hgone]. by rewrite (worker_next_gone _ Hgone). }
  cbn [set_worker y_worker y_store y_sequence y_durable y_phase y_answers].
  destruct (worker_next_publishes _ _ _ Hw Hj) as [(H1 & H2 & H3) | (input & p & H1 & H2 & H3)].
  - exists queue, i1, i2, written, s, answered, later, lost. by rewrite H1, H2.
  - exists (queue ++ [p]), i1, (i2 ++ [input]), written, s, answered, later, lost. rewrite H1, H2, H3, Ht, Hp.
    rewrite <- !app_assoc. done.
Qed.

Lemma system_ok_around state id y w :
  system_ok state id y → surroundings (y_worker y) w → w_journal w = w_journal (y_worker y) →
  system_ok state id (set_worker w y).
Proof.
  intros [Hw Hpr Hdone] Hs Hj. split; [by eapply worker_ok_surroundings | |]; cycle 1.
  { cbn. intros Hph. destruct (Hdone Hph) as [Hq Hgone]. split; [by rewrite Hj |]. by destruct Hs. }
  destruct Hpr as (queue & i1 & i2 & written & s & answered & later & lost & Hq & Hrest).
  exists queue, i1, i2, written, s, answered, later, lost. cbn. rewrite Hj. split; [done |].
  assert (w_taken w = w_taken (y_worker y) ∧ w_published w = w_published (y_worker y)) as [-> ->]
    by by destruct Hs. done.
Qed.

(** Taking the head of the queue is one of the surroundings of the engine worker. *)
Lemma worker_ok_taken state w p queue :
  worker_ok capacity state w → w_journal w = Some (p :: queue) → worker_ok capacity state (with_journal queue w).
Proof. intros Hok Hj. eapply worker_ok_surroundings; [done |]. by eapply journal_takes. Qed.

(** Two runs of requests, one after the other. *)
Lemma serve_all_join inputs1 inputs2 s ps1 s1 ps2 s2 :
  serve_all inputs1 s = (Ok ps1, s1) → serve_all inputs2 s1 = (Ok ps2, s2) →
  serve_all (inputs1 ++ inputs2) s = (Ok (ps1 ++ ps2), s2).
Proof.
  revert s ps1. induction inputs1 as [|i inputs1 IH]; intros s ps1 H1 H2; [by injection H1 as <- <- |].
  cbn [serve_all app] in *. apply st_bind_ok in H1 as (p & s3 & Hp & H1).
  apply st_bind_ok in H1 as (rest & s4 & Hrest & Hret). injection Hret as <- <-.
  unfold mbind, st_bind. by rewrite Hp, (IH _ _ Hrest H2).
Qed.

(** The requests behind the next group of what was published. *)
Lemma next_group state w inputs1 inputs2 written s group queue :
  worker_ok capacity state w → w_taken w = inputs1 ++ inputs2 → serve_all inputs1 state = (Ok written, s) →
  w_published w = written ++ group ++ queue →
  ∃ j1 j2 s1, inputs2 = j1 ++ j2 ∧ serve_all j1 s = (Ok group, s1) ∧
    serve_all (inputs1 ++ j1) state = (Ok (written ++ group), s1).
Proof.
  intros Hw Ht Hserve Hp. pose proof (wo_served _ _ _ Hw) as Hall. rewrite Ht, Hp in Hall.
  pose proof (serve_all_prefix _ _ _ _ _ _ _ Hall Hserve) as Hmore.
  destruct (serve_all_cut _ _ _ _ _ Hmore) as (j1 & j2 & s1 & -> & Hgroup).
  exists j1, j2, s1. split_and!; [done | done |]. by eapply serve_all_join.
Qed.

(** How an append can end: with the group in the store, or with the store as it was and an error. *)
Lemma append_ends commit group n store r store' s id inputs s1 :
  append now commit group n store = (r, store') → recover store = Ok (s, id) → last_sequence store = Ok n →
  serve_all inputs s = (Ok group, s1) →
  (recover store' = Ok (s1, id) ∧ (∀ next, r = Ok next → last_sequence store' = Ok next)) ∨
  (store' = store ∧ is_ok r = false).
Proof.
  intros Happ Hrec Hlast Hserve. unfold append, mbind, st_bind, sget, lift in Happ.
  destruct (append_rows now group n (s_records store)) as [[next rows]| |] eqn:Hrows;
    [| injection Happ as <- <-; by right..].
  destruct (recover_append _ _ _ _ _ _ _ _ _ _ Hrec Hlast Hserve Hrows) as [Hrec' Hlast'].
  cbn in Happ. destruct commit; cbn in Happ; injection Happ as <- <-; [left | by right | left]; (split; [done |]).
  - by intros m [= <-].
  - done.
Qed.

Lemma system_ok_append state id commit group y :
  y_phase y = Appending group → system_ok state id y → system_ok state id (journal_next now commit y).
Proof.
  intros Hph [Hw (queue & i1 & i2 & written & s & answered & later & lost & Hj & Ht & Hserve & Hrec & Hp & Hwr &
    Ha & Hrest) _].
  unfold journal_next. rewrite Hph in *. cbn [in_hand unanswered] in *.
  destruct Hrest as [? | (-> & -> & Hlast & Hdur)]; [done |]. rewrite !app_nil_r in Hwr. subst written.
  cbn [app] in Hp. destruct (next_group _ _ _ _ _ _ _ _ Hw Ht Hserve Hp) as (j1 & j2 & s1 & -> & Hgroup & Hserve').
  assert (Hclosed : worker_ok capacity state (close_core (y_worker y))).
  { eapply worker_ok_surroundings; [done | apply closed]. }
  rewrite app_assoc in Ht.
  destruct (append now commit group (y_sequence y) (y_store y)) as [r store'] eqn:Happ.
  destruct (append_ends _ _ _ _ _ _ _ _ _ _ Happ Hrec Hlast Hgroup) as [[Hrec' Hlast'] | [-> Hr]].
  - destruct r as [next|e|]; split; cbn; try done.
    + exists queue, (i1 ++ j1), j2, (answered ++ group), s1, answered, [], [].
      rewrite Hp, <- !app_assoc, app_nil_r. split_and!; try done; [by rewrite Ht, <- app_assoc |]. right. auto.
    + exists queue, (i1 ++ j1), j2, (answered ++ group), s1, answered, group, [].
      rewrite Hp, <- !app_assoc. split_and!; try done; [by rewrite Ht, <- app_assoc | by left].
    + exists queue, (i1 ++ j1), j2, (answered ++ group), s1, answered, group, [].
      rewrite Hp, <- !app_assoc. split_and!; try done; [by rewrite Ht, <- app_assoc | by left].
  - destruct r as [next|e|]; [done | |]; (split; cbn; [done | | done]);
      exists queue, i1, (j1 ++ j2), answered, s, answered, [], group;
      rewrite Hp, app_assoc, ?app_nil_r; (split_and!; try done; by left).
Qed.

Lemma system_ok_journal state id commit y :
  system_ok state id y → system_ok state id (journal_next now commit y).
Proof.
  intros Hok. destruct (y_phase y) as [|group|group|group| |] eqn:Hph.
  3: by eapply system_ok_append.
  all: destruct Hok as [Hw (queue & i1 & i2 & written & s & answered & later & lost & Hj & Ht & Hserve & Hrec & Hp
    & Hwr & Ha & Hrest) Hdone];
    unfold journal_next; rewrite Hph in *; rewrite ?Hj; cbn [default from_option]; unfold Datatypes.id;
      cbn [in_hand unanswered] in *.
  - destruct Hrest as [? | (-> & -> & Hlast & Hdur)]; [done |].
    destruct queue as [|first queue].
    + destruct (sender_gone _) eqn:Hgone; (split; cbn; [done | | by rewrite ?Hph]);
      exists [], i1, i2, written, s, answered, [], [];
        rewrite ?Hph; split_and!; try done; right; auto.
    + split; cbn; [by eapply worker_ok_taken | | done]. exists queue, i1, i2, written, s, answered, [], [].
      split_and!; try done. right. auto.
  - destruct Hrest as [? | (-> & -> & Hlast & Hdur)]; [done |].
    destruct queue as [|next queue].
    + split; cbn; [done | | done]. exists [], i1, i2, written, s, answered, [], []. split_and!; try done. right. auto.
    + destruct (length group <? 256)%nat.
      * split; cbn; [by eapply worker_ok_taken | | done]. exists queue, i1, i2, written, s, answered, [], [].
        rewrite <- app_assoc. split_and!; try done. right. auto.
      * split; cbn; [done | | done]. exists (next :: queue), i1, i2, written, s, answered, [], []. split_and!;
        try done. right. auto.
  - destruct Hrest as [? | (-> & -> & Hlast & Hdur)]; [done |]. destruct group as [|item group].
    + split; cbn; [done | | done]. exists queue, i1, i2, written, s, answered, [], []. split_and!; try done.
      right. auto.
    + split; cbn; [done | | done]. exists queue, i1, i2, written, s, (answered ++ [item]), [], [].
      split_and!; try done; [by rewrite Hwr, <- app_assoc | by rewrite map_app, Ha | right; auto].
  - split; [done | | by rewrite ?Hph]. exists queue, i1, i2, written, s, answered, later, lost. rewrite Hph.
    by split_and!.
  - split; [done | | by rewrite ?Hph]. exists queue, i1, i2, written, s, answered, later, lost. rewrite Hph.
    by split_and!.
Qed.

Lemma system_ok_reachable store state id n y :
  (0 < capacity)%nat → recover store = Ok (state, id) → last_sequence store = Ok n →
  rtc (system_step capacity now) (system_start store state n) y → system_ok state id y.
Proof.
  intros Hcap Hrec Hlast Hreach.
  assert (Hinv : ∀ x z, rtc (system_step capacity now) x z → system_ok state id x → system_ok state id z).
  { induction 1 as [x | x x' z Hxy _ IH]; [done |]. intros Hx. apply IH.
    destruct Hxy; [by apply system_ok_engine | by apply system_ok_around | by apply system_ok_journal]. }
  apply (Hinv _ _ Hreach).
  assert (Hwf : state_wf state).
  { destruct (recover_run _ _ _ Hrec) as (s0 & next & _ & Hwf0 & Hrep & _). by eapply replay_wf. }
  split; cbn.
  - apply (worker_ok_reachable capacity state true); [done | done | apply rtc_refl].
  - exists [], [], [], [], state, [], [], []. split_and!; try done. right. auto.
  - done.
Qed.

(** How many steps the journal worker still needs once nothing more is published. *)
Definition steps_left (y : System) : nat :=
  let queued := (5 * length (default [] (w_journal (y_worker y))))%nat in
  match y_phase y with
  | Receiving => queued + 1
  | Grouping group => queued + length group + 4
  | Appending group => queued + length group + 3
  | Answering group => queued + length group + 2
  | JournalFailed | JournalDone => 0
  end%nat.

Definition run_journal (commits : list Commit) (y : System) : System :=
  foldl (fun y commit => journal_next now commit y) y commits.

Lemma journal_next_gone commit y :
  sender_gone (y_worker y) = true → w_journal (y_worker y) ≠ None →
  let z := journal_next now commit y in
  (steps_left z ≤ Nat.pred (steps_left y))%nat ∧
  sender_gone (y_worker z) = true ∧ w_journal (y_worker z) ≠ None.
Proof.
  intros Hgone Hj. unfold journal_next, steps_left, sender_gone in *. cbn zeta.
  destruct (w_journal (y_worker y)) as [queue|] eqn:Hq; [| done]. cbn [default from_option]. unfold Datatypes.id.
  destruct (y_phase y) as [|group|group|[|item group]| |] eqn:Hph.
  - destruct queue as [|first queue]; [| cbn; split_and!; [lia | done..]].
    rewrite Hgone. cbn. rewrite Hq. by split_and!.
  - destruct queue as [|next queue]; [cbn; rewrite Hq; cbn; split_and!; [lia | done..] |].
    destruct (length group <? 256)%nat; cbn; rewrite ?Hq, ?length_app; cbn; split_and!; try done; lia.
  - destruct (append now commit group (y_sequence y) (y_store y)) as [[m|e|] store']; cbn; rewrite ?Hq; cbn;
      split_and!; try done; lia.
  - cbn. rewrite Hq. cbn. split_and!; [lia | done..].
  - cbn. rewrite Hq. cbn. split_and!; [lia | done..].
  - rewrite Hph, Hq. cbn. by split_and!.
  - rewrite Hph, Hq. cbn. by split_and!.
Qed.
End durability.

(** ** Properties *)

Section durability_properties.
Context {E : Externals} {L : DecimalLaws ext_decimal} {F : JournalFormat E} {FL : JournalFormatLaws F}.

(** A journal worker that has finished without an error. *)
Lemma shutdown_ok capacity state id y :
  system_ok capacity state id y → y_phase y = JournalDone →
  y_answers y = map finish (w_published (y_worker y)) ∧
  map fst (y_answers y) = map response_of (w_taken (y_worker y)) ∧
  recover (y_store y) = Ok (w_state (y_worker y), id) ∧
  last_sequence (y_store y) = Ok (y_durable y).
Proof.
  intros [Hw (queue & i1 & i2 & written & s & answered & later & lost & Hj & Ht & Hserve & Hrec' & Hp & Hwr & Ha &
      Hrest) Hdone] Hph.
  destruct (Hdone Hph) as [Hq _]. rewrite Hph in *. destruct Hrest as [? | (-> & -> & Hl & Hd)]; [done |].
  rewrite Hq in Hj. injection Hj as <-. cbn in Hp, Hwr. rewrite !app_nil_r in Hp, Hwr. subst answered.
  pose proof (wo_served _ _ _ Hw) as Hall. rewrite Ht, Hp in Hall.
  assert (i2 = []) as ->.
  { apply serve_all_length in Hall. apply serve_all_length in Hserve. rewrite length_app in Hall.
    destruct i2; [done | cbn in Hall; lia]. }
  rewrite app_nil_r in *. rewrite Hserve in Hall. injection Hall as ->.
  split_and!; [by rewrite Ha, Hp | | done | by rewrite Hl, Hd].
  rewrite Ha, map_map, <- Hp. apply (wo_responses _ _ _ Hw).
Qed.

Lemma shutdown_run capacity now store state id n y :
  (0 < capacity)%nat → recover store = Ok (state, id) → last_sequence store = Ok n →
  rtc (system_step capacity now) (system_start store state n) y →
  y_phase y = JournalDone →
  y_answers y = map finish (w_published (y_worker y)) ∧
  map fst (y_answers y) = map response_of (w_taken (y_worker y)) ∧
  recover (y_store y) = Ok (w_state (y_worker y), id) ∧
  last_sequence (y_store y) = Ok (y_durable y).
Proof. intros Hcap Hrec Hlast Hreach. eapply shutdown_ok, system_ok_reachable; done. Qed.

(** A crash loses nothing that was acknowledged: at any moment of any run of the two workers on a
    recovered journal, the journal would recover to the state after some first part of the requests
    the engine took, and every answer that was sent so far belongs to a request of that part, in
    order. Whatever the transactions do (commit, fail, or commit and report a failure), the rest is
    only requests nobody was answered. *)
Theorem crash_loses_nothing_acknowledged capacity now store state id n y :
  (0 < capacity)%nat → recover store = Ok (state, id) → last_sequence store = Ok n →
  rtc (system_step capacity now) (system_start store state n) y →
  ∃ inputs rest written s answered later,
    w_taken (y_worker y) = inputs ++ rest ∧
    serve_all inputs state = (Ok written, s) ∧ recover (y_store y) = Ok (s, id) ∧
    written = answered ++ later ∧ y_answers y = map finish answered.
Proof.
  intros Hcap Hrec Hlast Hreach.
  destruct (sy_progress _ _ _ _ (system_ok_reachable _ _ _ _ _ _ _ Hcap Hrec Hlast Hreach))
    as (queue & i1 & i2 & written & s & answered & later & lost & _ & Ht & Hserve & Hrec' & _ & Hwr & Ha & _).
  exists i1, i2, written, s, answered, (unanswered (y_phase y) ++ later). by split_and!.
Qed.

(** A clean shutdown leaves nothing open: when the journal worker has finished without an error,
    every request the engine took was answered, in order, and the journal recovers to exactly the
    state the engine worker ended with. *)
Theorem clean_shutdown_complete capacity now store state id n y :
  (0 < capacity)%nat → recover store = Ok (state, id) → last_sequence store = Ok n →
  rtc (system_step capacity now) (system_start store state n) y →
  y_phase y = JournalDone →
  y_answers y = map finish (w_published (y_worker y)) ∧
  map fst (y_answers y) = map response_of (w_taken (y_worker y)) ∧
  recover (y_store y) = Ok (w_state (y_worker y), id) ∧
  last_sequence (y_store y) = Ok (y_durable y).
Proof. apply shutdown_run. Qed.

(** A shutdown ends: once the engine worker has left its loop, the journal worker finishes after
    a bounded number of steps, however its commits end; it has failed or has written and answered
    everything that was queued. *)
Theorem shutdown_terminates now commits y :
  sender_gone (y_worker y) = true → w_journal (y_worker y) ≠ None →
  (steps_left y ≤ length commits)%nat →
  y_phase (run_journal now commits y) = JournalFailed ∨ y_phase (run_journal now commits y) = JournalDone.
Proof.
  revert y. induction commits as [|commit commits IH]; intros y Hgone Hj Hlen.
  - cbn in Hlen |- *. unfold steps_left in Hlen. destruct (y_phase y); [lia.. | by left | by right].
  - destruct (journal_next_gone now commit y Hgone Hj) as (Hless & Hgone' & Hj').
    cbn. apply IH; [done | done |]. cbn in Hlen. lia.
Qed.
End durability_properties.

(** ** Examples *)

Section durability_examples.
#[local] Existing Instance ref_externals.
#[local] Existing Instance ref_decimal_laws.
#[local] Existing Instance ref_format.
#[local] Existing Instance ref_format_laws.

(** A balance request is served, written and answered; then the core is closed. *)
Definition ex_y0 : System := system_start ex_store ex_start 0.
Definition ex_y1 : System := set_worker (drop_balance (y_worker ex_y0) (w_balances (y_worker ex_y0) ++ [ex_update])) ex_y0.
Definition ex_y2 : System := set_worker (worker_next 2 (y_worker ex_y1)) ex_y1.
Definition ex_y3 : System := journal_next ex_clock Committed ex_y2.
Definition ex_y4 : System := journal_next ex_clock Committed ex_y3.
Definition ex_y5 : System := journal_next ex_clock Committed ex_y4.
Definition ex_y6 : System := journal_next ex_clock Committed ex_y5.
Definition ex_y7 : System := set_worker (close_core (y_worker ex_y6)) ex_y6.
Definition ex_y8 : System := set_worker (worker_next 2 (y_worker ex_y7)) ex_y7.
Definition ex_y9 : System := journal_next ex_clock Committed ex_y8.
Definition ex_y10 : System := journal_next ex_clock Committed ex_y9.

Lemma ex_answered : rtc (system_step 2 ex_clock) ex_y0 ex_y6.
Proof.
  eapply rtc_l; [exact (step_around 2 ex_clock ex_y0 _ (balance_arrives (y_worker ex_y0) ex_update) eq_refl) |].
  eapply rtc_l; [exact (step_engine 2 ex_clock ex_y1) |].
  eapply rtc_l; [exact (step_journal 2 ex_clock ex_y2 Committed) |].
  eapply rtc_l; [exact (step_journal 2 ex_clock ex_y3 Committed) |].
  eapply rtc_l; [exact (step_journal 2 ex_clock ex_y4 Committed) |].
  eapply rtc_l; [exact (step_journal 2 ex_clock ex_y5 Committed) |].
  exact (rtc_refl _ ex_y6).
Qed.

Lemma ex_shut_down : rtc (system_step 2 ex_clock) ex_y0 ex_y10.
Proof.
  etransitivity; [exact ex_answered |].
  eapply rtc_l; [exact (step_around 2 ex_clock ex_y6 _ (closed (y_worker ex_y6)) eq_refl) |].
  eapply rtc_l; [exact (step_engine 2 ex_clock ex_y7) |].
  eapply rtc_l; [exact (step_journal 2 ex_clock ex_y8 Committed) |].
  eapply rtc_l; [exact (step_journal 2 ex_clock ex_y9 Committed) |].
  exact (rtc_refl _ ex_y10).
Qed.

Example ex_answers : length (y_answers ex_y6) = 1%nat.
Proof. vm_compute. reflexivity. Qed.
Definition phase_code (phase : Phase) : nat :=
  match phase with JournalDone => 1 | JournalFailed => 2 | _ => 0 end.
Lemma phase_code_done phase : phase_code phase = 1%nat → phase = JournalDone.
Proof. by destruct phase. Qed.

Lemma crash_loses_nothing_acknowledged_witness :
  ∃ inputs rest written s answered later,
    w_taken (y_worker ex_y6) = inputs ++ rest ∧
    serve_all inputs ex_start = (Ok written, s) ∧ recover (y_store ex_y6) = Ok (s, "engine"%string) ∧
    written = answered ++ later ∧ y_answers ex_y6 = map finish answered.
Proof.
  exact (crash_loses_nothing_acknowledged 2 ex_clock ex_store ex_start "engine" 0 ex_y6
           (Nat.lt_0_succ 1) ex_store_recovers ex_last_sequence ex_answered).
Defined.

Lemma ex_y10_done : y_phase ex_y10 = JournalDone.
Proof. apply phase_code_done. vm_compute. reflexivity. Qed.

Lemma clean_shutdown_complete_witness :
  recover (y_store ex_y10) = Ok (w_state (y_worker ex_y10), "engine"%string).
Proof.
  destruct (clean_shutdown_complete 2 ex_clock ex_store ex_start "engine" 0 ex_y10
           (Nat.lt_0_succ 1) ex_store_recovers ex_last_sequence ex_shut_down ex_y10_done) as (_ & _ & H & _).
  exact H.
Defined.

Lemma ex_y8_gone : sender_gone (y_worker ex_y8) = true.
Proof. vm_compute. reflexivity. Qed.
Lemma ex_y8_queue : w_journal (y_worker ex_y8) ≠ None.
Proof.
  assert (H : from_option (fun _ => true) false (w_journal (y_worker ex_y8)) = true) by (vm_compute; reflexivity).
  intros Hn. rewrite Hn in H. discriminate H.
Qed.
Lemma ex_y8_steps : (steps_left ex_y8 ≤ length [Committed; Committed])%nat.
Proof. apply Nat.leb_le. vm_compute. reflexivity. Qed.

Lemma shutdown_terminates_witness :
  y_phase (run_journal ex_clock [Committed; Committed] ex_y8) = JournalFailed ∨
  y_phase (run_journal ex_clock [Committed; Committed] ex_y8) = JournalDone.
Proof. exact (shutdown_terminates ex_clock [Committed; Committed] ex_y8 ex_y8_gone ex_y8_queue ex_y8_steps). Defined.
End durability_examples.
