(* ===== verification/Market.v ===== *)
(** * Public market data ([runtime/market.rs])

    The output worker keeps a projection of the order books for the public: the quantity per price of
    every market, computed from the confirmed records alone. It never looks at the engine; that it
    still shows exactly what rests in the books of the engine is what is proved here. *)

From stdpp Require Import base tactics gmap list strings.
From Stdlib Require Import ZArith Lia Ascii.
From S2P Require Import Prelude Text Decimals Amount BTree RefDecimal Types BalanceCache OrderBook Matcher Submission State Deposit Withdrawal Cancel Journal History Resting EngineLoop Store.

Section market.
Context {E : Externals}.

(** ** What is published *)

Record MarketTrade := { mt_id : string; mt_price : string; mt_amount : string; mt_side : string }.

Record MarketSnapshot := {
  ms_event_type : string;
  ms_event_id : string;
  ms_engine_id : string;
  ms_sequence : string;
  ms_previous_sequence : string;
  ms_base_mint : string;
  ms_quote_mint : string;
  ms_timestamp : Timestamp;
  ms_bids : list (string * string);
  ms_asks : list (string * string);
  ms_trades : list MarketTrade;
}.

(** ** The projection; a quantity per price is a [BigInt] *)

Record Book := mk_pbook { bk_bids : btree Z; bk_asks : btree Z; bk_sequence : Z }.
Definition pbook_new : Book := mk_pbook [] [] 0.

Record PublicOrder := mk_resting {
  rs_pair : TradingPair;
  rs_buy : bool;
  rs_price : Decimal;
  rs_remaining : Decimal;
}.

Record Projection := mk_projection {
  pj_orders : gmap Z PublicOrder;
  pj_books : gmap TradingPair Book;
  pj_latest : gmap TradingPair MarketSnapshot;
}.
Definition projection_new : Projection := mk_projection ∅ ∅ ∅.

(** [quantity_text]: units of [10^-9] as a decimal number without trailing zeros. *)
Definition quantity_text (units : Z) : string :=
  let text := show_int units in
  let text := if slen text <=? 9 then zeros (10 - String.length text) +:+ text else text in
  let point := (String.length text - 9)%nat in
  let text := String.substring 0 point text +:+ String "."%char (String.substring point 9 text) in
  trim_end_matches "."%char (trim_end_matches "0"%char text).

(** ** Updates in place *)

Definition levels (buy : bool) (b : Book) : btree Z := if buy then bk_bids b else bk_asks b.
Definition set_levels (buy : bool) (m : btree Z) (b : Book) : Book :=
  if buy then mk_pbook m (bk_asks b) (bk_sequence b) else mk_pbook (bk_bids b) m (bk_sequence b).
Definition put_resting (id : Z) (r : option PublicOrder) (pj : Projection) : Projection :=
  mk_projection (partial_alter (fun _ => r) id (pj_orders pj)) (pj_books pj) (pj_latest pj).
Definition put_book (market : TradingPair) (b : Book) (pj : Projection) : Projection :=
  mk_projection (pj_orders pj) (<[market := b]> (pj_books pj)) (pj_latest pj).
(** [books.entry(market).or_default()]. *)
Definition pbook_at (market : TradingPair) (pj : Projection) : Book := default pbook_new (pj_books pj !! market).

(** [Projection::reduce]. *)
Definition reduce (id : Z) (quantity : Decimal) : st Projection unit :=
  pj ← sget;
  order ← lift (ok_or (pj_orders pj !! id) ("Missing resting market order " +:+ show_int id));
  remaining ← lift (subtract (rs_remaining order) quantity);
  let order := mk_resting (rs_pair order) (rs_buy order) (rs_price order) remaining in
  _ ← smodify (put_resting id (Some order));
  book ← lift (expect (pj_books pj !! rs_pair order));
  level ← lift (expect (bt_get (rs_price order) (levels (rs_buy order) book)));
  change ← lift (units quantity);
  _ ← lift (ensure (change <=? level) "Negative public price level");
  let rest := level - change in
  let next := bt_alter (fun _ => if rest =? 0 then None else Some rest) (rs_price order)
                (levels (rs_buy order) book) in
  _ ← smodify (put_book (rs_pair order) (set_levels (rs_buy order) next book));
  if dec_is_zero remaining then smodify (put_resting id None) else mret tt.

Definition market_trade (order : OrderEntry) (engine_id sequence : string) (index : Z) (t : MatchResult) : MarketTrade :=
  {| mt_id := engine_id +:+ ":" +:+ sequence +:+ ":" +:+ show_int index;
     mt_price := dec_to_string (mr_price t); mt_amount := dec_to_string (mr_amount t);
     mt_side := oe_order_type order |}.

(** The loop over the trades of a submission: the total and the published trades. *)
Fixpoint apply_trades (order : OrderEntry) (engine_id sequence : string) (index : Z)
    (outputs : list TradeOutput) (filled : Decimal) (trades : list MarketTrade) :
    st Projection (Decimal * list MarketTrade) :=
  match outputs with
  | [] => mret (filled, trades)
  | output :: outputs =>
      let t := to_trade output in
      _ ← reduce (if String.eqb (oe_order_type order) "buy" then mr_sell_order_id t else mr_buy_order_id t)
            (mr_amount t);
      filled ← lift (add filled (mr_amount t));
      apply_trades order engine_id sequence (index + 1) outputs filled
        (trades ++ [market_trade order engine_id sequence index t])
  end.

(** What is left of a limit order joins its price. *)
Definition rest_order (order : OrderEntry) (market : TradingPair) (remaining : Decimal) : st Projection unit :=
  price ← lift (expect (oe_price order));
  let buy := String.eqb (oe_order_type order) "buy" in
  pj ← sget;
  let book := pbook_at market pj in
  _ ← smodify (put_book market (set_levels buy (bt_alter (fun level => Some (default 0 level)) price (levels buy book)) book));
  change ← lift (units remaining);
  _ ← smodify (put_book market (set_levels buy (bt_alter (fun level => Some (default 0 level + change)) price (levels buy book)) book));
  let duplicate := bool_decide (is_Some (pj_orders pj !! oe_id order)) in
  _ ← smodify (put_resting (oe_id order) (Some (mk_resting market buy price remaining)));
  lift (ensure (negb duplicate) "Duplicate resting order").

(** Whether anything is left is computed from the order and the trades. *)
Definition rest_step (order : OrderEntry) (market : TradingPair) (filled : Decimal) : st Projection unit :=
  if String.eqb (oe_order_side order) "limit" then
    remaining ← lift (subtract (oe_amount order) filled);
    if dec_ltb dec_zero remaining then rest_order order market remaining else mret tt
  else mret tt.

(** The market a record touches, and its trades. *)
Definition apply_record (record : Record_) (engine_id : string) :
    st Projection (option (TradingPair * list MarketTrade)) :=
  match r_command record, r_outcome record with
  | CmdSubmit order, Applied (Some (Submitted _ outputs _)) =>
      let market := pair_new (oe_base_mint order) (oe_quote_mint order) in
      '(filled, trades) ← apply_trades order engine_id (show_int (r_sequence record)) 0 outputs dec_zero [];
      _ ← rest_step order market filled;
      mret (Some (market, trades))
  | _, Applied (Some (BatchCancelled order)) =>
      _ ← reduce (oe_id order) (oe_remaining_amount order);
      mret (Some (pair_new (oe_base_mint order) (oe_quote_mint order), []))
  | _, _ => mret None
  end.

Definition level_text (level : Decimal * Z) : string * string :=
  (dec_to_string level.1, quantity_text level.2).

(** The snapshot of a market: the twenty best prices of each side. *)
Definition snapshot_of (record : Record_) (engine_id : string) (market : TradingPair)
    (trades : list MarketTrade) (book : Book) : MarketSnapshot :=
  {| ms_event_type := "market_snapshot";
     ms_event_id := engine_id +:+ ":" +:+ show_int (r_sequence record) +:+ ":market";
     ms_engine_id := engine_id;
     ms_sequence := show_int (r_sequence record);
     ms_previous_sequence := show_int (bk_sequence book);
     ms_base_mint := base_mint market; ms_quote_mint := quote_mint market;
     ms_timestamp := r_timestamp record;
     ms_bids := map level_text (take 20 (rev (bk_bids book)));
     ms_asks := map level_text (take 20 (bk_asks book));
     ms_trades := trades |}.

(** [Projection::apply]. *)
Definition project (record : Record_) (engine_id : string) : st Projection (option MarketSnapshot) :=
  touched ← apply_record record engine_id;
  match touched with
  | None => mret None
  | Some (market, trades) =>
      pj ← sget;
      let book := pbook_at market pj in
      let event := snapshot_of record engine_id market trades book in
      _ ← smodify (put_book market (mk_pbook (bk_bids book) (bk_asks book) (r_sequence record)));
      _ ← smodify (fun pj => mk_projection (pj_orders pj) (pj_books pj) (<[market := event]> (pj_latest pj)));
      mret (Some event)
  end.

(** Records one after the other: the snapshots they publish. *)
Fixpoint project_all (records : list Record_) (engine_id : string) : st Projection (list MarketSnapshot) :=
  match records with
  | [] => mret []
  | record :: records =>
      event ← project record engine_id;
      events ← project_all records engine_id;
      mret (match event with Some event => event :: events | None => events end)
  end.
End market.

(** ** The projection against its own orders *)

Section projection_facts.
Context {E : Externals} {L : DecimalLaws ext_decimal}.
Implicit Types pj : Projection.

(** What an order adds to a price of a side of a market. *)
Definition shown_at (market : TradingPair) (buy : bool) (z : Z) (id : Z) (r : PublicOrder) : Z :=
  if decide (rs_pair r = market ∧ rs_buy r = buy ∧ raw (rs_price r) = z) then unit_count (rs_remaining r) else 0.
Definition depth pj (market : TradingPair) (buy : bool) (z : Z) : Z := msum (shown_at market buy z) (pj_orders pj).

Definition level_value (n : Z) : option Z := if n =? 0 then None else Some n.

(** The levels are the sums of the orders; there are no empty levels. *)
Record pj_wf pj : Prop := {
  pw_orders : ∀ id r, pj_orders pj !! id = Some r →
    (∃ n, in_units (rs_remaining r) n ∧ 0 < n) ∧ is_Some (pj_books pj !! rs_pair r);
  pw_sorted : ∀ market buy, bt_sorted (levels buy (pbook_at market pj));
  pw_levels : ∀ market buy p,
    bt_get p (levels buy (pbook_at market pj)) = level_value (depth pj market buy (raw p));
}.

Lemma projection_new_wf : pj_wf projection_new.
Proof. split; [intros id r Hr; cbn in Hr; by apply lookup_empty_Some in Hr | intros market [];
  apply bt_sorted_nil | by intros market []]. Qed.

Lemma levels_set buy buy' m b : levels buy (set_levels buy' m b) = if bool_decide (buy = buy') then m else levels buy b.
Proof. by destruct buy, buy'. Qed.

(** One price changes together with the orders at it. *)
Lemma pj_wf_update pj orders latest market buy price f d :
  pj_wf pj →
  (∀ id r, orders !! id = Some r →
     (∃ n, in_units (rs_remaining r) n ∧ 0 < n) ∧ (rs_pair r = market ∨ is_Some (pj_books pj !! rs_pair r))) →
  (∀ market' buy' z, msum (shown_at market' buy' z) orders = depth pj market' buy' z +
     (if decide (market = market' ∧ buy = buy' ∧ raw price = z) then d else 0)) →
  f (level_value (depth pj market buy (raw price))) = level_value (depth pj market buy (raw price) + d) →
  let book := pbook_at market pj in
  pj_wf (mk_projection orders
           (<[market := set_levels buy (bt_alter f price (levels buy book)) book]> (pj_books pj)) latest).
Proof.
  intros [H1 H2 H3] Horders Hdepth Hf book. split; cbn [pj_orders pj_books].
  - intros id r Hr. destruct (Horders _ _ Hr) as [Hn Hp]. split; [done |].
    apply lookup_insert_is_Some'. destruct Hp as [<-|?]; [by left | by right].
  - intros market' buy'. unfold pbook_at. cbn [pj_books]. destruct (decide (market = market')) as [<-|Hp].
    + rewrite lookup_insert_eq. cbn [default from_option]. unfold id. rewrite levels_set.
      case_bool_decide; [apply bt_alter_sorted |]; apply H2.
    + rewrite lookup_insert_ne by done. apply H2.
  - intros market' buy' p. unfold depth. cbn [pj_orders]. rewrite Hdepth. unfold pbook_at. cbn [pj_books].
    destruct (decide (market = market')) as [<-|Hp].
    + rewrite lookup_insert_eq. cbn [default from_option]. unfold id. rewrite levels_set.
      case_bool_decide as Hb.
      * subst buy'. rewrite bt_get_alter by apply H2. unfold book. rewrite H3.
        destruct (Z.eqb_spec (raw p) (raw price)) as [->|Hne].
        -- by rewrite decide_True, Hf.
        -- rewrite H3, decide_False, Z.add_0_r by naive_solver. done.
      * unfold book. rewrite H3, decide_False, Z.add_0_r by naive_solver. done.
    + rewrite lookup_insert_ne by done. fold (pbook_at market' pj).
      rewrite H3, decide_False, Z.add_0_r by naive_solver. done.
Qed.

Lemma depth_at pj id r n : pj_orders pj !! id = Some r → pj_wf pj → in_units (rs_remaining r) n →
  n ≤ depth pj (rs_pair r) (rs_buy r) (raw (rs_price r)).
Proof.
  intros Hr Hwf Hn. unfold depth. rewrite (msum_delete _ _ _ _ Hr). unfold shown_at at 1.
  rewrite decide_True by done. rewrite (unit_count_in _ _ Hn).
  assert (0 ≤ msum (shown_at (rs_pair r) (rs_buy r) (raw (rs_price r))) (delete id (pj_orders pj))); [| lia].
  apply msum_nonneg. intros k v Hv. apply lookup_delete_Some in Hv as [_ Hv].
  unfold shown_at. case_decide; [| done]. destruct (pw_orders _ Hwf _ _ Hv) as [(m & Hm & ?) _].
  rewrite (unit_count_in _ _ Hm). lia.
Qed.

(** The orders after [q] of the [n] units of one were traded, [m] being left: it goes when that is
    nothing. *)
Definition orders_reduced (pj : Projection) (id : Z) (r : PublicOrder) (m : Decimal) (n q : Z) : gmap Z PublicOrder :=
  if n =? q then delete id (pj_orders pj)
  else <[id := mk_resting (rs_pair r) (rs_buy r) (rs_price r) m]> (pj_orders pj).

Lemma orders_reduced_sound pj id r m n q :
  pj_wf pj → in_units m (n - q) → q ≤ n →
  ∀ k v, orders_reduced pj id r m n q !! k = Some v →
    (∃ i, in_units (rs_remaining v) i ∧ 0 < i) ∧ (rs_pair v = rs_pair r ∨ is_Some (pj_books pj !! rs_pair v)).
Proof.
  intros Hwf Hm Hq k v Hv. unfold orders_reduced in Hv. destruct (Z.eqb_spec n q) as [->|Hnq].
  - apply lookup_delete_Some in Hv as [_ Hv]. destruct (pw_orders _ Hwf _ _ Hv). split; [done | by right].
  - apply lookup_insert_Some in Hv as [[<- <-]|[_ Hv]].
    + split; [exists (n - q); split; [done | lia] | by left].
    + destruct (pw_orders _ Hwf _ _ Hv). split; [done | by right].
Qed.

Lemma orders_reduced_depth pj id r m n q :
  pj_orders pj !! id = Some r → in_units (rs_remaining r) n → in_units m (n - q) →
  ∀ market buy z, msum (shown_at market buy z) (orders_reduced pj id r m n q) = depth pj market buy z +
    (if decide (rs_pair r = market ∧ rs_buy r = buy ∧ raw (rs_price r) = z) then - q else 0).
Proof.
  intros Hr Hn Hm market buy z. unfold depth. rewrite (msum_delete _ (pj_orders pj) id r Hr).
  assert (Hs : shown_at market buy z id r = if decide (rs_pair r = market ∧ rs_buy r = buy ∧
    raw (rs_price r) = z) then n else 0) by (unfold shown_at; by rewrite (unit_count_in _ _ Hn)).
  rewrite Hs. unfold orders_reduced. destruct (Z.eqb_spec n q) as [->|Hnq]; [case_decide; lia |].
  rewrite msum_insert, Hr, (msum_delete _ (pj_orders pj) id r Hr). cbn [from_option]. rewrite Hs.
  unfold shown_at at 2. cbn [rs_pair rs_buy rs_price rs_remaining].
  rewrite (unit_count_in _ _ Hm). case_decide; lia.
Qed.

(** The level of a shown order. *)
Lemma level_at pj id r n book : pj_orders pj !! id = Some r → pj_wf pj → in_units (rs_remaining r) n → 0 < n →
  pj_books pj !! rs_pair r = Some book →
  bt_get (rs_price r) (levels (rs_buy r) book) = Some (depth pj (rs_pair r) (rs_buy r) (raw (rs_price r))).
Proof.
  intros Hr Hwf Hn Hpos Hbook. pose proof (depth_at _ _ _ _ Hr Hwf Hn) as Hdep.
  assert (pbook_at (rs_pair r) pj = book) as <- by (unfold pbook_at; by rewrite Hbook).
  rewrite (pw_levels _ Hwf). unfold level_value. by rewrite (proj2 (Z.eqb_neq _ 0)) by lia.
Qed.

(** Reducing a resting order by a part of it. *)
Lemma reduce_run pj id r n quantity q :
  pj_wf pj → pj_orders pj !! id = Some r → in_units (rs_remaining r) n → in_units quantity q →
  0 < q ≤ n → representable (n - q) →
  ∃ pj', reduce id quantity pj = (Ok tt, pj') ∧ pj_wf pj' ∧
    (∀ k, k ≠ id → pj_orders pj' !! k = pj_orders pj !! k) ∧
    (if n =? q then pj_orders pj' !! id = None
     else ∃ m, pj_orders pj' !! id = Some (mk_resting (rs_pair r) (rs_buy r) (rs_price r) m) ∧ in_units m (n - q)) ∧
    pj_latest pj' = pj_latest pj ∧
    (∀ market, bk_sequence (pbook_at market pj') = bk_sequence (pbook_at market pj)).
Proof.
  intros Hwf Hr Hn Hq Hle Hrep.
  destruct (subtract_total (rs_remaining r) quantity n q Hn Hq ltac:(lia) Hrep) as [m Hm].
  pose proof (subtract_ok _ _ _ _ _ Hn Hq Hm) as Hmn.
  destruct (pw_orders _ Hwf _ _ Hr) as [_ [book Hbook]].
  pose proof (depth_at _ _ _ _ Hr Hwf Hn) as Hdep.
  pose proof (level_at _ _ _ _ _ Hr Hwf Hn ltac:(lia) Hbook) as Hlev. set (D := depth pj _ _ _) in *.
  assert (Hat : pbook_at (rs_pair r) pj = book) by (unfold pbook_at; by rewrite Hbook).
  set (orders := orders_reduced pj id r m n q).
  set (f := fun _ : option Z => if D - q =? 0 then None else Some (D - q)).
  exists (mk_projection orders (<[rs_pair r := set_levels (rs_buy r) (bt_alter f (rs_price r) (levels (rs_buy r)
    book)) book]> (pj_books pj)) (pj_latest pj)).
  split; [| split].
  - unfold reduce, mbind, st_bind, sget, lift, smodify. rewrite Hr. cbn [ok_or]. rewrite Hm.
    cbn [rs_pair rs_buy rs_price]. unfold put_resting at 1. cbn [pj_books]. rewrite Hbook. cbn [expect].
    rewrite Hlev. cbn [expect].
    apply units_ok in Hq as Hu. rewrite Hu. rewrite (proj2 (Z.leb_le q D)) by lia. cbn [ensure].
    rewrite dec_is_zero_raw, (proj1 Hmn).
    assert (((n - q) * 10 ^ 19 =? 0) = (n =? q)) as -> by (destruct (Z.eqb_spec n q); lia).
    unfold orders, orders_reduced. destruct (n =? q); [| done].
    unfold put_resting, put_book. cbn [pj_orders pj_books pj_latest]. f_equal. f_equal.
    apply map_eq. intros k. unfold delete, map_delete. destruct (decide (k = id)) as [->|Hk].
    + by rewrite !lookup_partial_alter_eq.
    + by rewrite !lookup_partial_alter_ne by done.
  - rewrite <- Hat. apply (pj_wf_update pj orders _ _ _ _ f (- q)); [done | | |].
    + apply orders_reduced_sound; [done | done | lia].
    + by apply orders_reduced_depth.
    + fold D. unfold f, level_value. replace (D + - q) with (D - q) by lia. done.
  - cbn [pj_orders pj_latest pj_books]. unfold orders, orders_reduced. split_and!; [| | done |].
    + intros k Hk. destruct (n =? q); [by rewrite lookup_delete_ne | by rewrite lookup_insert_ne].
    + destruct (n =? q); [by rewrite lookup_delete_eq | rewrite lookup_insert_eq; eauto].
    + intros market. unfold pbook_at. cbn [pj_books]. destruct (decide (rs_pair r = market)) as [<-|Hp].
      * rewrite lookup_insert_eq, Hbook. cbn. by destruct (rs_buy r).
      * by rewrite lookup_insert_ne.
Qed.

(** The trades of a list of outputs as they are published. *)
Fixpoint market_trades (order : OrderEntry) (engine_id sequence : string) (index : Z) (outputs : list TradeOutput) :
    list MarketTrade :=
  match outputs with
  | [] => []
  | output :: outputs =>
      market_trade order engine_id sequence index (to_trade output) ::
      market_trades order engine_id sequence (index + 1) outputs
  end.

Definition maker_id (order : OrderEntry) (t : MatchResult) : Z :=
  if String.eqb (oe_order_type order) "buy" then mr_sell_order_id t else mr_buy_order_id t.

(** What the rest of the market keeps: the snapshots and the sequences. *)
Definition same_header pj pj' : Prop :=
  pj_latest pj' = pj_latest pj ∧ ∀ m, bk_sequence (pbook_at m pj') = bk_sequence (pbook_at m pj).

(** The loop over the trades, each of a part of a different resting order. *)
Lemma apply_trades_run order engine_id sequence outs hits : ∀ pj index filled f0 acc,
  pj_wf pj → in_units filled f0 →
  Forall2 (fun o h => maker_id order (to_trade o) = h.1 ∧ in_units (mr_amount (to_trade o)) h.2) outs hits →
  NoDup (map fst hits) →
  (∀ id q, (id, q) ∈ hits → ∃ r n, pj_orders pj !! id = Some r ∧ in_units (rs_remaining r) n ∧
     0 < q ≤ n ∧ representable (n - q)) →
  (∀ h1 h2, hits = h1 ++ h2 → ∃ d, in_units d (f0 + lsum snd h1)) →
  ∃ pj' filled', apply_trades order engine_id sequence index outs filled acc pj =
      (Ok (filled', acc ++ market_trades order engine_id sequence index outs), pj') ∧
    pj_wf pj' ∧ in_units filled' (f0 + lsum snd hits) ∧ same_header pj pj' ∧
    (∀ id, id ∉ map fst hits → pj_orders pj' !! id = pj_orders pj !! id) ∧
    (∀ id q r n, (id, q) ∈ hits → pj_orders pj !! id = Some r → in_units (rs_remaining r) n →
      if n =? q then pj_orders pj' !! id = None
      else ∃ m, pj_orders pj' !! id = Some (mk_resting (rs_pair r) (rs_buy r) (rs_price r) m) ∧ in_units m (n - q)).
Proof.
  revert hits. induction outs as [|out outs IH]; intros hits pj index filled f0 acc Hwf Hf Hall Hnd Hhits Hpre.
  { apply Forall2_nil_inv_l in Hall as ->. exists pj, filled. cbn [market_trades]. rewrite app_nil_r. cbn [lsum foldr].
    rewrite Z.add_0_r. split_and!; [done | done | done | done | done |]. intros id q r n Hin.
      by apply elem_of_nil in Hin. }
  apply Forall2_cons_inv_l in Hall as ([id q] & hits' & [Hid Hq] & Hall & ->). cbn [fst snd] in Hid, Hq.
  cbn [map fst] in Hnd. apply NoDup_cons in Hnd as [Hnew Hnd].
  destruct (Hhits id q) as (r & n & Hr & Hn & Hle & Hrep); [left |].
  destruct (reduce_run pj id r n _ q Hwf Hr Hn Hq Hle Hrep) as (pj1 & Hrun & Hwf1 & Hother & Hself & Hlat & Hseq).
  destruct (Hpre [(id, q)] hits') as [d Hd]; [done |]. cbn [lsum foldr snd] in Hd. rewrite Z.add_0_r in Hd.
  destruct (add_total filled (mr_amount (to_trade out)) f0 q Hf Hq) as [filled1 Hadd];
    [apply (in_units_range _ _ Hd) | by eapply in_units_representable |].
  pose proof (add_ok _ _ _ _ _ Hf Hq Hadd) as Hf1.
  destruct (IH hits' pj1 (index + 1) filled1 (f0 + q) (acc ++ [market_trade order engine_id sequence index
    (to_trade out)]))
    as (pj' & filled' & Hrun' & Hwf' & Hf' & [Hlat' Hseq'] & Hother' & Hself'); [done | done | done | done | | |].
  { intros id' q' Hin. destruct (Hhits id' q') as (r' & n' & Hr' & ?); [by right |].
    exists r', n'. rewrite Hother; [done |]. intros ->. apply Hnew. apply list_elem_of_fmap. by exists (id, q'). }
  { intros h1 h2 ->. destruct (Hpre ((id, q) :: h1) h2) as [d' Hd']; [done |]. exists d'.
    rewrite lsum_cons in Hd'. cbn [snd] in Hd'. by rewrite <- Z.add_assoc. }
  exists pj', filled'. split_and!.
  - cbn [apply_trades]. unfold mbind at 1, st_bind at 1. fold (maker_id order (to_trade out)). rewrite Hid, Hrun.
    unfold mbind, st_bind, lift. rewrite Hadd. rewrite Hrun'. cbn [market_trades]. by rewrite <- app_assoc.
  - done.
  - rewrite lsum_cons. cbn [snd]. by rewrite Z.add_assoc.
  - split; [by rewrite Hlat' | intros m; by rewrite Hseq'].
  - intros k Hk. cbn [map fst] in Hk. apply not_elem_of_cons in Hk as [Hk1 Hk2]. by rewrite Hother', Hother.
  - intros id' q' r' n' [[= -> ->]|Hin]%elem_of_cons Hr' Hn'.
    + rewrite Hr in Hr'. injection Hr' as <-. rewrite (in_units_inj _ _ _ Hn' Hn). rewrite Hother' by done. exact Hself.
    + apply (Hself' _ _ _ _ Hin); [| done]. rewrite Hother; [done |]. intros ->. apply Hnew.
      apply list_elem_of_fmap. by exists (id, q').
Qed.

(** The rest of a limit order joins the projection. *)
Lemma rest_order_run order market remaining p n pj :
  pj_wf pj → oe_price order = Some p → in_units remaining n → 0 < n → pj_orders pj !! oe_id order = None →
  let buy := String.eqb (oe_order_type order) "buy" in
  ∃ pj', rest_order order market remaining pj = (Ok tt, pj') ∧ pj_wf pj' ∧ same_header pj pj' ∧
    pj_orders pj' = <[oe_id order := mk_resting market buy p remaining]> (pj_orders pj).
Proof.
  intros Hwf Hp Hn Hpos Hnew buy. unfold rest_order, mbind, st_bind, lift, sget, smodify. rewrite Hp. cbn [expect].
  fold buy. rewrite (proj2 (units_ok remaining n) Hn). set (r := mk_resting market buy p remaining).
  set (book := pbook_at market pj). set (f := fun level : option Z => Some (default 0 level + n)).
  set (final := mk_projection (<[oe_id order := r]> (pj_orders pj))
    (<[market := set_levels buy (bt_alter f p (levels buy book)) book]> (pj_books pj)) (pj_latest pj)).
  exists final. split.
  - unfold put_resting, put_book. cbn [pj_orders pj_books pj_latest].
    rewrite bool_decide_false by (rewrite Hnew; by intros []). cbn [negb ensure].
    f_equal. unfold final. f_equal. by rewrite insert_insert_eq.
  - split; [| split; [| done]].
    + apply (pj_wf_update pj _ _ market buy p f n); [done | | |].
      * intros k v [[<- <-]|[_ Hv]]%lookup_insert_Some; [split; [eauto | by left] |].
        destruct (pw_orders _ Hwf _ _ Hv). split; [done | by right].
      * intros m b z. rewrite msum_insert_new by done. unfold shown_at at 1, depth.
        cbn [rs_pair rs_buy rs_price rs_remaining r].
        rewrite (unit_count_in _ _ Hn). lia.
      * assert (0 ≤ depth pj market buy (raw p)).
        { apply msum_nonneg. intros k v Hv. unfold shown_at. case_decide; [| done].
          destruct (pw_orders _ Hwf _ _ Hv) as [(m & Hm & ?) _]. rewrite (unit_count_in _ _ Hm). lia. }
        unfold f, level_value. rewrite (proj2 (Z.eqb_neq (_ + n) 0)) by lia.
        destruct (Z.eqb_spec (depth pj market buy (raw p)) 0) as [->|]; done.
    + split; [done |]. intros m. unfold pbook_at, final. cbn [pj_books]. destruct (decide (m = market)) as [->|Hm].
      * rewrite lookup_insert_eq. unfold book, pbook_at. cbn. by destruct buy.
      * by rewrite lookup_insert_ne.
Qed.
End projection_facts.

(** ** The projection against the books of the engine *)

Section reflects.
Context {E : Externals} {L : DecimalLaws ext_decimal}.
Implicit Types pj : Projection.

Definition shows pj (id : Z) (market : TradingPair) (buy : bool) (z n : Z) : Prop :=
  ∃ r, pj_orders pj !! id = Some r ∧ rs_pair r = market ∧ rs_buy r = buy ∧ raw (rs_price r) = z ∧
    in_units (rs_remaining r) n.

(** The projection shows exactly what rests in the books. *)
Record reflects (s : EngineState) pj : Prop := {
  rf_wf : pj_wf pj;
  rf_orders : ∀ id m b z n, shows pj id m b z n ↔ rests_at s id m b z n;
}.

Lemma shows_unique pj id m b z n m' b' z' n' :
  shows pj id m b z n → shows pj id m' b' z' n' → m' = m ∧ b' = b ∧ z' = z ∧ n' = n.
Proof.
  intros (r & Hr & <- & <- & <- & Hn) (r' & Hr' & <- & <- & <- & Hn'). rewrite Hr in Hr'. injection Hr' as <-.
  split_and!; try done. by eapply in_units_inj.
Qed.

(** An id that rests nowhere is not in the projection. *)
Lemma not_shown s pj id : reflects s pj → (∀ m b z n, ¬ rests_at s id m b z n) → pj_orders pj !! id = None.
Proof.
  intros Hr Hno. destruct (pj_orders pj !! id) as [r|] eqn:H; [| done]. exfalso.
  destruct (pw_orders _ (rf_wf _ _ Hr) _ _ H) as [(n & Hn & _) _].
  eapply Hno. apply (rf_orders _ _ Hr). exists r. by split_and!.
Qed.

(** The amount a limit order leaves, as the projection computes it. *)
Lemma limit_rest order fs w plan m filled :
  validate order true = Ok tt → plan_inv order m fs w plan → oe_order_side order = "limit"%string →
  in_units filled (fills_amount fs) →
  ∃ remaining n, subtract (oe_amount order) filled = Ok remaining ∧ in_units remaining n ∧
    in_units (oe_remaining_amount (p_order plan)) n ∧ is_Some (oe_price order).
Proof.
  intros (_ & _ & Hfresh & Hkind)%validate_run Hinv Hside Hfill. specialize (Hfresh eq_refl).
  destruct Hkind as [(Hm & _) | (_ & _ & Hrq & (f & r & Hf & Hr & Hpos & Ha) & Hpr)]; [congruence |].
  rewrite Hside in Hpr. cbn in Hpr. destruct Hpr as (p & v & Hp & _).
  destruct (pi_order _ _ _ _ _ Hinv) as (a & r' & f' & rq & -> & Hf' & H). rewrite Hrq in H.
  destruct H as (-> & -> & r0 & Hr0 & Hr' & _). cbn.
  assert (f = 0) as -> by (destruct Hf; lia). rewrite (in_units_inj _ _ _ Hr0 Hr) in *. rewrite Z.add_0_l in Ha.
  pose proof (in_units_range _ _ Hr').
  destruct (subtract_total (oe_amount order) filled r (fills_amount fs) Ha Hfill) as [d Hd];
    [lia | by eapply in_units_representable |].
  exists d, (r - fills_amount fs). split_and!;
    [done | exact (subtract_ok _ _ _ _ _ Ha Hfill Hd) | done | by rewrite Hp].
Qed.

(** One record that cancels an order. *)
Lemma reflect_cancel s pj order_id user_id market found s' :
  state_wf s → reflects s pj → cancel_order order_id user_id market (core s) = (Ok found, core s') →
  ∃ pj', reduce (oe_id found) (oe_remaining_amount found) pj = (Ok tt, pj') ∧ reflects s' pj' ∧ same_header pj pj'.
Proof.
  intros Hwf Href Hrun.
  destruct (cancel_rests _ _ _ _ _ _ Hwf Hrun) as (Hid & _ & (b & z & n & Hrest & Hn) & Hafter).
  pose proof (rests_positive _ _ _ _ _ _ Hwf Hrest) as Hpos.
  apply (rf_orders _ _ Href) in Hrest as (r & Hr & _ & _ & _ & Hnr).
  destruct (reduce_run pj order_id r n _ n (rf_wf _ _ Href) Hr Hnr Hn ltac:(lia))
    as (pj' & Hrun' & Hwf' & Hother & Hself & Hlat & Hseq).
  { rewrite Z.sub_diag. eapply in_units_representable, in_units_zero, zero_raw. }
  exists pj'. rewrite Hid. split_and!; [done | | done]. split; [done |].
  rewrite Z.eqb_refl in Hself. intros id m b' z' n'. rewrite Hafter, <- (rf_orders _ _ Href). unfold shows.
  destruct (decide (id = order_id)) as [->|Hne]; [rewrite Hself; naive_solver | rewrite Hother by done; tauto].
Qed.

(** An offer that a submission takes from is shown with its market, its side and its price. *)
Lemma fill_shown order s pj plan w :
  let market := pair_of order in
  let maker_buy := String.eqb (oe_order_type order) "sell" in
  let fs := fills (want_of order) (offers order (book_at (core s) market)) in
  state_wf s → reflects s pj → plan_inv order maker_buy fs w plan →
  ∀ q p o, (q, (p, o)) ∈ fs → ∃ r n, pj_orders pj !! oe_id o = Some r ∧ in_units (rs_remaining r) n ∧
    in_units (oe_remaining_amount o) n ∧ 0 < q ≤ n ∧ representable (n - q) ∧
    rs_pair r = market ∧ rs_buy r = maker_buy ∧ raw (rs_price r) = raw p.
Proof.
  intros market maker_buy fs Hwf Href Hinv q p o Hf.
  destruct (book_at_wf (core s) market (st_books _ Hwf)) as [Hbwf _].
  pose proof (fill_in_book order _ q p o Hbwf Hf) as Ho.
  destruct (resting_rests s market _ p o Hwf Ho) as (n & Hn & _ & Hrest).
  apply (rf_orders _ _ Href) in Hrest as (r & Hr & Hm & Hb & Hz & Hnr).
  pose proof (pi_checked _ _ _ _ _ Hinv) as Hch. rewrite Forall_forall in Hch.
  destruct (Hch _ Hf) as (_ & _ & _ & _ & _ & _ & _ & _ & _ & n' & Hn' & Hq). cbn in Hn', Hq.
  rewrite (in_units_inj _ _ _ Hn' Hn) in Hq.
  destruct (pi_made _ _ _ _ _ Hinv _ _ _ Hf) as (o' & _ & (f & r' & f0 & r0 & _ & _ & Hr0 & _ & Hr')).
  rewrite (in_units_inj _ _ _ Hr0 Hn) in Hr'. exists r, n. split_and!; try done; try lia.
  by eapply in_units_representable.
Qed.

(** The trades of a submission. *)
Lemma reflect_trades order s pj outs plan w engine_id sequence :
  let market := pair_of order in
  let maker_buy := String.eqb (oe_order_type order) "sell" in
  let fs := fills (want_of order) (offers order (book_at (core s) market)) in
  state_wf s → reflects s pj → plan_inv order maker_buy fs w plan → validate order true = Ok tt →
  map to_trade outs = p_matches plan →
  ∃ filled pj', apply_trades order engine_id sequence 0 outs dec_zero [] pj =
      (Ok (filled, market_trades order engine_id sequence 0 outs), pj') ∧
    in_units filled (fills_amount fs) ∧ pj_wf pj' ∧ same_header pj pj' ∧
    (∀ id, ¬ traded fs id → pj_orders pj' !! id = pj_orders pj !! id) ∧
    (∀ q p o n, (q, (p, o)) ∈ fs → in_units (oe_remaining_amount o) n →
       ∀ m b z k, shows pj' (oe_id o) m b z k ↔ m = market ∧ b = maker_buy ∧ z = raw p ∧ k = n - q ∧ 0 < k).
Proof.
  intros market maker_buy fs Hwf Href Hinv Hval Houts.
  destruct (book_at_wf (core s) market (st_books _ Hwf)) as [Hbwf _].
  set (hits := map (fun f : fill => (oe_id f.2.2, f.1)) fs).
  assert (Hsum : ∀ l : list fill, lsum snd (map (fun f : fill => (oe_id f.2.2, f.1)) l) = fills_amount l).
  { induction l as [|f l IHl]; [done |]. cbn [map]. unfold fills_amount. rewrite !lsum_cons. cbn [snd].
    by rewrite IHl. }
  pose proof (fill_shown order s pj plan w Hwf Href Hinv) as Hshow. fold market maker_buy fs in Hshow.
  destruct (apply_trades_run order engine_id sequence outs hits pj 0 dec_zero 0 []) as
    (pj' & filled & Hrun & Hwf' & Hfill & Hhead & Hother & Hself).
  - apply Href.
  - apply in_units_zero, zero_raw.
  - assert (Hall := pi_matches _ _ _ _ _ Hinv). rewrite <- Houts in Hall. unfold hits.
    apply validate_run in Hval as ((_ & _ & Hty & _) & _).
    apply Forall2_fmap_r. apply (Forall2_fmap_l to_trade) in Hall. eapply Forall2_impl; [exact Hall |].
    intros o [q [p mk]] (Ha & _ & _ & _ & Hbuy & Hsell & _). cbn in *. split; [| done].
    unfold maker_id. destruct Hty as [Hty|Hty]; unfold maker_buy in *; rewrite Hty in *; cbn in *;
      [by rewrite Hsell | by rewrite Hbuy].
  - unfold hits. rewrite map_map. cbn [fst]. by eapply fills_ids_nodup.
  - intros id q ([q' [p o]] & [= -> ->] & Hf)%list_elem_of_fmap. cbn [fst snd].
    destruct (Hshow _ _ _ Hf) as (r & n & ? & ? & ? & ? & ? & _). exists r, n. tauto.
  - intros h1 h2 Hh. unfold hits in Hh. apply map_eq_app in Hh as (l1 & l2 & Hl & <- & <-).
    destruct (pi_prefix _ _ _ _ _ Hinv _ _ Hl) as [d Hd]. exists d. by rewrite Hsum.
  - exists filled, pj'. unfold hits in Hfill. rewrite Hsum in Hfill. split_and!; try done.
    + intros id Hnt. apply Hother. unfold hits. rewrite map_map. intros (f & -> & Hf)%list_elem_of_fmap.
      apply Hnt. by exists f.
    + intros q p o n Hf Hn m b z k. destruct (Hshow _ _ _ Hf) as (r & n' & Hr & Hnr & Hn' & Hq & _ & Hm & Hb & Hz).
      rewrite (in_units_inj _ _ _ Hn' Hn) in *.
      assert (Hin : (oe_id o, q) ∈ hits) by (apply list_elem_of_fmap; by exists (q, (p, o))).
      pose proof (Hself _ _ _ _ Hin Hr Hnr) as Hres. unfold shows. destruct (Z.eqb_spec n q) as [->|Hne].
      * rewrite Hres. split; [naive_solver | lia].
      * destruct Hres as (d & -> & Hd). split.
        -- intros (r' & [= <-] & Hm' & Hb' & Hz' & Hk). cbn in *. pose proof (in_units_inj _ _ _ Hk Hd) as ->.
           split_and!; try congruence. lia.
        -- intros (-> & -> & -> & -> & _). eexists. split; [done |]. cbn. by split_and!.
Qed.

(** The rest of a submission: it joins the projection exactly when it joins the book. *)
Lemma rest_step_run order market fs w plan m filled pj :
  validate order true = Ok tt → plan_inv order m fs w plan → in_units filled (fills_amount fs) →
  pj_wf pj → pj_orders pj !! oe_id order = None →
  ∃ pj', rest_step order market filled pj = (Ok tt, pj') ∧ pj_wf pj' ∧ same_header pj pj' ∧
    (∀ id, id ≠ oe_id order → pj_orders pj' !! id = pj_orders pj !! id) ∧
    ∀ m' b z n, shows pj' (oe_id order) m' b z n ↔
      m' = market ∧ b = String.eqb (oe_order_type order) "buy" ∧ rests (p_order plan) = true ∧
      (∃ p, oe_price order = Some p ∧ raw p = z) ∧ in_units (oe_remaining_amount (p_order plan)) n.
Proof.
  intros Hval Hinv Hfill Hwf Hnone.
  pose proof (order_after_same _ _ _ _ (pi_order _ _ _ _ _ Hinv)) as (_ & _ & _ & Hsd & _).
  assert (Hskip : rests (p_order plan) = false → ∃ pj', (Ok tt, pj) = (Ok tt, pj') ∧ pj_wf pj' ∧ same_header pj pj' ∧
    (∀ id, id ≠ oe_id order → pj_orders pj' !! id = pj_orders pj !! id) ∧
    ∀ m' b z n, shows pj' (oe_id order) m' b z n ↔
      m' = market ∧ b = String.eqb (oe_order_type order) "buy" ∧ rests (p_order plan) = true ∧
      (∃ p, oe_price order = Some p ∧ raw p = z) ∧ in_units (oe_remaining_amount (p_order plan)) n).
  { intros Hno. exists pj. split_and!; try done. intros m' b z n. rewrite Hno. unfold shows. rewrite Hnone.
    naive_solver. }
  unfold rest_step. destruct (String.eqb_spec (oe_order_side order) "limit") as [Hside|Hside]; cycle 1.
  { apply Hskip. unfold rests. rewrite Hsd. by rewrite (proj2 (String.eqb_neq _ _) Hside). }
  destruct (limit_rest _ _ _ _ _ _ Hval Hinv Hside Hfill) as (d & n & Hd & Hdn & Hrn & [p Hp]).
  unfold mbind, st_bind, lift. rewrite Hd. rewrite dec_ltb_raw, zero_raw.
  assert (Hrests : rests (p_order plan) = (0 <? raw d)).
  { unfold rests. rewrite Hsd, Hside. cbn. rewrite dec_ltb_raw, zero_raw. destruct Hdn as [-> _], Hrn as [-> _]. done. }
  destruct (Z.ltb_spec 0 (raw d)) as [Hpos|Hpos]; [| by apply Hskip].
  assert (0 < n) by (destruct Hdn as [Hraw _]; rewrite Hraw in Hpos; lia).
  destruct (rest_order_run order market d p n pj Hwf Hp Hdn ltac:(done) Hnone) as (pj' & Hrun & Hwf' & Hhead & Hord).
  exists pj'. split_and!; try done.
  - intros id Hid. by rewrite Hord, lookup_insert_ne.
  - intros m' b z k. unfold shows. rewrite Hord, lookup_insert_eq, Hrests. split.
    + intros (r & [= <-] & Hm & Hb & Hz & Hk). cbn in *. rewrite (in_units_inj _ _ _ Hk Hdn). split_and!; eauto.
    + intros (-> & -> & _ & (p' & Hp' & <-) & Hk). rewrite Hp in Hp'. injection Hp' as <-.
      rewrite (in_units_inj _ _ _ Hk Hrn). eexists. split; [done |]. by split_and!.
Qed.

(** One record that executes a submission. *)
Lemma reflect_submit order s pj id outs completion s' engine_id sequence :
  state_wf s → reflects s pj →
  journal_apply (CmdSubmit order) s = (Ok (Applied (Some (Submitted id outs completion))), s') →
  ∃ filled pj1 pj', apply_trades order engine_id sequence 0 outs dec_zero [] pj =
      (Ok (filled, market_trades order engine_id sequence 0 outs), pj1) ∧
    rest_step order (pair_of order) filled pj1 = (Ok tt, pj') ∧ reflects s' pj' ∧ same_header pj pj'.
Proof.
  intros Hwf Href Hrun.
  destruct (submit_rests _ _ _ _ _ _ Hwf Hrun) as (Hfresh & plan & w & Hinv & Hval & Houts & Hafter).
  set (market := pair_of order) in *. set (fs := fills _ _) in *.
  destruct (book_at_wf (core s) market (st_books _ Hwf)) as [Hbwf _].
  destruct (reflect_trades order s pj outs plan w engine_id sequence Hwf Href Hinv Hval Houts)
    as (filled & pj1 & Hrun1 & Hfill & Hwf1 & [Hlat1 Hseq1] & Hother1 & Htraded1).
  fold market fs in Hfill, Hother1, Htraded1.
  assert (Hno : ∀ m b z n, ¬ rests_at s (oe_id order) m b z n).
  { intros m b z n (u & p & o & Ho & Hid & _). by apply (Hfresh m b p o). }
  assert (Hfs : ∀ q p o, (q, (p, o)) ∈ fs → resting s market (String.eqb (oe_order_type order) "sell") p o)
    by (intros q p o; by apply fill_in_book).
  assert (Hnt : ¬ traded fs (oe_id order)).
  { intros ([q [p o]] & Hf & Hid). by apply (Hfresh market _ p o (Hfs _ _ _ Hf)). }
  assert (Hnone : pj_orders pj1 !! oe_id order = None) by (rewrite Hother1 by done; by eapply not_shown).
  destruct (rest_step_run order market fs w plan _ filled pj1 Hval Hinv Hfill Hwf1 Hnone)
    as (pj' & Hrun2 & Hwf2 & [Hlat2 Hseq2] & Hother2 & Hown2).
  exists filled, pj1, pj'. split_and!; [done | done | | split; [by rewrite Hlat2 | intros m; by rewrite Hseq2]].
  split; [done |]. intros k m b z n. rewrite Hafter.
  assert (Hty : String.eqb (oe_order_type order) "buy" = negb (String.eqb (oe_order_type order) "sell")).
  { apply validate_run in Hval as ((_ & _ & [-> | ->] & _) & _); done. }
  destruct (decide (k = oe_id order)) as [->|Hk].
  { rewrite Hown2, Hty. split; [intros (-> & -> & H); right; right;
    exact (conj eq_refl (conj eq_refl (conj eq_refl H))) |].
    intros [(_ & _ & _ & q & p & o & Hf & Hid & _) | [(_ & Hr) | (-> & _ & -> & H)]];
      [| by apply Hno in Hr | exact (conj eq_refl (conj eq_refl H))].
    destruct Hnt. by exists (q, (p, o)). }
  assert (Hsame : shows pj' k m b z n ↔ shows pj1 k m b z n) by (unfold shows; by rewrite Hother2).
  rewrite Hsame. destruct (classic_traded fs k) as [([q [p o]] & Hf & Hid)|Hnk].
  - cbn in Hid. subst k. destruct (resting_rests s market _ p o Hwf (Hfs _ _ _ Hf)) as (n0 & Hn0 & _ & Hr0).
    rewrite (Htraded1 q p o n0 Hf Hn0). split.
    + intros (-> & -> & -> & -> & Hpos). left. split_and!; [done..|]. exists q, p, o. split_and!; try done.
      by replace (n0 - q + q) with n0 by lia.
    + intros [(-> & -> & Hpos & q' & p' & o' & Hf' & Hid & <- & Hn') | [(Hnt' & _) | (_ & ? & _)]];
        [| destruct Hnt'; by exists (q, (p, o)) | done].
      destruct (resting_rests s market _ p' o' Hwf (Hfs _ _ _ Hf')) as (n1 & Hn1 & _ & Hr1). rewrite Hid in Hr1.
      destruct (rests_at_unique _ _ _ _ _ _ _ _ _ _ Hwf Hr0 Hr1) as (_ & _ & Hz & Hnn).
      assert (Hq : (q', (p', o')) = (q, (p, o))).
      { apply (fill_once fs); [by eapply fills_ids_nodup | done | done | done]. }
      injection Hq as -> -> ->. pose proof (in_units_inj _ _ _ Hn' Hn0). split_and!; try done; lia.
  - assert (Hsame1 : shows pj1 k m b z n ↔ shows pj k m b z n) by (unfold shows; by rewrite Hother1).
    rewrite Hsame1, (rf_orders _ _ Href). split; [intros H; right; left; by split |].
    intros [(_ & _ & _ & q & p & o & Hf & Hid & _) | [(_ & Hr) | (_ & ? & _)]]; [| done | done].
    destruct Hnk. by exists (q, (p, o)).
Qed.

(** The market of a record, as the projection sees it, and the trades it publishes. *)
Definition touched_by (command : Command) (outcome : Outcome) (engine_id sequence : string) :
    option (TradingPair * list MarketTrade) :=
  match command, outcome with
  | CmdSubmit order, Applied (Some (Submitted _ outs _)) =>
      Some (pair_of order, market_trades order engine_id sequence 0 outs)
  | _, Applied (Some (BatchCancelled order)) => Some (pair_of order, [])
  | _, _ => None
  end.

Lemma apply_record_run record engine_id s pj s' :
  state_wf s → reflects s pj → journal_apply (r_command record) s = (Ok (r_outcome record), s') →
  ∃ pj', apply_record record engine_id pj =
      (Ok (touched_by (r_command record) (r_outcome record) engine_id (show_int (r_sequence record))), pj') ∧
    reflects s' pj' ∧ same_header pj pj'.
Proof.
  intros Hwf Href. destruct record as [n time command outcome]. cbn [r_command r_outcome r_sequence]. intros Hrun.
  assert (Hsame : book_event outcome = false → ∃ pj', (Ok (@None (TradingPair * list MarketTrade)),
    pj) = (Ok None, pj') ∧ reflects s' pj' ∧ same_header pj pj').
  { intros Hev. exists pj. split; [done | split; [| done]]. pose proof (other_outcomes _ _ _ _ Hwf Hrun Hev) as Hb.
    split; [apply Href |]. intros id m b z k. rewrite (rf_orders _ _ Href). unfold rests_at, stands_at, book_at.
    unfold books_of in Hb. by rewrite Hb. }
  pose proof (outcome_shape _ _ _ _ Hrun) as Hshape. unfold apply_record. cbn [r_command r_outcome r_sequence].
  destruct outcome as [[[c|funds reason|credit|id outs completion|found|order reason]|]|reason|order]; cbn in Hsame;
    try (destruct command; by apply Hsame).
  - destruct command as [c|credit|order|order_id user_id market|user_id mint delta|user_id mint amount|user_id
    mint amount];
      try done.
    destruct (reflect_submit order s pj id outs completion s' engine_id (show_int n) Hwf Href Hrun)
      as (filled & pj1 & pj' & Hrun1 & Hrun2 & Href' & Hhead).
    exists pj'. split; [| split; [done | apply Hhead]]. unfold mbind, st_bind. rewrite Hrun1.
    fold (pair_of order). by rewrite Hrun2.
  - destruct command as [c|credit|order|order_id user_id market|user_id mint delta|user_id mint amount|user_id
    mint amount];
      try done.
    apply cancelled_run in Hrun.
    destruct (reflect_cancel s pj order_id user_id market found s' Hwf Href Hrun) as (pj' & Hrun1 & Href' & Hhead).
    exists pj'. split; [| split; [done | apply Hhead]]. unfold mbind, st_bind. by rewrite Hrun1.
Qed.

(** The quantity waiting in the queue of a price. *)
Definition queue_units (s : EngineState) (market : TradingPair) (buy : bool) (p : Decimal) : Z :=
  lsum (fun o => unit_count (oe_remaining_amount o)) (level (side_of buy (book_at (core s) market)) p).

Lemma depth_queue s pj market buy p :
  state_wf s → reflects s pj → depth pj market buy (raw p) = queue_units s market buy p.
Proof.
  intros Hwf Href. destruct (book_at_wf (core s) market (st_books _ Hwf)) as [Hbwf _].
  apply (msum_lsum _ _ oe_id); [apply (bw_side _ Hbwf buy) | |].
  - intros o Ho. destruct (resting_rests s market buy p o Hwf Ho) as (n & Hn & _ & Hrest).
    apply (rf_orders _ _ Href) in Hrest as (r & Hr & Hm & Hb & Hz & Hk). exists r. split; [done |].
    unfold shown_at. rewrite decide_True by done. by rewrite (unit_count_in _ _ Hk), (unit_count_in _ _ Hn).
  - intros id r Hr Hno. unfold shown_at. case_decide as Hd; [| done]. destruct Hd as (Hm & Hb & Hz). exfalso. apply Hno.
    destruct (pw_orders _ (rf_wf _ _ Href) _ _ Hr) as [(n & Hn & _) _].
    assert (Hs : shows pj id market buy (raw p) n) by (exists r; by split_and!).
    apply (rf_orders _ _ Href) in Hs as (u & p' & o & Ho & <- & _ & Hp & _). apply list_elem_of_fmap. exists o.
      split; [done |].
    unfold in_book in Ho. by rewrite (level_raw _ p p').
Qed.

(** What a list of levels shows of a side of a market. *)
Definition side_shown (s : EngineState) (market : TradingPair) (buy : bool) (side : btree Z) : Prop :=
  bt_sorted side ∧ ∀ p, bt_get p side = level_value (queue_units s market buy p).

Lemma reflects_shown s pj market buy :
  state_wf s → reflects s pj → side_shown s market buy (levels buy (pbook_at market pj)).
Proof.
  intros Hwf Href. split; [apply Href |]. intros p. by rewrite (pw_levels _ (rf_wf _ _ Href)), (depth_queue s).
Qed.

(** Numbering a market's snapshots changes nothing that is shown. *)
Lemma reflects_numbered s pj market n latest :
  reflects s pj →
  let book := pbook_at market pj in
  reflects s (mk_projection (pj_orders pj) (<[market := mk_pbook (bk_bids book) (bk_asks book) n]> (pj_books pj)) latest).
Proof.
  intros [[H1 H2 H3] Ho] book. split; [| exact Ho].
  assert (Hlev : ∀ m b, levels b (pbook_at m (mk_projection (pj_orders pj)
    (<[market := mk_pbook (bk_bids book) (bk_asks book) n]> (pj_books pj)) latest)) = levels b (pbook_at m pj)).
  { intros m b. unfold pbook_at. cbn [pj_books]. destruct (decide (m = market)) as [->|Hm].
    - rewrite lookup_insert_eq. unfold book, pbook_at. by destruct b.
    - by rewrite lookup_insert_ne. }
  split.
  - intros id r Hr. destruct (H1 _ _ Hr). split; [done |]. apply lookup_insert_is_Some'. by right.
  - intros m b. rewrite Hlev. apply H2.
  - intros m b p. rewrite Hlev. apply H3.
Qed.

(** The projection after a record of a market. *)
Lemma project_run record engine_id s pj s' :
  state_wf s → reflects s pj → journal_apply (r_command record) s = (Ok (r_outcome record), s') →
  ∃ pj', reflects s' pj' ∧
  match touched_by (r_command record) (r_outcome record) engine_id (show_int (r_sequence record)) with
  | None => project record engine_id pj = (Ok None, pj') ∧ same_header pj pj'
  | Some (market, trades) => ∃ book,
      let event := snapshot_of record engine_id market trades book in
      project record engine_id pj = (Ok (Some event), pj') ∧
      (∀ b, side_shown s' market b (levels b book)) ∧
      bk_sequence book = bk_sequence (pbook_at market pj) ∧
      pj_latest pj' = <[market := event]> (pj_latest pj) ∧
      ∀ m, bk_sequence (pbook_at m pj') = if decide (m = market) then r_sequence record else bk_sequence (pbook_at m pj)
  end.
Proof.
  intros Hwf Href Hrun.
  destruct (journal_step_ok (r_command record) s Hwf) as (o & s1 & Hrun1 & Hok). rewrite Hrun in Hrun1.
    injection Hrun1 as <- <-.
  destruct (apply_record_run record engine_id s pj s' Hwf Href Hrun) as (pj1 & Hap & Href1 & Hlat & Hseq).
  assert (Hproj : project record engine_id pj = (match touched_by (r_command record) (r_outcome record)
    engine_id (show_int (r_sequence record)) with
      | None => mret None
      | Some (market, trades) =>
          pj ← sget;
          let book := pbook_at market pj in
          let event := snapshot_of record engine_id market trades book in
          _ ← smodify (put_book market (mk_pbook (bk_bids book) (bk_asks book) (r_sequence record)));
          _ ← smodify (fun pj => mk_projection (pj_orders pj) (pj_books pj) (<[market := event]> (pj_latest pj)));
          mret (Some event)
      end) pj1).
  { unfold project. unfold mbind at 1, st_bind at 1. by rewrite Hap. }
  rewrite Hproj. destruct (touched_by _ _ _ _) as [[market trades]|]; [| by exists pj1].
  exists (mk_projection (pj_orders pj1)
    (<[market := mk_pbook (bk_bids (pbook_at market pj1)) (bk_asks (pbook_at market pj1))
      (r_sequence record)]> (pj_books pj1))
    (<[market := snapshot_of record engine_id market trades (pbook_at market pj1)]> (pj_latest pj1))).
  split; [by apply reflects_numbered |]. exists (pbook_at market pj1). cbn zeta. split_and!.
  - done.
  - intros b. apply reflects_shown; [apply Hok | done].
  - apply Hseq.
  - cbn [pj_latest]. by rewrite Hlat.
  - intros m. unfold pbook_at at 1. cbn [pj_books]. case_decide as Hm.
    + subst m. by rewrite lookup_insert_eq.
    + rewrite lookup_insert_ne by done. apply Hseq.
Qed.

(** A whole history: no record is refused. *)
Lemma project_all_run records engine_id s pj s' :
  state_wf s → reflects s pj →
  run_commands (map r_command records) s = (Ok (map r_outcome records), s') →
  ∃ events pj', project_all records engine_id pj = (Ok events, pj') ∧ reflects s' pj' ∧ state_wf s'.
Proof.
  revert s pj. induction records as [|record records IH]; intros s pj Hwf Href Hrun.
  { injection Hrun as <-. by exists [], pj. }
  cbn [map run_commands] in Hrun. apply st_bind_ok in Hrun as (o & s1 & Ho & Hrun).
  apply st_bind_ok in Hrun as (os & s2 & Hos & Hret). injection Hret as -> -> ->.
  destruct (journal_step_ok (r_command record) s Hwf) as (o & s3 & Ho' & Hok). rewrite Ho in Ho'.
    injection Ho' as <- <-.
  destruct (project_run record engine_id s pj s1 Hwf Href Ho) as (pj1 & Href1 & Hone).
  destruct (IH s1 pj1 (so_wf _ _ _ _ Hok) Href1 Hos) as (events & pj' & Hall & Href' & Hwf').
  cbn [project_all]. unfold mbind at 1, st_bind at 1. destruct (touched_by _ _ _ _) as [[market trades]|].
  - destruct Hone as (book & Hp & _). rewrite Hp. unfold mbind, st_bind. rewrite Hall.
    by eexists _, pj'.
  - destruct Hone as (Hp & _). rewrite Hp. unfold mbind, st_bind. rewrite Hall. by eexists _, pj'.
Qed.

(** The empty projection shows empty books. *)
Lemma reflects_empty s : (∀ market buy p o, ¬ resting s market buy p o) → reflects s projection_new.
Proof.
  intros Hno. split; [apply projection_new_wf |]. intros id m b z n. split.
  - intros (r & Hr & _). cbn in Hr. by apply lookup_empty_Some in Hr.
  - intros (u & p & o & Ho & _). by apply Hno in Ho.
Qed.
End reflects.

(** ** The text of a quantity *)

Section quantity_text.
Context {D : DecimalOps} {L : DecimalLaws D}.

Lemma quantity_text_parts n :
  0 ≤ n →
  ∃ i f, quantity_text n = trim_end_matches "."%char (trim_end_matches "0"%char (i +:+ String "."%char f)) ∧
    i ≠ ""%string ∧ all_chars is_digit i = true ∧ all_chars is_digit f = true ∧ slen f = 9 ∧
    n = str_value i * 10 ^ 9 + str_value f.
Proof.
  intros Hn. unfold quantity_text, show_int. rewrite (proj2 (Z.ltb_ge n 0)) by done. cbn zeta.
  set (text := if slen (show_nonneg n) <=? 9 then _ else _).
  assert (Htext : all_chars is_digit text = true ∧ str_value text = n ∧ (10 ≤ String.length text)%nat).
  { destruct (zeros_facts (10 - String.length (show_nonneg n))) as (Hz1 & Hz2 & Hz3). unfold text.
    destruct (Z.leb_spec (slen (show_nonneg n)) 9) as [Hle|Hgt].
    - rewrite all_chars_app, str_value_app, Hz1, Hz2, show_nonneg_digits, show_nonneg_value by done.
      split_and!; [done | lia |]. apply Nat2Z.inj_le.
        change (10 ≤ slen (zeros (10 - String.length (show_nonneg n)) +:+ show_nonneg n)).
      rewrite slen_app, Hz3. unfold slen in *. lia.
    - rewrite show_nonneg_digits, show_nonneg_value by done. unfold slen in Hgt. split_and!; [done | done | lia]. }
  destruct Htext as (Hdig & Hval & Hlen). clearbody text.
  destruct (substring_cut (String.length text - 9) text) as (Hcut & Hl1 & Hl2); [lia |].
  replace (String.length text - (String.length text - 9))%nat with 9%nat in * by lia.
  exists (String.substring 0 (String.length text - 9) text), (String.substring (String.length text - 9) 9 text).
  rewrite <- Hcut, all_chars_app in Hdig. apply andb_true_iff in Hdig as [Hi Hf].
  assert (Hs : slen (String.substring (String.length text - 9) 9 text) = 9) by (unfold slen; by rewrite Hl2).
  split_and!; [done | | done | done | done |].
  - intros He. rewrite He in Hl1. cbn in Hl1. lia.
  - rewrite <- Hval, <- Hcut at 1. by rewrite str_value_app, Hs.
Qed.
End quantity_text.

(** ** Properties *)

Section market_properties.
Context {E : Externals} {L : DecimalLaws ext_decimal}.

(** The records of a history, numbered from [n]. *)
Fixpoint record_all (now : Z → Timestamp) (n : Z) (commands : list Command) (outcomes : list Outcome) : list Record_ :=
  match commands, outcomes with
  | command :: commands, outcome :: outcomes =>
      mk_record n (now n) command outcome :: record_all now (n + 1) commands outcomes
  | _, _ => []
  end.

Lemma record_all_parts now n commands outcomes :
  length outcomes = length commands →
  map r_command (record_all now n commands outcomes) = commands ∧
  map r_outcome (record_all now n commands outcomes) = outcomes.
Proof.
  revert n outcomes. induction commands as [|c commands IH]; intros n [|o outcomes] Hlen; try done.
  cbn in Hlen |- *. destruct (IH (n + 1) outcomes) as [-> ->]; [lia | done].
Qed.

(** C17. The public market data is the order book. After any history of the exchange, the projection
    that has read its records, which never looks at the engine and is refused no record, shows in
    every market, on both sides, exactly the prices at which orders wait in the books of the engine,
    each with exactly the quantity that waits there. *)
Theorem market_data_refines_books now engine_id commands :
  ∃ outcomes s events pj,
    run_commands commands state_new = (Ok outcomes, s) ∧
    project_all (record_all now 1 commands outcomes) engine_id projection_new = (Ok events, pj) ∧
    ∀ market buy, side_shown s market buy (levels buy (pbook_at market pj)).
Proof.
  destruct (run_commands_run commands state_new state_wf_new) as (outcomes & s & Hrun & Hwf & _ & Hlen & _).
  destruct (record_all_parts now 1 commands outcomes Hlen) as [Hc Ho].
  destruct (project_all_run (record_all now 1 commands outcomes) engine_id state_new projection_new s)
    as (events & pj & Hall & Href & _); [apply state_wf_new | | by rewrite Hc, Ho |].
  - apply reflects_empty. intros market buy p o Hin. destruct buy; by apply elem_of_nil in Hin.
  - exists outcomes, s, events, pj. split_and!; [done | done |]. intros market buy. by apply reflects_shown.
Qed.

(** A snapshot is published for a record exactly when the record executed or cancelled an order.
    It carries the trades of the record and the twenty best prices of either side of the book of the
    market as it is after the record, and it names the sequence of the snapshot before it in the same
    market, so that a reader can tell a gap. *)
Theorem snapshot_exact record engine_id s pj s' :
  state_wf s → reflects s pj → journal_apply (r_command record) s = (Ok (r_outcome record), s') →
  match touched_by (r_command record) (r_outcome record) engine_id (show_int (r_sequence record)) with
  | None => ∃ pj', project record engine_id pj = (Ok None, pj') ∧ reflects s' pj'
  | Some (market, trades) => ∃ event pj' bids asks,
      project record engine_id pj = (Ok (Some event), pj') ∧ reflects s' pj' ∧
      ms_bids event = map level_text (take 20 (rev bids)) ∧ side_shown s' market true bids ∧
      ms_asks event = map level_text (take 20 asks) ∧ side_shown s' market false asks ∧
      ms_trades event = trades ∧
      ms_sequence event = show_int (r_sequence record) ∧
      ms_previous_sequence event = show_int (bk_sequence (pbook_at market pj)) ∧
      bk_sequence (pbook_at market pj') = r_sequence record ∧
      (∀ other, other ≠ market → bk_sequence (pbook_at other pj') = bk_sequence (pbook_at other pj)) ∧
      pj_latest pj' = <[market := event]> (pj_latest pj)
  end.
Proof.
  intros Hwf Href Hrun. destruct (project_run record engine_id s pj s' Hwf Href Hrun) as (pj' & Href' & Hone).
  destruct (touched_by _ _ _ _) as [[market trades]|]; [| exists pj'; tauto].
  destruct Hone as (book & Hp & Hshown & Hseq & Hlat & Hnum).
  pose proof (Hshown true). pose proof (Hshown false).
  eexists _, pj', (bk_bids book), (bk_asks book). split_and!; try done.
  - cbn. by rewrite Hseq.
  - by rewrite Hnum, decide_True.
  - intros other Hne. by rewrite Hnum, decide_False.
Qed.

(** The text of a public quantity loses nothing: it reads back, digit for digit, as the exact
    number of units, whenever a decimal can hold them, and never as any other number. *)
Theorem quantity_text_roundtrip n :
  0 ≤ n →
  (∀ d, from_str_exact (quantity_text n) = Some d → raw d = n * 10 ^ 19) ∧
  (representable n → is_Some (from_str_exact (quantity_text n))).
Proof.
  intros Hn. destruct (quantity_text_parts n Hn) as (i & f & -> & Hi0 & Hi & Hf & Hlen & Hval).
  split; [intros d; by apply places_sound | by apply places_total].
Qed.
End market_properties.

(** ** The properties at concrete inputs *)

Section market_examples.
#[local] Existing Instance ref_externals.
#[local] Existing Instance ref_decimal_laws.

Lemma market_data_refines_books_witness :
  ∃ outcomes s events pj,
    run_commands ex_history state_new = (Ok outcomes, s) ∧
    project_all (record_all ex_clock 1 ex_history outcomes) "engine" projection_new = (Ok events, pj) ∧
    ∀ market buy, side_shown s market buy (levels buy (pbook_at market pj)).
Proof. exact (market_data_refines_books ex_clock "engine" ex_history). Defined.

(** The first order of the example history, and then all of it. *)
Definition ex_record : Record_ := mk_record 1 (ex_clock 1) (CmdSubmit ex_ask1) ex_submit_outcome.

Lemma ex_nothing_rests : reflects state_new projection_new.
Proof. apply reflects_empty. intros market buy p o Hin. destruct buy; by apply elem_of_nil in Hin. Qed.

Lemma snapshot_exact_witness :
  match touched_by (CmdSubmit ex_ask1) ex_submit_outcome "engine" "1" with
  | None => ∃ pj', project ex_record "engine" projection_new = (Ok None, pj') ∧ reflects ex_submit_after pj'
  | Some (market, trades) => ∃ event pj', project ex_record "engine" projection_new = (Ok (Some event), pj') ∧ ms_trades event = trades
  end.
Proof.
  generalize (snapshot_exact ex_record "engine" state_new projection_new ex_submit_after state_wf_new
    ex_nothing_rests ex_submit_run).
  change (show_int (r_sequence ex_record)) with "1"%string. cbn [r_command r_outcome ex_record].
  destruct (touched_by _ _ _ _) as [[market trades]|]; [| intros H; exact H].
  intros (event & pj' & bids & asks & H1 & _ & _ & _ & _ & _ & H2 & _). exists event, pj'. exact (conj H1 H2).
Defined.

Definition ex_projected : list MarketSnapshot :=
  get_ok [] (project_all (record_all ex_clock 1 ex_history ex_outcomes) "engine" projection_new).1.
Example ex_snapshots :
  map (fun e => (ms_sequence e, ms_previous_sequence e, ms_bids e, ms_asks e, map mt_amount (ms_trades e))) ex_projected =
  [ ("4", "0", [], [("2", "5")], []);
    ("6", "4", [("2.5", "1")], [], ["5"]);
    ("8", "6", [], [], []) ]%string.
Proof. vm_compute. reflexivity. Qed.

Lemma quantity_text_roundtrip_witness :
  quantity_text 1500000000 = "1.5"%string ∧
  ∀ d, from_str_exact (quantity_text 1500000000) = Some d → raw d = 1500000000 * 10 ^ 19.
Proof.
  split; [vm_compute; reflexivity |]. exact (proj1 (quantity_text_roundtrip 1500000000 ltac:(lia))).
Defined.
End market_examples.
