(* ===== verification/Output.v ===== *)
(** * The output worker ([run_store] of [runtime/output.rs], [shared/kafka/producer.rs])

    A third thread reads what is durable, record by record, publishes the events of each record and
    the market snapshot, and moves the delivery cursor only after the broker has confirmed both. It
    can be stopped by the broker, by the database or by a crash at any point; the next start
    publishes again from the cursor. *)

From stdpp Require Import base tactics gmap list strings.
From Stdlib Require Import ZArith Lia.
From S2P Require Import Prelude Text Decimals Amount BTree RefDecimal Types BalanceCache OrderBook Matcher Submission State Deposit Withdrawal Cancel Journal History Resting Events EngineLoop Store Market.

(** ** The broker

    A topic is what was published, in order. Whether a publication is confirmed is up to the broker:
    [b_acks] is what it will do next; an unconfirmed publication may or may not be in the topic. A
    financial message is kept with its position (sequence and index), which its identifier names. *)

Inductive Ack := Acked | Unacked (stored : bool) (reason : string).

Abbreviation message := ((Z * Z) * string)%type.

Section broker.
Context {E : Externals}.

Record Broker := mk_broker {
  b_topic : list message;                (* "order-events" *)
  b_market : list MarketSnapshot;        (* "market-events" *)
  b_acks : list Ack;
}.

Definition put_message (m : message) (b : Broker) : Broker :=
  mk_broker (b_topic b ++ [m]) (b_market b) (b_acks b).
Definition put_snapshot (e : MarketSnapshot) (b : Broker) : Broker :=
  mk_broker (b_topic b) (b_market b ++ [e]) (b_acks b).
Definition next_ack (b : Broker) : Ack * Broker :=
  match b_acks b with
  | [] => (Acked, b)
  | ack :: acks => (ack, mk_broker (b_topic b) (b_market b) acks)
  end.

(** [publish_payload]: wait for the confirmation of the broker. *)
Definition publish_payload (put : Broker → Broker) : st Broker (result unit) := fun b =>
  match next_ack b with
  | (Acked, b) => (Ok (Ok tt), put b)
  | (Unacked stored reason, b) => (Ok (Err ("Kafka delivery failed: " +:+ reason)), if stored then put b else b)
  end.

Definition publish_financial_payload (key : Z * Z) (payload : string) : st Broker (result unit) :=
  publish_payload (put_message (key, payload)).
Definition publish_market_snapshot (event : MarketSnapshot) : st Broker (result unit) :=
  publish_payload (put_snapshot event).
End broker.

Section output.
Context {E : Externals} {V : EventFormat E} {F : JournalFormat E}.

(** [deliver]: one event is published at a time, at its index. *)
Definition publish_event (sequence index : Z) (payload : string) : st Broker (option DeliveryError) :=
  published ← publish_financial_payload (sequence, index) payload;
  mret (match published with
        | Ok _ => None
        | Err reason => Some (mk_delivery_error index reason)
        | Panic => None
        end).

Definition deliver (batch : OutputBatch) (position : Position) : st Broker (option DeliveryError) :=
  visit_events (publish_event (po_sequence position)) batch position.

(** ** The worker *)

Inductive OutputPhase := Delivering | OutputDone | OutputFailed (reason : string).
(** The channel [ready] of the start: not used yet, or used. *)
Inductive Ready := ReadyWaiting | ReadySent (r : result unit).

Record Output := mk_output {
  o_store : Store;
  o_broker : Broker;
  o_delivered : Z;             (* [progress.delivered] *)
  o_startup_end : Z;
  o_cursor : Z;
  o_market : Projection;
  o_ready : Ready;
  o_phase : OutputPhase;
}.

Definition set_broker (b : Broker) (o : Output) : Output :=
  mk_output (o_store o) b (o_delivered o) (o_startup_end o) (o_cursor o) (o_market o) (o_ready o) (o_phase o).
Definition set_store (s : Store) (o : Output) : Output :=
  mk_output s (o_broker o) (o_delivered o) (o_startup_end o) (o_cursor o) (o_market o) (o_ready o) (o_phase o).
Definition set_market (pj : Projection) (o : Output) : Output :=
  mk_output (o_store o) (o_broker o) (o_delivered o) (o_startup_end o) (o_cursor o) pj (o_ready o) (o_phase o).
Definition set_phase (phase : OutputPhase) (o : Output) : Output :=
  mk_output (o_store o) (o_broker o) (o_delivered o) (o_startup_end o) (o_cursor o) (o_market o) (o_ready o) phase.
Definition set_cursor (n : Z) (o : Output) : Output :=
  mk_output (o_store o) (o_broker o) n (o_startup_end o) n (o_market o) (o_ready o) (o_phase o).
(** [ready.take()], and sending on it. *)
Definition send_ready (r : result unit) (o : Output) : Output :=
  match o_ready o with
  | ReadyWaiting =>
      mk_output (o_store o) (o_broker o) (o_delivered o) (o_startup_end o) (o_cursor o) (o_market o) (ReadySent r) (o_phase o)
  | ReadySent _ => o
  end.

Definition with_broker {A} (m : st Broker A) : st Output A := zoom o_broker set_broker m.
Definition with_market {A} (m : st Projection A) : st Output A := zoom o_market set_market m.

(** [mark_delivered], and how the database may end it. *)
Definition mark (commit : Commit) (sequence : Z) : st Output unit :=
  match commit with
  | Committed => zoom o_store set_store (mark_delivered sequence)
  | RolledBack => lift (Err "database error")
  | CommittedUnreported =>
      _ ← zoom o_store set_store (mark_delivered sequence);
      lift (Err "database error")
  end.

(** [send_market(&snapshot)?]. *)
Definition send_market (event : MarketSnapshot) : st Output unit :=
  published ← with_broker (publish_market_snapshot event);
  lift published.

(** The events of the record; a failure is also the answer to the start. *)
Definition deliver_record (engine_id : string) (record : Record_) : st Output unit :=
  match r_outcome record with
  | Applied (Some batch) =>
      let position := {| po_engine_id := engine_id; po_sequence := r_sequence record;
                         po_timestamp := r_timestamp record |} in
      error ← with_broker (deliver batch position);
      match error with
      | Some error =>
          _ ← smodify (send_ready (Err (de_reason error)));
          lift (Err ("Kafka delivery failed at sequence " +:+ show_int (r_sequence record) +:+
                     " event " +:+ show_int (de_next_event error) +:+ ": " +:+ de_reason error))
      | None => mret tt
      end
  | _ => mret tt
  end.

(** The snapshot of the record. *)
Definition deliver_market (engine_id : string) (record : Record_) : st Output unit :=
  snapshot ← with_market (project record engine_id);
  match snapshot with Some event => send_market event | None => mret tt end.

(** The part of the loop that delivers the record after the cursor. *)
Definition deliver_next (engine_id : string) (commit : Commit) : st Output unit :=
  o ← sget;
  record ← lift (read (o_cursor o + 1) (o_store o));
  _ ← deliver_record engine_id record;
  _ ← deliver_market engine_id record;
  _ ← mark commit (r_sequence record);
  smodify (set_cursor (r_sequence record)).

(** One round of the loop, with what the journal worker shows of its progress. *)
Definition output_next (engine_id : string) (durable : Z) (journal_done : bool) (commit : Commit) (o : Output) : Output :=
  match o_phase o with
  | Delivering =>
      let o := if o_startup_end o <=? o_cursor o then send_ready (Ok tt) o else o in
      if o_cursor o <? durable then
        match deliver_next engine_id commit o with
        | (Ok _, o) => o
        | (Err reason, o) => set_phase (OutputFailed reason) o
        | (Panic, o) => set_phase (OutputFailed "panicked") o
        end
      else if journal_done && (o_cursor o =? durable) then set_phase OutputDone o
      else o
  | _ => o
  end.

(** The start: the market data up to the cursor is rebuilt and its latest snapshots are published
    again ([HashMap::values] in some [order]). *)
Fixpoint rebuild (engine_id : string) (store : Store) (sequences : list Z) : st Projection unit :=
  match sequences with
  | [] => mret tt
  | sequence :: sequences =>
      record ← lift (read sequence store);
      _ ← project record engine_id;
      rebuild engine_id store sequences
  end.

Fixpoint send_markets (events : list MarketSnapshot) : st Output unit :=
  match events with
  | [] => mret tt
  | event :: events => _ ← send_market event; send_markets events
  end.

Definition output_start (engine_id : string) (order : list MarketSnapshot → list MarketSnapshot)
    (startup_end : Z) (store : Store) (broker : Broker) : Output :=
  let o := mk_output store broker (s_delivery store) startup_end 0 projection_new ReadyWaiting Delivering in
  let start : st Output unit :=
    cursor ← lift (delivered store);
    _ ← with_market (rebuild engine_id store (seqZ 1 cursor));
    o ← sget;
    _ ← send_markets (order (map snd (map_to_list (pj_latest (o_market o)))));
    smodify (fun o => mk_output (o_store o) (o_broker o) (o_delivered o) (o_startup_end o) cursor (o_market o) (o_ready o) (o_phase o)) in
  match start o with
  | (Ok _, o) => o
  | (Err reason, o) => set_phase (OutputFailed reason) o
  | (Panic, o) => set_phase (OutputFailed "panicked") o
  end.
End output.

(** ** Messages *)

Section messages.
Context {E : Externals} {V : EventFormat E}.

Definition payload_of (event : FinancialEvent) : string := match event_json event with inr payload => payload | inl _ => "" end.

Definition position_of (engine_id : string) (record : Record_) : Position :=
  {| po_engine_id := engine_id; po_sequence := r_sequence record; po_timestamp := r_timestamp record |}.

Definition record_events (engine_id : string) (record : Record_) : list FinancialEvent :=
  match r_outcome record with
  | Applied (Some batch) => batch_events batch (position_of engine_id record)
  | _ => []
  end.

(** The messages of a record, by index, and of a journal, in order. *)
Definition messages_of (engine_id : string) (record : Record_) : list message :=
  imap (fun i event => ((r_sequence record, Z.of_nat i), payload_of event)) (record_events engine_id record).
Definition messages (engine_id : string) (records : list Record_) : list message :=
  mjoin (map (messages_of engine_id) records).

(** What a reader keeps that ignores messages it has seen: the first copies, in order. *)
Definition first_copies (topic : list message) : list message :=
  foldl (fun seen m => if decide (m ∈ seen) then seen else seen ++ [m]) [] topic.

Lemma first_copies_snoc topic m :
  first_copies (topic ++ [m]) = if decide (m ∈ first_copies topic) then first_copies topic else first_copies topic ++ [m].
Proof. unfold first_copies. by rewrite foldl_app. Qed.

(** Publishing the message after, or one of, those that were published. *)
Lemma first_copies_next topic all m i :
  NoDup all → first_copies topic = take m all → (i ≤ m)%nat → (m ≤ length all)%nat →
  ∀ x, all !! i = Some x → first_copies (topic ++ [x]) = take (max m (S i)) all.
Proof.
  intros Hnd Htopic Hi Hm x Hx. rewrite first_copies_snoc, Htopic. case_decide as Hin.
  - destruct (decide (i = m)) as [->|Hne]; [| by rewrite Nat.max_l by lia]. exfalso.
    apply list_elem_of_lookup_1 in Hin as [j Hj]. apply lookup_take_Some in Hj as [Hj Hjm].
    assert (j = m) by (by eapply NoDup_lookup). lia.
  - destruct (decide (i = m)) as [->|Hne].
    + rewrite Nat.max_r by lia. symmetry. by apply take_S_r.
    + exfalso. apply Hin. apply (list_elem_of_lookup_2 _ i). rewrite lookup_take_lt by lia. done.
Qed.

Lemma messages_app engine_id r1 r2 : messages engine_id (r1 ++ r2) = messages engine_id r1 ++ messages engine_id r2.
Proof. unfold messages. by rewrite map_app, join_app. Qed.

Lemma messages_of_lookup engine_id record i m :
  messages_of engine_id record !! i = Some m →
  ∃ event, record_events engine_id record !! i = Some event ∧ m = ((r_sequence record, Z.of_nat i), payload_of event).
Proof.
  unfold messages_of. rewrite list_lookup_imap. destruct (record_events engine_id record !! i) as [event|]; [| done].
  intros [= <-]. by exists event.
Qed.

(** Records with different sequences have different messages. *)
Lemma messages_nodup engine_id records : NoDup (map r_sequence records) → NoDup (messages engine_id records).
Proof.
  induction records as [|record records IH]; intros Hnd; [constructor |]. cbn [map] in Hnd.
  apply NoDup_cons in Hnd as [Hnew Hnd]. unfold messages. cbn [map mjoin]. apply NoDup_app. split_and!.
  - apply NoDup_alt. intros i j m Hi Hj. apply messages_of_lookup in Hi as (e1 & _ & ->).
    apply messages_of_lookup in Hj as (e2 & _ & Heq). injection Heq as Heq. lia.
  - intros m [i Hi]%list_elem_of_lookup_1 Hin. apply messages_of_lookup in Hi as (e1 & _ & ->).
    apply list_elem_of_join in Hin as (l & Hm & Hl). apply list_elem_of_fmap in Hl as (record' & -> & Hr).
    apply list_elem_of_lookup_1 in Hm as [j Hj]. apply messages_of_lookup in Hj as (e2 & _ & Heq).
    injection Heq as Hseq _ _. apply Hnew. rewrite Hseq. apply list_elem_of_fmap. by exists record'.
  - by apply IH.
Qed.

Lemma record_event_ids engine_id record i event :
  record_events engine_id record !! i = Some event → id_of event = event_id (position_of engine_id record) (Z.of_nat i).
Proof.
  unfold record_events. destruct (r_outcome record) as [[batch|]|reason|order]; [apply batch_event_ids | done..].
Qed.
End messages.

(** ** The journal as the worker reads it *)

Section journal_rows.
Context {E : Externals} {L : DecimalLaws ext_decimal} {F : JournalFormat E} {FL : JournalFormatLaws F}.

Definition written (record : Record_) : Z * row :=
  (r_sequence record, (record_json record, digest (record_json record))).

(** A journal of the records of a history. *)
Record journal_holds (s0 : EngineState) (records : list Record_) (s : EngineState) (rows : list (Z * row)) : Prop := {
  jh_rows : rows = map written records;
  jh_sequences : map r_sequence records = seqZ 1 (Z.of_nat (length records));
  jh_run : run_commands (map r_command records) s0 = (Ok (map r_outcome records), s);
  jh_range : Z.of_nat (length records) ≤ I64_MAX;
}.

Lemma sequence_at records i record :
  map r_sequence records = seqZ 1 (Z.of_nat (length records)) → records !! i = Some record →
  r_sequence record = Z.of_nat i + 1.
Proof.
  intros Hs Hi. assert (H : map r_sequence records !! i = Some (r_sequence record)) by (rewrite list_lookup_fmap;
    by rewrite Hi).
  rewrite Hs in H. apply lookup_seqZ in H as [H _]. lia.
Qed.

Lemma find_written records i record :
  map r_sequence records = seqZ 1 (Z.of_nat (length records)) → records !! i = Some record →
  find_row (Z.of_nat i + 1) (map written records) = Some (written record).2.
Proof.
  intros Hs Hi. unfold find_row.
  enough (H : List.find (fun r : Z * row => r.1 =? Z.of_nat i + 1) (map written records) = Some (written record))
    by by rewrite H.
  assert (Hgen : ∀ n, map r_sequence records = seqZ n (Z.of_nat (length records)) →
    List.find (fun r : Z * row => r.1 =? Z.of_nat i + n) (map written records) = Some (written record));
      [| by apply Hgen].
  clear Hs. revert i Hi. induction records as [|r records IH]; intros i Hi n Hs; [done |]. cbn [map length] in Hs |- *.
  rewrite Nat2Z.inj_succ, seqZ_cons in Hs by lia. injection Hs as Hr Hs. rewrite Z.pred_succ in Hs. cbn [List.find].
  cbn [written fst]. destruct i as [|i]; cbn in Hi.
  - injection Hi as ->. rewrite Hr. by rewrite (proj2 (Z.eqb_eq _ _)) by lia.
  - rewrite Hr, (proj2 (Z.eqb_neq _ _)) by lia. rewrite <- (IH i Hi (n + 1)).
    + f_equal. by replace (Z.of_nat i + (n + 1)) with (Z.of_nat (S i) + n) by lia.
    + by rewrite Hs.
Qed.

Lemma read_written s0 records s rows genesis cursor i record :
  journal_holds s0 records s rows → records !! i = Some record →
  read (Z.of_nat i + 1) (mk_store genesis rows cursor) = Ok record.
Proof.
  intros [-> Hs _ Hrange] Hi. unfold read, i64_of_u64.
  pose proof (lookup_lt_Some _ _ _ Hi). rewrite (proj2 (Z.leb_le _ _)) by lia. cbn [mbind result_bind s_records].
  rewrite (find_written _ _ _ Hs Hi). cbn [ok_or mbind result_bind written snd]. rewrite decode_written.
    cbn [mbind result_bind].
  rewrite (sequence_at _ _ _ Hs Hi), Z.eqb_refl. done.
Qed.

Lemma journal_sequences s0 records s rows :
  journal_holds s0 records s rows →
  Forall (fun record => 0 ≤ r_sequence record) records ∧ NoDup (map r_sequence records).
Proof.
  intros [_ Hs _ _]. split; [| rewrite Hs; apply NoDup_seqZ].
  apply Forall_forall. intros record Hr.
  assert (Hin : r_sequence record ∈ map r_sequence records) by (apply list_elem_of_fmap; by exists record).
  rewrite Hs in Hin. apply elem_of_seqZ in Hin. lia.
Qed.

(** What [append] adds is written records that continue the history. *)
Lemma append_continues now inputs s ps s' s0 records rows next rows' :
  journal_holds s0 records s rows → serve_all inputs s = (Ok ps, s') →
  append_rows now ps (Z.of_nat (length records)) rows = Ok (next, rows') →
  ∃ more, journal_holds s0 (records ++ more) s' rows'.
Proof.
  revert s ps records rows. induction inputs as [|input inputs IH]; intros s ps records rows Hjh Hall Happ.
  { injection Hall as <- <-. injection Happ as _ <-. exists []. by rewrite app_nil_r. }
  cbn [serve_all] in Hall. apply st_bind_ok in Hall as (p & s1 & Hp & Hall).
  apply st_bind_ok in Hall as (rest & s2 & Hrest & Hret). injection Hret as <- <-.
  unfold serve in Hp. unfold mbind at 1, st_bind at 1, sget in Hp.
  destruct (request input s) as [[command|] reply]; apply st_bind_ok in Hp as (outcome & s3 & Ho & Hp);
    injection Hp as <- <-; cbn [append_rows p_command p_outcome] in Happ; [| injection Ho as <- <-; by eapply IH].
  apply bind_ok in Happ as (m & Hm & Happ). apply ok_or_ok in Hm. unfold u64_checked_add in Hm.
  destruct (_ <=? U64_MAX); [| done]. injection Hm as <-.
  apply bind_ok in Happ as (key & Hkey & Happ). unfold i64_of_u64 in Hkey.
  destruct (Z.leb_spec (Z.of_nat (length records) + 1) I64_MAX) as [Hle|]; [| done]. injection Hkey as <-.
  apply bind_ok in Happ as (rows1 & Hins & Happ). unfold insert_record in Hins.
  apply bind_ok in Hins as (u & _ & Hins). apply ok_or_ok in Hins. destruct Hjh as [-> Hs Hrun Hrange].
  assert (Hkeys : map fst (map written records) = map r_sequence records).
  { rewrite map_map. apply map_ext. done. }
  rewrite insert_row_last in Hins; cycle 1.
  { rewrite Hkeys, Hs. apply Forall_forall. intros k Hk%elem_of_seqZ. lia. }
  injection Hins as <-. set (n := Z.of_nat (length records) + 1) in *.
    set (record := mk_record n (now n) command outcome) in *.
  destruct (IH s3 rest (records ++ [record]) (map written records ++ [written record])) as (more & Hmore).
  - split; [by rewrite map_app | | | rewrite length_app; cbn; lia].
    + rewrite map_app, Hs, length_app. cbn [map length r_sequence record].
      rewrite Nat2Z.inj_add. change (Z.of_nat 1) with 1. rewrite seqZ_app by lia. f_equal. unfold n.
      by rewrite Z.add_comm.
    + rewrite !map_app. eapply run_commands_app; [exact Hrun |]. cbn. unfold mbind, st_bind. by rewrite Ho.
  - done.
  - rewrite length_app. cbn [length]. replace (Z.of_nat (length records + 1)) with n by (unfold n; lia). exact Happ.
  - exists (record :: more). by rewrite <- app_assoc in Hmore.
Qed.
End journal_rows.

(** ** Delivery *)

Section delivery.
Context {E : Externals} {L : DecimalLaws ext_decimal} {V : EventFormat E} {F : JournalFormat E} {FL : JournalFormatLaws F}.
Variable engine_id : string.

(** The topic holds, first copies only, the first [m] messages of the journal. *)
Definition topic_at (records : list Record_) (m : nat) (topic : list message) : Prop :=
  first_copies topic = take m (messages engine_id records) ∧ (m ≤ length (messages engine_id records))%nat.

(** The number of messages before the record at a place. *)
Definition offset (records : list Record_) (k : nat) : nat := length (messages engine_id (take k records)).

Lemma messages_split records k record :
  records !! k = Some record →
  messages engine_id records = messages engine_id (take k records) ++ messages_of engine_id record ++ messages engine_id (drop (S k) records).
Proof.
  intros Hk. rewrite <- (take_drop_middle records k record Hk) at 1. by rewrite messages_app.
Qed.

Lemma offset_next records k record :
  records !! k = Some record → offset records (S k) = (offset records k + length (record_events engine_id record))%nat.
Proof.
  intros Hk. unfold offset. rewrite (take_S_r _ _ record) by done. rewrite messages_app, length_app. f_equal.
  unfold messages. cbn. rewrite app_nil_r. unfold messages_of. by rewrite length_imap.
Qed.

Lemma message_at records k record i event :
  records !! k = Some record → record_events engine_id record !! i = Some event →
  messages engine_id records !! (offset records k + i)%nat = Some ((r_sequence record, Z.of_nat i), payload_of event).
Proof.
  intros Hk Hi. rewrite (messages_split records k record Hk). unfold offset.
  rewrite lookup_app_r by lia. replace (_ + i - _)%nat with i by lia.
  assert (H : messages_of engine_id record !! i = Some ((r_sequence record, Z.of_nat i), payload_of event)).
  { unfold messages_of. rewrite list_lookup_imap. by rewrite Hi. }
  by apply lookup_app_l_Some.
Qed.

(** One publication: in the topic, or refused; an error whenever it is not in the topic. *)
Lemma publish_event_run sequence index payload b :
  ∃ error b', publish_event sequence index payload b = (Ok error, b') ∧
    (b_topic b' = b_topic b ++ [((sequence, index), payload)] ∨ (b_topic b' = b_topic b ∧ error ≠ None)) ∧
    (b_acks b = [] → error = None ∧ b_acks b' = []).
Proof.
  unfold publish_event, publish_financial_payload, publish_payload, next_ack, mbind, st_bind, mret, st_ret.
  destruct (b_acks b) as [|[|[] reason] acks] eqn:Ha; (do 2 eexists; split; [done |]); cbn; (split; [auto | done]).
Qed.

(** Sending the events of a record from the [i]-th on. *)
Lemma send_events_run records k record events i b m :
  NoDup (messages engine_id records) → records !! k = Some record →
  drop i (record_events engine_id record) = events →
  topic_at records m (b_topic b) → (offset records k + i ≤ m)%nat →
  ∃ error b' m', send_all (publish_event (r_sequence record)) (Z.of_nat i) events b = (Ok error, b') ∧
    topic_at records m' (b_topic b') ∧ (m ≤ m')%nat ∧
    (error = None → (offset records k + i + length events ≤ m')%nat) ∧
    (b_acks b = [] → (∀ event, event ∈ events → ∃ payload, event_json event = inr payload) → error = None ∧ b_acks b' = []).
Proof.
  intros Hnd Hk. revert i b m. induction events as [|event events IH]; intros i b m Hdrop [Htopic Hlen] Hm.
  { exists None, b, m. cbn. split_and!; try done. lia. }
  assert (Hev : record_events engine_id record !! i = Some event).
  { rewrite <- (Nat.add_0_r i), <- lookup_drop, Hdrop. done. }
  assert (Hrest : drop (S i) (record_events engine_id record) = events).
  { rewrite <- Nat.add_1_r, <- drop_drop, Hdrop. done. }
  pose proof (message_at _ _ _ _ _ Hk Hev) as Hmsg. cbn [send_all]. unfold send_event.
  unfold payload_of in Hmsg. destruct (event_json event) as [reason|payload] eqn:Hj.
  { unfold mbind, st_bind, mret, st_ret. eexists _, b, m. split_and!; try done.
    intros _ Hall. destruct (Hall event) as [p Hp]; [left | congruence]. }
  assert (Hput : topic_at records (max m (S (offset records k + i))) (b_topic b ++ [((r_sequence record,
    Z.of_nat i), payload)])).
  { split; [by apply (first_copies_next _ _ _ _ Hnd Htopic Hm Hlen) |]. apply lookup_lt_Some in Hmsg. lia. }
  destruct (publish_event_run (r_sequence record) (Z.of_nat i) payload b) as (error & b1 & Hpub & Hcase & Hgood1).
  unfold mbind at 1, st_bind at 1. rewrite Hpub. destruct error as [error|].
  - destruct Hcase as [Ht | [Ht _]].
    + rewrite <- Ht in Hput. eexists _, b1, _. split; [done |]. split; [exact Hput |]. split_and!; [lia | done |].
      intros Ha. by destruct (Hgood1 Ha).
    + eexists _, b1, m. split; [done |]. split; [by rewrite Ht |]. split_and!; [done | done |].
      intros Ha. by destruct (Hgood1 Ha).
  - destruct Hcase as [Ht | [_ ?]]; [| done]. rewrite <- Ht in Hput.
    destruct (IH (S i) b1 _ Hrest Hput ltac:(lia)) as (error & b' & m' & Hrun & Htop & Hle & Hdone & Hgood).
    exists error, b', m'. rewrite Z.add_1_r, <- Nat2Z.inj_succ. split; [done |]. split; [exact Htop |].
      split_and!; [lia | |].
    + intros He. specialize (Hdone He). cbn [length]. lia.
    + intros Ha Hall. apply Hgood; [by apply Hgood1 |]. intros e He. apply Hall. by right.
Qed.

(** The three stages of a record, each as far as the others can tell. *)
Lemma deliver_record_run records k record o m :
  NoDup (messages engine_id records) → records !! k = Some record →
  topic_at records m (b_topic (o_broker o)) → (offset records k ≤ m)%nat →
  ∃ r ready b m', deliver_record engine_id record o = (r, mk_output (o_store o) b (o_delivered o) (o_startup_end o) (o_cursor o)
      (o_market o) ready (o_phase o)) ∧ r ≠ Panic ∧
    topic_at records m' (b_topic b) ∧ (m ≤ m')%nat ∧
    (is_ok r = true → ready = o_ready o ∧ (offset records (S k) ≤ m')%nat) ∧
    (b_acks (o_broker o) = [] → (∀ event, event ∈ record_events engine_id record → ∃ payload, event_json event = inr payload) →
     is_ok r = true ∧ b_acks b = []).
Proof.
  intros Hnd Hk Htop Hm. rewrite (offset_next _ _ _ Hk).
  destruct (send_events_run records k record (record_events engine_id record) 0 (o_broker o) m Hnd Hk)
    as (error & b & m' & Hrun & Htop' & Hle & Hdone & Hgood); [done | done | lia |]. rewrite Nat.add_0_r in Hdone.
  unfold deliver_record, record_events in *. destruct (r_outcome record) as [[batch|]|reason|order];
    try (cbn in Hrun; injection Hrun as <- <-; exists (Ok tt), (o_ready o), (o_broker o), m';
         split; [by destruct o |]; split_and!; try done; intros _; split; [done | by apply Hdone]).
  unfold mbind at 1, st_bind at 1. unfold with_broker, zoom, deliver. rewrite visit_events_all.
  cbn [po_sequence]. fold (position_of engine_id record). change (Z.of_nat 0) with 0 in Hrun. rewrite Hrun.
  destruct error as [error|].
  - unfold mbind, st_bind, smodify, lift, send_ready. cbn [o_ready set_broker].
    destruct (o_ready o) eqn:Hr; (do 4 eexists; split; [reflexivity |]; split; [done |]; split; [exact Htop' |];
      split; [exact Hle |]; split; [done |]; intros Ha Hall; by destruct (Hgood Ha Hall)).
  - exists (Ok tt), (o_ready o), b, m'. split; [reflexivity |]. split; [done |]. split; [exact Htop' |]. split;
    [exact Hle |].
    split; [intros _; split; [done | by apply Hdone] |]. intros Ha Hall. by destruct (Hgood Ha Hall).
Qed.

Lemma deliver_market_run record o s s' :
  state_wf s → reflects s (o_market o) → journal_apply (r_command record) s = (Ok (r_outcome record), s') →
  ∃ r b pj, deliver_market engine_id record o = (r, mk_output (o_store o) b (o_delivered o) (o_startup_end o) (o_cursor o)
      pj (o_ready o) (o_phase o)) ∧ r ≠ Panic ∧ reflects s' pj ∧ b_topic b = b_topic (o_broker o) ∧
    (b_acks (o_broker o) = [] → is_ok r = true ∧ b_acks b = []).
Proof.
  intros Hwf Href Hrun. destruct (project_run record engine_id s (o_market o) s' Hwf Href Hrun) as (pj & Href' & Hone).
  unfold deliver_market. unfold mbind at 1, st_bind at 1. unfold with_market, zoom.
  destruct (touched_by _ _ _ _) as [[market trades]|].
  - destruct Hone as (book & -> & _). unfold send_market, mbind, st_bind, with_broker, zoom, lift.
    unfold publish_market_snapshot, publish_payload, next_ack. cbn [o_broker set_market].
    destruct (b_acks (o_broker o)) as [|[|[] reason] acks] eqn:Ha; (do 3 eexists; split; [reflexivity |];
      split_and!; done).
  - destruct Hone as (-> & _). exists (Ok tt), (o_broker o), pj. split; [reflexivity |]. by split_and!.
Qed.

Lemma mark_run commit o k :
  s_delivery (o_store o) = Z.of_nat k → Z.of_nat k + 1 ≤ I64_MAX →
  ∃ r d, mark commit (Z.of_nat k + 1) o = (r, set_store (mk_store (s_genesis (o_store o)) (s_records (o_store o)) d) o) ∧
    r ≠ Panic ∧ (d = Z.of_nat k ∨ d = Z.of_nat k + 1) ∧ (is_ok r = true → d = Z.of_nat k + 1) ∧
    (commit = Committed → is_ok r = true).
Proof.
  intros Hd Hrange.
  assert (Hmark : mark_delivered (Z.of_nat k + 1) (o_store o) =
    (Ok tt, mk_store (s_genesis (o_store o)) (s_records (o_store o)) (Z.of_nat k + 1))).
  { unfold mark_delivered, mbind, st_bind, sget, lift, sput, i64_of_u64, usize_sub.
    rewrite (proj2 (Z.leb_le _ I64_MAX)) by lia. rewrite (proj2 (Z.leb_le 1 _)) by lia.
    rewrite (proj2 (Z.leb_le (_ - 1) _)) by lia. rewrite Hd. rewrite (proj2 (Z.eqb_eq _ _)) by lia. done. }
  destruct commit; unfold mark, zoom, mbind, st_bind, lift.
  - rewrite Hmark. do 2 eexists. split; [reflexivity |]. split_and!; auto; done.
  - exists (Err "database error"), (Z.of_nat k). split; [rewrite <- Hd; by destruct o as [[] ]|]. split_and!;
    auto; done.
  - rewrite Hmark. do 2 eexists. split; [reflexivity |]. split_and!; auto; done.
Qed.

(** ** The invariant of the worker *)

Variable s0 : EngineState.
Hypothesis s0_wf : state_wf s0.
Hypothesis s0_empty : ∀ market buy p o, ¬ resting s0 market buy p o.

(** The worker is in step with the journal: its cursor is the delivery cursor and its market data
    shows the books after the delivered records. *)
Definition in_step (records : list Record_) (d : nat) (o : Output) : Prop :=
  o_cursor o = Z.of_nat d ∧
  ∃ s1, run_commands (map r_command (take d records)) s0 = (Ok (map r_outcome (take d records)), s1) ∧
    reflects s1 (o_market o).

Definition stopped (phase : OutputPhase) : bool := match phase with OutputFailed _ => true | _ => false end.

Definition output_ok (o : Output) : Prop :=
  ∃ records s m d, journal_holds s0 records s (s_records (o_store o)) ∧
    topic_at records m (b_topic (o_broker o)) ∧ s_delivery (o_store o) = Z.of_nat d ∧ (d ≤ length records)%nat ∧
    (offset records d ≤ m)%nat ∧ o_delivered o ≤ Z.of_nat d ∧
    (stopped (o_phase o) = true ∨ in_step records d o).

Lemma journal_nodup records s rows : journal_holds s0 records s rows → NoDup (messages engine_id records).
Proof. intros Hjh. apply messages_nodup. rewrite (jh_sequences _ _ _ _ Hjh). apply NoDup_seqZ. Qed.

(** One record more of the history. *)
Lemma history_next records s rows d record s1 :
  journal_holds s0 records s rows → records !! d = Some record →
  run_commands (map r_command (take d records)) s0 = (Ok (map r_outcome (take d records)), s1) →
  state_wf s1 ∧ ∃ s2, journal_apply (r_command record) s1 = (Ok (r_outcome record), s2) ∧
    run_commands (map r_command (take (S d) records)) s0 = (Ok (map r_outcome (take (S d) records)), s2).
Proof.
  intros Hjh Hd Hrun. pose proof (jh_run _ _ _ _ Hjh) as Hall.
  rewrite <- (take_drop d records), !map_app in Hall.
  destruct (run_commands_split _ _ _ _ _ Hall) as (o1 & o2 & s1' & Heq & Hlen & H1 & H2).
  rewrite Hrun in H1. injection H1 as <- <-. apply app_inv_head in Heq as <-.
  destruct (run_commands_run (map r_command (take d records)) s0 s0_wf) as (os & s1' & Hrun' & Hwf & _).
  rewrite Hrun in Hrun'. injection Hrun' as <- <-. split; [done |].
  rewrite (drop_S _ _ _ Hd) in H2. cbn [map run_commands] in H2.
  apply st_bind_ok in H2 as (o & s2 & Ho & H2). apply st_bind_ok in H2 as (os & s3 & _ & Hret).
    injection Hret as -> _ _.
  exists s2. split; [done |]. rewrite (take_S_r _ _ _ Hd), !map_app. eapply run_commands_app; [exact Hrun |].
  cbn. unfold mbind, st_bind. by rewrite Ho.
Qed.

(** Delivering the record after the cursor. *)
Lemma deliver_next_run commit o records s m d :
  journal_holds s0 records s (s_records (o_store o)) → topic_at records m (b_topic (o_broker o)) →
  s_delivery (o_store o) = Z.of_nat d → (d < length records)%nat → (offset records d ≤ m)%nat →
  o_delivered o ≤ Z.of_nat d → in_step records d o →
  ∃ r o' m' d', deliver_next engine_id commit o = (r, o') ∧ r ≠ Panic ∧ o_phase o' = o_phase o ∧
    s_records (o_store o') = s_records (o_store o) ∧ topic_at records m' (b_topic (o_broker o')) ∧
    s_delivery (o_store o') = Z.of_nat d' ∧ (d ≤ d' ≤ length records)%nat ∧ (offset records d' ≤ m')%nat ∧ o_delivered o' ≤ Z.of_nat d' ∧
    (is_ok r = true → d' = S d ∧ in_step records d' o' ∧ o_delivered o' = Z.of_nat d') ∧
    (b_acks (o_broker o) = [] → commit = Committed →
     (∀ record event, records !! d = Some record → event ∈ record_events engine_id record → ∃ payload, event_json event = inr payload) →
     is_ok r = true ∧ b_acks (o_broker o') = []).
Proof.
  intros Hjh Htop Hdel Hd Hm Hprog [Hcur (s1 & Hs1 & Href)].
  destruct (lookup_lt_is_Some_2 records d Hd) as [record Hrec].
  pose proof (sequence_at _ _ _ (jh_sequences _ _ _ _ Hjh) Hrec) as Hseq.
  destruct (history_next _ _ _ _ _ _ Hjh Hrec Hs1) as (Hwf1 & s2 & Hap & Hs2).
  pose proof (jh_range _ _ _ _ Hjh) as Hrange.
  destruct (deliver_record_run records d record o m (journal_nodup _ _ _ Hjh) Hrec Htop Hm)
    as (r1 & ready & b1 & m1 & Hrun1 & Hp1 & Htop1 & Hle1 & Hok1 & Hgood1).
  set (o1 := mk_output _ b1 _ _ _ _ ready _) in Hrun1.
  destruct (deliver_market_run record o1 s1 s2 Hwf1 Href Hap) as (r2 & b2 & pj & Hrun2 & Hp2 & Href2 & Htop2 & Hgood2).
  set (o2 := mk_output _ b2 _ _ _ pj _ _) in Hrun2.
  destruct (mark_run commit o2 d Hdel ltac:(lia)) as (r3 & d3 & Hrun3 & Hp3 & Hd3 & Hok3 & Hgood3).
    rewrite <- Hseq in Hrun3.
  set (o3 := set_store _ o2) in Hrun3. unfold deliver_next, mbind at 1, st_bind at 1, sget.
  assert (Hread : read (o_cursor o + 1) (o_store o) = Ok record).
  { rewrite Hcur. destruct (o_store o) as [gen rows dl]. by apply (read_written s0 records s). }
  unfold mbind at 1, st_bind at 1, lift at 1. rewrite Hread. unfold mbind at 1, st_bind at 1. rewrite Hrun1.
  destruct r1 as [[]|e|]; [| | done]; cycle 1.
  { exists (Err e), o1, m1, d. split; [done |]. split; [done |]. split; [done |]. split; [done |]. split;
    [exact Htop1 |].
    split; [done |]. split; [lia |]. split; [lia |]. split; [done |]. split; [done |].
    intros Ha _ Hev. by destruct (Hgood1 Ha (fun event => Hev record event Hrec)). }
  destruct (Hok1 eq_refl) as [_ Hoff]. unfold mbind at 1, st_bind at 1. rewrite Hrun2.
  destruct r2 as [[]|e|]; [| | done]; cycle 1.
  { exists (Err e), o2, m1, d. split; [done |]. split; [done |]. split; [done |]. split; [done |].
    split; [unfold o2; cbn [o_broker]; by rewrite Htop2 |].
    split; [done |]. split; [lia |]. split; [lia |]. split; [done |]. split; [done |].
    intros Ha _ Hev. destruct (Hgood1 Ha (fun event => Hev record event Hrec)) as [_ Ha1]. by destruct (Hgood2 Ha1). }
  unfold mbind at 1, st_bind at 1. rewrite Hrun3. destruct r3 as [[]|e|]; [| | done]; cycle 1.
  { assert (∃ d', d3 = Z.of_nat d' ∧ (d ≤ d' ≤ S d)%nat) as (d' & -> & Hd').
    { destruct Hd3 as [->| ->]; [exists d | exists (S d)]; lia. }
    exists (Err e), o3, m1, d'. split; [done |]. split; [done |]. split; [done |]. split; [done |].
    split; [unfold o3, o2; cbn [o_broker set_store]; by rewrite Htop2 |]. split; [done |]. split; [lia |].
    split; [assert (d' = d ∨ d' = S d) as [-> | ->] by lia; lia |].
    split; [cbn; lia |]. split; [done |]. intros _ Hc _. discriminate (Hgood3 Hc). }
  specialize (Hok3 eq_refl). subst d3. unfold smodify.
  exists (Ok tt), (set_cursor (r_sequence record) o3), m1, (S d). split; [done |]. split; [done |]. split;
    [done |]. split; [done |].
  split; [unfold o3, o2; cbn [o_broker set_store set_cursor]; by rewrite Htop2 |].
  split; [cbn; lia |]. split; [lia |]. split; [done |]. split; [cbn; lia |]. split.
  - intros _. split; [done |]. split; [| cbn; lia]. split; [cbn; lia |]. by exists s2.
  - intros Ha _ Hev. split; [done |]. destruct (Hgood1 Ha (fun event => Hev record event Hrec)) as [_ Ha1].
    by destruct (Hgood2 Ha1).
Qed.

Lemma send_ready_same r o :
  o_store (send_ready r o) = o_store o ∧ o_broker (send_ready r o) = o_broker o ∧ o_delivered (send_ready r o) = o_delivered o ∧
  o_cursor (send_ready r o) = o_cursor o ∧ o_market (send_ready r o) = o_market o ∧ o_phase (send_ready r o) = o_phase o.
Proof. unfold send_ready. by destruct (o_ready o). Qed.

Lemma output_next_ok durable journal_done commit o :
  durable ≤ Z.of_nat (length (s_records (o_store o))) → output_ok o →
  output_ok (output_next engine_id durable journal_done commit o).
Proof.
  intros Hdur Hok. unfold output_next. destruct (o_phase o) eqn:Hph; [| done..].
  set (o1 := if o_startup_end o <=? o_cursor o then send_ready (Ok tt) o else o).
  assert (Hsame : o_store o1 = o_store o ∧ o_broker o1 = o_broker o ∧ o_delivered o1 = o_delivered o ∧
    o_cursor o1 = o_cursor o ∧ o_market o1 = o_market o ∧ o_phase o1 = o_phase o).
  { unfold o1. case_match; [apply send_ready_same | done]. }
  destruct Hsame as (E1 & E2 & E3 & E4 & E5 & E6). clearbody o1.
  destruct Hok as (records & s & m & d & Hjh & Htop & Hdel & Hd & Hm & Hprog & [Hst|Hstep]); [by rewrite Hph in Hst |].
  assert (Hstep1 : in_step records d o1) by (destruct Hstep as [? ?]; split; [by rewrite E4 | by rewrite E5]).
  destruct (Z.ltb_spec (o_cursor o1) durable) as [Hlt|Hge].
  - assert (Hd' : (d < length records)%nat).
    { destruct Hstep1 as [Hc _]. rewrite (jh_rows _ _ _ _ Hjh), length_map in Hdur. lia. }
    rewrite <- E1 in Hjh. rewrite <- E1 in Hdel. rewrite <- E2 in Htop. rewrite <- E3 in Hprog.
    destruct (deliver_next_run commit o1 records s m d Hjh Htop Hdel Hd' Hm Hprog Hstep1)
      as (r & o' & m' & d' & Hrun & Hp & Hph' & Hrec & Htop' & Hdel' & Hd1 & Hm' & Hprog' & Hgood & _).
    rewrite Hrun. rewrite E6, Hph in Hph'. destruct r as [[]|e|]; [| | done].
    + exists records, s, m', d'. rewrite Hrec. split_and!; try done; [lia |]. right. by apply Hgood.
    + exists records, s, m', d'. cbn [o_store o_broker o_delivered o_phase set_phase]. rewrite Hrec.
      split_and!; try done; [lia |]. by left.
  - destruct (journal_done && (o_cursor o1 =? durable)); exists records, s, m, d;
    cbn [o_store o_broker o_delivered o_phase set_phase];
      rewrite E1, E2, E3; split_and!; try done; right; exact Hstep1.
Qed.

Lemma written_inj records records' : map written records = map written records' → records = records'.
Proof.
  revert records'. induction records as [|r records IH]; intros [|r' records'] Heq; try done.
  cbn [map] in Heq. injection Heq as _ Hj _ Hrest. f_equal; [| by apply IH].
  apply (f_equal record_parse) in Hj. rewrite !record_roundtrip in Hj. by injection Hj.
Qed.

(** The history goes on. *)
Lemma output_append_ok records s more s' rows' o :
  journal_holds s0 records s (s_records (o_store o)) → journal_holds s0 (records ++ more) s' rows' → output_ok o →
  output_ok (set_store (mk_store (s_genesis (o_store o)) rows' (s_delivery (o_store o))) o).
Proof.
  intros Hjh Hjh' (records1 & s1 & m & d & Hjh1 & [Htop Hlen] & Hdel & Hd & Hm & Hprog & Hstep).
  assert (records1 = records) as ->.
  { apply written_inj. by rewrite <- (jh_rows _ _ _ _ Hjh), <- (jh_rows _ _ _ _ Hjh1). }
  assert (Htake : ∀ i, (i ≤ length records)%nat → take i (records ++ more) = take i records).
  { intros i Hi. by rewrite take_app_le. }
  exists (records ++ more), s', m, d. cbn [o_store o_broker o_delivered o_phase set_store s_records s_delivery].
  split; [done |]. split.
  { split; [rewrite Htop | ]; rewrite messages_app; [by rewrite take_app_le | rewrite length_app; lia]. }
  split; [done |]. split; [rewrite length_app; lia |]. split; [unfold offset; by rewrite Htake |]. split; [done |].
  destruct Hstep as [Hst|[Hc (s2 & Hrun & Href)]]; [by left | right]. split; [done |]. exists s2. by rewrite Htake.
Qed.

(** ** The start *)

Variable order : list MarketSnapshot → list MarketSnapshot.

Lemma send_markets_run events o :
  ∃ r b, send_markets events o = (r, set_broker b o) ∧ r ≠ Panic ∧ b_topic b = b_topic (o_broker o) ∧
    (b_acks (o_broker o) = [] → is_ok r = true ∧ b_acks b = []).
Proof.
  revert o. induction events as [|event events IH]; intros o.
  { exists (Ok tt), (o_broker o). split; [by destruct o |]. by split_and!. }
  cbn [send_markets]. unfold mbind at 1, st_bind at 1.
    unfold send_market, mbind at 1, st_bind at 1, with_broker, zoom, lift.
  unfold publish_market_snapshot, publish_payload, next_ack.
  assert (Hgo : ∀ b1, b_topic b1 = b_topic (o_broker o) → (b_acks (o_broker o) = [] → b_acks b1 = []) →
    ∃ r b, send_markets events (set_broker b1 o) = (r, set_broker b o) ∧ r ≠ Panic ∧ b_topic b = b_topic (o_broker o) ∧
    (b_acks (o_broker o) = [] → is_ok r = true ∧ b_acks b = [])).
  { intros b1 Ht Ha. destruct (IH (set_broker b1 o)) as (r & b & Hrun & Hp & Hb & Hgood).
    cbn [o_broker set_broker] in Hb, Hgood.
    exists r, b. split; [exact Hrun |]. split; [done |]. split; [congruence |]. intros H. apply Hgood, Ha, H. }
  destruct (b_acks (o_broker o)) as [|[|stored reason] acks] eqn:Ha.
  - by apply Hgo.
  - by apply Hgo.
  - do 2 eexists. split; [reflexivity |]. split; [done |]. split; [by destruct stored |]. done.
Qed.

Lemma rebuild_run store records n s pj s' :
  state_wf s → reflects s pj → run_commands (map r_command records) s = (Ok (map r_outcome records), s') →
  (∀ i record, records !! i = Some record → read (Z.of_nat i + n) store = Ok record) →
  ∃ pj', rebuild engine_id store (seqZ n (Z.of_nat (length records))) pj = (Ok tt, pj') ∧ reflects s' pj'.
Proof.
  revert n s pj. induction records as [|record records IH]; intros n s pj Hwf Href Hrun Hread.
  { injection Hrun as <-. by exists pj. }
  cbn [map run_commands] in Hrun. apply st_bind_ok in Hrun as (o & s1 & Ho & Hrun).
  apply st_bind_ok in Hrun as (os & s2 & Hos & Hret). injection Hret as -> -> ->.
  destruct (journal_step_ok (r_command record) s Hwf) as (o & s3 & Ho' & Hok). rewrite Ho in Ho'.
    injection Ho' as <- <-.
  destruct (project_run record engine_id s pj s1 Hwf Href Ho) as (pj1 & Href1 & Hone).
  destruct (IH (n + 1) s1 pj1 (so_wf _ _ _ _ Hok) Href1 Hos) as (pj' & Hall & Href').
  { intros i r Hi. rewrite <- (Hread (S i) r Hi). f_equal. lia. }
  exists pj'. split; [| done]. cbn [length]. rewrite Nat2Z.inj_succ, seqZ_cons, Z.pred_succ by lia. cbn [rebuild].
  unfold mbind at 1, st_bind at 1, lift. rewrite <- (Z.add_0_l n) at 1. change 0 with (Z.of_nat 0) at 1.
  rewrite (Hread 0%nat record eq_refl). unfold mbind at 1, st_bind at 1.
  rewrite <- Z.add_1_r. destruct (touched_by _ _ _ _) as [[market trades]|].
  - destruct Hone as (book & -> & _). exact Hall.
  - destruct Hone as (-> & _). exact Hall.
Qed.

(** A start on a journal finds its place, whatever the broker does. *)
Lemma output_start_run startup_end store broker records s d m :
  journal_holds s0 records s (s_records store) → topic_at records m (b_topic broker) →
  s_delivery store = Z.of_nat d → (d ≤ length records)%nat → (offset records d ≤ m)%nat →
  let o := output_start engine_id order startup_end store broker in
  output_ok o ∧ o_store o = store ∧ b_topic (o_broker o) = b_topic broker ∧ o_delivered o = Z.of_nat d ∧
  (b_acks broker = [] → o_phase o = Delivering ∧ b_acks (o_broker o) = [] ∧ in_step records d o).
Proof.
  intros Hjh Htop Hdel Hd Hm.
  pose proof (jh_run _ _ _ _ Hjh) as Hall. rewrite <- (take_drop d records), !map_app in Hall.
  destruct (run_commands_split _ _ _ _ _ Hall) as (o1 & o2 & s1 & Heq & Hlen & H1 & _).
  apply app_inj_1 in Heq as [<- _]; [| by rewrite length_map, Hlen, length_map].
  destruct (rebuild_run store (take d records) 1 s0 projection_new s1) as (pj & Hreb & Href);
    [done | by apply reflects_empty | done | |].
  { intros i record Hi. apply lookup_take_Some in Hi as [Hi _]. destruct store as [gen rows dl].
    by apply (read_written s0 records s). }
  rewrite length_take, Nat.min_l in Hreb by done.
  set (place cursor b phase := mk_output store b (Z.of_nat d) startup_end cursor pj ReadyWaiting phase).
  destruct (send_markets_run (order (map snd (map_to_list (pj_latest pj)))) (place 0 broker Delivering))
    as (r & b & Hsend & Hp & Hb & Hgood).
  assert (Heq : output_start engine_id order startup_end store broker =
    match r with
    | Ok _ => place (Z.of_nat d) b Delivering
    | Err reason => place 0 b (OutputFailed reason)
    | Panic => place 0 b (OutputFailed "panicked")
    end).
  { unfold output_start, delivered, u64_of_i64. rewrite Hdel. rewrite (proj2 (Z.leb_le 0 _)) by lia.
    unfold mbind at 1, st_bind at 1, lift at 1. unfold mbind at 1, st_bind at 1, with_market, zoom.
    cbn [o_market]. rewrite Hreb. unfold mbind at 1, st_bind at 1, sget. unfold mbind at 1, st_bind at 1.
    unfold place in Hsend. unfold set_market.
      cbn [o_store o_broker o_delivered o_startup_end o_cursor o_market o_ready o_phase].
    rewrite Hsend. by destruct r. }
  assert (Htop' : topic_at records m (b_topic b)) by (rewrite Hb; exact Htop).
  assert (Hok : ∀ cursor phase, stopped phase = true ∨ cursor = Z.of_nat d → output_ok (place cursor b phase)).
  { intros cursor phase Hor. exists records, s, m, d. split; [done |]. split; [exact Htop' |]. split; [done |].
    split; [done |].
    split; [done |]. split; [cbn; lia |]. destruct Hor as [Hor | ->]; [by left | right]. split; [done |].
      by exists s1. }
  cbn zeta. rewrite Heq. destruct r as [[]|e|]; [| | done].
  - split; [apply Hok; by right |]. split; [done |]. split; [exact Hb |]. split; [done |]. intros Ha.
    destruct (Hgood Ha) as [_ Hb'].
    split; [done |]. split; [done |]. split; [done |]. by exists s1.
  - split; [apply Hok; by left |]. split; [done |]. split; [exact Hb |]. split; [done |]. intros Ha.
    by destruct (Hgood Ha).
Qed.

(** ** Runs, with crashes *)

(** The loop; the journal worker adds what was executed ([append_continues]); the process stops
    anywhere and starts again, with a broker that may have stored the last message or not. *)
Inductive output_step (o : Output) : Output → Prop :=
  | step_loop durable journal_done commit :
      durable ≤ Z.of_nat (length (s_records (o_store o))) →
      output_step o (output_next engine_id durable journal_done commit o)
  | step_append records s more s' rows' :
      journal_holds s0 records s (s_records (o_store o)) → journal_holds s0 (records ++ more) s' rows' →
      output_step o (set_store (mk_store (s_genesis (o_store o)) rows' (s_delivery (o_store o))) o)
  | step_restart startup_end acks :
      output_step o (output_start engine_id order startup_end (o_store o)
                       (mk_broker (b_topic (o_broker o)) (b_market (o_broker o)) acks)).

Lemma output_ok_reachable o o' : rtc output_step o o' → output_ok o → output_ok o'.
Proof.
  induction 1 as [o | o o1 o2 Hstep _ IH]; [done |]. intros Hok. apply IH.
  destruct Hstep as [durable journal_done commit Hdur | records s more s' rows' Hjh Hjh' | startup_end acks].
  - by apply output_next_ok.
  - by eapply output_append_ok.
  - destruct Hok as (records & s & m & d & Hjh & Htop & Hdel & Hd & Hm & _).
    by eapply (output_start_run startup_end (o_store o) _ records s d m).
Qed.

(** ** Catching up *)

(** Every event can be written as JSON. *)
Definition encodable (records : list Record_) : Prop :=
  ∀ record event, record ∈ records → event ∈ record_events engine_id record → ∃ payload, event_json event = inr payload.

(** Nothing is wrong: the worker runs, its place is [d] and the broker confirms. *)
Definition delivering (records : list Record_) (d : nat) (o : Output) : Prop :=
  o_phase o = Delivering ∧ b_acks (o_broker o) = [] ∧ s_delivery (o_store o) = Z.of_nat d ∧
  o_delivered o = Z.of_nat d ∧ in_step records d o ∧
  ∃ m, topic_at records m (b_topic (o_broker o)) ∧ (offset records d ≤ m)%nat.

Lemma delivering_round records s d durable journal_done o :
  journal_holds s0 records s (s_records (o_store o)) → encodable records → delivering records d o →
  (d < length records)%nat → Z.of_nat d < durable →
  let o' := output_next engine_id durable journal_done Committed o in
  delivering records (S d) o' ∧ s_records (o_store o') = s_records (o_store o).
Proof.
  intros Hjh Henc (Hph & Ha & Hdel & Hprog & Hstep & m & Htop & Hm) Hd Hlt. unfold output_next. rewrite Hph.
  set (o1 := if o_startup_end o <=? o_cursor o then send_ready (Ok tt) o else o).
  assert (Hsame : o_store o1 = o_store o ∧ o_broker o1 = o_broker o ∧ o_delivered o1 = o_delivered o ∧
    o_cursor o1 = o_cursor o ∧ o_market o1 = o_market o ∧ o_phase o1 = o_phase o).
  { unfold o1. case_match; [apply send_ready_same | done]. }
  destruct Hsame as (E1 & E2 & E3 & E4 & E5 & E6). clearbody o1.
  assert (Hstep1 : in_step records d o1) by (destruct Hstep as [? ?]; split; [by rewrite E4 | by rewrite E5]).
  assert (Hc : (o_cursor o1 <? durable) = true) by (apply Z.ltb_lt; destruct Hstep1 as [-> _]; lia).
  rewrite <- E1 in Hjh, Hdel. rewrite <- E2 in Htop, Ha. rewrite <- E3 in Hprog. cbn zeta. rewrite Hc.
  destruct (deliver_next_run Committed o1 records s m d Hjh Htop Hdel Hd Hm ltac:(lia) Hstep1)
    as (r & o' & m' & d' & Hrun & Hp & Hph' & Hrec & Htop' & Hdel' & _ & Hm' & _ & Hok & Hgood).
  rewrite Hrun. destruct (Hgood Ha eq_refl) as [Hr Ha'].
  { intros record event Hrec' Hev. eapply Henc; [by eapply list_elem_of_lookup_2 | done]. }
  destruct r as [[]|e|]; [| done..]. destruct (Hok eq_refl) as (-> & Hstep' & Hprog').
  split; [| by rewrite Hrec, E1]. split; [congruence |]. split_and!; [done..|]. by exists m'.
Qed.

Lemma delivering_rounds records s d n durable journal_done o :
  journal_holds s0 records s (s_records (o_store o)) → encodable records → delivering records d o →
  (d + n ≤ length records)%nat → Z.of_nat (d + n) ≤ durable →
  let o' := Nat.iter n (output_next engine_id durable journal_done Committed) o in
  delivering records (d + n) o' ∧ s_records (o_store o') = s_records (o_store o).
Proof.
  intros Hjh Henc Hdel. induction n as [|n IH]; intros Hlen Hdur; [by rewrite Nat.add_0_r |].
  destruct IH as [Hd Hrec]; [lia | lia |]. cbn [Nat.iter]. rewrite <- Hrec in Hjh.
  destruct (delivering_round records s (d + n) durable journal_done _ Hjh Henc Hd) as [Hd' Hrec']; [lia | lia |].
  cbn zeta. rewrite Nat.add_succ_r. split; [exact Hd' |]. etransitivity; [exact Hrec' | exact Hrec].
Qed.
End delivery.

(** ** Properties *)

Section output_properties.
Context {E : Externals} {L : DecimalLaws ext_decimal} {V : EventFormat E} {F : JournalFormat E} {FL : JournalFormatLaws F}.

(** The platform sees every event once and in order. From the first start on a new journal, through
    any number of crashes and restarts, whatever the broker confirms, loses or stores without
    confirming and however the cursor updates end: a reader of the topic that ignores messages it has
    already seen reads exactly the events of the journal, in their order, from the first one up to
    some point, with none missing and none invented; and everything the delivery cursor has passed is
    before that point. *)
Theorem events_in_order_any_journal engine_id order s0 records s store startup_end acks o :
  state_wf s0 → (∀ market buy p o, ¬ resting s0 market buy p o) →
  journal_holds s0 records s (s_records store) → s_delivery store = 0 →
  rtc (output_step engine_id s0 order) (output_start engine_id order startup_end store (mk_broker [] [] acks)) o →
  ∃ records' s' m d, journal_holds s0 records' s' (s_records (o_store o)) ∧
    first_copies (b_topic (o_broker o)) = take m (messages engine_id records') ∧
    s_delivery (o_store o) = Z.of_nat d ∧ (d ≤ length records')%nat ∧
    (length (messages engine_id (take d records')) ≤ m ≤ length (messages engine_id records'))%nat.
Proof.
  intros Hwf Hempty Hjh Hdel Hreach.
  destruct (output_start_run engine_id s0 Hwf Hempty order startup_end store (mk_broker [] [] acks) records s 0 0)
    as [Hok _]; [done | split; [done | lia] | by rewrite Hdel | lia | exact (Nat.le_refl 0) |].
  destruct (output_ok_reachable engine_id s0 Hwf Hempty order _ _ Hreach Hok)
    as (records' & s' & m & d & Hjh' & [Htop Hlen] & Hd & Hdlen & Hoff & _).
  exists records', s', m, d. unfold offset in Hoff. by split_and!.
Qed.

(** C13. Delivery catches up. Take a journal that began with empty books and does not grow, whose events
    can be encoded, with the cursor anywhere in it, and a topic that holds, repeats ignored, a first part
    of the events past everything that the cursor has passed; the broker confirms every message, every update of the cursor is committed,
    and the journal worker shows the end of the journal as durable. Then a start of the output worker
    and as many rounds as there are undelivered records bring the cursor to the end, whether the journal
    worker still runs or has ended; the topic then holds every event of the journal, and the market data
    shows the books as they are. What happens next depends on the journal worker: while it runs the
    output worker waits at the end and delivers nothing, once it has ended the next round ends the
    output worker. *)
Theorem output_catches_up engine_id order s0 records s store topic market startup_end journal_done d m :
  state_wf s0 → (∀ market buy p o, ¬ resting s0 market buy p o) →
  journal_holds s0 records s (s_records store) → encodable engine_id records →
  s_delivery store = Z.of_nat d → (d ≤ length records)%nat →
  first_copies topic = take m (messages engine_id records) →
  (length (messages engine_id (take d records)) ≤ m ≤ length (messages engine_id records))%nat →
  let o1 := output_start engine_id order startup_end store (mk_broker topic market []) in
  let last := Z.of_nat (length records) in
  let o2 := Nat.iter (length records - d) (output_next engine_id last journal_done Committed) o1 in
  let next ended := output_next engine_id last ended Committed o2 in
  o_cursor o2 = last ∧ o_delivered o2 = last ∧ s_delivery (o_store o2) = last ∧
  first_copies (b_topic (o_broker o2)) = messages engine_id records ∧
  (∀ market buy, side_shown s market buy (levels buy (pbook_at market (o_market o2)))) ∧
  (∀ ended, o_store (next ended) = o_store o2 ∧ o_broker (next ended) = o_broker o2 ∧
     o_market (next ended) = o_market o2 ∧ o_cursor (next ended) = last ∧
     o_phase (next ended) = if ended then OutputDone else Delivering).
Proof.
  intros Hwf Hempty Hjh Henc Hdel Hd Htop [Hm1 Hm2] o1 last o2 next.
  destruct (output_start_run engine_id s0 Hwf Hempty order startup_end store (mk_broker topic market []) records s d m)
    as (_ & Hstore & Htopic & Hprog & Hgood); [done | split; [done | lia] | done | done | done |].
  destruct (Hgood eq_refl) as (Hph & Hacks & Hstep). fold o1 in Hstore, Htopic, Hprog, Hph, Hacks, Hstep.
  assert (Hdelivering : delivering engine_id s0 records d o1).
  { split; [done |]. split; [done |]. split; [by rewrite Hstore |]. split; [exact Hprog |].
    split; [done |]. exists m. rewrite Htopic. split; [split; [done | lia] | done]. }
  rewrite <- Hstore in Hjh.
  destruct (delivering_rounds engine_id s0 Hwf records s d (length records - d) last journal_done o1 Hjh Henc Hdelivering)
    as [(Hph2 & _ & Hdel2 & Hprog2 & Hstep2 & m2 & [Htop2 Hlen2] & Hoff2) _]; [lia | unfold last; lia |].
  fold o2 in Hph2, Hdel2, Hprog2, Hstep2, Htop2, Hlen2, Hoff2.
    replace (d + (length records - d))%nat with (length records) in * by lia.
  destruct Hstep2 as [Hcur2 (s2 & Hrun2 & Href2)].
  rewrite take_ge in Hrun2 by lia. rewrite (jh_run _ _ _ _ Hjh) in Hrun2. injection Hrun2 as <-.
  assert (Hwf' : state_wf s).
  { destruct (run_commands_run (map r_command records) s0 Hwf) as (os & s' & Hrun' & Hwf' & _).
    rewrite (jh_run _ _ _ _ Hjh) in Hrun'. by injection Hrun' as _ <-. }
  split_and!; try done.
  - rewrite Htop2. apply take_ge. unfold offset in Hoff2. by rewrite take_ge in Hoff2 by lia.
  - intros m' buy. by apply reflects_shown.
  - intros ended. unfold next, output_next. rewrite Hph2. cbn zeta.
    set (o4 := if o_startup_end o2 <=? o_cursor o2 then send_ready (Ok tt) o2 else o2).
    assert (Hsame : o_store o4 = o_store o2 ∧ o_broker o4 = o_broker o2 ∧ o_market o4 = o_market o2 ∧
      o_cursor o4 = o_cursor o2 ∧ o_phase o4 = o_phase o2).
    { unfold o4. case_match; [| done]. by destruct (send_ready_same (Ok tt) o2) as (? & ? & _ & ? & ? & ?). }
    destruct Hsame as (E1 & E2 & E3 & E4 & E5). clearbody o4. fold last in Hcur2.
    rewrite E4, Hcur2, Z.ltb_irrefl, Z.eqb_refl. destruct ended; cbn; rewrite ?E1, ?E2, ?E3, ?E4, ?E5; by split_and!.
Qed.

(** Event identifiers are unique: no two events of a journal share one, so a reader may
    recognise repeats by the identifier alone; and an event published again after a restart carries
    the identifier it had, because it is computed from the record and its place in it. *)
Theorem event_ids_unique engine_id records :
  Forall (fun record => 0 ≤ r_sequence record) records → NoDup (map r_sequence records) →
  NoDup (map id_of (mjoin (map (record_events engine_id) records))).
Proof.
  intros Hpos Hnd. induction records as [|record records IH]; [constructor |]. cbn [map] in *.
  apply Forall_cons in Hpos as [Hp Hpos]. apply NoDup_cons in Hnd as [Hnew Hnd].
  change (mjoin (?a :: ?l)) with (a ++ mjoin l). rewrite map_app.
  apply NoDup_app. split_and!; [| | by apply IH].
  - apply NoDup_alt. intros i j id Hi Hj. rewrite !list_lookup_fmap in Hi, Hj.
    destruct (record_events engine_id record !! i) as [e1|] eqn:H1; [| done]. injection Hi as <-.
    destruct (record_events engine_id record !! j) as [e2|] eqn:H2; [| done]. injection Hj as Hj.
    rewrite (record_event_ids _ _ _ _ H1), (record_event_ids _ _ _ _ H2) in Hj.
    apply event_id_inj in Hj as [_ Hij]; cbn; lia || done.
  - intros id (e1 & -> & H1)%list_elem_of_fmap (e2 & Hid & H2)%list_elem_of_fmap.
    apply list_elem_of_join in H2 as (l & H2 & Hl). apply list_elem_of_fmap in Hl as (record' & -> & Hr).
    apply list_elem_of_lookup_1 in H1 as [i H1], H2 as [j H2].
    rewrite (record_event_ids _ _ _ _ H1), (record_event_ids _ _ _ _ H2) in Hid.
    rewrite Forall_forall in Hpos. pose proof (Hpos _ Hr).
    apply event_id_inj in Hid as [Hseq _]; [| cbn; lia || done..]. apply Hnew. cbn in Hseq. rewrite Hseq.
    apply list_elem_of_fmap. by exists record'.
Qed.
End output_properties.

(** ** The properties at concrete inputs *)

Section output_examples.
#[local] Existing Instance ref_externals.
#[local] Existing Instance ref_decimal_laws.
#[local] Existing Instance ref_format.
#[local] Existing Instance ref_format_laws.

(** Events written as their identifiers. *)
Definition ref_events : EventFormat ref_externals := {| event_json event := inr (id_of event) |}.
#[local] Existing Instance ref_events.

Lemma record_all_sequences now n commands outcomes :
  length outcomes = length commands →
  map r_sequence (record_all now n commands outcomes) = seqZ n (Z.of_nat (length commands)) ∧
  length (record_all now n commands outcomes) = length commands.
Proof.
  revert n outcomes. induction commands as [|c commands IH]; intros n [|o outcomes] Hlen; try done.
  cbn [length record_all map] in Hlen |- *. destruct (IH (n + 1) outcomes) as [H1 H2]; [lia |].
  rewrite Nat2Z.inj_succ, seqZ_cons, Z.pred_succ by lia. rewrite H1, H2. split; [by rewrite Z.add_1_r | done].
Qed.

(** The example history, on disk. *)
Definition ex_records : list Record_ := record_all ex_clock 1 ex_history ex_outcomes.
Definition ex_journal : Store := mk_store None (map written ex_records) 0.

Lemma ex_outcomes_length : length ex_outcomes = length ex_history.
Proof. vm_compute. reflexivity. Qed.

Lemma ex_journal_holds : journal_holds state_new ex_records ex_end (s_records ex_journal).
Proof.
  destruct (record_all_sequences ex_clock 1 ex_history ex_outcomes ex_outcomes_length) as [H1 H2].
  destruct (record_all_parts ex_clock 1 ex_history ex_outcomes ex_outcomes_length) as [H3 H4].
  split; unfold ex_records; [reflexivity | by rewrite H2 | rewrite H3, H4; exact ex_history_run |].
  rewrite H2. apply Z.leb_le. vm_compute. reflexivity.
Qed.

Lemma ex_no_orders : ∀ market buy p o, ¬ resting state_new market buy p o.
Proof. intros market buy p o Hin. destruct buy; by apply elem_of_nil in Hin. Qed.

(** Five records are delivered, then the broker stores a message without confirming it, and the worker
    starts again. *)
Definition ex_acks : list Ack := [Acked; Acked; Unacked true "timed out"].
Definition ex_o0 : Output := output_start "engine" Datatypes.id 11 ex_journal (mk_broker [] [] ex_acks).
Definition ex_o1 : Output := output_next "engine" 11 false Committed ex_o0.
Definition ex_o2 : Output := output_next "engine" 11 false Committed ex_o1.
Definition ex_o3 : Output := output_next "engine" 11 false Committed ex_o2.
Definition ex_o4 : Output := output_next "engine" 11 false Committed ex_o3.
Definition ex_o5 : Output := output_next "engine" 11 false Committed ex_o4.
Definition ex_o6 : Output := output_next "engine" 11 false Committed ex_o5.
Definition ex_o7 : Output := output_start "engine" Datatypes.id 11 (o_store ex_o6) (mk_broker (b_topic (o_broker ex_o6)) (b_market (o_broker ex_o6)) []).
Definition ex_o8 : Output := output_next "engine" 11 true Committed ex_o7.
Definition ex_o9 : Output := output_next "engine" 11 true Committed ex_o8.

Lemma ex_rows o : length (s_records (o_store o)) = 11%nat → 11 ≤ Z.of_nat (length (s_records (o_store o))).
Proof. lia. Qed.

Lemma ex_deliveries : rtc (output_step "engine" state_new Datatypes.id) ex_o0 ex_o9.
Proof.
  eapply rtc_l; [exact (step_loop _ _ _ ex_o0 11 false Committed (ex_rows ex_o0 ltac:(vm_compute; reflexivity))) |].
  eapply rtc_l; [exact (step_loop _ _ _ ex_o1 11 false Committed (ex_rows ex_o1 ltac:(vm_compute; reflexivity))) |].
  eapply rtc_l; [exact (step_loop _ _ _ ex_o2 11 false Committed (ex_rows ex_o2 ltac:(vm_compute; reflexivity))) |].
  eapply rtc_l; [exact (step_loop _ _ _ ex_o3 11 false Committed (ex_rows ex_o3 ltac:(vm_compute; reflexivity))) |].
  eapply rtc_l; [exact (step_loop _ _ _ ex_o4 11 false Committed (ex_rows ex_o4 ltac:(vm_compute; reflexivity))) |].
  eapply rtc_l; [exact (step_loop _ _ _ ex_o5 11 false Committed (ex_rows ex_o5 ltac:(vm_compute; reflexivity))) |].
  eapply rtc_l; [exact (step_restart _ _ _ ex_o6 11 []) |].
  eapply rtc_l; [exact (step_loop _ _ _ ex_o7 11 true Committed (ex_rows ex_o7 ltac:(vm_compute; reflexivity))) |].
  eapply rtc_l; [exact (step_loop _ _ _ ex_o8 11 true Committed (ex_rows ex_o8 ltac:(vm_compute; reflexivity))) |].
  exact (rtc_refl _ ex_o9).
Qed.

(** The deposit is one message, the trade was published twice. *)
Example ex_published :
  (map fst (b_topic (o_broker ex_o9)), map fst (first_copies (b_topic (o_broker ex_o9))), s_delivery (o_store ex_o9)) =
  ([(1, 0); (6, 0); (6, 0)], [(1, 0); (6, 0)], 7).
Proof. vm_compute. reflexivity. Qed.

Lemma events_in_order_any_journal_witness :
  ∃ records' s' m d, journal_holds state_new records' s' (s_records (o_store ex_o9)) ∧
    first_copies (b_topic (o_broker ex_o9)) = take m (messages "engine" records') ∧
    s_delivery (o_store ex_o9) = Z.of_nat d ∧ (d ≤ length records')%nat ∧
    (length (messages "engine" (take d records')) ≤ m ≤ length (messages "engine" records'))%nat.
Proof.
  exact (events_in_order_any_journal "engine" Datatypes.id state_new ex_records ex_end ex_journal 11 ex_acks ex_o9
           state_wf_new ex_no_orders ex_journal_holds eq_refl ex_deliveries).
Defined.

Lemma ex_encodable : encodable "engine" ex_records.
Proof. intros record event _ _. by exists (id_of event). Qed.

Lemma output_catches_up_witness :
  let o1 := output_start "engine" Datatypes.id 11 ex_journal (mk_broker [] [] []) in
  let last := Z.of_nat (length ex_records) in
  let o2 := Nat.iter (length ex_records - 0) (output_next "engine" last false Committed) o1 in
  o_cursor o2 = last ∧ o_phase (output_next "engine" last false Committed o2) = Delivering ∧
  o_phase (output_next "engine" last true Committed o2) = OutputDone.
Proof.
  destruct (output_catches_up "engine" Datatypes.id state_new ex_records ex_end ex_journal [] [] 11 false 0 0
    state_wf_new ex_no_orders ex_journal_holds ex_encodable eq_refl (Nat.le_0_l _) eq_refl (conj (Nat.le_refl 0)
      (Nat.le_0_l _)))
    as (H1 & _ & _ & _ & _ & H2).
  destruct (H2 false) as (_ & _ & _ & _ & H3), (H2 true) as (_ & _ & _ & _ & H4).
  exact (conj H1 (conj H3 H4)).
Defined.

Lemma ex_sequences : Forall (fun record => 0 ≤ r_sequence record) ex_records ∧ NoDup (map r_sequence ex_records).
Proof. exact (journal_sequences _ _ _ _ ex_journal_holds). Qed.

Lemma event_ids_unique_witness : NoDup (map id_of (mjoin (map (record_events "engine") ex_records))).
Proof. exact (event_ids_unique "engine" ex_records (proj1 ex_sequences) (proj2 ex_sequences)). Defined.
End output_examples.
