(* ===== verification/Identity.v ===== *)
(** * Keys of the internal HTTP boundary ([shared/service_identity.rs])

    A service key is kept as its hash; what a caller provides is hashed and compared. The hash is a
    parameter: nothing is assumed of it except where a theorem says so. *)

From stdpp Require Import base tactics list strings.
From Stdlib Require Import ZArith Lia.
From S2P Require Import Prelude Text.

(** [sha2::Sha256::digest], as 32 bytes. *)
Class KeyHash := {
  KeyDigest : Type;
  key_digest_eq_dec :: EqDecision KeyDigest;
  sha256 : string → KeyDigest;
}.

Section identity.
Context {H : KeyHash}.

Record ServiceToken := mk_token { token_digest : KeyDigest }.

(** [(32..=1024).contains(&value.len())]. *)
Definition key_length (value : string) : bool := (32 <=? slen value) && (slen value <=? 1024).

(** [ServiceToken::parse]. *)
Definition token_parse (value : string) : result ServiceToken :=
  _ ← ensure (key_length value) "내부 서비스 키는 32~1024바이트여야 합니다";
  Ok (mk_token (sha256 value)).

(** [ServiceToken::matches]; the comparison in constant time is a comparison. *)
Definition token_matches (provided : string) (self : ServiceToken) : bool :=
  if negb (key_length provided) then false
  else bool_decide (token_digest self = sha256 provided).

(** A key is accepted exactly when it has the length of a key and the hash of the key; where the hash
    tells keys apart, only the key itself is accepted. *)
Lemma token_matches_spec key token provided :
  token_parse key = Ok token →
  token_matches provided token = key_length provided && bool_decide (sha256 key = sha256 provided).
Proof. unfold token_parse, token_matches. intros H0. inv_ok. cbn. by destruct (key_length provided). Qed.

Lemma token_matches_key key token : token_parse key = Ok token → token_matches key token = true.
Proof.
  intros Hp. rewrite (token_matches_spec key) by done. unfold token_parse in Hp. inv_ok.
  match goal with Hk : key_length key = true |- _ => rewrite Hk end. by rewrite bool_decide_true.
Qed.

Lemma token_matches_only key token provided :
  (∀ a b, key_length a = true → key_length b = true → sha256 a = sha256 b → a = b) →
  token_parse key = Ok token → token_matches provided token = true → provided = key.
Proof.
  intros Hinj Hp Hm. rewrite (token_matches_spec key) in Hm by done. unfold token_parse in Hp. inv_ok. symmetry.
    by apply Hinj.
Qed.
End identity.
