(* ===== verification/Sha256.v ===== *)
(** * The hash of the service keys and of the checksums (FIPS 180-4)

    The development treats SHA-256 as a parameter ([KeyHash], the checksum of a journal format). This
    is the standard's function itself, for the examples and tests in which the real hash is to be
    computed. The constants of the standard are not copied but computed as it defines them: the first 32
    bits of the fractional parts of square and cube roots of the first primes. *)

From stdpp Require Import base tactics list strings.
From Stdlib Require Import ZArith Lia Ascii.
From S2P Require Import Prelude Text Identity.

(** ** Words of 32 bits *)

Definition low32 (x : Z) : Z := x mod 2 ^ 32.
Definition rotate (n x : Z) : Z := Z.lor (Z.shiftr x n) (low32 (Z.shiftl x (32 - n))).
Definition xor3 (a b c : Z) : Z := Z.lxor a (Z.lxor b c).
Definition choose (x y z : Z) : Z := Z.lxor (Z.land x y) (Z.land (2 ^ 32 - 1 - x) z).
Definition majority (x y z : Z) : Z := xor3 (Z.land x y) (Z.land x z) (Z.land y z).
Definition big0 (x : Z) : Z := xor3 (rotate 2 x) (rotate 13 x) (rotate 22 x).
Definition big1 (x : Z) : Z := xor3 (rotate 6 x) (rotate 11 x) (rotate 25 x).
Definition small0 (x : Z) : Z := xor3 (rotate 7 x) (rotate 18 x) (Z.shiftr x 3).
Definition small1 (x : Z) : Z := xor3 (rotate 17 x) (rotate 19 x) (Z.shiftr x 10).

(** ** The constants *)

Definition is_prime (n : Z) : bool := forallb (fun d => negb (n mod d =? 0)) (seqZ 2 (n - 2)).
Definition first_primes (n : nat) : list Z := take n (List.filter is_prime (seqZ 2 310)).

(** The largest [r] below [2 ^ bits] with [r ^ k ≤ n], bit by bit. *)
Fixpoint root (k n : Z) (bits : nat) (r : Z) : Z :=
  match bits with
  | O => r
  | S bits => let r' := r + 2 ^ Z.of_nat bits in root k n bits (if r' ^ k <=? n then r' else r)
  end.
Definition root_fraction (k p : Z) : Z := low32 (root k (p * 2 ^ (32 * k)) 37 0).

Definition initial_hash : list Z := Eval vm_compute in map (root_fraction 2) (first_primes 8).
Definition round_constants : list Z := Eval vm_compute in map (root_fraction 3) (first_primes 64).

(** ** Padding: a one bit, zeros, and the length in bits at the end of a block of 64 bytes *)

Definition bytes_of (s : string) : list Z := map (fun c => Z.of_N (N_of_ascii c)) (String.list_ascii_of_string s).
Fixpoint big_endian (n : nat) (x : Z) : list Z :=
  match n with
  | O => []
  | S n => Z.shiftr x (8 * Z.of_nat n) mod 256 :: big_endian n x
  end.
Definition padded (message : list Z) : list Z :=
  let size := Z.of_nat (length message) in
  message ++ [128] ++ replicate (Z.to_nat ((55 - size) mod 64)) 0 ++ big_endian 8 (8 * size).

Fixpoint words (bytes : list Z) : list Z :=
  match bytes with
  | a :: b :: c :: d :: rest => (((a * 256 + b) * 256 + c) * 256 + d) :: words rest
  | _ => []
  end.

(** ** One block *)

(** The message schedule: a window of the last sixteen words moves over it. *)
Fixpoint schedule (n : nat) (window : list Z) : list Z :=
  match n, window with
  | S n, first :: rest =>
      let next := low32 (small1 (nth 13 rest 0) + nth 8 rest 0 + small0 (nth 0 rest 0) + first) in
      first :: schedule n (rest ++ [next])
  | _, _ => []
  end.

Record Hash := mk_hash { ha : Z; hb : Z; hc : Z; hd_ : Z; he : Z; hf : Z; hg : Z; hh : Z }.
Definition to_words (h : Hash) : list Z := [ha h; hb h; hc h; hd_ h; he h; hf h; hg h; hh h].

Definition round (h : Hash) (input : Z * Z) : Hash :=
  let t1 := hh h + big1 (he h) + choose (he h) (hf h) (hg h) + input.1 + input.2 in
  let t2 := big0 (ha h) + majority (ha h) (hb h) (hc h) in
  mk_hash (low32 (t1 + t2)) (ha h) (hb h) (hc h) (low32 (hd_ h + t1)) (he h) (hf h) (hg h).

Definition add_hash (a b : Hash) : Hash :=
  mk_hash (low32 (ha a + ha b)) (low32 (hb a + hb b)) (low32 (hc a + hc b)) (low32 (hd_ a + hd_ b))
    (low32 (he a + he b)) (low32 (hf a + hf b)) (low32 (hg a + hg b)) (low32 (hh a + hh b)).

Definition compress (h : Hash) (block : list Z) : Hash :=
  add_hash h (foldl round h (combine round_constants (schedule 64 block))).

Fixpoint blocks (n : nat) (ws : list Z) : list (list Z) :=
  match n with O => [] | S n => take 16 ws :: blocks n (drop 16 ws) end.

Definition start_hash : Hash :=
  match initial_hash with
  | [a; b; c; d; e; f; g; h] => mk_hash a b c d e f g h
  | _ => mk_hash 0 0 0 0 0 0 0 0
  end.

(** The 32 bytes. *)
Definition sha256_bytes (s : string) : list Z :=
  let ws := words (padded (bytes_of s)) in
  mjoin (map (big_endian 4) (to_words (foldl compress start_hash (blocks (length ws / 16) ws)))).

Definition sha256_hash : KeyHash := {| KeyDigest := list Z; sha256 := sha256_bytes |}.

(** ** Its shape *)

Lemma big_endian_length n x : length (big_endian n x) = n.
Proof. induction n as [|n IH]; [done |]. cbn. by rewrite IH. Qed.

(** A digest has 32 bytes. *)
Lemma sha256_bytes_length s : length (sha256_bytes s) = 32%nat.
Proof. unfold sha256_bytes, to_words. cbn [map mjoin list_join]. by rewrite !length_app, !big_endian_length. Qed.

(** The padding fills whole blocks and adds at least nine bytes. *)
Lemma padded_blocks message :
  Z.of_nat (length (padded message)) mod 64 = 0 ∧ (length message + 9 ≤ length (padded message) ≤ length message + 72)%nat.
Proof.
  unfold padded. rewrite !length_app, length_replicate, big_endian_length. cbn [length].
  pose proof (Z.mod_pos_bound (55 - Z.of_nat (length message)) 64 ltac:(lia)). split; [| lia].
  rewrite !Nat2Z.inj_add, Z2Nat.id by lia. Z.to_euclidean_division_equations. lia.
Qed.

Lemma words_length n bytes : length bytes = (4 * n)%nat → length (words bytes) = n.
Proof.
  revert bytes. induction n as [|n IH]; intros bytes Hn; [by destruct bytes |].
  destruct bytes as [|a [|b [|c [|d bytes]]]]; cbn in Hn; try lia. cbn. f_equal. apply IH. lia.
Qed.

(** The vector of the standard for one block. *)
Example sha256_abc :
  take 8 (sha256_bytes "abc") = [186; 120; 22; 191; 143; 1; 207; 234].
Proof. vm_compute. reflexivity. Qed.
(** The vector of the standard for two blocks. *)
Example sha256_two_blocks :
  take 8 (sha256_bytes "abcdbcdecdefdefgefghfghighijhijkijkljklmklmnlmnomnopnopq") = [36; 141; 106; 97; 210; 6; 56; 184].
Proof. vm_compute. reflexivity. Qed.
