(* ===== verification/AuditPages.v ===== *)
(** * Reading the journal for audits ([runtime/audit.rs])

    An auditor reads the confirmed results page by page through a connection of its own. The reader
    goes through the same visitor as the delivery to the broker, so what is proved here is that the
    pages are exactly the messages of the topic, whatever is appended meanwhile. *)

From stdpp Require Import base tactics gmap list strings.
From Stdlib Require Import ZArith Lia.
From S2P Require Import Prelude Text Decimals Amount BTree RefDecimal Types BalanceCache OrderBook Matcher Submission State Deposit Withdrawal Cancel Journal History Resting Events EngineLoop Store Market Output Identity.

Section audit.
Context {E : Externals} {V : EventFormat E} {F : JournalFormat E} {H : KeyHash}.

Record PageQuery := {
  pq_after : Z;
  pq_through : option Z;
  pq_engine_id : option string;
  pq_limit : option Z;
}.

Record AuditPage := mk_page {
  ap_engine_id : string;
  ap_through : Z;
  ap_next_after : Z;
  ap_events : list string;
}.

Definition PAGE_BYTES : Z := 4 * 1024 * 1024.
Definition page_too_large : string := "감사 페이지 크기 초과".

(** The page so far and its size. *)
Record Reading := mk_reading { rd_bytes : Z; rd_page : AuditPage }.

Definition set_next_after (n : Z) (r : Reading) : Reading :=
  mk_reading (rd_bytes r) (mk_page (ap_engine_id (rd_page r)) (ap_through (rd_page r)) n (ap_events (rd_page r))).
Definition push_event (payload : string) (p : AuditPage) : AuditPage :=
  mk_page (ap_engine_id p) (ap_through p) (ap_next_after p) (ap_events p ++ [payload]).

(** The closure handed to the visitor. *)
Definition audit_send (index : Z) (payload : string) : st Reading (option DeliveryError) :=
  reading ← sget;
  let bytes := rd_bytes reading + slen payload in
  if PAGE_BYTES <? bytes then
    _ ← sput (mk_reading bytes (rd_page reading));
    mret (Some (mk_delivery_error 0 page_too_large))
  else
    _ ← sput (mk_reading bytes (push_event payload (rd_page reading)));
    mret None.

(** One round of the loop over the rows. *)
Definition audit_row (r : Z * row) : st Reading unit :=
  sequence ← lift (u64_of_i64 r.1);
  reading ← sget;
  _ ← lift (ensure (sequence =? ap_next_after (rd_page reading) + 1) "저널 순번 누락");
  record ← lift (decode record_parse r.2);
  _ ← lift (ensure (r_sequence record =? sequence) "저널 순번 불일치");
  _ ← match r_outcome record with
      | Applied (Some batch) =>
          let position := {| po_engine_id := ap_engine_id (rd_page reading); po_sequence := sequence;
                             po_timestamp := r_timestamp record |} in
          error ← visit_events audit_send batch position;
          lift (match error with Some error => Err (de_reason error) | None => Ok tt end)
      | _ => mret tt
      end;
  reading ← sget;
  _ ← lift (ensure (rd_bytes reading <=? PAGE_BYTES) page_too_large);
  smodify (set_next_after sequence).

Fixpoint audit_rows (rows : list (Z * row)) : st Reading unit :=
  match rows with
  | [] => mret tt
  | r :: rows => _ ← audit_row r; audit_rows rows
  end.

(** [SELECT .. WHERE sequence>?1 AND sequence<=?2 ORDER BY sequence LIMIT ?3]. *)
Definition select_rows (after through limit : Z) (rows : list (Z * row)) : list (Z * row) :=
  take (Z.to_nat limit) (List.filter (fun r => (after <? r.1) && (r.1 <=? through)) rows).

(** [AuditReader::read] on what the file at the path holds: nothing, or a schema version and the
    tables. *)
Definition audit_read (file : option (Z * Store)) (query : PageQuery) : result AuditPage :=
  opened ← ok_or file "unable to open database file";
  let store : Store := opened.2 in
  _ ← ensure (opened.1 =? 4) "지원하지 않는 감사 저널 버전";
  r ← ok_or (s_genesis store) "Query returned no rows";
  genesis ← decode genesis_parse r;
  _ ← ensure ((gn_version genesis =? 4) && uuid_parses (gn_engine_id genesis)) "잘못된 최초 기록";
  _ ← ensure (match pq_engine_id query with Some id => String.eqb id (gn_engine_id genesis) | None => true end)
        "조회 중 엔진 식별자가 변경됨";
  last ← last_sequence store;
  let through := default last (pq_through query) in
  _ ← ensure ((pq_after query <=? through) && (through <=? last)) "확정 범위를 벗어난 조회";
  after_key ← i64_of_u64 (pq_after query);
  through_key ← i64_of_u64 through;
  let page := mk_page (gn_engine_id genesis) through (pq_after query) [] in
  let rows := select_rows after_key through_key (default 50 (pq_limit query)) (s_records store) in
  let '(read, reading) := audit_rows rows (mk_reading 0 page) in
  _ ← read;
  let next_after := ap_next_after (rd_page reading) in
  _ ← ensure ((next_after =? through) || (pq_after query <? next_after)) "저널 꼬리 누락";
  Ok (rd_page reading).

Record AuditReader := { ar_token : option ServiceToken }.

(** [AuditReader::new]. *)
Definition audit_new (token : option string) : result AuditReader :=
  match token with
  | Some value => token ← token_parse value; Ok {| ar_token := Some token |}
  | None => Ok {| ar_token := None |}
  end.

(** What is wrong with a query before the journal is looked at. *)
Definition query_valid (query : PageQuery) : bool :=
  let limit := default 50 (pq_limit query) in
  (1 <=? limit) && (limit <=? 100) && (pq_after query <=? I64_MAX) &&
  match pq_through query with Some n => n <=? I64_MAX | None => true end &&
  negb ((0 <? pq_after query) && (bool_decide (pq_through query = None) || bool_decide (pq_engine_id query = None))).

(** [page]: an HTTP status, or the page. [permit] says whether the one permit is free. *)
Definition page (reader : AuditReader) (permit : bool) (file : option (Z * Store)) (header : option string)
    (query : PageQuery) : Z + AuditPage :=
  match ar_token reader with
  | None => inl 503
  | Some token =>
      match header with
      | None => inl 401
      | Some provided =>
          if negb (token_matches provided token) then inl 401
          else if negb (query_valid query) then inl 400
          else if negb permit then inl 429
          else match audit_read file query with
               | Ok page => inr page
               | _ => inl 503
               end
      end
  end.
End audit.

(** ** What a page contains *)

Section audit_facts.
Context {E : Externals} {L : DecimalLaws ext_decimal} {V : EventFormat E} {F : JournalFormat E} {FL : JournalFormatLaws F}.

(** The texts of the messages of a journal, as the broker gets them. *)
Definition payloads (engine_id : string) (records : list Record_) : list string := map snd (messages engine_id records).

Definition size (payloads : list string) : Z := lsum slen payloads.

Lemma payloads_cons engine_id record records :
  payloads engine_id (record :: records) = map payload_of (record_events engine_id record) ++ payloads engine_id records.
Proof.
  unfold payloads, messages. cbn [map]. change (mjoin (?a :: ?l)) with (a ++ mjoin l). rewrite map_app. f_equal.
  unfold messages_of. generalize (record_events engine_id record). intros l.
  assert (Hgen : ∀ k, map snd (imap (fun i event => ((r_sequence record, Z.of_nat (k + i)), payload_of event)) l)
    = map payload_of l); [| apply (Hgen 0%nat)].
  induction l as [|e l IH]; intros k; [done |]. cbn. f_equal. rewrite <- (IH (S k)). f_equal.
  apply imap_ext. intros i x _. cbn. by rewrite Nat.add_succ_r.
Qed.

Lemma payloads_app engine_id r1 r2 : payloads engine_id (r1 ++ r2) = payloads engine_id r1 ++ payloads engine_id r2.
Proof. unfold payloads. by rewrite messages_app, map_app. Qed.

Definition add_events (events : list string) (r : Reading) : Reading :=
  mk_reading (rd_bytes r + size events)
    (mk_page (ap_engine_id (rd_page r)) (ap_through (rd_page r)) (ap_next_after (rd_page r)) (ap_events (rd_page r) ++ events)).

Lemma audit_send_run index payload r :
  audit_send index payload r =
  if PAGE_BYTES <? rd_bytes r + slen payload
  then (Ok (Some (mk_delivery_error 0 page_too_large)), mk_reading (rd_bytes r + slen payload) (rd_page r))
  else (Ok None, mk_reading (rd_bytes r + slen payload) (push_event payload (rd_page r))).
Proof. unfold audit_send, mbind, st_bind, sget. cbn zeta. by destruct (_ <? _). Qed.

(** Sending events to the page: they are all added, or the visitor stops with an error. *)
Lemma send_all_page index events r :
  (∃ error r', send_all audit_send index events r = (Ok (Some error), r') ∧
     ((∀ event, event ∈ events → ∃ payload, event_json event = inr payload) → PAGE_BYTES < rd_bytes r + size (map payload_of events))) ∨
  send_all audit_send index events r = (Ok None, add_events (map payload_of events) r) ∧
  rd_bytes r + size (map payload_of events) ≤ Z.max PAGE_BYTES (rd_bytes r).
Proof.
  revert index r. induction events as [|event events IH]; intros index r.
  { right. split; [| cbn; lia]. destruct r as [b [? ? ? ?]]. unfold add_events, size. cbn.
    by rewrite Z.add_0_r, app_nil_r. }
  cbn [send_all map]. unfold size. rewrite lsum_cons. fold (size (map payload_of events)).
  assert (Hpos : 0 ≤ size (map payload_of events)) by (apply lsum_nonneg; intros; apply slen_nonneg).
  unfold mbind at 1 2, st_bind at 1 2, send_event.
  destruct (event_json event) as [reason|payload] eqn:Hjson.
  { left. eexists _, _. split; [reflexivity |]. intros Henc. destruct (Henc event) as [? ?]; [left | congruence]. }
  assert (Hpay : payload_of event = payload) by (unfold payload_of; by rewrite Hjson). rewrite Hpay, audit_send_run.
  destruct (Z.ltb_spec PAGE_BYTES (rd_bytes r + slen payload)) as [Hbig|Hfit].
  { left. eexists _, _. split; [reflexivity |]. intros _. lia. }
  destruct (IH (index + 1) (mk_reading (rd_bytes r + slen payload) (push_event payload (rd_page r))))
    as [(error & r' & -> & Hbig) | [-> Hb]].
  - left. eexists _, _. split; [reflexivity |]. intros Henc.
    specialize (Hbig (fun e He => Henc e ltac:(by right))). cbn in Hbig. lia.
  - right. cbn [rd_bytes] in Hb. split; [| lia].
    assert (Hsize : size (payload :: map payload_of events) = slen payload + size (map payload_of events))
      by reflexivity.
    unfold add_events, push_event. rewrite Hsize.
      cbn [rd_bytes rd_page ap_engine_id ap_through ap_next_after ap_events].
    by rewrite <- app_assoc, Z.add_assoc.
Qed.

(** The rows of a part of a journal. *)
(** One row: an event that is too large stops it, otherwise all events of the record are on the page. *)
Lemma audit_row_run record r :
  r_sequence record = ap_next_after (rd_page r) + 1 → 0 ≤ ap_next_after (rd_page r) → rd_bytes r ≤ PAGE_BYTES →
  let engine_id := ap_engine_id (rd_page r) in
  (∃ error r', audit_row (written record) r = (Err error, r') ∧
     (encodable engine_id [record] → PAGE_BYTES < rd_bytes r + size (map payload_of (record_events engine_id record)))) ∨
  audit_row (written record) r =
    (Ok tt, set_next_after (r_sequence record) (add_events (map payload_of (record_events engine_id record)) r)) ∧
  rd_bytes r + size (map payload_of (record_events engine_id record)) ≤ PAGE_BYTES.
Proof.
  intros H0 Hnext Hbytes engine_id. unfold audit_row, mbind, st_bind, lift, sget, mret, st_ret.
    cbn [fst snd written]. unfold u64_of_i64.
  rewrite (proj2 (Z.leb_le 0 (r_sequence record))) by lia. rewrite (proj2 (Z.eqb_eq _ _)) by lia. cbn [ensure].
  rewrite decode_written, Z.eqb_refl. cbn [ensure]. fold engine_id. unfold record_events.
  destruct (r_outcome record) as [[batch|]|reason|order] eqn:Hout; cycle 1.
  1-3: right; rewrite (proj2 (Z.leb_le (rd_bytes r) PAGE_BYTES)) by done; cbn [ensure smodify map]; split;
    [| cbn; lia]; destruct r as [b [? ? ? ?]]; unfold add_events, set_next_after, size; cbn;
      by rewrite Z.add_0_r, app_nil_r.
  change {| po_engine_id := engine_id; po_sequence := r_sequence record; po_timestamp := r_timestamp record |}
    with (position_of engine_id record).
  rewrite visit_events_all.
  destruct (send_all_page 0 (batch_events batch (position_of engine_id record)) r)
    as [(error & r' & -> & Hbig) | [-> Hfit]].
  - left. eexists _, _. split; [reflexivity |]. intros Henc. apply Hbig. intros event Hev.
    apply (Henc record event); [left |].
    unfold record_events. by rewrite Hout.
  - right. rewrite Z.max_l in Hfit by done. cbn [add_events rd_bytes].
    rewrite (proj2 (Z.leb_le _ PAGE_BYTES)) by done. by split.
Qed.

Lemma audit_rows_run records r :
  (∀ i record, records !! i = Some record → r_sequence record = ap_next_after (rd_page r) + Z.of_nat i + 1) →
  0 ≤ ap_next_after (rd_page r) → rd_bytes r ≤ PAGE_BYTES →
  let engine_id := ap_engine_id (rd_page r) in
  (∃ error r', audit_rows (map written records) r = (Err error, r') ∧
     (encodable engine_id records → PAGE_BYTES < rd_bytes r + size (payloads engine_id records))) ∨
  audit_rows (map written records) r =
    (Ok tt, set_next_after (ap_next_after (rd_page r) + Z.of_nat (length records)) (add_events (payloads engine_id records) r)).
Proof.
  revert r. induction records as [|record records IH]; intros r Hseq Hnext Hbytes engine_id.
  { right. destruct r as [b [? ? ? ?]]. unfold add_events, set_next_after, size, payloads. cbn.
    by rewrite !Z.add_0_r, app_nil_r. }
  pose proof (Hseq 0%nat record eq_refl) as H0. rewrite Z.add_0_r in H0.
  assert (Hsize : size (payloads engine_id (record :: records)) =
    size (map payload_of (record_events engine_id record)) + size (payloads engine_id records))
    by (rewrite payloads_cons; apply lsum_app).
  assert (Hpos : 0 ≤ size (payloads engine_id records)) by (apply lsum_nonneg; intros; apply slen_nonneg).
  cbn [map audit_rows]. unfold mbind at 1 2, st_bind at 1 2.
  destruct (audit_row_run record r) as [(error & r' & -> & Hbig) | [-> Hfit]]; [lia | done | done | |].
  { left. eexists _, _. split; [reflexivity |]. intros Henc. rewrite Hsize.
    enough (PAGE_BYTES < rd_bytes r + size (map payload_of (record_events engine_id record))) by lia.
    apply Hbig. intros rec event ->%list_elem_of_singleton. apply Henc. left. }
  set (r1 := set_next_after _ _).
  assert (Hid : ap_engine_id (rd_page r1) = engine_id) by done.
  assert (Hn1 : ap_next_after (rd_page r1) = ap_next_after (rd_page r) + 1) by (cbn; lia).
  assert (Hb1 : rd_bytes r1 = rd_bytes r + size (map payload_of (record_events engine_id record))) by done.
  destruct (IH r1) as [(error & r' & -> & Hbig) | ->].
  - intros i rec Hi. rewrite Hn1, (Hseq (S i) rec Hi). lia.
  - rewrite Hn1. lia.
  - rewrite Hb1. done.
  - left. eexists _, _. split; [reflexivity |]. intros Henc. rewrite Hid, Hb1 in Hbig. rewrite Hsize.
    enough (PAGE_BYTES < rd_bytes r + size (map payload_of (record_events engine_id record))
      + size (payloads engine_id records)) by lia.
    apply Hbig. intros rec event Hrec. apply Henc. by right.
  - right. fold engine_id in Hid. rewrite Hid, Hn1. f_equal. unfold set_next_after, add_events.
    rewrite Hsize, payloads_cons.
    cbn [rd_bytes rd_page ap_engine_id ap_through ap_next_after ap_events length].
    replace (ap_next_after (rd_page r) + 1 + Z.of_nat (length records)) with (ap_next_after (rd_page r)
      + Z.of_nat (S (length records))) by lia.
    unfold r1, set_next_after, add_events. cbn [rd_bytes rd_page ap_engine_id ap_through ap_next_after ap_events].
    by rewrite Z.add_assoc, app_assoc.
Qed.

(** The rows between two sequences. *)
Lemma select_written records b after through :
  (∀ i record, records !! i = Some record → r_sequence record = b + Z.of_nat i + 1) → b ≤ through →
  List.filter (fun r : Z * row => (after <? r.1) && (r.1 <=? through)) (map written records) =
  map written (take (Z.to_nat (through - Z.max b after)) (drop (Z.to_nat (after - b)) records)).
Proof.
  revert b. induction records as [|record records IH]; intros b Hs Hb; [by rewrite drop_nil, take_nil |].
  pose proof (Hs 0%nat record eq_refl) as Hr.
  assert (Hs' : ∀ i record, records !! i = Some record → r_sequence record = (b + 1) + Z.of_nat i + 1)
    by (intros i rec Hi; rewrite (Hs (S i) rec Hi); lia).
  cbn [map List.filter]. cbn [written fst].
  assert (Hend : through < b + 1 → List.filter (fun r : Z * row => (after <? r.1) && (r.1 <=? through))
    (map written records) = []).
  { intros Hlt. clear -Hs' Hlt.
    assert (Hno : ∀ x, x ∈ map written records → (after <? x.1) && (x.1 <=? through) = false).
    { intros x (rec & -> & [i Hi]%list_elem_of_lookup_1)%list_elem_of_fmap. cbn [written fst]. rewrite (Hs' i rec Hi).
      rewrite (proj2 (Z.leb_gt _ through)) by lia. apply andb_false_r. }
    induction (map written records) as [|x l IH]; [done |]. cbn [List.filter]. rewrite Hno by left.
    apply IH. intros y Hy. apply Hno. by right. }
  destruct (Z.leb_spec (r_sequence record) through) as [Ht|Ht]; cycle 1.
  { rewrite andb_false_r, Hend by lia. by replace (Z.to_nat (through - Z.max b after)) with 0%nat by lia. }
  rewrite (IH (b + 1)) by (done || lia). destruct (Z.ltb_spec after (r_sequence record)) as [Ha|Ha]; cbn [andb].
  - replace (Z.to_nat (after - b)) with 0%nat by lia. replace (Z.to_nat (after - (b + 1))) with 0%nat by lia.
    by replace (Z.to_nat (through - Z.max b after)) with (S (Z.to_nat (through - Z.max (b + 1) after))) by lia.
  - replace (Z.to_nat (after - b)) with (S (Z.to_nat (after - (b + 1)))) by lia.
    cbn [drop]. by replace (Z.max b after) with (Z.max (b + 1) after) by lia.
Qed.

(** The records after one place up to another. *)
Definition between (a b : nat) (records : list Record_) : list Record_ := take (b - a) (drop a records).

Lemma between_take a b records : (a ≤ b)%nat → take a records ++ between a b records = take b records.
Proof. intros Hab. unfold between. rewrite take_take_drop. f_equal. lia. Qed.

(** A journal on disk that holds the first [n] of [records]. *)
Definition journal_file (engine_id : string) (records : list Record_) (n : nat) (store : Store) : Prop :=
  s_records store = map written (take n records) ∧
  (∃ balances, s_genesis store = Some (let payload := genesis_json {| gn_version := 4; gn_engine_id := engine_id; gn_balances := balances |} in
                                       (payload, digest payload))).

(** The end of the journal in a file. *)
Lemma last_sequence_file engine_id records n store :
  map r_sequence records = seqZ 1 (Z.of_nat (length records)) → Z.of_nat (length records) ≤ I64_MAX →
  journal_file engine_id records n store → (n ≤ length records)%nat → last_sequence store = Ok (Z.of_nat n).
Proof.
  intros Hs Hmax [Hrows _] Hn. assert (Hlen : length (take n records) = n) by (rewrite length_take; lia).
  unfold last_sequence. rewrite Hrows, (max_key _ (Z.of_nat n)).
  - unfold u64_of_i64. by rewrite (proj2 (Z.leb_le _ _)) by lia.
  - rewrite map_map. change (fun x : Record_ => (written x).1) with r_sequence. rewrite <- firstn_map, Hs.
    replace (Z.of_nat (length records)) with (Z.of_nat n + Z.of_nat (length records - n)) by lia.
    rewrite seqZ_app by lia. apply take_app_length'. rewrite length_seqZ. lia.
  - by rewrite length_map, Hlen.
Qed.

Lemma length_between a b records : (b ≤ length records)%nat → length (between a b records) = (b - a)%nat.
Proof. intros Hb. unfold between. rewrite length_take, length_drop. lia. Qed.

Lemma between_lookup a b records i record :
  between a b records !! i = Some record → records !! (a + i)%nat = Some record.
Proof. intros [Hi _]%lookup_take_Some. by rewrite lookup_drop in Hi. Qed.

(** One page of a journal. *)
Lemma audit_read_run engine_id records n store a t limit expected :
  map r_sequence records = seqZ 1 (Z.of_nat (length records)) → Z.of_nat (length records) ≤ I64_MAX →
  uuid_parses engine_id = true → expected = None ∨ expected = Some engine_id →
  journal_file engine_id records n store → (n ≤ length records)%nat → (a ≤ t ≤ n)%nat → 1 ≤ limit →
  let b := Nat.min t (a + Z.to_nat limit) in
  ∀ query, pq_after query = Z.of_nat a → default (Z.of_nat n) (pq_through query) = Z.of_nat t →
  pq_engine_id query = expected → default 50 (pq_limit query) = limit →
  (∃ error, audit_read (Some (4, store)) query = Err error ∧
     (encodable engine_id records → PAGE_BYTES < size (payloads engine_id (between a b records)))) ∨
  audit_read (Some (4, store)) query =
    Ok (mk_page engine_id (Z.of_nat t) (Z.of_nat b) (payloads engine_id (between a b records))).
Proof.
  intros Hs Hmax Hid Hexp [Hrows [balances Hgen]] Hn Hat Hlim b query Hqa Hqt Hqi Hql.
  pose proof (last_sequence_file _ _ _ _ Hs Hmax (conj Hrows (ex_intro _ balances Hgen)) Hn) as Hlast.
  unfold audit_read. cbn [ok_or mbind result_bind fst snd Z.eqb Pos.eqb ensure]. rewrite Hgen.
    cbn [ok_or mbind result_bind].
  rewrite decode_genesis. cbn [mbind result_bind gn_version gn_engine_id Z.eqb Pos.eqb andb]. rewrite Hid.
  assert (Hsame : (match pq_engine_id query with Some id => (id =? engine_id)%string | None => true end) = true)
    by (rewrite Hqi; destruct Hexp as [-> | ->]; [done | apply String.eqb_refl]).
  rewrite Hsame, Hlast. cbn [ensure mbind result_bind]. rewrite Hqt, Hqa.
  rewrite (proj2 (Z.leb_le (Z.of_nat a) _)), (proj2 (Z.leb_le (Z.of_nat t) _)) by lia.
    cbn [andb ensure mbind result_bind].
  unfold i64_of_u64. rewrite (proj2 (Z.leb_le (Z.of_nat a) _)), (proj2 (Z.leb_le (Z.of_nat t) _)) by lia.
    cbn [mbind result_bind].
  unfold select_rows. rewrite Hrows, Hql.
  rewrite (select_written _ 0); [| | lia].
  2: { intros i record Hi. apply lookup_take_Some in Hi as [Hi _]. rewrite (sequence_at _ _ _ Hs Hi). lia. }
  assert (Hpart : take (Z.to_nat limit) (take (Z.to_nat (Z.of_nat t - Z.max 0 (Z.of_nat a)))
    (drop (Z.to_nat (Z.of_nat a - 0)) (take n records))) =
    between a b records).
  { unfold between. rewrite skipn_firstn_comm, !take_take. f_equal; [lia | f_equal; lia]. }
  rewrite firstn_map, Hpart.
  assert (Hblen : length (between a b records) = (b - a)%nat) by (apply length_between; lia).
  destruct (audit_rows_run (between a b records) (mk_reading 0 (mk_page engine_id (Z.of_nat t) (Z.of_nat a) [])))
    as [(error & r' & -> & Hbig) | ->].
  - intros i record Hi%between_lookup. rewrite (sequence_at _ _ _ Hs Hi). cbn. lia.
  - cbn. lia.
  - done.
  - left. exists error. split; [done |]. intros Henc. cbn [rd_bytes rd_page ap_engine_id Z.add] in Hbig. apply Hbig.
    intros record event Hrec. apply Henc. apply list_elem_of_lookup_1 in Hrec as [i Hi%between_lookup].
    by eapply list_elem_of_lookup_2.
  - right. cbn [mbind result_bind]. unfold set_next_after, add_events.
    cbn [rd_bytes rd_page ap_engine_id ap_through ap_next_after ap_events app]. rewrite Hblen.
    replace (Z.of_nat a + Z.of_nat (b - a)) with (Z.of_nat b) by lia.
    assert (Htail : (Z.of_nat b =? Z.of_nat t) || (Z.of_nat a <? Z.of_nat b) = true).
    { destruct (Z.ltb_spec (Z.of_nat a) (Z.of_nat b)); [apply orb_true_r |]. rewrite orb_false_r. lia. }
    by rewrite Htail.
Qed.
End audit_facts.

(** ** Properties *)

Section audit_properties.
Context {E : Externals} {L : DecimalLaws ext_decimal} {V : EventFormat E} {F : JournalFormat E} {FL : JournalFormatLaws F}.

(** An auditor asks for page after page up to a fixed end; each request finds another state of the file. *)
Fixpoint audit_follow (engine_id : string) (through limit after : Z) (files : list Store) : result (Z * list string) :=
  match files with
  | [] => Ok (after, [])
  | store :: files =>
      p ← audit_read (Some (4, store)) {| pq_after := after; pq_through := Some through;
                                          pq_engine_id := Some engine_id; pq_limit := Some limit |};
      rest ← audit_follow engine_id through limit (ap_next_after p) files;
      Ok (rest.1, ap_events p ++ rest.2)
  end.

(** C25. An audit misses nothing and repeats nothing. An auditor reads page after page up to a fixed
    sequence while the journal keeps growing: the pages together are exactly the texts of the messages
    of the topic for the records in between, in order, and after enough pages everything has been read.
    The only thing that stops it is a page that is over the size limit. *)
Theorem audit_session_complete engine_id records files a t limit :
  map r_sequence records = seqZ 1 (Z.of_nat (length records)) → Z.of_nat (length records) ≤ I64_MAX →
  uuid_parses engine_id = true → 1 ≤ limit → (a ≤ t)%nat →
  Forall (fun store => ∃ n, (t ≤ n ≤ length records)%nat ∧ journal_file engine_id records n store) files →
  let b := Nat.min t (a + length files * Z.to_nat limit) in
  let pages := audit_follow engine_id (Z.of_nat t) limit (Z.of_nat a) files in
  pages = Ok (Z.of_nat b, map snd (messages engine_id (between a b records))) ∨
  (∃ error, pages = Err error) ∧
  (encodable engine_id records → ∃ c d, (a ≤ c ≤ d)%nat ∧ (d ≤ t)%nat ∧ Z.of_nat d ≤ Z.of_nat c + limit ∧
     PAGE_BYTES < lsum slen (map snd (messages engine_id (between c d records)))).
Proof.
  intros Hs Hmax Hid Hlim. revert a. induction files as [|store files IH]; intros a Hat Hall b pages.
  { left. unfold pages, b. cbn [audit_follow length]. replace (a `min` t)%nat with a by lia.
    replace (Nat.min t (a + 0 * Z.to_nat limit)) with a by lia. unfold between. by rewrite Nat.sub_diag, take_0. }
  apply Forall_cons in Hall as [(n & Hn & Hfile) Hall].
  set (query := {| pq_after := Z.of_nat a; pq_through := Some (Z.of_nat t); pq_engine_id := Some engine_id;
    pq_limit := Some limit |}).
  set (c := Nat.min t (a + Z.to_nat limit)).
  assert (Hac : (a ≤ c ≤ t)%nat) by (unfold c; lia).
  unfold pages. cbn [audit_follow]. fold query.
  destruct (audit_read_run engine_id records n store a t limit (Some engine_id) Hs Hmax Hid (or_intror eq_refl) Hfile
              ltac:(lia) ltac:(lia) Hlim query eq_refl eq_refl eq_refl eq_refl) as [(error & -> & Hbig) | ->].
  { right. split; [by exists error |]. intros Henc. exists a, c. split_and!; try lia. by apply Hbig. }
  cbn [mbind result_bind ap_next_after ap_events]. fold c.
  assert (Hb : b = Nat.min t (c + length files * Z.to_nat limit)) by (unfold b, c; cbn [length]; lia).
  destruct (IH c ltac:(lia) Hall) as [-> | [[error ->] Hbig]].
  - left. rewrite <- Hb. cbn [mbind result_bind fst snd]. f_equal. f_equal. unfold payloads.
    rewrite <- map_app, <- messages_app.
    assert (Hcb : (c ≤ b ≤ t)%nat) by (rewrite Hb; lia).
    assert (Hbetween : between a c records ++ between c b records = between a b records).
    { unfold between. replace (b - a)%nat with ((c - a) + (b - c))%nat by lia. rewrite <- take_take_drop, drop_drop.
      by replace (a + (c - a))%nat with c by lia. }
    by rewrite Hbetween.
  - right. split; [by exists error |]. intros Henc. destruct (Hbig Henc) as (c' & d & H1 & H2 & H3 & H4).
    exists c', d. split_and!; try done; lia.
Qed.
End audit_properties.

(** ** The properties at concrete inputs *)

Section audit_examples.
#[local] Existing Instance ref_externals.
#[local] Existing Instance ref_decimal_laws.
#[local] Existing Instance ref_format.
#[local] Existing Instance ref_format_laws.
#[local] Existing Instance ref_events.

(** The example journal when eight records were on disk, and when all were. *)
Definition ex_file (n : nat) : Store :=
  let payload := genesis_json {| gn_version := 4; gn_engine_id := "engine"; gn_balances := [] |} in
  mk_store (Some (payload, digest payload)) (map written (take n ex_records)) 0.
Definition ex_files : list Store := [ex_file 8; ex_file 11; ex_file 11].

Lemma ex_files_hold :
  Forall (fun store => ∃ n, (8 ≤ n ≤ length ex_records)%nat ∧ journal_file "engine" ex_records n store) ex_files.
Proof.
  assert (Hlen : length ex_records = 11%nat) by (vm_compute; reflexivity).
  assert (Hf : ∀ n, (8 ≤ n ≤ 11)%nat → ∃ k, (8 ≤ k ≤ length ex_records)%nat ∧
    journal_file "engine" ex_records k (ex_file n)).
  { intros n Hn. exists n. rewrite Hlen. split; [exact Hn |]. split; [reflexivity |]. by exists []. }
  repeat constructor; apply Hf; lia.
Qed.

Lemma audit_session_complete_witness :
  let pages := audit_follow "engine" 8 3 0 ex_files in
  pages = Ok (8, map snd (messages "engine" (between 0 8 ex_records))) ∨
  (∃ error, pages = Err error) ∧
  (encodable "engine" ex_records → ∃ c d, (0 ≤ c ≤ d)%nat ∧ (d ≤ 8)%nat ∧ Z.of_nat d ≤ Z.of_nat c + 3 ∧
     PAGE_BYTES < lsum slen (map snd (messages "engine" (between c d ex_records)))).
Proof.
  exact (audit_session_complete "engine" ex_records ex_files 0 8 3
           (jh_sequences _ _ _ _ ex_journal_holds) (jh_range _ _ _ _ ex_journal_holds) eq_refl ltac:(lia)
             (Nat.le_0_l 8) ex_files_hold).
Defined.

(** Three pages of three records read the three messages of the first eight records. *)
Example ex_session : audit_follow "engine" 8 3 0 ex_files = Ok (8, ["engine:1:0"; "engine:6:0"; "engine:8:0"]%string).
Proof. vm_compute. reflexivity. Qed.
End audit_examples.
