(* ===== verification/Boundary.v ===== *)
(** * The financial boundary ([shared/database/exact_decimal.rs], [handlers/financial_input.rs],
      [handlers/deposit_handler.rs], [handlers/withdrawal_handler.rs])

    Amounts enter the engine as text: from the columns of the platform's database and from the bodies
    of the internal requests. They are read without rounding or not at all, and what the boundary lets
    through has the form that the engine asks for. *)

From stdpp Require Import base tactics gmap list strings.
From Stdlib Require Import ZArith Lia Ascii String.
From S2P Require Import Prelude Text Decimals Amount RefDecimal Types BalanceCache OrderBook Matcher Submission State Deposit Withdrawal.

(** [str::split(c)] for a character. *)
Fixpoint split_char (c : ascii) (s : string) : list string :=
  match s with
  | EmptyString => [EmptyString]
  | String a s' =>
      if Ascii.eqb a c then EmptyString :: split_char c s'
      else match split_char c s' with
           | [] => [String a EmptyString]
           | part :: parts => String a part :: parts
           end
  end.

Section boundary.
Context {E : Externals}.

(** [exact_decimal::parse], and [deserialize_exact_optional_decimal] on a string that is there. *)
Definition exact_parse (value : string) : option Decimal :=
  let normalized := if contains_char "." value then trim_end_matches "." (trim_end_matches "0" value) else value in
  from_str_exact normalized.

(** The same for a column, with what the decimal type says about the text after its name. *)
Definition parse_column (name value : string) : result Decimal :=
  ok_or (exact_parse value) ("error occurred while decoding column " +:+ name).

Definition upper_or_digit (c : ascii) : bool := is_upper c || is_digit c.

(** [financial_input::validated]. *)
Definition validated (user_id : Z) (asset text : string) : option Decimal :=
  if (user_id =? 0) || (I64_MAX <? user_id) || is_empty asset || (128 <? slen asset) ||
     negb (all_chars upper_or_digit asset) || is_empty text || (64 <? slen text)
  then None else
  match split_char "." text with
  | [] => None
  | integral :: rest =>
      let fractional := head rest in
      if is_empty integral || negb (all_chars is_digit integral) || match rest with _ :: _ :: _ => true | _ => false end ||
         match fractional with Some s => is_empty s || negb (all_chars is_digit s) | None => false end
      then None else
      value ← from_str_exact text;
      if dec_leb value dec_zero || negb (is_ok (units value)) then None else Some value
  end.

(** The bodies of the requests, and what becomes of them. *)
Record CreditRequest := {
  cq_deposit_id : Uuid;
  cq_user_id : Z;
  cq_asset : string;
  cq_amount : string;
}.

Definition credit_validated (request : CreditRequest) : option DepositCredit :=
  if bool_decide (cq_deposit_id request = uuid_nil) then None else
  value ← validated (cq_user_id request) (cq_asset request) (cq_amount request);
  Some {| dc_deposit_id := cq_deposit_id request; dc_user_id := cq_user_id request;
          dc_asset := cq_asset request; dc_amount := value |}.

Record WithdrawalRequest := {
  wq_withdrawal_id : Uuid;
  wq_user_id : Z;
  wq_asset : string;
  wq_amount : string;
  wq_action : WithdrawalAction;
}.

Definition withdrawal_validated (request : WithdrawalRequest) : option WithdrawalCommand :=
  if bool_decide (wq_withdrawal_id request = uuid_nil) then None else
  amount ← validated (wq_user_id request) (wq_asset request) (wq_amount request);
  Some {| wc_action := wq_action request;
          wc_funds := {| wf_withdrawal_id := wq_withdrawal_id request; wf_user_id := wq_user_id request;
                         wf_asset := wq_asset request; wf_amount := amount |} |}.
End boundary.

(** ** Splitting and trimming *)

Lemma split_char_digits i rest :
  all_chars is_digit i = true →
  split_char "." (i +:+ rest) = match split_char "." rest with
                                | [] => [i]
                                | part :: parts => (i +:+ part) :: parts
                                end.
Proof.
  induction i as [|c i IH]; intros Hi.
  { rewrite !app_empty_l. destruct rest as [|a rest]; [done |]. cbn. destruct (Ascii.eqb a "."); [done |].
    by destruct (split_char "." rest). }
  cbn in Hi. inv_ok. rewrite app_cons_str. cbn [split_char].
  destruct (Ascii.eqb c ".") eqn:Ec; [apply Ascii.eqb_eq in Ec as ->; done |].
  rewrite IH by done. by destruct (split_char "." rest).
Qed.

(** The parts of a text put it together again. *)
Lemma split_char_join s :
  match split_char "." s with
  | [] => False
  | [i] => s = i
  | [i; f] => s = i +:+ String "." f
  | _ => True
  end.
Proof.
  induction s as [|a s IH]; [done |]. cbn [split_char]. destruct (Ascii.eqb a ".") eqn:Ea.
  - apply Ascii.eqb_eq in Ea as ->. destruct (split_char "." s) as [|i [|f l]]; [done | by rewrite IH | done].
  - destruct (split_char "." s) as [|i [|f [|g l]]]; [done | by rewrite IH | by rewrite IH, app_cons_str | done].
Qed.

(** A text of upper-case letters and digits has no white space to trim. *)
Lemma upper_or_digit_spaces spaces s :
  forallb (fun p => match p with String c _ => negb (upper_or_digit c) | EmptyString => false end) spaces = true →
  all_chars upper_or_digit s = true → strip_space spaces s = None.
Proof.
  intros Hsp Hs. induction spaces as [|p spaces IH]; [done |]. cbn in Hsp. inv_ok.
  match goal with H : forallb _ spaces = true |- _ => specialize (IH H) end. cbn [strip_space foldr].
  fold (strip_space spaces s). destruct p as [|c p]; [done |]. cbn [strip_prefix]. destruct s as [|a s]; [done |].
  cbn [all_chars] in Hs. inv_ok. destruct (Ascii.eqb c a) eqn:Ec; [| done]. apply Ascii.eqb_eq in Ec as ->.
  congruence.
Qed.

Lemma all_chars_rev p s : all_chars p (rev_string s) = all_chars p s.
Proof.
  induction s as [|c s IH]; [done |]. cbn [rev_string all_chars]. rewrite all_chars_app, IH. cbn.
  by rewrite andb_true_r, andb_comm.
Qed.

Lemma rev_string_app s1 s2 : rev_string (s1 +:+ s2) = rev_string s2 +:+ rev_string s1.
Proof.
  induction s1 as [|c s1 IH]; [by rewrite app_empty_l, app_empty_r |].
  rewrite app_cons_str. cbn [rev_string]. by rewrite IH, app_assoc_str.
Qed.

Lemma rev_string_involutive s : rev_string (rev_string s) = s.
Proof. induction s as [|c s IH]; [done |]. cbn [rev_string]. rewrite rev_string_app, IH. done. Qed.

Lemma trim_start_go_none fuel spaces s : strip_space spaces s = None → trim_start_go fuel spaces s = s.
Proof. intros H. destruct fuel; [done |]. cbn. by rewrite H. Qed.

Lemma trim_upper_or_digit s : all_chars upper_or_digit s = true → trim s = s.
Proof.
  intros Hs. unfold trim, trim_start. rewrite trim_start_go_none by (by apply upper_or_digit_spaces; [vm_compute |]).
  unfold trim_end. rewrite trim_start_go_none; [apply rev_string_involutive |].
  apply upper_or_digit_spaces; [by vm_compute | by rewrite all_chars_rev].
Qed.

Section boundary_facts.
Context {E : Externals} {L : DecimalLaws ext_decimal}.

(** What a text says: digits, with or without a point and digits after it, denote a coefficient and
    a number of places. *)
Inductive says : string → Z → Z → Prop :=
  | says_int i : i ≠ ""%string → all_chars is_digit i = true → says i (str_value i) 0
  | says_frac i f : i ≠ ""%string → f ≠ ""%string → all_chars is_digit i = true → all_chars is_digit f = true →
      says (i +:+ String "." f) (str_value (i +:+ f)) (slen f).

Lemma says_nonneg text m places : says text m places → 0 ≤ m ∧ 0 ≤ places ∧ is_empty text = false.
Proof.
  destruct 1 as [i Hi0 Hi | i f Hi0 Hf0 Hi Hf].
  - split_and!; [by apply str_value_nonneg | done | by destruct i].
  - split_and!; [apply str_value_nonneg; by rewrite all_chars_app, Hi | apply slen_nonneg | by destruct i].
Qed.

Lemma says_read text m places d :
  says text m places → from_str_exact text = Some d → mantissa d = m ∧ scale d = places.
Proof. intros [i Hi0 Hi | i f Hi0 Hf0 Hi Hf] Hd; [by apply exact_int_sound | by apply exact_frac_sound]. Qed.

Lemma says_total text m places : says text m places → m < 2 ^ 96 → places ≤ 28 → is_Some (from_str_exact text).
Proof. intros [i Hi0 Hi | i f Hi0 Hf0 Hi Hf] Hm Hp; [by apply exact_int_total | by apply exact_frac_total]. Qed.

(** The account part of a request: an identifier that fits the platform's column, an asset code. *)
Definition account_admitted (user_id : Z) (asset : string) : Prop :=
  0 < user_id ≤ I64_MAX ∧ asset ≠ ""%string ∧ slen asset ≤ 128 ∧ all_chars upper_or_digit asset = true.

Lemma validated_sound user_id asset text d :
  0 ≤ user_id → validated user_id asset text = Some d →
  account_admitted user_id asset ∧ slen text ≤ 64 ∧
  ∃ m places n, says text m places ∧ places ≤ 28 ∧ m < 2 ^ 96 ∧ m * 10 ^ (28 - places) = n * 10 ^ 19 ∧ 0 < n ∧ in_units d n.
Proof.
  intros Hu0. unfold validated.
  destruct ((user_id =? 0) || (I64_MAX <? user_id) || is_empty asset || (128 <? slen asset) ||
     negb (all_chars upper_or_digit asset) || is_empty text || (64 <? slen text)) eqn:Hfirst; [done |].
  rewrite !orb_false_iff in Hfirst. destruct Hfirst as ((((((Hu & Hi64) & He) & H128) & Hup) & Ht) & H64).
  pose proof (split_char_join text) as Hj. destruct (split_char "." text) as [|i rest]; [done |].
  match goal with |- (if ?c then _ else _) = _ → _ => destruct c eqn:Hparts end; [done |].
  rewrite !orb_false_iff in Hparts. destruct Hparts as (((Hie & Hid) & Htwo) & Hfr).
  intros Hd. destruct (from_str_exact text) as [v|] eqn:Hv; [| done]. cbn in Hd.
  destruct (dec_leb v dec_zero || negb (is_ok (units v))) eqn:Hpos; [done |]. injection Hd as ->.
  rewrite orb_false_iff in Hpos. destruct Hpos as [Hpos Hun].
  apply negb_false_iff in Hun. destruct (units d) as [n| |] eqn:Hn; try done. apply units_ok in Hn.
  rewrite dec_leb_raw, zero_raw, Z.leb_gt in Hpos.
  apply negb_false_iff in Hid, Hup.
  split; [split_and!; [lia | lia | by destruct asset | lia | done] |]. split; [lia |].
  assert (Hsays : ∃ m places, says text m places).
  { destruct rest as [|f [|g l]]; [| | done].
    - subst text. eexists _, _. constructor; [by destruct i | done].
    - cbn in Hfr. apply orb_false_iff in Hfr as [Hfe Hfd]. apply negb_false_iff in Hfd. subst text.
      eexists _, _. constructor; [by destruct i | by destruct f | done..]. }
  destruct Hsays as (m & places & Hs). destruct (says_read _ _ _ _ Hs Hv) as [<- <-].
  exists (mantissa d), (scale d), n. pose proof (mantissa_range d). pose proof (scale_range d).
  destruct Hn as [Hraw Hrange]. split_and!; [done | lia | lia | exact Hraw | | by split].
  unfold raw in Hraw. unfold raw in Hpos. nia.
Qed.

Lemma says_split text m places :
  says text m places →
  ∃ i, all_chars is_digit i = true ∧ is_empty i = false ∧
  (split_char "." text = [i] ∨ ∃ f, split_char "." text = [i; f] ∧ is_empty f = false ∧ all_chars is_digit f = true).
Proof.
  assert (Hdig : ∀ s, all_chars is_digit s = true → split_char "." s = [s]).
  { intros s Hs. rewrite <- (app_empty_r s) at 1. rewrite split_char_digits by done. cbn. by rewrite app_empty_r. }
  destruct 1 as [i Hi0 Hi | i f Hi0 Hf0 Hi Hf]; exists i; (split; [done |]; split; [by destruct i |]).
  - left. by apply Hdig.
  - right. exists f. rewrite split_char_digits by done. cbn [split_char]. rewrite Ascii.eqb_refl, (Hdig f) by done.
    rewrite app_empty_r. by destruct f.
Qed.

Lemma validated_complete user_id asset text m places n :
  account_admitted user_id asset → slen text ≤ 64 → says text m places → places ≤ 28 → m < 2 ^ 96 →
  m * 10 ^ (28 - places) = n * 10 ^ 19 → 0 < n ≤ MAX_UNITS →
  ∃ d, validated user_id asset text = Some d ∧ in_units d n.
Proof.
  intros (Hu & Ha0 & Ha & Hup) Ht Hs Hp Hm Hn Hrange. destruct (says_total _ _ _ Hs Hm Hp) as [d Hd].
  destruct (says_read _ _ _ _ Hs Hd) as [Hmd Hsd].
  assert (Hin : in_units d n) by (split; [unfold raw; rewrite Hmd, Hsd; exact Hn | lia]).
  exists d. split; [| done]. unfold validated. destruct (says_nonneg _ _ _ Hs) as (_ & _ & Hte).
  assert (Hae : is_empty asset = false) by by destruct asset.
  rewrite (proj2 (Z.eqb_neq user_id 0)), (proj2 (Z.ltb_ge I64_MAX _)), (proj2 (Z.ltb_ge 128 _)),
    (proj2 (Z.ltb_ge 64 _)) by lia.
  rewrite Hae, Hup, Hte. cbn [orb negb].
  destruct (says_split _ _ _ Hs) as (i & Hi & Hie & [-> | (f & -> & Hfe & Hfd)]); cbn [head]; rewrite Hie, Hi;
    cbn [orb negb]; rewrite ?Hfe, ?Hfd; cbn [orb negb]; rewrite Hd; cbn [mbind option_bind];
    rewrite dec_leb_raw, zero_raw, (proj1 Hin), (proj2 (Z.leb_gt _ 0)) by lia;
    by rewrite (proj2 (units_ok _ _) Hin).
Qed.
End boundary_facts.

(** ** What the database shows *)

(** The text of a [NUMERIC(30,9)] value of [n] units: all nine places, trailing zeros included. *)
Definition numeric_text (n : Z) : string := show_int (Z.quot n FACTOR) +:+ String "." (show_pad9 (Z.rem n FACTOR)).

Section database_text.
Context {E : Externals} {L : DecimalLaws ext_decimal}.

Lemma contains_point i f : contains_char "." (i +:+ String "." f) = true.
Proof. induction i as [|c i IH]; [done |]. rewrite app_cons_str. cbn [contains_char]. rewrite IH. apply orb_true_r. Qed.

(** Reading it is what [amount::decimal] does with its own text. *)
Lemma exact_parse_numeric n : exact_parse (numeric_text n) = match decimal n with Ok d => Some d | _ => None end.
Proof. unfold exact_parse, numeric_text, decimal. rewrite contains_point. by destruct (from_str_exact _). Qed.

Lemma numeric_sound n d : 0 ≤ n ≤ MAX_UNITS → exact_parse (numeric_text n) = Some d → in_units d n.
Proof.
  intros Hn. rewrite exact_parse_numeric. destruct (decimal n) as [x| |] eqn:Hd; [| done..]. intros [= <-].
  by apply decimal_sound.
Qed.

Lemma numeric_total n : 0 ≤ n ≤ MAX_UNITS → representable n → ∃ d, exact_parse (numeric_text n) = Some d.
Proof. intros Hn Hr. destruct (decimal_total n Hn Hr) as [d Hd]. exists d. by rewrite exact_parse_numeric, Hd. Qed.
End database_text.

(** ** Properties *)

Section boundary_properties.
Context {E : Externals} {L : DecimalLaws ext_decimal}.

(** C23. The boundary lets an amount through exactly when it is written as a plain positive number of at
    most nine significant places: digits, with or without a point and digits after it, without sign or
    exponent, within the range of the column and of the decimal type, for a real account. The decimal
    it passes on is exactly the number that was written. *)
Theorem boundary_exact user_id asset text n :
  0 ≤ user_id →
  (∃ d, validated user_id asset text = Some d ∧ in_units d n) ↔
  account_admitted user_id asset ∧ slen text ≤ 64 ∧ 0 < n ≤ MAX_UNITS ∧
  ∃ m places, says text m places ∧ places ≤ 28 ∧ m < 2 ^ 96 ∧ m * 10 ^ (28 - places) = n * 10 ^ 19.
Proof.
  intros Hu. split.
  - intros (d & Hd & Hin). destruct (validated_sound _ _ _ _ Hu Hd)
    as (Ha & Ht & m & places & n' & Hs & Hp & Hm & Hn & Hpos & Hin').
    rewrite (in_units_inj _ _ _ Hin Hin') in *. split_and!; [done | done | done | apply (in_units_range _ _ Hin') |].
    by exists m, places.
  - intros (Ha & Ht & Hn & m & places & Hs & Hp & Hm & Heq). by eapply validated_complete.
Qed.

(** Nothing that the boundary admits is refused by the engine for its form: the deposit or
    withdrawal made of an admitted request passes all the format checks of its command. *)
Theorem admitted_requests_wellformed :
  (∀ request credit, 0 ≤ cq_user_id request → credit_validated request = Some credit → deposit_format credit = Ok tt) ∧
  (∀ request command, 0 ≤ wq_user_id request → withdrawal_validated request = Some command →
     withdrawal_format (wc_funds command) = Ok tt).
Proof.
  assert (Hamount : ∀ d n, 0 < n → in_units d n → dec_ltb dec_zero d = true ∧ units d = Ok n).
  { intros d n Hn Hin. split; [| by apply units_ok]. rewrite dec_ltb_raw, zero_raw, (proj1 Hin). apply Z.ltb_lt. lia. }
  split.
  - intros [id user asset amount] credit Hu. unfold credit_validated. cbn in *. case_bool_decide as Hid; [done |].
    destruct (validated user asset amount) as [d|] eqn:Hd; [| done]. cbn. intros [= <-].
    destruct (validated_sound _ _ _ _ Hu Hd) as ((Hur & Ha0 & Ha & Hup) & _ & _ & _ & n & _ & _ & _ & _ & Hn & Hin).
    destruct (Hamount d n Hn Hin) as [H1 H2]. unfold deposit_format. cbn [dc_deposit_id dc_user_id dc_asset dc_amount].
    rewrite bool_decide_true by done. rewrite (proj2 (Z.ltb_lt 0 user)), (proj2 (Z.leb_le _ 128)) by lia.
    rewrite trim_upper_or_digit, String.eqb_refl, H1, H2 by done. by destruct asset.
  - intros [id user asset amount action] command Hu. unfold withdrawal_validated. cbn in *.
    case_bool_decide as Hid; [done |].
    destruct (validated user asset amount) as [d|] eqn:Hd; [| done]. cbn. intros [= <-].
    destruct (validated_sound _ _ _ _ Hu Hd) as ((Hur & Ha0 & Ha & Hup) & _ & _ & _ & n & _ & _ & _ & _ & Hn & Hin).
    destruct (Hamount d n Hn Hin) as [H1 H2]. unfold withdrawal_format. cbn.
    rewrite bool_decide_true by done.
      rewrite (proj2 (Z.ltb_lt 0 user)), (proj2 (Z.leb_le user _)), (proj2 (Z.leb_le _ 128)) by lia.
    change (fun c => is_upper c || is_digit c) with upper_or_digit. rewrite Hup, H1, H2. by destruct asset.
Qed.

(** C24. The amounts in the database are read exactly: the text of a [NUMERIC(30,9)] value is read as
    that value, or not at all, and it is read whenever the decimal type can hold it. *)
Theorem database_amounts_exact n :
  0 ≤ n ≤ MAX_UNITS →
  (∀ d, exact_parse (numeric_text n) = Some d → in_units d n) ∧
  (representable n ↔ is_Some (exact_parse (numeric_text n))).
Proof.
  intros Hn. split; [by intros d; apply numeric_sound |]. split.
  - intros Hr. destruct (numeric_total n Hn Hr) as [d ->]. done.
  - intros [d Hd]. eapply in_units_representable. by eapply numeric_sound.
Qed.
End boundary_properties.

(** ** The properties at concrete inputs *)

Section boundary_examples.
#[local] Existing Instance ref_externals.
#[local] Existing Instance ref_decimal_laws.

Definition ex_admits (user : Z) (asset text : string) : bool :=
  match validated user asset text with Some _ => true | None => false end.

Example ex_admitted :
  [ex_admits 20 "BTC" "0.150"; ex_admits 20 "BTC" "1e3"; ex_admits 20 "BTC" "-1"; ex_admits 20 "BTC" "0.0000000001";
   ex_admits 20 "btc" "1"; ex_admits 0 "BTC" "1"; ex_admits 20 "BTC" "1."; ex_admits 20 "BTC" "0.0"] =
  [true; false; false; false; false; false; false; false].
Proof. vm_compute. reflexivity. Qed.

Lemma boundary_exact_witness :
  (∃ d, validated 20 "BTC" "0.150" = Some d ∧ in_units d 150000000) ↔
  account_admitted 20 "BTC" ∧ slen "0.150" ≤ 64 ∧ 0 < 150000000 ≤ MAX_UNITS ∧
  ∃ m places, says "0.150" m places ∧ places ≤ 28 ∧ m < 2 ^ 96 ∧ m * 10 ^ (28 - places) = 150000000 * 10 ^ 19.
Proof. exact (boundary_exact 20 "BTC" "0.150" 150000000 ltac:(lia)). Defined.

(** A request to credit, and the deposit made of it. *)
Definition ex_credit_request : CreditRequest := {| cq_deposit_id := 7; cq_user_id := 20; cq_asset := "BTC"; cq_amount := "0.150" |}.
Definition ex_credit_made : DepositCredit :=
  default {| dc_deposit_id := 0; dc_user_id := 0; dc_asset := ""; dc_amount := dec_zero |} (credit_validated ex_credit_request).
Lemma ex_credit_admitted : credit_validated ex_credit_request = Some ex_credit_made.
Proof.
  assert (H : ∀ (A : Type) (a : A) (x : option A), match x with Some _ => true | None => false end = true →
    x = Some (default a x)) by by intros A a [].
  apply H. vm_compute. reflexivity.
Qed.

Lemma admitted_requests_wellformed_witness : deposit_format ex_credit_made = Ok tt.
Proof. exact (proj1 admitted_requests_wellformed ex_credit_request ex_credit_made (Zle_0_pos 20)
  ex_credit_admitted). Defined.

Lemma database_amounts_exact_witness :
  (∀ d, exact_parse (numeric_text 1500000000) = Some d → in_units d 1500000000) ∧
  (representable 1500000000 ↔ is_Some (exact_parse (numeric_text 1500000000))).
Proof. exact (database_amounts_exact 1500000000 ltac:(unfold MAX_UNITS; lia)). Defined.

Example ex_numeric_text : numeric_text 1500000000 = "1.500000000"%string.
Proof. vm_compute. reflexivity. Qed.
End boundary_examples.
