(* ===== verification/Startup.v ===== *)
(** * The first start ([runtime/startup.rs], [Ownership] and [Store::open] of
      [runtime/journal/store.rs], the data path of [runtime/engine.rs])

    An engine that has never run takes its starting balances from the platform's database, and only
    when nothing there says that an engine has run before. From then on the journal decides. *)

From stdpp Require Import base tactics gmap list strings.
From Stdlib Require Import ZArith Lia.
From S2P Require Import Prelude Text Decimals Amount RefDecimal Types BalanceCache OrderBook Matcher Submission State Deposit Withdrawal Cancel Journal History EngineLoop Store Boundary.

Section startup.
Context {E : Externals} {F : JournalFormat E}.

(** ** What the inspection reads *)

(** A row of [user_balances]: a column that is NULL cannot be read. *)
Record BalanceRow := {
  br_user_id : option Z;           (* an i64 *)
  br_mint_address : option string;
  br_available : option string;    (* [available::text] *)
  br_locked : option string;       (* [locked::text] *)
}.

(** The snapshot of the database: the statements that open and close it, and each table as its query
    returns it, or the failure of the query. *)
Record Snapshot := {
  sn_begin : result unit;
  sn_read_only : result unit;                              (* [SET TRANSACTION ISOLATION LEVEL ..] *)
  sn_order_receipts : result (list Z);                     (* ascending *)
  sn_event_receipts : result (list string);
  sn_deposit_attempts : result (list string);
  sn_withdrawals : result (list string);
  sn_withdrawal_attempts : result (list string);
  sn_orders : result (list (Z * option string));           (* id and status, by id *)
  sn_balances : result (list BalanceRow);                  (* by user and asset *)
  sn_commit : result unit;
}.

Definition terminal_statuses : list string := ["filled"; "cancelled"; "rejected"; "expired"]%string.

(** [status IS NULL OR status NOT IN (..)]. *)
Definition unresolved (order : Z * option string) : bool :=
  match order.2 with
  | None => true
  | Some status => negb (existsb (String.eqb status) terminal_statuses)
  end.

(** [row.try_get(name)]. *)
Definition quoted (name : string) : string := String (Ascii.ascii_of_nat 34) (name +:+ String (Ascii.ascii_of_nat 34) EmptyString).
Definition column {A} (name : string) (value : option A) : result A :=
  ok_or value ("error occurred while decoding column " +:+ quoted name +:+ ": unexpected null; try decoding as an `Option`").
(** [read_decimal]. *)
Definition read_decimal (name : string) (value : option string) : result Decimal :=
  text ← column name value;
  parse_column name text.

(** [available < 10^21 && available.normalize().scale() <= 9]. *)
Definition within_column (available : Decimal) : bool :=
  dec_ltb available (from_i128_with_scale 1000000000000000000000 0) && (scale (normalize available) <=? 9).

(** The loop over the balance rows. *)
Definition load_row (row : BalanceRow) : st BalanceCache unit :=
  stored_user_id ← lift (column "user_id" (br_user_id row));
  _ ← lift (ensure (0 <? stored_user_id) "Engine startup blocked: invalid user id");
  let user_id := stored_user_id in
  mint ← lift (column "mint_address" (br_mint_address row));
  available ← lift (read_decimal "available" (br_available row));
  locked ← lift (read_decimal "locked" (br_locked row));
  _ ← lift (ensure (negb (is_empty mint) && String.eqb (trim mint) mint)
              ("Engine startup blocked: invalid asset identifier for user=" +:+ show_int user_id));
  _ ← lift (ensure (dec_leb dec_zero available && dec_leb dec_zero locked)
              ("Engine startup blocked: negative balance for user=" +:+ show_int user_id +:+ ", mint=" +:+ mint));
  _ ← lift (ensure (within_column available) "Engine startup blocked: available exceeds NUMERIC(30,9)");
  _ ← lift (ensure (dec_eqb locked dec_zero)
              ("Engine startup blocked: unresolved locked balance for user=" +:+ show_int user_id +:+ ", mint=" +:+ mint +:+
               "; authoritative replay is required"));
  balances ← sget;
  _ ← lift (ensure (bool_decide (get_balance user_id mint balances = None))
              ("Engine startup blocked: duplicate balance for user=" +:+ show_int user_id +:+ ", mint=" +:+ mint));
  smodify (set_balance user_id mint available locked).

Fixpoint load_rows (rows : list BalanceRow) : st BalanceCache unit :=
  match rows with
  | [] => mret tt
  | row :: rows => _ ← load_row row; load_rows rows
  end.

(** A query that must not find anything. *)
Definition no_history (rows : result (list string)) (failure reason : string) : result unit :=
  rows ← with_context rows failure;
  ensure (bool_decide (head rows = None)) reason.

(** [load_balances]. *)
Definition load_balances (db : Snapshot) : result BalanceCache :=
  _ ← with_context (sn_begin db) "Failed to begin startup inspection";
  _ ← with_context (sn_read_only db) "Failed to configure startup inspection snapshot";
  receipts ← with_context (sn_order_receipts db) "Failed to inspect durable engine receipts";
  _ ← match head receipts with
      | Some order_id => Err ("Engine startup blocked: durable receipt order_id=" +:+ show_int order_id +:+
                              "; authoritative replay is required")
      | None => Ok tt
      end;
  _ ← no_history (sn_event_receipts db) "Failed to inspect current engine event history"
        "Engine startup blocked: current engine event history exists; restore the authoritative journal";
  _ ← no_history (sn_deposit_attempts db) "Failed to inspect native deposit dispatch history"
        "Engine startup blocked: native deposit dispatch history exists; restore the authoritative journal";
  _ ← no_history (sn_withdrawals db) "Failed to inspect native withdrawal history"
        "Engine startup blocked: native withdrawal history exists; restore the authoritative journal";
  _ ← no_history (sn_withdrawal_attempts db) "Failed to inspect native withdrawal dispatch history"
        "Engine startup blocked: native withdrawal dispatch history exists; restore the authoritative journal";
  orders ← with_context (sn_orders db) "Failed to inspect unresolved orders during startup";
  _ ← match List.find unresolved orders with
      | Some (order_id, status) =>
          Err ("Engine startup blocked: unresolved order id=" +:+ show_int order_id +:+ ", status=" +:+
               default "NULL" status +:+ "; authoritative replay is required")
      | None => Ok tt
      end;
  rows ← with_context (sn_balances db) "Failed to read balances during startup";
  let '(loaded, balances) := load_rows rows (with_capacity (length rows)) in
  _ ← loaded;
  _ ← with_context (sn_commit db) "Failed to finish startup inspection";
  Ok balances.

(** ** The state an engine starts with *)

(** Making the journal of an engine that has none: [engine_id] is the new identifier. *)
Definition bootstrap (engine_id : string) (db : option Snapshot) : st Store unit :=
  db ← lift (ok_or db "Database unavailable in this mode");
  balances ← lift (load_balances db);
  initialize engine_id (set_state_cache balances state_new).

(** The journal in an open file: made on the first start, recovered on every start. *)
Definition open_state (engine_id : string) (db : option Snapshot) : st Store (EngineState * string) :=
  store ← sget;
  started ← lift (initialized store);
  _ ← (if (started : bool) then mret tt else bootstrap engine_id db);
  store ← sget;
  lift (recover store).

(** ** The directory of an engine *)

(** The journal file: the schema version, how many tables it has, and what is in them. *)
Record JournalFile := mk_file { jf_version : Z; jf_tables : Z; jf_store : Store }.

Record Directory := mk_directory {
  d_owner_lock : bool;             (* [owner.lock] is there *)
  d_held : bool;                   (* a process holds its lock *)
  d_journal : option JournalFile;  (* [journal.sqlite3] *)
}.

(** [Ownership::acquire]: whether the directory is new; the lock file stays when the lock is given
    back. *)
Definition acquire : st Directory bool :=
  d ← sget;
  let fresh := negb (d_owner_lock d) in
  _ ← sput (mk_directory true (d_held d) (d_journal d));
  _ ← lift (ensure (negb (d_held d)) "Engine journal is already owned");
  _ ← sput (mk_directory true true (d_journal d));
  mret fresh.

(** What SQLite answers when a connection to the journal is set up and the file is checked: the journal
    mode that it could set, the level of [synchronous], the word of [integrity_check]. *)
Record Sqlite := mk_sqlite { sq_mode : result string; sq_synchronous : result Z; sq_check : result string }.

(** [Store::configure]. *)
Definition configure (q : Sqlite) : result unit :=
  mode ← sq_mode q;
  _ ← ensure (String.eqb mode "wal") "Journal requires SQLite WAL mode";
  level ← sq_synchronous q;
  ensure (level =? 2) "Journal requires synchronous FULL".

(** [Store::delivery_connection]: a second connection to the same file. *)
Definition delivery_connection (q : Sqlite) : result unit := configure q.

Definition empty_file : JournalFile := mk_file 0 0 store_new.
Definition set_journal (file : JournalFile) (d : Directory) : Directory :=
  mk_directory (d_owner_lock d) (d_held d) (Some file).

(** [Store::open]: connecting makes the file; an empty one gets the tables, an existing journal is
    kept. *)
Definition store_open (q : Sqlite) : st Directory unit :=
  _ ← smodify (fun d => set_journal (default empty_file (d_journal d)) d);
  d ← sget;
  let file := default empty_file (d_journal d) in
  let version := jf_version file in
  _ ← lift (ensure ((version =? 0) || (version =? 4)) "Unsupported journal schema version");
  _ ← lift (if version =? 0 then ensure (jf_tables file =? 0) "Unknown existing journal schema" else Ok tt);
  _ ← lift (configure q);
  _ ← sput (set_journal (mk_file 4 3 (if version =? 0 then store_new else jf_store file)) d);
  check ← lift (sq_check q);
  lift (ensure (String.eqb check "ok") ("Journal integrity check failed: " +:+ check)).

Definition with_store {A} (m : st Store A) : st Directory A := fun d =>
  match d_journal d with
  | Some file =>
      let '(r, store) := m (jf_store file) in
      (r, mk_directory (d_owner_lock d) (d_held d) (Some (mk_file (jf_version file) (jf_tables file) store)))
  | None => (Err "unable to open database file", d)
  end.

(** Giving the lock back: the end of the process, or of a start that failed. *)
Definition release (d : Directory) : Directory := mk_directory (d_owner_lock d) false (d_journal d).

(** What follows the lock; the lock is given back when anything fails. *)
Definition start_held (q : Sqlite) (fresh : bool) (engine_id : string) (db : option Snapshot) :
    st Directory (EngineState * string) :=
  d ← sget;
  _ ← lift (ensure (fresh || bool_decide (is_Some (d_journal d)))
              "Previously owned engine journal is missing; automatic DB bootstrap refused");
  _ ← store_open q;
  with_store (open_state engine_id db).
Definition or_release {A} (m : st Directory A) : st Directory A := fun d =>
  let '(r, d') := m d in (r, if is_ok r then d' else release d').

(** [HighPerformanceEngine::start], up to the recovered state. *)
Definition start (q : Sqlite) (engine_id : string) (db : option Snapshot) :
    st Directory (EngineState * string) :=
  fresh ← acquire;
  or_release (start_held q fresh engine_id db).
End startup.

Section startup_facts.
Context {E : Externals} {L : DecimalLaws ext_decimal} {F : JournalFormat E} {FL : JournalFormatLaws F}.

(** The account and the balance that a row describes, when it describes one. *)
Record row_holds (row : BalanceRow) (k : account) (b : Balance) : Prop := {
  rh_user : br_user_id row = Some k.1;
  rh_user_positive : 0 < k.1;
  rh_mint : br_mint_address row = Some k.2;
  rh_mint_valid : is_empty k.2 = false ∧ trim k.2 = k.2;
  rh_available : ∃ text, br_available row = Some text ∧ exact_parse text = Some (available b);
  rh_locked : ∃ text, br_locked row = Some text ∧ exact_parse text = Some (locked b);
  rh_nothing_locked : raw (locked b) = 0;
  rh_units : ∃ n, in_units (available b) n;
}.

(** What [available] must satisfy is to be an amount. *)
Lemma within_column_units d : 0 ≤ raw d → within_column d = true ↔ ∃ n, in_units d n.
Proof.
  intros Hnn. unfold within_column. destruct (from_i128_exact 1000000000000000000000 0) as [Hm Hs]; [done | lia |].
  rewrite andb_true_iff, dec_ltb_raw, Z.ltb_lt, Z.leb_le. unfold raw at 2. rewrite Hm, Hs. split.
  - intros [Hlt Hsc]. pose proof (normalized_units d _ Hsc eq_refl) as Hraw.
    eexists. split; [exact Hraw |]. unfold MAX_UNITS. rewrite Hraw in Hlt, Hnn. lia.
  - intros (n & Hraw & Hn). split; [rewrite Hraw; unfold MAX_UNITS in Hn; lia |]. by eapply raw_units_scale.
Qed.

Lemma read_decimal_ok name value d : read_decimal name value = Ok d ↔ ∃ text, value = Some text ∧ exact_parse text = Some d.
Proof.
  unfold read_decimal, column, parse_column. split.
  - intros H. apply bind_ok in H as (text & Ht & Hd). apply ok_or_ok in Ht, Hd. by exists text.
  - intros (text & -> & Hd). cbn. by rewrite Hd.
Qed.

(** One row. *)
Lemma load_row_run row k b c :
  row_holds row k b →
  (balances c !! k = None → load_row row c = (Ok tt, set_balance k.1 k.2 (available b) (locked b) c)) ∧
  (is_Some (balances c !! k) → ∃ e, load_row row c = (Err e, c)).
Proof.
  intros [Hu Hpos Hm [He Ht] Ha%(read_decimal_ok "available") Hl%(read_decimal_ok "locked") H0 [n Hn]]. destruct k as [user mint].
    cbn [fst snd] in *.
  assert (Hnn : 0 ≤ raw (available b)) by (destruct Hn as [-> Hn]; lia).
  assert (Hw : within_column (available b) = true) by (apply within_column_units; [done | by exists n]).
  unfold load_row, mbind, st_bind, lift, sget. rewrite Hu. cbn [column ok_or].
    rewrite (proj2 (Z.ltb_lt 0 user)) by done.
  cbn [ensure]. rewrite Hm. cbn [column ok_or]. rewrite Ha, Hl, He, Ht, String.eqb_refl. cbn [negb andb ensure].
  rewrite !dec_leb_raw, dec_eqb_raw, zero_raw, H0. rewrite (proj2 (Z.leb_le 0 (raw (available b)))) by done.
  cbn [Z.leb Z.eqb Z.compare andb ensure]. rewrite Hw. cbn [ensure]. unfold get_balance. split.
  - intros Hnone. rewrite Hnone, bool_decide_true by done. done.
  - intros [b' Hsome]. rewrite Hsome, bool_decide_false by done. eexists. reflexivity.
Qed.

Lemma load_row_holds row c c' : load_row row c = (Ok tt, c') → ∃ k b, row_holds row k b ∧ balances c !! k = None.
Proof.
  unfold load_row. intros H.
  apply st_bind_ok in H as (user & s1 & [Hu%ok_or_ok ->]%lift_run & H).
  apply st_bind_ok in H as (u & s1 & [Hpos%ensure_ok ->]%lift_run & H).
  apply st_bind_ok in H as (mint & s1 & [Hm%ok_or_ok ->]%lift_run & H).
  apply st_bind_ok in H as (available & s1 & [Ha%read_decimal_ok ->]%lift_run & H).
  apply st_bind_ok in H as (locked & s1 & [Hl%read_decimal_ok ->]%lift_run & H).
  apply st_bind_ok in H as (u1 & s1 & [Hmint%ensure_ok ->]%lift_run & H).
  apply st_bind_ok in H as (u2 & s1 & [Hneg%ensure_ok ->]%lift_run & H).
  apply st_bind_ok in H as (u3 & s1 & [Hcol%ensure_ok ->]%lift_run & H).
  apply st_bind_ok in H as (u4 & s1 & [Hzero%ensure_ok ->]%lift_run & H).
  apply st_bind_ok in H as (c0 & s1 & Hget & H). unfold sget in Hget. injection Hget as <- <-.
  apply st_bind_ok in H as (u5 & s1 & [Hnone%ensure_ok%bool_decide_eq_true ->]%lift_run & _).
  apply Z.ltb_lt in Hpos. apply andb_true_iff in Hmint as [He%negb_true_iff Ht%String.eqb_eq].
  rewrite !dec_leb_raw, dec_eqb_raw, zero_raw, andb_true_iff, !Z.leb_le, ?Z.eqb_eq in *.
  exists (user, mint), (mk_balance available locked). split; [| done]. split; try done.
  apply within_column_units; [apply Hneg | done].
Qed.

(** The rows together: their accounts are different, and exactly they are added. *)
Lemma load_rows_run rows accounts c :
  Forall2 (fun row kb => row_holds row kb.1 kb.2) rows accounts →
  NoDup accounts.*1 → (∀ kb, kb ∈ accounts → balances c !! kb.1 = None) →
  load_rows rows c = (Ok tt, mk_cache (insert_all accounts (balances c))).
Proof.
  intros Hall. revert c. induction Hall as [|row [k b] rows accounts Hrow Hall IH]; intros c Hnd Hnew;
    [by destruct c |].
  cbn in Hnd. apply NoDup_cons in Hnd as [Hk Hnd]. cbn [load_rows]. unfold mbind, st_bind.
  destruct (load_row_run _ _ _ c Hrow) as [Hrun _]. cbn [fst snd] in Hrun. rewrite Hrun by (apply (Hnew (k, b)); left).
  destruct k as [user mint]. rewrite IH; [by destruct b | done |].
  intros [k' b'] Hin. cbn. rewrite lookup_insert_ne; [by apply (Hnew (k', b')); right |].
  intros <-. apply Hk. by apply (list_elem_of_fmap_2 fst) in Hin.
Qed.

Lemma load_rows_holds rows c c' :
  load_rows rows c = (Ok tt, c') →
  ∃ accounts, Forall2 (fun row kb => row_holds row kb.1 kb.2) rows accounts ∧ NoDup accounts.*1 ∧
    (∀ kb, kb ∈ accounts → balances c !! kb.1 = None).
Proof.
  revert c. induction rows as [|row rows IH]; intros c H.
  { exists []. split_and!; [constructor | constructor | by intros kb ?%elem_of_nil]. }
  cbn [load_rows] in H. apply st_bind_ok in H as ([] & c1 & Hrow & H).
  destruct (load_row_holds _ _ _ Hrow) as (k & b & Hk & Hnone).
  destruct (load_row_run _ _ _ c Hk) as [Hrun _]. rewrite Hrun in Hrow by done. injection Hrow as <-.
  destruct (IH _ H) as (accounts & Hall & Hnd & Hnew). exists ((k, b) :: accounts). destruct k as [user mint].
  assert (Hfresh : ∀ kb, kb ∈ accounts → kb.1 ≠ (user, mint) ∧ balances c !! kb.1 = None).
  { intros kb Hin. specialize (Hnew kb Hin). cbn in Hnew. by apply lookup_insert_None in Hnew as [? ?]. }
  split_and!; [by constructor | | intros kb [-> | Hin]%elem_of_cons; [done | by apply Hfresh]].
  cbn. apply NoDup_cons. split; [| done]. intros (kb & Heq & Hin)%list_elem_of_fmap.
    by destruct (Hfresh kb Hin) as [[] _].
Qed.

(** The transaction of the inspection works. *)
Definition inspected (db : Snapshot) : Prop := sn_begin db = Ok tt ∧ sn_read_only db = Ok tt ∧ sn_commit db = Ok tt.

(** Nothing in the database says that an engine has run: no receipts, no events, no attempts to send a
    deposit or a withdrawal, and every order is in a final state. *)
Record nothing_happened (db : Snapshot) : Prop := {
  nh_receipts : sn_order_receipts db = Ok [];
  nh_events : sn_event_receipts db = Ok [];
  nh_deposits : sn_deposit_attempts db = Ok [];
  nh_withdrawals : sn_withdrawals db = Ok [];
  nh_attempts : sn_withdrawal_attempts db = Ok [];
  nh_orders : ∃ orders, sn_orders db = Ok orders ∧
    ∀ id status, (id, status) ∈ orders → ∃ text, status = Some text ∧ text ∈ terminal_statuses;
}.

Lemma no_history_ok rows failure reason u : no_history rows failure reason = Ok u → rows = Ok [].
Proof.
  unfold no_history. intros H. apply bind_ok in H as (l & ->%with_context_ok & H). apply ensure_ok in H.
  apply bool_decide_eq_true in H. by destruct l.
Qed.

Lemma unresolved_none orders :
  List.find unresolved orders = None ↔
  ∀ id status, (id, status) ∈ orders → ∃ text, status = Some text ∧ text ∈ terminal_statuses.
Proof.
  assert (Hone : ∀ status, unresolved (0, status) = false ↔ ∃ text, status = Some text ∧ text ∈ terminal_statuses).
  { intros [text|]; cbn [unresolved snd]; [| split; [done | by intros (? & ? & _)]].
    rewrite negb_false_iff, existsb_exists. split.
    - intros (x & Hin & Heq%String.eqb_eq). subst x. exists text. split; [done |]. by apply list_elem_of_In.
    - intros (x & [= <-] & Hin). exists text. split; [by apply list_elem_of_In | apply String.eqb_refl]. }
  split.
  - intros Hf id status Hin. apply Hone. change (unresolved (id, status) = false).
    apply (List.find_none _ _ Hf). by apply list_elem_of_In.
  - intros Hall. destruct (List.find unresolved orders) as [[id status]|] eqn:Hf; [| done].
    apply List.find_some in Hf as [Hin Hun]. apply list_elem_of_In in Hin.
    apply Hall, Hone in Hin. unfold unresolved in *. cbn [snd] in *. congruence.
Qed.

(** An inspection succeeds exactly on a database without history whose rows describe balances of
    different accounts, and returns exactly these. *)
Lemma load_balances_run db c :
  load_balances db = Ok c ↔
  nothing_happened db ∧ inspected db ∧
  ∃ rows accounts, sn_balances db = Ok rows ∧ Forall2 (fun row kb => row_holds row kb.1 kb.2) rows accounts ∧
    NoDup accounts.*1 ∧ c = mk_cache (list_to_map accounts).
Proof.
  assert (Hmap : ∀ accounts : list (account * Balance), NoDup accounts.*1 →
    insert_all accounts ∅ = list_to_map accounts).
  { intros accounts Hnd. apply map_eq. intros k. rewrite insert_all_lookup by done. rewrite lookup_empty.
    by destruct (list_to_map accounts !! k). }
  unfold load_balances. split.
  - intros H. apply bind_ok in H as ([] & Hbegin%with_context_ok & H). apply bind_ok in H as ([] & Hconf%with_context_ok & H).
    apply bind_ok in H as (receipts & Hr%with_context_ok & H). apply bind_ok in H as (u & Hhead & H).
    apply bind_ok in H as (u1 & He%no_history_ok & H). apply bind_ok in H as (u2 & Hd%no_history_ok & H).
    apply bind_ok in H as (u3 & Hw%no_history_ok & H). apply bind_ok in H as (u4 & Ha%no_history_ok & H).
    apply bind_ok in H as (orders & Ho%with_context_ok & H). apply bind_ok in H as (u5 & Hun & H).
    apply bind_ok in H as (rows & Hrows%with_context_ok & H).
    destruct (load_rows rows (with_capacity (length rows))) as [loaded c'] eqn:Hload.
    apply bind_ok in H as ([] & -> & H). apply bind_ok in H as ([] & Hcommit%with_context_ok & H). injection H as ->.
    destruct (load_rows_holds _ _ _ Hload) as (accounts & Hall & Hnd & Hnew).
    rewrite (load_rows_run rows accounts) in Hload by done. injection Hload as <-.
    split; [split; [destruct receipts; [done | cbn in Hhead; done] | done | done | done | done |] |].
    + exists orders. split; [done |]. apply unresolved_none. destruct (List.find unresolved orders) as [[]|]; done.
    + split; [done |]. exists rows, accounts. split_and!; try done. unfold with_capacity. cbn [balances].
      by rewrite Hmap.
  - intros ([-> -> -> -> -> (orders & -> & Hun%unresolved_none)] & (-> & -> & ->) &
      rows & accounts & -> & Hall & Hnd & ->).
    cbn [mbind result_bind with_context head no_history]. rewrite bool_decide_true by done. cbn [ensure mbind result_bind].
      rewrite Hun.
    cbn [mbind result_bind]. rewrite (load_rows_run rows accounts) by (done || by intros kb _).
    cbn [mbind result_bind with_capacity balances]. by rewrite Hmap.
Qed.

Lemma loaded_seedable db c : load_balances db = Ok c → seedable c.
Proof.
  intros (_ & _ & rows & accounts & _ & Hall & Hnd & ->)%load_balances_run user mint b Hb. cbn [balances] in Hb.
  apply elem_of_list_to_map in Hb; [| done]. apply list_elem_of_lookup_1 in Hb as [i Hi].
  destruct (Forall2_lookup_r _ _ _ _ _ Hall Hi) as (row & _ & [_ Hpos _ [He Ht] _ _ H0 Hn]). cbn in *. by split_and!.
Qed.

Lemma seedable_unlocked c user mint : seedable c → locked_of c (user, mint) = 0.
Proof.
  intros Hs. unfold locked_of, mval. destruct (balances c !! (user, mint)) as [b|] eqn:Hb; [| done].
  by destruct (Hs user mint b Hb) as (_ & _ & _ & H0 & _).
Qed.

Lemma seedable_wf c : seedable c → cache_wf c.
Proof.
  intros Hs [user mint] b Hb. destruct (Hs user mint b Hb) as (_ & _ & _ & H0 & Ha).
  split; [exact Ha | exists 0]. split; [rewrite H0; lia |]. done.
Qed.

Lemma recover_initialized store s : recover store = Ok s → initialized store = Ok true.
Proof. unfold recover, initialized. by destruct (s_genesis store). Qed.
Lemma recover_wf store s id : recover store = Ok (s, id) → state_wf s.
Proof. intros (s0 & next & _ & Hwf & Hrep & _)%recover_run. by eapply replay_wf. Qed.

(** Opening an empty journal. *)
Lemma open_state_new engine_id db :
  uuid_parses engine_id = true →
  (is_ok (load_balances db) = false ∧ is_ok (open_state engine_id (Some db) store_new).1 = false ∧
   (open_state engine_id (Some db) store_new).2 = store_new) ∨
  ∃ c, load_balances db = Ok c ∧
    let initial := mk_state ∅ ∅ ∅ ∅ (mk_core ∅ (mk_executor c)) in
    ∃ store, open_state engine_id (Some db) store_new = (Ok (initial, engine_id), store) ∧
      recover store = Ok (initial, engine_id) ∧
      ∀ engine_id' db', open_state engine_id' db' store = (Ok (initial, engine_id), store).
Proof.
  intros Hid.
  assert (Hopen : open_state engine_id (Some db) store_new =
    let '(r, store) := bootstrap engine_id (Some db) store_new in
    match r with Ok _ => (recover store, store) | Err e => (Err e, store) | Panic => (Panic, store) end).
  { unfold open_state, mbind, st_bind, lift, sget. change (initialized store_new) with (Ok false). done. }
  rewrite Hopen. unfold bootstrap, mbind, st_bind, lift. cbn [ok_or].
  destruct (load_balances db) as [c|e|] eqn:Hload; [| by left..]. right. exists c. split; [done |].
  destruct (genesis_run c engine_id (loaded_seedable _ _ Hload) Hid) as (store & Hinit & Hrec). exists store.
  change (set_state_cache c state_new) with (mk_state ∅ ∅ ∅ ∅ (mk_core ∅ (mk_executor c))). rewrite Hinit, Hrec.
  split; [done |]. split; [done |]. intros engine_id' db'. unfold open_state, mbind, st_bind, lift, sget.
  rewrite (recover_initialized _ _ Hrec). unfold mret, st_ret. by rewrite Hrec.
Qed.

(** A journal file that the engine can have made, and what is in it. *)
Definition own_file (file : JournalFile) : Prop := jf_version file = 4 ∨ file = empty_file.
Definition own_journal (owned : bool) (journal : option JournalFile) : Prop :=
  match journal with Some file => own_file file | None => owned = false end.
Definition journal_of (journal : option JournalFile) : Store :=
  match journal with Some file => jf_store file | None => store_new end.

(** SQLite does what the engine asks of it. *)
Definition sqlite_works (q : Sqlite) : Prop := configure q = Ok tt ∧ sq_check q = Ok "ok"%string.

Lemma store_open_run q owned held journal :
  (∃ owned', own_journal owned' journal) →
  (sqlite_works q ∧ store_open q (mk_directory owned held journal) =
     (Ok tt, mk_directory owned held (Some (mk_file 4 3 (journal_of journal))))) ∨
  (¬ sqlite_works q ∧ ∃ r file, store_open q (mk_directory owned held journal) = (r, mk_directory owned held (Some file)) ∧
     is_ok r = false ∧ own_file file ∧ jf_store file = journal_of journal).
Proof.
  intros [owned' Hj]. unfold sqlite_works.
  assert (Hfile : ∃ file, default empty_file journal = file ∧ own_file file ∧ jf_store file = journal_of journal).
  { destruct journal as [file|]; [by exists file | exists empty_file]. split_and!; [done | by right | done]. }
  destruct Hfile as (file & Hdef & Hown & Hstore).
  unfold store_open, mbind, st_bind, smodify, sget, sput, lift, set_journal. cbn [d_journal d_owner_lock d_held].
  rewrite Hdef. cbn [default from_option]. unfold id.
  assert (Hv : ensure ((jf_version file =? 0) || (jf_version file =? 4)) "Unsupported journal schema version" = Ok tt)
    by (destruct Hown as [-> | ->]; done).
  assert (Ht : (if jf_version file =? 0 then ensure (jf_tables file =? 0) "Unknown existing journal schema" else Ok tt) =
    Ok tt) by (destruct Hown as [-> | ->]; done).
  assert (Hkept : (if jf_version file =? 0 then store_new else jf_store file) = journal_of journal)
    by (rewrite <- Hstore; destruct Hown as [-> | ->]; done).
  rewrite Hv, Ht, Hkept.
  destruct (configure q) as [[]|e|]; [| right; split; [naive_solver | by exists (Err e), file]
    | right; split; [naive_solver | by exists Panic, file]].
  destruct (sq_check q) as [check|e|]; [| right; split; [naive_solver |] ..].
  - destruct (String.eqb_spec check "ok") as [->|Hne]; [by left | right]. split; [naive_solver |].
    eexists _, _. split_and!; [reflexivity | done | by left | done].
  - eexists _, _. split_and!; [reflexivity | done | by left | done].
  - eexists _, _. split_and!; [reflexivity | done | by left | done].
Qed.

(** A start in a directory that engines have used, or that is new. *)
Lemma start_run q owned journal engine_id db :
  own_journal owned journal →
  (sqlite_works q ∧ start q engine_id db (mk_directory owned false journal) =
     let '(r, store) := open_state engine_id db (journal_of journal) in
     (r, mk_directory true (is_ok r) (Some (mk_file 4 3 store)))) ∨
  (¬ sqlite_works q ∧ ∃ r file, start q engine_id db (mk_directory owned false journal) =
       (r, mk_directory true false (Some file)) ∧
     is_ok r = false ∧ own_file file ∧ jf_store file = journal_of journal).
Proof.
  intros Hj.
  assert (Hfresh : negb owned || bool_decide (is_Some journal) = true).
  { destruct journal as [file|]; [rewrite (bool_decide_true (is_Some (Some file))) by done;
    apply orb_true_r | by rewrite Hj]. }
  assert (Hstart : start q engine_id db (mk_directory owned false journal) =
    or_release (_ ← store_open q; with_store (open_state engine_id db)) (mk_directory true true journal)).
  { change (start q engine_id db (mk_directory owned false journal)) with
      (or_release (start_held q (negb owned) engine_id db) (mk_directory true true journal)).
    unfold or_release, start_held. unfold mbind at 1 2, st_bind at 1 2, sget, lift. cbn [d_journal]. by rewrite Hfresh. }
  rewrite Hstart. unfold or_release, mbind, st_bind.
  destruct (store_open_run q true true journal) as [[Hw ->] | (Hw & r & file & -> & Hr & Hfile)]; [by exists owned | |].
  - left. split; [done |]. unfold with_store. cbn [d_journal jf_store d_owner_lock d_held jf_version jf_tables].
    destruct (open_state engine_id db (journal_of journal)) as [r store]. by destruct r.
  - right. split; [done |]. destruct r as [u|e|]; [done | |].
    + by exists (Err e), file.
    + by exists Panic, file.
Qed.

End startup_facts.

(** ** Properties *)

Section startup_properties.
Context {E : Externals} {L : DecimalLaws ext_decimal} {F : JournalFormat E} {FL : JournalFormatLaws F}.

(** C22. An engine starts from the database only when nothing there says that an engine has run, and
    then from exactly what it shows: the inspection succeeds exactly when there is no receipt, event,
    deposit or withdrawal, every order is in a final state, and every row is a balance of its own
    account with nothing locked; and the cache has for each row exactly the number that is written
    there, and no other account. *)
Theorem inspection_exact db c :
  load_balances db = Ok c ↔
  nothing_happened db ∧ inspected db ∧
  ∃ rows accounts, sn_balances db = Ok rows ∧ Forall2 (fun row kb => row_holds row kb.1 kb.2) rows accounts ∧
    NoDup accounts.*1 ∧ c = mk_cache (list_to_map accounts).
Proof. apply load_balances_run. Qed.

(** C21. The first start is remembered, and the database is not asked again. A start in a directory
    whose journal is missing or empty either fails, because the inspection fails or SQLite does not do
    what is asked of it, and leaves an empty journal; or it ends in the state with exactly the inspected
    balances, nothing locked and no orders. Then no second engine can start in the directory; after the
    end of the process every start, whatever the database holds by then, finds that same state in the
    journal, as long as SQLite works; and if the journal is lost, no start takes the balances from the
    database once more. *)
Theorem first_start_exact owned journal engine_id q db r d :
  uuid_parses engine_id = true →
  journal = None ∧ owned = false ∨ journal = Some empty_file ∨ journal = Some (mk_file 4 3 store_new) →
  start q engine_id (Some db) (mk_directory owned false journal) = (r, d) →
  (is_ok r = false ∧ (is_ok (load_balances db) = false ∨ ¬ sqlite_works q) ∧
     ∃ file, d = mk_directory true false (Some file) ∧ own_file file ∧ jf_store file = store_new) ∨
  ∃ c, load_balances db = Ok c ∧ sqlite_works q ∧
    let initial := mk_state ∅ ∅ ∅ ∅ (mk_core ∅ (mk_executor c)) in
    r = Ok (initial, engine_id) ∧ state_wf initial ∧ (∀ k, locked_of c k = 0) ∧
    ∀ q' engine_id' db',
      (∃ e, start q' engine_id' db' d = (Err e, d)) ∧
      (sqlite_works q' → start q' engine_id' db' (release d) = (Ok (initial, engine_id), d)) ∧
      ∃ e d', start q' engine_id' db' (mk_directory (d_owner_lock d) false None) = (Err e, d') ∧ d_journal d' = None.
Proof.
  intros Hid Hjournal.
  assert (Hj : own_journal owned journal ∧ journal_of journal = store_new)
    by (destruct Hjournal as [[-> ->] | [-> | ->]]; (split; [| done]); [done | by right | by left]).
  destruct Hj as [Hj Hempty].
  destruct (start_run q owned journal engine_id (Some db) Hj) as [[Hw ->] | (Hw & r1 & file & -> & Hr & Hfile & Hst)];
    [| intros [= <- <-]; left; split; [done |]; split; [by right | by exists file; rewrite Hst]].
  rewrite Hempty.
  destruct (open_state_new engine_id db Hid) as [(Hload & Hfail & Hopen) | (c & Hload & store & Hopen & Hrec & Hagain)].
  - destruct (open_state engine_id (Some db) store_new) as [r0 store0]. cbn [fst snd] in *. rewrite Hfail.
    intros [= <- <-]. subst store0. left. split; [done |]. split; [by left |].
    exists (mk_file 4 3 store_new). by split_and!; [| left |].
  - rewrite Hopen. cbn [is_ok]. intros [= <- <-]. right. exists c. split; [done |]. split; [done |]. split; [done |].
    split; [by eapply recover_wf |]. split; [by intros [user mint]; eapply seedable_unlocked, loaded_seedable |].
    intros q' engine_id' db'. split_and!.
    + by eexists.
    + intros Hw'. unfold release. cbn [d_owner_lock d_journal].
      destruct (start_run q' true (Some (mk_file 4 3 store)) engine_id' db') as [[_ ->] | [? _]]; [by left | | done].
      cbn [journal_of jf_store]. by rewrite Hagain.
    + eexists _, _. split; reflexivity.
Qed.
End startup_properties.

(** ** The properties at concrete inputs *)

Section startup_examples.
#[local] Existing Instance ref_externals.
#[local] Existing Instance ref_decimal_laws.
#[local] Existing Instance ref_format.
#[local] Existing Instance ref_format_laws.

Definition ex_row (user : Z) (mint : string) (n : Z) : BalanceRow :=
  {| br_user_id := Some user; br_mint_address := Some mint; br_available := Some (numeric_text n);
     br_locked := Some (numeric_text 0) |}.

(** Two accounts, an old order, nothing that an engine did. *)
Definition ex_snapshot : Snapshot :=
  {| sn_begin := Ok tt; sn_read_only := Ok tt; sn_order_receipts := Ok []; sn_event_receipts := Ok []; sn_deposit_attempts := Ok []; sn_withdrawals := Ok [];
     sn_withdrawal_attempts := Ok []; sn_orders := Ok [(3, Some "filled")]; sn_commit := Ok tt;
     sn_balances := Ok [ex_row 10 "BTC" 1500000000; ex_row 20 "USDT" 20000000000] |}.

Definition ex_inspected : BalanceCache := get_ok cache_new (load_balances ex_snapshot).
Lemma ex_inspection : load_balances ex_snapshot = Ok ex_inspected.
Proof. apply get_ok_run. vm_compute. reflexivity. Qed.

Lemma inspection_exact_witness : nothing_happened ex_snapshot ∧ inspected ex_snapshot.
Proof. destruct (proj1 (inspection_exact ex_snapshot ex_inspected) ex_inspection) as (H1 & H2 & _).
  exact (conj H1 H2). Defined.

Definition ex_directory : Directory := mk_directory false false None.
Definition ex_sqlite : Sqlite := mk_sqlite (Ok "wal"%string) (Ok 2) (Ok "ok"%string).
Definition ex_start_run := start ex_sqlite "engine" (Some ex_snapshot) ex_directory.

Lemma first_start_exact_witness :
  (is_ok ex_start_run.1 = false ∧ (is_ok (load_balances ex_snapshot) = false ∨ ¬ sqlite_works ex_sqlite)) ∨
  ∃ c, load_balances ex_snapshot = Ok c ∧ ∀ k, locked_of c k = 0.
Proof.
  destruct (first_start_exact false None "engine" ex_sqlite ex_snapshot ex_start_run.1 ex_start_run.2 eq_refl
    (or_introl (conj eq_refl eq_refl)) (surjective_pairing ex_start_run))
    as [(H1 & H2 & _) | (c & H1 & _ & _ & _ & H2 & _)]; [left; exact (conj H1 H2) | right; exists c; exact (conj H1 H2)].
Defined.

(** A locked balance, a pending order or a receipt stops the start. *)
Definition ex_blocked (db : Snapshot) : bool := negb (is_ok (load_balances db)).
Example ex_starts :
  [ex_blocked ex_snapshot;
   ex_blocked {| sn_begin := Ok tt; sn_read_only := Ok tt; sn_order_receipts := Ok [1]; sn_event_receipts := Ok []; sn_deposit_attempts := Ok []; sn_withdrawals := Ok [];
     sn_withdrawal_attempts := Ok []; sn_orders := Ok []; sn_commit := Ok tt; sn_balances := Ok [] |};
   ex_blocked {| sn_begin := Ok tt; sn_read_only := Ok tt; sn_order_receipts := Ok []; sn_event_receipts := Ok []; sn_deposit_attempts := Ok []; sn_withdrawals := Ok [];
     sn_withdrawal_attempts := Ok []; sn_orders := Ok [(1, Some "partial")]; sn_commit := Ok tt; sn_balances := Ok [] |};
   ex_blocked {| sn_begin := Ok tt; sn_read_only := Ok tt; sn_order_receipts := Ok []; sn_event_receipts := Ok []; sn_deposit_attempts := Ok []; sn_withdrawals := Ok [];
     sn_withdrawal_attempts := Ok []; sn_orders := Ok []; sn_commit := Ok tt; sn_balances := Ok [ex_row 1 "BTC" 5; ex_row 1 "BTC" 6] |}] =
  [false; true; true; true].
Proof. vm_compute. reflexivity. Qed.

(** A file system on which SQLite cannot keep a log stops the start, and the next start is a first one. *)
Definition ex_no_wal : Sqlite := mk_sqlite (Ok "delete"%string) (Ok 2) (Ok "ok"%string).
Definition ex_refused := start ex_no_wal "engine" (Some ex_snapshot) ex_directory.
Example ex_sqlite_decides :
  (match ex_refused.1 with Err message => message | _ => ""%string end, d_held ex_refused.2, is_ok (start ex_sqlite "engine" (Some ex_snapshot) ex_refused.2).1) =
  ("Journal requires SQLite WAL mode"%string, false, true).
Proof. vm_compute. reflexivity. Qed.
End startup_examples.
