(* ===== verification/Control.v ===== *)
(** * The control object of the engine ([runtime/engine.rs])

    [HighPerformanceEngine] owns the state while nothing runs, hands it to the engine worker when it
    starts and takes it back when it stops. Several control objects, in one process or in several, may
    be pointed at one directory; the lock file decides. *)

From stdpp Require Import base tactics gmap list strings.
From Stdlib Require Import ZArith Lia.
From S2P Require Import Prelude Text Decimals Amount RefDecimal Types BalanceCache OrderBook Matcher Submission State Deposit Withdrawal Cancel Journal History EngineLoop Store Boundary Startup.

Section control.
Context {E : Externals} {F : JournalFormat E}.

Inductive EngineMode := Standard | Bench.

Record HighPerformanceEngine := mk_engine {
  e_mode : EngineMode;
  e_running : bool;
  e_closed : bool;                (* of the handle *)
  e_state : option EngineState;   (* here, unless the worker has it *)
  e_thread : bool;                (* [engine_thread] *)
  e_owner : bool;                 (* [ownership] *)
}.

(** [new_with_mode]. *)
Definition new_with_mode (mode : EngineMode) : HighPerformanceEngine :=
  mk_engine mode false false (Some state_new) false false.

(** The checks at the top of [start]. *)
Definition may_start (e : HighPerformanceEngine) : result unit :=
  _ ← ensure (negb (e_running e)) "Engine is already running";
  ensure (negb (e_closed e) && bool_decide (is_Some (e_state e))) "Stopped engine cannot be restarted; create a new instance".

(** What a start meets: SQLite on the first connection and on the one of the output worker, a fresh
    identifier, the database, whether the client of the broker can be made, and what the output worker
    reports when it is ready. *)
Record Surroundings := {
  su_sqlite : Sqlite;
  su_delivery : Sqlite;
  su_engine_id : string;
  su_db : option Snapshot;
  su_producer : result unit;
  su_ready : result unit;
}.

Definition set_engine_state (state : option EngineState) (e : HighPerformanceEngine) : HighPerformanceEngine :=
  mk_engine (e_mode e) (e_running e) (e_closed e) state (e_thread e) (e_owner e).
Definition set_owner (owner : bool) (e : HighPerformanceEngine) : HighPerformanceEngine :=
  mk_engine (e_mode e) (e_running e) (e_closed e) (e_state e) (e_thread e) owner.

(** The part of [start] for the standard mode. The lock is a local value until the client of the
    broker is there; from then on the control object holds it, whatever the connection of the output
    worker and the worker report. *)
Definition start_standard (x : Surroundings) : st (HighPerformanceEngine * Directory) unit := fun '(e, d) =>
  match start (su_sqlite x) (su_engine_id x) (su_db x) d with
  | (Ok recovered, d1) =>
      let e1 := set_engine_state (Some recovered.1) e in
      match su_producer x with
      | Ok _ => (_ ← delivery_connection (su_delivery x); su_ready x, (set_owner true e1, d1))
      | other => (other, (e1, release d1))
      end
  | (Err error, d1) => (Err error, (e, d1))
  | (Panic, d1) => (Panic, (e, d1))
  end.

(** [start]; it returns the state that goes to the engine worker. *)
Definition engine_start (x : Surroundings) : st (HighPerformanceEngine * Directory) EngineState :=
  s ← sget;
  _ ← lift (may_start s.1);
  _ ← match e_mode s.1 with Standard => start_standard x | Bench => mret tt end;
  s ← sget;
  let '(e, d) := s in
  _ ← sput (mk_engine (e_mode e) true (e_closed e) (e_state e) (e_thread e) (e_owner e), d);
  state ← lift (ok_or (e_state e) "Engine state already moved");
  _ ← sput (mk_engine (e_mode e) true (e_closed e) None true (e_owner e), d);
  mret state.

(** What [halt] does to the control object; [joined] is the state that the engine worker returned,
    unless it panicked. *)
Definition engine_halt (joined : option EngineState) (s : HighPerformanceEngine * Directory) :
    HighPerformanceEngine * Directory :=
  let '(e, d) := s in
  let state := if e_thread e then match joined with Some state => Some state | None => e_state e end else e_state e in
  (mk_engine (e_mode e) false true state false false, if e_owner e then release d else d).

(** [bench_state]: two assertions and an [expect]. *)
Definition bench_state {A} (m : st EngineState A) : st HighPerformanceEngine A := fun e =>
  match e_mode e, e_running e, e_state e with
  | Bench, false, Some state => let '(r, state') := m state in (r, set_engine_state (Some state') e)
  | _, _, _ => (Panic, e)
  end.
Definition bench_clear_balances : st HighPerformanceEngine unit :=
  bench_state (with_core (with_executor (balance_cache_mut (smodify clear)))).
Definition bench_clear_orderbooks : st HighPerformanceEngine unit :=
  bench_state (with_core (smodify (fun c => mk_core ∅ (executor c)))).
Definition bench_set_balance (user : Z) (asset : string) (available locked : Decimal) : st HighPerformanceEngine unit :=
  bench_state (with_core (with_executor (balance_cache_mut (smodify (set_balance user asset available locked))))).
Definition bench_submit_direct (order : OrderEntry) : st HighPerformanceEngine (list MatchResult) :=
  e ← sget;
  _ ← lift (ensure (match e_mode e with Bench => true | Standard => false end)
              "bench_submit_direct is only available in bench mode");
  applied ← bench_state (with_core (Submission.apply order));
  mret (as_matches applied).

(** ** Engines that share a directory *)

(** A control object together with the state that its worker has, and how often it was started. *)
Record Instance_ := mk_instance { i_engine : HighPerformanceEngine; i_worker : option EngineState; i_starts : nat }.

Definition closed_by (b : bool) (e : HighPerformanceEngine) : HighPerformanceEngine :=
  mk_engine (e_mode e) (e_running e) (e_closed e || b) (e_state e) (e_thread e) (e_owner e).
Definition killed (e : HighPerformanceEngine) : HighPerformanceEngine := mk_engine (e_mode e) false true None false false.

(** Control objects are made, started with whatever they meet, stopped; their workers work, die or
    close the commands; processes are killed; the journal file changes under everybody. *)
Inductive host_step : list Instance_ * Directory → list Instance_ * Directory → Prop :=
  | host_new l d mode : host_step (l, d) (l ++ [mk_instance (new_with_mode mode) None 0], d)
  | host_start l d i x a r e' d' :
      l !! i = Some a → engine_start x (i_engine a, d) = (r, (e', d')) →
      host_step (l, d) (<[i := mk_instance e' (match r with Ok state => Some state | _ => i_worker a end)
                                 (i_starts a + if is_ok r then 1 else 0)]> l, d')
  | host_halt l d i a joined :
      l !! i = Some a → joined = i_worker a ∨ joined = None →
      host_step (l, d) (<[i := mk_instance (engine_halt joined (i_engine a, d)).1 None (i_starts a)]> l,
                        (engine_halt joined (i_engine a, d)).2)
  | host_work l d i a state b :
      l !! i = Some a → is_Some (i_worker a) →
      host_step (l, d) (<[i := mk_instance (closed_by b (i_engine a)) (Some state) (i_starts a)]> l, d)
  | host_close l d i a :
      l !! i = Some a → host_step (l, d) (<[i := mk_instance (closed_by true (i_engine a)) (i_worker a) (i_starts a)]> l, d)
  | host_bench l d i a A (m : st EngineState A) :
      l !! i = Some a →
      host_step (l, d) (<[i := mk_instance (bench_state m (i_engine a)).2 (i_worker a) (i_starts a)]> l, d)
  | host_killed l d i a :
      l !! i = Some a →
      host_step (l, d) (<[i := mk_instance (killed (i_engine a)) None (i_starts a)]> l,
                        if e_owner (i_engine a) then release d else d)
  | host_file l d file : host_step (l, d) (l, mk_directory (d_owner_lock d) (d_held d) file).
End control.

Section control_facts.
Context {E : Externals} {F : JournalFormat E}.

(** ** Who holds the lock *)

Lemma with_store_held {A} (m : st Store A) d : d_held (with_store m d).2 = d_held d.
Proof. unfold with_store. destruct (d_journal d) as [file|]; [by destruct (m _) | done]. Qed.

Lemma store_open_held q d : d_held (store_open q d).2 = d_held d.
Proof.
  unfold store_open, mbind, st_bind, smodify, sget, sput, lift. destruct (ensure _ _); [| done..].
  destruct (if jf_version _ =? 0 then _ else _); [| done..]. destruct (configure q); [| done..].
  by destruct (sq_check q).
Qed.

Lemma start_held_held q fresh id db d : d_held (start_held q fresh id db d).2 = d_held d.
Proof.
  unfold start_held. unfold mbind, st_bind, sget, lift. destruct (ensure _ _); [| done..].
  pose proof (store_open_held q d) as Ho. destruct (store_open q d) as [[u|e|] d1]; [| done..].
  rewrite with_store_held. exact Ho.
Qed.

(** A start that ends well holds the lock, any other leaves it as it was; a held lock is never got. *)
Lemma start_lock q id db d :
  d_held (start q id db d).2 = d_held d || is_ok (start q id db d).1 ∧ (d_held d = true → is_ok (start q id db d).1 = false).
Proof.
  unfold start, acquire, mbind, st_bind, sget, sput, lift. destruct (d_held d) eqn:Hd; cbn; [done |].
  unfold or_release. destruct (start_held q _ id db _) as [r d'] eqn:Hs.
  pose proof (start_held_held q (negb (d_owner_lock d)) id db (mk_directory true true (d_journal d))) as Hh.
  rewrite Hs in Hh. cbn in Hh. by destruct r.
Qed.

(** What holds of every control object, and of all of them with the lock. *)
Record instance_ok (a : Instance_) : Prop := {
  io_starts : (i_starts a ≤ 1)%nat;
  io_again : i_starts a = 1%nat → e_closed (i_engine a) = true ∨ e_running (i_engine a) = true;
  io_worker : is_Some (i_worker a) ↔ e_thread (i_engine a) = true;
  io_running : e_running (i_engine a) = true → e_thread (i_engine a) = true ∧ e_state (i_engine a) = None;
  io_owner : e_running (i_engine a) = true → e_mode (i_engine a) = Standard → e_owner (i_engine a) = true;
  io_thread : e_thread (i_engine a) = true → e_running (i_engine a) = true;
}.

Definition owns (l : list Instance_) (i : nat) : Prop := ∃ a, l !! i = Some a ∧ e_owner (i_engine a) = true.
Record lock_ok (l : list Instance_) (d : Directory) : Prop := {
  lo_instances : ∀ i a, l !! i = Some a → instance_ok a;
  lo_one : ∀ i j, owns l i → owns l j → i = j;
  lo_held : d_held d = true ↔ ∃ i, owns l i;
}.

Lemma lock_ok_update l d i a a' d' :
  lock_ok l d → l !! i = Some a → instance_ok a' →
  (e_owner (i_engine a') = e_owner (i_engine a) ∧ d_held d' = d_held d) ∨
  (e_owner (i_engine a') = true ∧ d_held d = false ∧ d_held d' = true) ∨
  (e_owner (i_engine a) = true ∧ e_owner (i_engine a') = false ∧ d_held d' = false) →
  lock_ok (<[i := a']> l) d'.
Proof.
  intros [Hall Hone Hheld] Hi Ha' Hcase. pose proof (lookup_lt_Some _ _ _ Hi) as Hlt.
  assert (Hat : ∀ j b, <[i := a']> l !! j = Some b ↔ (j = i ∧ b = a') ∨ (j ≠ i ∧ l !! j = Some b)).
  { intros j b. rewrite list_lookup_insert_Some. naive_solver. }
  assert (Hown : ∀ j, owns (<[i := a']> l) j ↔ (j = i ∧ e_owner (i_engine a') = true) ∨ (j ≠ i ∧ owns l j)).
  { intros j. unfold owns. setoid_rewrite Hat. naive_solver. }
  assert (Hi_own : owns l i ↔ e_owner (i_engine a) = true) by (unfold owns; rewrite Hi; naive_solver).
  assert (Hfree : d_held d = false → ∀ j, ¬ owns l j).
  { intros Hf j Hj. assert (d_held d = true) by (apply Hheld; eauto). congruence. }
  split.
  - intros j b [[-> ->] | [_ Hj]]%Hat; [done | by eapply Hall].
  - intros j k Hj%Hown Hk%Hown. destruct Hcase as [[He Hd] | [(He & Hf & Hd) | (He & He' & Hd)]].
    + rewrite He in Hj, Hk. apply Hone; naive_solver.
    + destruct Hj as [[-> _] | [_ Hj]]; [| by apply Hfree in Hj]. destruct Hk as [[-> _] | [_ Hk]];
      [done | by apply Hfree in Hk].
    + assert (owns l i) by by apply Hi_own. destruct Hj as [[_ ?] | [Hne Hj]]; [congruence |].
      exfalso. by apply Hne, Hone.
  - setoid_rewrite Hown. destruct Hcase as [[He Hd] | [(He & Hf & Hd) | (He & He' & Hd)]].
    + rewrite Hd, Hheld, He. split; [| naive_solver].
      intros [j Hj]. exists j. destruct (decide (j = i)) as [->|]; naive_solver.
    + rewrite Hd. split; [| done]. intros _. exists i. by left.
    + rewrite Hd. assert (Ho : owns l i) by by apply Hi_own. split; [done |].
      intros (j & [[_ ?] | [Hne Hj]]); [congruence |]. exfalso. by apply Hne, Hone.
Qed.

(** ** Starting *)

(** A start that ends well, and any other. *)
Lemma engine_start_cases x e d r e' d' :
  engine_start x (e, d) = (r, (e', d')) →
  (∃ state, r = Ok state ∧ e_running e = false ∧ e_closed e = false ∧ is_Some (e_state e) ∧
     e' = mk_engine (e_mode e) true false None true (e_owner e') ∧
     match e_mode e with
     | Bench => e_owner e' = e_owner e ∧ d' = d
     | Standard => e_owner e' = true ∧ d_held d = false ∧ d_held d' = true
     end) ∨
  (is_ok r = false ∧ e_mode e' = e_mode e ∧ e_running e' = e_running e ∧ e_closed e' = e_closed e ∧ e_thread e' = e_thread e ∧
     (e_running e = true → e' = e) ∧
     ((e_owner e' = e_owner e ∧ d_held d' = d_held d) ∨ (e_owner e' = true ∧ d_held d = false ∧ d_held d' = true))).
Proof.
  unfold engine_start, mbind, st_bind, sget, sput, lift. cbn [fst snd].
  destruct (may_start e) as [u|m|] eqn:Hmay; cycle 1.
  { intros [= <- <- <-]. right. split_and!; try done. by left. }
  { intros [= <- <- <-]. right. split_and!; try done. by left. }
  assert (Hm : e_running e = false ∧ e_closed e = false ∧ is_Some (e_state e)) by (unfold may_start in Hmay;
    inv_ok; done).
  destruct Hm as (Hrun & Hclosed & [state Hstate]).
  destruct (e_mode e) eqn:Hmode; cycle 1.
  { unfold mret, st_ret. cbn. rewrite Hstate, Hclosed, Hmode. cbn. intros [= <- <- <-]. left. by exists state. }
  unfold start_standard. destruct (start_lock (su_sqlite x) (su_engine_id x) (su_db x) d) as [Hl1 Hl2].
  destruct (start (su_sqlite x) (su_engine_id x) (su_db x) d) as [[rec|m|] d1]; cbn in Hl1, Hl2.
  - rewrite orb_true_r in Hl1. assert (Hfree : d_held d = false) by (destruct (d_held d);
    [by specialize (Hl2 eq_refl) | done]).
    destruct (su_producer x) as [u'|m|]; cycle 1.
    { intros [= <- <- <-]. right. cbn. split_and!; try congruence. by left. }
    { intros [= <- <- <-]. right. cbn. split_and!; try congruence. by left. }
    destruct (_ ← delivery_connection (su_delivery x); su_ready x) as [u2|m|]; cbn; intros [= <- <- <-].
    + left. exists rec.1. cbn. rewrite Hmode, Hclosed. eauto 10.
    + right. cbn. split_and!; try congruence. right. done.
    + right. cbn. split_and!; try congruence. right. done.
  - rewrite orb_false_r in Hl1. intros [= <- <- <-]. right. split_and!; try done. by left.
  - rewrite orb_false_r in Hl1. intros [= <- <- <-]. right. split_and!; try done. by left.
Qed.

Lemma instance_ok_start x i d r e' d' :
  instance_ok i → engine_start x (i_engine i, d) = (r, (e', d')) →
  instance_ok (mk_instance e' (match r with Ok state => Some state | _ => i_worker i end) (i_starts i + if is_ok r then 1 else 0)).
Proof.
  intros [H1 H2 H3 H4 H5 H6] Hrun.
  destruct (engine_start_cases _ _ _ _ _ _ Hrun)
    as [(state & -> & Hr & Hc & _ & He & Howner) | (Hno & Hm & Hr & Hc & Ht & Hsame & _)].
  - destruct (decide (i_starts i = 1%nat)) as [Hs|Hs]; [destruct (H2 Hs); congruence |].
    rewrite He. split; cbn; try done; [lia | by right |].
    intros _ Hstd. rewrite Hstd in Howner. by destruct Howner.
  - assert (Hw : match r with Ok state => Some state | _ => i_worker i end = i_worker i) by by destruct r.
    rewrite Hw, Hno, Nat.add_0_r. split; cbn; rewrite ?Hr, ?Hc, ?Ht, ?Hm; try done.
    + intros Hrunning. rewrite (Hsame Hrunning). by apply H4.
    + intros Hrunning. rewrite (Hsame Hrunning). by apply H5.
Qed.

Lemma lock_ok_step l d l' d' : lock_ok l d → host_step (l, d) (l', d') → lock_ok l' d'.
Proof.
  intros Hok Hstep. inversion Hstep
    as [l0 d0 mode|l0 d0 i x a r e1 d1 Hi Hrun|l0 d0 i a joined Hi Hj|l0 d0 i a state b Hi Hw
    |l0 d0 i a Hi|l0 d0 i a A m Hi|l0 d0 i a Hi|l0 d0 file]; subst; try pose proof (lo_instances _ _ Hok _ _ Hi) as Ha.
  - destruct Hok as [Hall Hone Hheld].
    assert (Hown : ∀ j, owns (l ++ [mk_instance (new_with_mode mode) None 0]) j ↔ owns l j).
    { intros j. unfold owns. split; intros (a & Ha & Ho); exists a; (split; [| done]).
      - apply lookup_app_Some in Ha as [Ha | [_ Ha]]; [done |]. apply list_lookup_singleton_Some in Ha as [_ <-]. done.
      - by apply lookup_app_l_Some. }
    split; [| intros i j; rewrite !Hown; apply Hone | setoid_rewrite Hown; apply Hheld].
    intros i a Ha. apply lookup_app_Some in Ha as [Ha | [_ Ha]]; [by eapply Hall |].
    apply list_lookup_singleton_Some in Ha as [_ <-]. by split; cbn; try lia.
  - eapply lock_ok_update; [exact Hok | exact Hi | by eapply instance_ok_start |]. cbn.
    destruct (engine_start_cases _ _ _ _ _ _ Hrun)
      as [(state & -> & _ & _ & _ & _ & Hm) | (_ & _ & _ & _ & _ & _ & Hcase)].
    + destruct (e_mode (i_engine a)); [right; by left | left]. by destruct Hm as [-> ->].
    + destruct Hcase as [Hcase|Hcase]; [by left | right; by left].
  - eapply lock_ok_update; [exact Hok | exact Hi | |].
    + destruct Ha as [H1 H2 H3 H4 H5 H6]. split; cbn; try done; by left.
    + cbn. destruct (e_owner (i_engine a)); [by right; right | by left].
  - eapply lock_ok_update; [exact Hok | exact Hi | | by left].
    destruct Ha as [H1 H2 H3 H4 H5 H6]. split; cbn; try done.
    + intros Hs. destruct (H2 Hs) as [-> | Hr]; [by left | by right].
    + split; [intros _; by apply H3 | done].
  - eapply lock_ok_update; [exact Hok | exact Hi | | by left].
    destruct Ha as [H1 H2 H3 H4 H5 H6]. split; cbn; try done. intros _. left. apply orb_true_r.
  - assert (Hb : (bench_state m (i_engine a)).2 = i_engine a ∨
      ∃ state, (bench_state m (i_engine a)).2 = set_engine_state (Some state) (i_engine a) ∧
        e_running (i_engine a) = false).
    { unfold bench_state. destruct (e_mode (i_engine a)), (e_running (i_engine a)), (e_state (i_engine a))
      as [s0|]; auto. destruct (m s0) as [r s1]. right. by exists s1. }
    eapply lock_ok_update; [exact Hok | exact Hi | |].
    + destruct Hb as [-> | (state & -> & Hr)]; [by destruct a |].
      destruct Ha as [H1 H2 H3 H4 H5 H6]. split; cbn; try done. intros Hrun. congruence.
    + left. by destruct Hb as [-> | (state & -> & _)].
  - eapply lock_ok_update; [exact Hok | exact Hi | |].
    + destruct Ha as [H1 H2 H3 H4 H5 H6]. split; cbn; try done; by left.
    + cbn. destruct (e_owner (i_engine a)); [by right; right | by left].
  - destruct Hok as [Hall Hone Hheld]. by split.
Qed.

Lemma lock_ok_reachable d l d' : d_held d = false → rtc host_step ([], d) (l, d') → lock_ok l d'.
Proof.
  intros Hfree Hreach. remember (l, d') as s' eqn:Hs.
  assert (Hok : lock_ok s'.1 s'.2); [| by rewrite Hs in Hok].
  clear Hs. eapply (rtc_ind_l (fun s => lock_ok s.1 s.2 → lock_ok s'.1 s'.2) s'); [done | | exact Hreach |].
  - intros [l1 d1] [l2 d2] Hstep _ IH H1. apply IH. by eapply lock_ok_step.
  - split; cbn; [by intros i a Ha | by intros i j (a & Ha & _) |]. rewrite Hfree. split;
    [done | by intros (i & a & Ha & _)].
Qed.
End control_facts.

Section control_properties.
Context {E : Externals} {F : JournalFormat E}.

(** C19. One directory has at most one engine. However control objects are made, started, stopped and
    killed on it, from a moment when nobody holds it, and whatever happens to the files in between: at most one standard engine runs, the
    lock is held exactly while a control object owns the directory, no control object is started
    twice, a control object has a worker exactly while its engine runs, and the state is never in two
    places: a control object with a worker does not have the state. (It may be in neither place: the
    state of a worker that dies is lost until the next process recovers it.) *)
Theorem one_engine_per_directory d l d' :
  d_held d = false → rtc host_step ([], d) (l, d') →
  (∀ i j a b, l !! i = Some a → l !! j = Some b →
     e_running (i_engine a) = true → e_mode (i_engine a) = Standard →
     e_running (i_engine b) = true → e_mode (i_engine b) = Standard → i = j) ∧
  (d_held d' = true ↔ ∃ a, a ∈ l ∧ e_owner (i_engine a) = true) ∧
  (∀ a, a ∈ l → (i_starts a ≤ 1)%nat ∧
     (e_running (i_engine a) = true ↔ is_Some (i_worker a)) ∧
     (is_Some (i_worker a) → e_state (i_engine a) = None)).
Proof.
  intros Hfree Hreach. destruct (lock_ok_reachable _ _ _ Hfree Hreach) as [Hall Hone Hheld]. split_and!.
  - intros i j a b Hi Hj Hra Hma Hrb Hmb. apply Hone; [exists a | exists b]; (split; [done |]).
    + by apply (io_owner _ (Hall _ _ Hi)).
    + by apply (io_owner _ (Hall _ _ Hj)).
  - rewrite Hheld. unfold owns. setoid_rewrite list_elem_of_lookup. naive_solver.
  - intros a [i Hi]%list_elem_of_lookup. destruct (Hall _ _ Hi) as [H1 H2 H3 H4 H5 H6]. split_and!;
    [done | | by intros Hw%H3%H6; apply H4].
    rewrite H3. split; [intros Hr; by apply H4 | done].
Qed.
End control_properties.

(** ** The property at concrete inputs *)

Section control_examples.
#[local] Existing Instance ref_externals.
#[local] Existing Instance ref_format.

Definition ex_surroundings : Surroundings :=
  {| su_sqlite := ex_sqlite; su_delivery := ex_sqlite; su_engine_id := "engine"; su_db := Some ex_snapshot; su_producer := Ok tt; su_ready := Ok tt |}.

(** Two control objects for one new directory: the first gets it, the second does not. *)
Definition ex_fresh : list Instance_ := ([] ++ [mk_instance (new_with_mode Standard) None 0]) ++ [mk_instance (new_with_mode Standard) None 0].
Definition ex_started : result EngineState * (HighPerformanceEngine * Directory) :=
  engine_start ex_surroundings (new_with_mode Standard, ex_directory).
Definition ex_second : result EngineState * (HighPerformanceEngine * Directory) :=
  engine_start ex_surroundings (new_with_mode Standard, ex_started.2.2).
Definition ex_after (started : result EngineState * (HighPerformanceEngine * Directory)) : Instance_ :=
  mk_instance started.2.1 (match started.1 with Ok state => Some state | _ => None end) (0 + if is_ok started.1 then 1 else 0).
Definition ex_two : list Instance_ := <[1%nat := ex_after ex_second]> (<[0%nat := ex_after ex_started]> ex_fresh).

Lemma parts {A B C} (p : A * (B * C)) : p = (p.1, (p.2.1, p.2.2)).
Proof. by destruct p as [? []]. Qed.

Lemma ex_two_reachable : rtc host_step ([], ex_directory) (ex_two, ex_second.2.2).
Proof.
  eapply rtc_l; [exact (host_new _ _ Standard) |]. eapply rtc_l; [exact (host_new _ _ Standard) |].
  eapply rtc_l; [exact (host_start ex_fresh ex_directory 0 ex_surroundings (mk_instance (new_with_mode Standard)
    None 0) ex_started.1 ex_started.2.1
    ex_started.2.2 eq_refl (parts _)) |].
  eapply rtc_l; [exact (host_start (<[0%nat := ex_after ex_started]> ex_fresh) ex_started.2.2 1 ex_surroundings
    (mk_instance (new_with_mode Standard) None 0)
    ex_second.1 ex_second.2.1 ex_second.2.2 eq_refl (parts _)) |].
  exact (rtc_refl _ _).
Qed.

Lemma one_engine_per_directory_witness :
  d_held ex_second.2.2 = true ↔ ∃ a, a ∈ ex_two ∧ e_owner (i_engine a) = true.
Proof. exact (proj1 (proj2 (one_engine_per_directory ex_directory ex_two ex_second.2.2 eq_refl
  ex_two_reachable))). Defined.

Example ex_two_engines :
  map (fun a => (e_running (i_engine a), i_starts a)) ex_two = [(true, 1%nat); (false, 0%nat)] ∧ d_held ex_second.2.2 = true.
Proof. split; vm_compute; reflexivity. Qed.
End control_examples.
