(* ===== verification/Orders.v ===== *)
(** * Accepting orders ([services/order_receipt.rs], [services/order_service.rs])

    The platform stores the original of an order; the engine's HTTP service compares the request with
    it, keeps a receipt under the order id and hands the order to the core. Every statement of the
    acceptance sees what other transactions have committed meanwhile. *)

From stdpp Require Import base tactics gmap list strings.
From Stdlib Require Import ZArith Lia.
From S2P Require Import Prelude Text Decimals Amount RefDecimal Types BalanceCache OrderBook Matcher Submission State Deposit Withdrawal Cancel Journal History EngineLoop Store Boundary.

Section orders.
Context {E : Externals}.

(** ** Requests and receipts *)

Record CreateOrderRequest := {
  cor_order_id : option Z;
  cor_user_id : Z;
  cor_order_type : string;
  cor_order_side : string;
  cor_base_mint : string;
  cor_quote_mint : option string;
  cor_price : option Decimal;
  cor_amount : option Decimal;
  cor_quote_amount : option Decimal;
}.

(** A row of [order_submissions] or [engine_order_receipts], the amounts as text; only the amounts can
    be NULL. *)
Record CommandRow := {
  cw_order_id : Z;
  cw_user_id : Z;
  cw_order_type : string;
  cw_order_side : string;
  cw_base_mint : string;
  cw_quote_mint : string;
  cw_price : option string;
  cw_amount : option string;
  cw_quote_amount : option string;
  cw_fee_rate : option string;
  cw_accepted_at : Timestamp;
}.

Record StoredCommand := {
  sc_fee_rate : Decimal;
  sc_order_id : Z;
  sc_user_id : Z;
  sc_order_type : string;
  sc_order_side : string;
  sc_base_mint : string;
  sc_quote_mint : string;
  sc_price : option Decimal;
  sc_amount : option Decimal;
  sc_quote_amount : option Decimal;
  sc_accepted_at : Timestamp;
}.

(** [read_optional_decimal]. *)
Definition read_optional_decimal (name : string) (value : option string) : result (option Decimal) :=
  match value with
  | Some text => d ← parse_column name text; Ok (Some d)
  | None => Ok None
  end.

(** [StoredCommand::from_row]. *)
Definition from_row (row : CommandRow) : result StoredCommand :=
  fee_rate ← read_optional_decimal "fee_rate" (cw_fee_rate row);
  fee_rate ← ok_or fee_rate "no column found for name: fee_rate";
  price ← read_optional_decimal "price" (cw_price row);
  amount ← read_optional_decimal "amount" (cw_amount row);
  quote_amount ← read_optional_decimal "quote_amount" (cw_quote_amount row);
  Ok {| sc_fee_rate := fee_rate; sc_order_id := cw_order_id row; sc_user_id := cw_user_id row;
        sc_order_type := cw_order_type row; sc_order_side := cw_order_side row;
        sc_base_mint := cw_base_mint row; sc_quote_mint := cw_quote_mint row;
        sc_price := price; sc_amount := amount; sc_quote_amount := quote_amount;
        sc_accepted_at := cw_accepted_at row |}.

Definition usdt : string := "USDT".

(** [StoredCommand::matches]; the stored identifiers are positive, so the casts change nothing. *)
Definition matches (self : StoredCommand) (request : CreateOrderRequest) : bool :=
  bool_decide (Some (as_u64 (sc_order_id self)) = cor_order_id request) &&
  (as_u64 (sc_user_id self) =? cor_user_id request) &&
  String.eqb (sc_order_type self) (cor_order_type request) &&
  String.eqb (sc_order_side self) (cor_order_side request) &&
  String.eqb (sc_base_mint self) (cor_base_mint request) &&
  String.eqb (sc_quote_mint self) (default usdt (cor_quote_mint request)) &&
  opt_dec_eqb (sc_price self) (cor_price request) &&
  opt_dec_eqb (sc_amount self) (cor_amount request) &&
  opt_dec_eqb (sc_quote_amount self) (cor_quote_amount request).

Record OrderAcceptance := {
  oa_order_id : string;
  oa_user_id : string;
  oa_receipt_status : string;
  oa_accepted_at : Timestamp;
}.

(** [StoredCommand::acceptance]. *)
Definition acceptance (self : StoredCommand) : OrderAcceptance :=
  {| oa_order_id := show_int (sc_order_id self); oa_user_id := show_int (sc_user_id self);
     oa_receipt_status := "accepted"; oa_accepted_at := sc_accepted_at self |}.

Record AcceptanceResult := mk_acceptance {
  ar_receipt : OrderAcceptance;
  ar_created : bool;
  ar_fee_rate : Decimal;
}.

(** ** The platform's database *)

(** The tables that an acceptance touches, by order id; of an order its user, status and whether
    nothing of it is filled. *)
Record Platform := mk_platform {
  pf_submissions : gmap Z CommandRow;
  pf_orders : gmap Z (Z * string * bool);
  pf_receipts : gmap Z CommandRow;
}.

(** What surrounds one acceptance: what other transactions commit before its k-th statement, which
    statements fail, how its commit ends, the clock, and how a decimal bound to a column of a receipt
    is shown by it. *)
Record Session := {
  se_others : nat → Platform → Platform;
  se_fails : nat → bool;
  se_commit : Commit;
  se_now : Timestamp;
  se_shown : Decimal → string;
}.

(** How an acceptance can be refused: the two [ReceiptError]s, another error, or a panic. *)
Inductive Refusal := Invalid | Conflict | Unavailable (reason : string) | Panicked.

(** Code that runs in the session. *)
Definition tx (A : Type) : Type := Platform → (Refusal + A) * Platform.
#[local] Instance tx_ret : MRet tx := fun A a p => (inr a, p).
#[local] Instance tx_bind : MBind tx := fun A B f m p =>
  match m p with (inr a, p') => f a p' | (inl e, p') => (inl e, p') end.

Definition refuse {A} (e : Refusal) : tx A := fun p => (inl e, p).
Definition require (b : bool) (e : Refusal) : tx unit := if b then mret tt else refuse e.
Definition of_result {A} (m : result A) : tx A :=
  match m with Ok a => mret a | Err reason => refuse (Unavailable reason) | Panic => refuse Panicked end.

Section accept.
Context (session : Session).

(** A statement: others come first, and it may fail. *)
Definition statement {A} (k : nat) (f : Platform → A) : tx A := fun p =>
  let p := se_others session k p in
  if se_fails session k then (inl (Unavailable "error returned from database"), p) else (inr (f p), p).

(** [SELECT .. FROM engine_order_receipts WHERE order_id=$1]. *)
Definition select_receipt (k : nat) (order_id : Z) : tx (option StoredCommand) :=
  row ← statement k (fun p => pf_receipts p !! order_id);
  match row with
  | Some row => stored ← of_result (from_row row); mret (Some stored)
  | None => mret None
  end.

(** The original of a pending, unfilled order of the user. *)
Definition original_row (order_id user_id : Z) (p : Platform) : option CommandRow :=
  row ← pf_submissions p !! order_id;
  order ← pf_orders p !! order_id;
  if (cw_user_id row =? user_id) && (order.1.1 =? user_id) && String.eqb order.1.2 "pending" && order.2
  then Some row else None.
Definition select_original (k : nat) (order_id user_id : Z) : tx (option StoredCommand) :=
  row ← statement k (original_row order_id user_id);
  match row with
  | Some row => stored ← of_result (from_row row); mret (Some stored)
  | None => mret None
  end.

(** The row that the [INSERT] of the original's values makes. *)
Definition receipt_row (order_id user_id : Z) (original : StoredCommand) : CommandRow :=
  {| cw_order_id := order_id; cw_user_id := user_id;
     cw_order_type := sc_order_type original; cw_order_side := sc_order_side original;
     cw_base_mint := sc_base_mint original; cw_quote_mint := sc_quote_mint original;
     cw_price := se_shown session <$> sc_price original; cw_amount := se_shown session <$> sc_amount original;
     cw_quote_amount := se_shown session <$> sc_quote_amount original;
     cw_fee_rate := Some (se_shown session (sc_fee_rate original)); cw_accepted_at := se_now session |}.

(** [transaction.commit()], with the row that the transaction has inserted; until then the row is held
    back, and the key is locked against other insertions. *)
Definition commit_tx (inserted : option (Z * CommandRow)) : tx unit := fun p =>
  let written := match inserted with
                 | Some (order_id, row) => mk_platform (pf_submissions p) (pf_orders p) (<[order_id := row]> (pf_receipts p))
                 | None => p
                 end in
  match se_commit session with
  | Committed => (inr tt, written)
  | RolledBack => (inl (Unavailable "commit failed"), p)
  | CommittedUnreported => (inl (Unavailable "commit failed"), written)
  end.

(** The end of an acceptance: what is stored is compared once more, and the transaction commits. *)
Definition conclude (stored : StoredCommand) (inserted : option (Z * CommandRow)) (request : CreateOrderRequest) : tx AcceptanceResult :=
  _ ← require (matches stored request) Conflict;
  _ ← commit_tx inserted;
  mret (mk_acceptance (acceptance stored) (bool_decide (is_Some inserted)) (sc_fee_rate stored)).

(** A receipt that was there before. *)
Definition confirm (existing : StoredCommand) (request : CreateOrderRequest) : tx AcceptanceResult :=
  conclude existing None request.

(** Inserting the receipt, unless the key is taken; then what is stored under it decides. *)
Definition insert_receipt (order_id user_id : Z) (original : StoredCommand) (request : CreateOrderRequest) : tx AcceptanceResult :=
  taken ← statement 6 (fun p => pf_receipts p !! order_id);
  match taken with
  | None =>
      let row := receipt_row order_id user_id original in
      stored ← of_result (from_row row);
      conclude stored (Some (order_id, row)) request
  | Some _ =>
      stored ← select_receipt 7 order_id;
      stored ← of_result (ok_or stored "no rows returned by a query that expected to return at least one row");
      conclude stored None request
  end.

(** [pool.begin()], a statement whose error gets a context. *)
Definition begin_tx : tx unit := fun p =>
  match statement 0 (fun _ => tt) p with
  | (inl _, p) => (inl (Unavailable "Begin engine acceptance"), p)
  | begun => begun
  end.

Definition positive_i64 (id : Z) : option Z := if (0 <? id) && (id <=? I64_MAX) then Some id else None.

(** [order_receipt::accept]; the statements 1 and 2 set the isolation level and the synchronous commit,
    which the model has in [statement] and [commit_tx]. *)
Definition accept (request : CreateOrderRequest) : tx AcceptanceResult :=
  match cor_order_id request ≫= positive_i64 with
  | None => refuse Invalid
  | Some order_id =>
  match positive_i64 (cor_user_id request) with
  | None => refuse Invalid
  | Some user_id =>
      _ ← begin_tx;
      _ ← statement 1 (fun _ => tt);
      _ ← statement 2 (fun _ => tt);
      existing ← select_receipt 3 order_id;
      match existing with
      | Some existing => confirm existing request
      | None =>
          original ← select_original 4 order_id user_id;
          match original with
          | None =>
              existing ← select_receipt 5 order_id;
              match existing with
              | None => refuse Invalid
              | Some existing => confirm existing request
              end
          | Some original =>
              _ ← require (matches original request) Conflict;
              _ ← of_result (fee dec_zero (sc_fee_rate original));
              insert_receipt order_id user_id original request
          end
      end
  end
  end.

(** ** The service *)

(** [validate_order_request]. *)
Definition validate_order_request (request : CreateOrderRequest) : result unit :=
  let buy := String.eqb (cor_order_type request) "buy" in
  let sell := String.eqb (cor_order_type request) "sell" in
  let limit := String.eqb (cor_order_side request) "limit" in
  let market := String.eqb (cor_order_side request) "market" in
  let quantity (missing quoted : string) : result unit :=
    amount ← ok_or (cor_amount request) missing;
    _ ← ensure (negb (dec_leb amount dec_zero)) "Amount must be positive";
    ensure (bool_decide (cor_quote_amount request = None)) quoted in
  _ ← ensure (buy || sell) "Invalid order_type: must be 'buy' or 'sell'";
  _ ← ensure (limit || market) "Invalid order_side: must be 'limit' or 'market'";
  _ ← ensure (negb (limit && bool_decide (cor_price request = None))) "Limit order must have price";
  _ ← ensure (negb (market && bool_decide (is_Some (cor_price request)))) "Market order cannot have price";
  _ ← (if sell then quantity "Sell orders must have amount" "Sell orders cannot use quote_amount" else Ok tt);
  _ ← (if buy && limit then quantity "Limit buy orders must have amount" "Limit buy orders cannot use quote_amount" else Ok tt);
  _ ← (if buy && market then
         quote_amount ← ok_or (cor_quote_amount request)
           "Market buy orders must have quote_amount (amount-based market buy is not supported)";
         _ ← ensure (bool_decide (cor_amount request = None)) "Market buy orders cannot use amount, use quote_amount instead";
         ensure (negb (dec_leb quote_amount dec_zero)) "Quote amount must be positive"
       else Ok tt);
  match cor_price request with
  | Some price => ensure (negb (dec_leb price dec_zero)) "Price must be positive"
  | None => Ok tt
  end.

(** The order that goes to the core. *)
Definition order_entry (user_id : Z) (request : CreateOrderRequest) (accepted : AcceptanceResult) : result OrderEntry :=
  let market_buy := String.eqb (cor_order_type request) "buy" && String.eqb (cor_order_side request) "market" in
  amount ← (if market_buy then Ok dec_zero else expect (cor_amount request));
  id ← expect (cor_order_id request);
  Ok {| oe_fee_rate := ar_fee_rate accepted; oe_id := id; oe_user_id := user_id;
        oe_order_type := cor_order_type request; oe_order_side := cor_order_side request;
        oe_base_mint := cor_base_mint request; oe_quote_mint := default usdt (cor_quote_mint request);
        oe_price := cor_price request; oe_amount := amount; oe_quote_amount := cor_quote_amount request;
        oe_filled_amount := dec_zero; oe_remaining_amount := amount;
        oe_remaining_quote_amount := if market_buy then cor_quote_amount request else None;
        oe_created_at := oa_accepted_at (ar_receipt accepted) |}.

(** [OrderService::create_order] up to the submission. *)
Definition prepare_order (user_id : Z) (request : CreateOrderRequest) : tx (AcceptanceResult * OrderEntry) :=
  _ ← require (user_id =? cor_user_id request) Invalid;
  _ ← match validate_order_request request with Ok _ => mret tt | Err _ => refuse Invalid | Panic => refuse Panicked end;
  accepted ← accept request;
  entry ← of_result (order_entry user_id request accepted);
  mret (accepted, entry).

(** [OrderService::create_order], with the engine behind its interface. *)
Definition create_order {W} {engine : Engine W} (user_id : Z) (request : CreateOrderRequest) (p : Platform) (w : W) :
    (Refusal + AcceptanceResult) * (Platform * W) :=
  match prepare_order user_id request p with
  | (inl refusal, p) => (inl refusal, (p, w))
  | (inr (accepted, entry), p) =>
      match engine_submit_order entry w with
      | (Ok _, w) => (inr accepted, (p, w))
      | (Err reason, w) => (inl (Unavailable reason), (p, w))
      | (Panic, w) => (inl Panicked, (p, w))
      end
  end.

(** The status of the HTTP answer ([order_handler::create_order]). *)
Definition create_order_status (answer : Refusal + AcceptanceResult) : option Z :=
  match answer with
  | inl Invalid => Some 400
  | inl Conflict => Some 409
  | inl (Unavailable _) => Some 503
  | inl Panicked => None
  | inr accepted => Some (if ar_created accepted then 202 else 200)
  end.
End accept.

(** [OrderService::cancel_order]. *)
Definition service_cancel_order {W} {engine : Engine W} (now : Timestamp) (user_id order_id : Z) (pair : TradingPair) : st W Order :=
  cancelled ← scontext (engine_cancel_order order_id user_id pair) "Failed to cancel order in engine";
  let result := entry_to_order now cancelled in
  mret {| o_id := o_id result; o_user_id := o_user_id result; o_order_type := o_order_type result;
          o_order_side := o_order_side result; o_base_mint := o_base_mint result; o_quote_mint := o_quote_mint result;
          o_price := o_price result; o_amount := o_amount result; o_filled_amount := o_filled_amount result;
          o_filled_quote_amount := o_filled_quote_amount result; o_status := "cancelled";
          o_created_at := o_created_at result; o_updated_at := o_updated_at result |}.
End orders.

Section order_facts.
Context {E : Externals} {L : DecimalLaws ext_decimal}.
#[local] Existing Instance tx_ret.
#[local] Existing Instance tx_bind.

(** Receipts are never changed or removed. *)
Definition receipts_kept (session : Session) : Prop := ∀ k p, pf_receipts p ⊆ pf_receipts (se_others session k p).
Definition keeps {A} (m : tx A) : Prop := ∀ p, pf_receipts p ⊆ pf_receipts (m p).2.

Lemma receipts_bind {A B} (m : tx A) (f : A → tx B) : keeps m → (∀ a, keeps (f a)) → keeps (m ≫= f).
Proof.
  intros Hm Hf p. unfold mbind, tx_bind. pose proof (Hm p) as Hp. destruct (m p) as [[e|a] p1]; [done |].
  etrans; [exact Hp | apply Hf].
Qed.
Lemma receipts_ret {A} (a : A) : keeps (mret a).
Proof. intros p. done. Qed.
Lemma keeps_refuse {A} e : keeps (A:=A) (refuse e).
Proof. intros p. done. Qed.
Lemma keeps_require b e : keeps (require b e).
Proof. destruct b; [apply receipts_ret | apply keeps_refuse]. Qed.
Lemma keeps_of_result {A} (m : result A) : keeps (of_result m).
Proof. destruct m; [apply receipts_ret | apply keeps_refuse..]. Qed.

(** A step of a session, from its success. *)
Lemma tx_bind_ok {A B} (m : tx A) (f : A → tx B) p b p' :
  (m ≫= f) p = (inr b, p') ↔ ∃ a p1, m p = (inr a, p1) ∧ f a p1 = (inr b, p').
Proof. unfold mbind, tx_bind. destruct (m p) as [[] ?]; naive_solver. Qed.
Lemma of_result_ok {A} (m : result A) p a p' : of_result m p = (inr a, p') ↔ m = Ok a ∧ p' = p.
Proof. destruct m; cbn; unfold mret, tx_ret, refuse; naive_solver. Qed.
Lemma require_ok b e p u p' : require b e p = (inr u, p') ↔ b = true ∧ p' = p.
Proof. destruct b, u; cbn; unfold mret, tx_ret, refuse; naive_solver. Qed.

Section accepting.
Context (session : Session) (Hkept : receipts_kept session).

Lemma keeps_statement {A} k (f : Platform → A) : keeps (statement session k f).
Proof. intros p. unfold statement. destruct (se_fails session k); apply Hkept. Qed.

Lemma keeps_begin : keeps (begin_tx session).
Proof.
  intros p. unfold begin_tx. pose proof (keeps_statement 0 (fun _ => tt) p) as Hs.
  by destruct (statement session 0 _ p) as [[] p'].
Qed.
Lemma keeps_select_receipt k id : keeps (select_receipt session k id).
Proof.
  apply receipts_bind; [apply keeps_statement |]. intros [row|]; [| apply receipts_ret].
  apply receipts_bind; [apply keeps_of_result | intros; apply receipts_ret].
Qed.
Lemma keeps_select_original k id user : keeps (select_original session k id user).
Proof.
  apply receipts_bind; [apply keeps_statement |]. intros [row|]; [| apply receipts_ret].
  apply receipts_bind; [apply keeps_of_result | intros; apply receipts_ret].
Qed.
Lemma keeps_commit_none : keeps (commit_tx session None).
Proof. intros p. unfold commit_tx. by destruct (se_commit session). Qed.
Lemma keeps_conclude_none stored request : keeps (conclude session stored None request).
Proof.
  apply receipts_bind; [apply keeps_require |]. intros _. apply receipts_bind; [apply keeps_commit_none | intros;
    apply receipts_ret].
Qed.

Lemma statement_run {A} k (f : Platform → A) p a p' :
  statement session k f p = (inr a, p') → p' = se_others session k p ∧ a = f p'.
Proof. unfold statement. destruct (se_fails session k); [done |]. by intros [= <- <-]. Qed.

(** The insertion only writes under a free key. *)
Lemma conclude_some stored id row request p :
  pf_receipts p !! id = None → pf_receipts p ⊆ pf_receipts (conclude session stored (Some (id, row)) request p).2.
Proof.
  intros Hfree. unfold conclude, mbind, tx_bind, require, commit_tx, mret, tx_ret, refuse.
  destruct (matches stored request); [| done]. destruct (se_commit session); cbn; [| done |]; by apply insert_subseteq.
Qed.

Lemma keeps_insert_receipt id user original request : keeps (insert_receipt session id user original request).
Proof.
  intros p. unfold insert_receipt. unfold mbind at 1, tx_bind at 1.
  pose proof (keeps_statement 6 (fun p => pf_receipts p !! id) p) as Hs.
  destruct (statement session 6 _ p) as [[e|taken] p1] eqn:Hst; [done |]. etrans; [exact Hs |]. clear Hs.
  apply statement_run in Hst as [_ Htaken]. destruct taken as [row|].
  - apply (receipts_bind (select_receipt session 7 id)); [apply keeps_select_receipt |]. intros stored.
    apply receipts_bind; [apply keeps_of_result | intros; apply keeps_conclude_none].
  - unfold mbind, tx_bind, of_result. destruct (from_row _) as [stored|e|]; [| done..]. by apply conclude_some.
Qed.

Lemma receipts_accept request : keeps (accept session request).
Proof.
  unfold accept. destruct (cor_order_id request ≫= positive_i64) as [id|]; [| apply keeps_refuse].
  destruct (positive_i64 (cor_user_id request)) as [user|]; [| apply keeps_refuse].
  apply receipts_bind; [apply keeps_begin |]. intros _. do 2 (apply receipts_bind; [apply keeps_statement |]; intros _).
  apply receipts_bind; [apply keeps_select_receipt |]. intros [existing|]; [apply keeps_conclude_none |].
  apply receipts_bind; [apply keeps_select_original |]. intros [original|].
  - apply receipts_bind; [apply keeps_require |]. intros _. apply receipts_bind; [apply keeps_of_result |]. intros _.
    apply keeps_insert_receipt.
  - apply receipts_bind; [apply keeps_select_receipt |]. intros [existing|];
    [apply keeps_conclude_none | apply keeps_refuse].
Qed.

(** What an acceptance answers is what is stored. *)
Definition answered (id : Z) (request : CreateOrderRequest) (accepted : AcceptanceResult) (p : Platform) : Prop :=
  ∃ row stored, pf_receipts p !! id = Some row ∧ from_row row = Ok stored ∧ matches stored request = true ∧
    ar_receipt accepted = acceptance stored ∧ ar_fee_rate accepted = sc_fee_rate stored.

Lemma select_receipt_ok k id p stored p' :
  select_receipt session k id p = (inr (Some stored), p') → ∃ row, pf_receipts p' !! id = Some row ∧ from_row row = Ok stored.
Proof.
  intros (row & p1 & [_ Hrow]%statement_run & H)%tx_bind_ok. destruct row as [row|]; [| done].
  apply tx_bind_ok in H as (s & p2 & [Hs ->]%of_result_ok & H). injection H as <- <-. by exists row.
Qed.

Lemma conclude_ok stored inserted request p accepted p' :
  conclude session stored inserted request p = (inr accepted, p') →
  matches stored request = true ∧ ar_receipt accepted = acceptance stored ∧ ar_fee_rate accepted = sc_fee_rate stored ∧
  p' = match inserted with
       | Some (id, row) => mk_platform (pf_submissions p) (pf_orders p) (<[id := row]> (pf_receipts p))
       | None => p
       end.
Proof.
  intros (u & p1 & [Hm ->]%require_ok & H)%tx_bind_ok. apply tx_bind_ok in H as ([] & p2 & Hc & H).
    injection H as <- <-.
  unfold commit_tx in Hc. destruct (se_commit session); [| done | done]. injection Hc as <-.
  split_and!; [done..|]. by destruct inserted as [[]|].
Qed.

Lemma conclude_answered k id stored request p0 p accepted p' :
  select_receipt session k id p0 = (inr (Some stored), p) → conclude session stored None request p = (inr accepted, p') →
  answered id request accepted p'.
Proof.
  intros (row & Hrow & Hdec)%select_receipt_ok (Hm & Hr & Hf & ->)%conclude_ok. by exists row, stored.
Qed.

Lemma positive_i64_some o id : o ≫= positive_i64 = Some id → o = Some id ∧ 0 < id ≤ I64_MAX.
Proof.
  destruct o as [x|]; [| done]. cbn. unfold positive_i64. destruct ((0 <? x) && (x <=? I64_MAX)) eqn:Hx; [| done].
  intros [= <-]. split; [done | lia].
Qed.

Lemma accept_answered request p accepted p' :
  accept session request p = (inr accepted, p') →
  ∃ id, cor_order_id request = Some id ∧ answered id request accepted p'.
Proof.
  unfold accept. destruct (cor_order_id request ≫= positive_i64) as [id|] eqn:Hid; [| done].
  apply positive_i64_some in Hid as [Hid _]. destruct (positive_i64 (cor_user_id request)) as [user|]; [| done].
  intros H. exists id. split; [done |].
  apply tx_bind_ok in H as (u0 & q0 & _ & H). apply tx_bind_ok in H as (u1 & q1 & _ & H).
  apply tx_bind_ok in H as (u2 & q2 & _ & H).
  apply tx_bind_ok in H as (existing & p1 & Hsel & H). destruct existing as [existing|];
    [by eapply conclude_answered |].
  apply tx_bind_ok in H as (original & p2 & _ & H). destruct original as [original|].
  - apply tx_bind_ok in H as (u & p3 & [Hm ->]%require_ok & H).
    apply tx_bind_ok in H as (u3 & p3 & [_ ->]%of_result_ok & H).
    unfold insert_receipt in H. apply tx_bind_ok in H as (taken & p3 & [_ Htaken]%statement_run & H).
      destruct taken as [row|].
    + apply tx_bind_ok in H as (stored & p4 & Hsel4 & H).
      apply tx_bind_ok in H as (stored' & p5 & [Hs%ok_or_ok ->]%of_result_ok & H).
      subst stored. by eapply conclude_answered.
    + apply tx_bind_ok in H as (stored & p4 & [Hdec ->]%of_result_ok & H).
      apply conclude_ok in H as (Hms & Hr & Hf & ->).
      eexists _, stored. cbn. rewrite lookup_insert_eq. by split_and!.
  - apply tx_bind_ok in H as (existing & p3 & Hsel2 & H). destruct existing as [existing|];
    [by eapply conclude_answered | done].
Qed.
End accepting.

Lemma opt_dec_eqb_common a b c : opt_dec_eqb a b = true → opt_dec_eqb a c = true → opt_dec_eqb c b = true.
Proof. destruct a, b, c; cbn; rewrite ?dec_eqb_raw; try done. rewrite !Z.eqb_eq. congruence. Qed.

Lemma opt_dec_eqb_none a b : opt_dec_eqb a b = true → a = None ↔ b = None.
Proof. by destruct a, b. Qed.

(** Two requests that match the same stored command make the same order. *)
Lemma entries_equal stored request1 request2 accepted1 accepted2 e1 e2 user1 user2 :
  matches stored request1 = true → matches stored request2 = true →
  ar_receipt accepted1 = acceptance stored → ar_receipt accepted2 = acceptance stored →
  ar_fee_rate accepted1 = sc_fee_rate stored → ar_fee_rate accepted2 = sc_fee_rate stored →
  user1 = cor_user_id request1 → user2 = cor_user_id request2 →
  order_entry user1 request1 accepted1 = Ok e1 → order_entry user2 request2 accepted2 = Ok e2 →
  oe_id e1 = as_u64 (sc_order_id stored) ∧ oe_id e2 = as_u64 (sc_order_id stored) ∧ oe_eqb e2 e1 = true ∧ oe_created_at e1 = oe_created_at e2.
Proof.
  unfold matches. rewrite !andb_true_iff, !String.eqb_eq, !bool_decide_eq_true, !Z.eqb_eq.
  intros ((((((((Hi1 & Hu1) & Ht1) & Hs1) & Hb1) & Hq1) & Hp1) & Ha1) & Hqa1)
    ((((((((Hi2 & Hu2) & Ht2) & Hs2) & Hb2) & Hq2) & Hp2) & Ha2) & Hqa2) Hr1 Hr2 Hf1 Hf2 -> ->.
  unfold order_entry. rewrite <- Hi1, <- Hi2, <- Ht1, <- Ht2, <- Hs1, <- Hs2, <- Hq1, <- Hq2, <- Hb1, <- Hb2,
    <- Hu1, <- Hu2, Hr1, Hr2, Hf1, Hf2.
  set (market := String.eqb (sc_order_type stored) "buy" && String.eqb (sc_order_side stored) "market").
  intros He1 He2. apply bind_ok in He1 as (a1 & Ham1 & He1), He2 as (a2 & Ham2 & He2). cbn in He1, He2.
  injection He1 as <-. injection He2 as <-. split; [done |]. split; [done |]. split; [| done].
  assert (Ham : dec_eqb a2 a1 = true).
  { destruct market; [injection Ham1 as <-; injection Ham2 as <-; apply dec_eqb_refl |].
    apply expect_some in Ham1, Ham2. pose proof (opt_dec_eqb_common _ _ _ Ha1 Ha2) as H. by rewrite Ham1, Ham2 in H. }
  unfold oe_eqb. cbn [oe_fee_rate oe_id oe_user_id oe_order_type oe_order_side oe_base_mint oe_quote_mint oe_price
    oe_amount
    oe_quote_amount oe_filled_amount oe_remaining_amount oe_remaining_quote_amount oe_created_at].
  rewrite !dec_eqb_refl, !Z.eqb_refl, !String.eqb_refl, Ham, (opt_dec_eqb_common _ _ _ Hp1 Hp2),
    (opt_dec_eqb_common _ _ _ Hqa1 Hqa2).
  rewrite bool_decide_true by done. cbn [andb]. destruct market;
    [by rewrite (opt_dec_eqb_common _ _ _ Hqa1 Hqa2) | done].
Qed.

(** A valid request has what its order is made of. *)
Lemma validated_entry request accepted user id :
  validate_order_request request = Ok tt → cor_order_id request = Some id →
  ∃ entry, order_entry user request accepted = Ok entry ∧ oe_id entry = id.
Proof.
  unfold validate_order_request, order_entry. cbn zeta. intros H ->.
  apply bind_ok in H as (u1 & Hkind%ensure_ok & H). apply bind_ok in H as (u2 & Hside%ensure_ok & H).
  apply bind_ok in H as (u3 & _ & H). apply bind_ok in H as (u4 & _ & H).
  apply bind_ok in H as (u5 & Hsell & H). apply bind_ok in H as (u6 & Hlimit & H).
  set (market := String.eqb (cor_order_side request) "market") in *.
  set (buy := String.eqb (cor_order_type request) "buy") in *.
  set (sell := String.eqb (cor_order_type request) "sell") in *.
  set (limit := String.eqb (cor_order_side request) "limit") in *.
  assert (Hamount : buy && market = true ∨ is_Some (cor_amount request)).
  { destruct sell; [right; apply bind_ok in Hsell as (a & Ha%ok_or_ok & _); by exists a |].
    destruct buy; [| done]. destruct limit; [right; apply bind_ok in Hlimit as (a & Ha%ok_or_ok & _); by exists a |].
    left. by destruct market. }
  destruct (buy && market); [eexists; split; reflexivity |]. destruct Hamount as [|[a ->]]; [done |].
  eexists. split; reflexivity.
Qed.

(** A row that shows what was bound to it reads back as the same command. *)
Lemma read_shown name (show : Decimal → string) (o : option Decimal) :
  (∀ d, o = Some d → ∃ d', exact_parse (show d) = Some d' ∧ raw d' = raw d) →
  ∃ o', read_optional_decimal name (show <$> o) = Ok o' ∧ opt_dec_eqb o' o = true.
Proof.
  destruct o as [d|]; [| by exists None]. intros H. destruct (H d eq_refl) as (d' & Hp & Hr). exists (Some d').
  unfold read_optional_decimal, parse_column. cbn. rewrite Hp. split; [done |]. cbn. rewrite dec_eqb_raw, Hr. apply Z.eqb_refl.
Qed.

Lemma receipt_reads_back session id original request :
  cor_order_id request = Some id → matches original request = true →
  (∀ d, Some d ∈ [Some (sc_fee_rate original); sc_price original; sc_amount original; sc_quote_amount original] →
     ∃ d', exact_parse (se_shown session d) = Some d' ∧ raw d' = raw d) →
  ∃ stored, from_row (receipt_row session id (cor_user_id request) original) = Ok stored ∧ matches stored request = true.
Proof.
  intros Hid Hm Hshown.
  destruct (read_shown "fee_rate" (se_shown session) (Some (sc_fee_rate original))) as (f & Hf & Hfe); [intros d Hd;
    apply Hshown; rewrite Hd; left |].
  destruct (read_shown "price" (se_shown session) (sc_price original)) as (p & Hp & Hpe); [intros d Hd; apply Hshown;
    rewrite Hd; right; left |].
  destruct (read_shown "amount" (se_shown session) (sc_amount original)) as (a & Ha & Hae); [intros d Hd; apply Hshown;
    rewrite Hd; do 2 right; left |].
  destruct (read_shown "quote_amount" (se_shown session) (sc_quote_amount original)) as (q & Hq & Hqe); [intros d Hd;
    apply Hshown; rewrite Hd; do 3 right; left |].
  destruct f as [f|]; [| done]. cbn [fmap option_fmap option_map] in Hf.
  unfold from_row, receipt_row. cbn [cw_fee_rate cw_price cw_amount cw_quote_amount]. rewrite Hf.
    cbn [mbind result_bind ok_or].
  rewrite Hp. cbn [mbind result_bind]. rewrite Ha. cbn [mbind result_bind]. rewrite Hq. cbn [mbind result_bind].
  eexists. split; [done |]. revert Hm. unfold matches. rewrite !andb_true_iff.
  intros ((((((((Hi & Hu) & Ht) & Hs) & Hb) & Hqm) & Hp1) & Ha1) & Hq1).
  cbn [sc_order_id sc_user_id sc_order_type sc_order_side sc_base_mint sc_quote_mint sc_price sc_amount
    sc_quote_amount cw_order_id
    cw_user_id cw_order_type cw_order_side cw_base_mint cw_quote_mint].
  assert (Htrans : ∀ x y z, opt_dec_eqb x y = true → opt_dec_eqb y z = true → opt_dec_eqb x z = true).
  { intros [x|] [y|] [z|]; cbn; rewrite ?dec_eqb_raw; try done. rewrite !Z.eqb_eq. congruence. }
  assert (Hid' : as_u64 id = id) by (rewrite Hid in Hi; apply bool_decide_eq_true in Hi; injection Hi as <-;
    apply as_u64_as_u64).
  assert (Hu' : as_u64 (cor_user_id request) = cor_user_id request) by (apply Z.eqb_eq in Hu; rewrite <- Hu;
    apply as_u64_as_u64).
  split_and!; try done; [by rewrite Hid, Hid', bool_decide_true | by rewrite Hu', Z.eqb_refl | by eapply Htrans..].
Qed.

(** An acceptance that nobody disturbs. *)
Lemma accept_clean session request p id row original :
  (∀ k q, se_others session k q = q) → (∀ k, se_fails session k = false) → se_commit session = Committed →
  cor_order_id request = Some id → 0 < id ≤ I64_MAX → 0 < cor_user_id request ≤ I64_MAX →
  pf_receipts p !! id = None → original_row id (cor_user_id request) p = Some row → from_row row = Ok original →
  matches original request = true → is_ok (fee dec_zero (sc_fee_rate original)) = true →
  (∀ d, Some d ∈ [Some (sc_fee_rate original); sc_price original; sc_amount original; sc_quote_amount original] →
     ∃ d', exact_parse (se_shown session d) = Some d' ∧ raw d' = raw d) →
  ∃ accepted p', accept session request p = (inr accepted, p') ∧ ar_created accepted = true ∧ is_Some (pf_receipts p' !! id).
Proof.
  intros Hothers Hfails Hcommit Hid Hidr Huser Hfree Hrow Hdec Hm Hfee Hshown.
  destruct (receipt_reads_back session id original request Hid Hm Hshown) as (stored & Hstored & Hms).
  assert (Hst : ∀ (A : Type) k (f : Platform → A), statement session k f p = (inr (f p), p))
    by (intros A k f; unfold statement; by rewrite Hothers, Hfails).
  assert (Hpos : ∀ x, 0 < x ≤ I64_MAX → positive_i64 x = Some x).
  { intros x Hx. unfold positive_i64. by rewrite (proj2 (Z.ltb_lt _ _)), (proj2 (Z.leb_le _ _)) by lia. }
  unfold accept. rewrite Hid. cbn [mbind option_bind]. rewrite !Hpos by done.
  destruct (proj1 (is_ok_spec _) Hfee) as [zero Hzero].
  unfold begin_tx, select_receipt, select_original, insert_receipt, mbind, tx_bind.
  rewrite !Hst, Hfree. unfold mret, tx_ret.
  rewrite Hst, Hrow, Hdec. cbn [of_result]. unfold mret, tx_ret, require. rewrite Hm, Hzero. cbn [of_result].
    unfold mret, tx_ret.
  rewrite Hst, Hfree, Hstored. cbn [of_result]. unfold mret, tx_ret, conclude, mbind, tx_bind, require.
    rewrite Hms. unfold mret, tx_ret, commit_tx.
  rewrite Hcommit. eexists _, _. split; [reflexivity |]. cbn [ar_created pf_receipts]. split;
    [by rewrite bool_decide_true |].
  by rewrite lookup_insert_eq.
Qed.
End order_facts.

(** ** Properties *)

Section order_properties.
Context {E : Externals} {L : DecimalLaws ext_decimal}.

(** C15. An order that was sent again is not executed again. When a request for an order id was
    accepted, whatever other transactions did meanwhile, then later, in any other session of the same
    database, every accepted request with that id has the same content, gets the same receipt, and makes an order that
    the core, if it knows the first one, acknowledges without executing anything. *)
Theorem retried_order_runs_once session1 session2 request1 request2 p1 p1' p2 p2' accepted1 accepted2 e1 e2 s :
  receipts_kept session2 →
  accept session1 request1 p1 = (inr accepted1, p1') → pf_receipts p1' ⊆ pf_receipts p2 →
  accept session2 request2 p2 = (inr accepted2, p2') → cor_order_id request2 = cor_order_id request1 →
  order_entry (cor_user_id request1) request1 accepted1 = Ok e1 →
  order_entry (cor_user_id request2) request2 accepted2 = Ok e2 →
  submissions s !! oe_id e1 = Some e1 →
  ar_receipt accepted2 = ar_receipt accepted1 ∧ oe_eqb e2 e1 = true ∧
  journal_apply (CmdSubmit e2) s = (Ok (Applied None), s).
Proof.
  intros Hkept Hacc1 Hsub Hacc2 Hids He1 He2 Hknown.
  apply accept_answered in Hacc1 as (id & Hid1 & row & stored & Hrow & Hdec & Hm1 & Hr1 & Hf1).
  pose proof (receipts_accept session2 Hkept request2 p2) as Hkeep. rewrite Hacc2 in Hkeep. cbn in Hkeep.
  apply accept_answered in Hacc2 as (id2 & Hid2 & row2 & stored2 & Hrow2 & Hdec2 & Hm2 & Hr2 & Hf2).
  rewrite Hids, Hid1 in Hid2. injection Hid2 as <-.
  assert (Hsame : pf_receipts p2' !! id = Some row) by (eapply lookup_weaken; [exact Hrow | by etrans]).
  rewrite Hsame in Hrow2. injection Hrow2 as <-. rewrite Hdec in Hdec2. injection Hdec2 as <-.
  destruct (entries_equal _ _ _ _ _ _ _ _ _ Hm1 Hm2 Hr1 Hr2 Hf1 Hf2 eq_refl eq_refl He1 He2)
    as (Hi1 & Hi2 & Heq & Hcreated).
  split; [congruence |]. split; [done |].
  unfold journal_apply, mbind, st_bind, sget. cbn [cancelled_before execute].
  unfold attempt, execute_submit, mbind, st_bind, sget. rewrite Hi2, <- Hi1, Hknown. cbn zeta.
  assert (Hrepeat : set_created_at (oe_created_at e1) e2 = e2) by (rewrite Hcreated; by destruct e2).
  rewrite Hrepeat, Heq. done.
Qed.

(** C16. When nothing is in its way, a submission that the platform has stored gets its receipt and goes
    to the core. The conditions: no statement fails, no other transaction interferes, the commit is
    reported and the database shows exactly the numbers that are bound to its columns; the request is
    valid and its identifiers are positive 64-bit numbers; the platform has the order pending and
    unfilled for this user, its original has the content of the request and a fee rate that the engine
    allows; no receipt is there yet. Then the receipt is stored and the order that the request describes, under
    its id, is handed to the core; the answer is 202 if the core confirms it, 503 if the core reports an error,
    and there is none if the handler panics. *)
Theorem stored_submission_accepted {W} {engine : Engine W} session request p w id row original :
  (∀ k q, se_others session k q = q) → (∀ k, se_fails session k = false) → se_commit session = Committed →
  validate_order_request request = Ok tt → cor_order_id request = Some id → 0 < id ≤ I64_MAX → 0 < cor_user_id request ≤ I64_MAX →
  pf_receipts p !! id = None → original_row id (cor_user_id request) p = Some row → from_row row = Ok original →
  matches original request = true → is_ok (fee dec_zero (sc_fee_rate original)) = true →
  (∀ d, Some d ∈ [Some (sc_fee_rate original); sc_price original; sc_amount original; sc_quote_amount original] →
     ∃ d', exact_parse (se_shown session d) = Some d' ∧ raw d' = raw d) →
  ∃ accepted entry p', order_entry (cor_user_id request) request accepted = Ok entry ∧ oe_id entry = id ∧
    is_Some (pf_receipts p' !! id) ∧
    let '(answer, q) := create_order session (cor_user_id request) request p w in
    q = (p', (engine_submit_order entry w).2) ∧
    create_order_status answer = match (engine_submit_order entry w).1 with Ok _ => Some 202 | Err _ => Some 503 | Panic => None end.
Proof.
  intros Hothers Hfails Hcommit Hvalid Hid Hidr Huser Hfree Hrow Hdec Hm Hfee Hshown.
  destruct (accept_clean session request p id row original) as (accepted & p' & Hacc & Hcreated & Hthere); try done.
  destruct (validated_entry request accepted (cor_user_id request) id Hvalid Hid) as (entry & Hentry & Hide).
  exists accepted, entry, p'. split; [done |]. split; [done |]. split; [done |].
  assert (Hprepare : prepare_order session (cor_user_id request) request p = (inr (accepted, entry), p')).
  { unfold prepare_order, mbind, tx_bind, require. rewrite Z.eqb_refl, Hvalid. unfold mret, tx_ret.
    by rewrite Hacc, Hentry. }
  unfold create_order. rewrite Hprepare. destruct (engine_submit_order entry w) as [[u|e|] w']; cbn;
    [by rewrite Hcreated | done | done].
Qed.
End order_properties.

(** ** The properties at concrete inputs *)

Section order_examples.
#[local] Existing Instance ref_externals.
#[local] Existing Instance ref_decimal_laws.

Definition ex_shown (d : Decimal) : string := numeric_text (get_ok 0 (units d)).
Definition ex_session (now : Z) (others : nat → Platform → Platform) : Session :=
  {| se_others := others; se_fails := fun _ => false; se_commit := Committed; se_now := now; se_shown := ex_shown |}.

(** The platform's original of order 1, and two requests that say the same in different words. *)
Definition ex_submission : CommandRow :=
  {| cw_order_id := 1; cw_user_id := 10; cw_order_type := "buy"; cw_order_side := "limit"; cw_base_mint := "BTC";
     cw_quote_mint := "USDT"; cw_price := Some (numeric_text 100000000000); cw_amount := Some (numeric_text 2000000000);
     cw_quote_amount := None; cw_fee_rate := Some "0.001000"%string; cw_accepted_at := 0 |}.
Definition ex_request (quote : option string) (price amount : string) : CreateOrderRequest :=
  {| cor_order_id := Some 1; cor_user_id := 10; cor_order_type := "buy"; cor_order_side := "limit"; cor_base_mint := "BTC";
     cor_quote_mint := quote; cor_price := Some (dz price); cor_amount := Some (dz amount); cor_quote_amount := None |}.
Definition ex_request1 : CreateOrderRequest := ex_request None "100" "2".
Definition ex_request2 : CreateOrderRequest := ex_request (Some usdt) "100.00" "2.0".
Definition ex_platform : Platform := mk_platform {[1 := ex_submission]} {[1 := (10, "pending"%string, true)]} ∅.

(** The order is filled and gone before it is sent again. *)
Definition ex_session1 : Session := ex_session 5 (fun _ p => p).
Definition ex_session2 : Session := ex_session 9 (fun _ p => mk_platform ∅ ∅ (pf_receipts p)).

Definition ex_no_acceptance : AcceptanceResult :=
  mk_acceptance {| oa_order_id := ""; oa_user_id := ""; oa_receipt_status := ""; oa_accepted_at := 0 |} false dec_zero.
Definition get_accepted (r : (Refusal + AcceptanceResult) * Platform) : AcceptanceResult :=
  match r.1 with inr accepted => accepted | inl _ => ex_no_acceptance end.
Lemma get_accepted_run r : match r.1 with inr _ => true | inl _ => false end = true → r = (inr (get_accepted r), r.2).
Proof. by destruct r as [[]]. Qed.

Definition ex_accept1 := accept ex_session1 ex_request1 ex_platform.
Definition ex_accept2 := accept ex_session2 ex_request2 ex_accept1.2.
Lemma ex_accepted1 : ex_accept1 = (inr (get_accepted ex_accept1), ex_accept1.2).
Proof. apply get_accepted_run. vm_compute. reflexivity. Qed.
Lemma ex_accepted2 : ex_accept2 = (inr (get_accepted ex_accept2), ex_accept2.2).
Proof. apply get_accepted_run. vm_compute. reflexivity. Qed.
Example ex_created : (ar_created (get_accepted ex_accept1), ar_created (get_accepted ex_accept2)) = (true, false).
Proof. vm_compute. reflexivity. Qed.

Lemma ex_kept2 : receipts_kept ex_session2.
Proof. intros k p. done. Qed.

Definition ex_entry1 : OrderEntry := get_ok ex_bid (order_entry 10 ex_request1 (get_accepted ex_accept1)).
Definition ex_entry2 : OrderEntry := get_ok ex_bid (order_entry 10 ex_request2 (get_accepted ex_accept2)).
Lemma ex_entry1_made : order_entry 10 ex_request1 (get_accepted ex_accept1) = Ok ex_entry1.
Proof. apply get_ok_run. vm_compute. reflexivity. Qed.
Lemma ex_entry2_made : order_entry 10 ex_request2 (get_accepted ex_accept2) = Ok ex_entry2.
Proof. apply get_ok_run. vm_compute. reflexivity. Qed.

Definition ex_knowing : EngineState := set_submission ex_entry1 state_new.
Lemma ex_known : submissions ex_knowing !! oe_id ex_entry1 = Some ex_entry1.
Proof. apply lookup_insert_eq. Qed.

Lemma retried_order_runs_once_witness :
  oe_eqb ex_entry2 ex_entry1 = true ∧ journal_apply (CmdSubmit ex_entry2) ex_knowing = (Ok (Applied None), ex_knowing).
Proof.
  exact (proj2 (retried_order_runs_once ex_session1 ex_session2 ex_request1 ex_request2 ex_platform ex_accept1.2
    ex_accept1.2 ex_accept2.2
    (get_accepted ex_accept1) (get_accepted ex_accept2) ex_entry1 ex_entry2 ex_knowing
    ex_kept2 ex_accepted1 (reflexivity _) ex_accepted2 eq_refl ex_entry1_made ex_entry2_made ex_known)).
Defined.

(** The original as the service reads it. *)
Definition ex_no_command : StoredCommand :=
  {| sc_fee_rate := dec_zero; sc_order_id := 0; sc_user_id := 0; sc_order_type := ""; sc_order_side := ""; sc_base_mint := "";
     sc_quote_mint := ""; sc_price := None; sc_amount := None; sc_quote_amount := None; sc_accepted_at := 0 |}.
Definition ex_original : StoredCommand := get_ok ex_no_command (from_row ex_submission).
Lemma ex_original_read : from_row ex_submission = Ok ex_original.
Proof. apply get_ok_run. vm_compute. reflexivity. Qed.

(** What a column of the example shows is read back as the same number. *)
Lemma ex_shown_units d n : in_units d n → ∃ d', exact_parse (ex_shown d) = Some d' ∧ raw d' = raw d.
Proof.
  intros Hin. unfold ex_shown. rewrite (proj2 (units_ok _ _) Hin). cbn [get_ok].
  destruct (numeric_total n (in_units_range _ _ Hin) (in_units_representable _ _ Hin)) as [d' Hd']. exists d'.
    split; [done |].
  destruct (numeric_sound n d' (in_units_range _ _ Hin) Hd') as [-> _]. by destruct Hin as [-> _].
Qed.
Definition ex_amounts : list (option Decimal) :=
  [Some (sc_fee_rate ex_original); sc_price ex_original; sc_amount ex_original; sc_quote_amount ex_original].
Lemma ex_shown_exactly d : Some d ∈ ex_amounts → ∃ d', exact_parse (ex_shown d) = Some d' ∧ raw d' = raw d.
Proof.
  assert (Hall : ∀ l : list (option Decimal),
    forallb (fun o => match o with Some d => is_ok (units d) | None => true end) l = true →
    Some d ∈ l → ∃ n, in_units d n).
  { intros l Hl Hin. apply list_elem_of_In in Hin. rewrite forallb_forall in Hl. specialize (Hl _ Hin). cbn in Hl.
    apply is_ok_spec in Hl as [n Hn]. exists n. by apply units_ok. }
  intros Hin. destruct (Hall ex_amounts ltac:(vm_compute; reflexivity) Hin) as [n Hn]. by apply (ex_shown_units d n).
Qed.

(** An engine that confirms everything. *)
#[local] Instance ex_engine : Engine unit := {|
  engine_submit_order _ := mret tt;
  engine_cancel_order _ _ _ := mret ex_bid;
  engine_get_orderbook _ _ := mret ([], []);
  engine_get_best_bid _ := mret None;
  engine_get_best_ask _ := mret None;
  engine_lock_balance _ _ _ := mret tt;
  engine_unlock_balance _ _ _ := mret tt;
  engine_get_balance _ _ := mret (dec_zero, dec_zero);
  engine_update_balance _ _ _ := mret tt;
|}.

Lemma stored_submission_accepted_witness :
  ∃ accepted entry p', order_entry 10 ex_request1 accepted = Ok entry ∧ oe_id entry = 1 ∧ is_Some (pf_receipts p' !! 1) ∧
    let '(answer, q) := create_order ex_session1 10 ex_request1 ex_platform tt in
    q = (p', tt) ∧ create_order_status answer = Some 202.
Proof.
  exact (stored_submission_accepted ex_session1 ex_request1 ex_platform tt 1 ex_submission ex_original
    (fun _ _ => eq_refl) (fun _ => eq_refl) eq_refl ltac:(vm_compute; reflexivity) eq_refl ltac:(unfold I64_MAX; lia)
    ltac:(unfold I64_MAX; cbn; lia) (lookup_empty _) ltac:(reflexivity) ex_original_read ltac:(vm_compute; reflexivity)
    ltac:(vm_compute; reflexivity) ex_shown_exactly).
Defined.
End order_examples.
