(* ===== verification/Repository.v ===== *)
(** * The repository of platform orders ([shared/database/repositories/cex/order_repository.rs])

    Queries and updates of the platform's table of orders. The table is the list of its rows in the
    order in which the database happens to find them, so that a statement about a query holds for every
    such order; each statement is what its SQL text says. What PostgreSQL does with numbers, times and
    collations is a parameter. *)

From stdpp Require Import base tactics list sorting strings.
From Stdlib Require Import ZArith Lia.
From S2P Require Import Prelude Text Decimals Amount RefDecimal Types Boundary Startup Orders.

(** ** What is used of the database *)

(** The columns [NUMERIC(30,9)] and [NUMERIC(20,8)]. *)
Inductive Column := Numeric30_9 | Numeric20_8.
Definition col_precision (c : Column) : Z := match c with Numeric30_9 => 30 | Numeric20_8 => 20 end.
Definition col_scale (c : Column) : Z := match c with Numeric30_9 => 9 | Numeric20_8 => 8 end.

(** A stored number is an integer of the column's last digit: how it is shown as text, what is stored
    of a decimal that is bound to the column ([None]: the field overflows), how texts and times are
    ordered, and what else the table demands of a row. *)
Class Postgres {E : Externals} := {
  numeric_shown : Column → Z → string;
  numeric_bound : Column → Decimal → option Z;
  collate : string → string → comparison;
  timestamp_cmp : Timestamp → Timestamp → comparison;
  constraints : string → string → string → bool;   (* order_type, order_side, status *)
}.

(** An order on the rows as a comparison. *)
Record preorder_cmp {A} (c : A → A → comparison) : Prop := {
  pc_flip a b : c b a = CompOpp (c a b);
  pc_trans a b d : c a b ≠ Gt → c b d ≠ Gt → c a d ≠ Gt;
}.

Class PostgresLaws {E : Externals} (P : Postgres) : Prop := {
  shown_sound c n d : 0 ≤ n < 10 ^ col_precision c → exact_parse (numeric_shown c n) = Some d → raw d = n * 10 ^ (28 - col_scale c);
  shown_total c n d : 0 ≤ n < 10 ^ col_precision c → raw d = n * 10 ^ (28 - col_scale c) → is_Some (exact_parse (numeric_shown c n));
  bound_exact c n d : 0 ≤ n < 10 ^ col_precision c → raw d = n * 10 ^ (28 - col_scale c) → numeric_bound c d = Some n;
  collate_order : preorder_cmp collate;
  timestamp_order : preorder_cmp timestamp_cmp;
}.

Section repository.
Context {E : Externals} {P : Postgres}.

(** ** The table *)

Record OrderRow := {
  rw_id : Z;
  rw_user_id : Z;
  rw_order_type : string;
  rw_order_side : string;
  rw_base_mint : string;
  rw_quote_mint : string;
  rw_price : option Z;
  rw_amount : Z;
  rw_filled_amount : Z;
  rw_filled_quote_amount : Z;
  rw_status : string;
  rw_created_at : Timestamp;
  rw_updated_at : Timestamp;
}.
Definition OrdersTable : Type := list OrderRow.

(** [row_to_order]. *)
Definition row_to_order (row : OrderRow) : result Order :=
  price ← read_optional_decimal "exact_price" (numeric_shown Numeric30_9 <$> rw_price row);
  amount ← read_decimal "exact_amount" (Some (numeric_shown Numeric30_9 (rw_amount row)));
  filled_amount ← read_decimal "exact_filled_amount" (Some (numeric_shown Numeric30_9 (rw_filled_amount row)));
  filled_quote_amount ← read_decimal "exact_filled_quote_amount" (Some (numeric_shown Numeric20_8 (rw_filled_quote_amount row)));
  Ok {| o_id := as_u64 (rw_id row); o_user_id := as_u64 (rw_user_id row); o_order_type := rw_order_type row;
        o_order_side := rw_order_side row; o_base_mint := rw_base_mint row; o_quote_mint := rw_quote_mint row;
        o_price := price; o_amount := amount; o_filled_amount := filled_amount;
        o_filled_quote_amount := filled_quote_amount; o_status := rw_status row;
        o_created_at := rw_created_at row; o_updated_at := rw_updated_at row |}.

(** ** Sorting *)

(** [ORDER BY a, b, ..]: the first comparison that decides. *)
Fixpoint order_by {A} (keys : list (A → A → comparison)) (a b : A) : comparison :=
  match keys with
  | [] => Eq
  | key :: keys => match key a b with Eq => order_by keys a b | decided => decided end
  end.
Definition precedes {A} (keys : list (A → A → comparison)) (a b : A) : Prop := order_by keys a b ≠ Gt.
#[export] Instance precedes_dec {A} (keys : list (A → A → comparison)) a b : Decision (precedes keys a b).
Proof. unfold precedes. apply _. Defined.
Definition sorted_by (keys : list (OrderRow → OrderRow → comparison)) (rows : OrdersTable) : OrdersTable :=
  merge_sort (precedes keys) rows.

(** [ASC] with the NULLs last and [DESC] with the NULLs first, which are the defaults, and [DESC NULLS
    LAST]. *)
Definition asc (a b : option Z) : comparison :=
  match a, b with
  | Some x, Some y => x ?= y
  | Some _, None => Lt
  | None, Some _ => Gt
  | None, None => Eq
  end.
Definition desc (a b : option Z) : comparison := asc b a.
Definition desc_nulls_last (a b : option Z) : comparison :=
  match a, b with
  | Some x, Some y => y ?= x
  | _, _ => asc a b
  end.

Definition on {K} (cmp : K → K → comparison) (key : OrderRow → K) (a b : OrderRow) : comparison := cmp (key a) (key b).
Definition created_asc : OrderRow → OrderRow → comparison := on timestamp_cmp rw_created_at.
Definition created_desc (a b : OrderRow) : comparison := created_asc b a.
(** [CASE WHEN order_type = '..' THEN price END]. *)
Definition price_when (kind : string) (row : OrderRow) : option Z := if String.eqb (rw_order_type row) kind then rw_price row else None.

Definition active (row : OrderRow) : bool := String.eqb (rw_status row) "pending" || String.eqb (rw_status row) "partial".
Definition in_market (base_mint quote_mint : string) (row : OrderRow) : bool :=
  String.eqb (rw_base_mint row) base_mint && String.eqb (rw_quote_mint row) quote_mint.

(** [LIMIT .. OFFSET ..]. *)
Definition page_of {A} (limit offset : Z) (rows : list A) : option (list A) :=
  if (limit <? 0) || (offset <? 0) then None else Some (take (Z.to_nat limit) (drop (Z.to_nat offset) rows)).

(** ** Queries *)

Definition where_ (p : OrderRow → bool) (table : OrdersTable) : OrdersTable := filter (fun row => p row = true) table.

(** A statement reaches the database or not; its failure gets the context of the call. *)
Context (reachable : bool).
Definition fetch {A} (rows : option A) (context : string) : result A := ok_or (if reachable then rows else None) context.

Definition get_by_id (order_id : Z) (table : OrdersTable) : result (option Order) :=
  row ← fetch (Some (List.find (fun row => rw_id row =? as_i64 order_id) table)) "Failed to fetch order by id";
  match row with
  | Some row => order ← row_to_order row; Ok (Some order)
  | None => Ok None
  end.

Definition get_all_by_user (user_id : Z) (limit offset : option Z) (table : OrdersTable) : result (list Order) :=
  rows ← fetch (page_of (default 100 limit) (default 0 offset)
                  (sorted_by [created_desc] (where_ (fun row => rw_user_id row =? as_i64 user_id) table)))
           "Failed to fetch orders by user";
  map_results row_to_order rows.

Definition get_by_user_and_status (user_id : Z) (status : string) (limit offset : option Z) (table : OrdersTable) : result (list Order) :=
  rows ← fetch (page_of (default 100 limit) (default 0 offset)
                  (sorted_by [created_desc]
                     (where_ (fun row => (rw_user_id row =? as_i64 user_id) && String.eqb (rw_status row) status) table)))
           "Failed to fetch orders by user and status";
  map_results row_to_order rows.

(** The rows of one side of the order book. *)
Definition priced (kind base_mint quote_mint : string) (row : OrderRow) : bool :=
  in_market base_mint quote_mint row && String.eqb (rw_order_type row) kind && active row && bool_decide (is_Some (rw_price row)).
Definition buy_side (base_mint quote_mint : string) (table : OrdersTable) : OrdersTable :=
  sorted_by [on desc rw_price; created_asc] (where_ (priced "buy" base_mint quote_mint) table).
Definition sell_side (base_mint quote_mint : string) (table : OrdersTable) : OrdersTable :=
  sorted_by [on asc rw_price; created_asc] (where_ (priced "sell" base_mint quote_mint) table).

(** The two sides are read by two statements, between which the table may change. *)
Definition repository_orderbook (base_mint quote_mint : string) (limit : option Z) (table table' : OrdersTable) : result (list Order * list Order) :=
  let limit := default 50 limit in
  buy_orders ← fetch (page_of limit 0 (buy_side base_mint quote_mint table)) "Failed to fetch buy orders for orderbook";
  sell_orders ← fetch (page_of limit 0 (sell_side base_mint quote_mint table')) "Failed to fetch sell orders for orderbook";
  buys ← map_results row_to_order buy_orders;
  sells ← map_results row_to_order sell_orders;
  Ok (buys, sells).

Definition get_active_orders (base_mint quote_mint : string) (order_type : option string) (table : OrdersTable) : result (list Order) :=
  let of_type row := match order_type with Some kind => String.eqb (rw_order_type row) kind | None => true end in
  rows ← fetch (Some (sorted_by [on desc (price_when "buy"); on asc (price_when "sell"); created_asc]
                        (where_ (fun row => in_market base_mint quote_mint row && of_type row && active row) table)))
           "Failed to fetch active orders";
  map_results row_to_order rows.

Definition get_all_active_orders (table : OrdersTable) : result (list Order) :=
  rows ← fetch (Some (sorted_by [on collate rw_base_mint; on collate rw_quote_mint; on desc_nulls_last (price_when "buy");
                                 on asc (price_when "sell"); created_asc] (where_ active table)))
           "Failed to fetch all active orders";
  map_results row_to_order rows.

(** ** Changes *)

Record OrderCreate := {
  oc_user_id : Z;
  oc_order_type : string;
  oc_order_side : string;
  oc_base_mint : string;
  oc_quote_mint : string;
  oc_price : option Decimal;
  oc_amount : Decimal;
}.

Definition optional_bound (value : option Decimal) : option (option Z) :=
  match value with
  | None => Some None
  | Some d => match numeric_bound Numeric30_9 d with Some n => Some (Some n) | None => None end
  end.

(** The row that [INSERT] makes, with the next value of the sequence. *)
Definition inserted (id : Z) (now : Timestamp) (order_create : OrderCreate) : option OrderRow :=
  price ← optional_bound (oc_price order_create);
  amount ← numeric_bound Numeric30_9 (oc_amount order_create);
  zero ← numeric_bound Numeric30_9 dec_zero;
  zero_quote ← numeric_bound Numeric20_8 dec_zero;
  if constraints (oc_order_type order_create) (oc_order_side order_create) "pending" then
    Some {| rw_id := id; rw_user_id := as_i64 (oc_user_id order_create); rw_order_type := oc_order_type order_create;
            rw_order_side := oc_order_side order_create; rw_base_mint := oc_base_mint order_create;
            rw_quote_mint := oc_quote_mint order_create; rw_price := price; rw_amount := amount; rw_filled_amount := zero;
            rw_filled_quote_amount := zero_quote; rw_status := "pending"; rw_created_at := now; rw_updated_at := now |}
  else None.

Definition has_id (id : Z) (row : OrderRow) : bool := rw_id row =? id.

Definition create (id : Z) (now : Timestamp) (order_create : OrderCreate) : st OrdersTable Order :=
  table ← sget;
  row ← lift (fetch (row ← inserted id now order_create; if existsb (has_id id) table then None else Some row)
                "Failed to create order");
  _ ← sput (table ++ [row]);
  lift (row_to_order row).

(** [UPDATE .. WHERE id = .. RETURNING ..] with [fetch_one]: the row that is there is replaced, unless
    the change is refused. *)
Fixpoint updated (id : Z) (change : OrderRow → option OrderRow) (table : OrdersTable) : option (OrderRow * OrdersTable) :=
  match table with
  | [] => None
  | row :: rest =>
      if has_id id row then row' ← change row; Some (row', row' :: rest)
      else '(row', rest') ← updated id change rest; Some (row', row :: rest')
  end.
Definition update_one (id : Z) (change : OrderRow → option OrderRow) (context : string) : st OrdersTable Order :=
  table ← sget;
  done_ ← lift (fetch (updated id change table) context);
  _ ← sput done_.2;
  lift (row_to_order done_.1).

Definition with_status (status : string) (filled_amount : Z) (now : Timestamp) (row : OrderRow) : OrderRow :=
  {| rw_id := rw_id row; rw_user_id := rw_user_id row; rw_order_type := rw_order_type row; rw_order_side := rw_order_side row;
     rw_base_mint := rw_base_mint row; rw_quote_mint := rw_quote_mint row; rw_price := rw_price row; rw_amount := rw_amount row;
     rw_filled_amount := filled_amount; rw_filled_quote_amount := rw_filled_quote_amount row; rw_status := status;
     rw_created_at := rw_created_at row; rw_updated_at := now |}.
Definition checked_row (row : OrderRow) : option OrderRow :=
  if constraints (rw_order_type row) (rw_order_side row) (rw_status row) then Some row else None.

Definition update_status (now : Timestamp) (order_id : Z) (status : string) : st OrdersTable Order :=
  update_one (as_i64 order_id) (fun row => checked_row (with_status status (rw_filled_amount row) now row)) "Failed to update order status".

(** The status after the filled amount was set; the parameter is compared as it is, before the column
    rounds it. *)
Definition filled_status (filled_amount : Decimal) (row : OrderRow) : string :=
  if rw_amount row * 10 ^ 19 <=? raw filled_amount then "filled"
  else if 0 <? raw filled_amount then "partial"
  else rw_status row.
Definition update_filled_amount (now : Timestamp) (order_id : Z) (filled_amount : Decimal) : st OrdersTable Order :=
  update_one (as_i64 order_id)
    (fun row => n ← numeric_bound Numeric30_9 filled_amount; checked_row (with_status (filled_status filled_amount row) n now row))
    "Failed to update order filled amount".

Definition repository_cancel (now : Timestamp) (order_id : Z) : st OrdersTable Order :=
  update_one (as_i64 order_id)
    (fun row => if active row then checked_row (with_status "cancelled" (rw_filled_amount row) now row) else None)
    "Failed to cancel order. Order may not exist or already be filled/cancelled".
End repository.

(** ** Facts about the orders and the updates *)

Section repository_facts.

Lemma preorder_flip {A} (c : A → A → comparison) : preorder_cmp c → preorder_cmp (fun a b => c b a).
Proof. intros [Hf Ht]. split; [intros a b; apply Hf | intros a b d Hab Hbd; by eapply Ht]. Qed.

Lemma preorder_on {K A} (c : K → K → comparison) (key : A → K) : preorder_cmp c → preorder_cmp (fun a b => c (key a) (key b)).
Proof. intros [Hf Ht]. split; [intros a b; apply Hf | intros a b d; apply Ht]. Qed.

Lemma preorder_asc : preorder_cmp asc.
Proof.
  split.
  - intros [x|] [y|]; cbn; [apply Z.compare_antisym | done..].
  - intros [x|] [y|] [z|]; cbn; try done. rewrite !Z.compare_gt_iff. lia.
Qed.
Lemma preorder_desc : preorder_cmp desc.
Proof. apply preorder_flip, preorder_asc. Qed.

Lemma preorder_order_by {A} (keys : list (A → A → comparison)) : Forall preorder_cmp keys → preorder_cmp (order_by keys).
Proof.
  induction 1 as [|key keys [Hf Ht] _ [IHf IHt]]; [by split |]. split.
  - intros a b. cbn. rewrite (Hf a b). destruct (key a b); [apply IHf | done..].
  - intros a b d. cbn. pose proof (Ht a b d) as H1. pose proof (Ht b d a) as H2. pose proof (Ht d a b) as H3.
    rewrite (Hf a d), (Hf a b), (Hf b d) in *.
    destruct (key a b), (key b d), (key a d); cbn in *; try done; try (by eapply IHt); exfalso; naive_solver.
Qed.

Lemma precedes_total {A} (keys : list (A → A → comparison)) : Forall preorder_cmp keys → Total (precedes keys).
Proof.
  intros Hk%preorder_order_by a b. unfold precedes. rewrite (pc_flip _ Hk a b).
  by destruct (order_by keys a b); [left | left | right].
Qed.
Lemma precedes_trans {A} (keys : list (A → A → comparison)) : Forall preorder_cmp keys → Transitive (precedes keys).
Proof. intros Hk%preorder_order_by a b d. apply (pc_trans _ Hk). Qed.

(** A sorted result is the same rows in the order. *)
Lemma sorted_by_spec {E : Externals} keys (rows : OrdersTable) :
  Forall preorder_cmp keys → sorted_by keys rows ≡ₚ rows ∧ StronglySorted (precedes keys) (sorted_by keys rows).
Proof.
  intros Hk. split; [apply merge_sort_Permutation |].
  pose proof (precedes_total keys Hk) as Htot. pose proof (precedes_trans keys Hk) as Htrans.
    by apply StronglySorted_merge_sort.
Qed.

(** An update replaces the row with the identifier, or is refused. *)
Lemma updated_some {E : Externals} id change (table : OrdersTable) row' table' :
  updated id change table = Some (row', table') →
  ∃ before row after, table = before ++ row :: after ∧ Forall (fun r => rw_id r ≠ id) before ∧ rw_id row = id ∧
    change row = Some row' ∧ table' = before ++ row' :: after.
Proof.
  revert row' table'. induction table as [|row rest IH]; intros row' table'; [done |]. cbn. unfold has_id.
  destruct (Z.eqb_spec (rw_id row) id) as [Hid|Hid].
  - destruct (change row) as [r|] eqn:Hc; [| done]. intros [= <- <-]. by exists [], row, rest.
  - destruct (updated id change rest) as [[r rest']|]; [| done]. intros [= <- <-].
    destruct (IH _ _ eq_refl) as (before & row0 & after & -> & Hb & Hi & Hc & ->).
    exists (row :: before), row0, after. split_and!; [done | by constructor | done..].
Qed.

Lemma updated_none {E : Externals} id change (table : OrdersTable) :
  (∀ row, row ∈ table → rw_id row = id → change row = None) → updated id change table = None.
Proof.
  induction table as [|row rest IH]; intros Hno; [done |]. cbn. unfold has_id.
    destruct (Z.eqb_spec (rw_id row) id) as [Hid|Hid].
  - by rewrite (Hno row (list_elem_of_here _ _) Hid).
  - rewrite IH; [done |]. intros r Hr. apply Hno. by right.
Qed.
End repository_facts.

(** ** Properties *)

Section repository_properties.
Context {E : Externals} {L : DecimalLaws ext_decimal} {P : Postgres} {PL : PostgresLaws P}.

(** The price of a row that has one. *)
Definition price_of (row : OrderRow) : Z := default 0 (rw_price row).
(** A better price first; at the same price the older order first. *)
Definition ahead (buy : bool) (a b : OrderRow) : Prop :=
  (if buy then price_of b < price_of a else price_of a < price_of b) ∨
  price_of a = price_of b ∧ timestamp_cmp (rw_created_at a) (rw_created_at b) ≠ Gt.

Lemma side_sorted (buy : bool) (p : OrderRow → bool) table :
  (∀ row, p row = true → is_Some (rw_price row)) →
  let rows := sorted_by [on (if buy then desc else asc) rw_price; created_asc] (where_ p table) in
  rows ≡ₚ where_ p table ∧ StronglySorted (ahead buy) rows.
Proof.
  intros Hpriced rows.
  destruct (sorted_by_spec [on (if buy then desc else asc) rw_price; created_asc] (where_ p table)) as [Hperm Hsorted].
  { constructor; [destruct buy;
    [apply (preorder_on desc rw_price), preorder_desc | apply (preorder_on asc rw_price), preorder_asc] |].
    constructor; [apply (preorder_on timestamp_cmp rw_created_at), timestamp_order | constructor]. }
  split; [exact Hperm |]. fold rows in Hperm, Hsorted.
  assert (Hall : Forall (fun row => is_Some (rw_price row)) rows).
  { rewrite Hperm. apply Forall_forall. intros row Hrow. apply list_elem_of_filter in Hrow as [Hrow _].
    by apply Hpriced. }
  clearbody rows. clear -Hsorted Hall. induction Hsorted as [|row rest _ IH Hhd]; [constructor |].
  apply Forall_cons in Hall as [[x Hx] Hall]. constructor; [by apply IH |].
  rewrite Forall_forall in Hhd, Hall |- *. intros other Hother. specialize (Hhd _ Hother) as Hle.
    destruct (Hall _ Hother) as [y Hy].
  unfold precedes, order_by, on, created_asc, on in Hle. unfold ahead, price_of. rewrite Hx, Hy in *. cbn [default].
  destruct buy; unfold desc, asc in Hle; cbn in Hle |- *.
  - destruct (Z.compare_spec y x); [right | by left; lia | done]. split; [done |]. by destruct (timestamp_cmp _ _).
  - destruct (Z.compare_spec x y); [right | by left; lia | done]. split; [done |]. by destruct (timestamp_cmp _ _).
Qed.

(** C27. The order book of the repository is in price-time order and leaves nobody out. In whatever
    order the database finds the rows, each side is, read exactly, the beginning of all the active
    priced orders of the market, best price first and the older order first at the same price. (The
    sides are read one after the other, so each is about the table at its own moment.) *)
Theorem repository_orderbook_priority base quote limit table table' buys sells :
  repository_orderbook true base quote limit table table' = Ok (buys, sells) →
  ∃ all_buys all_sells,
    all_buys ≡ₚ where_ (priced "buy" base quote) table ∧ all_sells ≡ₚ where_ (priced "sell" base quote) table' ∧
    StronglySorted (ahead true) all_buys ∧ StronglySorted (ahead false) all_sells ∧
    let shown := Z.to_nat (default 50 limit) in
    Forall2 (fun row order => row_to_order row = Ok order) (take shown all_buys) buys ∧
    Forall2 (fun row order => row_to_order row = Ok order) (take shown all_sells) sells.
Proof.
  assert (Hpriced : ∀ kind row, priced kind base quote row = true → is_Some (rw_price row)).
  { intros kind row. unfold priced. rewrite !andb_true_iff. intros [_ Hp]. by apply bool_decide_eq_true in Hp. }
  unfold repository_orderbook. cbn zeta. set (n := default 50 limit). intros Hrun.
  apply bind_ok in Hrun as (brows & Hb & Hrun). apply bind_ok in Hrun as (srows & Hs & Hrun).
  apply bind_ok in Hrun as (bs & Hbs & Hrun). apply bind_ok in Hrun as (ss & Hss & Hrun). injection Hrun as -> ->.
  destruct (side_sorted true (priced "buy" base quote) table (Hpriced _)) as [Hpb Hsb].
  destruct (side_sorted false (priced "sell" base quote) table' (Hpriced _)) as [Hps Hss'].
  exists (buy_side base quote table), (sell_side base quote table').
  assert (Hpage : ∀ (rows : OrdersTable) context out, fetch true (page_of n 0 rows) context = Ok out →
    out = take (Z.to_nat n) rows).
  { intros rows context out. unfold fetch, page_of. destruct ((n <? 0) || (0 <? 0)); [done |]. by intros [= <-]. }
  apply Hpage in Hb as ->. apply Hpage in Hs as ->.
  split_and!; [exact Hpb | exact Hps | exact Hsb | exact Hss' | by apply map_results_Forall2 | by apply
    map_results_Forall2].
Qed.

(** A column shows and reads a number that decimals have. *)
Lemma column_reads c n d :
  0 ≤ n < 10 ^ col_precision c → raw d = n * 10 ^ (28 - col_scale c) →
  ∃ d', exact_parse (numeric_shown c n) = Some d' ∧ raw d' = raw d.
Proof.
  intros Hn Hr. destruct (shown_total c n d Hn Hr) as [d' Hd']. exists d'. split; [done |].
  rewrite Hr. by apply shown_sound.
Qed.

Lemma units_bound d n : in_units d n → 0 ≤ n < 10 ^ col_precision Numeric30_9 ∧ raw d = n * 10 ^ (28 - col_scale Numeric30_9).
Proof. intros [Hr Hn]. unfold MAX_UNITS in Hn. cbn. lia. Qed.

Lemma bound_read name d n : in_units d n →
  numeric_bound Numeric30_9 d = Some n ∧ ∃ d', read_decimal name (Some (numeric_shown Numeric30_9 n)) = Ok d' ∧ raw d' = raw d.
Proof.
  intros [Hn Hr]%units_bound. split; [by apply bound_exact |].
  destruct (column_reads _ _ _ Hn Hr) as (d' & Hd' & Hraw). exists d'. split; [| done].
  unfold read_decimal, parse_column. cbn. by rewrite Hd'.
Qed.

Lemma zero_read name c : numeric_bound c dec_zero = Some 0 ∧ ∃ d', read_decimal name (Some (numeric_shown c 0)) = Ok d' ∧ raw d' = 0.
Proof.
  assert (H0 : 0 ≤ 0 < 10 ^ col_precision c) by (by destruct c).
  assert (Hr : raw dec_zero = 0 * 10 ^ (28 - col_scale c)) by (rewrite zero_raw; lia).
  split; [by apply bound_exact |]. destruct (column_reads c 0 dec_zero H0 Hr) as (d' & Hd' & Hraw).
  exists d'. rewrite Hraw, zero_raw. split; [| done]. unfold read_decimal, parse_column. cbn. by rewrite Hd'.
Qed.

Lemma optional_bound_read name o :
  (∀ d, o = Some d → ∃ n, in_units d n) →
  ∃ n, optional_bound o = Some n ∧
    ∃ o', read_optional_decimal name (numeric_shown Numeric30_9 <$> n) = Ok o' ∧ raw <$> o' = raw <$> o.
Proof.
  intros Ho. destruct o as [d|]; [| by exists None; split; [| exists None]].
  destruct (Ho d eq_refl) as [n [Hb Hr]%units_bound]. cbn. rewrite (bound_exact _ _ _ Hb Hr). exists (Some n).
    split; [done |].
  destruct (column_reads _ _ _ Hb Hr) as (d' & Hd' & Hraw). exists (Some d').
  unfold read_optional_decimal, parse_column. cbn. rewrite Hd'. split; [done |].
    cbn. by rewrite Hraw.
Qed.

Lemma find_app_new id (table : OrdersTable) row :
  existsb (has_id id) table = false → rw_id row = id → List.find (fun row => rw_id row =? id) (table ++ [row]) = Some row.
Proof.
  intros Hno Hid. induction table as [|r rest IH]; cbn in *; [by rewrite Hid, Z.eqb_refl |].
  unfold has_id in Hno at 1. apply orb_false_iff in Hno as [-> Hno]. by apply IH.
Qed.


(** A cancellation in the repository changes the row of one active order and nothing else. *)
Lemma repository_cancel_exact now order_id table r table' :
  repository_cancel true now order_id table = (r, table') →
  (is_ok r = false ∧ table' = table) ∨
  ∃ before row after, table = before ++ row :: after ∧ rw_id row = as_i64 order_id ∧ active row = true ∧
    let row' := with_status "cancelled" (rw_filled_amount row) now row in
    table' = before ++ row' :: after ∧ r = row_to_order row'.
Proof.
  unfold repository_cancel, update_one, fetch, mbind, st_bind, sget, lift, sput.
  destruct (updated _ _ _) as [[row' table1]|] eqn:Hu; cbn; intros [= <- <-]; [| by left]. right.
  apply updated_some in Hu as (before & row & after & -> & _ & Hid & Hc & ->).
  destruct (active row) eqn:Ha; [| done]. unfold checked_row in Hc. destruct (constraints _ _ _); [| done].
    injection Hc as <-.
  by exists before, row, after.
Qed.
End repository_properties.

(** ** The properties at concrete inputs *)

Section repository_examples.
#[local] Existing Instance ref_externals.
#[local] Existing Instance ref_decimal_laws.

(** Columns that show nine places, and round what is bound to them away from zero. *)
Definition ex_shown_column (c : Column) (n : Z) : string := numeric_text (n * 10 ^ (9 - col_scale c)).
Definition ex_bound_column (c : Column) (d : Decimal) : option Z :=
  let unit := 10 ^ (28 - col_scale c) in
  let n := (raw d + unit / 2) / unit in
  if (0 <=? n) && (n <? 10 ^ col_precision c) then Some n else None.
Definition ex_postgres : Postgres :=
  {| numeric_shown := ex_shown_column; numeric_bound := ex_bound_column;
     collate := fun a b => Z.compare (slen a) (slen b); timestamp_cmp := Z.compare;
     constraints := fun kind side status => (String.eqb kind "buy" || String.eqb kind "sell") && (String.eqb side "limit" || String.eqb side "market") |}.
#[local] Existing Instance ex_postgres.

Lemma preorder_compare : preorder_cmp Z.compare.
Proof.
  split; [intros a b; apply Z.compare_antisym | intros a b d; rewrite !Z.compare_gt_iff; lia].
Qed.

Lemma ex_postgres_laws : PostgresLaws ex_postgres.
Proof.
  assert (Hscale : ∀ c n, 0 ≤ n < 10 ^ col_precision c → 0 ≤ n * 10 ^ (9 - col_scale c) ≤ MAX_UNITS)
    by (intros [] n Hn; unfold MAX_UNITS; cbn in *; lia).
  assert (Hraw : ∀ c n, n * 10 ^ (28 - col_scale c) = n * 10 ^ (9 - col_scale c) * 10 ^ 19) by (intros [] n; cbn; lia).
  split.
  - intros c n d Hn Hd. pose proof (numeric_sound _ _ (Hscale c n Hn) Hd) as [Hr _]. rewrite Hraw. exact Hr.
  - intros c n d Hn Hr. destruct (numeric_total (n * 10 ^ (9 - col_scale c)) (Hscale c n Hn)) as [d' Hd'];
    [| by exists d'].
    eapply in_units_representable. split; [rewrite <- Hraw; exact Hr | by apply Hscale].
  - intros c n d Hn Hr. unfold numeric_bound, ex_postgres, ex_bound_column. cbn zeta. rewrite Hr.
    assert (Hu : 0 < 10 ^ (28 - col_scale c)) by (by destruct c).
    set (unit := 10 ^ (28 - col_scale c)) in *.
    assert (Hhalf : 0 ≤ unit / 2 < unit) by (split; [apply Z.div_pos | apply Z.div_lt]; lia).
    rewrite Z.div_add_l, (Z.div_small (unit / 2)) by lia.
    rewrite Z.add_0_r. by rewrite (proj2 (Z.leb_le _ _)), (proj2 (Z.ltb_lt _ _)) by lia.
  - exact (preorder_on Z.compare slen preorder_compare).
  - exact preorder_compare.
Qed.

Definition ex_order_create : OrderCreate :=
  {| oc_user_id := 10; oc_order_type := "buy"; oc_order_side := "limit"; oc_base_mint := "SOL"; oc_quote_mint := "USDT";
     oc_price := Some (dz "100.25"); oc_amount := dz "1.5" |}.
Lemma ex_create_amount : in_units (oc_amount ex_order_create) 1500000000.
Proof. split; [vm_compute; reflexivity | vm_compute; split; discriminate]. Qed.
Lemma ex_create_price d : oc_price ex_order_create = Some d → ∃ m, in_units d m.
Proof.
  assert (Hgen : ∀ o : option Decimal, default 0 (raw <$> o) = 100250000000 * 10 ^ 19 → o = Some d → ∃ m, in_units d m).
  { intros o Ho ->. exists 100250000000. split; [exact Ho | vm_compute; split; discriminate]. }
  apply Hgen. vm_compute. reflexivity.
Qed.


(** Three buys and a sell of one market, one of the buys is cancelled. *)
Definition ex_order_row (id : Z) (kind : string) (price : Z) (status : string) (created : Z) : OrderRow :=
  {| rw_id := id; rw_user_id := 10; rw_order_type := kind; rw_order_side := "limit"; rw_base_mint := "SOL"; rw_quote_mint := "USDT";
     rw_price := Some price; rw_amount := 1000000000; rw_filled_amount := 0; rw_filled_quote_amount := 0; rw_status := status;
     rw_created_at := (created : Z); rw_updated_at := (created : Z) |}.
Definition ex_orders_table : OrdersTable :=
  [ex_order_row 1 "buy" 9000000000 "pending" 3; ex_order_row 2 "buy" 100000000000 "partial" 4;
   ex_order_row 3 "buy" 200000000000 "cancelled" 5; ex_order_row 4 "sell" 300000000000 "pending" 6;
   ex_order_row 5 "buy" 9000000000 "pending" 1].
Definition ex_book_read : list Order * list Order := get_ok ([], []) (repository_orderbook true "SOL" "USDT" None ex_orders_table ex_orders_table).
Lemma ex_book_run : repository_orderbook true "SOL" "USDT" None ex_orders_table ex_orders_table = Ok (ex_book_read.1, ex_book_read.2).
Proof.
  assert (Hpair : ∀ r : result (list Order * list Order), is_ok r = true → r = Ok ((get_ok ([], []) r).1,
    (get_ok ([], []) r).2)) by by intros [[]| |].
  apply Hpair. vm_compute. reflexivity.
Qed.
Lemma repository_orderbook_priority_witness :
  ∃ all_buys, all_buys ≡ₚ where_ (priced "buy" "SOL" "USDT") ex_orders_table ∧ StronglySorted (ahead true) all_buys ∧
    Forall2 (fun row order => row_to_order row = Ok order) (take 50 all_buys) ex_book_read.1.
Proof.
  destruct (repository_orderbook_priority (PL:=ex_postgres_laws) "SOL" "USDT" None ex_orders_table ex_orders_table _ _ ex_book_run)
    as (buys & sells & H1 & _ & H2 & _ & H3 & _).
  exists buys. exact (conj H1 (conj H2 H3)).
Defined.
Example ex_book_ids : (map o_id ex_book_read.1, map o_id ex_book_read.2) = ([2; 5; 1], [4]).
Proof. vm_compute. reflexivity. Qed.
End repository_examples.
