(* ===== verification/Handle.v ===== *)
(** * The command handle and the handlers of deposits and withdrawals ([runtime/handle.rs],
      [handlers/deposit_handler.rs], [handlers/withdrawal_handler.rs])

    A caller puts a request into one of the two bounded queues, without ever waiting for room, and waits
    for the answer for a limited time. An answer is definite; anything else after the request was queued
    is an unknown outcome. What the caller waits for is an argument here: it is what the reply channel
    gave before the time was over. *)

From stdpp Require Import base tactics gmap list strings.
From Stdlib Require Import ZArith Lia.
From S2P Require Import Prelude Text Decimals Amount BTree RefDecimal Types BalanceCache OrderBook Matcher Submission State Deposit Withdrawal Cancel Journal History Resting EngineLoop Store Durability Boundary.

Section handle.
Context {E : Externals}.

(** ** Sending *)

(** [bounded(100_000)], for both queues. *)
Definition QUEUE_CAPACITY : Z := 100000.
Definition has_room {A} (queue : list A) : bool := Z.of_nat (length queue) <? QUEUE_CAPACITY.

Definition is_accepting (w : Worker) : bool := negb (w_closed w).

Definition send_order (command : OrderCommand) : st Worker unit :=
  w ← sget;
  _ ← lift (ensure (is_accepting w) "Engine command channel is closed");
  _ ← lift (ensure (has_room (w_orders w)) "Engine queue unavailable: sending on a full channel");
  sput (drop_order w (w_orders w ++ [command])).

Definition send_balance (command : BalanceCommand) : st Worker unit :=
  w ← sget;
  _ ← lift (ensure (is_accepting w) "Engine command channel is closed");
  _ ← lift (ensure (has_room (w_balances w)) "Engine balance queue unavailable: sending on a full channel");
  sput (drop_balance w (w_balances w ++ [command])).

(** What the reply channel gave: the answer, the loss of its sender, or nothing in time. *)
Inductive Waited (A : Type) :=
  | Received (r : result A)
  | SenderDropped
  | TimedOut.
#[global] Arguments Received {A} r.
#[global] Arguments SenderDropped {A}.
#[global] Arguments TimedOut {A}.

Definition await {A} (late dropped : string) (waited : Waited A) : result A :=
  match waited with
  | Received r => r
  | SenderDropped => Err dropped
  | TimedOut => Err late
  end.

(** [map_err(|e| anyhow!("{prefix}: {e}"))] on the way into the queue. *)
Definition prefixed (prefix : string) (m : st Worker unit) : st Worker unit := fun w =>
  match m w with
  | (Err e, w') => (Err (prefix +:+ e), w')
  | other => other
  end.
Definition no_response : string := "Failed to receive response: channel closed".

(** ** The commands of the engine interface *)

Definition submit_order (order : OrderEntry) (response : Z) (waited : Waited unit) : st Worker unit :=
  _ ← send_order (SubmitOrder order response);
  lift (await "Durable submission outcome unknown; retry the same order id"
          "Journal response unavailable; retry the same order id" waited).

Definition handle_cancel_order (order_id user_id : Z) (pair : TradingPair) (response : Z) (waited : Waited OrderEntry) :
    st Worker OrderEntry :=
  _ ← prefixed "Failed to send cancel command: " (send_order (CancelOrder order_id user_id pair response));
  lift (await "Cancel order timeout" no_response waited).

Definition get_orderbook (pair : TradingPair) (depth : option nat) (response : Z)
    (waited : Waited (list OrderEntry * list OrderEntry)) : st Worker (list OrderEntry * list OrderEntry) :=
  _ ← prefixed "Failed to send get_orderbook command: " (send_order (GetOrderbook pair depth response));
  lift (await "Get orderbook timeout" no_response waited).

(** The price of the first order, if there is one. *)
Definition first_price (orders : list OrderEntry) : option Decimal :=
  match orders with [] => None | order :: _ => oe_price order end.

Definition handle_best_bid (pair : TradingPair) (response : Z) (waited : Waited (list OrderEntry * list OrderEntry)) :
    st Worker (option Decimal) :=
  book ← get_orderbook pair (Some 1%nat) response waited;
  mret (first_price book.1).

Definition handle_best_ask (pair : TradingPair) (response : Z) (waited : Waited (list OrderEntry * list OrderEntry)) :
    st Worker (option Decimal) :=
  book ← get_orderbook pair (Some 1%nat) response waited;
  mret (first_price book.2).

Definition handle_lock_balance (user_id : Z) (mint : string) (amount : Decimal) (response : Z) (waited : Waited unit) : st Worker unit :=
  _ ← prefixed "Failed to send lock_balance command: " (send_order (LockBalance user_id mint amount response));
  lift (await "Lock balance timeout" no_response waited).

Definition handle_unlock_balance (user_id : Z) (mint : string) (amount : Decimal) (response : Z) (waited : Waited unit) : st Worker unit :=
  _ ← prefixed "Failed to send unlock_balance command: " (send_order (UnlockBalance user_id mint amount response));
  lift (await "Unlock balance timeout" no_response waited).

Definition handle_get_balance (user_id : Z) (mint : string) (response : Z) (waited : Waited (Decimal * Decimal)) :
    st Worker (Decimal * Decimal) :=
  _ ← prefixed "Failed to send get_balance command: " (send_order (GetBalance user_id mint response));
  lift (await "Get balance timeout" no_response waited).

Definition update_balance (user_id : Z) (mint : string) (available_delta : Decimal) (response : Z) (waited : Waited unit) : st Worker unit :=
  _ ← prefixed "Failed to send update_balance command: " (send_balance (BalUpdateBalance user_id mint available_delta response));
  lift (await "Update balance timeout" no_response waited).

(** What the reply channel of a call gave, by the type of its answer. *)
Record Waits := {
  on_unit : Waited unit;
  on_order : Waited OrderEntry;
  on_book : Waited (list OrderEntry * list OrderEntry);
  on_balance : Waited (Decimal * Decimal);
}.
Definition wait_unit (waited : Waited unit) : Waits :=
  {| on_unit := waited; on_order := TimedOut; on_book := TimedOut; on_balance := TimedOut |}.
Definition wait_order (waited : Waited OrderEntry) : Waits :=
  {| on_unit := TimedOut; on_order := waited; on_book := TimedOut; on_balance := TimedOut |}.

(** [impl Engine for EngineHandle]. *)
Definition handle_engine (response : Z) (waits : Waits) : Engine Worker := {|
  engine_submit_order order := submit_order order response (on_unit waits);
  engine_cancel_order order_id user_id pair := handle_cancel_order order_id user_id pair response (on_order waits);
  engine_get_orderbook pair depth := get_orderbook pair depth response (on_book waits);
  engine_get_best_bid pair := handle_best_bid pair response (on_book waits);
  engine_get_best_ask pair := handle_best_ask pair response (on_book waits);
  engine_lock_balance user_id mint amount := handle_lock_balance user_id mint amount response (on_unit waits);
  engine_unlock_balance user_id mint amount := handle_unlock_balance user_id mint amount response (on_unit waits);
  engine_get_balance user_id mint := handle_get_balance user_id mint response (on_balance waits);
  engine_update_balance user_id mint delta := update_balance user_id mint delta response (on_unit waits);
|}.

(** ** Deposits and withdrawals: three kinds of failure *)

Inductive CommandError :=
  | NotAccepted
  | OutcomeUnknown
  | DurablyRejected (reason : string).

(** [credit_deposit], [change_withdrawal]: [None] is success. *)
Definition definite (command : BalanceCommand) (waited : Waited unit) (w : Worker) : option CommandError * Worker :=
  match send_balance command w with
  | (Ok _, w') =>
      (match waited with
       | Received (Ok _) => None
       | Received (Err reason) => Some (DurablyRejected reason)
       | Received Panic | SenderDropped | TimedOut => Some OutcomeUnknown
       end, w')
  | (_, w') => (Some NotAccepted, w')
  end.
Definition handle_credit_deposit (credit : DepositCredit) (response : Z) : Waited unit → Worker → option CommandError * Worker :=
  definite (BalCreditDeposit credit response).
Definition change_withdrawal (command : WithdrawalCommand) (response : Z) : Waited unit → Worker → option CommandError * Worker :=
  definite (BalWithdrawal command response).

(** ** The HTTP handlers *)

(** What the JSON extractor makes of a body. *)
Inductive Body (A : Type) :=
  | Parsed (request : A)
  | TooLarge
  | Malformed.
#[global] Arguments Parsed {A} request.
#[global] Arguments TooLarge {A}.
#[global] Arguments Malformed {A}.

(** [reply] of the two handlers: the JSON object of an answer. The answers are not to be cached. *)
Record CommandReply := mk_reply {
  rp_code : string;
  rp_id : option Uuid;                   (* [deposit_id] or [withdrawal_id] *)
  rp_action : option WithdrawalAction;   (* of a withdrawal *)
}.

(** The answer to a command that was sent. *)
Definition command_reply (success : string) (id : Uuid) (action : option WithdrawalAction)
    (outcome : option CommandError) : Z * CommandReply :=
  let reply (status : Z) (code : string) := (status, mk_reply code (Some id) action) in
  match outcome with
  | None => reply 200 success
  | Some NotAccepted => reply 503 "NOT_ACCEPTED"%string
  | Some (DurablyRejected _) => reply 409 "DURABLY_REJECTED"%string
  | Some OutcomeUnknown => reply 504 "OUTCOME_UNKNOWN"%string
  end.

(** [deposit_handler::credit_deposit]. *)
Definition http_credit_deposit (body : Body CreditRequest) (response : Z) (waited : Waited unit) (w : Worker) :
    (Z * CommandReply) * Worker :=
  let invalid := mk_reply "INVALID_DEPOSIT_CREDIT" None None in
  match body with
  | TooLarge => ((413, invalid), w)
  | Malformed => ((400, invalid), w)
  | Parsed request =>
      match credit_validated request with
      | None => ((400, invalid), w)
      | Some credit =>
          let '(outcome, w') := handle_credit_deposit credit response waited w in
          (command_reply "DURABLY_CREDITED" (dc_deposit_id credit) None outcome, w')
      end
  end.

Definition action_code (action : WithdrawalAction) : string :=
  match action with
  | Reserve => "DURABLY_RESERVED"
  | Release => "DURABLY_RELEASED"
  | Complete => "DURABLY_COMPLETED"
  end.

(** [withdrawal_handler::change_withdrawal]. *)
Definition http_change_withdrawal (body : Body WithdrawalRequest) (response : Z) (waited : Waited unit) (w : Worker) :
    (Z * CommandReply) * Worker :=
  let invalid := mk_reply "INVALID_WITHDRAWAL_COMMAND" None None in
  match body with
  | TooLarge => ((413, invalid), w)
  | Malformed => ((400, invalid), w)
  | Parsed request =>
      match withdrawal_validated request with
      | None => ((400, invalid), w)
      | Some command =>
          let action := wc_action command in
          let '(outcome, w') := change_withdrawal command response waited w in
          (command_reply (action_code action) (wf_withdrawal_id (wc_funds command)) (Some action) outcome, w')
      end
  end.
End handle.

Section handle_facts.
Context {E : Externals} {L : DecimalLaws ext_decimal} {F : JournalFormat E} {FL : JournalFormatLaws F}.

(** ** What an acknowledgement says of the state *)

Definition acknowledged (input : Request) (s : EngineState) : Prop :=
  match input with
  | BalanceRequest (BalCreditDeposit credit _) =>
      ∃ receipt, deposit_receipts s !! dc_deposit_id credit = Some receipt ∧
        credit_eqb (dr_original receipt) credit = true ∧ dr_rejection receipt = None
  | BalanceRequest (BalWithdrawal command _) =>
      ∃ receipt, withdrawal_receipts s !! wf_withdrawal_id (wc_funds command) = Some receipt ∧
        funds_eqb (wr_original receipt) (wc_funds command) = true ∧
        match wc_action command with
        | Reserve => ∀ reason, wr_status receipt ≠ Rejected reason
        | action => wr_status receipt = status_after action
        end
  | OrderRequest (SubmitOrder order _) =>
      ∃ original, submissions s !! oe_id order = Some original ∧ oe_eqb (set_created_at (oe_created_at original) order) original = true
  | OrderRequest (CancelOrder order_id user_id _ _) =>
      ∃ order, cancellations s !! order_id = Some order ∧ oe_user_id order = user_id
  | _ => True
  end.

Lemma oe_eqb_refl o : oe_eqb o o = true.
Proof. unfold oe_eqb. by rewrite !dec_eqb_refl, !Z.eqb_refl, !String.eqb_refl, !opt_dec_eqb_refl, bool_decide_true. Qed.

(** It stays true whatever is executed later. *)
Lemma acknowledged_durable input s s' : durable s s' → acknowledged input s → acknowledged input s'.
Proof.
  intros [H1 H2 H3 H4]. destruct input as [[command r|credit r|]|[order r|id user market r| | | |]]; cbn; try done.
  - intros (receipt & Hr & Hf & Hst). destruct (H4 _ _ Hr) as (receipt' & Hr' & Hsame & Hf' & Hrej).
    exists receipt'. split; [done |]. split; [by eapply funds_eqb_trans |]. destruct (wc_action command).
    + intros reason Hreason. pose proof (Hrej _ Hreason) as ->. by apply (Hst reason).
    + by rewrite Hsame by by rewrite Hst.
    + by rewrite Hsame by by rewrite Hst.
  - intros (receipt & Hr & Hrest). exists receipt. split; [by eapply lookup_weaken | done].
  - intros (original & Ho & Hrest). exists original. split; [by eapply lookup_weaken | done].
  - intros (o & Ho & Hrest). exists o. split; [by eapply lookup_weaken | done].
Qed.

(** A command without a failure has the effect its reply announces. *)
Lemma deposit_acknowledged credit s o s' response :
  deposit_apply credit s = (Ok o, s') → acknowledged (BalanceRequest (BalCreditDeposit credit response)) s'.
Proof.
  rewrite deposit_apply_run. cbn [acknowledged]. destruct (deposit_receipts s !! dc_deposit_id credit)
    as [receipt|] eqn:Hr.
  { destruct (credit_eqb _ _) eqn:He; [| done]. destruct (dr_rejection receipt) eqn:Hj; [done |].
    intros [= <- <-]. by exists receipt. }
  destruct (deposit_format credit); [| done..]. destruct (deposit_credit credit (state_cache s))
    as [[batch|e|] c]; intros [= <- <-].
  eexists. cbn. rewrite lookup_insert_eq. split; [done |]. by rewrite credit_eqb_refl.
Qed.

Lemma withdrawal_acknowledged command s o s' response :
  withdrawal_apply command s = (Ok o, s') → (∀ funds reason, o ≠ Some (WithdrawalRejected funds reason)) →
  acknowledged (BalanceRequest (BalWithdrawal command response)) s'.
Proof.
  rewrite withdrawal_apply_run. cbn zeta. cbn [acknowledged].
  assert (Hexec : execute_result command s = (Ok o, s') → (∀ funds reason, o ≠ Some (WithdrawalRejected funds reason)) →
    acknowledged (BalanceRequest (BalWithdrawal command response)) s').
  { intros [([= ->] & _ & Hw & _) | [(reason & [= ->] & _) | (reason & [=] & _)]]%execute_result_money Hno;
    [| by destruct (Hno _ _ eq_refl)].
    eexists. rewrite Hw, lookup_insert_eq. split; [done |]. cbn. rewrite funds_eqb_refl.
      by destruct (wc_action command). }
  destruct (withdrawal_format _); [| done..].
  destruct (withdrawal_receipts s !! _) as [receipt|] eqn:Hr; [| destruct (is_reserve _); [exact Hexec | done]].
  destruct (funds_eqb _ _) eqn:Hf; [| done].
  destruct (withdrawal_step _ _) as [answer|] eqn:Hstep; [| exact Hexec].
  intros [= -> ->] _. exists receipt. split; [done |]. split; [done |]. unfold withdrawal_step in Hstep.
  by destruct (wr_status receipt), (wc_action command).
Qed.

Lemma submit_acknowledged order s o s' response :
  state_wf s → execute_submit order s = (Ok o, s') → acknowledged (OrderRequest (SubmitOrder order response)) s'.
Proof.
  intros Hwf. unfold execute_submit, mbind, st_bind, sget. cbn [acknowledged].
  destruct (submissions s !! oe_id order) as [original|] eqn:Ho.
  { unfold lift, ensure. destruct (oe_eqb _ _) eqn:Heq; [| done]. intros [= <- <-]. by exists original. }
  unfold smodify, attempt, with_core, zoom, process_submit_order, lift, mret, st_ret.
  destruct (apply order _) as [r c]. intros Hrun. exists order. split; [| by destruct order; apply oe_eqb_refl].
  destruct r as [app|e|]; [destruct (submitted app) | |]; simplify_eq; cbn; by rewrite lookup_insert_eq.
Qed.

Lemma cancel_acknowledged order_id user_id market s outcome s' response :
  state_wf s → journal_apply (CmdCancel order_id user_id market) s = (Ok outcome, s') → (∀ reason, outcome ≠ Failed reason) →
  acknowledged (OrderRequest (CancelOrder order_id user_id market response)) s'.
Proof.
  intros Hwf Hrun Hno. cbn [acknowledged]. apply journal_cases in Hrun as [[-> Hbefore] | (r & Hex & Hp & ->)].
  - cbn in Hbefore. destruct (cancellations s !! order_id) as [o|] eqn:Ho; [| done]. injection Hbefore as <-.
    destruct ((oe_user_id o =? user_id) && _ && _) eqn:Heq; [| by destruct (Hno "Unauthorized cancellation"%string)].
    exists o. split; [done |]. rewrite !andb_true_iff in Heq. lia.
  - cbn [execute] in Hex. unfold with_core, zoom in Hex. unfold mbind, st_bind in Hex.
    destruct (cancel_order order_id user_id market (core s)) as [r0 c'] eqn:Hcancel.
    destruct (cancel_run _ _ _ _ _ _ (st_books _ Hwf) Hcancel) as [(e & -> & ->) |
      (book & p0 & buy0 & found & v & b' & book' & _ & _ & Hu & _ & _ & -> & -> & _)].
    { injection Hex as <- <-. by destruct (Hno e). }
    cbn [smodify] in Hex. injection Hex as <- <-. exists found. cbn. by rewrite lookup_insert_eq.
Qed.

Lemma served_acknowledged input s p s' :
  state_wf s → serve input s = (Ok p, s') → answer_error (finish p).2 = None → acknowledged input s'.
Proof.
  intros Hwf. unfold serve. unfold mbind at 1, st_bind at 1, sget.
  destruct input as [[command r|credit r|user mint delta r]|[order r|id user market r|market depth r|user mint
    r|user mint amount r|user mint amount r]];
    cbn [request balance_request order_request]; try done; intros Hrun Hans;
      apply st_bind_ok in Hrun as (outcome & s1 & Ho & Hret);
    injection Hret as <- <-; cbn in Hans.
  - apply journal_cases in Ho as [[_ ?] | (res & Hex & Hp & ->)]; [done |]. cbn [execute] in Hex.
    destruct res as [o|e|]; [| done..]. eapply withdrawal_acknowledged; [exact Hex |]. intros funds reason ->. done.
  - apply journal_cases in Ho as [[_ ?] | (res & Hex & Hp & ->)]; [done |]. cbn [execute] in Hex.
    destruct res as [o|e|]; [| done..]. by eapply deposit_acknowledged.
  - apply journal_cases in Ho as [[_ ?] | (res & Hex & Hp & ->)]; [done |]. cbn [execute] in Hex.
    destruct res as [o|e|]; [| done..]. by eapply submit_acknowledged.
  - eapply cancel_acknowledged; [done | exact Ho |]. intros reason ->. done.
Qed.

(** Everything served is part of the end. *)
Lemma serve_durable input s p s' : state_wf s → serve input s = (Ok p, s') → state_wf s' ∧ durable s s'.
Proof.
  intros Hwf Hrun. destruct (serve_run input s Hwf) as (p' & s1 & Hrun' & Hwf' & _). rewrite Hrun in Hrun'.
    injection Hrun' as <- <-.
  split; [done |]. unfold serve in Hrun. unfold mbind at 1, st_bind at 1, sget in Hrun.
  destruct (request input s) as [command reply]. apply st_bind_ok in Hrun as (outcome & s1 & Ho & Hret).
    injection Hret as _ <-.
  destruct command as [command|]; [by apply (journal_remembers _ _ _ _ Hwf) in Ho as [? _] | injection Ho as _ <-;
    apply durable_refl].
Qed.

Lemma serve_all_durable inputs s ps s' : state_wf s → serve_all inputs s = (Ok ps, s') → durable s s'.
Proof.
  revert s ps. induction inputs as [|input inputs IH]; intros s ps Hwf Hall; [injection Hall as _ <-;
    apply durable_refl |].
  cbn [serve_all] in Hall. apply st_bind_ok in Hall as (p & s1 & Hp & Hall).
  apply st_bind_ok in Hall as (rest & s2 & Hrest & Hret). injection Hret as _ <-.
  destruct (serve_durable _ _ _ _ Hwf Hp) as [Hwf1 Hd]. eapply durable_trans; [exact Hd | by eapply IH].
Qed.

Lemma serve_response input s p s' : state_wf s → serve input s = (Ok p, s') → (finish p).1 = response_of input.
Proof.
  intros Hwf Hrun. destruct (serve_run input s Hwf) as (p' & s1 & Hrun' & _ & Hresp). rewrite Hrun in Hrun'.
    by injection Hrun' as <- <-.
Qed.

Lemma serve_all_acknowledged inputs s ps s' i p :
  state_wf s → serve_all inputs s = (Ok ps, s') → ps !! i = Some p → answer_error (finish p).2 = None →
  ∃ input, inputs !! i = Some input ∧ (finish p).1 = response_of input ∧ acknowledged input s'.
Proof.
  revert s ps i. induction inputs as [|input inputs IH]; intros s ps i Hwf Hall Hi Hans.
  { injection Hall as <- <-. by rewrite lookup_nil in Hi. }
  cbn [serve_all] in Hall. apply st_bind_ok in Hall as (p0 & s0 & Hp0 & Hall).
  apply st_bind_ok in Hall as (rest & s1 & Hrest & Hret). injection Hret as <- <-.
  destruct (serve_durable _ _ _ _ Hwf Hp0) as [Hwf0 _].
  pose proof (serve_all_durable _ _ _ _ Hwf0 Hrest) as Hdur.
  destruct i as [|i]; cbn in Hi.
  - injection Hi as ->. exists input. split; [done |].
    split; [exact (serve_response _ _ _ _ Hwf Hp0) |]. eapply acknowledged_durable;
      [exact Hdur | exact (served_acknowledged _ _ _ _ Hwf Hp0 Hans)].
  - destruct (IH _ _ _ Hwf0 Hrest Hi Hans) as (x & Hx & Hr & Hack). by exists x.
Qed.
End handle_facts.

(** ** The best prices *)

Section best_prices.
Context {E : Externals} {L : DecimalLaws ext_decimal}.

(** The first order of levels none of which is empty is one of the first level. *)
Lemma first_of_levels s p q levels :
  side_wf s → (∀ e, e ∈ (p, q) :: levels → e ∈ orders s) →
  ∃ o rest, mjoin (map snd ((p, q) :: levels)) = o :: rest ∧ raw <$> oe_price o = Some (raw p).
Proof.
  intros Hwf Hin. pose proof (bt_elem_get _ _ _ (sw_sorted _ Hwf) (Hin (p, q) ltac:(left))) as Hget.
  destruct q as [|o q]; [by destruct (sw_nonempty _ Hwf p) |]. exists o, (q ++ mjoin (map snd levels)). split; [done |].
  destruct (sw_price _ Hwf p o) as (price & -> & Hraw); [unfold level; rewrite Hget; left |]. cbn. by rewrite Hraw.
Qed.

Lemma first_best s (buy : bool) :
  side_wf s →
  raw <$> first_price (take_depth (Some 1%nat) (mjoin (map snd (if buy then rev (orders s) else orders s)))) =
  raw <$> get_best_price buy s.
Proof.
  intros Hwf. unfold get_best_price, take_depth. destruct buy.
  - destruct (orders s) as [|x l _] eqn:Ho using rev_ind; [done |]. rewrite rev_app_distr, last_snoc.
    cbn [rev app]. destruct x as [p q].
    destruct (first_of_levels s p q (rev l) Hwf) as (o & rest & -> & Hp); [| by cbn; rewrite Hp].
    intros e [-> | Hin]%elem_of_cons; rewrite Ho; apply elem_of_app; [right; left | left;
      by apply list_elem_of_In, in_rev, list_elem_of_In].
  - destruct (orders s) as [|[p q] l] eqn:Ho; [done |].
    destruct (first_of_levels s p q l Hwf) as (o & rest & -> & Hp); [by intros e He; rewrite Ho |]. cbn. by rewrite Hp.
Qed.

Lemma book_orders_best market s :
  state_wf s →
  raw <$> first_price (book_orders market (Some 1%nat) s).1 = raw <$> get_best_bid (book_at (core s) market) ∧
  raw <$> first_price (book_orders market (Some 1%nat) s).2 = raw <$> get_best_ask (book_at (core s) market).
Proof.
  intros Hwf. unfold book_orders, book_at. destruct (orderbooks (core s) !! market) as [book|] eqn:Hb; [| done].
    cbn [fst snd default].
  assert (Hbook : book_wf book) by (by apply (st_books _ Hwf) in Hb as [? _]).
  split; [exact (first_best (buy_orders book) true (bw_side _ Hbook true)) | exact (first_best (sell_orders book)
    false (bw_side _ Hbook false))].
Qed.
End best_prices.

(** ** Properties *)

Section handle_properties.
Context {E : Externals} {L : DecimalLaws ext_decimal} {F : JournalFormat E} {FL : JournalFormatLaws F}.

Lemma answered_acknowledged capacity now store state id n y input a :
  (0 < capacity)%nat → recover store = Ok (state, id) → last_sequence store = Ok n →
  rtc (system_step capacity now) (system_start store state n) y →
  (response_of input, a) ∈ y_answers y → answer_error a = None →
  (∀ other, other ∈ w_taken (y_worker y) → response_of other = response_of input → other = input) →
  ∃ s, recover (y_store y) = Ok (s, id) ∧ acknowledged input s.
Proof.
  intros Hcap Hrec Hlast Hreach Hin Hans Hunique.
  destruct (sy_progress _ _ _ _ (system_ok_reachable _ _ _ _ _ _ _ Hcap Hrec Hlast Hreach))
    as (queue & i1 & i2 & written & s & answered & later & lost & _ & Ht & Hserve & Hrec' & _ & Hwr & Ha & _).
  exists s. split; [done |]. rewrite Ha in Hin. apply list_elem_of_fmap in Hin as (p & Hfin & Hp).
  apply list_elem_of_lookup_1 in Hp as [i Hi].
  assert (Hiw : written !! i = Some p) by (rewrite Hwr; by apply lookup_app_l_Some).
  assert (Hwf : state_wf state).
  { destruct (recover_run _ _ _ Hrec) as (s0 & next & _ & Hwf0 & Hrep & _). by eapply replay_wf. }
  destruct (serve_all_acknowledged i1 state written s i p Hwf Hserve Hiw) as (x & Hx & Hresp & Hack);
    [by rewrite <- Hfin |].
  rewrite <- Hfin in Hresp. cbn in Hresp. rewrite <- (Hunique x); [done | | done].
  rewrite Ht. apply elem_of_app. left. by eapply list_elem_of_lookup_2.
Qed.

(** What was acknowledged is durable, whatever it was: at any moment of any run of the two workers,
    if the answer on the reply channel of a request is not an error, then the journal as it is on disk
    recovers to a state that shows the effect: a deposit is credited, a withdrawal reserved, released
    or completed, an order known under its id with the same content, a cancelled order recorded as
    cancelled for its owner. *)
Theorem acknowledged_is_durable capacity now store state id n y input a :
  (0 < capacity)%nat → recover store = Ok (state, id) → last_sequence store = Ok n →
  rtc (system_step capacity now) (system_start store state n) y →
  (response_of input, a) ∈ y_answers y → answer_error a = None →
  (∀ other, other ∈ w_taken (y_worker y) → response_of other = response_of input → other = input) →
  ∃ s, recover (y_store y) = Ok (s, id) ∧ acknowledged input s.
Proof. apply answered_acknowledged. Qed.

(** What the caller got before the time was over is an answer of the system. *)
Definition waited_from (y : System) (response : Z) (waited : Waited unit) : Prop :=
  ∀ r, waited = Received r → (response, AnswerUnit r) ∈ y_answers y.

(** The handle's three failures and its success. *)
Lemma definite_cases command waited w outcome w' :
  definite command waited w = (outcome, w') →
  (outcome = Some NotAccepted ∧ w' = w) ∨
  (w' = drop_balance w (w_balances w ++ [command]) ∧
   match outcome with
   | None => waited = Received (Ok tt)
   | Some (DurablyRejected reason) => waited = Received (Err reason)
   | Some OutcomeUnknown => True
   | Some NotAccepted => False
   end).
Proof.
  unfold definite, send_balance, mbind, st_bind, sget, lift, sput. destruct (is_accepting w); cbn [ensure];
    [| intros [= <- <-]; by left].
  destruct (has_room (w_balances w)); cbn [ensure]; [| intros [= <- <-]; by left].
  destruct waited as [[[]| |]| |]; intros [= <- <-]; by right.
Qed.

(** What an HTTP answer to a request must mean; [command] is what the handler makes of the request. *)
Definition owns_channel (y : System) (input : Request) : Prop :=
  ∀ other, other ∈ w_taken (y_worker y) → response_of other = response_of input → other = input.
Definition truthful (y : System) (id : string) (command : option BalanceCommand) (w : Worker) (answer : (Z * CommandReply) * Worker) : Prop :=
  (answer.1.1 = 200 → ∃ c, command = Some c ∧
     (owns_channel y (BalanceRequest c) → ∃ s, recover (y_store y) = Ok (s, id) ∧ acknowledged (BalanceRequest c) s)) ∧
  (answer.1.1 ∈ [400; 413; 503] → answer.2 = w).

Definition deposit_command (body : Body CreditRequest) (response : Z) : option BalanceCommand :=
  match body with Parsed request => (fun credit => BalCreditDeposit credit response) <$> credit_validated request | _ => None end.
Definition withdrawal_command (body : Body WithdrawalRequest) (response : Z) : option BalanceCommand :=
  match body with Parsed request => (fun command => BalWithdrawal command response) <$> withdrawal_validated request | _ => None end.

Lemma definite_truthful y id command success uuid action waited w :
  (waited = Received (Ok tt) → owns_channel y (BalanceRequest command) →
     ∃ s, recover (y_store y) = Ok (s, id) ∧ acknowledged (BalanceRequest command) s) →
  truthful y id (Some command) w (let '(outcome, w') := definite command waited w in (command_reply success uuid action outcome, w')).
Proof.
  intros Hok. destruct (definite command waited w) as [outcome w'] eqn:Hd. unfold truthful. cbn [fst snd].
  destruct (definite_cases _ _ _ _ _ Hd) as [[-> ->] | [-> Hout]]; [by split |].
  destruct outcome as [[| |reason]|]; try done; (split; [intros H; try discriminate H | intros H; cbn in H;
    exfalso; set_solver]).
  exists command. split; [done | by apply Hok].
Qed.

(** The HTTP answers are truthful. A 200 to a deposit or a withdrawal means that the state the
    journal recovers to has the effect of the validated request, and an answer that the request was
    invalid, too large or not accepted means that nothing was put into the queues. *)
Theorem http_answers_truthful capacity now store state id n y response waited w :
  (0 < capacity)%nat → recover store = Ok (state, id) → last_sequence store = Ok n →
  rtc (system_step capacity now) (system_start store state n) y → waited_from y response waited →
  (∀ body, truthful y id (deposit_command body response) w (http_credit_deposit body response waited w)) ∧
  (∀ body, truthful y id (withdrawal_command body response) w (http_change_withdrawal body response waited w)).
Proof.
  intros Hcap Hrec Hlast Hreach Hwait.
  assert (Hkey : ∀ command, response_of (BalanceRequest command) = response → waited = Received (Ok tt) →
    owns_channel y (BalanceRequest command) → ∃ s, recover (y_store y) = Ok (s, id) ∧
      acknowledged (BalanceRequest command) s).
  { intros command Hr Hw Hown. eapply answered_acknowledged; [done.. | | | exact Hown]; [rewrite Hr;
    by apply Hwait | done]. }
  split; (intros [request| |]; [| by split..]).
  - unfold http_credit_deposit, deposit_command. destruct (credit_validated request) as [credit|]; [| by split].
    apply definite_truthful. by apply Hkey.
  - unfold http_change_withdrawal, withdrawal_command. destruct (withdrawal_validated request) as [command|];
    [| by split].
    apply definite_truthful. by apply Hkey.
Qed.

(** C26. The prices that the handle reports are the best prices of the book: what a query for the best
    bid or ask is answered, once the engine worker has served it, is the highest price at which a buy
    and the lowest price at which a sell rests in the book at that point of the history. *)
Theorem reported_prices_best s market response p s' v w best_bid best_ask w1 w2 :
  state_wf s → serve (OrderRequest (GetOrderbook market (Some 1%nat) response)) s = (Ok p, s') →
  finish p = (response, AnswerBook (Ok v)) →
  handle_best_bid market response (Received (Ok v)) w = (Ok best_bid, w1) →
  handle_best_ask market response (Received (Ok v)) w = (Ok best_ask, w2) →
  raw <$> best_bid = raw <$> get_best_bid (book_at (core s) market) ∧
  raw <$> best_ask = raw <$> get_best_ask (book_at (core s) market).
Proof.
  intros Hwf Hserve Hfin Hbid Hask. injection Hserve as <- _. cbn in Hfin. injection Hfin as <-.
  assert (Hfirst : ∀ (f : list OrderEntry * list OrderEntry → list OrderEntry) best w',
    (book ← get_orderbook market (Some 1%nat) response (Received (Ok (book_orders market (Some 1%nat) s)));
      mret (first_price (f book))) w = (Ok best, w') →
    best = first_price (f (book_orders market (Some 1%nat) s))).
  { intros f best w' Hrun. apply st_bind_ok in Hrun as (book & w0 & Hbook & Hret). injection Hret as <- _.
    apply st_bind_ok in Hbook as (u & w3 & _ & Hl). cbn in Hl. by injection Hl as <- _. }
  rewrite (Hfirst fst _ _ Hbid), (Hfirst snd _ _ Hask). by apply book_orders_best.
Qed.
End handle_properties.

(** ** The properties at concrete inputs *)

Section one_request.
Context {E : Externals} {F : JournalFormat E}.

(** One request is served, written and answered. *)
Definition one_answered (state s' : EngineState) (input : BalanceCommand) (p : Pending) (store' : Store) (next : Z) : System :=
  mk_system (mk_worker s' [] [] (Some []) true false true AtTop [BalanceRequest input] [p]) store' next next (Answering []) [finish p].

Lemma one_request_answered now state s' input p store store' n next :
  serve (BalanceRequest input) state = (Ok p, s') → append now Committed [p] n store = (Ok next, store') →
  rtc (system_step 2 now) (system_start store state n) (one_answered state s' input p store' next).
Proof.
  intros Hserve Happ. set (y0 := system_start store state n).
  set (w1 := drop_balance (y_worker y0) (w_balances (y_worker y0) ++ [input])).
  assert (Hw2 : worker_next 2 w1 = mk_worker s' [] [] (Some [p]) true false true AtTop [BalanceRequest input] [p]).
  { unfold w1, worker_next. cbn -[serve]. unfold serve_publish. cbn -[serve]. rewrite Hserve. done. }
  eapply rtc_l; [exact (step_around 2 now y0 w1 (balance_arrives (y_worker y0) input) eq_refl) |].
  eapply rtc_l; [apply step_engine |]. cbn [y_worker set_worker]. rewrite Hw2.
  eapply rtc_l; [exact (step_journal 2 now _ Committed) |]. eapply rtc_l; [exact (step_journal 2 now _ Committed) |].
  eapply rtc_l; [exact (step_journal 2 now _ Committed) |]. eapply rtc_l; [exact (step_journal 2 now _ Committed) |].
  cbn -[append finish]. rewrite Happ. cbn -[finish]. apply rtc_refl.
Qed.
End one_request.

Section handle_examples.
#[local] Existing Instance ref_externals.
#[local] Existing Instance ref_decimal_laws.
#[local] Existing Instance ref_format.
#[local] Existing Instance ref_format_laws.

(** The admitted deposit of the boundary, on response channel 3. *)
Definition ex_pay : BalanceCommand := BalCreditDeposit ex_credit_made 3.
Definition ex_no_pending : Pending := {| p_command := None; p_outcome := Applied None; p_reply := ReplyUnit 0 |}.
Definition ex_paid : Pending := get_ok ex_no_pending (serve (BalanceRequest ex_pay) ex_start).1.
Definition ex_paid_state : EngineState := (serve (BalanceRequest ex_pay) ex_start).2.
Lemma ex_pay_run : serve (BalanceRequest ex_pay) ex_start = (Ok ex_paid, ex_paid_state).
Proof. apply (get_run ex_no_pending (serve (BalanceRequest ex_pay)) ex_start). vm_compute. reflexivity. Qed.
Definition ex_paid_next : Z := get_ok 0 (append ex_clock Committed [ex_paid] 0 ex_store).1.
Definition ex_paid_store : Store := (append ex_clock Committed [ex_paid] 0 ex_store).2.
Lemma ex_paid_written : append ex_clock Committed [ex_paid] 0 ex_store = (Ok ex_paid_next, ex_paid_store).
Proof. apply (get_run 0 (append ex_clock Committed [ex_paid] 0) ex_store). vm_compute. reflexivity. Qed.

Definition ex_paid_system : System :=
  one_answered ex_start ex_paid_state ex_pay ex_paid ex_paid_store ex_paid_next.
Lemma ex_paid_reachable : rtc (system_step 2 ex_clock) (system_start ex_store ex_start 0) ex_paid_system.
Proof.
  exact (one_request_answered ex_clock ex_start ex_paid_state ex_pay ex_paid ex_store ex_paid_store 0 ex_paid_next
    ex_pay_run ex_paid_written).
Qed.

Lemma ex_paid_answer : (3, AnswerUnit (Ok tt)) ∈ y_answers ex_paid_system.
Proof.
  assert (Hgen : ∀ a : Z * Answer, a.1 = 3 → match a.2 with AnswerUnit (Ok tt) => true | _ => false end = true →
    (3, AnswerUnit (Ok tt)) ∈ [a]).
  { intros [k [[[]| |]| | |]]; cbn; try done. intros -> _. left. }
  apply Hgen; [| vm_compute; reflexivity].
  exact (serve_response _ _ _ _ ex_start_wf ex_pay_run).
Qed.

Lemma ex_paid_owner : owns_channel ex_paid_system (BalanceRequest ex_pay).
Proof. intros other [-> | Hin]%elem_of_cons _; [done | by apply elem_of_nil in Hin]. Qed.

Lemma acknowledged_is_durable_witness :
  ∃ s, recover (y_store ex_paid_system) = Ok (s, "engine"%string) ∧ acknowledged (BalanceRequest ex_pay) s.
Proof.
  exact (acknowledged_is_durable 2 ex_clock ex_store ex_start "engine" 0 ex_paid_system (BalanceRequest ex_pay)
    (AnswerUnit (Ok tt))
    (Nat.lt_0_succ 1) ex_store_recovers ex_last_sequence ex_paid_reachable ex_paid_answer eq_refl ex_paid_owner).
Defined.

Lemma ex_paid_waited : waited_from ex_paid_system 3 (Received (Ok tt)).
Proof. intros r [= <-]. exact ex_paid_answer. Qed.

Lemma http_answers_truthful_witness :
  let body := Parsed ex_credit_request in
  let w := worker_start ex_start true in
  truthful ex_paid_system "engine" (deposit_command body 3) w (http_credit_deposit body 3 (Received (Ok tt)) w).
Proof.
  exact (proj1 (http_answers_truthful 2 ex_clock ex_store ex_start "engine" 0 ex_paid_system 3 (Received (Ok tt))
    (worker_start ex_start true)
    (Nat.lt_0_succ 1) ex_store_recovers ex_last_sequence ex_paid_reachable ex_paid_waited) (Parsed ex_credit_request)).
Defined.

(** The answer is 200, and 503 from a closed core. *)
Example ex_http :
  (let w := worker_start ex_start true in
   [(http_credit_deposit (Parsed ex_credit_request) 3 (Received (Ok tt)) w).1.1;
    (http_credit_deposit (Parsed ex_credit_request) 3 TimedOut w).1.1;
    (http_credit_deposit (Parsed ex_credit_request) 3 (Received (Ok tt)) (close_core w)).1.1;
    (http_credit_deposit Malformed 3 TimedOut w).1.1]) = [200; 504; 503; 400].
Proof. vm_compute. reflexivity. Qed.

(** A query for the best prices of the example market. *)
Definition ex_best : list OrderEntry * list OrderEntry := book_orders ex_pair (Some 1%nat) ex_opened.
Definition ex_best_query : Pending :=
  {| p_command := None; p_outcome := Applied None; p_reply := ReplyBook 7 ex_best |}.
Lemma ex_best_served : serve (OrderRequest (GetOrderbook ex_pair (Some 1%nat) 7)) ex_opened = (Ok ex_best_query, ex_opened).
Proof. reflexivity. Qed.

Definition ex_caller : Worker := worker_start ex_opened true.
Definition ex_asked : Worker := drop_order ex_caller [GetOrderbook ex_pair (Some 1%nat) 7].
Lemma ex_bid_asked : handle_best_bid ex_pair 7 (Received (Ok ex_best)) ex_caller = (Ok (first_price ex_best.1), ex_asked).
Proof. reflexivity. Qed.
Lemma ex_ask_asked : handle_best_ask ex_pair 7 (Received (Ok ex_best)) ex_caller = (Ok (first_price ex_best.2), ex_asked).
Proof. reflexivity. Qed.

Lemma reported_prices_best_witness :
  raw <$> first_price ex_best.1 = raw <$> get_best_bid (book_at (core ex_opened) ex_pair) ∧
  raw <$> first_price ex_best.2 = raw <$> get_best_ask (book_at (core ex_opened) ex_pair).
Proof.
  exact (reported_prices_best ex_opened ex_pair 7 ex_best_query ex_opened ex_best ex_caller _ _ ex_asked ex_asked
    ex_opened_wf ex_best_served eq_refl ex_bid_asked ex_ask_asked).
Defined.
Example ex_best_prices :
  (default 0 (raw <$> first_price ex_best.1), default 0 (raw <$> first_price ex_best.2)) = (0, 2 * 10 ^ 28).
Proof. vm_compute. reflexivity. Qed.
End handle_examples.
