(* ===== verification/Lifecycle.v ===== *)
(** * The three workers together, and the stop ([start] and [halt] of [runtime/engine.rs])

    The control object starts the three workers on one journal and, when it stops, waits for them in the
    order of the data: the engine worker, the journal worker, the delivery to the broker. Here the
    machines of the three become one, which also passes from one process to the next; the invariants
    of [Durability] and [Output] hold of its parts. *)

From stdpp Require Import base tactics gmap list strings.
From Stdlib Require Import ZArith Lia.
From S2P Require Import Prelude Text Decimals Amount BTree RefDecimal Types BalanceCache OrderBook Matcher Submission State Deposit Withdrawal Cancel Journal History Resting Events EngineLoop Store Durability Market Output Boundary Handle.

Section lifecycle.
Context {E : Externals} {F : JournalFormat E}.

(** [pending_output_count]: the records on disk that are not delivered. *)
Definition pending_output_count (progress : option (Z * Z)) : Z :=
  match progress with Some (durable, delivered) => Z.max 0 (durable - delivered) | None => 0 end.

(** The result of [halt] once the workers have ended: the last error that was met, or the two checks. *)
Definition halt (y : System) (o : Output) : result unit :=
  let core_error := match w_pc (y_worker y) with Panicked => Some "Engine worker panicked"%string | _ => None end in
  let core_error := match y_phase y with JournalFailed => Some "Journal worker failed"%string | _ => core_error end in
  let core_error := match o_phase o with OutputFailed reason => Some ("Output worker failed: " +:+ reason) | _ => core_error end in
  match core_error with
  | Some error => Err error
  | None =>
      _ ← ensure (match w_journal (y_worker y) with Some (_ :: _) => false | _ => true end) "Journal queue was not drained";
      ensure (pending_output_count (Some (y_durable y, o_delivered o)) =? 0) "Durable output remains pending"
  end.

(** The workers have ended: they were joined. *)
Definition joined (y : System) (o : Output) : Prop :=
  sender_gone (y_worker y) = true ∧ (y_phase y = JournalFailed ∨ y_phase y = JournalDone) ∧ o_phase o ≠ Delivering.
End lifecycle.


(** ** The three workers on one journal

    The machines of the three workers, with one journal between them: the journal worker adds records,
    the output worker reads them and moves the cursor. *)

Section whole.
Context {E : Externals} {V : EventFormat E} {F : JournalFormat E}.
Variable capacity : nat.
Variable now : Z → Timestamp.
Variable order : list MarketSnapshot → list MarketSnapshot.
Variable engine_id : string.

Record Whole := mk_whole { wh_system : System; wh_output : Output }.

Definition on_store_of (store : Store) (y : System) : System :=
  mk_system (y_worker y) store (y_sequence y) (y_durable y) (y_phase y) (y_answers y).
(** [progress.journal_done]: set whenever the journal worker ends. *)
Definition journal_finished (phase : Phase) : bool :=
  match phase with JournalFailed | JournalDone => true | _ => false end.

(** The start of the workers on a recovered journal. The program waits until the output worker has
    caught up before it starts the others; here they may run at once. *)
Definition whole_start (store : Store) (state : EngineState) (sequence : Z) (broker : Broker) : Whole :=
  mk_whole (system_start store state sequence) (output_start engine_id order sequence store broker).

(** A step of each of them. The output worker reads up to what is durable; however it ends, it closes
    the core. *)
Definition engine_turn (w : Whole) : Whole :=
  mk_whole (set_worker (worker_next capacity (y_worker (wh_system w))) (wh_system w)) (wh_output w).
Definition journal_turn (commit : Commit) (w : Whole) : Whole :=
  let y := journal_next now commit (wh_system w) in
  mk_whole y (set_store (y_store y) (wh_output w)).
Definition output_turn (commit : Commit) (w : Whole) : Whole :=
  let y := wh_system w in
  let o := output_next engine_id (y_durable y) (journal_finished (y_phase y)) commit (wh_output w) in
  let worker := match o_phase o with Delivering => y_worker y | _ => close_core (y_worker y) end in
  mk_whole (on_store_of (o_store o) (set_worker worker y)) o.
Definition with_worker (v : Worker) (w : Whole) : Whole := mk_whole (set_worker v (wh_system w)) (wh_output w).

(** The steps, what happens around the engine worker, and the end of the process at any moment: the
    next one starts on the journal that is left, and the topics are still there. *)
Inductive whole_step (w : Whole) : Whole → Prop :=
  | whole_engine : whole_step w (engine_turn w)
  | whole_around v : surroundings (y_worker (wh_system w)) v → w_journal v = w_journal (y_worker (wh_system w)) →
      whole_step w (with_worker v w)
  | whole_journal commit : whole_step w (journal_turn commit w)
  | whole_output commit : whole_step w (output_turn commit w)
  | whole_restart state n acks :
      recover (y_store (wh_system w)) = Ok (state, engine_id) → last_sequence (y_store (wh_system w)) = Ok n →
      whole_step w (whole_start (y_store (wh_system w)) state n
        (mk_broker (b_topic (o_broker (wh_output w))) (b_market (o_broker (wh_output w))) acks)).
End whole.

(** ** What the output worker leaves of the journal *)

Section records_kept.
Context {E : Externals} {V : EventFormat E} {F : JournalFormat E}.

(** What the output worker does to the journal: it moves the delivery cursor, within the records. *)
Definition cursor_moved (s s' : Store) : Prop :=
  s_genesis s' = s_genesis s ∧ s_records s' = s_records s ∧
  (s_delivery s' = s_delivery s ∨ 0 ≤ s_delivery s' ≤ Z.of_nat (length (s_records s))).

(** It writes no records. *)
Definition contents (store : Store) := (s_genesis store, s_records store).
Definition keeps_records {A} (m : st Output A) : Prop := ∀ o, contents (o_store (m o).2) = contents (o_store o).

Lemma keeps_records_bind {A B} (m : st Output A) (f : A → st Output B) :
  keeps_records m → (∀ a, keeps_records (f a)) → keeps_records (m ≫= f).
Proof.
  intros Hm Hf o. unfold mbind, st_bind. pose proof (Hm o) as H. destruct (m o) as [[a|e|] o']; [| done..].
  rewrite (Hf a o'). exact H.
Qed.
Lemma keeps_records_lift {A} (m : result A) : keeps_records (lift m).
Proof. done. Qed.
Lemma keeps_records_broker {A} (m : st Broker A) : keeps_records (with_broker m).
Proof. intros o. unfold with_broker, zoom. by destruct (m _). Qed.
Lemma keeps_records_market {A} (m : st Projection A) : keeps_records (with_market m).
Proof. intros o. unfold with_market, zoom. by destruct (m _). Qed.
Lemma keeps_records_send event : keeps_records (send_market event).
Proof. apply keeps_records_bind; [apply keeps_records_broker | intros; apply keeps_records_lift]. Qed.
Lemma keeps_records_markets events : keeps_records (send_markets events).
Proof. induction events as [|event events IH]; [done |]. apply keeps_records_bind;
  [apply keeps_records_send | done]. Qed.
Lemma keeps_records_ready r : keeps_records (smodify (send_ready r)).
Proof. intros o. unfold smodify, send_ready. by destruct (o_ready o). Qed.

Lemma keeps_records_mark commit sequence : keeps_records (mark commit sequence).
Proof.
  assert (Hmark : keeps_records (zoom o_store set_store (mark_delivered sequence))).
  { intros o. unfold zoom. destruct (mark_delivered sequence (o_store o)) as [r store] eqn:Hm. cbn.
    revert Hm. unfold mark_delivered, mbind, st_bind, sget, lift, sput.
    repeat case_match; intros; by simplify_eq. }
  destruct commit; [exact Hmark | apply keeps_records_lift |].
  apply keeps_records_bind; [exact Hmark | intros; apply keeps_records_lift].
Qed.

Lemma keeps_records_deliver engine_id record : keeps_records (deliver_record engine_id record).
Proof.
  unfold deliver_record. destruct (r_outcome record) as [[batch|]| |]; try done.
  apply keeps_records_bind; [apply keeps_records_broker |]. intros [error|]; [| done].
  apply keeps_records_bind; [apply keeps_records_ready | intros; apply keeps_records_lift].
Qed.

Lemma keeps_records_deliver_market engine_id record : keeps_records (deliver_market engine_id record).
Proof.
  apply keeps_records_bind; [apply keeps_records_market |]. intros [event|]; [apply keeps_records_send | done].
Qed.

Lemma output_next_records engine_id durable journal_done commit o :
  contents (o_store (output_next engine_id durable journal_done commit o)) = contents (o_store o).
Proof.
  assert (Hnext : keeps_records (deliver_next engine_id commit)).
  { intros o0. unfold deliver_next. apply (keeps_records_bind (lift (read _ _))); [apply keeps_records_lift |].
    intros record.
    apply keeps_records_bind; [apply keeps_records_deliver |]. intros _. apply keeps_records_bind;
      [apply keeps_records_deliver_market |].
    intros _. apply keeps_records_bind; [apply keeps_records_mark |]. done. }
  unfold output_next. destruct (o_phase o); [| done..]. cbn zeta.
  set (o1 := if o_startup_end o <=? o_cursor o then send_ready (Ok tt) o else o).
  assert (H1 : contents (o_store o1) = contents (o_store o)).
  { unfold o1. destruct (_ <=? _); [exact (keeps_records_ready (Ok tt) o) | done]. }
  destruct (o_cursor o1 <? durable); [| by destruct (journal_done && _)].
  pose proof (Hnext o1) as H2. destruct (deliver_next engine_id commit o1) as [[]  o2]; cbn in *; congruence.
Qed.

End records_kept.

Section whole_facts.
Context {E : Externals} {L : DecimalLaws ext_decimal} {V : EventFormat E} {F : JournalFormat E} {FL : JournalFormatLaws F}.
Variable capacity : nat.
Variable now : Z → Timestamp.
Variable order : list MarketSnapshot → list MarketSnapshot.
Variable engine_id : string.

(** Moving the cursor changes nothing of what is recovered. *)
Lemma recover_moved store store' s id : cursor_moved store store' → recover store = Ok (s, id) → recover store' = Ok (s, id).
Proof.
  intros (Hg & Hr & Hd) Hrec. destruct (recover_run _ _ _ Hrec) as (s0 & next & Hgen & _ & Hrep & Hdel & Hlt).
  destruct (replay_keys _ _ _ _ _ Hrep) as [-> _]. destruct store' as [genesis rows cursor]. cbn in *.
    subst genesis rows.
  rewrite Hgen, Hrep. cbn [mbind result_bind].
  assert (Hpos : 0 ≤ s_delivery store) by (unfold delivered, u64_of_i64 in Hdel;
    by destruct (Z.leb_spec 0 (s_delivery store))).
  unfold u64_of_i64. destruct (Z.leb_spec 0 cursor); [| lia]. cbn [mbind result_bind].
  destruct (Z.ltb_spec cursor (1 + Z.of_nat (length (s_records store)))); [done | lia].
Qed.

(** The journal worker sees no more of the cursor than that. *)
Lemma system_ok_moved state id y store :
  cursor_moved (y_store y) store → system_ok capacity state id y → system_ok capacity state id (on_store_of store y).
Proof.
  intros Hmoved [Hw (queue & i1 & i2 & written & s & answered & later & lost & Hj & Ht & Hserve & Hrec & Hp & Hwr & Ha &
    Hrest) Hdone].
  split; [done | | done]. exists queue, i1, i2, written, s, answered, later, lost. cbn.
  split_and!; try done; [by eapply recover_moved |]. destruct Hrest as [? | (-> & -> & Hlast & Hdur)]; [by left | right].
  split_and!; try done. destruct Hmoved as (_ & Hr & _). revert Hlast. unfold last_sequence. by rewrite Hr.
Qed.

(** A record that was delivered moves the cursor by one. *)
Lemma deliver_next_cursor commit o u o' :
  deliver_next engine_id commit o = (Ok u, o') → o_cursor o' = o_cursor o + 1.
Proof.
  unfold deliver_next. intros H. apply st_bind_ok in H as (o1 & o2 & [= <- <-] & H).
  apply st_bind_ok in H as (record & o3 & Hread & H). injection Hread as Hread _.
  apply st_bind_ok in H as (u1 & o4 & _ & H). apply st_bind_ok in H as (u2 & o5 & _ & H).
  apply st_bind_ok in H as (u3 & o6 & _ & H). injection H as <- <-. cbn [set_cursor o_cursor].
  unfold read in Hread. apply bind_ok in Hread as (key & _ & Hread). apply bind_ok in Hread as (r & _ & Hread).
  apply bind_ok in Hread as (record' & _ & Hread). apply bind_ok in Hread as (u4 & He%ensure_ok%Z.eqb_eq & Hread).
  by injection Hread as <-.
Qed.

(** A round of the output worker: it ends, or delivers the next record that is durable, or waits. *)
Lemma output_next_round durable journal_done commit o :
  o_phase o = Delivering →
  let o' := output_next engine_id durable journal_done commit o in
  o_phase o' ≠ Delivering ∨ (o_cursor o < durable ∧ o_cursor o' = o_cursor o + 1) ∨
  (durable ≤ o_cursor o ∧ o_cursor o' = o_cursor o ∧ (o_cursor o = durable → journal_done = false)).
Proof.
  intros Hph. unfold output_next. rewrite Hph. cbn zeta.
  set (o1 := if o_startup_end o <=? o_cursor o then send_ready (Ok tt) o else o).
  assert (Hc : o_cursor o1 = o_cursor o).
  { unfold o1. case_match; [| done]. by destruct (send_ready_same (Ok tt) o) as (_ & _ & _ & ? & _). }
  clearbody o1. destruct (Z.ltb_spec (o_cursor o1) durable) as [Hlt | Hge].
  - destruct (deliver_next engine_id commit o1) as [[u|e|] o2] eqn:Hrun; [| by left..].
    right. left. rewrite (deliver_next_cursor _ _ _ _ Hrun), Hc. split; [lia | done].
  - destruct journal_done; cbn [andb]; [destruct (Z.eqb_spec (o_cursor o1) durable); [by left |] |];
      right; right; (split; [lia |]; split; [done |]); intros; (done || lia).
Qed.

(** What a step of the journal worker does to the journal. *)
Lemma journal_next_store commit y :
  (y_store (journal_next now commit y) = y_store y ∧ y_durable (journal_next now commit y) = y_durable y) ∨
  ∃ group next rows, y_phase y = Appending group ∧
    append_rows now group (y_sequence y) (s_records (y_store y)) = Ok (next, rows) ∧
    y_store (journal_next now commit y) = mk_store (s_genesis (y_store y)) rows (s_delivery (y_store y)) ∧
    (y_durable (journal_next now commit y) = y_durable y ∨ y_durable (journal_next now commit y) = next).
Proof.
  unfold journal_next. destruct (y_phase y) as [|group|group|[|item group]| |] eqn:Hph.
  3:{ unfold append, mbind, st_bind, sget, lift.
    destruct (append_rows now group (y_sequence y) (s_records (y_store y))) as [[next rows]| |] eqn:Hrows;
      [| by left..].
    destruct commit; cbn.
    - right. exists group, next, rows. split_and!; try done. by right.
    - by left.
    - right. exists group, next, rows. split_and!; try done. by left. }
  all: left; by repeat case_match.
Qed.

(** ** The invariant of the whole

    From the state [s0] of the first start on. *)

Variable s0 : EngineState.
Hypothesis s0_wf : state_wf s0.
Hypothesis s0_empty : ∀ market buy p o, ¬ resting s0 market buy p o.
Hypothesis capacity_pos : (0 < capacity)%nat.

(** The journal: the records of a history that starts at [s0], recovered to where it ends. *)
Definition journal_ok (store : Store) (s : EngineState) : Prop :=
  recover store = Ok (s, engine_id) ∧ ∃ records, journal_holds s0 records s (s_records store).

Record whole_ok (w : Whole) : Prop := {
  wh_shared : o_store (wh_output w) = y_store (wh_system w);
  wh_journal : ∃ s, journal_ok (y_store (wh_system w)) s;
  wh_workers : ∃ state, system_ok capacity state engine_id (wh_system w);
  wh_durable : y_durable (wh_system w) ≤ Z.of_nat (length (s_records (y_store (wh_system w))));
  wh_delivery : output_ok engine_id s0 (wh_output w);
  wh_cursor : o_phase (wh_output w) = Delivering → o_cursor (wh_output w) ≤ y_durable (wh_system w);
}.

(** A start on a journal of that kind, with what is in the topics. *)
Lemma whole_start_ok store state n broker records m d :
  recover store = Ok (state, engine_id) → journal_holds s0 records state (s_records store) → last_sequence store = Ok n →
  topic_at engine_id records m (b_topic broker) → s_delivery store = Z.of_nat d → (d ≤ length records)%nat →
  (offset engine_id records d ≤ m)%nat → whole_ok (whole_start order engine_id store state n broker).
Proof.
  intros Hrec Hjh Hlast Htop Hdel Hd Hm.
  destruct (output_start_run engine_id s0 s0_wf s0_empty order n store broker records state d m Hjh Htop Hdel Hd Hm)
    as (Hok & Hstore & _).
  destruct (last_sequence_recovered _ _ _ Hrec) as [Hcount _]. rewrite Hlast in Hcount. injection Hcount as ->.
  split; cbn; [done | exists state; split; [done | by exists records] | exists state | done | done |].
  - by apply (system_ok_reachable capacity now store state engine_id _ _ capacity_pos Hrec Hlast), rtc_refl.
  - intros Hph. destruct Hok as (records' & s' & m' & d' & Hjh' & _ & _ & Hd' & _ & _ & [Hst | [-> _]]);
      [by rewrite Hph in Hst |].
    rewrite Hstore in Hjh'. rewrite (jh_rows _ _ _ _ Hjh'), length_map. lia.
Qed.

(** A first start. *)
Lemma whole_first store n acks :
  recover store = Ok (s0, engine_id) → s_records store = [] → s_delivery store = 0 → last_sequence store = Ok n →
  whole_ok (whole_start order engine_id store s0 n (mk_broker [] [] acks)).
Proof.
  intros Hrec Hrows Hdel Hlast. apply (whole_start_ok _ _ _ _ [] 0 0); try done.
Qed.

(** Nothing but the worker changes. *)
Lemma whole_ok_worker w v state :
  whole_ok w → system_ok capacity state engine_id (set_worker v (wh_system w)) → whole_ok (with_worker v w).
Proof. intros [Hs Hj _ Hdur Hdel Hc] Hok. split; [done | done | by exists state | done | done | done]. Qed.

Lemma whole_journal_ok commit w : whole_ok w → whole_ok (journal_turn now commit w).
Proof.
  intros [Hs (s & Hrec & records & Hjh) (state & Hok) Hdur Hdel Hcur]. unfold journal_turn.
  pose proof (system_ok_journal capacity now state engine_id commit _ Hok) as Hok'.
  destruct (journal_next_store commit (wh_system w)) as [[Hsame Hd] | (group & next & rows & Hph & Hrows & Hstore & Hd)].
  - split; cbn [wh_system wh_output]; [done | rewrite Hsame; by exists s; split; [| exists records] | by exists state | by rewrite Hsame, Hd | | by rewrite Hd].
    rewrite Hsame, <- Hs. by destruct (wh_output w).
  - destruct Hok as [Hw (queue & i1 & i2 & written & s1 & answered & later & lost & Hj & Ht & Hserve & Hrec' & Hp & Hwr & Ha &
      Hrest) _]. rewrite Hph in *. destruct Hrest as [? | (-> & -> & Hlast & Hseq)]; [done |].
    cbn [in_hand app] in Hp. rewrite Hrec in Hrec'. injection Hrec' as <-.
    destruct (next_group _ _ _ _ _ _ _ _ _ Hw Ht Hserve Hp) as (j1 & j2 & s2 & _ & Hgroup & _).
    destruct (recover_append _ _ _ _ _ _ _ _ _ _ Hrec Hlast Hgroup Hrows) as [Hrec2 Hlast2].
    assert (Hcount : y_sequence (wh_system w) = Z.of_nat (length records)).
    { destruct (last_sequence_recovered _ _ _ Hrec) as [Hl _]. rewrite Hlast in Hl. injection Hl as ->.
      by rewrite (jh_rows _ _ _ _ Hjh), length_map. }
    rewrite Hcount in Hrows. destruct (append_continues _ _ _ _ _ _ _ _ _ _ Hjh Hgroup Hrows) as [more Hmore].
    rewrite <- Hstore in Hrec2, Hlast2.
    assert (Hnext : Z.of_nat (length (s_records (y_store (wh_system w)))) ≤ next ∧
      next = Z.of_nat (length (s_records (y_store (journal_next now commit (wh_system w)))))).
    { destruct (last_sequence_recovered _ _ _ Hrec2) as [Hl2 _]. rewrite Hlast2 in Hl2. injection Hl2 as ->.
      rewrite Hstore. cbn [s_records].
      rewrite (jh_rows _ _ _ _ Hmore), (jh_rows _ _ _ _ Hjh), !length_map, length_app. lia. }
    split; cbn [wh_system wh_output]; [done | | by exists state | | |].
    + exists s2. split; [done |]. rewrite Hstore. by exists (records ++ more).
    + destruct Hd as [-> | ->]; lia.
    + rewrite Hstore, <- Hs. rewrite <- Hs in Hjh. by eapply output_append_ok.
    + intros Hph'. specialize (Hcur Hph'). cbn. destruct Hd as [-> | ->]; lia.
Qed.
(** What is delivered is within the records. *)
Lemma delivery_within o : output_ok engine_id s0 o → 0 ≤ s_delivery (o_store o) ≤ Z.of_nat (length (s_records (o_store o))).
Proof.
  intros (records & s & m & d & Hjh & _ & -> & Hd & _). rewrite (jh_rows _ _ _ _ Hjh), length_map. lia.
Qed.

Lemma whole_output_ok commit w : whole_ok w → whole_ok (output_turn engine_id commit w).
Proof.
  intros [Hs (s & Hrec & records & Hjh) (state & Hok) Hdur Hdel Hcur]. unfold output_turn.
  set (o := output_next engine_id (y_durable (wh_system w)) (journal_finished (y_phase (wh_system w))) commit (wh_output w)).
  assert (Hdel' : output_ok engine_id s0 o) by (apply output_next_ok; try done; by rewrite Hs).
  assert (Hc : contents (o_store o) = contents (y_store (wh_system w))) by (rewrite <- Hs; apply output_next_records).
  injection Hc as Hgenesis Hrecords.
  assert (Hmoved : cursor_moved (y_store (wh_system w)) (o_store o)).
  { split; [done |]. split; [done |]. right. rewrite <- Hrecords. by apply delivery_within. }
  set (v := match o_phase o with Delivering => y_worker (wh_system w) | _ => close_core (y_worker (wh_system w)) end).
  assert (Hv : system_ok capacity state engine_id (set_worker v (wh_system w))).
  { unfold v. destruct (o_phase o); [by destruct (wh_system w) | |]; (eapply system_ok_around; [done | apply closed | done]). }
  split; cbn [wh_system wh_output]; [done | | exists state; by apply system_ok_moved | | done |].
  - exists s. split; [by eapply recover_moved |]. exists records. cbn. by rewrite Hrecords.
  - cbn. by rewrite Hrecords.
  - cbn. intros Hph'. destruct (o_phase (wh_output w)) eqn:Hph; [| unfold o, output_next in Hph'; rewrite Hph in Hph'; congruence..].
    specialize (Hcur eq_refl).
    destruct (output_next_round (y_durable (wh_system w)) (journal_finished (y_phase (wh_system w))) commit _ Hph)
      as [Hne | [[Hlt Hc'] | (_ & Hc' & _)]]; [done | fold o in Hc'; lia..].
Qed.

Lemma whole_restart_ok w state n acks :
  whole_ok w → recover (y_store (wh_system w)) = Ok (state, engine_id) → last_sequence (y_store (wh_system w)) = Ok n →
  whole_ok (whole_start order engine_id (y_store (wh_system w)) state n
    (mk_broker (b_topic (o_broker (wh_output w))) (b_market (o_broker (wh_output w))) acks)).
Proof.
  intros [Hs (s & Hrec & records & Hjh) _ _ (records' & s' & m & d & Hjh' & Htop & Hdel & Hd & Hm & _) _] Hrec' Hlast.
  rewrite Hrec in Hrec'. injection Hrec' as <-. rewrite Hs in Hjh', Hdel.
  assert (records' = records) as -> by (apply written_inj; by rewrite <- (jh_rows _ _ _ _ Hjh), <- (jh_rows _ _ _ _ Hjh')).
  by apply (whole_start_ok _ _ _ _ records m d).
Qed.

Lemma whole_ok_reachable w w' : rtc (whole_step capacity now order engine_id) w w' → whole_ok w → whole_ok w'.
Proof.
  induction 1 as [w | w w1 w2 Hstep _ IH]; [done |]. intros Hok. apply IH. destruct (wh_workers _ Hok) as [state Hsys].
  destruct Hstep as [| v Hv Hj | commit | commit | state' n acks Hrec Hlast].
  - by eapply (whole_ok_worker w), system_ok_engine.
  - by eapply (whole_ok_worker w), system_ok_around.
  - by apply whole_journal_ok.
  - by apply whole_output_ok.
  - by apply whole_restart_ok.
Qed.

(** A state in the middle of any run, seen from outside. *)
Lemma whole_view w : whole_ok w →
  ∃ records s m d, recover (y_store (wh_system w)) = Ok (s, engine_id) ∧
    journal_holds s0 records s (s_records (y_store (wh_system w))) ∧
    first_copies (b_topic (o_broker (wh_output w))) = take m (messages engine_id records) ∧
    s_delivery (y_store (wh_system w)) = Z.of_nat d ∧ (d ≤ length records)%nat ∧ (offset engine_id records d ≤ m)%nat ∧
    (m ≤ length (messages engine_id records))%nat ∧ o_delivered (wh_output w) ≤ Z.of_nat d.
Proof.
  intros [Hs (s & Hrec & records & Hjh) _ _ (records' & s' & m & d & Hjh' & [Htop Hlen] & Hdel & Hd & Hm & Hdelivered & _) _].
  rewrite Hs in Hjh', Hdel.
  assert (records' = records) as -> by (apply written_inj; by rewrite <- (jh_rows _ _ _ _ Hjh), <- (jh_rows _ _ _ _ Hjh')).
  by exists records, s, m, d.
Qed.
End whole_facts.

Section lifecycle_properties.
Context {E : Externals} {L : DecimalLaws ext_decimal} {V : EventFormat E} {F : JournalFormat E} {FL : JournalFormatLaws F}.

(** A whole that began on a new journal with the balances [c]. *)
Lemma whole_run capacity now order id c store acks w :
  (0 < capacity)%nat → recover store = Ok (set_state_cache c state_new, id) → s_records store = [] → s_delivery store = 0 →
  rtc (whole_step capacity now order id) (whole_start order id store (set_state_cache c state_new) 0 (mk_broker [] [] acks)) w →
  whole_ok capacity id (set_state_cache c state_new) w.
Proof.
  intros Hcap Hrec Hrows Hdel Hreach.
  assert (Hwf : state_wf (set_state_cache c state_new)).
  { destruct (recover_run _ _ _ Hrec) as (s0 & next & _ & Hwf0 & Hrep & _). by eapply replay_wf. }
  pose proof (initial_no_orders c) as Hempty. destruct (last_sequence_recovered _ _ _ Hrec) as [Hlast _].
  eapply (whole_ok_reachable capacity now order id); [done.. | exact Hreach |].
  apply (whole_first capacity now order id); try done. by rewrite Hlast, Hrows.
Qed.

(** C12. The platform sees every event once and in order. An engine starts on a new journal. Its three
    workers run against each other, transactions commit, fail, or commit and report a failure, the
    process ends at any moment and the next one starts on what is left, and the broker confirms,
    loses, or stores without confirming what is published. At every moment the journal can be
    recovered, to the state after the commands of its records, and a reader of the topic that ignores
    messages it has already seen has read exactly the events of these records, in their order, from
    the first one up to some point, with none missing, none invented and none that is not on disk;
    everything the delivery cursor has passed is before that point. *)
Theorem events_delivered_in_order capacity now order id c store acks w :
  (0 < capacity)%nat → recover store = Ok (set_state_cache c state_new, id) → s_records store = [] → s_delivery store = 0 →
  rtc (whole_step capacity now order id) (whole_start order id store (set_state_cache c state_new) 0 (mk_broker [] [] acks)) w →
  ∃ records s m d, recover (y_store (wh_system w)) = Ok (s, id) ∧
    journal_holds (set_state_cache c state_new) records s (s_records (y_store (wh_system w))) ∧
    first_copies (b_topic (o_broker (wh_output w))) = take m (messages id records) ∧
    s_delivery (y_store (wh_system w)) = Z.of_nat d ∧ (d ≤ length records)%nat ∧
    (length (messages id (take d records)) ≤ m ≤ length (messages id records))%nat.
Proof.
  intros Hcap Hrec Hrows Hdel Hreach.
  destruct (whole_view _ _ _ _ (whole_run _ _ _ _ _ _ _ _ Hcap Hrec Hrows Hdel Hreach))
    as (records & s & m & d & Hrec' & Hjh & Htop & Hd & Hle & Hoff & Hm & _).
  exists records, s, m, d. unfold offset in Hoff. by split_and!.
Qed.

(** C8. A stop that reports success has lost nothing on the way out. An engine starts on a new journal,
    runs through any number of processes that end at any moment, and in the end its three workers have
    ended and the stop has found no error. Then every request that this last process took was
    answered, the journal recovers to exactly the state of the engine worker, and the topic holds every
    event of every record that any of the processes wrote, each first copy in order. *)
Theorem clean_stop_complete capacity now order id c store acks w :
  (0 < capacity)%nat → recover store = Ok (set_state_cache c state_new, id) → s_records store = [] → s_delivery store = 0 →
  rtc (whole_step capacity now order id) (whole_start order id store (set_state_cache c state_new) 0 (mk_broker [] [] acks)) w →
  let y := wh_system w in
  joined y (wh_output w) → halt y (wh_output w) = Ok tt →
  map fst (y_answers y) = map response_of (w_taken (y_worker y)) ∧
  recover (y_store y) = Ok (w_state (y_worker y), id) ∧
  ∃ records, journal_holds (set_state_cache c state_new) records (w_state (y_worker y)) (s_records (y_store y)) ∧
    first_copies (b_topic (o_broker (wh_output w))) = messages id records.
Proof.
  intros Hcap Hrec Hrows Hdel Hreach y (_ & Hphase & _) Hhalt. subst y.
  pose proof (whole_run _ _ _ _ _ _ _ _ Hcap Hrec Hrows Hdel Hreach) as Hok.
  destruct (whole_view _ _ _ _ Hok) as (records & s & m & d & Hrec' & Hjh & Htop & Hd & Hle & Hoff & Hm & Hdelivered).
  assert (Hdone : y_phase (wh_system w) = JournalDone).
  { destruct Hphase as [Hf | Hp]; [| done]. unfold halt in Hhalt. rewrite Hf in Hhalt. by destruct (o_phase (wh_output w)). }
  destruct (wh_workers _ _ _ _ Hok) as [state Hsys].
  destruct (shutdown_ok _ _ _ _ Hsys Hdone) as (_ & Htaken & Hrecover & Hdurable).
  rewrite Hrecover in Hrec'. injection Hrec' as <-. split; [done |]. split; [done |]. exists records. split; [done |].
  assert (Hpending : y_durable (wh_system w) ≤ o_delivered (wh_output w)).
  { unfold halt in Hhalt. rewrite Hdone in Hhalt. destruct (o_phase (wh_output w)); destruct (w_pc (y_worker (wh_system w)));
      try done; apply bind_ok in Hhalt as (u & _ & Hp%ensure_ok%Z.eqb_eq); cbn in Hp; lia. }
  destruct (last_sequence_recovered _ _ _ Hrecover) as [Hcount _]. rewrite Hdurable in Hcount. injection Hcount as Hcount.
  rewrite (jh_rows _ _ _ _ Hjh), length_map in Hcount. assert (d = length records) as -> by lia.
  rewrite Htop. apply take_ge. unfold offset in Hoff. by rewrite firstn_all in Hoff.
Qed.
End lifecycle_properties.

(** ** The properties at concrete inputs

    A deposit is taken, recorded and answered; the broker stores its event and does not confirm it, and
    the process ends. The next one publishes the event again and is stopped. *)

Section lifecycle_examples.
#[local] Existing Instance ref_externals.
#[local] Existing Instance ref_decimal_laws.
#[local] Existing Instance ref_format.
#[local] Existing Instance ref_format_laws.
#[local] Existing Instance ref_events.

Definition ex_journal_turn : Whole → Whole := journal_turn ex_clock Committed.
Definition ex_output_turn : Whole → Whole := output_turn "engine" Committed.
Definition ex_whole0 : Whole := whole_start Datatypes.id "engine" ex_store ex_start 0 (mk_broker [] [] [Unacked true "timed out"]).
Definition ex_whole1 : Whole := with_worker (drop_balance (y_worker (wh_system ex_whole0)) [ex_pay]) ex_whole0.
Definition ex_whole2 : Whole := ex_output_turn (Nat.iter 5 ex_journal_turn (engine_turn 2 ex_whole1)).

(** The next process. *)
Definition ex_next_state : EngineState := (get_ok (state_new, EmptyString) (recover (y_store (wh_system ex_whole2)))).1.
Definition ex_next_sequence : Z := get_ok 0 (last_sequence (y_store (wh_system ex_whole2))).
Definition ex_whole3 : Whole :=
  whole_start Datatypes.id "engine" (y_store (wh_system ex_whole2)) ex_next_state ex_next_sequence
    (mk_broker (b_topic (o_broker (wh_output ex_whole2))) (b_market (o_broker (wh_output ex_whole2))) []).
Definition ex_whole4 : Whole := with_worker (close_core (y_worker (wh_system (ex_output_turn ex_whole3)))) (ex_output_turn ex_whole3).
Definition ex_whole5 : Whole := ex_output_turn (ex_journal_turn (engine_turn 2 ex_whole4)).

Lemma ex_next_recovers : recover (y_store (wh_system ex_whole2)) = Ok (ex_next_state, "engine"%string).
Proof.
  assert (H : ∀ r : result (EngineState * string), is_ok r = true →
    String.eqb (get_ok (state_new, EmptyString) r).2 "engine" = true → r = Ok ((get_ok (state_new, EmptyString) r).1, "engine"%string)).
  { intros [[s id]| |]; [| done..]. cbn. by intros _ ->%String.eqb_eq. }
  apply H; vm_compute; reflexivity.
Qed.
Lemma ex_next_last : last_sequence (y_store (wh_system ex_whole2)) = Ok ex_next_sequence.
Proof.
  assert (H : ∀ r : result Z, is_ok r = true → r = Ok (get_ok 0 r)) by by intros [].
  apply H. vm_compute. reflexivity.
Qed.

#[local] Abbreviation ex_run := (rtc (whole_step 2 ex_clock Datatypes.id "engine")).
Lemma ex_journal_turns n w : ex_run w (Nat.iter n ex_journal_turn w).
Proof.
  induction n as [|n IH]; [apply rtc_refl |]. eapply rtc_r; [exact IH | exact (whole_journal 2 ex_clock Datatypes.id "engine" _ Committed)].
Qed.
Lemma ex_whole_reachable : ex_run ex_whole0 ex_whole5.
Proof.
  eapply rtc_l; [exact (whole_around 2 ex_clock Datatypes.id "engine" ex_whole0 _ (balance_arrives _ ex_pay) eq_refl) |].
  eapply rtc_l; [exact (whole_engine 2 ex_clock Datatypes.id "engine" ex_whole1) |].
  etransitivity; [exact (ex_journal_turns 5 _) |].
  eapply rtc_l; [exact (whole_output 2 ex_clock Datatypes.id "engine" _ Committed) |].
  eapply rtc_l; [exact (whole_restart 2 ex_clock Datatypes.id "engine" ex_whole2 _ _ [] ex_next_recovers ex_next_last) |].
  eapply rtc_l; [exact (whole_output 2 ex_clock Datatypes.id "engine" ex_whole3 Committed) |].
  eapply rtc_l; [exact (whole_around 2 ex_clock Datatypes.id "engine" _ _ (closed _) eq_refl) |].
  eapply rtc_l; [exact (whole_engine 2 ex_clock Datatypes.id "engine" ex_whole4) |].
  eapply rtc_l; [exact (whole_journal 2 ex_clock Datatypes.id "engine" _ Committed) |].
  apply rtc_once. exact (whole_output 2 ex_clock Datatypes.id "engine" _ Committed).
Qed.

(** The event was published twice, and is there once for a reader that knows it. *)
Example ex_delivered :
  (map fst (b_topic (o_broker (wh_output ex_whole5))), map fst (first_copies (b_topic (o_broker (wh_output ex_whole5)))),
   s_delivery (y_store (wh_system ex_whole5))) = ([(1, 0); (1, 0)], [(1, 0)], 1).
Proof. vm_compute. reflexivity. Qed.

Lemma events_delivered_in_order_witness :
  ∃ records s m d, recover (y_store (wh_system ex_whole5)) = Ok (s, "engine"%string) ∧
    journal_holds ex_start records s (s_records (y_store (wh_system ex_whole5))) ∧
    first_copies (b_topic (o_broker (wh_output ex_whole5))) = take m (messages "engine" records) ∧
    s_delivery (y_store (wh_system ex_whole5)) = Z.of_nat d ∧ (d ≤ length records)%nat ∧
    (length (messages "engine" (take d records)) ≤ m ≤ length (messages "engine" records))%nat.
Proof.
  exact (events_delivered_in_order 2 ex_clock Datatypes.id "engine" ex_seed ex_store [Unacked true "timed out"] ex_whole5
    (Nat.lt_0_succ 1) ex_store_recovers eq_refl eq_refl ex_whole_reachable).
Defined.

Definition ended (w : Whole) : bool :=
  sender_gone (y_worker (wh_system w)) && match y_phase (wh_system w) with JournalDone => true | _ => false end &&
  match o_phase (wh_output w) with OutputDone => true | _ => false end.
Lemma ended_joined w : ended w = true → joined (wh_system w) (wh_output w).
Proof.
  unfold ended, joined. destruct (sender_gone _), (y_phase _), (o_phase _); try done. intros _. by split_and!; [| right |].
Qed.
Lemma ex_joined : joined (wh_system ex_whole5) (wh_output ex_whole5).
Proof. apply ended_joined. vm_compute. reflexivity. Qed.
Lemma ex_halted : halt (wh_system ex_whole5) (wh_output ex_whole5) = Ok tt.
Proof.
  assert (H : ∀ r : result unit, is_ok r = true → r = Ok tt) by by intros [[]| |].
  apply H. vm_compute. reflexivity.
Qed.

Lemma clean_stop_complete_witness :
  ∃ records, journal_holds ex_start records (w_state (y_worker (wh_system ex_whole5))) (s_records (y_store (wh_system ex_whole5))) ∧
    first_copies (b_topic (o_broker (wh_output ex_whole5))) = messages "engine" records.
Proof.
  exact (proj2 (proj2 (clean_stop_complete 2 ex_clock Datatypes.id "engine" ex_seed ex_store [Unacked true "timed out"] ex_whole5
    (Nat.lt_0_succ 1) ex_store_recovers eq_refl eq_refl ex_whole_reachable ex_joined ex_halted))).
Defined.
End lifecycle_examples.
