(* ===== verification/Stop.v ===== *)
(** * A stop ends ([halt] of [runtime/engine.rs] waits for the three workers)

    [halt] closes the core and joins the engine worker, the journal worker and the output worker. Here:
    from the moment the core is closed they all end after a bounded number of turns, whatever their
    transactions and the broker do. *)

From stdpp Require Import base tactics gmap list strings.
From Stdlib Require Import ZArith Lia.
From S2P Require Import Prelude Text Decimals Amount BTree RefDecimal Types BalanceCache OrderBook Matcher Submission State Deposit Withdrawal Cancel Journal History Resting Events EngineLoop Store Durability Market Output Boundary Handle Lifecycle.

(** ** What is left to do

    A bound on the turns that each worker still needs; an entry of the journal queue is taken, written,
    delivered and answered. *)

Section measure.
Context {E : Externals} {V : EventFormat E} {F : JournalFormat E}.

Definition engine_left (v : Worker) : nat := match w_pc v with AtReceive => 2 | AtTop => 1 | Returned | Panicked => 0 end.

Definition journal_left (y : System) : nat :=
  let queued := (6 * length (default [] (w_journal (y_worker y))))%nat in
  match y_phase y with
  | Receiving => queued + 1
  | Grouping group => queued + 2 * length group + 4
  | Appending group => queued + 2 * length group + 3
  | Answering group => queued + length group + 2
  | JournalFailed | JournalDone => 0
  end%nat.

Definition output_left (durable : Z) (o : Output) : nat :=
  match o_phase o with Delivering => S (Z.to_nat (durable - o_cursor o)) | _ => 0 end.

Definition stop_left (w : Whole) : nat :=
  engine_left (y_worker (wh_system w)) + journal_left (wh_system w) + output_left (y_durable (wh_system w)) (wh_output w).

(** One turn of each worker, with how the transactions of the journal and of the cursor end. *)
Definition stop_round (capacity : nat) (now : Z → Timestamp) (engine_id : string) (w : Whole) (commits : Commit * Commit) : Whole :=
  output_turn engine_id commits.2 (journal_turn now commits.1 (engine_turn capacity w)).
End measure.

Section stop_facts.
Context {E : Externals} {L : DecimalLaws ext_decimal} {V : EventFormat E} {F : JournalFormat E} {FL : JournalFormatLaws F}.
Variable capacity : nat.
Variable now : Z → Timestamp.
Variable engine_id : string.

(** ** The engine worker *)

(** On a closed core the worker leaves its loop and touches nothing but its inputs. *)
Lemma worker_next_closed w :
  w_closed w = true →
  let v := worker_next capacity w in
  w_closed v = true ∧ w_journal v = w_journal w ∧ (engine_left v ≤ engine_left w)%nat ∧
  (sender_gone w = false → engine_left v < engine_left w)%nat.
Proof.
  intros Hc. unfold worker_next, engine_left, sender_gone. rewrite Hc, andb_false_r.
  destruct (w_pc w) eqn:Hpc; cbn; rewrite ?Hpc; [split_and!; done || lia | | split_and!; done || lia..].
  destruct (w_orders w) as [|input rest]; [destruct (w_connected w) |]; cbn; split_and!; done || lia.
Qed.

(** ** The journal worker *)

(** The sequence after an append is at most one higher for each entry. *)
Lemma append_rows_next ps n rows next rows' :
  append_rows now ps n rows = Ok (next, rows') → n ≤ next ≤ n + Z.of_nat (length ps).
Proof.
  revert n rows. induction ps as [|p ps IH]; intros n rows Happ; [injection Happ as <- _; cbn; lia |].
  cbn [append_rows] in Happ. destruct (p_command p) as [command|]; [| apply IH in Happ; cbn; lia].
  apply bind_ok in Happ as (m & Hm%ok_or_ok & Happ). unfold u64_checked_add in Hm. destruct (_ <=? U64_MAX); [| done].
  injection Hm as <-. apply bind_ok in Happ as (key & _ & Happ). apply bind_ok in Happ as (rows1 & _ & Happ).
  apply IH in Happ. cbn. lia.
Qed.

(** What the journal worker makes durable is paid for by what it has done. *)
Lemma journal_next_left commit state y :
  system_ok capacity state engine_id y →
  let z := journal_next now commit y in
  let gained := Z.to_nat (y_durable z - y_durable y) in
  y_durable y ≤ y_durable z ∧ w_pc (y_worker z) = w_pc (y_worker y) ∧
  (w_closed (y_worker y) = true → w_closed (y_worker z) = true) ∧
  (journal_left z + gained ≤ journal_left y)%nat ∧
  (journal_finished (y_phase y) = false → sender_gone (y_worker y) = true → journal_left z + gained < journal_left y)%nat ∧
  (journal_finished (y_phase y) = true → journal_finished (y_phase z) = true).
Proof.
  intros Hok. destruct (sy_progress _ _ _ _ Hok)
    as (queue & i1 & i2 & written & s & answered & later & lost & Hj & _ & _ & _ & _ & _ & _ & Hrest).
  unfold journal_next, journal_left. rewrite Hj. cbn [default from_option]. unfold Datatypes.id.
  destruct (y_phase y) as [|group|group|[|item group]| |] eqn:Hph.
  - destruct queue as [|first queue]; [destruct (sender_gone _) eqn:Hgone |]; cbn; rewrite ?Hph, ?Hj, ?Z.sub_diag; cbn;
      split_and!; done || lia.
  - destruct queue as [|next queue]; [| destruct (length group <? 256)%nat]; cbn; rewrite ?Hj, ?length_app, ?Z.sub_diag; cbn;
      split_and!; done || lia.
  - destruct Hrest as [? | (_ & _ & _ & Hdur)]; [done |]. unfold append, mbind, st_bind, sget, lift.
    destruct (append_rows now group (y_sequence y) (s_records (y_store y))) as [[next rows]| |] eqn:Hrows.
    + apply append_rows_next in Hrows. destruct commit; cbn; rewrite ?Hj, ?Z.sub_diag; cbn; split_and!; done || lia.
    + cbn. rewrite Z.sub_diag. split_and!; done || lia.
    + cbn. rewrite Z.sub_diag. split_and!; done || lia.
  - cbn. rewrite Hj, Z.sub_diag. cbn. split_and!; done || lia.
  - cbn. rewrite Hj, Z.sub_diag. cbn. split_and!; done || lia.
  - rewrite Hph, Z.sub_diag. split_and!; done || lia.
  - rewrite Hph, Z.sub_diag. split_and!; done || lia.
Qed.

(** ** The whole *)

Variable s0 : EngineState.
Hypothesis s0_wf : state_wf s0.
Hypothesis capacity_pos : (0 < capacity)%nat.

(** A turn of each worker: the core stays closed, nothing more is left, and less if there was something
    to do. *)
Lemma engine_turn_left w :
  w_closed (y_worker (wh_system w)) = true →
  w_closed (y_worker (wh_system (engine_turn capacity w))) = true ∧ (stop_left (engine_turn capacity w) ≤ stop_left w)%nat ∧
  (sender_gone (y_worker (wh_system w)) = false → stop_left (engine_turn capacity w) < stop_left w)%nat.
Proof.
  intros Hc. destruct (worker_next_closed _ Hc) as (Hc' & Hj & Hle & Hlt). split; [done |].
  unfold stop_left, journal_left, engine_turn. cbn [wh_system wh_output set_worker y_worker y_phase y_durable].
  rewrite Hj. split; [lia |]. intros Hgone. specialize (Hlt Hgone). lia.
Qed.

Lemma journal_turn_left commit w :
  w_closed (y_worker (wh_system w)) = true → whole_ok capacity engine_id s0 w →
  w_closed (y_worker (wh_system (journal_turn now commit w))) = true ∧ (stop_left (journal_turn now commit w) ≤ stop_left w)%nat ∧
  (journal_finished (y_phase (wh_system w)) = false → sender_gone (y_worker (wh_system w)) = true →
   stop_left (journal_turn now commit w) < stop_left w)%nat.
Proof.
  intros Hc Hok. destruct (wh_workers _ _ _ _ Hok) as [state Hsys].
  destruct (journal_next_left commit _ _ Hsys) as (Hdur & Hpc & Hclosed & Hle & Hlt & _). split; [by apply Hclosed |].
  assert (Hout : ∀ o store, (output_left (y_durable (journal_next now commit (wh_system w))) (set_store store o) ≤
    output_left (y_durable (wh_system w)) o + Z.to_nat (y_durable (journal_next now commit (wh_system w)) - y_durable (wh_system w)))%nat).
  { intros o store. unfold output_left. cbn. destruct (o_phase o); lia. }
  unfold stop_left, journal_turn. cbn [wh_system wh_output].
  specialize (Hout (wh_output w) (y_store (journal_next now commit (wh_system w)))). unfold engine_left. rewrite Hpc.
  split; [lia |]. intros Hf Hgone. specialize (Hlt Hf Hgone). lia.
Qed.

Lemma output_turn_left commit w :
  w_closed (y_worker (wh_system w)) = true → whole_ok capacity engine_id s0 w →
  w_closed (y_worker (wh_system (output_turn engine_id commit w))) = true ∧ (stop_left (output_turn engine_id commit w) ≤ stop_left w)%nat ∧
  (journal_finished (y_phase (wh_system w)) = true → o_phase (wh_output w) = Delivering →
   stop_left (output_turn engine_id commit w) < stop_left w)%nat.
Proof.
  intros Hc Hok. unfold stop_left, output_turn. cbn [wh_system wh_output on_store_of set_worker y_worker y_phase y_durable].
  set (o := output_next engine_id (y_durable (wh_system w)) (journal_finished (y_phase (wh_system w))) commit (wh_output w)).
  set (v := match o_phase o with Delivering => y_worker (wh_system w) | _ => close_core (y_worker (wh_system w)) end).
  assert (Hv : w_closed v = true ∧ w_pc v = w_pc (y_worker (wh_system w)) ∧ w_journal v = w_journal (y_worker (wh_system w)))
    by (unfold v; by destruct (o_phase o)).
  destruct Hv as (Hvc & Hvpc & Hvj). split; [done |]. unfold engine_left, journal_left. cbn [on_store_of set_worker y_worker y_phase]. rewrite Hvpc, Hvj.
  enough (H : (output_left (y_durable (wh_system w)) o ≤ output_left (y_durable (wh_system w)) (wh_output w))%nat ∧
    (journal_finished (y_phase (wh_system w)) = true → o_phase (wh_output w) = Delivering →
     output_left (y_durable (wh_system w)) o < output_left (y_durable (wh_system w)) (wh_output w))%nat).
  { destruct H as [Hle Hlt]. split; [lia |]. intros Hf Hph. specialize (Hlt Hf Hph). lia. }
  destruct (o_phase (wh_output w)) eqn:Hph.
  - pose proof (wh_cursor _ _ _ _ Hok Hph) as Hcur.
    destruct (output_next_round engine_id (y_durable (wh_system w)) (journal_finished (y_phase (wh_system w))) commit _ Hph)
      as [Hne | [[Hlt Hc'] | (Hge & Hc' & Hwait)]]; unfold output_left; rewrite Hph.
    + fold o in Hne. destruct (o_phase o); [done | lia..].
    + fold o in Hc'. rewrite Hc'. destruct (o_phase o); lia.
    + fold o in Hc'. rewrite Hc'. split; [destruct (o_phase o); lia |]. intros Hf. rewrite Hwait in Hf by lia. done.
  - assert (o = wh_output w) as -> by (unfold o, output_next; by rewrite Hph). split; [lia | done].
  - assert (o = wh_output w) as -> by (unfold o, output_next; by rewrite Hph). split; [lia | done].
Qed.

(** ** Ended *)

(** Workers that have ended stay so. *)
Lemma round_joined commits w :
  joined (wh_system w) (wh_output w) →
  let w' := stop_round capacity now engine_id w commits in joined (wh_system w') (wh_output w').
Proof.
  intros (Hgone & Hf & Hph). unfold stop_round, engine_turn. rewrite (worker_next_gone _ _ Hgone).
  assert (Hy : set_worker (y_worker (wh_system w)) (wh_system w) = wh_system w) by by destruct (wh_system w).
  rewrite Hy. unfold journal_turn. cbn [wh_system wh_output].
  assert (Hj : journal_next now commits.1 (wh_system w) = wh_system w) by (unfold journal_next; by destruct Hf as [-> | ->]).
  rewrite Hj. unfold output_turn. cbn [wh_system wh_output].
  assert (Ho : ∀ o durable finished, o_phase o ≠ Delivering → output_next engine_id durable finished commits.2 o = o)
    by (intros o durable finished; unfold output_next; by destruct (o_phase o)).
  rewrite Ho by done. split; [| done]. cbn. by destruct (o_phase (wh_output w)).
Qed.

Lemma nothing_left w : stop_left w = 0%nat → joined (wh_system w) (wh_output w).
Proof.
  unfold stop_left, engine_left, journal_left, output_left, joined, sender_gone. intros H.
  destruct (o_phase (wh_output w)); [lia | |]; (destruct (w_pc (y_worker (wh_system w))); [lia.. | |]);
    (destruct (y_phase (wh_system w)); [lia.. | |]); by auto.
Qed.

(** A round keeps the invariant and the core closed, and does something unless all have ended. *)
Lemma round_less commits w :
  w_closed (y_worker (wh_system w)) = true → whole_ok capacity engine_id s0 w →
  let w' := stop_round capacity now engine_id w commits in
  w_closed (y_worker (wh_system w')) = true ∧ whole_ok capacity engine_id s0 w' ∧
  (stop_left w' < stop_left w ∨ joined (wh_system w') (wh_output w'))%nat.
Proof.
  intros Hc Hok. cbn zeta.
  destruct (wh_workers _ _ _ _ Hok) as [state Hsys].
  assert (Hok1 : whole_ok capacity engine_id s0 (engine_turn capacity w))
    by (by eapply (whole_ok_worker capacity engine_id s0 w), system_ok_engine).
  destruct (engine_turn_left w Hc) as (Hc1 & Hle1 & Hlt1).
  pose proof (whole_journal_ok capacity now engine_id s0 capacity_pos commits.1 _ Hok1) as Hok2.
  destruct (journal_turn_left commits.1 _ Hc1 Hok1) as (Hc2 & Hle2 & Hlt2).
  pose proof (whole_output_ok capacity engine_id s0 s0_wf capacity_pos commits.2 _ Hok2) as Hok3.
  destruct (output_turn_left commits.2 _ Hc2 Hok2) as (Hc3 & Hle3 & Hlt3).
  split; [done |]. split; [done |]. unfold stop_round.
  destruct (sender_gone (y_worker (wh_system w))) eqn:Hgone; [| left; specialize (Hlt1 eq_refl); lia].
  assert (Hsame : y_worker (wh_system (engine_turn capacity w)) = y_worker (wh_system w)) by (cbn; by apply worker_next_gone).
  rewrite Hsame in Hlt2.
  destruct (journal_finished (y_phase (wh_system w))) eqn:Hf; [| left; specialize (Hlt2 Hf Hgone); lia].
  destruct (wh_workers _ _ _ _ Hok1) as [state1 Hsys1].
  destruct (journal_next_left commits.1 _ _ Hsys1) as (_ & _ & _ & _ & _ & Hstay).
  destruct (o_phase (wh_output w)) eqn:Hph; [left; specialize (Hlt3 (Hstay Hf) Hph); lia | right..];
    (apply (round_joined commits); split; [done |]; split; [| congruence];
     by destruct (y_phase (wh_system w)); [.. | left | right]).
Qed.

Lemma rounds_end commits w :
  w_closed (y_worker (wh_system w)) = true → whole_ok capacity engine_id s0 w → (stop_left w ≤ length commits)%nat →
  let w' := foldl (stop_round capacity now engine_id) w commits in joined (wh_system w') (wh_output w').
Proof.
  assert (Hjoined : ∀ rest w, joined (wh_system w) (wh_output w) →
    let w' := foldl (stop_round capacity now engine_id) w rest in joined (wh_system w') (wh_output w')).
  { induction rest as [|c rest IH]; intros w' Hw'; [done |]. by apply IH, round_joined. }
  revert w. induction commits as [|c commits IH]; intros w Hc Hok Hlen; [apply nothing_left; cbn [foldl length] in *; lia |].
  destruct (round_less c w Hc Hok) as (Hc' & Hok' & [Hless | Hj]); cbn [foldl]; [| by apply Hjoined].
  apply IH; [done | done | cbn [length] in Hlen; lia].
Qed.
End stop_facts.

Section stop_properties.
Context {E : Externals} {L : DecimalLaws ext_decimal} {V : EventFormat E} {F : JournalFormat E} {FL : JournalFormatLaws F}.

(** C11. A stop ends. An engine starts on a new journal and has come, through any number of processes,
    to any point at which the core is closed, as [halt] and every failing worker close it. Then after
    at most [stop_left] rounds of one turn for each worker all three have ended, so that [halt] can
    join them: however the transactions of the journal and of the cursor end, whatever the broker
    confirms, and whatever is still queued, unwritten or undelivered. *)
Theorem stop_terminates capacity now order id c store acks w commits :
  (0 < capacity)%nat → recover store = Ok (set_state_cache c state_new, id) → s_records store = [] → s_delivery store = 0 →
  rtc (whole_step capacity now order id) (whole_start order id store (set_state_cache c state_new) 0 (mk_broker [] [] acks)) w →
  w_closed (y_worker (wh_system w)) = true → (stop_left w ≤ length commits)%nat →
  let w' := foldl (stop_round capacity now id) w commits in joined (wh_system w') (wh_output w').
Proof.
  intros Hcap Hrec Hrows Hdel Hreach Hclosed Hlen.
  pose proof (whole_run _ _ _ _ _ _ _ _ Hcap Hrec Hrows Hdel Hreach) as Hok.
  eapply rounds_end; [| done | done | exact Hok | done].
  destruct (recover_run _ _ _ Hrec) as (s0 & next & _ & Hwf0 & Hrep & _). by eapply replay_wf.
Qed.
End stop_properties.

(** ** At a concrete input

    The core is closed while a deposit waits in the journal queue; its transaction fails. *)

Section stop_examples.
#[local] Existing Instance ref_externals.
#[local] Existing Instance ref_decimal_laws.
#[local] Existing Instance ref_format.
#[local] Existing Instance ref_format_laws.
#[local] Existing Instance ref_events.

Definition ex_closed : Whole := with_worker (close_core (y_worker (wh_system (engine_turn 2 ex_whole1)))) (engine_turn 2 ex_whole1).
Definition ex_rounds : list (Commit * Commit) := replicate 9 (RolledBack, Committed).

Lemma ex_closed_reachable : rtc (whole_step 2 ex_clock Datatypes.id "engine") ex_whole0 ex_closed.
Proof.
  eapply rtc_l; [exact (whole_around 2 ex_clock Datatypes.id "engine" ex_whole0 _ (balance_arrives _ ex_pay) eq_refl) |].
  eapply rtc_l; [exact (whole_engine 2 ex_clock Datatypes.id "engine" ex_whole1) |].
  apply rtc_once. exact (whole_around 2 ex_clock Datatypes.id "engine" _ _ (closed _) eq_refl).
Qed.
Lemma ex_closed_left : (stop_left ex_closed ≤ length ex_rounds)%nat.
Proof. apply Nat.leb_le. vm_compute. reflexivity. Qed.

Lemma stop_terminates_witness :
  let w := foldl (stop_round 2 ex_clock "engine") ex_closed ex_rounds in joined (wh_system w) (wh_output w).
Proof.
  exact (stop_terminates 2 ex_clock Datatypes.id "engine" ex_seed ex_store [Unacked true "timed out"] ex_closed ex_rounds
    (Nat.lt_0_succ 1) ex_store_recovers eq_refl eq_refl ex_closed_reachable eq_refl ex_closed_left).
Defined.

(** The deposit was not answered, and the stop says why. *)
Example ex_stop_fails :
  let w := foldl (stop_round 2 ex_clock "engine") ex_closed ex_rounds in
  (match y_answers (wh_system w) with [] => true | _ => false end, is_ok (halt (wh_system w) (wh_output w)),
   stop_left ex_closed) = (true, false, 9%nat).
Proof. vm_compute. reflexivity. Qed.
End stop_examples.
