(* ===== verification/Routes.v ===== *)
(** * The HTTP entrance ([routes/mod.rs], [cex/routes.rs], [handlers/order_handler.rs],
      [shared/handlers/health.rs], the wire formats of [models/order.rs])

    Every command needs the key of the platform; the health check does not. Here the order handlers
    meet the service, the database and the queues. *)

From stdpp Require Import base tactics gmap list strings.
From Stdlib Require Import ZArith Lia Ascii.
From S2P Require Import Prelude Text Decimals Amount BTree RefDecimal Types BalanceCache OrderBook Matcher Submission State Deposit Withdrawal Cancel Journal History Resting EngineLoop Store Durability Identity Boundary Startup Orders Handle.

(** ** Wire formats *)

(** [serialize_u64_as_string]. *)
Definition serialize_u64_as_string (value : Z) : string := show_int value.

(** [s.parse::<u64>()]: an optional plus, then digits, within the type. *)
Definition parse_digits (s : string) : option Z :=
  if negb (is_empty s) && all_chars is_digit s && (str_value s <=? U64_MAX) then Some (str_value s) else None.
Definition deserialize_string_to_u64 (s : string) : option Z :=
  match s with
  | String c rest => if Ascii.eqb c "+" then parse_digits rest else parse_digits s
  | EmptyString => parse_digits s
  end.

Section routes.
Context {E : Externals} {H : KeyHash}.

(** [deserialize_exact_optional_decimal]: [None] is the error of the deserializer. *)
Definition deserialize_exact_optional_decimal (value : option string) : option (option Decimal) :=
  match value with
  | None => Some None
  | Some text => match exact_parse text with Some d => Some (Some d) | None => None end
  end.

(** The JSON of a [CreateOrderRequest], its fields as the types of the record say. *)
Record OrderWire := {
  ow_order_id : option Z;
  ow_user_id : Z;
  ow_order_type : string;
  ow_order_side : string;
  ow_base_mint : string;
  ow_quote_mint : option string;
  ow_price : option string;
  ow_amount : option string;
  ow_quote_amount : option string;
}.
Definition wire_request (wire : OrderWire) : option CreateOrderRequest :=
  price ← deserialize_exact_optional_decimal (ow_price wire);
  amount ← deserialize_exact_optional_decimal (ow_amount wire);
  quote_amount ← deserialize_exact_optional_decimal (ow_quote_amount wire);
  Some {| cor_order_id := ow_order_id wire; cor_user_id := ow_user_id wire; cor_order_type := ow_order_type wire;
          cor_order_side := ow_order_side wire; cor_base_mint := ow_base_mint wire; cor_quote_mint := ow_quote_mint wire;
          cor_price := price; cor_amount := amount; cor_quote_amount := quote_amount |}.

(** ** Answers *)

Inductive Payload :=
  | CodeBody (code : string)
  | CommandBody (reply : CommandReply)
  | AcceptanceBody (receipt : OrderAcceptance)
  | OrderBody (order : Order)
  | ErrorBody (error : string)
  | HealthBody (status message : string)
  | NoBody.
Definition HttpAnswer : Type := Z * Payload.

(** What the handlers work on: the engine behind its handle, and the database of the platform. *)
Record App := mk_app { app_worker : Worker; app_platform : Platform }.

(** [health_check]. *)
Definition health_check (app : App) : HttpAnswer :=
  if negb (is_accepting (app_worker app)) then (503, HealthBody "unavailable" "Engine processing is closed")
  else (200, HealthBody "ok" "Server is running").

(** [order_handler::create_order]; a body that the extractor rejects comes with its status, and a
    panicking handler gives no answer. *)
Definition refusal_answer (refusal : Refusal) : option HttpAnswer :=
  match refusal with
  | Invalid => Some (400, CodeBody "INVALID_ORDER_SUBMISSION")
  | Conflict => Some (409, CodeBody "ORDER_SUBMISSION_CONFLICT")
  | Unavailable _ => Some (503, CodeBody "ORDER_ACCEPTANCE_UNAVAILABLE")
  | Panicked => None
  end.
Definition http_create_order (session : Session) (body : Z + OrderWire) (response : Z) (waited : Waited unit) (app : App) :
    option HttpAnswer * App :=
  match body with
  | inl rejection => (Some (rejection, NoBody), app)
  | inr wire =>
      match wire_request wire with
      | None => (Some (422, NoBody), app)
      | Some request =>
          let '(answer, (p, w)) :=
            create_order (engine := handle_engine response (wait_unit waited)) session (cor_user_id request) request
              (app_platform app) (app_worker app) in
          (match answer with
           | inl refusal => refusal_answer refusal
           | inr accepted => Some (if ar_created accepted then 202 else 200, AcceptanceBody (ar_receipt accepted))
           end, mk_app w p)
      end
  end.

(** [order_handler::cancel_order]; [None] is a query that cannot be read. *)
Record CancelOrderQuery := { coq_user_id : Z; coq_base_mint : string; coq_quote_mint : string }.
Definition http_cancel_order (now : Timestamp) (order_id : Z) (params : option CancelOrderQuery) (response : Z)
    (waited : Waited OrderEntry) (app : App) : option HttpAnswer * App :=
  match params with
  | None => (Some (400, ErrorBody "Invalid cancellation query: user_id, base_mint and quote_mint are required"), app)
  | Some params =>
      let pair := pair_new (coq_base_mint params) (coq_quote_mint params) in
      let '(result, w) :=
        service_cancel_order (engine := handle_engine response (wait_order waited)) now (coq_user_id params) order_id pair (app_worker app) in
      (match result with
       | Ok order => Some (200, OrderBody order)
       | Err e => Some (400, ErrorBody ("Failed to cancel order: " +:+ e))
       | Panic => None
       end, mk_app w (app_platform app))
  end.

(** ** The router *)

(** [create_router]: an assertion and an [expect] on the key. *)
Definition create_router (service_token : string) : result ServiceToken :=
  _ ← (if key_length service_token then Ok tt else Panic);
  expect_ok (token_parse service_token).

(** The middleware in front of the commands. *)
Definition authorized (expected : ServiceToken) (header : option string) : bool :=
  match header with Some key => token_matches key expected | None => false end.

(** The four commands of [create_cex_router], each with the channel of its answer and what it waits
    for there. *)
Inductive CommandRoute :=
  | PostDepositCredits (body : Body CreditRequest) (response : Z) (waited : Waited unit)
  | PostWithdrawals (body : Body WithdrawalRequest) (response : Z) (waited : Waited unit)
  | PostOrders (session : Session) (body : Z + OrderWire) (response : Z) (waited : Waited unit)
  | DeleteOrder (now : Timestamp) (order_id : Z) (params : option CancelOrderQuery) (response : Z) (waited : Waited OrderEntry).

Definition create_cex_router (route : CommandRoute) (app : App) : option HttpAnswer * App :=
  match route with
  | PostDepositCredits body response waited =>
      let '((status, reply), w) := http_credit_deposit body response waited (app_worker app) in
      (Some (status, CommandBody reply), mk_app w (app_platform app))
  | PostWithdrawals body response waited =>
      let '((status, reply), w) := http_change_withdrawal body response waited (app_worker app) in
      (Some (status, CommandBody reply), mk_app w (app_platform app))
  | PostOrders session body response waited => http_create_order session body response waited app
  | DeleteOrder now order_id params response waited => http_cancel_order now order_id params response waited app
  end.

Definition http_command (expected : ServiceToken) (header : option string) (route : CommandRoute) (app : App) :
    option HttpAnswer * App :=
  if negb (authorized expected header) then (Some (401, NoBody), app) else create_cex_router route app.
End routes.

(** ** Round trips of the wire *)

Lemma parse_digits_shown n : 0 ≤ n ≤ U64_MAX → parse_digits (show_nonneg n) = Some n.
Proof.
  intros Hn. unfold parse_digits. rewrite show_nonneg_digits, show_nonneg_value by lia.
  rewrite (proj2 (Z.leb_le n U64_MAX)) by lia. pose proof (show_nonneg_nonempty n). by destruct (show_nonneg n).
Qed.

(** The text of an identifier is read as that identifier. *)
Lemma id_text_roundtrip n : 0 ≤ n ≤ U64_MAX → deserialize_string_to_u64 (serialize_u64_as_string n) = Some n.
Proof.
  intros Hn. unfold serialize_u64_as_string, show_int. rewrite (proj2 (Z.ltb_ge n 0)) by lia.
  pose proof (parse_digits_shown n Hn) as Hp. pose proof (show_nonneg_digits n ltac:(lia)) as Hd.
  unfold deserialize_string_to_u64. destruct (show_nonneg n) as [|c s]; [exact Hp |].
  cbn [all_chars] in Hd. apply andb_true_iff in Hd as [Hc _].
  destruct (Ascii.eqb_spec c "+") as [-> | _]; [discriminate Hc | exact Hp].
Qed.

(** ** What an answer to a command means *)

Section route_facts.
Context {E : Externals} {L : DecimalLaws ext_decimal} {F : JournalFormat E} {FL : JournalFormatLaws F} {H : KeyHash}.

(** The request that a route puts into a queue, if it gets that far. *)
Definition command_of (route : CommandRoute) (app : App) : option Request :=
  match route with
  | PostDepositCredits body response _ => BalanceRequest <$> deposit_command body response
  | PostWithdrawals body response _ => BalanceRequest <$> withdrawal_command body response
  | PostOrders session (inr wire) response _ =>
      request ← wire_request wire;
      match (prepare_order session (cor_user_id request) request (app_platform app)).1 with
      | inr (_, entry) => Some (OrderRequest (SubmitOrder entry response))
      | inl _ => None
      end
  | DeleteOrder _ order_id (Some params) response _ =>
      Some (OrderRequest (CancelOrder order_id (coq_user_id params)
                            (pair_new (coq_base_mint params) (coq_quote_mint params)) response))
  | _ => None
  end.

(** What the handler got in time is an answer of the system, and a rejection of the extractor is an
    error of the client. *)
Definition route_ready (y : System) (route : CommandRoute) : Prop :=
  match route with
  | PostDepositCredits _ response waited | PostWithdrawals _ response waited => waited_from y response waited
  | PostOrders _ body response waited =>
      waited_from y response waited ∧ match body with inl status => 400 ≤ status | inr _ => True end
  | DeleteOrder _ _ _ response waited => ∀ r, waited = Received r → (response, AnswerOrder r) ∈ y_answers y
  end.

Definition is_cancellation (route : CommandRoute) : bool := match route with DeleteOrder _ _ _ _ _ => true | _ => false end.

Lemma send_order_cases command w r w' :
  send_order command w = (r, w') → (is_ok r = false ∧ r ≠ Panic ∧ w' = w) ∨ (r = Ok tt ∧ w' = drop_order w (w_orders w ++ [command])).
Proof.
  unfold send_order, mbind, st_bind, sget, lift, sput. destruct (is_accepting w); cbn [ensure];
    [| intros [= <- <-]; by left].
  destruct (has_room (w_orders w)); cbn [ensure]; intros [= <- <-]; [by right | by left].
Qed.

Lemma submit_order_ok entry response waited w u w' :
  submit_order entry response waited w = (Ok u, w') → waited = Received (Ok tt).
Proof.
  intros (u1 & w1 & _ & Hl)%st_bind_ok. unfold lift in Hl. destruct waited as [[[]| |]| |]; cbn in Hl; by simplify_eq.
Qed.

Lemma cancel_order_ok order_id user_id pair response waited w order w' :
  handle_cancel_order order_id user_id pair response waited w = (Ok order, w') → waited = Received (Ok order).
Proof.
  intros (u1 & w1 & _ & Hl)%st_bind_ok. unfold lift in Hl. destruct waited as [r| |]; cbn in Hl; by simplify_eq.
Qed.

(** An accepted order was prepared and the core has confirmed it; a refused one did not reach it. *)
Lemma create_order_cases {engine : Engine Worker} session user request p (w : Worker) answer p' w' :
  create_order session user request p w = (answer, (p', w')) →
  (∃ accepted entry w0, answer = inr accepted ∧ (prepare_order session user request p).1 = inr (accepted, entry) ∧ engine_submit_order entry w = (Ok w0, w')) ∨
  (∃ refusal, answer = inl refusal ∧ (refusal = Invalid ∨ refusal = Conflict → w' = w)).
Proof.
  unfold create_order. destruct (prepare_order session user request p) as [[refusal|[accepted entry]] p1] eqn:Hp.
  - intros [= <- <- <-]. right. by exists refusal.
  - destruct (engine_submit_order entry w) as [[u|e|] w1] eqn:Hs; intros [= <- <- <-].
    + left. by exists accepted, entry, u.
    + right. eexists. split; [done |]. by intros [|].
    + right. eexists. split; [done |]. by intros [|].
Qed.

(** The key decides. *)
Lemma unauthorized_unchanged key expected header route app :
  create_router key = Ok expected →
  (∀ a b, key_length a = true → key_length b = true → sha256 a = sha256 b → a = b) →
  header ≠ Some key → http_command expected header route app = (Some (401, NoBody), app).
Proof.
  intros Hr. assert (Hp : token_parse key = Ok expected).
  { unfold create_router in Hr. apply bind_ok in Hr as (u & _ & Hr). by apply expect_ok_ok. }
  intros Hinj Hh. unfold http_command, authorized.
  destruct header as [k|]; [| done]. destruct (token_matches k expected) eqn:Hm; [| done].
  exfalso. apply Hh. f_equal. by eapply token_matches_only.
Qed.
End route_facts.

(** ** Properties *)

Section route_properties.
Context {E : Externals} {L : DecimalLaws ext_decimal} {F : JournalFormat E} {FL : JournalFormatLaws F} {H : KeyHash}.

Lemma durable_answer capacity now store state id n y :
  (0 < capacity)%nat → recover store = Ok (state, id) → last_sequence store = Ok n →
  rtc (system_step capacity now) (system_start store state n) y →
  ∀ input a, (response_of input, a) ∈ y_answers y → answer_error a = None → owns_channel y input →
  ∃ s, recover (y_store y) = Ok (s, id) ∧ acknowledged input s.
Proof. intros Hcap Hrec Hlast Hreach input a.
  by apply (answered_acknowledged capacity now store state id n y input a). Qed.

(** The routes of deposits and withdrawals: a reply below 400 is a durable answer of the core, and a
    refusal left the worker's queues alone. *)
Lemma definite_reply y id (app : App) command success uuid action response waited outcome w' :
  (∀ input a, (response_of input, a) ∈ y_answers y → answer_error a = None → owns_channel y input →
     ∃ s, recover (y_store y) = Ok (s, id) ∧ acknowledged input s) →
  response_of (BalanceRequest command) = response → waited_from y response waited →
  definite command waited (app_worker app) = (outcome, w') →
  ((command_reply success uuid action outcome).1 < 400 → owns_channel y (BalanceRequest command) →
     ∃ s, recover (y_store y) = Ok (s, id) ∧ acknowledged (BalanceRequest command) s) ∧
  ((command_reply success uuid action outcome).1 ∈ [400; 413; 422] → w' = app_worker app).
Proof.
  intros Hdur Hr Hw Hd.
  destruct (definite_cases _ _ _ _ _ Hd) as [[-> ->] | [-> Hout]]; [by split |].
  destruct outcome as [[| |reason]|]; cbn [command_reply fst]; (split; [intros Hs; try lia | intros Hs; set_solver]).
  intros Hown. by apply (Hdur (BalanceRequest command) (AnswerUnit (Ok tt))); [rewrite Hr; apply Hw | |].
Qed.

(** One route, once the durable answers are known. *)
Lemma route_answer y id route app status body app' :
  (∀ input a, (response_of input, a) ∈ y_answers y → answer_error a = None → owns_channel y input →
     ∃ s, recover (y_store y) = Ok (s, id) ∧ acknowledged input s) →
  route_ready y route → create_cex_router route app = (Some (status, body), app') →
  (status < 400 → ∃ input, command_of route app = Some input ∧
     (owns_channel y input → ∃ s, recover (y_store y) = Ok (s, id) ∧ acknowledged input s)) ∧
  (status ∈ [400; 413; 422] → is_cancellation route = false → app_worker app' = app_worker app).
Proof.
  intros Hdur Hready.
  destruct route as [body0 response waited|body0 response waited|session body0 response waited|now order_id params
    response waited];
    cbn [create_cex_router command_of is_cancellation].
  - unfold http_credit_deposit, deposit_command. destruct body0 as [request| |]; try (intros [= <- <- <-]; by split).
    destruct (credit_validated request) as [credit|]; [| intros [= <- <- <-]; by split].
    destruct (handle_credit_deposit credit response waited (app_worker app)) as [outcome w'] eqn:Hd.
    destruct (definite_reply y id app (BalCreditDeposit credit response) "DURABLY_CREDITED"%string (dc_deposit_id credit) None
      response waited outcome w'
      Hdur eq_refl Hready Hd) as [H1 H2].
    destruct (command_reply _ _ _ outcome) as [st reply]. intros [= <- <- <-]. split; [eauto | by intros Hs%H2 _].
  - unfold http_change_withdrawal, withdrawal_command. destruct body0 as [request| |]; try (intros [= <- <- <-];
    by split).
    destruct (withdrawal_validated request) as [command|]; [| intros [= <- <- <-]; by split].
    destruct (change_withdrawal command response waited (app_worker app)) as [outcome w'] eqn:Hd.
    destruct (definite_reply y id app (BalWithdrawal command response) (action_code (wc_action command))
      (wf_withdrawal_id (wc_funds command)) (Some (wc_action command)) response waited outcome w' Hdur eq_refl Hready Hd) as [H1 H2].
    destruct (command_reply _ _ _ outcome) as [st reply]. intros [= <- <- <-]. split; [eauto | by intros Hs%H2 _].
  - destruct Hready as [Hw Hb]. unfold http_create_order. destruct body0 as [rejection|wire];
    [intros [= <- <- <-]; split; [lia | done] |].
    destruct (wire_request wire) as [request|]; [| intros [= <- <- <-]; by split].
    cbn [mbind option_bind].
    destruct (create_order _ _ _ _ _) as [answer [p w]] eqn:Hc.
    destruct (create_order_cases _ _ _ _ _ _ _ _ Hc) as [(accepted & entry & u & -> & Hp & Hs) | (refusal & -> & Hno)].
    + cbn [engine_submit_order handle_engine on_unit wait_unit] in Hs. rewrite Hp. intros [= Hst _ _]. split.
      * intros _. eexists. split; [done |]. intros Hown. apply submit_order_ok in Hs as ->.
        by apply (Hdur _ (AnswerUnit (Ok tt))); [apply Hw | |].
      * intros Hin. exfalso. subst status. by destruct (ar_created accepted); rewrite !elem_of_cons in Hin;
        destruct Hin as [?|[?|[?|?%elem_of_nil]]].
    + destruct refusal; try done; intros [= <- _ <-]; (split; [lia | intros Hin _; cbn]);
        [by apply Hno; left | by apply Hno; right |].
      by rewrite !elem_of_cons in Hin; destruct Hin as [?|[?|[?|?%elem_of_nil]]].
  - unfold http_cancel_order. destruct params as [params|]; [| intros [= <- <- <-]; by split].
    destruct (service_cancel_order _ _ _ _ _) as [[order|e|] w] eqn:Hc; [| intros [= <- <- <-]; by split | done].
    intros [= <- <- <-]. split; [| done]. intros _. eexists. split; [done |]. intros Hown.
    apply st_bind_ok in Hc as (cancelled & w1 & Hc & _). unfold scontext in Hc.
      cbn [engine_cancel_order handle_engine on_order wait_order] in Hc.
    destruct (handle_cancel_order _ _ _ _ _ _) as [r w2] eqn:Hh. injection Hc as Hr ->.
      apply with_context_ok in Hr. subst r.
    apply cancel_order_ok in Hh as ->. by apply (Hdur _ (AnswerOrder (Ok cancelled))); [apply Hready | |].
Qed.
(** Behind the guard nothing answers 401, except perhaps the extractor. *)
Lemma no_other_401 route app body app' :
  create_cex_router route app = (Some (401, body), app') → app_worker app' = app_worker app.
Proof.
  destruct route as [body0 response waited|body0 response waited|session body0 response waited|now order_id params
    response waited];
    cbn [create_cex_router].
  - unfold http_credit_deposit. destruct body0 as [request| |]; [| done..]. destruct (credit_validated request);
    [| done].
    by destruct (handle_credit_deposit _ _ _ _) as [[[| |]|] w].
  - unfold http_change_withdrawal. destruct body0 as [request| |]; [| done..].
    destruct (withdrawal_validated request) as [command|]; [| done].
    by destruct (change_withdrawal _ _ _ _) as [[[| |]|] w].
  - unfold http_create_order. destruct body0 as [rejection|wire]; [by intros [= _ _ <-] |].
    destruct (wire_request wire); [| done]. destruct (create_order _ _ _ _ _) as [answer [p w]].
    destruct answer as [[]|accepted]; try done. by destruct (ar_created accepted).
  - unfold http_cancel_order. destruct params as [params|]; [| done].
    by destruct (service_cancel_order _ _ _ _ _) as [[] w].
Qed.

(** C7. What the HTTP answers to commands say. A success, of whatever command, is given only with an
    authorized key; if what the handler received in time is an answer of the running system, on a
    channel of its own, it means that the state the journal recovers to has the effect of exactly that
    command: the deposit credited, the withdrawal taken its step, the order known with this content,
    the order cancelled for this owner. The answer 401 means that nothing was put into the queues, and
    so do 400, 413 and 422 for deposits, withdrawals and orders; a cancellation is different, its 400
    may also report a refusal of the core or an unknown end of a command that was queued. And if the
    hash gives different keys different digests (a hypothesis of this last part only), a caller without
    the key of the platform gets 401 and changes nothing at all. *)
Theorem command_answers_truthful capacity now store state id n y key expected header route app status body app' :
  (0 < capacity)%nat → recover store = Ok (state, id) → last_sequence store = Ok n →
  rtc (system_step capacity now) (system_start store state n) y → route_ready y route →
  create_router key = Ok expected → http_command expected header route app = (Some (status, body), app') →
  (status < 400 → authorized expected header = true ∧ ∃ input, command_of route app = Some input ∧
     (owns_channel y input → ∃ s, recover (y_store y) = Ok (s, id) ∧ acknowledged input s)) ∧
  (status = 401 ∨ status ∈ [400; 413; 422] ∧ is_cancellation route = false → app_worker app' = app_worker app) ∧
  ((∀ a b, key_length a = true → key_length b = true → sha256 a = sha256 b → a = b) →
     header ≠ Some key → status = 401 ∧ app' = app).
Proof.
  intros Hcap Hrec Hlast Hreach Hready Hkey Hrun.
  pose proof (unauthorized_unchanged key expected header route app Hkey) as Hguard.
  pose proof (durable_answer _ _ _ _ _ _ _ Hcap Hrec Hlast Hreach) as Hdur.
  split_and!; [| | by intros Hinj Hh; rewrite (Hguard Hinj Hh) in Hrun; injection Hrun as <- _ <-].
  - intros Hs. unfold http_command in Hrun. destruct (authorized expected header); cbn [negb] in Hrun;
    [| by injection Hrun as <- _ _].
    split; [done |]. by apply (route_answer y id route app status body app').
  - unfold http_command in Hrun. destruct (authorized expected header); cbn [negb] in Hrun;
    [| by injection Hrun as _ _ <-].
    destruct (route_answer _ _ _ _ _ _ _ Hdur Hready Hrun) as [_ H2]. intros [-> | [Hin Hc]];
      [by eapply no_other_401 | by apply H2].
Qed.
End route_properties.

(** ** The property at concrete inputs *)

Section route_examples.
#[local] Existing Instance ref_externals.
#[local] Existing Instance ref_decimal_laws.
#[local] Existing Instance ref_format.
#[local] Existing Instance ref_format_laws.

(** A hash that tells everything apart. *)
Definition ex_hash : KeyHash := {| KeyDigest := string; sha256 := fun s => s |}.
#[local] Existing Instance ex_hash.

Definition ex_key : string := "0123456789abcdef0123456789abcdef".
Definition ex_expected : ServiceToken := mk_token ex_key.
Lemma ex_router : create_router ex_key = Ok ex_expected.
Proof. reflexivity. Qed.

Definition ex_app : App := mk_app (worker_start ex_start true) (mk_platform ∅ ∅ ∅).
Definition ex_route : CommandRoute := PostDepositCredits (Parsed ex_credit_request) 3 (Received (Ok tt)).
Definition ex_commanded := http_command ex_expected (Some ex_key) ex_route ex_app.
Definition get_answer (r : option HttpAnswer * App) : HttpAnswer := default (0, NoBody) r.1.
Lemma ex_command_answered : ex_commanded = (Some ((get_answer ex_commanded).1, (get_answer ex_commanded).2), ex_commanded.2).
Proof.
  assert (Hgen : ∀ r : option HttpAnswer * App, bool_decide (is_Some r.1) = true → r = (Some ((get_answer r).1,
    (get_answer r).2), r.2)).
  { intros [[[st b]|] a] Hr; [done | discriminate Hr]. }
  apply Hgen. vm_compute. reflexivity.
Qed.

(** The same request with another key, and one that is not valid. *)
Definition ex_wrong_key : string := "0123456789abcdef0123456789abcdeF".
Definition ex_refused := http_command ex_expected (Some ex_wrong_key) ex_route ex_app.
Lemma ex_refused_answered : ex_refused = (Some (401, NoBody), ex_refused.2).
Proof.
  assert (Hgen : ∀ r : option HttpAnswer * App, match r.1 with Some (st, NoBody) => st =? 401 | _ => false end = true →
    r = (Some (401, NoBody), r.2)).
  { intros [[[st []]|] a] Hr; cbn in Hr; try done. by apply Z.eqb_eq in Hr as ->. }
  apply Hgen. vm_compute. reflexivity.
Qed.

Lemma command_answers_truthful_witness :
  ((get_answer ex_commanded).1 < 400 ∧
   ∃ s, recover (y_store ex_paid_system) = Ok (s, "engine"%string) ∧ acknowledged (BalanceRequest ex_pay) s) ∧
  app_worker ex_refused.2 = app_worker ex_app ∧ ex_refused.2 = ex_app.
Proof.
  split; cycle 1.
  { destruct (command_answers_truthful 2 ex_clock ex_store ex_start "engine" 0 ex_paid_system ex_key
      ex_expected (Some ex_wrong_key) ex_route ex_app _ _ _ (Nat.lt_0_succ 1) ex_store_recovers ex_last_sequence
      ex_paid_reachable ex_paid_waited ex_router ex_refused_answered) as (_ & H2 & H3).
    split; [exact (H2 (or_introl eq_refl)) |].
    exact (proj2 (H3 (fun a b _ _ Hab => Hab) (fun Hkey => ltac:(injection Hkey as Hkey; discriminate Hkey)))). }
  assert (Hs : (get_answer ex_commanded).1 < 400).
  { apply (proj1 (Z.ltb_lt _ _)). vm_compute. reflexivity. }
  split; [exact Hs |].
  destruct (proj1 (command_answers_truthful 2 ex_clock ex_store ex_start "engine" 0 ex_paid_system ex_key
    ex_expected (Some ex_key) ex_route
    ex_app _ _ _ (Nat.lt_0_succ 1) ex_store_recovers ex_last_sequence ex_paid_reachable ex_paid_waited ex_router
      ex_command_answered) Hs)
    as (_ & input & Hinput & Hack).
  assert (Hpay : command_of ex_route ex_app = Some (BalanceRequest ex_pay)) by reflexivity.
  rewrite Hpay in Hinput. injection Hinput as <-. exact (Hack ex_paid_owner).
Defined.

(** Without the key: 401; a cancellation without its query: 400; a healthy engine: 200. *)
Example ex_route_answers :
  [(get_answer ex_commanded).1;
   (get_answer (http_command ex_expected (Some "0123456789abcdef0123456789abcdeF"%string) ex_route ex_app)).1;
   (get_answer (http_command ex_expected None ex_route ex_app)).1;
   (get_answer (http_command ex_expected (Some ex_key) (DeleteOrder (0 : Z) 1 None 3 TimedOut) ex_app)).1;
   (health_check ex_app).1; (health_check (mk_app (close_core (app_worker ex_app)) (app_platform ex_app))).1] =
  [200; 401; 401; 400; 200; 503].
Proof. vm_compute. reflexivity. Qed.
End route_examples.
