(* ===== verification/Process.v ===== *)
(** * The process ([main.rs]), and one process after the other

    A process checks its settings, starts the engine, serves commands and stops; it may also be killed
    at any moment. Here a directory is followed from the bare disk through any number of processes. *)

From stdpp Require Import base tactics gmap list strings.
From Stdlib Require Import ZArith Lia.
From S2P Require Import Prelude Text Decimals Amount RefDecimal Types BalanceCache OrderBook Matcher Submission State Deposit Withdrawal Cancel Journal History EngineLoop Store Durability Identity AuditPages Boundary Startup Control Handle Lifecycle Routes.

Section process.
Context {E : Externals} {F : JournalFormat E} {H : KeyHash}.
(** What the libraries say of the settings: [Database::lazy] on a URL and [TcpListener::bind] on an
    address. *)
Variable lazy : string → bool.
Variable bind : string → bool.

(** The variables [ENGINE_SERVICE_TOKEN], [DATABASE_URL], [ENGINE_AUDIT_TOKEN] and
    [ENGINE_HTTP_ADDRESS]. *)
Record Environment := mk_environment {
  env_service_token : option string;
  env_database_url : option string;
  env_audit_token : option string;
  env_http_address : option string;
}.

(** What [main] has put together when it begins to serve. *)
Record Serving := mk_serving {
  sv_state : EngineState;          (* with the engine worker *)
  sv_token : ServiceToken;         (* in the router *)
  sv_audit : AuditReader;
  sv_address : string;
}.

Definition assert_true (b : bool) : result unit := if b then Ok tt else Panic.
Definition or_panic {S A} (m : st S A) : st S A := fun s => let '(r, s') := m s in (expect_ok r, s').

(** [main], up to the point where it serves; every failure is a panic. The control object is made
    here, so the state is the pair of it and the directory. *)
Definition main_start (env : Environment) (x : Surroundings) : st (HighPerformanceEngine * Directory) Serving :=
  service_token ← or_panic (lift (ok_or (env_service_token env) "ENGINE_SERVICE_TOKEN이 필요합니다"));
  _ ← lift (assert_true (key_length service_token));
  database_url ← or_panic (lift (ok_or (env_database_url env) "DATABASE_URL이 필요합니다"));
  _ ← lift (assert_true (lazy database_url));
  audit ← or_panic (lift (audit_new (env_audit_token env)));
  state ← or_panic (engine_start x);
  token ← lift (create_router service_token);
  let http_address := default "127.0.0.1:3002" (env_http_address env) in
  _ ← lift (assert_true (bind http_address));
  mret (mk_serving state token audit http_address).

(** [main]: serve until the signal, stop, and in any case drop the control object, which stops it too.
    [served] and [stopped] are what the server and the stop returned, [joined] the state that the
    engine worker gave back. *)
Definition main (env : Environment) (x : Surroundings) (served stopped : result unit) (joined : option EngineState) :
    st Directory unit := fun d =>
  let '(r, s) := main_start env x (new_with_mode Standard, d) in
  let s := engine_halt joined s in
  (_ ← r; _ ← expect_ok served; expect_ok stopped, s.2).

(** The settings that [main] looks at before it starts the engine. *)
Definition settings_ok (env : Environment) : bool :=
  match env_service_token env, env_database_url env with
  | Some token, Some url => key_length token && lazy url && is_ok (audit_new (env_audit_token env))
  | _, _ => false
  end.

(** ** One process after the other *)

Section lives.
Variable capacity : nat.
Variable now : Z → Timestamp.

(** The directory that a process leaves, with what its workers have made of the journal. *)
Definition left_with (store : Store) (d : Directory) : Directory :=
  mk_directory (d_owner_lock d) false (Some (mk_file 4 3 store)).

(** A process that never serves: its start fails or it is killed before. *)
Definition failed_life (d d' : Directory) : Prop :=
  ∃ env x r s, uuid_parses (su_engine_id x) = true ∧
    main_start env x (new_with_mode Standard, d) = (r, s) ∧ is_ok r = false ∧
    let d1 := (engine_halt None s).2 in
    (d' = d1 ∨ ∃ file store, d_journal d1 = Some file ∧ jf_version file = 4 ∧
       cursor_moved (jf_store file) store ∧ d' = left_with store d1).

(** A process that serves, and ends or is killed when its two workers are at [y]. *)
Definition served_life (d : Directory) (y : System) (d' : Directory) : Prop :=
  ∃ env x sv e d1 file n store, uuid_parses (su_engine_id x) = true ∧
    main_start env x (new_with_mode Standard, d) = (Ok sv, (e, d1)) ∧
    d_journal d1 = Some file ∧ last_sequence (jf_store file) = Ok n ∧
    rtc (system_step capacity now) (system_start (jf_store file) (sv_state sv) n) y ∧
    cursor_moved (y_store y) store ∧ d' = left_with store d1.

(** From the bare disk, any number of processes, each with whatever settings, surroundings and
    requests. *)
Inductive lives : list System → Directory → Prop :=
  | lives_bare : lives [] (mk_directory false false None)
  | lives_failed ys d d' : lives ys d → failed_life d d' → lives ys d'
  | lives_served ys d y d' : lives ys d → served_life d y d' → lives (ys ++ [y]) d'.
End lives.
End process.

(** ** Starting *)

Section start_facts.
Context {E : Externals} {F : JournalFormat E} {H : KeyHash}.
Variable lazy : string → bool.
Variable bind : string → bool.

(** A new control object starts exactly as the directory lets it, if its surroundings do not fail. *)
Lemma engine_start_new x d :
  engine_start x (new_with_mode Standard, d) =
    let '(r, d1) := start (su_sqlite x) (su_engine_id x) (su_db x) d in
    match r with
    | Ok recovered =>
        let held := set_owner true (set_engine_state (Some recovered.1) (new_with_mode Standard)) in
        match su_producer x with
        | Ok _ => match (_ ← delivery_connection (su_delivery x); su_ready x) with
                  | Ok _ => (Ok recovered.1, (mk_engine Standard true false None true true, d1))
                  | Err error => (Err error, (held, d1))
                  | Panic => (Panic, (held, d1))
                  end
        | Err error => (Err error, (set_owner false held, release d1))
        | Panic => (Panic, (set_owner false held, release d1))
        end
    | Err error => (Err error, (new_with_mode Standard, d1))
    | Panic => (Panic, (new_with_mode Standard, d1))
    end.
Proof.
  unfold engine_start, mbind, st_bind, sget, sput, lift.
    cbn [fst snd may_start new_with_mode e_running e_closed e_state e_mode].
  change (may_start (new_with_mode Standard)) with (Ok tt : result unit). cbn [fst snd].
  unfold start_standard. destruct (start (su_sqlite x) (su_engine_id x) (su_db x) d) as [[rec|m|] d1]; [| done..].
  destruct (su_producer x) as [u|m|]; [| done..]. 
  destruct (delivery_connection (su_delivery x)) as [[]|m|]; [| done..]. by destruct (su_ready x).
Qed.

(** The key that [main] asserts is a key for the router. *)
Lemma create_router_key key : key_length key = true → ∃ token, create_router key = Ok token ∧ token_parse key = Ok token.
Proof. intros Hk. exists (mk_token (sha256 key)). unfold create_router, token_parse. by rewrite Hk. Qed.

(** The next step of [main_start], an [or_panic] or a check, and a step that ends it. *)
Ltac next_expect := unfold mbind at 1, st_bind at 1, or_panic at 1, lift at 1.
Ltac next_check := unfold mbind at 1, st_bind at 1, lift at 1.
Ltac stops_here := intros [= <- <-]; right; split; [done | solve [by left | by right]].

(** How a start of the process ends: with the recovered state, the lock and a router, or with a panic;
    then the dropped control object gives the lock back. *)
Lemma main_start_cases env x d r s :
  main_start lazy bind env x (new_with_mode Standard, d) = (r, s) →
  let started := start (su_sqlite x) (su_engine_id x) (su_db x) d in
  (∃ sv id, r = Ok sv ∧ settings_ok lazy env = true ∧ started = (Ok (sv_state sv, id), s.2) ∧
     s.1 = mk_engine Standard true false None true true ∧
     ∃ key, env_service_token env = Some key ∧ create_router key = Ok (sv_token sv)) ∨
  (r = Panic ∧
   ((settings_ok lazy env = false ∧ s = (new_with_mode Standard, d)) ∨
    (settings_ok lazy env = true ∧ ∀ joined,
       (engine_halt joined s).2 = if is_ok started.1 then release started.2 else started.2))).
Proof.
  unfold main_start, settings_ok. next_expect. destruct (env_service_token env) as [key|]; cbn [ok_or expect_ok];
    [| stops_here].
  next_check. destruct (key_length key) eqn:Hkey; cbn [assert_true andb]; [| destruct (env_database_url env);
    stops_here].
  next_expect. destruct (env_database_url env) as [url|]; cbn [ok_or expect_ok]; [| stops_here].
  next_check. destruct (lazy url); cbn [assert_true andb]; [| stops_here].
  next_expect. destruct (audit_new (env_audit_token env)) as [audit|m|]; cbn [expect_ok is_ok]; [| stops_here..].
  unfold mbind at 1, st_bind at 1, or_panic at 1. rewrite engine_start_new.
  destruct (start (su_sqlite x) (su_engine_id x) (su_db x) d) as [[[state id]|m|] d1]; cbn [expect_ok is_ok fst snd];
    [| stops_here..].
  destruct (su_producer x) as [u|m|]; cbn [expect_ok fst snd]; [| stops_here..].
  destruct (_ ← delivery_connection (su_delivery x); su_ready x) as [u'|m|]; cbn [expect_ok]; [| stops_here..].
  destruct (create_router_key key Hkey) as (token & Hrouter & _). next_check. rewrite Hrouter.
  next_check. destruct (bind _); cbn [assert_true]; [| stops_here].
  intros [= <- <-]. left. eexists _, id. split_and!; try done. by exists key.
Qed.
End start_facts.

(** ** The journal over the lives *)

Section lives_facts.
Context {E : Externals} {L : DecimalLaws ext_decimal} {F : JournalFormat E} {FL : JournalFormatLaws F} {H : KeyHash}.

(** The commands and outcomes that were written for what was published. *)
Definition recorded (ps : list Pending) : list (Command * Outcome) :=
  omap (fun p => match p_command p with Some command => Some (command, p_outcome p) | None => None end) ps.

Lemma serve_all_recorded inputs s ps s' :
  serve_all inputs s = (Ok ps, s') → run_commands (map fst (recorded ps)) s = (Ok (map snd (recorded ps)), s').
Proof.
  revert s ps. induction inputs as [|input inputs IH]; intros s ps Hall; [by injection Hall as <- <- |].
  cbn [serve_all] in Hall. apply st_bind_ok in Hall as (p & s1 & Hp & Hall).
  apply st_bind_ok in Hall as (rest & s2 & Hrest & Hret). injection Hret as <- <-. specialize (IH _ _ Hrest).
  unfold serve in Hp. unfold mbind at 1, st_bind at 1, sget in Hp. destruct (request input s) as [[command|] reply];
    apply st_bind_ok in Hp as (outcome & s3 & Ho & Hret); injection Hret as <- <-.
  - change (recorded _) with ((command, outcome) :: recorded rest). cbn [map fst snd run_commands].
    unfold mbind, st_bind. by rewrite Ho, IH.
  - injection Ho as _ <-. exact IH.
Qed.

(** What was kept of a life: the first requests it took, with what was published for them, of which a
    first part was answered. *)
Definition life_kept (y : System) (kept : list Request * list Pending) : Prop :=
  kept.1 `prefix_of` w_taken (y_worker y) ∧
  ∃ answered later, kept.2 = answered ++ later ∧ y_answers y = map finish answered.

(** What a life promised: the successes it answered, on channels of their own. *)
Definition promised (y : System) (input : Request) : Prop :=
  (∃ a, (response_of input, a) ∈ y_answers y ∧ answer_error a = None) ∧ owns_channel y input.

(** A journal after some lives, by its recovered state. *)
Record lived (ys : list System) (c : BalanceCache) (kept : list (list Request * list Pending)) (s : EngineState) : Prop := {
  li_start : ∃ db, load_balances db = Ok c;
  li_kept : Forall2 life_kept ys kept;
  li_served : serve_all (concat (map fst kept)) (set_state_cache c state_new) = (Ok (concat (map snd kept)), s);
  li_promised : ∀ y input, y ∈ ys → promised y input → acknowledged input s;
}.

Definition journal_after (ys : list System) (store : Store) : Prop :=
  (ys = [] ∧ store = store_new) ∨ ∃ c id s kept, recover store = Ok (s, id) ∧ lived ys c kept s.

(** Opening a journal keeps what it holds, or makes it. *)
Lemma open_state_again engine_id db store s id :
  recover store = Ok (s, id) → open_state engine_id db store = (Ok (s, id), store).
Proof.
  intros Hrec. unfold open_state, mbind, st_bind, lift, sget. rewrite (recover_initialized _ _ Hrec).
  unfold mret, st_ret. by rewrite Hrec.
Qed.

Lemma open_journal ys engine_id db store r store' :
  uuid_parses engine_id = true → journal_after ys store → open_state engine_id db store = (r, store') →
  journal_after ys store' ∧ ∀ s id, r = Ok (s, id) → recover store' = Ok (s, id) ∧ ∃ c kept, lived ys c kept s.
Proof.
  intros Hid [[-> ->] | (c & id & s & kept & Hrec & Hlived)] Hopen.
  - destruct db as [db|]; [| injection Hopen as <- <-; split; [by left | done]].
    destruct (open_state_new engine_id db Hid) as [(_ & Hfail & Hsame) | (c & Hload & store & Hrun & Hrec & _)].
    + rewrite Hopen in Hfail, Hsame. cbn in Hfail, Hsame. subst store'. split; [by left |]. by intros s id ->.
    + rewrite Hrun in Hopen. injection Hopen as <- <-.
      assert (Hlived : lived [] c [] (set_state_cache c state_new)).
      { split; [by exists db | constructor | done |]. by intros y input Hy%elem_of_nil. }
      split; [right; by exists c, engine_id, (set_state_cache c state_new), [] |].
      intros s id [= <- <-]. split; [done |]. by exists c, [].
  - rewrite (open_state_again _ _ _ _ _ Hrec) in Hopen. injection Hopen as <- <-.
    split; [right; by exists c, id, s, kept |]. intros s1 id1 [= <- <-]. split; [done |]. by exists c, kept.
Qed.

(** Moving the cursor changes nothing of that. *)
Lemma journal_moved ys store store' : cursor_moved store store' → journal_after ys store → journal_after ys store'.
Proof.
  intros Hmoved [[-> ->] | (c & id & s & kept & Hrec & Hlived)].
  - left. split; [done |]. destruct Hmoved as (Hg & Hr & Hd), store' as [g rows cursor]. cbn in *. subst g rows.
    unfold store_new. f_equal. lia.
  - right. exists c, id, s, kept. split; [by eapply recover_moved | done].
Qed.

(** A life adds what it kept. *)
Lemma lived_wf ys c kept s : lived ys c kept s → state_wf s.
Proof.
  intros Hl. destruct (li_start _ _ _ _ Hl) as [db Hload].
  assert (Hwf : state_wf (set_state_cache c state_new)) by (apply state_wf_initial, seedable_wf,
    (loaded_seedable _ _ Hload)).
  pose proof (serve_all_recorded _ _ _ _ (li_served _ _ _ _ Hl)) as Hrun.
  destruct (run_commands_run (map fst (recorded (concat (map snd kept)))) _ Hwf) as (os & s' & Hrun' & Hwf' & _).
  rewrite Hrun in Hrun'. by injection Hrun' as _ <-.
Qed.

Lemma lived_more capacity now ys c kept s store id n y :
  (0 < capacity)%nat → lived ys c kept s → recover store = Ok (s, id) → last_sequence store = Ok n →
  rtc (system_step capacity now) (system_start store s n) y →
  ∃ kept' s', recover (y_store y) = Ok (s', id) ∧ lived (ys ++ [y]) c kept' s'.
Proof.
  intros Hcap Hl Hrec Hlast Hreach. pose proof (lived_wf _ _ _ _ Hl) as Hwf.
  destruct (sy_progress _ _ _ _ (system_ok_reachable _ _ _ _ _ _ _ Hcap Hrec Hlast Hreach))
    as (queue & i1 & i2 & written & s' & answered & later & lost & _ & Ht & Hserve & Hrec' & _ & Hwr & Ha & _).
  exists (kept ++ [(i1, written)]), s'. split; [done |]. split.
  - apply (li_start _ _ _ _ Hl).
  - apply Forall2_app; [apply (li_kept _ _ _ _ Hl) |]. constructor; [| constructor].
    split; [rewrite Ht; by eexists | by exists answered, (unanswered (y_phase y) ++ later)].
  - rewrite !map_app, !concat_app. cbn. rewrite !app_nil_r. eapply serve_all_join;
    [apply (li_served _ _ _ _ Hl) | exact Hserve].
  - intros z input [Hz | ->%list_elem_of_singleton]%elem_of_app Hp.
    + eapply acknowledged_durable; [by eapply serve_all_durable | by eapply (li_promised _ _ _ _ Hl)].
    + destruct Hp as [(a & Ha' & He) Hown].
      destruct (answered_acknowledged _ _ _ _ _ _ _ _ _ Hcap Hrec Hlast Hreach Ha' He Hown) as (s1 & Hs1 & Hack).
      rewrite Hrec' in Hs1. by injection Hs1 as <-.
Qed.

(** A directory between two lives, and a start in it. *)
Record rested (ys : list System) (d : Directory) : Prop := {
  re_free : d_held d = false;
  re_file : own_journal (d_owner_lock d) (d_journal d);
  re_journal : journal_after ys (journal_of (d_journal d));
}.

Lemma rested_left ys store d : journal_after ys store → rested ys (left_with store d).
Proof. split; [done | by left | done]. Qed.

Lemma start_rested q ys d engine_id db r d' :
  uuid_parses engine_id = true → rested ys d → start q engine_id db d = (r, d') →
  ∃ file, d' = mk_directory true (is_ok r) (Some file) ∧ own_file file ∧ journal_after ys (jf_store file) ∧
    ∀ s id, r = Ok (s, id) → recover (jf_store file) = Ok (s, id) ∧ ∃ c kept, lived ys c kept s.
Proof.
  intros Hid [Hfree Hfile Hj] Hrun. destruct d as [owned held journal]. cbn in Hfree, Hfile, Hj. subst held.
  destruct (start_run q owned journal engine_id db Hfile) as [[_ Heq] | (_ & r1 & file & Heq & Hr & Hown & Hst)];
    rewrite Heq in Hrun.
  - destruct (open_state engine_id db (journal_of journal)) as [r1 store] eqn:Hopen. injection Hrun as <- <-.
    destruct (open_journal _ _ _ _ _ _ Hid Hj Hopen) as [Hj' Hok]. exists (mk_file 4 3 store).
    by split_and!; [| left | |].
  - injection Hrun as <- <-. exists file. rewrite Hst, Hr. split_and!; try done. by intros s id ->.
Qed.

Lemma failed_life_rested lazy bind ys d d' : rested ys d → failed_life lazy bind d d' → rested ys d'.
Proof.
  intros Hrest (env & x & r & s & Hid & Hrun & Hfail & Hd').
  assert (Hdrop : rested ys (engine_halt None s).2).
  { destruct (main_start_cases _ _ _ _ _ _ _ Hrun) as [(sv & id & -> & _) | [_ [[_ ->] | [_ Hd]]]]; [done | done |].
    destruct (start (su_sqlite x) (su_engine_id x) (su_db x) d) as [r1 d1] eqn:Hstart. rewrite (Hd None). cbn [fst snd].
    destruct (start_rested _ _ _ _ _ _ _ Hid Hrest Hstart) as (file & -> & Hown & Hj & _). by destruct r1. }
  destruct Hd' as [-> | (file & store & Hfile & _ & Hmoved & ->)]; [done |].
  apply rested_left. eapply journal_moved; [exact Hmoved |]. pose proof (re_journal _ _ Hdrop) as Hj.
    by rewrite Hfile in Hj.
Qed.

Lemma served_life_rested lazy bind capacity now ys d y d' :
  (0 < capacity)%nat → rested ys d → served_life lazy bind capacity now d y d' → rested (ys ++ [y]) d'.
Proof.
  intros Hcap Hrest (env & x & sv & e & d1 & file & n & store & Hid & Hrun & Hfile & Hlast & Hreach & Hmoved & ->).
  destruct (main_start_cases _ _ _ _ _ _ _ Hrun) as [(sv' & id & [= <-] & _ & Hstart & _) | [? _]]; [| done].
  destruct (start_rested _ _ _ _ _ _ _ Hid Hrest Hstart) as (file1 & Hd1 & _ & _ & Hok). cbn in Hd1. subst d1.
  injection Hfile as <-. destruct (Hok _ _ eq_refl) as (Hrec & c & kept & Hl).
  destruct (lived_more _ _ _ _ _ _ _ _ _ _ Hcap Hl Hrec Hlast Hreach) as (kept' & s' & Hrec' & Hl').
  apply rested_left. eapply journal_moved; [exact Hmoved |]. right. by exists c, id, s', kept'.
Qed.

Lemma lives_rested lazy bind capacity now ys d : (0 < capacity)%nat → lives lazy bind capacity now ys d → rested ys d.
Proof.
  intros Hcap. induction 1 as [|ys d d' _ IH Hlife|ys d y d' _ IH Hlife].
  - split; [done.. | by left].
  - by eapply failed_life_rested.
  - by eapply served_life_rested.
Qed.
End lives_facts.

(** ** Properties *)

Section process_properties.
Context {E : Externals} {L : DecimalLaws ext_decimal} {F : JournalFormat E} {FL : JournalFormatLaws F} {H : KeyHash}.

(** C1. Nothing that was promised is ever lost, from the bare disk through any number of processes, each
    with its own settings, requests and end (a stop, or a kill at any step of its workers), and with
    failed starts in between. Between two processes nobody holds the directory. Once a process has
    served, the journal recovers; the state it recovers to is what serving a first part of the requests
    of every process, one process after the other, makes of the balances that one inspection of the
    platform found; the answers that each process gave are the answers of that run; the effect of every
    success that was ever answered is in the state; over all the processes no order, cancellation,
    deposit or withdrawal took effect twice; and the supply of every asset is the inspected one plus
    what the recorded outcomes say came in. *)
Theorem lives_keep_promises lazy bind capacity now ys d :
  (0 < capacity)%nat → lives lazy bind capacity now ys d → ys ≠ [] →
  d_held d = false ∧
  ∃ file db c s id kept,
    d_journal d = Some file ∧ recover (jf_store file) = Ok (s, id) ∧ load_balances db = Ok c ∧
    Forall2 life_kept ys kept ∧
    serve_all (concat (map fst kept)) (set_state_cache c state_new) = (Ok (concat (map snd kept)), s) ∧
    (∀ y input, y ∈ ys → promised y input → acknowledged input s) ∧
    let outcomes := map snd (recorded (concat (map snd kept))) in
    NoDup (omap effect_of outcomes) ∧
    ∀ mint, supply (state_cache s) mint =
      supply c mint + total_flow (map fst (recorded (concat (map snd kept)))) outcomes mint.
Proof.
  intros Hcap Hlives Hne. destruct (lives_rested _ _ _ _ _ _ Hcap Hlives) as [Hfree Hfile Hj]. split; [done |].
  destruct (d_journal d) as [file|]; cbn in Hj; (destruct Hj as [[? _] | (c & id & s & kept & Hrec & Hl)];
    [done |]); [| done].
  destruct (li_start _ _ _ _ Hl) as [db Hload]. pose proof (li_served _ _ _ _ Hl) as Hserve.
  assert (Hwf : state_wf (set_state_cache c state_new)) by (by apply state_wf_initial, seedable_wf,
    (loaded_seedable db)).
  pose proof (serve_all_recorded _ _ _ _ Hserve) as Hrun.
  destruct (run_commands_run (map fst (recorded (concat (map snd kept)))) _ Hwf)
    as (os & s' & Hrun' & _ & _ & _ & Hsup & Hnd & _).
  rewrite Hrun in Hrun'. injection Hrun' as <- <-. exists file, db, c, s, id, kept.
  split_and!; [done | done | done | apply (li_kept _ _ _ _ Hl) | done | apply (li_promised _ _ _ _ Hl) |]. by split.
Qed.

(** C20. A process leaves nothing behind but its journal. However [main] ends, the lock of the directory
    is as it was before. With wrong settings (a missing or short service key, a missing or malformed
    URL, a bad audit key) it panics before it touches the directory. While another process holds the
    directory it panics and the journal is untouched. If it returns, then its settings were right, the
    engine was started on the recovered state, and the server and the stop reported no error. *)
Theorem main_gives_back lazy bind env x served stopped joined d r d' :
  main lazy bind env x served stopped joined d = (r, d') →
  d_held d' = d_held d ∧ (r = Ok tt ∨ r = Panic) ∧
  (settings_ok lazy env = false → r = Panic ∧ d' = d) ∧
  (d_held d = true → r = Panic ∧ d_journal d' = d_journal d) ∧
  (r = Ok tt → settings_ok lazy env = true ∧ served = Ok tt ∧ stopped = Ok tt ∧
     ∃ state id d1, start (su_sqlite x) (su_engine_id x) (su_db x) d = (Ok (state, id), d1) ∧ d' = release d1).
Proof.
  unfold main. destruct (main_start lazy bind env x (new_with_mode Standard, d)) as [r0 s] eqn:Hrun. intros [= <- <-].
  destruct (start_lock (su_sqlite x) (su_engine_id x) (su_db x) d) as [Hheld Hbusy].
  assert (Hsame : d_held d = true → d_journal (start (su_sqlite x) (su_engine_id x) (su_db x) d).2 = d_journal d).
  { intros Hd. unfold start, acquire, mbind, st_bind, sget, sput, lift. by rewrite Hd. }
  destruct (main_start_cases _ _ _ _ _ _ _ Hrun) as [(sv & id & -> & Hset & Hstart & Hs1 & _) | [-> [[Hset ->]
    | [Hset Hd]]]].
  - destruct s as [e d1]. cbn [fst snd] in Hstart, Hs1. subst e. rewrite Hstart in Hheld, Hbusy. cbn in Hheld, Hbusy.
    rewrite orb_true_r in Hheld. assert (Hfree : d_held d = false) by (destruct (d_held d);
      [by specialize (Hbusy eq_refl) | done]).
    rewrite Hset, Hfree. cbn. destruct served as [[]|m|], stopped as [[]|m'|]; cbn; split_and!; try done;
      (try by right); try by left.
    intros _. split_and!; try done. by exists (sv_state sv), id, d1.
  - cbn. rewrite Hset. split_and!; try done. by right.
  - rewrite (Hd joined), Hset. destruct (start _ _ _ d) as [r1 d1]. cbn [fst snd] in *.
    assert (Hr : d_held (if is_ok r1 then release d1 else d1) = d_held d).
    { destruct (is_ok r1); cbn; [| by rewrite Hheld, orb_false_r]. destruct (d_held d);
      [by specialize (Hbusy eq_refl) | done]. }
    split_and!; [done | by right | done | | done]. intros Hdh. split; [done |]. rewrite <- (Hsame Hdh).
      by destruct (is_ok r1).
Qed.
End process_properties.

(** ** The properties at concrete inputs *)

(** A life in which one balance request is served, written and answered. *)
Section one_life.
Context {E : Externals} {F : JournalFormat E} {H : KeyHash}.
Variable lazy : string → bool.
Variable bind : string → bool.
Variable now : Z → Timestamp.
Variable env : Environment.
Variable x : Surroundings.
Variable input : BalanceCommand.

Definition no_pending : Pending := {| p_command := None; p_outcome := Applied None; p_reply := ReplyUnit 0 |}.
Definition no_file : JournalFile := mk_file 0 0 store_new.

Definition booted (d : Directory) := main_start lazy bind env x (new_with_mode Standard, d).
Definition booted_state (d : Directory) : EngineState :=
  match (booted d).1 with Ok sv => sv_state sv | _ => state_new end.
Definition booted_store (d : Directory) : Store := jf_store (default no_file (d_journal (booted d).2.2)).
Definition booted_sequence (d : Directory) : Z := get_ok 0 (last_sequence (booted_store d)).
Definition served_once (d : Directory) := serve (BalanceRequest input) (booted_state d).
Definition written_once (d : Directory) :=
  append now Committed [get_ok no_pending (served_once d).1] (booted_sequence d) (booted_store d).

Definition one_life (d : Directory) : System :=
  one_answered (booted_state d) (served_once d).2 input (get_ok no_pending (served_once d).1) (written_once d).2 (get_ok 0 (written_once d).1).
Definition after_life (d : Directory) : Directory := left_with (written_once d).2 (booted d).2.2.

(** What has to be computed to know that this is a life. *)
Definition life_runs (d : Directory) : bool :=
  uuid_parses (su_engine_id x) && is_ok (booted d).1 && bool_decide (is_Some (d_journal (booted d).2.2)) &&
  is_ok (last_sequence (booted_store d)) && is_ok (served_once d).1 && is_ok (written_once d).1.

Lemma one_life_served d : life_runs d = true → served_life lazy bind 2 now d (one_life d) (after_life d).
Proof.
  unfold life_runs. rewrite !andb_true_iff. intros [[[[[Hid Hboot] Hfile] Hlast] Hserve] Hwrite].
    apply bool_decide_eq_true in Hfile as [file Hfile].
  destruct (booted d) as [[sv|m|] [e d1]] eqn:Hb; try done. cbn [fst snd] in Hfile.
  exists env, x, sv, e, d1, file, (booted_sequence d), (written_once d).2.
  assert (Hst : booted_state d = sv_state sv) by (unfold booted_state; by rewrite Hb).
  assert (Hstore : booted_store d = jf_store file) by (unfold booted_store; rewrite Hb; cbn; by rewrite Hfile).
  split_and!; [done | exact Hb | done | | | | unfold after_life; by rewrite Hb].
  - rewrite <- Hstore. unfold booted_sequence. by destruct (last_sequence (booted_store d)).
  - rewrite <- Hstore, <- Hst. apply one_request_answered.
    + by destruct (served_once d) as [[p|m|] s'] eqn:Hs.
    + by destruct (written_once d) as [[n|m|] store'] eqn:Hs.
  - by split_and!; [..| left].
Qed.
End one_life.

Section process_examples.
#[local] Existing Instance ref_externals.
#[local] Existing Instance ref_decimal_laws.
#[local] Existing Instance ref_format.
#[local] Existing Instance ref_format_laws.
#[local] Existing Instance ex_hash.

Definition anything (s : string) : bool := true.
Definition ex_env : Environment := mk_environment (Some ex_key) (Some "postgres://platform"%string) None None.

(** A deposit is credited; the next process gets the same command once more. *)
Definition ex_life1 : System := one_life anything anything ex_clock ex_env ex_surroundings ex_pay ex_directory.
Definition ex_rest1 : Directory := after_life anything anything ex_clock ex_env ex_surroundings ex_pay ex_directory.
Definition ex_life2 : System := one_life anything anything ex_clock ex_env ex_surroundings ex_pay ex_rest1.
Definition ex_rest2 : Directory := after_life anything anything ex_clock ex_env ex_surroundings ex_pay ex_rest1.

Lemma ex_lives : lives anything anything 2 ex_clock ([ex_life1] ++ [ex_life2]) ex_rest2.
Proof.
  apply (lives_served anything anything 2 ex_clock [ex_life1] ex_rest1).
  - apply (lives_served anything anything 2 ex_clock [] ex_directory); [apply lives_bare |].
    apply one_life_served. vm_compute. reflexivity.
  - apply one_life_served. vm_compute. reflexivity.
Qed.

Lemma ex_promised : promised ex_life1 (BalanceRequest ex_pay).
Proof.
  split.
  - exists (AnswerUnit (Ok tt)). split; [| reflexivity].
    assert (Hgen : ∀ a : Z * Answer, (a.1 =? 3) && match a.2 with AnswerUnit (Ok tt) => true | _ => false end = true →
      (3, AnswerUnit (Ok tt)) ∈ [a]).
    { intros [k [[[]| |]| | |]]; cbn; rewrite ?andb_false_r, ?andb_true_r; try done. intros ->%Z.eqb_eq. left. }
    apply Hgen. vm_compute. reflexivity.
  - intros other [-> | Hin]%elem_of_cons _; [done | by apply elem_of_nil in Hin].
Qed.

Lemma lives_keep_promises_witness :
  d_held ex_rest2 = false ∧
  ∃ file s id, d_journal ex_rest2 = Some file ∧ recover (jf_store file) = Ok (s, id) ∧ acknowledged (BalanceRequest ex_pay) s.
Proof.
  destruct (lives_keep_promises anything anything 2 ex_clock ([ex_life1] ++ [ex_life2]) ex_rest2 (Nat.lt_0_succ 1)
    ex_lives ltac:(discriminate))
    as (Hfree & file & db & c & s & id & kept & Hfile & Hrec & _ & _ & _ & Hack & _).
  split; [exact Hfree |]. exists file, s, id. split; [exact Hfile | split; [exact Hrec |]].
  exact (Hack ex_life1 (BalanceRequest ex_pay) (list_elem_of_here _ _) ex_promised).
Defined.

(** The second process finds one record and answers without writing another effect. *)
Example ex_lives_records :
  (booted_sequence anything anything ex_env ex_surroundings ex_directory, booted_sequence anything anything ex_env ex_surroundings ex_rest1) = (0, 1).
Proof. vm_compute. reflexivity. Qed.

(** A process that is told to stop, one with a short key, and one that finds the directory held. *)
Definition ex_main (env : Environment) (d : Directory) := main anything anything env ex_surroundings (Ok tt) (Ok tt) None d.
Definition ex_short : Environment := mk_environment (Some "short"%string) (Some "postgres://platform"%string) None None.

Lemma main_gives_back_witness :
  d_held (ex_main ex_env ex_directory).2 = false ∧ (ex_main ex_short ex_directory).2 = ex_directory ∧
  (ex_main ex_env ex_started.2.2).1 = Panic.
Proof.
  split; [exact (proj1 (main_gives_back anything anything ex_env ex_surroundings (Ok tt) (Ok tt)
    None ex_directory _ _ (surjective_pairing _))) |].
  split.
  - exact (proj2 (proj1 (proj2 (proj2 (main_gives_back anything anything ex_short ex_surroundings (Ok tt) (Ok tt)
    None ex_directory _ _ (surjective_pairing _)))) eq_refl)).
  - exact (proj1 (proj1 (proj2 (proj2 (proj2 (main_gives_back anything anything ex_env ex_surroundings (Ok tt)
    (Ok tt) None ex_started.2.2 _ _
      (surjective_pairing _))))) (proj2 ex_two_engines))).
Defined.
Example ex_mains : (is_ok (ex_main ex_env ex_directory).1, is_ok (ex_main ex_short ex_directory).1) = (true, false).
Proof. vm_compute. reflexivity. Qed.
End process_examples.
