(* ===== verification/Bench.v ===== *)
(** * The engine of the benchmarks ([runtime/bench_engine.rs])

    It runs the same submission without queues, threads, journal and order index. What it measures is
    the engine: over orders with different ids it trades exactly as the journaled commands do. *)

From stdpp Require Import base tactics gmap list strings.
From Stdlib Require Import ZArith Lia.
From S2P Require Import Prelude Text Decimals Amount BTree RefDecimal Types BalanceCache OrderBook Matcher Submission State Deposit Withdrawal Cancel Journal History Resting Control.

Section bench.
Context {E : Externals}.

(** [BenchEngine]: the books and the executor, which are a [Core]. *)
Definition bench_new : Core := mk_core ∅ executor_new.

Definition process_submit_order_bench (order : OrderEntry) : st Core (list MatchResult) :=
  applied ← Submission.apply order;
  mret (as_matches applied).

Definition submit_direct (order : OrderEntry) : st Core (list MatchResult) := process_submit_order_bench order.
Definition engine_set_balance (user_id : Z) (mint : string) (available locked : Decimal) : st Core unit :=
  with_executor (balance_cache_mut (smodify (set_balance user_id mint available locked))).
Definition clear_balances : st Core unit := with_executor (balance_cache_mut (smodify clear)).
Definition clear_orderbooks : st Core unit := smodify (fun c => mk_core ∅ (executor c)).

(** A benchmark: the orders one after the other, a refused one does not end it. *)
Fixpoint bench_run (orders : list OrderEntry) : st Core (list (result (list MatchResult))) :=
  match orders with
  | [] => mret []
  | order :: rest =>
      trades ← attempt (submit_direct order);
      others ← bench_run rest;
      mret (trades :: others)
  end.

(** The trades that a journaled outcome reports, or why there are none. *)
Definition reported (outcome : Outcome) : result (list MatchResult) :=
  match outcome with
  | Applied (Some (Submitted _ trades _)) => Ok (map to_trade trades)
  | Applied (Some (BatchRejected _ reason)) => Err reason
  | _ => Panic
  end.
End bench.

Section bench_properties.
Context {E : Externals} {L : DecimalLaws ext_decimal}.

(** One order with an id that the engine does not know. *)
Lemma bench_step order s :
  state_wf s → submissions s !! oe_id order = None →
  ∃ outcome s', journal_apply (CmdSubmit order) s = (Ok outcome, s') ∧ state_wf s' ∧
    submissions s' = <[oe_id order := order]> (submissions s) ∧
    attempt (submit_direct order) (core s) = (Ok (reported outcome), core s').
Proof.
  intros Hwf Hnew. destruct (journal_step_ok (CmdSubmit order) s Hwf) as (outcome & s' & Hrun & Hok).
  exists outcome, s'. split; [done |]. split; [apply Hok |].
  unfold journal_apply, mbind, st_bind, sget in Hrun. cbn [cancelled_before execute] in Hrun.
  unfold attempt at 1, execute_submit, mbind, st_bind, sget in Hrun. rewrite Hnew in Hrun.
  unfold smodify, attempt, with_core, zoom, process_submit_order, lift in Hrun.
  change (core (set_submission order s)) with (core s) in Hrun.
  unfold attempt, submit_direct, process_submit_order_bench, mbind, st_bind.
  destruct (Submission.apply order (core s)) as [[app|e|] c']; [| by injection Hrun as <- <- | done].
  unfold submitted, mbind, result_bind in Hrun.
  destruct (map_results trade_output (as_matches app)) as [outs|e|] eqn:Hm;
    [| by apply trade_outputs_infallible in Hm | done].
  injection Hrun as <- <-. cbn. by rewrite (trade_outputs_trades _ _ Hm).
Qed.

(** C31. The benchmark measures the engine. Over orders with different ids that the engine does not
    know, the direct submissions and the journaled commands report the same trades and the same
    refusals one by one, and leave the same books and balances. *)
Theorem bench_equals_engine orders s :
  state_wf s → NoDup (map oe_id orders) → (∀ order, order ∈ orders → submissions s !! oe_id order = None) →
  ∃ outcomes s', run_commands (map CmdSubmit orders) s = (Ok outcomes, s') ∧
    bench_run orders (core s) = (Ok (map reported outcomes), core s').
Proof.
  revert s. induction orders as [|order rest IH]; intros s Hwf Hnd Hnew; [by exists [], s |].
  apply NoDup_cons in Hnd as [Hout Hnd].
  destruct (bench_step order s Hwf) as (outcome & s1 & Hrun & Hwf1 & Hsub & Hbench); [apply Hnew; by left |].
  destruct (IH s1 Hwf1 Hnd) as (outcomes & s' & Hruns & Hbenches).
  { intros other Hother. rewrite Hsub, lookup_insert_ne; [apply Hnew; by right |].
    intros Heq. apply Hout. rewrite Heq. apply list_elem_of_fmap. by exists other. }
  exists (outcome :: outcomes), s'. cbn [map run_commands bench_run]. unfold mbind, st_bind.
  rewrite Hrun, Hruns, Hbench, Hbenches. done.
Qed.
End bench_properties.

(** ** The property at concrete inputs *)

Section bench_examples.
#[local] Existing Instance ref_externals.
#[local] Existing Instance ref_decimal_laws.

Lemma ex_new_wf : state_wf state_new.
Proof. exact state_wf_new. Qed.

Lemma ex_unknown order : order ∈ [ex_ask1] → submissions state_new !! oe_id order = None.
Proof. intros _. apply lookup_empty. Qed.

Lemma bench_equals_engine_witness :
  ∃ outcomes s', run_commands (map CmdSubmit [ex_ask1]) state_new = (Ok outcomes, s') ∧
    bench_run [ex_ask1] (core state_new) = (Ok (map reported outcomes), core s').
Proof. exact (bench_equals_engine [ex_ask1] state_new ex_new_wf (NoDup_singleton _) ex_unknown). Defined.

(** The seller without the asset is refused, the one with it rests, the buyer trades. *)
Example ex_bench :
  let run := (engine_set_balance 10 "SOL" (dz "5") dec_zero bench_new).2 in
  let run := (engine_set_balance 20 "USDT" (dz "1000") dec_zero run).2 in
  match (bench_run [set_created_at (1 : Z) ex_ask1; ex_bid] run).1 with
  | Ok trades => map (fun r => match r with Ok ts => Z.of_nat (length ts) | _ => -1 end) trades
  | _ => []
  end = [0; 1].
Proof. vm_compute. reflexivity. Qed.
End bench_examples.
