(* ===== verification/TestKit.v ===== *)
(** * What the translated tests share

    A test is a computation in the state monad: a failed assertion and an unwrapped error are panics,
    and a test passes when it ends without one. *)

From stdpp Require Import base tactics gmap list strings.
From Stdlib Require Import ZArith Lia Ascii.
From S2P Require Import Prelude Text Decimals Amount RefDecimal Types BalanceCache OrderBook Matcher Submission State.

#[local] Existing Instance ref_externals.

(** ** Assertions *)

Definition assert {S} (b : bool) : st S unit := fun s => if b then (Ok tt, s) else (Panic, s).

(** [.unwrap()] of a call. *)
Definition unwrap {S A} (m : st S A) : st S A := fun s => let '(r, s') := m s in (expect_ok r, s').

(** [assert!(call.is_err())]: a panic of the call fails the test too. *)
Definition assert_err {S A} (m : st S A) : st S unit :=
  outcome ← attempt m;
  assert (negb (is_ok outcome)).

(** A loop over cases, each with what it needs of its own. *)
Fixpoint for_each {S A} (cases : list A) (body : A → st S unit) : st S unit :=
  match cases with
  | [] => mret tt
  | case :: cases => _ ← body case; for_each cases body
  end.

Definition passes {S} (test : st S unit) (s : S) : bool := is_ok (test s).1.

(** [Decimal::from], [Decimal::new], [Decimal::MAX]. *)
Definition whole (n : Z) : Decimal := from_i128_with_scale n 0.
Definition scaled (n digits : Z) : Decimal := from_i128_with_scale n digits.
Definition decimal_max : Decimal := whole (2 ^ 96 - 1).

(** The derived equalities that the assertions use. *)
Definition balance_eqb (a b : Balance) : bool :=
  dec_eqb (available a) (available b) && dec_eqb (locked a) (locked b).
Definition all_in (a b : BalanceCache) : bool :=
  forallb (fun row => match balances b !! row.1 with Some balance => balance_eqb row.2 balance | None => false end)
    (map_to_list (balances a)).
Definition cache_eqb (a b : BalanceCache) : bool := all_in a b && all_in b a.

Definition has_balance (user : Z) (asset : string) (a l : Decimal) (c : BalanceCache) : bool :=
  match get_balance user asset c with Some balance => balance_eqb balance (mk_balance a l) | None => false end.
Definition has_available (user : Z) (asset : string) (a : Decimal) (c : BalanceCache) : bool :=
  match get_balance user asset c with Some balance => dec_eqb (available balance) a | None => false end.
Definition has_locked (user : Z) (asset : string) (l : Decimal) (c : BalanceCache) : bool :=
  match get_balance user asset c with Some balance => dec_eqb (locked balance) l | None => false end.
Definition has_no_row (user : Z) (asset : string) (c : BalanceCache) : bool :=
  match get_balance user asset c with Some _ => false | None => true end.

Fixpoint all_eqb {A} (eqb : A → A → bool) (l1 l2 : list A) : bool :=
  match l1, l2 with
  | [], [] => true
  | a :: l1, b :: l2 => eqb a b && all_eqb eqb l1 l2
  | _, _ => false
  end.
