(* ===== verification/Conformance.v ===== *)
(** * The tests of the repository, run on the model

    Unit tests of [src] translated statement by statement and evaluated: what they assert of the code
    holds of the definitions of this development. A test is a computation in the state monad; a failed
    assertion is a panic. [engine/balance_cache/settlement_tests.rs],
    [runtime/engine/settlement_pipeline_tests.rs], the tests of [runtime/engine/journal_tests.rs] and
    [journal_tests/withdrawal_tests.rs] that run commands, and the scenarios of [tests/]. The comments of
    the last group promise other results here and there; what the code does instead is stated too. *)

From stdpp Require Import base tactics gmap list strings.
From Stdlib Require Import ZArith Lia Ascii.
From S2P Require Import Prelude Text Decimals Amount BTree RefDecimal Types BalanceCache OrderBook Matcher Submission State Deposit Withdrawal Cancel Journal History Resting EngineLoop Store Control Bench TestKit.

#[local] Existing Instance ref_externals.

(** ** Settlement ([engine/balance_cache/settlement_tests.rs]) *)

Module Settlement.

Definition trade : MatchResult :=
  {| mr_buyer_fee_rate := dec_zero; mr_seller_fee_rate := dec_zero; mr_buy_order_id := 1; mr_sell_order_id := 2;
     mr_buyer_id := 101; mr_seller_id := 102; mr_price := whole 100; mr_amount := whole 2;
     mr_base_mint := "SOL"; mr_quote_mint := "USDT" |}.

(** The trade with another price and quantity, other assets, or other parties. *)
Definition trade_priced (price amount : Decimal) : MatchResult :=
  {| mr_buyer_fee_rate := dec_zero; mr_seller_fee_rate := dec_zero; mr_buy_order_id := 1; mr_sell_order_id := 2;
     mr_buyer_id := 101; mr_seller_id := 102; mr_price := price; mr_amount := amount;
     mr_base_mint := "SOL"; mr_quote_mint := "USDT" |}.
Definition identified (buy sell buyer seller : Z) (base quote : string) : MatchResult :=
  {| mr_buyer_fee_rate := dec_zero; mr_seller_fee_rate := dec_zero; mr_buy_order_id := buy; mr_sell_order_id := sell;
     mr_buyer_id := buyer; mr_seller_id := seller; mr_price := whole 100; mr_amount := whole 2;
     mr_base_mint := base; mr_quote_mint := quote |}.

Definition fixture : BalanceCache :=
  set_balance 102 "SOL" (whole 8) (whole 2) (set_balance 101 "USDT" (whole 800) (whole 200) cache_new).

Definition put_row (user : Z) (asset : string) (a l : Decimal) : st BalanceCache unit :=
  smodify (set_balance user asset a l).
Definition remove_row (user : Z) (asset : string) : st BalanceCache unit :=
  smodify (fun c => mk_cache (delete (user, asset) (balances c))).

Definition assert_failure_unchanged (trade : MatchResult) : st BalanceCache unit :=
  before ← sget;
  _ ← assert_err (settle_trade trade);
  after ← sget;
  assert (cache_eqb after before).

Definition second_asset_shortage : st BalanceCache unit :=
  _ ← put_row 102 "SOL" (whole 8) dec_one; assert_failure_unchanged trade.
Definition missing_seller_asset : st BalanceCache unit :=
  _ ← remove_row 102 "SOL"; assert_failure_unchanged trade.
Definition first_asset_shortage : st BalanceCache unit :=
  _ ← put_row 101 "USDT" dec_zero (whole 199); assert_failure_unchanged trade.
Definition negative_and_zero_values : st BalanceCache unit :=
  for_each [(dec_zero, dec_one); (dec_one, dec_zero); (whole (-1), dec_one); (dec_one, whole (-1))]
    (fun values => assert_failure_unchanged (trade_priced values.1 values.2)).
Definition quote_multiplication_overflow : st BalanceCache unit :=
  assert_failure_unchanged (trade_priced decimal_max (whole 2)).
Definition second_recipient_overflow : st BalanceCache unit :=
  _ ← put_row 101 "SOL" decimal_max dec_zero; assert_failure_unchanged trade.
Definition quote_finer_than_database : st BalanceCache unit :=
  assert_failure_unchanged (trade_priced (dz "0.000000001") (dz "0.1")).
Definition invalid_asset_pair : st BalanceCache unit :=
  assert_failure_unchanged (identified 1 2 101 102 "USDT" "USDT").

Definition successful_trade : st BalanceCache unit :=
  _ ← unwrap (settle_trade trade);
  cache ← sget;
  _ ← assert (has_locked 101 "USDT" dec_zero cache);
  _ ← assert (has_available 102 "USDT" (whole 200) cache);
  _ ← assert (has_locked 102 "SOL" dec_zero cache);
  assert (has_available 101 "SOL" (whole 2) cache).

Definition reservation_precision_failure : st BalanceCache unit :=
  _ ← put_row 101 "USDT" (dz "100000000000000000000") dec_zero;
  before ← sget;
  _ ← assert_err (lock_balance 101 "USDT" (scaled 1 9));
  after ← sget;
  assert (cache_eqb after before).

Definition missing_buyer_asset : st BalanceCache unit :=
  _ ← remove_row 101 "USDT"; assert_failure_unchanged trade.

Definition database_balance_overflow (recipient : Z * string) : st BalanceCache unit :=
  _ ← put_row recipient.1 recipient.2 (dz "999999999999999999999") dec_zero; assert_failure_unchanged trade.

Definition precision_loss_on_last_recipient : st BalanceCache unit :=
  _ ← put_row 101 "SOL" (dz "99999999999999999999.12345678") dec_zero;
  assert_failure_unchanged (trade_priced (whole 100) (dz "0.000000001")).

Definition price_and_quantity_precision : st BalanceCache unit :=
  for_each [trade_priced (dz "0.0000000001") (whole 10);
    trade_priced (whole 100) (dz "0.0000000001")] assert_failure_unchanged.

Definition smallest_supported_quote : st BalanceCache unit :=
  _ ← unwrap (settle_trade (trade_priced (dz "0.000000001") dec_one));
  cache ← sget;
  _ ← assert (has_available 102 "USDT" (dz "0.000000001") cache);
  assert (has_locked 101 "USDT" (dz "199.999999999") cache).

Definition same_customer_keys : st BalanceCache unit :=
  _ ← put_row 101 "SOL" (whole 8) (whole 2);
  before ← sget;
  _ ← unwrap (settle_trade (identified 1 2 101 101 "SOL" "USDT"));
  cache ← sget;
  _ ← assert (has_balance 101 "USDT" (whole 1000) dec_zero cache);
  _ ← assert (has_balance 101 "SOL" (whole 10) dec_zero cache);
  assert (match get_balance 102 "SOL" before, get_balance 102 "SOL" cache with
          | Some other, Some balance => balance_eqb balance other
          | _, _ => false
          end).

(** The total of an asset over all rows. *)
Definition asset_total (asset : string) (c : BalanceCache) : result Decimal :=
  totals ← map_results (fun row => total row.2)
             (filter (fun row : account * Balance => row.1.2 = asset) (map_to_list (balances c)));
  dec_sum totals.

Definition existing_balances_preserved : st BalanceCache unit :=
  _ ← put_row 101 "SOL" (whole 7) (whole 4);
  _ ← put_row 102 "USDT" (whole 11) (whole 9);
  _ ← put_row 103 "BTC" (whole 5) (whole 6);
  _ ← unwrap (settle_trade trade);
  cache ← sget;
  _ ← assert (has_balance 101 "SOL" (whole 9) (whole 4) cache);
  _ ← assert (has_balance 102 "USDT" (whole 211) (whole 9) cache);
  _ ← assert (has_balance 103 "BTC" (whole 5) (whole 6) cache);
  for_each [("USDT"%string, whole 1020); ("SOL"%string, whole 21)] (fun expected =>
    sum ← lift (asset_total expected.1 cache);
    assert (dec_eqb sum expected.2)).

Definition corrupt_negative_balance (key : account) : st BalanceCache unit :=
  _ ← set_available key.1 key.2 (whole (-1)); assert_failure_unchanged trade.

Definition invalid_identifiers : st BalanceCache unit :=
  for_each [identified 1 2 0 102 "SOL" "USDT"; identified 0 2 101 102 "SOL" "USDT"; identified 1 1 101 102 "SOL" "USDT";
            identified 1 2 101 102 " SOL" "USDT"; identified 1 2 101 102 "SOL" ""] assert_failure_unchanged.

Definition enormous_product : st BalanceCache unit :=
  assert_failure_unchanged (trade_priced (dz "100000000000000000000") (dz "100000000000000000000")).

Definition product_beyond_i128 : st BalanceCache unit :=
  let price := dz "999999999999999999999" in
  _ ← put_row 101 "USDT" dec_zero price;
  _ ← unwrap (settle_trade (trade_priced price dec_one));
  cache ← sget;
  _ ← assert (has_available 102 "USDT" price cache);
  assert (has_locked 101 "USDT" dec_zero cache).

(** Each test starts from its own fixture. *)
Definition settlement_tests : list (st BalanceCache unit) :=
  [ second_asset_shortage; missing_seller_asset; first_asset_shortage; negative_and_zero_values;
    quote_multiplication_overflow; second_recipient_overflow; quote_finer_than_database; invalid_asset_pair;
    successful_trade; reservation_precision_failure; missing_buyer_asset;
    database_balance_overflow (102, "USDT"%string); database_balance_overflow (101, "SOL"%string);
    precision_loss_on_last_recipient; price_and_quantity_precision; smallest_supported_quote; same_customer_keys;
    existing_balances_preserved;
    corrupt_negative_balance (101, "USDT"%string); corrupt_negative_balance (102, "USDT"%string);
    corrupt_negative_balance (102, "SOL"%string); corrupt_negative_balance (101, "SOL"%string);
    invalid_identifiers; enormous_product; product_beyond_i128 ].
End Settlement.

Example settlement_tests_pass : forallb (fun test => passes test Settlement.fixture) Settlement.settlement_tests = true.
Proof. vm_compute. reflexivity. Qed.

(** ** The whole path of a submission ([runtime/engine/settlement_pipeline_tests.rs]) *)

Definition pair : TradingPair := pair_new "SOL" "USDT".

Definition side_eqb (a b : OrderBookSide) : bool :=
  all_eqb (fun x y => dec_eqb x.1 y.1 && all_eqb oe_eqb x.2 y.2) (orders a) (orders b) && (total_orders a =?
    total_orders b).
Definition book_eqb (a b : OrderBook) : bool :=
  side_eqb (buy_orders a) (buy_orders b) && side_eqb (sell_orders a) (sell_orders b).

(** What the tests look at: the market of the pair, if there is one, and all balances. *)
Definition book_of (c : Core) : option OrderBook := orderbooks c !! pair.
Definition snapshot_eqb (a b : Core) : bool :=
  match book_of a, book_of b with
  | Some x, Some y => book_eqb x y
  | None, None => true
  | _, _ => false
  end && cache_eqb (cache a) (cache b).

(** The order of the tests with another price, quantity, budget or fee. *)
Record OrderSpec := mk_spec { sp_id : Z; sp_user : Z; sp_type : string; sp_market : bool; sp_price : Decimal;
  sp_amount : Decimal; sp_quote : Decimal; sp_fee : Decimal }.
Definition entry (s : OrderSpec) : OrderEntry :=
  let market_buy := sp_market s && String.eqb (sp_type s) "buy" in
  {| oe_fee_rate := sp_fee s; oe_id := sp_id s; oe_user_id := sp_user s; oe_order_type := sp_type s;
     oe_order_side := if sp_market s then "market" else "limit"; oe_base_mint := "SOL"; oe_quote_mint := "USDT";
     oe_price := if sp_market s then None else Some (sp_price s);
     oe_amount := if market_buy then dec_zero else sp_amount s;
     oe_quote_amount := if market_buy then Some (sp_quote s) else None;
     oe_filled_amount := dec_zero;
     oe_remaining_amount := if market_buy then dec_zero else sp_amount s;
     oe_remaining_quote_amount := if market_buy then Some (sp_quote s) else None;
     oe_created_at := (0 : Z) |}.

Module Pipeline.

Definition pipeline_order (id user : Z) (order_type : string) (market : bool) : OrderEntry :=
  entry (mk_spec id user order_type market (whole 100) (whole 2) (whole 200) dec_zero).
(** [order] after [incoming.price = ..; incoming.amount = ..; incoming.quote_amount = ..]. *)
Definition order_at (id user : Z) (order_type : string) (market : bool) (price amount quote : Decimal) : OrderEntry :=
  entry (mk_spec id user order_type market price amount quote dec_zero).
Definition pipeline_order_fee (id user : Z) (order_type : string) (amount fee : Decimal) : OrderEntry :=
  entry (mk_spec id user order_type false (whole 100) amount (whole 200) fee).

Definition engine : HighPerformanceEngine := new_with_mode Bench.

(** [engine.state.as_ref().unwrap()]: its books and executor. *)
Definition the_core : st HighPerformanceEngine Core :=
  e ← sget;
  state ← lift (expect (e_state e));
  mret (core state).
(** [threads::process_submit_order] on the borrowed parts of the state. *)
Definition process_direct (order : OrderEntry) : st HighPerformanceEngine AppliedSubmission :=
  bench_state (with_core (process_submit_order order)).
Definition fund (user : Z) (asset : string) (a : Decimal) : st HighPerformanceEngine unit :=
  bench_set_balance user asset a dec_zero.
Definition bench_submit (order : OrderEntry) : st HighPerformanceEngine (list MatchResult) :=
  unwrap (bench_submit_direct order).

(** [call] fails and leaves books and balances as they were. *)
Definition fails_unchanged {A} (call : st HighPerformanceEngine A) : st HighPerformanceEngine unit :=
  before ← the_core;
  _ ← assert_err call;
  after ← the_core;
  assert (snapshot_eqb after before).
(** A submission without trades that leaves them as they were. *)
Definition no_trades_unchanged (order : OrderEntry) : st HighPerformanceEngine unit :=
  before ← the_core;
  trades ← bench_submit order;
  after ← the_core;
  assert (bool_decide (length trades = 0%nat) && snapshot_eqb after before).

Definition side_of_buy (buy : bool) : string := if buy then "buy" else "sell".

Definition real_matching_pipeline (market : bool) : st HighPerformanceEngine unit :=
  _ ← fund 101 "USDT" (whole 1000);
  _ ← fund 102 "SOL" (whole 10);
  resting ← bench_submit (pipeline_order 2 102 "sell" false);
  _ ← assert (bool_decide (length resting = 0%nat));
  matches ← bench_submit (pipeline_order 1 101 "buy" market);
  _ ← assert (bool_decide (length matches = 1%nat));
  c ← the_core;
  assert (has_balance 101 "USDT" (whole 800) dec_zero (cache c) && has_available 102 "USDT" (whole 200) (cache c) &&
          has_locked 102 "SOL" dec_zero (cache c) && has_available 101 "SOL" (whole 2) (cache c)).

Definition settlement_failure_aborts (market : bool) : st HighPerformanceEngine unit :=
  _ ← fund 101 "USDT" (whole 1000);
  _ ← fund 102 "SOL" (whole 10);
  _ ← bench_submit (pipeline_order 2 102 "sell" false);
  _ ← bench_set_balance 102 "SOL" (whole 8) dec_one;
  _ ← assert_err (process_direct (pipeline_order 1 101 "buy" market));
  c ← the_core;
  assert (has_locked 101 "USDT" dec_zero (cache c) && has_no_row 102 "USDT" (cache c) && has_no_row 101 "SOL" (cache
    c)).

Definition second_fill_failure (case : bool * bool) : st HighPerformanceEngine unit :=
  let '(buy, market) := case in
  let taker_mint := if buy then "USDT" else "SOL" in
  let maker_mint := if buy then "SOL" else "USDT" in
  _ ← fund 101 taker_mint (whole 1000);
  _ ← for_each [(2, 102); (3, 103)] (fun maker =>
        _ ← fund maker.2 maker_mint (whole 1000);
        _ ← bench_submit (pipeline_order maker.1 maker.2 (side_of_buy (negb buy)) false);
        mret tt);
  _ ← bench_set_balance 103 maker_mint (whole 800) dec_one;
  fails_unchanged (process_direct (order_at 1 101 (side_of_buy buy) market (whole 100) (whole 4) (whole 400))).

Definition reservation_failure : st HighPerformanceEngine unit :=
  _ ← fails_unchanged (bench_submit_direct (pipeline_order 1 101 "buy" false));
  c ← the_core;
  assert (bool_decide (book_of c = None)).

Definition price_time_priority : st HighPerformanceEngine unit :=
  _ ← fund 101 "USDT" (whole 1000);
  _ ← for_each [(2, 102, 100); (3, 103, 100); (4, 104, 101)] (fun maker =>
        let '(id, user, price) := maker in
        _ ← fund user "SOL" (whole 10);
        _ ← bench_submit (order_at id user "sell" false (whole price) (whole 2) (whole 200));
        mret tt);
  fills ← bench_submit (order_at 1 101 "buy" false (whole 110) (whole 5) (whole 200));
  _ ← assert (bool_decide (map mr_sell_order_id fills = [2; 3; 4]));
  _ ← assert (all_eqb dec_eqb (map mr_amount fills) [whole 2; whole 2; dec_one]);
  c ← the_core;
  book ← lift (expect (book_of c));
  _ ← assert (total_sell_orders book =? 1);
  _ ← assert (match get_orders_at_price (whole 101) (sell_orders book) with
              | Some (maker :: _) => (oe_id maker =? 4) && dec_eqb (oe_remaining_amount maker) dec_one &&
                                     dec_eqb (oe_filled_amount maker) dec_one
              | _ => false
              end);
  assert (has_balance 101 "USDT" (whole 499) dec_zero (cache c)).

Definition partial_limit_buy : st HighPerformanceEngine unit :=
  _ ← fund 101 "USDT" (whole 1000);
  _ ← fund 102 "SOL" (whole 10);
  _ ← bench_submit (order_at 2 102 "sell" false (whole 90) (whole 2) (whole 200));
  _ ← bench_submit (order_at 1 101 "buy" false (whole 100) (whole 4) (whole 200));
  c ← the_core;
  _ ← assert (has_balance 101 "USDT" (whole 620) (whole 200) (cache c));
  _ ← fund 103 "SOL" (whole 10);
  trades ← bench_submit (order_at 3 103 "sell" false (whole 100) dec_one (whole 200));
  _ ← assert (bool_decide (length trades = 1%nat));
  c ← the_core;
  assert (has_locked 101 "USDT" (whole 100) (cache c) && has_available 101 "SOL" (whole 3) (cache c)).

Definition market_budget (case : Decimal * Decimal) : st HighPerformanceEngine unit :=
  let '(price, expected_quantity) := case in
  _ ← fund 101 "USDT" (whole 10);
  _ ← fund 102 "SOL" (whole 20);
  _ ← bench_submit (order_at 2 102 "sell" false price (whole 10) (whole 200));
  fills ← bench_submit (order_at 1 101 "buy" true (whole 100) (whole 2) dec_one);
  _ ← assert (all_eqb dec_eqb (map mr_amount fills) [expected_quantity]);
  c ← the_core;
  assert (has_balance 101 "USDT" (scaled 9000000001 9) dec_zero (cache c) &&
          has_available 102 "USDT" (scaled 999999999 9) (cache c)).

Definition no_liquidity (buy : bool) : st HighPerformanceEngine unit :=
  _ ← fund 101 (if buy then "USDT" else "SOL") (whole 1000);
  before ← the_core;
  trades ← bench_submit (pipeline_order 1 101 (side_of_buy buy) true);
  after ← the_core;
  assert (bool_decide (length trades = 0%nat) && cache_eqb (cache after) (cache before)).

Definition self_orders_stay : st HighPerformanceEngine unit :=
  _ ← fund 101 "USDT" (whole 1000);
  _ ← for_each [(2, 101); (3, 102); (4, 103)] (fun maker =>
        _ ← fund maker.2 "SOL" (whole 10);
        _ ← bench_submit (pipeline_order maker.1 maker.2 "sell" false);
        mret tt);
  fills ← bench_submit (order_at 1 101 "buy" false (whole 100) dec_one (whole 200));
  _ ← assert (match fills with trade :: _ => mr_sell_order_id trade =? 3 | [] => false end);
  c ← the_core;
  book ← lift (expect (book_of c));
  queue ← lift (expect (get_orders_at_price (whole 100) (sell_orders book)));
  assert (bool_decide (map oe_id queue = [2; 3; 4]) && (total_sell_orders book =? 3)).

Definition only_self_liquidity (buy : bool) : st HighPerformanceEngine unit :=
  _ ← fund 101 "USDT" (whole 1000);
  _ ← fund 101 "SOL" (whole 10);
  _ ← bench_submit (pipeline_order 2 101 (side_of_buy (negb buy)) false);
  no_trades_unchanged (pipeline_order 1 101 (side_of_buy buy) true).

Definition refund_precision_failure : st HighPerformanceEngine unit :=
  _ ← fund 101 "USDT" (dz "100000000000000000000");
  _ ← fund 102 "SOL" (whole 10);
  _ ← bench_submit (order_at 2 102 "sell" false (dz "99.999999999") (whole 2) (whole 200));
  fails_unchanged (process_direct (pipeline_order 1 101 "buy" false)).

(** The two trades of the two engines, as JSON in the test. *)
Definition trade_eqb (a b : MatchResult) : bool :=
  (mr_buy_order_id a =? mr_buy_order_id b) && (mr_sell_order_id a =? mr_sell_order_id b) &&
  (mr_buyer_id a =? mr_buyer_id b) && (mr_seller_id a =? mr_seller_id b) &&
  dec_eqb (mr_price a) (mr_price b) && dec_eqb (mr_amount a) (mr_amount b) &&
  dec_eqb (mr_buyer_fee_rate a) (mr_buyer_fee_rate b) && dec_eqb (mr_seller_fee_rate a) (mr_seller_fee_rate b) &&
  String.eqb (mr_base_mint a) (mr_base_mint b) && String.eqb (mr_quote_mint a) (mr_quote_mint b).

Definition benchmark_uses_same_core : st HighPerformanceEngine unit :=
  _ ← for_each [(101, "USDT"); (102, "SOL")] (fun row => fund row.1 row.2 (whole 1000));
  let bench := (engine_set_balance 102 "SOL" (whole 1000) dec_zero
                 (engine_set_balance 101 "USDT" (whole 1000) dec_zero bench_new).2).2 in
  let maker := pipeline_order 2 102 "sell" false in
  let incoming := pipeline_order 1 101 "buy" false in
  _ ← bench_submit maker;
  let '(rest_one, bench) := submit_direct maker bench in
  _ ← lift (expect_ok rest_one);
  trades ← bench_submit incoming;
  let '(bench_trades, bench) := submit_direct incoming bench in
  bench_trades ← lift (expect_ok bench_trades);
  _ ← assert (all_eqb trade_eqb trades bench_trades);
  assert (negb (is_ok (submit_direct (pipeline_order 3 999 "buy" false) bench).1)).

(** The incoming pipeline_order with one field spoiled. *)
Definition spoiled (invalid : nat) : OrderEntry :=
  let o := pipeline_order 1 101 "buy" false in
  match invalid with
  | 0%nat => {| oe_fee_rate := oe_fee_rate o; oe_id := oe_id o; oe_user_id := oe_user_id o;
      oe_order_type := oe_order_type o; oe_order_side := oe_order_side o; oe_base_mint := oe_base_mint o;
      oe_quote_mint := oe_quote_mint o; oe_price := None; oe_amount := oe_amount o;
      oe_quote_amount := oe_quote_amount o; oe_filled_amount := oe_filled_amount o;
      oe_remaining_amount := oe_remaining_amount o; oe_remaining_quote_amount := oe_remaining_quote_amount o;
      oe_created_at := oe_created_at o |}
  | 1%nat => set_amount decimal_max o
  | 2%nat => pipeline_order 1 101 "unknown" false
  | _ => set_remaining dec_zero o
  end.
Definition invalid_candidate (invalid : nat) : st HighPerformanceEngine unit :=
  _ ← fund 101 "USDT" (whole 1000);
  _ ← fails_unchanged (bench_submit_direct (spoiled invalid));
  c ← the_core;
  assert (bool_decide (book_of c = None)).

Definition candidate_planning : st HighPerformanceEngine unit :=
  _ ← fund 102 "SOL" (whole 10);
  _ ← bench_submit (pipeline_order 2 102 "sell" false);
  before ← the_core;
  book ← lift (expect (book_of before));
  plan ← lift (expect_ok (plan_order (pipeline_order 1 101 "buy" false) book));
  _ ← assert (bool_decide (length (p_matches plan) = 1%nat));
  after ← the_core;
  assert (snapshot_eqb after before).

Definition fees_follow_each_order : st HighPerformanceEngine unit :=
  _ ← fund 101 "USDT" (whole 1000);
  _ ← fund 102 "SOL" (whole 10);
  _ ← bench_submit (pipeline_order_fee 2 102 "sell" (whole 2) (dz "0.002"));
  _ ← for_each [10; 11] (fun id =>
        trades ← bench_submit (pipeline_order_fee id 101 "buy" dec_one (dz "0.001"));
        assert (match trades with
                | trade :: _ => dec_eqb (mr_buyer_fee_rate trade) (dz "0.001") &&
                                dec_eqb (mr_seller_fee_rate trade) (dz "0.002")
                | [] => false
                end));
  c ← the_core;
  _ ← assert (has_available 101 "SOL" (dz "1.998") (cache c) && has_available 102 "USDT" (dz "199.6") (cache c) &&
              has_available 101 "USDT" (whole 800) (cache c));
  sum ← lift (expect_ok (add (dz "1.998") (dz "0.002")));
  assert (dec_eqb sum (whole 2)).

Definition fee_rounding : st HighPerformanceEngine unit :=
  let fee_is (received rate expected : Decimal) :=
    match fee received rate with Ok f => dec_eqb f expected | _ => false end in
  _ ← assert (fee_is (dz "0.000000001") (dz "0.001") dec_zero);
  _ ← assert (fee_is (dz "1.234567891") (dz "0.001") (dz "0.001234567"));
  _ ← for_each [scaled (-1) 3; whole 1; scaled 1 7] (fun invalid => assert_err (lift (fee dec_one invalid)));
  assert (fee_is dec_one dec_zero dec_zero).

Definition invalid_fee : st HighPerformanceEngine unit :=
  _ ← fund 101 "USDT" (whole 200);
  _ ← fund 102 "SOL" (whole 2);
  _ ← bench_submit (pipeline_order 2 102 "sell" false);
  _ ← assert_err (bench_submit_direct (pipeline_order_fee 1 101 "buy" (whole 2) dec_one));
  c ← the_core;
  book ← lift (expect (book_of c));
  _ ← assert (has_available 101 "USDT" (whole 200) (cache c) && (total_sell_orders book =? 1));
  _ ← bench_submit (pipeline_order_fee 1 101 "buy" (whole 2) (dz "0.001"));
  c ← the_core;
  assert (has_available 101 "USDT" dec_zero (cache c)).

(** [applied.completion.unwrap()]. *)
Definition completed (order : OrderEntry) : st HighPerformanceEngine MarketCompletion :=
  applied ← unwrap (process_direct order);
  lift (expect (as_completion applied)).

Definition ioc_completes (case : bool * Z) : st HighPerformanceEngine unit :=
  let '(buy, liquidity) := case in
  let taker := if buy then 101 else 102 in
  _ ← fund 101 "USDT" (whole 1000);
  _ ← fund 102 "SOL" (whole 10);
  _ ← (if 0 <? liquidity then
         _ ← bench_submit (order_at 2 (if buy then 102 else 101) (side_of_buy (negb buy)) false (whole 100) (whole
           liquidity)
                       (whole 200));
         mret tt
       else mret tt);
  done ← completed (pipeline_order 1 taker (side_of_buy buy) true);
  _ ← assert (dec_eqb (mc_filled_amount done) (whole liquidity) &&
              dec_eqb (mc_filled_quote_amount done) (whole (liquidity * 100)) &&
              dec_eqb (mc_refund_amount done) (whole ((2 - liquidity) * if buy then 100 else 1)) &&
              String.eqb (mc_status done) (if liquidity =? 2 then "filled" else "expired") &&
              (mc_trade_count done =? (if liquidity =? 0 then 0 else 1)));
  c ← the_core;
  _ ← assert (has_balance taker (if buy then "USDT" else "SOL")
                (whole (if buy then 1000 - liquidity * 100 else 10 - liquidity)) dec_zero (cache c));
  book ← lift (expect (book_of c));
  assert (total_buy_orders book + total_sell_orders book =? 0).

Definition ioc_budget_dust : st HighPerformanceEngine unit :=
  _ ← fund 101 "USDT" (whole 1000);
  _ ← fund 102 "SOL" (whole 10);
  _ ← bench_submit (order_at 2 102 "sell" false (whole 3) (whole 2) (whole 200));
  done ← completed (order_at 1 101 "buy" true (whole 100) (whole 2) dec_one);
  _ ← assert (dec_eqb (mc_filled_amount done) (dz "0.333333333") &&
              dec_eqb (mc_filled_quote_amount done) (dz "0.999999999") &&
              dec_eqb (mc_refund_amount done) (dz "0.000000001") && String.eqb (mc_status done) "expired");
  c ← the_core;
  assert (has_locked 101 "USDT" dec_zero (cache c)).

Definition ioc_self_only : st HighPerformanceEngine unit :=
  _ ← fund 101 "USDT" (whole 1000);
  _ ← fund 101 "SOL" (whole 10);
  _ ← bench_submit (pipeline_order 2 101 "sell" false);
  done ← completed (pipeline_order 1 101 "buy" true);
  _ ← assert ((mc_trade_count done =? 0) && dec_eqb (mc_refund_amount done) (whole 200) &&
              String.eqb (mc_status done) "expired");
  c ← the_core;
  book ← lift (expect (book_of c));
  assert (has_available 101 "USDT" (whole 1000) (cache c) && (total_sell_orders book =? 1)).

(** [output_tests.rs]: cancelling on a damaged state. *)
Definition cancel (order_id user_id : Z) : st HighPerformanceEngine OrderEntry :=
  bench_state (with_core (cancel_order order_id user_id pair)).
Definition resting_buys (n : Z) : st HighPerformanceEngine unit :=
  c ← the_core;
  book ← lift (expect (book_of c));
  assert (total_buy_orders book =? n).
Definition rest_one : st HighPerformanceEngine unit :=
  _ ← fund 1 "USDT" (whole 1000);
  _ ← bench_submit (order_at 1 1 "buy" false (whole 100) dec_one dec_zero);
  mret tt.
Definition cancel_failure_preserves_order : st HighPerformanceEngine unit :=
  _ ← rest_one;
  _ ← bench_set_balance 1 "USDT" (whole 900) dec_zero;
  _ ← assert_err (cancel 1 1);
  _ ← resting_buys 1;
  _ ← bench_set_balance 1 "USDT" (whole 900) (whole 100);
  _ ← assert_err (cancel 1 2);
  _ ← unwrap (cancel 1 1);
  _ ← resting_buys 0;
  c ← the_core;
  assert (has_balance 1 "USDT" (whole 1000) dec_zero (cache c)).

(** The first pipeline_order of the level at 100 gets another price of its own. *)
Definition set_price (price : Decimal) (o : OrderEntry) : OrderEntry :=
  {| oe_fee_rate := oe_fee_rate o; oe_id := oe_id o; oe_user_id := oe_user_id o; oe_order_type := oe_order_type o;
     oe_order_side := oe_order_side o; oe_base_mint := oe_base_mint o; oe_quote_mint := oe_quote_mint o;
     oe_price := Some price; oe_amount := oe_amount o; oe_quote_amount := oe_quote_amount o;
     oe_filled_amount := oe_filled_amount o; oe_remaining_amount := oe_remaining_amount o;
     oe_remaining_quote_amount := oe_remaining_quote_amount o; oe_created_at := oe_created_at o |}.
Definition damage (c : Core) : Core :=
  let side := fun s => mk_side (map (fun level => (level.1, map (set_price (whole 101)) level.2)) (OrderBook.orders
    s)) (total_orders s) in
  mk_core (alter (fun book => mk_book (trading_pair book) (side (buy_orders book)) (sell_orders book)) pair
    (orderbooks c))
    (executor c).
Definition cancel_invalid_entry : st HighPerformanceEngine unit :=
  _ ← rest_one;
  _ ← bench_state (with_core (smodify damage));
  _ ← assert_err (cancel 1 1);
  _ ← resting_buys 1;
  c ← the_core;
  assert (has_balance 1 "USDT" (whole 900) (whole 100) (cache c)).

(** [reservation_tests.rs]. *)
Definition reservation : st HighPerformanceEngine unit :=
  _ ← fund 101 "USDT" (whole 1000);
  _ ← unwrap (process_direct (pipeline_order 1 101 "buy" false));
  c ← the_core;
  assert (has_balance 101 "USDT" (whole 800) (whole 200) (cache c)).

Definition pipeline_tests : list (st HighPerformanceEngine unit) :=
  map real_matching_pipeline [false; true] ++ map settlement_failure_aborts [false; true] ++
  map second_fill_failure [(false, false); (false, true); (true, false); (true, true)] ++
  [ reservation_failure; price_time_priority; partial_limit_buy ] ++
  map market_budget [(whole 3, scaled 333333333 9); (scaled 3 1, scaled 3333333330 9)] ++
  map no_liquidity [true; false] ++ [ self_orders_stay ] ++ map only_self_liquidity [false; true] ++
  [ refund_precision_failure; benchmark_uses_same_core ] ++ map invalid_candidate (seq 0 4) ++
  [ candidate_planning; fees_follow_each_order; fee_rounding; invalid_fee ] ++
  map ioc_completes [(true, 0); (true, 1); (true, 2); (false, 0); (false, 1); (false, 2)] ++
  [ ioc_budget_dust; ioc_self_only; cancel_failure_preserves_order; cancel_invalid_entry; reservation ].
End Pipeline.

Example pipeline_tests_pass : forallb (fun test => passes test Pipeline.engine) Pipeline.pipeline_tests = true.
Proof. vm_compute. reflexivity. Qed.

(** ** Commands of the core ([runtime/engine/journal_tests.rs], [journal_tests/withdrawal_tests.rs]) *)

Module Commands.

Definition journal_order (id user : Z) (buy : bool) (size : Z) : OrderEntry :=
  entry (mk_spec id user (if buy then "buy" else "sell") false (whole 100) (whole size) dec_zero dec_zero).
Definition journal_order_fee (id user : Z) (buy : bool) (size : Z) (fee : Decimal) : OrderEntry :=
  entry (mk_spec id user (if buy then "buy" else "sell") false (whole 100) (whole size) dec_zero fee).
Definition market_buy (id user : Z) (budget : Decimal) : OrderEntry :=
  entry (mk_spec id user "buy" true dec_zero dec_zero budget dec_zero).
Definition market_sell (id user size : Z) : OrderEntry :=
  entry (mk_spec id user "sell" true dec_zero (whole size) dec_zero dec_zero).

Definition seeded : EngineState :=
  set_state_cache (set_balance 2 "SOL" (whole 10) dec_zero (set_balance 1 "USDT" (whole 1000) dec_zero cache_new))
    state_new.

(** [journal::apply_command(&mut state, &command)]. *)
Definition apply_command (command : Command) : st EngineState Outcome := unwrap (journal_apply command).
Definition submit_command (order : OrderEntry) : st EngineState Outcome := apply_command (CmdSubmit order).
Definition on_cache {A} (m : st BalanceCache A) : st EngineState A := with_cache m.
Definition put_balance (user : Z) (asset : string) (a l : Decimal) : st EngineState unit :=
  on_cache (smodify (set_balance user asset a l)).

Definition applied_some (o : Outcome) : bool := match o with Applied (Some _) => true | _ => false end.
Definition applied_none (o : Outcome) : bool := match o with Applied None => true | _ => false end.
Definition failed (o : Outcome) : bool := match o with Failed _ => true | _ => false end.
Definition withdrawal_rejected (o : Outcome) : bool :=
  match o with Applied (Some (WithdrawalRejected _ _)) => true | _ => false end.
Definition deposit_credited (o : Outcome) : bool :=
  match o with Applied (Some (DepositCredited _)) => true | _ => false end.

Definition expect_outcome (kind : Outcome → bool) (command : Command) : st EngineState unit :=
  outcome ← apply_command command;
  assert (kind outcome).
Definition assert_cache (holds : BalanceCache → bool) : st EngineState unit :=
  s ← sget;
  assert (holds (state_cache s)).
Definition assert_balance (user : Z) (asset : string) (a l : Z) : st EngineState unit :=
  assert_cache (has_balance user asset (whole a) (whole l)).

(** *** Withdrawals *)

Definition withdrawal_change (id user : Z) (asset : string) (value : Decimal) (action : WithdrawalAction) : Command :=
  CmdWithdrawal {| wc_action := action;
    wc_funds := {| wf_withdrawal_id := id; wf_user_id := user; wf_asset := asset; wf_amount := value |} |}.

Definition withdrawal_reserve_release : st EngineState unit :=
  let cmd := withdrawal_change 11 1 "USDT" (whole 250) in
  _ ← unwrap (on_cache (lock_balance 1 "USDT" (whole 100)));
  _ ← expect_outcome applied_some (cmd Reserve);
  _ ← assert_balance 1 "USDT" 650 350;
  _ ← expect_outcome applied_none (cmd Reserve);
  _ ← expect_outcome applied_some (cmd Release);
  _ ← expect_outcome applied_none (cmd Release);
  _ ← assert_balance 1 "USDT" 900 100;
  for_each [Reserve; Complete] (fun action =>
    _ ← expect_outcome failed (cmd action);
    assert_balance 1 "USDT" 900 100).

Definition withdrawal_complete_debits : st EngineState unit :=
  let a := withdrawal_change 11 1 "USDT" (whole 250) in
  _ ← apply_command (a Reserve);
  _ ← apply_command (withdrawal_change 12 1 "USDT" (whole 100) Reserve);
  _ ← expect_outcome applied_some (a Complete);
  _ ← expect_outcome applied_none (a Complete);
  _ ← assert_balance 1 "USDT" 650 100;
  for_each [Reserve; Release] (fun action =>
    _ ← expect_outcome failed (a action);
    assert_balance 1 "USDT" 650 100).

Definition withdrawal_identifier : st EngineState unit :=
  _ ← apply_command (withdrawal_change 11 1 "USDT" (whole 250) Reserve);
  for_each [Reserve; Release; Complete] (fun action =>
    for_each [withdrawal_change 11 2 "USDT" (whole 250) action; withdrawal_change 11 1 "SOL" (whole 250) action;
      withdrawal_change 11 1 "USDT" dec_one action]
      (fun changed => _ ← expect_outcome failed changed; assert_balance 1 "USDT" 750 250)).

Definition credit (id user : Z) (asset : string) (value : Decimal) : Command :=
  CmdCreditDeposit {| dc_deposit_id := id; dc_user_id := user; dc_asset := asset; dc_amount := value |}.

Definition withdrawal_insufficient : st EngineState unit :=
  let cmd := withdrawal_change 11 1 "USDT" (whole 2000) in
  _ ← expect_outcome withdrawal_rejected (cmd Reserve);
  _ ← assert_balance 1 "USDT" 1000 0;
  _ ← apply_command (credit 21 1 "USDT" (whole 5000));
  for_each [Reserve; Release; Complete] (fun action =>
    _ ← expect_outcome failed (cmd action);
    assert_balance 1 "USDT" 6000 0).

Definition no_withdrawals : st EngineState unit :=
  s ← sget;
  assert (bool_decide (size (withdrawal_receipts s) = 0%nat)).

Definition withdrawal_resolution : st EngineState unit :=
  let cmd := withdrawal_change 11 1 "USDT" (whole 250) in
  _ ← for_each [Release; Complete] (fun action =>
        _ ← expect_outcome failed (cmd action);
        _ ← no_withdrawals;
        assert_balance 1 "USDT" 1000 0);
  expect_outcome applied_some (cmd Reserve).

Definition invalid_withdrawal : st EngineState unit :=
  for_each [withdrawal_change 0 3 "BTC" dec_one Reserve; withdrawal_change 11 0 "BTC" dec_one Reserve;
    withdrawal_change 11 (2 ^ 64 - 1) "BTC" dec_one Reserve;
            withdrawal_change 11 3 "" dec_one Reserve; withdrawal_change 11 3 "btc" dec_one Reserve;
              withdrawal_change 11 3 "BTC " dec_one Reserve;
            withdrawal_change 11 3 "BTC" dec_zero Reserve; withdrawal_change 11 3 "BTC" (whole (-1)) Reserve;
              withdrawal_change 11 3 "BTC" (scaled 1 10) Reserve]
    (fun cmd =>
      _ ← expect_outcome failed cmd;
      _ ← no_withdrawals;
      assert_cache (has_no_row 3 "BTC")).

Definition withdrawal_locked_overflow : st EngineState unit :=
  let max := dz "999999999999999999999" in
  _ ← put_balance 3 "BTC" dec_one max;
  _ ← expect_outcome withdrawal_rejected (withdrawal_change 11 3 "BTC" dec_one Reserve);
  assert_cache (has_balance 3 "BTC" dec_one max).

Definition fills_preserve_withdrawal_share : st EngineState unit :=
  let withdrawal := withdrawal_change 11 2 "SOL" (whole 3) in
  _ ← apply_command (withdrawal Reserve);
  _ ← expect_outcome applied_some (CmdSubmit (journal_order 1 2 false 4));
  _ ← assert_balance 2 "SOL" 3 7;
  _ ← submit_command (journal_order 2 1 true 2);
  _ ← assert_balance 2 "SOL" 3 5;
  _ ← apply_command (CmdCancel 1 2 pair);
  _ ← assert_balance 2 "SOL" 5 3;
  _ ← expect_outcome applied_some (withdrawal Complete);
  _ ← assert_balance 2 "SOL" 5 0;
  assert_balance 1 "SOL" 2 0.

(** A market journal_order with a fee next to a reserved withdrawal. *)
Definition withdrawal_share_survives_market : st EngineState unit :=
  let withdrawal := withdrawal_change 11 1 "USDT" (whole 100) in
  _ ← expect_outcome applied_some (withdrawal Reserve);
  _ ← submit_command (journal_order 1 2 false 4);
  _ ← expect_outcome applied_some
        (CmdSubmit (entry (mk_spec 2 1 "buy" true dec_zero dec_zero (whole 250) (scaled 1 2))));
  _ ← assert_balance 1 "USDT" 650 100;
  _ ← assert_cache (has_available 1 "SOL" (scaled 2475 3));
  _ ← expect_outcome applied_some (withdrawal Release);
  assert_balance 1 "USDT" 750 0.

(** *** Deposits *)

Definition deposit_once : st EngineState unit :=
  let command := credit 21 3 "BTC" (scaled 125 8) in
  _ ← put_balance 3 "BTC" dec_one (whole 2);
  _ ← expect_outcome deposit_credited command;
  _ ← expect_outcome applied_none command;
  assert_cache (has_balance 3 "BTC" (scaled 100000125 8) (whole 2)).

Definition deposit_identifier : st EngineState unit :=
  _ ← expect_outcome applied_some (credit 21 3 "BTC" dec_one);
  _ ← for_each [credit 21 4 "BTC" dec_one; credit 21 3 "USDT" dec_one;
    credit 21 3 "BTC" (whole 2)] (expect_outcome failed);
  assert_cache (fun c => has_available 3 "BTC" dec_one c && has_no_row 4 "BTC" c && has_no_row 3 "USDT" c).

Fixpoint repeat_char (n : nat) (c : Ascii.ascii) : string :=
  match n with O => EmptyString | S n => String c (repeat_char n c) end.

Definition invalid_deposit : st EngineState unit :=
  _ ← for_each [credit 21 3 "BTC" dec_zero; credit 21 3 "BTC" (whole (-1)); credit 21 3 "BTC" (scaled 1 10);
                credit 0 3 "BTC" dec_one; credit 21 0 "BTC" dec_one; credit 21 3 "" dec_one; credit 21 3 " BTC" dec_one;
                credit 21 3 "BTC " dec_one; credit 21 3 (repeat_char 129 "x"%char) dec_one] (expect_outcome failed);
  _ ← assert_cache (has_no_row 3 "BTC");
  s ← sget;
  _ ← assert (bool_decide (size (deposit_receipts s) = 0%nat));
  expect_outcome applied_some (credit 21 3 "BTC" dec_one).

Definition deposit_overflow : st EngineState unit :=
  let maximum := dz "999999999999999999999" in
  let command := credit 21 3 "BTC" maximum in
  _ ← put_balance 3 "BTC" maximum (whole 2);
  first ← apply_command command;
  _ ← assert (failed first);
  _ ← assert_cache (has_available 3 "BTC" maximum);
  _ ← put_balance 3 "BTC" dec_zero (whole 2);
  repeated ← apply_command command;
  _ ← assert (match first, repeated with Failed a, Failed b => String.eqb a b | _, _ => false end);
  _ ← expect_outcome failed (credit 21 3 "BTC" dec_one);
  assert_cache (has_available 3 "BTC" dec_zero).

Definition command_tests : list (st EngineState unit) :=
  [ withdrawal_reserve_release; withdrawal_complete_debits; withdrawal_identifier; withdrawal_insufficient;
    withdrawal_resolution; invalid_withdrawal; withdrawal_locked_overflow; fills_preserve_withdrawal_share;
    withdrawal_share_survives_market;
    deposit_once; deposit_identifier; invalid_deposit; deposit_overflow ].
End Commands.

Example command_tests_pass : forallb (fun test => passes test Commands.seeded) Commands.command_tests = true.
Proof. vm_compute. reflexivity. Qed.

(** ** Commands, the journal and its recovery ([runtime/engine/journal_tests.rs])

    The records are written as they are, the JSON of an outcome shows what the tests compare. *)

Module Journaled.
Import Commands.

Definition joined_text (l : list string) : string := foldr (fun a b => a +:+ ";" +:+ b) EmptyString l.
Definition trade_text (t : TradeOutput) : string :=
  joined_text [ show_int (mr_buy_order_id (to_trade t)); show_int (mr_sell_order_id (to_trade t));
           dec_to_string (mr_price (to_trade t)); dec_to_string (mr_amount (to_trade t));
           dec_to_string (to_buyer_fee t); dec_to_string (to_seller_fee t) ].
Definition outcome_text (o : Outcome) : string :=
  match o with
  | Applied (Some (Submitted id trades _)) => joined_text (show_int id :: map trade_text trades)
  | _ => outcome_kind o
  end.
Definition test_format : JournalFormat ref_externals := {|
  Payload := Genesis + Record_;
  genesis_json := inl;
  genesis_parse p := match p with inl g => Some g | inr _ => None end;
  record_json := inr;
  record_parse p := match p with inr r => Some r | inl _ => None end;
  Json := string;
  outcome_value := outcome_text;
  Digest := string;
  digest p := match p with inl _ => "genesis"%string | inr r => show_int (r_sequence r) +:+ outcome_text (r_outcome
    r) end;
  uuid_parses := String.eqb "engine";
|}.
#[local] Existing Instance test_format.

(** The journal, the state that the core works on, the last sequence. *)
Record Bed := mk_bed { b_store : Store; b_state : EngineState; b_sequence : Z }.
Definition on_state {A} (m : st EngineState A) : st Bed A :=
  zoom b_state (fun s b => mk_bed (b_store b) s (b_sequence b)) m.
Definition on_store {A} (m : st Store A) : st Bed A :=
  zoom b_store (fun s b => mk_bed s (b_state b) (b_sequence b)) m.

(** [initialize(&directory.0)], with [seeded()] for the state. *)
Definition bed_with (state : EngineState) : Bed := mk_bed (initialize "engine" state store_new).2 state 0.
Definition bed : Bed := bed_with seeded.

Definition clock (sequence : Z) : Timestamp := (0 : Z).
(** [let item = pending(&mut state, command); store.append(&[item], &mut sequence)?]. *)
Definition execute_recorded (command : Command) : st Bed Outcome :=
  outcome ← on_state (apply_command command);
  b ← sget;
  next ← unwrap (on_store (append clock Committed
           [{| p_command := Some command; p_outcome := outcome; p_reply := ReplySubmit 0 |}] (b_sequence b)));
  _ ← smodify (fun b => mk_bed (b_store b) (b_state b) next);
  mret outcome.
Definition record_as (kind : Outcome → bool) (command : Command) : st Bed unit :=
  outcome ← execute_recorded command;
  assert (kind outcome).
Definition any (o : Outcome) : bool := true.

(** [Store::open(..).recover()?], and a process that goes on from there. *)
Definition recovered : st Bed EngineState :=
  b ← sget;
  found ← lift (expect_ok (recover (b_store b)));
  mret found.1.
Definition restart : st Bed unit :=
  state ← recovered;
  smodify (fun b => mk_bed (b_store b) state (b_sequence b)).
Definition recovered_cache (holds : BalanceCache → bool) : st Bed unit :=
  state ← recovered;
  assert (holds (state_cache state)).
Definition recovery_fails : st Bed unit :=
  b ← sget;
  assert (negb (is_ok (recover (b_store b)))).

Definition sells_in (state : EngineState) : Z :=
  match orderbooks (core state) !! pair with Some book => total_sell_orders book | None => -1 end.

(** [journal_replays_partial_fill_cancel_balance_and_duplicate_commands]. *)
Definition replays_everything : st Bed unit :=
  let buy := CmdSubmit (journal_order 2 1 true 1) in
  _ ← record_as any (CmdSubmit (journal_order 1 2 false 3));
  _ ← record_as applied_some buy;
  _ ← record_as applied_none buy;
  _ ← record_as any (CmdBalance 1 "USDT" (whole 5));
  _ ← record_as any (CmdLock 1 "USDT" (whole 2));
  _ ← record_as any (CmdUnlock 1 "USDT" (whole 2));
  b ← sget;
  book ← lift (expect (orderbooks (core (b_state b)) !! pair));
  _ ← assert (match get_orders_at_price (whole 100) (sell_orders book) with
              | Some [maker] => dec_eqb (oe_remaining_amount maker) (whole 2)
              | _ => false
              end);
  _ ← record_as applied_some (CmdCancel 1 2 pair);
  _ ← record_as (fun o => match o with DuplicateCancellation found => oe_id found =? 1 | _ => false end) (CmdCancel 1
    2 pair);
  _ ← recovered_cache (fun c => has_balance 1 "USDT" (whole 905) dec_zero c && has_available 2 "SOL" (whole 9) c);
  state ← recovered;
  _ ← assert (sells_in state =? 0);
  _ ← restart;
  _ ← record_as applied_none buy;
  recovered_cache (has_balance 1 "USDT" (whole 905) dec_zero).

(** [journal_corruption_gap_result_mismatch_and_cursor_ahead_block_recovery]. *)
Definition corrupt (fault : Store → Store) : st Bed unit :=
  _ ← record_as any (CmdSubmit (journal_order 1 1 true 1));
  _ ← on_store (smodify fault);
  recovery_fails.
Definition empty_payload : Payload := inl {| gn_version := 0; gn_engine_id := ""; gn_balances := [] |}.
Definition checksum_fault (s : Store) : Store :=
  mk_store (s_genesis s) (map (fun r => (r.1, (empty_payload, r.2.2))) (s_records s)) (s_delivery s).
Definition gap_fault (s : Store) : Store :=
  mk_store (s_genesis s) (map (fun r => (2, r.2)) (s_records s)) (s_delivery s).
(** Another outcome, with a checksum that fits. *)
Definition rewrite_outcome (f : Outcome → Outcome) (s : Store) : Store :=
  mk_store (s_genesis s)
    (map (fun r => match record_parse r.2.1 with
                   | Some record =>
                       let payload := record_json (mk_record (r_sequence record) (r_timestamp record) (r_command record)
                                        (f (r_outcome record))) in
                       (r.1, (payload, digest payload))
                   | None => r
                   end) (s_records s)) (s_delivery s).
Definition outcome_fault : Store → Store := rewrite_outcome (fun _ => Applied None).
Definition cursor_fault (s : Store) : Store := mk_store (s_genesis s) (s_records s) 2.

(** [journal_failed_balance_delta_preserves_original_and_replays_rejection]. *)
Definition failed_balance_delta : st Bed unit :=
  _ ← record_as failed (CmdBalance 1 "USDT" (whole (-1001)));
  recovered_cache (has_available 1 "USDT" (whole 1000)).

(** [journal_multiple_makers_restore_fifo_and_remaining_order_exactly]. *)
Definition multiple_makers : st Bed unit :=
  _ ← for_each [CmdBalance 3 "SOL" (whole 10); CmdSubmit (journal_order 1 2 false 2);
    CmdSubmit (journal_order 2 3 false 3)] (record_as any);
  _ ← record_as (fun o => match o with
                        | Applied (Some (Submitted _ trades _)) => bool_decide (length trades = 2%nat)
                        | _ => false
                        end) (CmdSubmit (journal_order 3 1 true 4));
  state ← recovered;
  book ← lift (expect (orderbooks (core state) !! pair));
  _ ← assert (match get_orders_at_price (whole 100) (sell_orders book) with
              | Some (remaining :: _) => (oe_id remaining =? 2) && dec_eqb (oe_remaining_amount remaining) dec_one
              | _ => false
              end);
  recovered_cache (has_available 1 "USDT" (whole 600)).

(** [journal_conflicting_order_id_is_recorded_without_second_execution]. *)
Definition conflicting_order_id : st Bed unit :=
  _ ← record_as any (CmdSubmit (journal_order 1 1 true 1));
  _ ← record_as failed (CmdSubmit (journal_order 1 1 true 2));
  recovered_cache (has_available 1 "USDT" (whole 900)).

(** [journal_market_budget_and_ioc_remainder_replay_exactly]. *)
Definition market_replay (buy : bool) : st Bed unit :=
  _ ← record_as any (CmdSubmit (if buy then journal_order 1 2 false 3 else journal_order 1 1 true 2));
  _ ← record_as any (CmdSubmit (if buy then market_buy 2 1 (whole 150) else market_sell 2 2 3));
  recovered_cache (fun c =>
    if buy then has_available 1 "USDT" (whole 850) c && has_available 1 "SOL" (scaled 15 1) c
    else has_balance 2 "SOL" (whole 8) dec_zero c).

(** [journal_fee_results_replay_and_duplicate_without_second_charge]. *)
Definition fee_replay : st Bed unit :=
  let buy := CmdSubmit (journal_order_fee 2 1 true 1 (dz "0.001")) in
  _ ← record_as any (CmdSubmit (journal_order_fee 1 2 false 2 (dz "0.002")));
  _ ← record_as any buy;
  _ ← restart;
  _ ← record_as applied_none buy;
  recovered_cache (fun c => has_available 1 "SOL" (dz "0.999") c && has_available 2 "USDT" (dz "99.8") c).

(** [journal_fee_amount_mismatch_blocks_recovery_even_with_valid_checksum]. *)
Definition charge (fee : Decimal) (o : Outcome) : Outcome :=
  match o with
  | Applied (Some (Submitted id (t :: trades) completion)) =>
      Applied (Some (Submitted id ({| to_trade := to_trade t; to_buyer_fee := fee; to_seller_fee :=
        to_seller_fee t |} :: trades)
                       completion))
  | _ => o
  end.
Definition fee_mismatch : st Bed unit :=
  _ ← record_as any (CmdSubmit (journal_order 1 2 false 1));
  _ ← record_as (fun o => match o with
                        | Applied (Some (Submitted _ (t :: _) _)) => dec_eqb (to_buyer_fee t) (dz "0.001")
                        | _ => false
                        end) (CmdSubmit (journal_order_fee 2 1 true 1 (dz "0.001")));
  _ ← recovered;
  _ ← on_store (smodify (rewrite_outcome (charge (dz "0.002"))));
  recovery_fails.

(** [journal_ioc_zero_fill_and_partial_completion_replay_without_second_refund]. *)
Definition completion_is (holds : MarketCompletion → bool) (o : Outcome) : bool :=
  match o with Applied (Some (Submitted _ _ (Some completion))) => holds completion | _ => false end.
Definition ioc_replay : st Bed unit :=
  let empty := CmdSubmit (market_buy 1 1 (whole 200)) in
  let partial := CmdSubmit (market_buy 3 1 (whole 200)) in
  _ ← record_as (completion_is (fun done => dec_eqb (mc_refund_amount done) (whole 200))) empty;
  _ ← record_as any (CmdSubmit (journal_order 2 2 false 1));
  _ ← record_as (completion_is (fun done => String.eqb (mc_status done) "expired")) partial;
  _ ← restart;
  _ ← record_as applied_none empty;
  _ ← record_as applied_none partial;
  recovered_cache (has_balance 1 "USDT" (whole 900) dec_zero).

(** [journal_rejection_preserves_original_and_restart_duplicate_has_no_second_effect]. *)
Definition rejection_replay : st Bed unit :=
  let rejected := journal_order 1 1 true 11 in
  _ ← record_as (fun o => match o with Applied (Some (BatchRejected found _)) => oe_eqb found rejected | _ => false end)
        (CmdSubmit rejected);
  _ ← recovered_cache (has_balance 1 "USDT" (whole 1000) dec_zero);
  _ ← restart;
  _ ← record_as applied_none (CmdSubmit rejected);
  recovered_cache (has_balance 1 "USDT" (whole 1000) dec_zero).

(** [deposit_failed_receipt_replays_as_failure_and_keeps_original_payload]. *)
Definition maximum : Decimal := dz "999999999999999999999".
Definition full : EngineState := set_state_cache (set_balance 3 "BTC" maximum dec_zero (state_cache seeded)) state_new.
Definition failed_receipt : st Bed unit :=
  _ ← record_as failed (credit 21 3 "BTC" maximum);
  _ ← restart;
  _ ← on_state (expect_outcome failed (credit 21 3 "BTC" maximum));
  _ ← on_state (expect_outcome failed (credit 21 3 "BTC" dec_one));
  on_state (assert_cache (has_available 3 "BTC" maximum)).

(** [withdrawal_history_cannot_be_silently_reseeded_as_genesis]. *)
Definition no_reseeding (action : WithdrawalAction) : st Bed unit :=
  _ ← on_state (apply_command (withdrawal_change 11 1 "USDT" (whole 250) Reserve));
  _ ← on_state (apply_command (withdrawal_change 11 1 "USDT" (whole 250) action));
  b ← sget;
  let '(outcome, store) := initialize "engine" (b_state b) store_new in
  started ← lift (expect_ok (initialized store));
  assert (negb (is_ok outcome) && negb started).

Definition journal_tests : list (st Bed unit) :=
  [ replays_everything ] ++ map corrupt [checksum_fault; gap_fault; outcome_fault; cursor_fault] ++
  [ failed_balance_delta; multiple_makers; conflicting_order_id ] ++ map market_replay [true; false] ++
  [ fee_replay; fee_mismatch; ioc_replay; rejection_replay ] ++ map no_reseeding [Reserve; Release; Complete].
End Journaled.

Example journal_tests_pass :
  forallb (fun test => passes test Journaled.bed) Journaled.journal_tests &&
  passes Journaled.failed_receipt (Journaled.bed_with Journaled.full) = true.
Proof. vm_compute. reflexivity. Qed.

(** ** Scenarios through the handle ([tests/])

    A call of the handle is the request served and its reply sent; the platform's balances are the
    state the engine starts with. *)

Module Scenarios.

(** [setup_test_balances]: 10 000 SOL and 10 000 000 USDT for each of a hundred users. *)
Definition users (first : Z) (count : nat) : list Z := seqZ first (Z.of_nat count).
Definition initial_sol : Decimal := whole 10000.
Definition initial_usdt : Decimal := whole 10000000.
Definition funded : EngineState :=
  set_state_cache
    (foldl (fun c user => set_balance user "USDT" initial_usdt dec_zero (set_balance user "SOL" initial_sol dec_zero c))
       cache_new (users 1 100)) state_new.

Definition ask (input : Request) : st EngineState Answer :=
  pending ← serve input;
  mret (finish pending).2.
Definition answer_ok (a : Answer) : bool :=
  match a with AnswerUnit r => is_ok r | AnswerOrder r => is_ok r | AnswerBook r => is_ok r | AnswerBalance r =>
    is_ok r end.
Definition send_submit (order : OrderEntry) : st EngineState Answer := ask (OrderRequest (SubmitOrder order 1)).
Definition send_cancel (order_id user_id : Z) : st EngineState Answer :=
  ask (OrderRequest (CancelOrder order_id user_id pair 1)).
Definition send_update (user : Z) (asset : string) (delta : Decimal) : st EngineState Answer :=
  ask (BalanceRequest (BalUpdateBalance user asset delta 1)).
Definition ask_balance (user : Z) (asset : string) : st EngineState Balance :=
  answer ← ask (OrderRequest (GetBalance user asset 1));
  match answer with AnswerBalance (Ok (a, l)) => mret (mk_balance a l) | _ => lift Panic end.
Definition ask_orderbook (depth : option nat) : st EngineState (list OrderEntry * list OrderEntry) :=
  answer ← ask (OrderRequest (GetOrderbook pair depth 1));
  match answer with AnswerBook (Ok book) => mret book | _ => lift Panic end.
Definition succeeds (call : st EngineState Answer) : st EngineState unit :=
  answer ← call;
  assert (answer_ok answer).
Definition is_refused (call : st EngineState Answer) : st EngineState unit :=
  answer ← call;
  assert (negb (answer_ok answer)).
Definition balance_is (user : Z) (asset : string) (a l : Decimal) : st EngineState unit :=
  balance ← ask_balance user asset;
  assert (balance_eqb balance (mk_balance a l)).

Definition limit_order (id user : Z) (buy : bool) (price amount : Z) : OrderEntry :=
  entry (mk_spec id user (if buy then "buy" else "sell") false (whole price) (whole amount) dec_zero dec_zero).
Definition market_order (id user : Z) (buy : bool) (quantity : Z) : OrderEntry :=
  entry (mk_spec id user (if buy then "buy" else "sell") true dec_zero (whole quantity) (whole quantity) dec_zero).

(** [setup_orderbook]: bids of 100 SOL at 90 to 100 by the users 11 to 60, asks at 101 to 110 by 61 to 100. *)
Definition setup_orderbook : st EngineState unit :=
  _ ← for_each (users 11 50) (fun user =>
        succeeds (send_submit (limit_order (user * 1000) user true (90 + (user - 11) mod 11) 100)));
  for_each (users 61 40) (fun user =>
    succeeds (send_submit (limit_order (user * 1000) user false (101 + (user - 61) mod 10) 100))).

Definition ready : EngineState := (setup_orderbook funded).2.

(** [tests/limit_orders.rs]. *)
Definition limit_orders : list (st EngineState unit) :=
  map (fun order => succeeds (send_submit order))
    [ limit_order 10001 1 true 105 1; limit_order 10002 1 true 105 5; limit_order 10003 1 true 95 1;
      limit_order 10004 1 false 95 1; limit_order 10005 1 false 95 5; limit_order 10006 1 false 115 1 ].

(** [tests/market_orders.rs]: the two that assert. *)
Definition market_buy_full_fill : st EngineState unit := succeeds (send_submit (market_order 20001 1 true 200)).
Definition market_sell_full_fill : st EngineState unit := succeeds (send_submit (market_order 20004 1 false 1)).

(** [tests/cancellation.rs]. *)
Definition cancel_unfilled : st EngineState unit :=
  _ ← succeeds (send_submit (limit_order 30001 1 true 95 1));
  _ ← succeeds (send_cancel 30001 1);
  balance_is 1 "USDT" initial_usdt dec_zero.
Definition cancel_partially_filled : st EngineState unit :=
  _ ← succeeds (send_submit (limit_order 30002 1 true 105 150));
  book ← ask_orderbook None;
  if existsb (fun o => (oe_id o =? 30002) && opt_dec_eqb (oe_price o) (Some (whole 105))) book.1
  then succeeds (send_cancel 30002 1) else mret tt.
Definition consistency_after_cancel : st EngineState unit :=
  _ ← succeeds (send_submit (limit_order 30004 1 true 95 1));
  _ ← ask_orderbook None;
  _ ← succeeds (send_cancel 30004 1);
  _ ← ask_orderbook None;
  mret tt.

(** [tests/self_trade.rs]; the incoming order leaves the user's own alone. *)
Definition self_trade_limit : st EngineState unit :=
  _ ← succeeds (send_submit (limit_order 40001 1 false 105 1));
  _ ← succeeds (send_submit (limit_order 40002 1 true 105 1));
  book ← ask_orderbook None;
  assert (existsb (fun o => oe_id o =? 40001) book.2).
Definition self_trade_market : st EngineState unit :=
  _ ← succeeds (send_submit (limit_order 40003 1 false 105 1));
  _ ← send_submit (market_order 40004 1 true 110);
  mret tt.

(** [tests/balance_management.rs]. *)
Definition all_users_loaded : st EngineState unit :=
  _ ← for_each (users 1 10) (fun user =>
        _ ← balance_is user "SOL" initial_sol dec_zero;
        balance_is user "USDT" initial_usdt dec_zero);
  for_each (users 11 90) (fun user =>
    for_each [("SOL"%string, initial_sol); ("USDT"%string, initial_usdt)] (fun row =>
      balance ← ask_balance user row.1;
      sum ← lift (total balance);
      assert (dec_eqb sum row.2))).
Definition update_deposit : st EngineState unit :=
  _ ← succeeds (send_update 1 "USDT" (whole 100));
  balance_is 1 "USDT" (whole 10000100) dec_zero.
Definition update_withdrawal : st EngineState unit :=
  _ ← succeeds (send_update 1 "USDT" (whole (-50)));
  balance_is 1 "USDT" (whole 9999950) dec_zero.
Definition update_then_order : st EngineState unit :=
  _ ← succeeds (send_update 1 "USDT" (whole 1000));
  _ ← balance_is 1 "USDT" (whole 10001000) dec_zero;
  succeeds (send_submit (limit_order 999999 1 true 100 1)).

(** [tests/complex_scenarios.rs], [tests/concurrency.rs]. *)
Definition one_market_order : st EngineState unit := succeeds (send_submit (market_order 60001 1 true 600)).
Definition exhaustion : st EngineState unit :=
  _ ← send_submit (market_order 60002 1 true 100000);
  _ ← ask_orderbook None;
  mret tt.
Definition mixed_sequence : st EngineState unit :=
  _ ← for_each [limit_order 60003 1 true 95 1; limit_order 60004 1 false 115 1] (fun order => succeeds (send_submit
    order));
  _ ← succeeds (send_cancel 60003 1);
  _ ← ask_orderbook None;
  mret tt.
Definition cancel_during_partial_fill : st EngineState unit :=
  _ ← succeeds (send_submit (limit_order 80002 1 true 95 1));
  book ← ask_orderbook None;
  _ ← assert (existsb (fun o => oe_id o =? 80002) book.1);
  succeeds (send_cancel 80002 1).
Definition deadlock_prevention : st EngineState unit :=
  _ ← for_each [limit_order 80003 1 true 95 1; limit_order 80004 1 true 96 1] (fun order => succeeds (send_submit
    order));
  _ ← ask_orderbook None;
  mret tt.

(** [tests/orderbook_api.rs]: best prices, spread and order of the two lists. *)
Definition best (orders : list OrderEntry) : option Decimal := first ← head orders; oe_price first.
Fixpoint sorted_prices (le : Decimal → Decimal → bool) (orders : list OrderEntry) (previous : option Decimal) : bool :=
  match orders with
  | [] => true
  | order :: orders =>
      match oe_price order with
      | Some price => match previous with Some p => le p price | None => true end && sorted_prices le orders (Some
        price)
      | None => sorted_prices le orders previous
      end
  end.
Definition best_bid_ask : st EngineState unit :=
  book ← ask_orderbook (Some 1%nat);
  match best book.1, best book.2 with
  | Some bid, Some ask =>
      _ ← assert (dec_leb (whole 90) bid && dec_leb bid (whole 100) && dec_leb (whole 101) ask && dec_leb ask (whole
        110));
      spread ← lift (expect (dec_sub ask bid));
      assert (dec_leb dec_one spread)
  | _, _ => mret tt
  end.
Definition orderbook_sorting : st EngineState unit :=
  book ← ask_orderbook None;
  _ ← assert (negb (bool_decide (book.1 = []) && bool_decide (book.2 = [])));
  assert (sorted_prices (fun p q => dec_leb q p) book.1 None && sorted_prices dec_leb book.2 None).

(** [tests/validation.rs]. *)
Definition cancel_nonexistent : st EngineState unit := is_refused (send_cancel 99999 1).

Definition scenario_tests : list (st EngineState unit) :=
  limit_orders ++
  [ market_buy_full_fill; market_sell_full_fill; cancel_unfilled; cancel_partially_filled;
    consistency_after_cancel; self_trade_limit; self_trade_market;
    all_users_loaded; update_deposit; update_withdrawal; update_then_order; one_market_order; exhaustion;
    mixed_sequence; cancel_during_partial_fill; deadlock_prevention; best_bid_ask; orderbook_sorting;
    cancel_nonexistent ].
End Scenarios.

Example scenario_tests_pass :
  is_ok (Scenarios.setup_orderbook Scenarios.funded).1 && forallb (fun test => passes test Scenarios.ready)
    Scenarios.scenario_tests = true.
Proof. vm_compute. reflexivity. Qed.

(** ** Where the scenarios say otherwise *)

Section divergences.
Context {E : Externals} {L : DecimalLaws ext_decimal}.

(** An order with a new id is always confirmed: that it was refused is in the record and in the event,
    not in the reply. *)
Lemma new_order_confirmed order s sender :
  state_wf s → submissions s !! oe_id order = None →
  ∃ output s', journal_apply (CmdSubmit order) s = (Ok (Applied output), s') ∧
    finish {| p_command := Some (CmdSubmit order); p_outcome := Applied output; p_reply := ReplySubmit sender |} =
      (sender, AnswerUnit (Ok tt)).
Proof.
  intros Hwf Hnew. destruct (journal_step_ok (CmdSubmit order) s Hwf) as (outcome & s' & Hrun & _).
  destruct (journal_cases _ _ _ _ Hrun) as [[_ [=]] | (r & Hex & Hp & ->)].
  cbn [execute] in Hex. unfold execute_submit, mbind, st_bind, sget, smodify, attempt, lift in Hex. rewrite Hnew in Hex.
  destruct (with_core _ _) as [[app|e|] s1]; [| injection Hex as <- <-; eauto | by injection Hex as <-].
  destruct (submitted app) as [batch|e|] eqn:Hs; [injection Hex as <- <-; eauto | | by injection Hex as <-].
  unfold submitted, mbind, result_bind in Hs. destruct (map_results _ _) eqn:Hm; try done.
  by apply trade_outputs_infallible in Hm.
Qed.
End divergences.

(** [tests/cancellation.rs:165] and [tests/validation.rs:43] assert an error where the engine confirms;
    [journal_tests.rs] and [recancellation_changes_nothing] have it the other way for the first. *)
Example second_cancellation_succeeds :
  passes (_ ← Scenarios.succeeds (Scenarios.send_submit (Scenarios.limit_order 30003 1 true 95 1));
          _ ← Scenarios.succeeds (Scenarios.send_cancel 30003 1);
          _ ← Scenarios.succeeds (Scenarios.send_cancel 30003 1);
          Scenarios.balance_is 1 "USDT" Scenarios.initial_usdt dec_zero) Scenarios.ready = true.
Proof. vm_compute. reflexivity. Qed.

Example order_without_money_is_confirmed :
  passes (_ ← Scenarios.succeeds (Scenarios.send_submit (Scenarios.limit_order 70001 1 true 100 1000000));
          Scenarios.balance_is 1 "USDT" Scenarios.initial_usdt dec_zero) Scenarios.ready = true.
Proof. vm_compute. reflexivity. Qed.

(** A market order that finds nothing, or not enough, is confirmed and gives back the rest
    ([tests/market_orders.rs:80], [:114], [:180], [:213], [tests/complex_scenarios.rs:80]). *)
Example market_order_is_confirmed :
  passes (_ ← Scenarios.succeeds (Scenarios.send_submit (Scenarios.market_order 20003 1 true 100));
          Scenarios.balance_is 1 "USDT" Scenarios.initial_usdt dec_zero) Scenarios.funded &&
  passes (_ ← Scenarios.succeeds (Scenarios.send_submit (Scenarios.market_order 60002 1 true 1000000));
          book ← Scenarios.ask_orderbook None;
          _ ← assert (bool_decide (length book.2 = 0%nat));
          balance ← Scenarios.ask_balance 1 "USDT";
          assert (dec_eqb (locked balance) dec_zero)) Scenarios.ready = true.
Proof. vm_compute. reflexivity. Qed.

(** A purchase takes the cheapest offer first, not the dearest ([tests/complex_scenarios.rs:16]); a bid of
    105 trades with an ask of 101 ([tests/cancellation.rs:66-68] and [:77]). *)
Definition offers_of_three : st EngineState unit :=
  for_each [(1, 100, 2); (2, 101, 3); (3, 102, 1)] (fun offer =>
    let '(id, price, amount) := offer in
    Scenarios.succeeds (Scenarios.send_submit (Scenarios.limit_order id 50 false price amount))).
Example cheapest_offer_first :
  match (_ ← offers_of_three; Commands.submit_command (Scenarios.market_order 60001 1 true 605)) Scenarios.funded with
  | (Ok (Applied (Some (Submitted _ trades _))), _) => map (fun t => mr_sell_order_id (to_trade t)) trades
  | _ => []
  end = [1; 2; 3].
Proof. vm_compute. reflexivity. Qed.
Example crossing_bid_trades :
  passes (_ ← Scenarios.succeeds (Scenarios.send_submit (Scenarios.limit_order 30002 1 true 105 150));
          book ← Scenarios.ask_orderbook None;
          _ ← assert (negb (existsb (fun o => oe_id o =? 30002) book.1));
          balance ← Scenarios.ask_balance 1 "SOL";
          assert (dec_eqb (available balance) (whole 10150))) Scenarios.ready = true.
Proof. vm_compute. reflexivity. Qed.
