(* ===== verification/ConformanceWorkers.v ===== *)
(** * The tests at the edges of the core, run on the model

    The tests that stand beside the command handle ([runtime/handle.rs]), the order service
    ([services/order_service.rs]), the market data ([runtime/market.rs]), the audit reader
    ([runtime/audit.rs]), the service keys ([shared/service_identity.rs]) and the checksums of the
    journal ([runtime/journal/store.rs]), translated and evaluated like those of [Conformance]. Hashes
    are computed with the real SHA-256. *)

From stdpp Require Import base tactics gmap list strings.
From Stdlib Require Import ZArith Lia Ascii.
From S2P Require Import Prelude Text Decimals Amount BTree RefDecimal Types BalanceCache OrderBook Matcher Submission State Deposit Withdrawal Cancel Journal History Resting Events EngineLoop Store Market Output Identity Sha256 AuditPages Orders Handle TestKit.

#[local] Existing Instance ref_externals.
#[local] Existing Instance sha256_hash.

Definition edge_order (id user : Z) (buy : bool) (base : string) (price quantity : Decimal) : OrderEntry :=
  {| oe_fee_rate := dec_zero; oe_id := id; oe_user_id := user; oe_order_type := if buy then "buy" else "sell";
     oe_order_side := "limit"; oe_base_mint := base; oe_quote_mint := "USDT"; oe_price := Some price;
     oe_amount := quantity; oe_quote_amount := None; oe_filled_amount := dec_zero; oe_remaining_amount := quantity;
     oe_remaining_quote_amount := None; oe_created_at := (0 : Z) |}.
Definition btc_usdt : TradingPair := pair_new "BTC" "USDT".

(** ** The command handle

    The queues of these tests hold one or two requests; a full queue here is one that holds as many as
    the queues of the program. A reply is what the caller waits for; that the receiving ends of the
    queues are gone without the core being closed does not occur: the control object keeps them. *)

Module HandleTests.

Definition handle (orders : list OrderCommand) (balances : list BalanceCommand) : Worker :=
  mk_worker state_new orders balances None true false true AtTop [] [].
Definition closed_handle : Worker := leave AtTop (handle [] []).
Definition sol : TradingPair := pair_new "SOL" "USDT".

(** Two balance queries are in the queue before the first is answered; the answers come in reverse. *)
Definition queries_enter_queue : st Worker unit :=
  _ ← attempt (handle_get_balance 1 "SOL" 1 TimedOut);
  _ ← attempt (handle_get_balance 2 "SOL" 2 TimedOut);
  w ← sget;
  _ ← assert (bool_decide (length (w_orders w) = 2%nat));
  let answer (command : OrderCommand) : Waited (Decimal * Decimal) :=
    match command with GetBalance user _ _ => Received (Ok (whole user, dec_zero)) | _ => TimedOut end in
  let waits := map answer (w_orders w) in
  _ ← sput (handle [] []);
  a ← unwrap (handle_get_balance 1 "SOL" 1 (nth 0 waits TimedOut));
  b ← unwrap (handle_get_balance 2 "SOL" 2 (nth 1 waits TimedOut));
  assert (dec_eqb a.1 dec_one && dec_eqb b.1 (whole 2)).

Definition old_query : OrderCommand := GetBalance 1 "SOL" 0.
Definition old_update : BalanceCommand := BalUpdateBalance 9 "BTC" dec_one 0.
Definition full_queues : Worker :=
  handle (replicate (Z.to_nat QUEUE_CAPACITY) old_query) (replicate (Z.to_nat QUEUE_CAPACITY) old_update).

(** Every call fails at once, whatever the reply would be. *)
Definition all_inputs_reject_full_queues : st Worker unit :=
  let anything := Received (Ok tt) in
  _ ← assert_err (submit_order (edge_order 1 1 true "SOL" dec_one dec_one) 1 anything);
  _ ← assert_err (handle_get_balance 1 "SOL" 1 (Received (Ok (dec_one, dec_zero))));
  _ ← assert_err (get_orderbook sol (Some 1%nat) 1 (Received (Ok ([], []))));
  _ ← assert_err (handle_cancel_order 1 1 sol 1 (Received (Ok (edge_order 1 1 true "SOL" dec_one dec_one))));
  _ ← assert_err (handle_lock_balance 1 "SOL" dec_one 1 anything);
  _ ← assert_err (handle_unlock_balance 1 "SOL" dec_one 1 anything);
  assert_err (update_balance 1 "SOL" dec_one 1 anything).

Definition rejects_closed_channels : st Worker unit :=
  _ ← sput closed_handle;
  refused ← attempt (handle_get_balance 1 "SOL" 1 (Received (Ok (dec_one, dec_zero))));
  _ ← assert (match refused with
              | Err reason => String.eqb reason "Failed to send get_balance command: Engine command channel is closed"
              | _ => false
              end);
  assert_err (update_balance 1 "SOL" dec_one 1 (Received (Ok tt))).

Definition a_deposit : DepositCredit := {| dc_deposit_id := (7 : Z); dc_user_id := 3; dc_asset := "BTC"; dc_amount := dec_one |}.
Definition not_accepted (outcome : option CommandError) : bool :=
  match outcome with Some NotAccepted => true | _ => false end.
Definition call_deposit (waited : Waited unit) : st Worker (option CommandError) := fun w =>
  let '(outcome, w') := handle_credit_deposit a_deposit 1 waited w in (Ok outcome, w').

Definition deposit_full_queue : st Worker unit :=
  before ← sget;
  outcome ← call_deposit (Received (Ok tt));
  _ ← assert (not_accepted outcome);
  after ← sget;
  assert ((length (w_balances after) =? length (w_balances before))%nat &&
          match w_balances after with BalUpdateBalance user _ _ _ :: _ => user =? 9 | _ => false end).

Definition deposit_closed_input : st Worker unit :=
  _ ← sput closed_handle;
  outcome ← call_deposit (Received (Ok tt));
  _ ← assert (not_accepted outcome);
  after ← sget;
  assert (bool_decide (length (w_balances after) = 0%nat)).

(** The request was taken and its reply channel lost. *)
Definition deposit_lost_response : st Worker unit :=
  outcome ← call_deposit SenderDropped;
  after ← sget;
  _ ← assert (bool_decide (length (w_balances after) = 1%nat));
  assert (match outcome with Some OutcomeUnknown => true | _ => false end).

Definition handle_tests : list (Worker * st Worker unit) :=
  [ (handle [] [], queries_enter_queue); (full_queues, all_inputs_reject_full_queues); (handle [] [], rejects_closed_channels);
    (full_queues, deposit_full_queue); (handle [] [], deposit_closed_input); (handle [] [], deposit_lost_response) ].
End HandleTests.

Example handle_tests_pass : forallb (fun test => passes test.2 test.1) HandleTests.handle_tests = true.
Proof. vm_compute. reflexivity. Qed.

(** ** Cancelling through the order service ([services/order_service.rs])

    The core loop runs for real: a call puts its request into the queue, the worker takes steps until it
    has answered, and the caller gets that answer. There is no database anywhere. *)

Module ServiceTests.
Import HandleTests.

(** What the reply channel gives when the worker has answered. *)
Definition no_reply : Waits := {| on_unit := TimedOut; on_order := TimedOut; on_book := TimedOut; on_balance := TimedOut |}.
Definition waits_of (answer : Answer) : Waits :=
  match answer with
  | AnswerUnit r => wait_unit (Received r)
  | AnswerOrder r => wait_order (Received r)
  | AnswerBook r => {| on_unit := TimedOut; on_order := TimedOut; on_book := Received r; on_balance := TimedOut |}
  | AnswerBalance r => {| on_unit := TimedOut; on_order := TimedOut; on_book := TimedOut; on_balance := Received r |}
  end.
(** The worker takes at most four steps for one request: it looks at both queues and receives it. *)
Definition worked (w : Worker) : Worker := Nat.iter 4 (worker_next 1) w.
Definition exchange {A} (call : Waits → st Worker A) : st Worker A := fun w =>
  let after := worked (call no_reply w).2 in
  let waits := match last (w_published after) with Some p => waits_of (finish p).2 | None => no_reply end in
  ((call waits w).1, after).

(** The handle with a running core behind it. *)
Definition served_engine : Engine Worker := {|
  engine_submit_order order := exchange (fun waits => @engine_submit_order _ _ (handle_engine 1 waits) order);
  engine_cancel_order id user market := exchange (fun waits => @engine_cancel_order _ _ (handle_engine 1 waits) id user market);
  engine_get_orderbook market depth := exchange (fun waits => @engine_get_orderbook _ _ (handle_engine 1 waits) market depth);
  engine_get_best_bid market := exchange (fun waits => @engine_get_best_bid _ _ (handle_engine 1 waits) market);
  engine_get_best_ask market := exchange (fun waits => @engine_get_best_ask _ _ (handle_engine 1 waits) market);
  engine_lock_balance user mint amount := exchange (fun waits => @engine_lock_balance _ _ (handle_engine 1 waits) user mint amount);
  engine_unlock_balance user mint amount := exchange (fun waits => @engine_unlock_balance _ _ (handle_engine 1 waits) user mint amount);
  engine_get_balance user mint := exchange (fun waits => @engine_get_balance _ _ (handle_engine 1 waits) user mint);
  engine_update_balance user mint delta := exchange (fun waits => @engine_update_balance _ _ (handle_engine 1 waits) user mint delta);
|}.
#[local] Existing Instance served_engine.

Definition started_bench : Worker :=
  worker_start (set_state_cache (set_balance 1 "BTC" dec_one dec_zero cache_new) state_new) false.
Definition eth_usdt : TradingPair := pair_new "ETH" "USDT".
Definition service_cancel (user order : Z) (market : TradingPair) : st Worker Order := service_cancel_order (0 : Z) user order market.
Definition cancelled_once : st Worker unit :=
  order ← unwrap (service_cancel 1 1 btc_usdt);
  assert (String.eqb (o_status order) "cancelled").

Definition cancellation_uses_owned_core : st Worker unit :=
  _ ← unwrap (engine_submit_order (edge_order 1 1 false "BTC" (whole 60000) dec_one));
  _ ← assert_err (service_cancel 2 1 btc_usdt);
  _ ← assert_err (service_cancel 1 1 eth_usdt);
  book ← unwrap (engine_get_orderbook btc_usdt None);
  _ ← assert (bool_decide (length book.2 = 1%nat));
  _ ← cancelled_once;
  _ ← cancelled_once;
  book ← unwrap (engine_get_orderbook btc_usdt None);
  _ ← assert (bool_decide (length book.2 = 0%nat));
  balance ← unwrap (engine_get_balance 1 "BTC");
  _ ← assert (dec_eqb balance.1 dec_one && dec_eqb balance.2 dec_zero);
  w ← sget;
  (* every request was taken and answered, and the worker still runs *)
  assert (bool_decide (length (w_published w) = 8%nat) && (length (w_orders w) =? 0)%nat && negb (w_closed w)).
End ServiceTests.

Example service_test_passes : passes ServiceTests.cancellation_uses_owned_core ServiceTests.started_bench = true.
Proof. vm_compute. reflexivity. Qed.

(** ** Public market data ([runtime/market.rs])

    The core executes the commands, the projection reads their records. *)

Module MarketTests.

Record Desk := mk_desk { dk_core : EngineState; dk_projection : Projection }.
Definition on_core {A} (m : st EngineState A) : st Desk A := zoom dk_core (fun s d => mk_desk s (dk_projection d)) m.
Definition on_projection {A} (m : st Projection A) : st Desk A := zoom dk_projection (fun p d => mk_desk (dk_core d) p) m.

Definition market_engine : string := "engine".
Definition market_entry (id user : Z) (buy : bool) (quantity : Z) : OrderEntry :=
  edge_order id user buy "BTC" (whole 100) (whole quantity).
Definition market_seeded : EngineState :=
  set_state_cache (set_balance 3 "BTC" (whole 100) dec_zero (set_balance 2 "BTC" (whole 100) dec_zero
    (set_balance 1 "USDT" (whole 10000) dec_zero cache_new))) state_new.
Definition market_desk : Desk := mk_desk market_seeded projection_new.
Definition put_funds (user : Z) (asset : string) (a : Decimal) : st Desk unit :=
  on_core (with_cache (smodify (set_balance user asset a dec_zero))).

(** [record(&mut core, sequence, command)]. *)
Definition market_record (sequence : Z) (command : Command) : st Desk Record_ :=
  outcome ← unwrap (on_core (journal_apply command));
  mret (mk_record sequence (0 : Z) command outcome).
Definition projected (record : Record_) : st Desk (option MarketSnapshot) := unwrap (on_projection (project record market_engine)).
Definition step (sequence : Z) (command : Command) : st Desk (option MarketSnapshot) :=
  record ← market_record sequence command;
  projected record.
(** [.unwrap()] of an event. *)
Definition shown (event : st Desk (option MarketSnapshot)) : st Desk MarketSnapshot :=
  event ← event;
  lift (expect event).

Definition level_is (side : list (string * string)) (index : nat) (price quantity : string) : bool :=
  match side !! index with Some level => String.eqb level.1 price && String.eqb level.2 quantity | None => false end.
Definition quantity_is (side : list (string * string)) (index : nat) (quantity : string) : bool :=
  match side !! index with Some level => String.eqb level.2 quantity | None => false end.
Definition price_is (side : list (string * string)) (index : nat) (price : string) : bool :=
  match side !! index with Some level => String.eqb level.1 price | None => false end.
Definition latest_of (market : TradingPair) : st Desk MarketSnapshot :=
  d ← sget;
  lift (expect (pj_latest (dk_projection d) !! market)).

Definition projection_tracks_fill_cancel_replay : st Desk unit :=
  r1 ← market_record 1 (CmdSubmit (market_entry 1 2 false 3));
  r2 ← market_record 2 (CmdSubmit (market_entry 2 1 true 1));
  r3 ← market_record 3 (CmdCancel 1 2 btc_usdt);
  first ← shown (projected r1);
  _ ← assert (bool_decide (ms_asks first = [("100"%string, "3"%string)]));
  second ← shown (projected r2);
  _ ← assert (quantity_is (ms_asks second) 0 "2" && String.eqb (ms_previous_sequence second) "1");
  _ ← assert (match ms_trades second with
              | t :: _ => String.eqb (mt_side t) "buy" && String.eqb (mt_id t) (market_engine +:+ ":2:0")
              | [] => false
              end);
  final ← shown (projected r3);
  _ ← assert (bool_decide (ms_asks final = []) && bool_decide (ms_bids final = []));
  (* a projection that reads the records anew *)
  let again := (project_all [r1; r2; r3] market_engine projection_new).2 in
  last ← lift (expect (pj_latest again !! btc_usdt));
  assert (String.eqb (ms_event_id last) (ms_event_id final) &&
    String.eqb (ms_sequence last) (ms_sequence final) && String.eqb (ms_previous_sequence last) (ms_previous_sequence final) &&
    bool_decide (ms_asks last = ms_asks final) && bool_decide (ms_bids last = ms_bids final) &&
    bool_decide (length (ms_trades last) = length (ms_trades final))).

Definition projection_skips_duplicates : st Desk unit :=
  let original := market_entry 1 2 false 3 in
  first ← step 1 (CmdSubmit original);
  _ ← assert (match first with Some _ => true | None => false end);
  second ← step 2 (CmdSubmit original);
  _ ← assert (match second with Some _ => false | None => true end);
  third ← step 3 (CmdSubmit (market_entry 3 99 true 1));
  _ ← assert (match third with Some _ => false | None => true end);
  _ ← put_funds 3 "ETH" (whole 10);
  event ← shown (step 4 (CmdSubmit (edge_order 4 3 false "ETH" (whole 100) (whole 2))));
  _ ← assert (String.eqb (ms_previous_sequence event) "0");
  d ← sget;
  _ ← assert (bool_decide (length (map_to_list (pj_latest (dk_projection d))) = 2%nat));
  btc ← latest_of btc_usdt;
  assert (quantity_is (ms_asks btc) 0 "3").

Definition market_budget_order (id user budget : Z) : OrderEntry :=
  {| oe_fee_rate := dec_zero; oe_id := id; oe_user_id := user; oe_order_type := "buy"; oe_order_side := "market";
     oe_base_mint := "BTC"; oe_quote_mint := "USDT"; oe_price := None; oe_amount := dec_zero;
     oe_quote_amount := Some (whole budget); oe_filled_amount := dec_zero; oe_remaining_amount := dec_zero;
     oe_remaining_quote_amount := Some (whole budget); oe_created_at := (0 : Z) |}.

Definition market_buy_never_rests : st Desk unit :=
  _ ← step 1 (CmdSubmit (market_entry 1 2 false 1));
  event ← shown (step 2 (CmdSubmit (market_budget_order 2 1 150)));
  d ← sget;
  assert (bool_decide (length (ms_trades event) = 1%nat) && bool_decide (ms_bids event = []) &&
          bool_decide (ms_asks event = []) && bool_decide (map_to_list (pj_orders (dk_projection d)) = [])).

(** Twenty-five asks, of which twenty are shown; the twenty-first comes up when the best one goes. *)
Definition depth_is_bounded : st Desk unit :=
  _ ← for_each (seqZ 1 25) (fun n =>
        _ ← step n (CmdSubmit (edge_order n 2 false "BTC" (whole (100 + n)) dec_one)); mret tt);
  shown_now ← latest_of btc_usdt;
  _ ← assert (bool_decide (length (ms_asks shown_now) = 20%nat) && price_is (ms_asks shown_now) 0 "101");
  event ← shown (step 26 (CmdCancel 1 2 btc_usdt));
  assert (price_is (ms_asks event) 0 "102" && price_is (ms_asks event) 19 "121").

Definition aggregates_beyond_one_account : st Desk unit :=
  let large := dz "900000000000000000000" in
  _ ← for_each [2; 3] (fun user =>
        _ ← put_funds user "BTC" large;
        _ ← step user (CmdSubmit (edge_order user user false "BTC" dec_one large)); mret tt);
  both ← latest_of btc_usdt;
  _ ← assert (quantity_is (ms_asks both) 0 "1800000000000000000000");
  event ← shown (step 4 (CmdCancel 2 2 btc_usdt));
  assert (quantity_is (ms_asks event) 0 "900000000000000000000").

Definition market_tests : list (st Desk unit) :=
  [ projection_tracks_fill_cancel_replay; projection_skips_duplicates; market_buy_never_rests; depth_is_bounded;
    aggregates_beyond_one_account ].
End MarketTests.

Example market_tests_pass : forallb (fun test => passes test MarketTests.market_desk) MarketTests.market_tests = true.
Proof. vm_compute. reflexivity. Qed.

(** ** The audit reader ([runtime/audit.rs])

    The text of an event shows its type and its identifier, and the checksum of a record is the
    SHA-256 of its sequence and the kind of its outcome. What another connection has not committed is
    not in the tables that a reader sees. *)

Module AuditTests.

Definition audit_format : JournalFormat ref_externals := {|
  Payload := Genesis + Record_;
  genesis_json := inl;
  genesis_parse p := match p with inl g => Some g | inr _ => None end;
  record_json := inr;
  record_parse p := match p with inr r => Some r | inl _ => None end;
  Json := string;
  outcome_value := outcome_kind;
  Digest := list Z;
  digest p := sha256_bytes (match p with
                            | inl g => gn_engine_id g
                            | inr r => show_int (r_sequence r) +:+ outcome_kind (r_outcome r)
                            end);
  uuid_parses := String.eqb "engine";
|}.
#[local] Existing Instance audit_format.

Definition event_type_of (event : FinancialEvent) : string :=
  match event with
  | EvTrade e => te_event_type e
  | EvCancelled e => ce_event_type e
  | EvCompleted e => me_event_type e
  | EvRejected e => re_event_type e
  | EvWithdrawal e => we_event_type e
  | EvDeposit e => pe_event_type e
  end.
Definition audit_events : EventFormat ref_externals := {| event_json event := inr (event_type_of event +:+ " " +:+ id_of event) |}.
#[local] Existing Instance audit_events.

Definition query (after : Z) (through : option Z) (engine_id : option string) : PageQuery :=
  {| pq_after := after; pq_through := through; pq_engine_id := engine_id; pq_limit := Some 1 |}.

(** The open store, the state of the core, the last sequence. *)
Record AuditBed := mk_audit_bed { ab_store : Store; ab_core : EngineState; ab_sequence : Z }.
Definition audit_bed : AuditBed := mk_audit_bed (initialize "engine" state_new store_new).2 state_new 0.
Definition the_file (b : AuditBed) : option (Z * Store) := Some (4, ab_store b).

(** [append]: a bid of one that nobody can pay. *)
Definition append_order (id : Z) : st AuditBed unit :=
  let command := CmdSubmit (edge_order id 1 true "BTC" (whole 100) dec_one) in
  outcome ← zoom ab_core (fun s b => mk_audit_bed (ab_store b) s (ab_sequence b)) (unwrap (journal_apply command));
  b ← sget;
  next ← zoom ab_store (fun s b => mk_audit_bed s (ab_core b) (ab_sequence b))
           (unwrap (append (fun _ => (0 : Z)) Committed
             [{| p_command := Some command; p_outcome := outcome; p_reply := ReplySubmit 0 |}] (ab_sequence b)));
  smodify (fun b => mk_audit_bed (ab_store b) (ab_core b) next).
Definition read_page (q : PageQuery) : st AuditBed AuditPage :=
  b ← sget;
  lift (expect_ok (audit_read (the_file b) q)).
Definition read_fails (q : PageQuery) : st AuditBed unit :=
  b ← sget;
  assert (negb (is_ok (audit_read (the_file b) q))).

Definition audit_reads_fixed_cut : st AuditBed unit :=
  _ ← append_order 1;
  first ← read_page (query 0 None None);
  _ ← assert (ap_through first =? 1);
  _ ← assert (bool_decide (ap_events first = [("order_rejected " +:+ ap_engine_id first +:+ ":1:0")%string]));
  _ ← append_order 2;
  again ← read_page (query 0 (Some 1) (Some (ap_engine_id first)));
  _ ← assert (ap_through again =? 1);
  second ← read_page (query 1 (Some 2) (Some (ap_engine_id first)));
  assert ((ap_next_after second =? 2) && bool_decide (length (ap_events second) = 1%nat)).

(** A checksum of a record is overwritten. *)
Definition spoil_records (b : AuditBed) : AuditBed :=
  mk_audit_bed (mk_store (s_genesis (ab_store b)) (map (fun r : Z * row => (r.1, (r.2.1, [0]))) (s_records (ab_store b)))
    (s_delivery (ab_store b))) (ab_core b) (ab_sequence b).
Definition audit_rejects_corruption : st AuditBed unit :=
  _ ← assert (negb (is_ok (audit_read None (query 0 None None))));
  _ ← append_order 1;
  _ ← read_fails (query 0 None (Some "another engine"%string));
  _ ← smodify spoil_records;
  _ ← read_fails (query 0 None None);
  b ← sget;
  last ← lift (expect_ok (last_sequence (ab_store b)));
  assert (last =? 1).

Fixpoint repeated (n : nat) (c : ascii) : string :=
  match n with O => EmptyString | S n => String c (repeated n c) end.
Definition audit_key : string := repeated 32 "a".
Definition status_is (status : Z) (answer : Z + AuditPage) : bool :=
  match answer with inl code => code =? status | inr _ => false end.
Definition http_query (after limit : option Z) : PageQuery :=
  {| pq_after := default 0 after; pq_through := None; pq_engine_id := None; pq_limit := limit |}.

(** The directory of this test has no journal. *)
Definition audit_http_fails_closed : st AuditBed unit :=
  reader ← lift (expect_ok (audit_new (Some audit_key)));
  _ ← assert (status_is 401 (page reader true None None (http_query None None)));
  _ ← assert (status_is 400 (page reader true None (Some audit_key) (http_query None (Some 0))));
  _ ← assert (status_is 400 (page reader true None (Some audit_key) (http_query (Some 1) None)));
  assert (status_is 429 (page reader false None (Some audit_key) (http_query None None))).

Definition audit_tests : list (st AuditBed unit) := [audit_reads_fixed_cut; audit_rejects_corruption; audit_http_fails_closed].
End AuditTests.

Example audit_tests_pass : forallb (fun test => passes test AuditTests.audit_bed) AuditTests.audit_tests = true.
Proof. vm_compute. reflexivity. Qed.

(** ** Service keys ([shared/service_identity.rs]) *)

Module KeyTests.
Import AuditTests.

Definition matches_key (key provided : string) : st unit bool :=
  token ← lift (expect_ok (token_parse key));
  mret (token_matches provided token).
Definition key_limits : st unit unit :=
  _ ← for_each [0; 31; 1025]%nat (fun size => assert (negb (is_ok (token_parse (repeated size "x")))));
  for_each [32; 1024]%nat (fun size =>
    same ← matches_key (repeated size "x") (repeated size "x");
    assert same).
Definition drop_last (s : string) : string := String.substring 0 (String.length s - 1) s.
Definition key_rejects_variants : st unit unit :=
  let original : string := "isolated-platform-service-token-32-bytes" in
  same ← matches_key original original;
  _ ← assert same;
  for_each [original +:+ "x"; String.substring 0 32 original; "x" +:+ String.substring 1 (String.length original) original;
            drop_last original +:+ "x"; repeated 1025 "x"]%string (fun candidate =>
    same ← matches_key original candidate;
    assert (negb same)).
Definition keys_are_independent : st unit unit :=
  let commands : string := "isolated-platform-command-token-32-bytes" in
  let audit : string := "isolated-independent-audit-token-32-bytes" in
  a ← matches_key commands audit;
  b ← matches_key audit commands;
  assert (negb a && negb b).
Definition key_tests : list (st unit unit) := [key_limits; key_rejects_variants; keys_are_independent].
End KeyTests.

Example key_tests_pass : forallb (fun test => passes test tt) KeyTests.key_tests = true.
Proof. vm_compute. reflexivity. Qed.

(** ** The checksum of the journal ([runtime/journal/store.rs]) *)

Module ChecksumTests.

(** A journal whose payloads are texts, of which nothing is parsed here. *)
Definition text_format : JournalFormat ref_externals := {|
  Payload := string;
  genesis_json g := gn_engine_id g;
  genesis_parse _ := None;
  record_json r := show_int (r_sequence r);
  record_parse _ := None;
  Json := string;
  outcome_value := outcome_kind;
  Digest := list Z;
  digest := sha256_bytes;
  uuid_parses _ := false;
|}.
#[local] Existing Instance text_format.

(** The 32 bytes in hexadecimal notation. *)
Definition hex_digit (n : Z) : string := String.substring (Z.to_nat n) 1 "0123456789abcdef".
Definition hex (bytes : list Z) : string := foldr (fun b s => hex_digit (b / 16) +:+ hex_digit (b mod 16) +:+ s) EmptyString bytes.

Definition checksum_is_unchanged : bool :=
  String.eqb (hex (digest "hello world")) "b94d27b9934d3e08a52e52d7da7dabfac484efe37a5380ee9088f7ace2efcde9".
(** A quotation mark in a JSON text. *)
Definition quotation : string := String (ascii_of_nat 34) EmptyString.
Definition json_sequence (n : string) : string := "{" +:+ quotation +:+ "sequence" +:+ quotation +:+ ":" +:+ n +:+ "}".
Definition changed_payload_rejected : bool :=
  negb (is_ok (decode (A := string) Some (json_sequence "2", digest (json_sequence "1")))).
End ChecksumTests.

Example checksum_tests_pass : (ChecksumTests.checksum_is_unchanged, ChecksumTests.changed_payload_rejected) = (true, true).
Proof. vm_compute. reflexivity. Qed.
