(* ===== verification/ConformanceEntrance.v ===== *)
(** * The tests of the HTTP entrance and of the acceptance of orders, run on the model

    The tests of the router ([routes/tests.rs], [routes/tests/deposit.rs], [routes/tests/withdrawal.rs]),
    of the receipts ([services/order_receipt/tests.rs]), of the numbers in a request
    ([models/order/decimal_tests.rs]) and of the order repository
    ([order_repository/exact_amount_tests.rs]). A body that the JSON extractor rejects is one of its
    rejections; behind every request the core loop runs and answers. *)

From stdpp Require Import base tactics gmap list strings.
From Stdlib Require Import ZArith Lia Ascii.
From S2P Require Import Prelude Text Decimals Amount BTree RefDecimal Types BalanceCache OrderBook Matcher Submission State Deposit Withdrawal Cancel Journal History Resting EngineLoop Store Identity Sha256 Boundary Startup Orders Repository Handle Routes TestKit ConformanceWorkers.

#[local] Existing Instance ref_externals.
#[local] Existing Instance sha256_hash.

Fixpoint letters (n : nat) (c : ascii) : string :=
  match n with O => EmptyString | S n => String c (letters n c) end.

(** ** The application of the tests: a core without a journal behind the router *)

Definition service_key : string := "isolated-engine-service-token-32-bytes".
Definition expected_key : ServiceToken := mk_token (sha256_bytes service_key).
Definition on_worker {A} (m : st Worker A) : st App A := zoom app_worker (fun w app => mk_app w (app_platform app)) m.
Definition stop_engine : st App unit := on_worker (smodify (leave Returned)).
Definition balance_in (user : Z) (asset : string) : st App (Decimal * Decimal) :=
  unwrap (on_worker (@engine_get_balance _ _ ServiceTests.served_engine user asset)).
Definition balance_holds (user : Z) (asset : string) (a l : Decimal) : st App unit :=
  balance ← balance_in user asset;
  assert (dec_eqb balance.1 a && dec_eqb balance.2 l).

(** What the channel of a request gives once the worker has answered it. *)
Definition answered_by (w : Worker) : Waits :=
  match last (w_published w) with Some p => ServiceTests.waits_of (finish p).2 | None => ServiceTests.no_reply end.

(** One request through the router. *)
Definition oneshot (key : option string) (route : Waits → CommandRoute) : st App HttpAnswer := fun app =>
  let sent := (http_command expected_key key (route ServiceTests.no_reply) app).2 in
  let w := ServiceTests.worked (app_worker sent) in
  let '(answer, app') := http_command expected_key key (route (answered_by w)) app in
  (expect answer, mk_app w (app_platform app')).
Definition with_key : option string := Some service_key.
Definition status_of (answer : HttpAnswer) (status : Z) : bool := answer.1 =? status.
Definition reply_is (answer : HttpAnswer) (code : string) (id : option Z) (action : option WithdrawalAction) : bool :=
  match answer.2 with
  | CommandBody reply =>
      String.eqb (rp_code reply) code && bool_decide (rp_id reply = id) && bool_decide (rp_action reply = action)
  | _ => false
  end.
Definition code_is (answer : HttpAnswer) (code : string) : bool :=
  match answer.2 with CommandBody reply => String.eqb (rp_code reply) code | CodeBody code' => String.eqb code' code | _ => false end.

(** ** Deposits ([routes/tests/deposit.rs]) *)

Module DepositTests.

Definition deposit_body (id user : Z) (asset amount : string) : Body CreditRequest :=
  Parsed {| cq_deposit_id := id; cq_user_id := user; cq_asset := asset; cq_amount := amount |}.
Definition post_deposit (key : option string) (body : Body CreditRequest) : st App HttpAnswer :=
  oneshot key (fun waits => PostDepositCredits body 1 (on_unit waits)).
Definition deposit_status (body : Body CreditRequest) (status : Z) : st App unit :=
  answer ← post_deposit with_key body;
  assert (status_of answer status).
Definition standard_body (id : Z) : Body CreditRequest := deposit_body id 3 "BTC" "0.12345678".
Definition nothing_credited : st App unit := balance_holds 3 "BTC" dec_zero dec_zero.

Definition exact_amount_once : st App unit :=
  _ ← for_each [1; 2] (fun _ =>
        answer ← post_deposit with_key (standard_body 7);
        assert (status_of answer 200 && reply_is answer "DURABLY_CREDITED" (Some 7) None));
  balance_holds 3 "BTC" (dz "0.12345678") dec_zero.

Definition equivalent_text_same_identity : st App unit :=
  _ ← for_each ["0.12345678"; "00.123456780"]%string (fun amount => deposit_status (deposit_body 7 3 "BTC" amount) 200);
  balance_holds 3 "BTC" (dz "0.12345678") dec_zero.

Definition changed_content_rejected : st App unit :=
  _ ← deposit_status (standard_body 7) 200;
  _ ← for_each [deposit_body 7 3 "BTC" "1"; deposit_body 7 4 "BTC" "0.12345678"; deposit_body 7 3 "USDT" "0.12345678"] (fun body =>
        answer ← post_deposit with_key body;
        assert (status_of answer 409 && code_is answer "DURABLY_REJECTED"));
  balance_holds 3 "BTC" (dz "0.12345678") dec_zero.

Definition malformed_never_enters : st App unit :=
  answer ← post_deposit with_key Malformed;
  _ ← assert (status_of answer 400 && reply_is answer "INVALID_DEPOSIT_CREDIT" None None);
  nothing_credited.

Definition bad_numbers : st App unit :=
  _ ← deposit_status Malformed 400;
  _ ← for_each ["1e-8"; " 1"; "+1"; "-1"; "1_000"; "NaN"; "1."; ".1"; "1.2.3"]%string (fun amount =>
        deposit_status (deposit_body 7 3 "BTC" amount) 400);
  nothing_credited.

Definition never_rounded : st App unit :=
  _ ← for_each ["0"; "0.0000000001"; "0.123456789123456789123456789123456789"; "1000000000000000000000";
                "99999999999999999999999999999999999999999999999999999999999999999"]%string (fun amount =>
        deposit_status (deposit_body 7 3 "BTC" amount) 400);
  nothing_credited.

Definition newline : string := String (ascii_of_nat 10) EmptyString.
Definition invalid_identity_and_asset : st App unit :=
  _ ← for_each [deposit_body 0 3 "BTC" "0.12345678"; deposit_body 7 0 "BTC" "0.12345678"; deposit_body 7 U64_MAX "BTC" "0.12345678"]
        (fun body => deposit_status body 400);
  _ ← for_each [""; " BTC"; "btc"; "BTC" +:+ newline; letters 129 "X"]%string (fun asset =>
        deposit_status (deposit_body 7 3 asset "0.12345678") 400);
  nothing_credited.

Definition only_platform_identity : st App unit :=
  _ ← for_each [None; Some "wrong-service-token"%string] (fun key =>
        answer ← post_deposit key (standard_body 7);
        assert (status_of answer 401));
  nothing_credited.

Definition oversized_body : st App unit :=
  answer ← post_deposit with_key TooLarge;
  _ ← assert (status_of answer 413 && reply_is answer "INVALID_DEPOSIT_CREDIT" None None);
  nothing_credited.

Definition closed_worker_not_accepted : st App unit :=
  _ ← stop_engine;
  answer ← post_deposit with_key (standard_body 7);
  assert (status_of answer 503 && reply_is answer "NOT_ACCEPTED" (Some 7) None).

Definition deposit_tests : list (st App unit) :=
  [ exact_amount_once; equivalent_text_same_identity; changed_content_rejected; malformed_never_enters; bad_numbers; never_rounded;
    invalid_identity_and_asset; only_platform_identity; oversized_body; closed_worker_not_accepted ].
End DepositTests.

Definition idle_app : App := mk_app (worker_start state_new false) (mk_platform ∅ ∅ ∅).
Example deposit_tests_pass : forallb (fun test => passes test idle_app) DepositTests.deposit_tests = true.
Proof. vm_compute. reflexivity. Qed.

(** ** Withdrawals ([routes/tests/withdrawal.rs]) *)

Module WithdrawalTests.
Import DepositTests.

Definition withdrawal_body (id user : Z) (asset amount : string) (action : WithdrawalAction) : Body WithdrawalRequest :=
  Parsed {| wq_withdrawal_id := id; wq_user_id := user; wq_asset := asset; wq_amount := amount; wq_action := action |}.
Definition reserve_body (id : Z) (action : WithdrawalAction) : Body WithdrawalRequest := withdrawal_body id 3 "BTC" "0.4" action.
Definition post_withdrawal (key : option string) (body : Body WithdrawalRequest) : st App HttpAnswer :=
  oneshot key (fun waits => PostWithdrawals body 1 (on_unit waits)).
Definition withdrawal_status (body : Body WithdrawalRequest) (status : Z) : st App unit :=
  answer ← post_withdrawal with_key body;
  assert (status_of answer status).

(** [funded_app]: a deposit of one. *)
Definition funded_app : App :=
  (deposit_status (deposit_body 1 3 "BTC" "1") 200 idle_app).2.
Definition all_available : st App unit := balance_holds 3 "BTC" dec_one dec_zero.

Definition reserve_and_release : st App unit :=
  _ ← for_each [(Reserve, "DURABLY_RESERVED"%string, dz "0.6"); (Release, "DURABLY_RELEASED"%string, dec_one)] (fun case =>
        let '(action, code, a) := case in
        _ ← for_each [1; 2] (fun _ =>
              answer ← post_withdrawal with_key (reserve_body 8 action);
              assert (status_of answer 200 && reply_is answer code (Some 8) (Some action)));
        l ← lift (expect (dec_sub dec_one a));
        balance_holds 3 "BTC" a l);
  withdrawal_status (reserve_body 8 Reserve) 409.

Definition completion_is_final : st App unit :=
  _ ← for_each [Reserve; Complete; Complete] (fun action => withdrawal_status (reserve_body 8 action) 200);
  _ ← for_each [Release; Reserve] (fun action => withdrawal_status (reserve_body 8 action) 409);
  balance_holds 3 "BTC" (dz "0.6") dec_zero.

Definition changed_original_never_spends : st App unit :=
  _ ← withdrawal_status (reserve_body 8 Reserve) 200;
  _ ← for_each [Reserve; Release; Complete] (fun action =>
        for_each [withdrawal_body 8 4 "BTC" "0.4" action; withdrawal_body 8 3 "USDT" "0.4" action;
                  withdrawal_body 8 3 "BTC" "0.5" action] (fun body =>
          answer ← post_withdrawal with_key body;
          assert (status_of answer 409 && code_is answer "DURABLY_REJECTED")));
  _ ← balance_holds 3 "BTC" (dz "0.6") (dz "0.4");
  balance_holds 4 "BTC" dec_zero dec_zero.

Definition rejects_malformed : st App unit :=
  answer ← post_withdrawal with_key Malformed;
  _ ← assert (status_of answer 400 && reply_is answer "INVALID_WITHDRAWAL_COMMAND" None None);
  all_available.

Definition amount_never_coerced : st App unit :=
  _ ← for_each ["0"; "-1"; "+1"; " 1"; "1 "; "1e-1"; ".1"; "1."; "1_0"; "NaN"; "0.0000000001"; "1000000000000000000000";
                letters 65 "1"]%string (fun amount =>
        withdrawal_status (withdrawal_body 8 3 "BTC" amount Reserve) 400);
  all_available.

Definition requires_service_identity : st App unit :=
  _ ← for_each [None; Some "another service"%string] (fun key =>
        answer ← post_withdrawal key (reserve_body 8 Reserve);
        assert (status_of answer 401));
  all_available.

Definition invalid_withdrawal_identity : st App unit :=
  _ ← for_each [withdrawal_body 0 3 "BTC" "0.4" Reserve; withdrawal_body 8 0 "BTC" "0.4" Reserve;
                withdrawal_body 8 U64_MAX "BTC" "0.4" Reserve; withdrawal_body 8 3 "btc" "0.4" Reserve;
                withdrawal_body 8 3 "BTC " "0.4" Reserve] (fun body => withdrawal_status body 400);
  withdrawal_status TooLarge 413.

Definition withdrawal_tests : list (st App unit) :=
  [ reserve_and_release; completion_is_final; changed_original_never_spends; rejects_malformed; amount_never_coerced;
    requires_service_identity; invalid_withdrawal_identity ].
End WithdrawalTests.

Example withdrawal_tests_pass : forallb (fun test => passes test WithdrawalTests.funded_app) WithdrawalTests.withdrawal_tests = true.
Proof. vm_compute. reflexivity. Qed.

(** ** The other routes ([routes/tests.rs]); a path that is not registered does not reach the handlers *)

Module RouteTests.

Definition health_of : st App HttpAnswer := app ← sget; mret (health_check app).
Definition health_remains_available : st App unit :=
  answer ← health_of;
  assert (status_of answer 200 && match answer.2 with HealthBody status _ => String.eqb status "ok" | _ => false end).
Definition closed_handle_unavailable : st App unit :=
  _ ← stop_engine;
  answer ← health_of;
  assert (status_of answer 503).

(** [{}] is rejected by the extractor with 422. *)
Definition plain_session : Session := ex_session 5 (fun _ p => p).
Definition post_order (key : option string) (session : Session) (body : Z + OrderWire) : st App HttpAnswer :=
  oneshot key (fun waits => PostOrders session body 1 (on_unit waits)).
Definition orders_validate_bodies : st App unit :=
  answer ← post_order with_key plain_session (inl 422);
  assert (status_of answer 422).
Definition cancellation_requires_user : st App unit :=
  answer ← oneshot with_key (fun waits => DeleteOrder (0 : Z) 1 None 1 (on_order waits));
  assert (status_of answer 400 &&
    match answer.2 with
    | ErrorBody error => String.eqb error "Invalid cancellation query: user_id, base_mint and quote_mint are required"
    | _ => false
    end).
(** The key is looked at before the body. *)
Definition commands_require_identity : st App unit :=
  for_each [None; Some "wrong-service-token"%string] (fun key =>
    answer ← post_order key plain_session (inl 422);
    assert (status_of answer 401)).

Definition route_tests : list (st App unit) :=
  [ health_remains_available; closed_handle_unavailable; orders_validate_bodies; cancellation_requires_user; commands_require_identity ].
End RouteTests.

Example route_tests_pass : forallb (fun test => passes test idle_app) RouteTests.route_tests = true.
Proof. vm_compute. reflexivity. Qed.

(** ** Numbers in a request ([models/order/decimal_tests.rs]); a JSON number is no string *)

Module DecimalTests.

Definition order_wire (price amount quote_amount : option string) : OrderWire :=
  {| ow_order_id := Some 1; ow_user_id := 101; ow_order_type := "buy"; ow_order_side := "limit"; ow_base_mint := "SOL";
     ow_quote_mint := None; ow_price := price; ow_amount := amount; ow_quote_amount := quote_amount |}.
Definition parses (wire : OrderWire) : bool := match wire_request wire with Some _ => true | None => false end.
Definition hundred : option string := Some "100"%string.
Definition two : option string := Some "2"%string.

Definition precision_loss_rejected : bool :=
  forallb (fun value => negb (parses (order_wire (Some value) two None)) && negb (parses (order_wire hundred (Some value) None)) &&
                        negb (parses (order_wire hundred two (Some value))))
    ["2.00000000000000000000000000001"; "0.00000000000000000000000000001"; "999999999999999999999.123456789"]%string.
Definition exact_strings_preserved : bool :=
  match wire_request (order_wire hundred (Some "79228162514264337593.5439503350"%string) None) with
  | Some parsed =>
      opt_dec_eqb (cor_amount parsed) (Some (dz "79228162514264337593.543950335")) &&
      match cor_quote_amount parsed with None => true | Some _ => false end
  | None => false
  end &&
  match wire_request (order_wire hundred None None) with
  | Some parsed => match cor_amount parsed with None => true | Some _ => false end
  | None => false
  end.
End DecimalTests.

Example decimal_tests_pass : (DecimalTests.precision_loss_rejected, DecimalTests.exact_strings_preserved) = (true, true).
Proof. vm_compute. reflexivity. Qed.

(** ** Receipts ([services/order_receipt/tests.rs])

    The tables of the platform and a running core. A test that calls [accept] twelve times at once is
    here one acceptance with another one committing before each of its statements in turn. *)

Module ReceiptTests.

Definition submission (side : string) (price amount quote_amount : option string) (fee : string) : CommandRow :=
  {| cw_order_id := 1; cw_user_id := 101; cw_order_type := "buy"; cw_order_side := side; cw_base_mint := "SOL";
     cw_quote_mint := "USDT"; cw_price := price; cw_amount := amount; cw_quote_amount := quote_amount;
     cw_fee_rate := Some fee; cw_accepted_at := (0 : Z) |}.
Definition original : CommandRow :=
  submission "limit" (Some "100.000000000"%string) (Some "2.000000000"%string) None "0.000000".
Definition platform_of (row : CommandRow) : Platform := mk_platform {[1 := row]} {[1 := (101, "pending"%string, true)]} ∅.
Definition schema : Platform := platform_of original.

Definition fields (order_id : option Z) (user : Z) (type side base : string) (quote : option string)
    (price amount budget : option Decimal) : CreateOrderRequest :=
  {| cor_order_id := order_id; cor_user_id := user; cor_order_type := type; cor_order_side := side; cor_base_mint := base;
     cor_quote_mint := quote; cor_price := price; cor_amount := amount; cor_quote_amount := budget |}.
Definition the_price : option Decimal := Some (whole 100).
Definition the_amount : option Decimal := Some (whole 2).
Definition standard_request (order_id : option Z) (amount : option Decimal) : CreateOrderRequest :=
  fields order_id 101 "buy" "limit" "SOL" None the_price amount None.
Definition order_request1 : CreateOrderRequest := standard_request (Some 1) the_amount.

(** [service]: a core whose customer has 1000 USDT. *)
Definition service : App :=
  mk_app (worker_start (set_state_cache (set_balance 101 "USDT" (whole 1000) dec_zero cache_new) state_new) false) schema.
Definition session_at (now : Z) : Session := ex_session now (fun _ p => p).

Definition accept_with (session : Session) (request : CreateOrderRequest) : st App (Refusal + AcceptanceResult) := fun app =>
  let '(r, p) := accept session request (app_platform app) in (Ok r, mk_app (app_worker app) p).
Definition create_order_at (session : Session) (request : CreateOrderRequest) : st App (Refusal + AcceptanceResult) := fun app =>
  let '(r, (p, w)) := create_order (engine := ServiceTests.served_engine) session 101 request (app_platform app) (app_worker app) in
  (Ok r, mk_app w p).
(** [?] on an acceptance, [is_err()], and the two refusals. *)
Definition accepted (call : st App (Refusal + AcceptanceResult)) : st App AcceptanceResult :=
  r ← call;
  match r with inr a => mret a | inl _ => lift Panic end.
Definition refused (call : st App (Refusal + AcceptanceResult)) : st App unit :=
  r ← call;
  assert (match r with inl Panicked | inr _ => false | inl _ => true end).
Definition conflicts (call : st App (Refusal + AcceptanceResult)) : st App unit :=
  r ← call;
  assert (match r with inl Conflict => true | _ => false end).
Definition receipt_count (n : nat) : st App unit :=
  app ← sget;
  assert (bool_decide (length (map_to_list (pf_receipts (app_platform app))) = n)).
Definition bids_resting (n : nat) : st App unit :=
  book ← unwrap (on_worker (@engine_get_orderbook _ _ ServiceTests.served_engine (pair_new "SOL" "USDT") None));
  assert (bool_decide (length book.1 = n)).
Definition nothing_queued : st App unit :=
  app ← sget;
  assert (bool_decide (length (w_orders (app_worker app)) = 0%nat)).
Definition on_platform (f : Platform → Platform) : st App unit := smodify (fun app => mk_app (app_worker app) (f (app_platform app))).
Definition fill_orders (p : Platform) : Platform :=
  mk_platform (pf_submissions p) ((fun o : Z * string * bool => (o.1.1, "filled"%string, false)) <$> pf_orders p) (pf_receipts p).

Definition duplicate_keeps_timestamp : st App unit :=
  first ← accepted (create_order_at (session_at 5) order_request1);
  duplicate ← accepted (create_order_at (session_at 9) order_request1);
  _ ← assert (ar_created first && negb (ar_created duplicate) &&
              bool_decide (oa_accepted_at (ar_receipt first) = oa_accepted_at (ar_receipt duplicate)));
  _ ← bids_resting 1;
  receipt_count 1.

(** Another acceptance of the order commits before the [k]-th statement; if it comes before the row is
    inserted, this one finds its receipt. *)
Definition overtaken (k : nat) : Session :=
  ex_session 9 (fun j p => if (j =? k)%nat then (accept (session_at 5) order_request1 p).2 else p).
Definition concurrent_receipts : st App unit :=
  for_each (seq 0 8) (fun k =>
    _ ← on_platform (fun _ => schema);
    a ← accepted (create_order_at (overtaken k) order_request1);
    app ← sget;
    (* the statements 5 and 7 are not run when the first acceptance finds the original *)
    let late := (k =? 5)%nat || (k =? 7)%nat in
    _ ← assert (Bool.eqb (ar_created a) late && bool_decide (oa_accepted_at (ar_receipt a) = (if late then 9 else 5))%Z);
    _ ← bids_resting 1;
    receipt_count 1).

Definition changed_command_conflicts : st App unit :=
  _ ← accepted (accept_with (session_at 5) order_request1);
  let three := Some (whole 3) in
  for_each [fields (Some 1) 102 "buy" "limit" "SOL" None the_price the_amount None;
            fields (Some 1) 101 "sell" "limit" "SOL" None the_price the_amount None;
            fields (Some 1) 101 "buy" "market" "SOL" None the_price the_amount None;
            fields (Some 1) 101 "buy" "limit" "BTC" None the_price the_amount None;
            fields (Some 1) 101 "buy" "limit" "SOL" (Some "USDC"%string) the_price the_amount None;
            fields (Some 1) 101 "buy" "limit" "SOL" None three the_amount None;
            fields (Some 1) 101 "buy" "limit" "SOL" None the_price three None;
            fields (Some 1) 101 "buy" "limit" "SOL" None the_price the_amount three]
    (fun changed => conflicts (accept_with (session_at 9) changed)).

Definition unknown_or_terminal_refused : st App unit :=
  _ ← refused (accept_with (session_at 5) (standard_request (Some 2) the_amount));
  _ ← on_platform fill_orders;
  _ ← refused (accept_with (session_at 5) order_request1);
  receipt_count 0.

Definition mismatch_rejected_before_receipt : st App unit :=
  _ ← conflicts (accept_with (session_at 5) (standard_request (Some 1) (Some (whole 3))));
  receipt_count 0.

Definition order_changes_keep_receipt : st App unit :=
  _ ← accepted (create_order_at (session_at 5) order_request1);
  _ ← on_platform fill_orders;
  again ← accepted (create_order_at (session_at 9) order_request1);
  _ ← assert (negb (ar_created again));
  bids_resting 1.

Definition receipt_does_not_confirm_closed : st App unit :=
  _ ← accepted (create_order_at (session_at 5) order_request1);
  _ ← stop_engine;
  refused (create_order_at (session_at 9) order_request1).

Definition failing_commit : Session :=
  {| se_others := fun _ p => p; se_fails := fun _ => false; se_commit := RolledBack; se_now := (5 : Z); se_shown := ex_shown |}.
Definition commit_failure_does_not_dispatch : st App unit :=
  _ ← refused (create_order_at failing_commit order_request1);
  _ ← nothing_queued;
  receipt_count 0.

Definition closed_channel_keeps_receipt : st App unit :=
  _ ← stop_engine;
  _ ← refused (create_order_at (session_at 5) order_request1);
  _ ← refused (create_order_at (session_at 9) order_request1);
  receipt_count 1.

Definition market_buy_exact_budget : st App unit :=
  let budget : string := "123.250000001" in
  _ ← on_platform (fun _ => platform_of (submission "market" None None (Some budget) "0.000000"));
  a ← accepted (create_order_at (session_at 5) (fields (Some 1) 101 "buy" "market" "SOL" None None None (Some (dz budget))));
  _ ← assert (ar_created a);
  app ← sget;
  row ← lift (expect (pf_receipts (app_platform app) !! 1));
  _ ← assert (match cw_amount row with None => true | Some _ => false end &&
              match cw_quote_amount row ≫= exact_parse with Some d => dec_eqb d (dz budget) | None => false end);
  nothing_queued.

Definition invalid_never_dispatched : st App unit :=
  _ ← for_each [None; Some 0; Some U64_MAX] (fun id => refused (create_order_at (session_at 5) (standard_request id the_amount)));
  _ ← refused (create_order_at (session_at 5) (standard_request (Some 1) (Some dec_zero)));
  nothing_queued.

Definition http_body : Z + OrderWire :=
  inr {| ow_order_id := Some 1; ow_user_id := 101; ow_order_type := "buy"; ow_order_side := "limit"; ow_base_mint := "SOL";
         ow_quote_mint := None; ow_price := Some "100"%string; ow_amount := Some "2"%string; ow_quote_amount := None |}.
Definition http_new_and_existing : st App unit :=
  for_each [202; 200] (fun status =>
    answer ← RouteTests.post_order with_key (session_at 5) http_body;
    assert (status_of answer status &&
      match answer.2 with
      | AcceptanceBody receipt => String.eqb (oa_order_id receipt) "1" && String.eqb (oa_user_id receipt) "101" &&
                                  String.eqb (oa_receipt_status receipt) "accepted"
      | _ => false
      end)).

Definition no_storage : Session :=
  {| se_others := fun _ p => p; se_fails := fun _ => true; se_commit := Committed; se_now := (5 : Z); se_shown := ex_shown |}.
Definition missing_storage_unavailable : st App unit :=
  answer ← RouteTests.post_order with_key no_storage http_body;
  assert (status_of answer 503 && code_is answer "ORDER_ACCEPTANCE_UNAVAILABLE").

Definition completion_between : st App unit :=
  first ← accepted (accept_with (session_at 5) order_request1);
  _ ← on_platform fill_orders;
  _ ← for_each (seqZ 1 11) (fun _ =>
        again ← accepted (accept_with (session_at 9) order_request1);
        assert (negb (ar_created again)));
  assert (ar_created first).

Definition large_amount_preserved : st App unit :=
  _ ← on_platform (fun _ => platform_of (submission "limit" (Some "1.000000000"%string) (Some "99999999999999999999.123456780"%string)
                                           None "0.000000"));
  let request := fields (Some 1) 101 "buy" "limit" "SOL" None (Some dec_one) (Some (dz "99999999999999999999.12345678")) None in
  first ← accepted (accept_with (session_at 5) request);
  again ← accepted (accept_with (session_at 9) request);
  assert (ar_created first && negb (ar_created again)).

Definition unrepresentable_original : st App unit :=
  _ ← on_platform (fun _ => platform_of (submission "limit" (Some "100.000000000"%string)
                                           (Some "999999999999999999999.123456789"%string) None "0.000000"));
  _ ← refused (accept_with (session_at 5) order_request1);
  receipt_count 0.

Definition with_fee (fee : string) (receipts : gmap Z CommandRow) (p : Platform) : Platform :=
  mk_platform {[1 := submission "limit" (Some "100.000000000"%string) (Some "2.000000000"%string) None fee]} (pf_orders p) receipts.
Definition fee_is_frozen : st App unit :=
  _ ← on_platform (fun p => with_fee "0.001000" (pf_receipts p) p);
  first ← accepted (accept_with (session_at 5) order_request1);
  _ ← assert (dec_eqb (ar_fee_rate first) (dz "0.001"));
  _ ← on_platform (fun p => with_fee "0.002000" (pf_receipts p) p);
  second ← accepted (accept_with (session_at 5) order_request1);
  _ ← assert (dec_eqb (ar_fee_rate second) (dz "0.001"));
  _ ← on_platform (with_fee "1.000000" ∅);
  _ ← refused (accept_with (session_at 5) order_request1);
  receipt_count 0.

Definition receipt_tests : list (st App unit) :=
  [ duplicate_keeps_timestamp; concurrent_receipts; changed_command_conflicts; unknown_or_terminal_refused;
    mismatch_rejected_before_receipt; order_changes_keep_receipt; receipt_does_not_confirm_closed;
    commit_failure_does_not_dispatch; closed_channel_keeps_receipt; market_buy_exact_budget; invalid_never_dispatched;
    http_new_and_existing; missing_storage_unavailable; completion_between; large_amount_preserved; unrepresentable_original;
    fee_is_frozen ].
End ReceiptTests.

Example receipt_tests_pass : map (fun test => passes test ReceiptTests.service) ReceiptTests.receipt_tests = replicate 17 true.
Proof. vm_compute. reflexivity. Qed.

(** ** The order repository ([order_repository/exact_amount_tests.rs])

    The largest amount with nine fractional digits that a decimal holds. *)

Module RepositoryTests.
#[local] Existing Instance ex_postgres.

Definition repository_schema (amount : Z) : OrdersTable :=
  let row (id price amount : Z) : OrderRow :=
    {| rw_id := id; rw_user_id := 101; rw_order_type := "buy"; rw_order_side := "limit"; rw_base_mint := "SOL"; rw_quote_mint := "USDT";
       rw_price := Some (price * 10 ^ 9); rw_amount := amount; rw_filled_amount := 0; rw_filled_quote_amount := 0;
       rw_status := "pending"; rw_created_at := (0 : Z); rw_updated_at := (0 : Z) |} in
  [row 1 100 amount; row 2 9 (10 ^ 9)].
Definition largest_units : Z := 79228162514264337593543950335.
Definition largest_amount : Decimal := dz "79228162514264337593.543950335".
Definition reading {A} (query : OrdersTable → result A) : st OrdersTable A := table ← sget; lift (expect_ok (query table)).
Definition finds (n : nat) (query : OrdersTable → result (list Order)) : st OrdersTable unit :=
  found ← reading query;
  assert (length found =? n)%nat.
Definition keeps_amount (update : st OrdersTable Order) : st OrdersTable unit :=
  order ← unwrap update;
  assert (dec_eqb (o_amount order) largest_amount).

Definition exact_amount_and_priority : st OrdersTable unit :=
  one ← reading (get_by_id true 1);
  _ ← assert (match one with Some order => dec_eqb (o_amount order) largest_amount | None => false end);
  none ← reading (get_by_id true 999);
  _ ← assert (match none with Some _ => false | None => true end);
  _ ← finds 2 (get_all_by_user true 101 None None);
  _ ← finds 2 (get_by_user_and_status true 101 "pending" None None);
  _ ← for_each [None; Some "buy"%string] (fun kind => finds 2 (get_active_orders true "SOL" "USDT" kind));
  _ ← finds 2 (get_all_active_orders true);
  book ← reading (fun table => repository_orderbook true "SOL" "USDT" None table table);
  _ ← assert (bool_decide (length book.2 = 0%nat) && bool_decide (map o_id book.1 = [1; 2]));
  _ ← keeps_amount (update_status true (1 : Z) 1 "partial");
  filled ← unwrap (update_filled_amount true (2 : Z) 1 dec_one);
  _ ← assert (dec_eqb (o_filled_amount filled) dec_one);
  _ ← keeps_amount (repository_cancel true (3 : Z) 1);
  keeps_amount (create true 3 (4 : Z)
    {| oc_user_id := 101; oc_order_type := "sell"; oc_order_side := "limit"; oc_base_mint := "SOL"; oc_quote_mint := "USDT";
       oc_price := Some dec_one; oc_amount := largest_amount |}).

(** 999999999999999999999.123456789 is more than a decimal holds. *)
Definition unrepresentable_amount : bool := negb (is_ok (get_by_id true 1 (repository_schema (10 ^ 30 - 1 - 876543210)))).
End RepositoryTests.

Example repository_tests_pass :
  passes RepositoryTests.exact_amount_and_priority (RepositoryTests.repository_schema RepositoryTests.largest_units) &&
  RepositoryTests.unrepresentable_amount = true.
Proof. vm_compute. reflexivity. Qed.
