(* ===== verification/ConformanceStartup.v ===== *)
(** * The tests of the start and of the ownership of the state, run on the model

    [runtime/engine/startup_tests.rs] and [runtime/engine/ownership_tests.rs]: starts on every kind of
    platform, control objects that are started and stopped, the core loop against the direct engine. A
    table of the platform is given by its rows, a dropped table by a failing query. *)

From stdpp Require Import base tactics gmap list strings.
From Stdlib Require Import ZArith Lia Ascii.
From S2P Require Import Prelude Text Decimals Amount BTree RefDecimal Types BalanceCache OrderBook Matcher Submission State Deposit Withdrawal Cancel Journal History Resting EngineLoop Store Startup Control Handle Bench TestKit ConformanceWorkers.

#[local] Existing Instance ref_externals.
#[local] Existing Instance ref_format.

(** ** Starts ([runtime/engine/startup_tests.rs]) *)

Module StartupTests.

(** The schema without rows, and with some. *)
Definition tables (receipts : list Z) (events deposits withdrawals attempts : list string)
    (orders : list (Z * option string)) (rows : list BalanceRow) : Snapshot :=
  {| sn_begin := Ok tt; sn_read_only := Ok tt; sn_order_receipts := Ok receipts; sn_event_receipts := Ok events;
     sn_deposit_attempts := Ok deposits; sn_withdrawals := Ok withdrawals; sn_withdrawal_attempts := Ok attempts;
     sn_orders := Ok orders; sn_balances := Ok rows; sn_commit := Ok tt |}.
Definition balances_only (rows : list BalanceRow) : Snapshot := tables [] [] [] [] [] [] rows.
Definition orders_only (orders : list (Z * option string)) : Snapshot := tables [] [] [] [] [] orders [].
Definition balance_row (user : Z) (mint available locked : string) : BalanceRow :=
  {| br_user_id := Some user; br_mint_address := Some mint; br_available := Some available; br_locked := Some locked |}.
Definition missing {A} : result A := Err "relation does not exist".

Definition around (db : option Snapshot) : Surroundings :=
  {| su_sqlite := ex_sqlite; su_delivery := ex_sqlite; su_engine_id := "engine"; su_db := db; su_producer := Ok tt; su_ready := Ok tt |}.
Definition nowhere : Directory := mk_directory false false None.

(** A test works on a control object and its directory. *)
Definition Lab : Type := HighPerformanceEngine * Directory.
Definition new_lab : Lab := (new_with_mode Standard, nowhere).
Definition start_on (db : option Snapshot) : st Lab EngineState := engine_start (around db).
Definition stop_lab (joined : option EngineState) : st Lab unit := smodify (engine_halt joined).

Definition mentions (needle message : string) : bool :=
  match String.index 0 needle message with Some _ => true | None => false end.
Definition fails_with (reason : string) (call : st Lab EngineState) : st Lab unit :=
  outcome ← attempt call;
  assert (match outcome with Err message => mentions reason message | _ => false end).

(** [assert_start_blocked]. *)
Definition start_blocked (case : string * Snapshot) : st Lab unit :=
  _ ← sput new_lab;
  _ ← fails_with case.1 (start_on (Some case.2));
  lab ← sget;
  assert (negb (e_thread lab.1) &&
    match e_state lab.1 with Some state => match get_balance 101 "USDT" (state_cache state) with None => true | _ => false end
                           | None => false end).

Definition blocked_cases : list (string * Snapshot) :=
  [ ("locked balance", balances_only [balance_row 101 "USDT" "70" "30"]);
    ("unresolved order", orders_only [(90001, Some "pending")]);
    ("durable receipt", tables [1] [] [] [] [] [(1, Some "filled")] []);
    ("negative balance", balances_only [balance_row 101 "USDT" "-1" "0"]);
    ("negative balance", balances_only [balance_row 101 "USDT" "100" "-1"]);
    ("unresolved order", orders_only [(90001, Some "partial")]);
    ("unresolved order", orders_only [(90001, Some "unrecognized")]);
    ("unresolved order", orders_only [(90001, None)]);
    ("locked balance", balances_only [balance_row 101 "USDT" "100" "0"; balance_row 102 "SOL" "5" "1"]);
    ("duplicate balance", balances_only [balance_row 101 "USDT" "100" "0"; balance_row 101 "USDT" "200" "0"]);
    ("available", balances_only [balance_row 101 "USDT" "NaN" "0"]);
    ("available", balances_only [balance_row 101 "USDT" "999999999999999999999999999999999999999999999999" "0"]);
    ("invalid user id", balances_only [balance_row (-1) "USDT" "100" "0"]);
    ("invalid user id", balances_only [balance_row 0 "USDT" "100" "0"]);
    ("invalid asset identifier", balances_only [balance_row 101 EmptyString "100" "0"]);
    ("invalid asset identifier", balances_only [balance_row 101 " USDT" "100" "0"]);
    ("available", balances_only [balance_row 101 "USDT" "999999999999999999999.123456789" "0"]);
    ("available", balances_only [balance_row 101 "USDT" "1000000000000000000000" "0"]);
    ("available", balances_only [balance_row 101 "USDT" "0.0000000001" "0"]);
    ("current engine event history", tables [] ["engine:1:0"] [] [] [] [(1, Some "filled")] [balance_row 101 "USDT" "100" "0"]);
    ("current engine event history", tables [] ["engine:1:market"] [] [] [] [] []);
    ("current engine event history", tables [] ["damaged"] [] [] [] [] []);
    ("native deposit dispatch history", tables [] [] ["1"] [] [] [] []);
    ("native withdrawal history exists", tables [] [] [] ["1"] [] [] []);
    ("native withdrawal dispatch history exists", tables [] [] [] [] ["2"] [] []) ]%string.

(** The schema with one table missing. *)
Definition without (orders : result (list (Z * option string))) (withdrawals attempts events deposits : result (list string)) : Snapshot :=
  {| sn_begin := Ok tt; sn_read_only := Ok tt; sn_order_receipts := Ok []; sn_event_receipts := events;
     sn_deposit_attempts := deposits; sn_withdrawals := withdrawals; sn_withdrawal_attempts := attempts;
     sn_orders := orders; sn_balances := Ok []; sn_commit := Ok tt |}.
Definition missing_cases : list (string * Snapshot) :=
  [ ("Failed to inspect unresolved orders", without missing (Ok []) (Ok []) (Ok []) (Ok []));
    ("Failed to inspect native withdrawal history", without (Ok []) missing (Ok []) (Ok []) (Ok []));
    ("Failed to inspect native withdrawal dispatch history", without (Ok []) (Ok []) missing (Ok []) (Ok []));
    ("Failed to inspect current engine event history", without (Ok []) (Ok []) (Ok []) missing (Ok []));
    ("Failed to inspect native deposit dispatch history", without (Ok []) (Ok []) (Ok []) (Ok []) missing) ]%string.

Definition state_has (user : Z) (asset : string) (a l : Decimal) (state : EngineState) : st Lab unit :=
  let balance := balance_of user asset state in
  assert (dec_eqb balance.1 a && dec_eqb balance.2 l).

Definition preserves_exact_balances : st Lab unit :=
  state ← unwrap (start_on (Some (tables [] [] [] [] []
            [(1, Some "filled"); (2, Some "cancelled"); (3, Some "rejected"); (4, Some "expired")]%string
            [balance_row 101 "USDT" "100.250000001" "0"; balance_row 102 "SOL" "0" "0"])));
  _ ← state_has 101 "USDT" (scaled 100250000001 9) dec_zero state;
  _ ← state_has 102 "SOL" dec_zero dec_zero state;
  let book := book_orders (pair_new "SOL" "USDT") None state in
  assert (bool_decide (length book.1 = 0%nat) && bool_decide (length book.2 = 0%nat)).

Definition large_fraction_preserved : st Lab unit :=
  let amount : string := "99999999999999999999.12345678" in
  cache ← unwrap (lift (load_balances (balances_only [balance_row 101 "USDT" amount "0"])));
  assert (match get_balance 101 "USDT" cache with Some b => dec_eqb (available b) (dz amount) | None => false end).

Definition locked_ten : Command := CmdLock 101 "USDT" (whole 10).

(** The running state is with the worker; a second start leaves it there. *)
Definition duplicate_start_refused : st Lab unit :=
  let db := balances_only [balance_row 101 "USDT" "100" "0"] in
  state ← unwrap (start_on (Some db));
  state ← unwrap (lift (let '(r, s) := journal_apply locked_ten state in _ ← r; Ok s));
  _ ← fails_with "already running" (start_on (Some db));
  _ ← state_has 101 "USDT" (whole 90) (whole 10) state;
  lab ← sget;
  assert (e_running lab.1 && e_thread lab.1).

Definition stopped_cannot_restart : st Lab unit :=
  state ← unwrap (start_on (Some (balances_only [])));
  _ ← state_has 101 "USDT" dec_zero dec_zero state;
  _ ← stop_lab (Some state);
  fails_with "create a new instance" (start_on (Some (balances_only []))).

(** Writing one served command into the journal of the directory. *)
Definition journal_command (command : Command) (state : EngineState) : st Lab EngineState := fun lab =>
  let '(e, d) := lab in
  match journal_apply command state with
  | (Ok outcome, state') =>
      let '(r, d') := with_store (append (fun _ => (0 : Z)) Committed
        [{| p_command := Some command; p_outcome := outcome; p_reply := ReplyUnit 1 |}] 0) d in
      (_ ← r; Ok state', (e, d'))
  | (_, state') => (Panic, lab)
  end.
Definition new_control : st Lab unit := smodify (fun lab : Lab => (new_with_mode Standard, lab.2)).

(** The journal decides; without it the history of the platform blocks; no database is needed. *)
Definition journal_recovers_without_database : st Lab unit :=
  let row := balance_row 101 "USDT" in
  state ← unwrap (start_on (Some (balances_only [row "100" "0"])));
  state ← unwrap (journal_command locked_ten state);
  _ ← stop_lab (Some state);
  let changed := tables [] ["engine:1:0"]%string [] [] [] [] [row "999" "0"] in
  (* another directory *)
  kept ← sget;
  _ ← start_blocked ("current engine event history"%string, changed);
  _ ← sput kept;
  _ ← new_control;
  state ← unwrap (start_on None);
  state_has 101 "USDT" (whole 90) (whole 10) state.

(** [journal_standard_restart_needs_no_platform_database_and_missing_log_is_blocked] of
    [journal_tests.rs]; the journal is made by the first start here. *)
Definition missing_log_blocked : st Lab unit :=
  state ← unwrap (start_on (Some (balances_only [balance_row 1 "USDT" "1000" "0"])));
  state ← unwrap (journal_command (CmdLock 1 "USDT" (whole 100)) state);
  _ ← stop_lab (Some state);
  _ ← new_control;
  state ← unwrap (start_on None);
  _ ← state_has 1 "USDT" (whole 900) (whole 100) state;
  _ ← stop_lab (Some state);
  _ ← new_control;
  _ ← smodify (fun lab : Lab => (lab.1, mk_directory (d_owner_lock lab.2) (d_held lab.2) None));
  fails_with "journal is missing" (start_on None).

Definition startup_tests : list (st Lab unit) :=
  map start_blocked blocked_cases ++ map start_blocked missing_cases ++
  [ preserves_exact_balances; large_fraction_preserved; duplicate_start_refused; stopped_cannot_restart;
    journal_recovers_without_database; missing_log_blocked ].
End StartupTests.

Example startup_tests_pass : forallb (fun test => passes test StartupTests.new_lab) StartupTests.startup_tests = true.
Proof. vm_compute. reflexivity. Qed.

(** ** Ownership ([runtime/engine/ownership_tests.rs]) *)

Module OwnershipTests.
Import ServiceTests.

Definition sol_usdt : TradingPair := pair_new "SOL" "USDT".
Definition owned_order (id user : Z) (buy : bool) (quantity : Z) : OrderEntry :=
  edge_order id user buy "SOL" (whole 100) (whole quantity).

(** The engine that was started, and the one that works directly. *)
Record Both := mk_both { bo_worker : Worker; bo_direct : Core }.
Definition with_worker {A} (m : st Worker A) : st Both A := zoom bo_worker (fun w b => mk_both w (bo_direct b)) m.
Definition with_direct {A} (m : st Core A) : st Both A := zoom bo_direct (fun c b => mk_both (bo_worker b) c) m.
#[local] Existing Instance served_engine.

(** Setting balances before the start; the start moves the state to the worker. *)
Definition prepared (funds : list (Z * string * Z)) : HighPerformanceEngine :=
  (for_each funds (fun f => bench_set_balance f.1.1 f.1.2 (whole f.2) dec_zero) (new_with_mode Bench)).2.
Definition surroundings_of_bench : Surroundings := StartupTests.around None.
Definition started (e : HighPerformanceEngine) : result EngineState * HighPerformanceEngine :=
  let '(r, s) := engine_start surroundings_of_bench (e, StartupTests.nowhere) in (r, s.1).
Definition both (funds : list (Z * string * Z)) : Both :=
  mk_both (worker_start (get_ok state_new (started (prepared funds)).1) false)
    (for_each funds (fun f => engine_set_balance f.1.1 f.1.2 (whole f.2) dec_zero) bench_new).2.
Definition three_users : list (Z * string * Z) := [(1, "SOL"%string, 3); (2, "SOL"%string, 2); (3, "USDT"%string, 1000)].

Definition direct_balance (user : Z) (asset : string) (c : Core) : Decimal * Decimal :=
  match get_balance user asset (cache c) with Some b => (available b, locked b) | None => (dec_zero, dec_zero) end.

Definition worker_matches_direct : st Both unit :=
  _ ← assert (match e_state (started (prepared three_users)).2 with None => true | Some _ => false end);
  _ ← for_each [owned_order 1 1 false 3; owned_order 2 2 false 2; owned_order 3 3 true 4] (fun command =>
        _ ← unwrap (with_direct (submit_direct command));
        unwrap (with_worker (engine_submit_order command)));
  book ← unwrap (with_worker (engine_get_orderbook sol_usdt None));
  _ ← assert (bool_decide (length book.1 = 0%nat) && bool_decide (length book.2 = 1%nat) &&
              match book.2 with o :: _ => (oe_id o =? 2) && dec_eqb (oe_remaining_amount o) dec_one | [] => false end);
  _ ← for_each [1; 2; 3] (fun user => for_each ["SOL"; "USDT"]%string (fun asset =>
        balance ← unwrap (with_worker (engine_get_balance user asset));
        b ← sget;
        let direct := direct_balance user asset (bo_direct b) in
        assert (dec_eqb balance.1 direct.1 && dec_eqb balance.2 direct.2)));
  _ ← with_worker (smodify (leave Returned));
  assert_err (with_worker (engine_get_balance 3 "SOL")).

Definition failure_preserves_state : st Both unit :=
  _ ← unwrap (with_worker (engine_submit_order (owned_order 1 1 true 1)));
  book ← unwrap (with_worker (engine_get_orderbook sol_usdt None));
  _ ← assert (bool_decide (length book.1 = 0%nat) && bool_decide (length book.2 = 0%nat));
  balance ← unwrap (with_worker (engine_get_balance 1 "USDT"));
  assert (dec_eqb balance.1 (whole 50) && dec_eqb balance.2 dec_zero).
End OwnershipTests.

Example ownership_tests_pass :
  (passes OwnershipTests.worker_matches_direct (OwnershipTests.both OwnershipTests.three_users),
   passes OwnershipTests.failure_preserves_state (OwnershipTests.both [(1, "USDT"%string, 50)])) = (true, true).
Proof. vm_compute. reflexivity. Qed.
