(* ===== verification/ConformanceThreads.v ===== *)
(** * The tests of the three workers together, run on the model

    The tests of [runtime/engine/journal_tests.rs], [journal_tests/withdrawal_tests.rs] and
    [journal_tests/deposit_http_tests.rs] that start the engine worker, the journal worker and the
    output worker on one journal, stop them, and start others on what is left. *)

From stdpp Require Import base tactics gmap list strings.
From Stdlib Require Import ZArith Lia Ascii.
From S2P Require Import Prelude Text Decimals Amount BTree RefDecimal Types BalanceCache OrderBook Matcher Submission State Deposit Withdrawal Cancel Journal History Resting Events EngineLoop Store Durability Market Output Identity Sha256 Boundary Startup Orders Handle Lifecycle Routes TestKit Conformance ConformanceWorkers ConformanceEntrance.
Import Commands ServiceTests.

#[local] Existing Instance ref_externals.
#[local] Existing Instance sha256_hash.
#[local] Existing Instance Journaled.test_format.

(** ** The engine of a test

    The workers take turns. What the tests inject is how a transaction of the journal ends, in which
    phases the journal worker may go on (another connection can hold the write lock; the tests with a
    gate have no journal worker until they play its part), and what the sink confirms. *)

(** The text of an event shows its type, its identifier and what it is about. *)
Definition event_detail (event : FinancialEvent) : string :=
  match event with
  | EvDeposit e => show_int (pe_deposit_id e) +:+ " " +:+ dec_to_string (pe_amount e)
  | EvWithdrawal e => show_int (we_withdrawal_id e) +:+ " " +:+ dec_to_string (we_amount e)
  | _ => EmptyString
  end.
Definition thread_events : EventFormat ref_externals := {|
  event_json event := inr (AuditTests.event_type_of event +:+ " " +:+ id_of event +:+ " " +:+ event_detail event) |}.
#[local] Existing Instance thread_events.

Record Plant := mk_plant {
  pl_whole : Whole;
  pl_capacity : nat;
  pl_commit : Commit;
  pl_may_go_on : Phase → bool;
}.
Definition pl_system (p : Plant) : System := wh_system (pl_whole p).
Definition pl_output (p : Plant) : Output.Output := wh_output (pl_whole p).
Definition set_whole (w : Whole) (p : Plant) : Plant := mk_plant w (pl_capacity p) (pl_commit p) (pl_may_go_on p).

Definition always (phase : Phase) : bool := true.
(** Nobody takes from the journal queue. *)
Definition gated (phase : Phase) : bool := false.
(** Another connection is writing. *)
Definition locked_out (phase : Phase) : bool := match phase with Appending _ => false | _ => true end.

Definition plant_worker (f : Worker → Worker) : st Plant unit :=
  smodify (fun p => set_whole (with_worker (f (y_worker (pl_system p))) (pl_whole p)) p).
Definition journal_goes_on (may_go_on : Phase → bool) : st Plant unit :=
  smodify (fun p => mk_plant (pl_whole p) (pl_capacity p) (pl_commit p) may_go_on).

(** Every worker has a turn. *)
Definition turn (p : Plant) : Plant :=
  let w := engine_turn (pl_capacity p) (pl_whole p) in
  let w := if pl_may_go_on p (y_phase (wh_system w)) then journal_turn Journaled.clock (pl_commit p) w else w in
  set_whole (output_turn "engine" Committed w) p.
Definition turns (n : nat) : st Plant unit := smodify (Nat.iter n turn).

(** The turns are a run of the machine of [Lifecycle]. *)
Lemma turns_run n p :
  rtc (whole_step (pl_capacity p) Journaled.clock Datatypes.id "engine") (pl_whole p) (pl_whole (Nat.iter n turn p)).
Proof.
  assert (Hcap : pl_capacity (Nat.iter n turn p) = pl_capacity p) by (induction n; [done | exact IHn]).
  induction n as [|n IH]; [apply rtc_refl |].
  assert (Hcap' : pl_capacity (Nat.iter n turn p) = pl_capacity p) by exact Hcap. etransitivity; [by apply IH |].
  cbn [Nat.iter]. set (q := Nat.iter n turn p) in *. rewrite <- Hcap'. unfold turn. cbn zeta.
  eapply rtc_l; [apply whole_engine |]. etransitivity; [| apply rtc_once; cbn [pl_whole set_whole]; apply whole_output].
  case_match; [apply rtc_once, whole_journal | apply rtc_refl].
Qed.

(** [attach]: the workers on a recovered journal; the sink is new and will answer so. *)
Definition attach_on (store : Store) (capacity : nat) (commit : Commit) (may_go_on : Phase → bool) (acks : list Ack) : result Plant :=
  found ← recover store;
  sequence ← last_sequence store;
  mret (mk_plant (whole_start Datatypes.id "engine" store found.1 sequence (mk_broker [] [] acks)) capacity commit may_go_on).
Definition attach (state : EngineState) (commit : Commit) (may_go_on : Phase → bool) (acks : list Ack) : st Plant unit :=
  p ← lift (expect_ok (attach_on (initialize "engine" state store_new).2 100 commit may_go_on acks));
  sput p.
Definition reattach : st Plant unit :=
  p ← sget;
  p ← lift (expect_ok (attach_on (y_store (pl_system p)) 100 Committed always []));
  sput p.

(** [engine.stop()]. *)
Definition stop_plant : st Plant (result unit) :=
  _ ← plant_worker (fun w => mk_worker (w_state w) (w_orders w) (w_balances w) (w_journal w) false true
                               (w_connected w) (w_pc w) (w_taken w) (w_published w));
  _ ← turns 30;
  p ← sget;
  mret (halt (pl_system p) (pl_output p)).
Definition stops_well : st Plant unit := outcome ← stop_plant; assert (is_ok outcome).
Definition stops_badly : st Plant unit := outcome ← stop_plant; assert (negb (is_ok outcome)).

(** ** Calls

    A call that has been sent: its channel, and what it makes of what the channel gives. Several calls
    can be under way. *)

Record Sent (A : Type) := mk_sent { sent_id : Z; sent_result : Waits → A }.
#[global] Arguments mk_sent {A} sent_id sent_result.
#[global] Arguments sent_id {A} s.
#[global] Arguments sent_result {A} s waits.

Definition dropped : Waits :=
  {| on_unit := SenderDropped; on_order := SenderDropped; on_book := SenderDropped; on_balance := SenderDropped |}.
Definition answer_to (response : Z) (p : Plant) : option Answer :=
  snd <$> List.find (fun a => a.1 =? response) (y_answers (pl_system p)).
(** What the channel gives by now: when the journal worker has failed, its sender is gone. *)
Definition channel (response : Z) (p : Plant) : Waits :=
  match answer_to response p with
  | Some answer => waits_of answer
  | None => match y_phase (pl_system p) with JournalFailed => dropped | _ => no_reply end
  end.

Definition send {A} (call : Z → Waits → Worker → A * Worker) : st Plant (Sent A) := fun p =>
  let w := y_worker (pl_system p) in
  let response := Z.of_nat (length (w_taken w) + length (w_orders w) + length (w_balances w)) in
  let '(_, p) := plant_worker (fun w => (call response no_reply w).2) p in
  (Ok (mk_sent response (fun waits => (call response waits w).1)), p).
Definition is_finished {A} (sent : Sent A) : st Plant bool :=
  p ← sget;
  mret (match answer_to (sent_id sent) p with Some _ => true | None => false end).
Definition result_of {A} (sent : Sent A) : st Plant A :=
  p ← sget;
  mret (sent_result sent (channel (sent_id sent) p)).
Definition awaited {A} (call : Z → Waits → Worker → A * Worker) : st Plant A :=
  sent ← send call;
  _ ← turns 12;
  result_of sent.

Definition submitting (order : OrderEntry) (response : Z) (waits : Waits) : st Worker unit := submit_order order response (on_unit waits).
Definition crediting (credit : DepositCredit) (response : Z) (waits : Waits) : Worker → option CommandError * Worker :=
  handle_credit_deposit credit response (on_unit waits).
Definition changing (command : WithdrawalCommand) (response : Z) (waits : Waits) : Worker → option CommandError * Worker :=
  change_withdrawal command response (on_unit waits).
Definition asking (user : Z) (asset : string) (response : Z) (waits : Waits) : st Worker (Decimal * Decimal) :=
  handle_get_balance user asset response (on_balance waits).
(** A request through the router; these routes do not use the platform. *)
Definition no_platform : Platform := mk_platform ∅ ∅ ∅.
Definition posting (route : Z → Waits → CommandRoute) (response : Z) (waits : Waits) (w : Worker) : option HttpAnswer * Worker :=
  let answered := http_command expected_key with_key (route response waits) (mk_app w no_platform) in
  (answered.1, app_worker answered.2).

Definition submits (order : OrderEntry) : st Plant unit := outcome ← awaited (submitting order); assert (is_ok outcome).
Definition succeeds (call : Z → Waits → Worker → option CommandError * Worker) : st Plant unit :=
  outcome ← awaited call;
  assert (match outcome with None => true | Some _ => false end).
Definition is_rejected (outcome : option CommandError) : bool := match outcome with Some (DurablyRejected _) => true | _ => false end.
Definition is_unknown (outcome : option CommandError) : bool := match outcome with Some OutcomeUnknown => true | _ => false end.
Definition shows (user : Z) (asset : string) (a l : Decimal) : st Plant unit :=
  balance ← awaited (asking user asset);
  assert (match balance with Ok b => dec_eqb b.1 a && dec_eqb b.2 l | _ => false end).
Definition answers (route : Z → Waits → CommandRoute) (status : Z) (code : string) : st Plant unit :=
  answer ← awaited (posting route);
  assert (match answer with Some answer => status_of answer status && code_is answer code | None => false end).

(** ** What the tests look at *)

Definition events_sent : st Plant (list string) := p ← sget; mret (map snd (b_topic (o_broker (pl_output p)))).
Definition number_of_events (n : nat) : st Plant unit := events ← events_sent; assert (length events =? n)%nat.
Definition no_events : st Plant unit := number_of_events 0.
Definition waiting_in_journal (n : nat) : st Plant unit :=
  p ← sget; assert (length (default [] (w_journal (y_worker (pl_system p)))) =? n)%nat.
Definition accepts (b : bool) : st Plant unit := p ← sget; assert (Bool.eqb (is_accepting (y_worker (pl_system p))) b).
Definition on_disk {A} (look : Store → result A) : st Plant A := p ← sget; lift (expect_ok (look (y_store (pl_system p)))).
Definition last_is (n : Z) : st Plant unit := last ← on_disk last_sequence; assert (last =? n).
Definition delivered_is (n : Z) : st Plant unit := cursor ← on_disk delivered; assert (cursor =? n).
Definition recovered_has (holds : EngineState → bool) : st Plant unit := found ← on_disk recover; assert (holds found.1).
Definition cache_has (holds : BalanceCache → bool) (state : EngineState) : bool := holds (state_cache state).
Definition buys_in (state : EngineState) : Z :=
  match orderbooks (core state) !! pair with Some book => total_buy_orders book | None => -1 end.

(** ** The journal worker and the output worker ([journal_tests.rs]) *)

Module WorkerTests.

Definition response_waits_for_commit : st Plant unit :=
  _ ← attach seeded Committed gated [];
  a ← send (submitting (journal_order 1 1 true 1));
  b ← send (submitting (journal_order 2 1 true 1));
  _ ← turns 8;
  _ ← waiting_in_journal 2;
  early_a ← is_finished a;
  early_b ← is_finished b;
  _ ← assert (negb early_a && negb early_b);
  _ ← journal_goes_on always;
  _ ← turns 8;
  done_a ← result_of a;
  done_b ← result_of b;
  _ ← assert (is_ok done_a && is_ok done_b);
  _ ← stops_well;
  recovered_has (fun state => buys_in state =? 2).

Definition commit_failure_closes_input : st Plant unit :=
  _ ← attach seeded RolledBack always [];
  outcome ← awaited (submitting (journal_order 1 1 true 1));
  _ ← assert (negb (is_ok outcome));
  _ ← accepts false;
  stopped ← stop_plant;
  _ ← assert (match stopped with Err reason => match String.index 0 "Journal worker failed" reason with Some _ => true | None => false end
                               | _ => false end);
  last_is 0.

(** The snapshot of the first order is confirmed, the trade of the second is not. *)
Definition kafka_failure_keeps_result : st Plant unit :=
  _ ← attach seeded Committed always [Acked; Unacked false "confirmation lost"];
  _ ← submits (journal_order 1 2 false 3);
  _ ← submits (journal_order 2 1 true 1);
  _ ← turns 4;
  _ ← accepts false;
  _ ← stops_badly;
  _ ← delivered_is 1;
  last ← on_disk last_sequence;
  _ ← assert (1 <=? last);
  recovered_has (fun _ => true).

Definition full_queue_preserves_input : st Plant unit :=
  p ← lift (expect_ok (attach_on (initialize "engine" seeded store_new).2 1 Committed gated []));
  _ ← sput p;
  let seed := {| p_command := None; p_outcome := Applied None; p_reply := ReplySubmit 0 |} in
  _ ← plant_worker (with_journal [seed]);
  submitted ← send (submitting (journal_order 1 1 true 1));
  _ ← turns 20;
  p ← sget;
  _ ← assert (length (w_orders (y_worker (pl_system p))) =? 1)%nat;
  early ← is_finished submitted;
  _ ← assert (negb early);
  _ ← stops_badly;
  p ← sget;
  assert (bool_decide (map_to_list (orderbooks (core (w_state (y_worker (pl_system p))))) = [])).

(** *** The output worker alone, on a journal with some records *)

Definition written_store (commands : list Command) : result Store :=
  let '(r, bed) := for_each commands (Journaled.record_as Journaled.any) Journaled.bed in
  _ ← r;
  Ok (Journaled.b_store bed).
(** A run of the output worker: how many rounds, what is durable, what the sink and the database do. *)
Definition output_run (rounds : nat) (durable : Z) (journal_done : bool) (commit : Commit) (acks : list Ack) (store : Store) : Output.Output :=
  Nat.iter rounds (output_next "engine" durable journal_done commit) (output_start "engine" Datatypes.id durable store (mk_broker [] [] acks)).
Definition output_failed (o : Output.Output) : bool := match o_phase o with OutputFailed _ => true | _ => false end.
Definition output_done (o : Output.Output) : bool := match o_phase o with OutputDone => true | _ => false end.

Definition cannot_overtake_watermark : bool :=
  match written_store [CmdSubmit (journal_order 1 1 true 1)] with
  | Ok store =>
      let before := output_run 25 0 false Committed [] store in
      let after := Nat.iter 3 (output_next "engine" 1 true Committed) before in
      match b_market (o_broker before) with [] => true | _ => false end && negb (output_done before) &&
      (length (b_market (o_broker after)) =? 1)%nat && output_done after && (s_delivery (o_store after) =? 1)
  | _ => false
  end.

(** Two runs on a journal, the first with a failure: the cursor stays, and the second sends the same.
    [sent] is what the test compares. *)
Definition same_attempt {A} (eqb : A → A → bool) (sent : Output.Output → option A) (records : Z) (commands : list Command) (commit : Commit) (acks : list Ack) : bool :=
  match written_store commands with
  | Ok store =>
      let first := output_run 3 records true commit acks store in
      let second := output_run 4 records true Committed [] (o_store first) in
      output_failed first && (s_delivery (o_store first) =? 0) && output_done second && (s_delivery (o_store second) =? records) &&
      match sent first, sent second with Some a, Some b => eqb a b | _, _ => false end
  | _ => false
  end.
Definition first_event (o : Output.Output) : option string := snd <$> head (b_topic (o_broker o)).
Definition first_snapshot (o : Output.Output) : option MarketSnapshot := head (b_market (o_broker o)).
Definition snapshot_same (a b : MarketSnapshot) : bool :=
  String.eqb (ms_event_id a) (ms_event_id b) && String.eqb (ms_sequence a) (ms_sequence b) &&
  String.eqb (ms_previous_sequence a) (ms_previous_sequence b) && bool_decide (ms_bids a = ms_bids b) && bool_decide (ms_asks a = ms_asks b).

(** The cursor is not written. *)
Definition lost_cursor_republishes : bool :=
  same_attempt snapshot_same first_snapshot 2 [CmdSubmit (journal_order 1 2 false 3); CmdSubmit (journal_order 2 1 true 1)] RolledBack [].
(** The sink took the message and failed. *)
Definition taken_and_failed : list Ack := [Unacked true "lost"].
Definition market_failure_keeps_cursor : bool :=
  same_attempt snapshot_same first_snapshot 1 [CmdSubmit (journal_order 1 2 false 3)] Committed taken_and_failed.
Definition completion_failure_keeps_cursor : bool :=
  same_attempt String.eqb first_event 1 [CmdSubmit (market_buy 1 1 (whole 200))] Committed taken_and_failed.
Definition rejection_failure_keeps_cursor : bool :=
  same_attempt String.eqb first_event 1 [CmdSubmit (journal_order 1 1 true 11)] Committed taken_and_failed.

(** *** The files *)

Definition second_owner_rejected : st Directory unit :=
  _ ← unwrap acquire;
  _ ← assert_err acquire;
  _ ← smodify release;
  _ ← unwrap acquire;
  mret tt.
Definition unsupported_schema (version : Z) : st Directory unit :=
  _ ← smodify (set_journal (mk_file version 3 (initialize "engine" seeded store_new).2));
  _ ← assert_err (store_open ex_sqlite);
  d ← sget;
  assert (match d_journal d with Some file => jf_version file =? version | None => false end).

(** A process dies in the middle of a transaction. *)
Definition exit_during_write : st Journaled.Bed unit :=
  _ ← Journaled.record_as Journaled.any (CmdSubmit (journal_order 1 1 true 1));
  _ ← Journaled.on_store (attempt (append Journaled.clock RolledBack
        [{| p_command := Some (CmdSubmit (journal_order 2 1 true 1)); p_outcome := Applied None; p_reply := ReplySubmit 0 |}] 1));
  b ← sget;
  _ ← assert (match last_sequence (Journaled.b_store b) with Ok n => n =? 1 | _ => false end);
  Journaled.recovered_cache (has_locked 1 "USDT" (whole 100)).

Definition plant_tests : list (st Plant unit) :=
  [response_waits_for_commit; commit_failure_closes_input; kafka_failure_keeps_result; full_queue_preserves_input].
Definition output_tests : list bool :=
  [ cannot_overtake_watermark; lost_cursor_republishes; market_failure_keeps_cursor; completion_failure_keeps_cursor;
    rejection_failure_keeps_cursor ].
Definition file_tests : list (st Directory unit) := second_owner_rejected :: map unsupported_schema [99; 1; 2; 3].
End WorkerTests.

(** Every test attaches its own workers; nothing of the first ones is looked at. *)
Definition idle_plant : Plant :=
  mk_plant (whole_start Datatypes.id "engine" store_new state_new 0 (mk_broker [] [] [])) 100 Committed always.
Example plant_tests_pass : forallb (fun test => passes test idle_plant) WorkerTests.plant_tests = true.
Proof. vm_compute. reflexivity. Qed.
Example output_tests_pass : forallb Datatypes.id WorkerTests.output_tests = true.
Proof. vm_compute. reflexivity. Qed.
Example file_tests_pass : forallb (fun test => passes test (mk_directory false false None)) WorkerTests.file_tests = true.
Proof. vm_compute. reflexivity. Qed.
Example exit_test_passes : passes WorkerTests.exit_during_write Journaled.bed = true.
Proof. vm_compute. reflexivity. Qed.

(** ** Deposits and withdrawals through the three workers *)

Module MoneyTests.
Import WorkerTests.

Definition deposit_of (amount : Decimal) : DepositCredit :=
  {| dc_deposit_id := (7 : Z); dc_user_id := 3; dc_asset := "BTC"; dc_amount := amount |}.
Definition btc_has (a : Decimal) : st Plant unit := shows 3 "BTC" a dec_zero.
Definition usdt_has (a l : Z) : st Plant unit := shows 1 "USDT" (whole a) (whole l).
Definition broken_sink : list Ack := [Unacked true "lost"].
Definition nothing_recorded : st Plant unit := last_is 0.
(** The only event is the one that the test names. *)
Definition event_is (kind : string) : st Plant unit :=
  events ← events_sent;
  assert (match events with [event] => match String.index 0 kind event with Some 0%nat => true | _ => false end | _ => false end).

(** The next engine on the records of a gated one, which had no output worker of its own. *)
Definition next_engine : st Plant unit :=
  p ← sget;
  let left := y_store (pl_system p) in
  p ← lift (expect_ok (attach_on (mk_store (s_genesis left) (s_records left) 0) 100 Committed always []));
  sput p.

(** *** Deposits *)

Definition deposit_retries_credit_once : st Plant unit :=
  _ ← attach seeded Committed always [];
  let credit := deposit_of (dz "0.12345678") in
  one ← send (crediting credit);
  two ← send (crediting credit);
  _ ← turns 12;
  one ← result_of one;
  two ← result_of two;
  _ ← assert (match one, two with None, None => true | _, _ => false end);
  _ ← btc_has (dc_amount credit);
  _ ← stops_well;
  events ← events_sent;
  _ ← assert (all_eqb String.eqb events ["deposit_credited engine:1:0 7 0.12345678"]%string);
  _ ← reattach;
  _ ← succeeds (crediting credit);
  _ ← btc_has (dc_amount credit);
  conflict ← awaited (crediting (deposit_of dec_one));
  _ ← assert (match conflict with Some _ => true | None => false end);
  _ ← stops_well;
  no_events.

Definition deposit_output_failure_republishes : st Plant unit :=
  _ ← attach seeded Committed always broken_sink;
  _ ← succeeds (crediting (deposit_of dec_one));
  _ ← accepts false;
  _ ← stops_badly;
  original ← events_sent;
  _ ← delivered_is 0;
  _ ← reattach;
  _ ← succeeds (crediting (deposit_of dec_one));
  _ ← stops_well;
  again ← events_sent;
  assert (all_eqb String.eqb again original && (length again =? 1)%nat).

Definition deposit_journal_failure : st Plant unit :=
  _ ← attach seeded RolledBack always [];
  outcome ← awaited (crediting (deposit_of dec_one));
  _ ← assert (match outcome with Some _ => true | None => false end);
  _ ← stops_badly;
  _ ← no_events;
  _ ← nothing_recorded;
  recovered_has (cache_has (has_no_row 3 "BTC")).

Definition full_account : EngineState := (put_balance 3 "BTC" (whole 999999999999999999999) dec_zero seeded).2.
Definition deposit_rejection_waits_for_commit : st Plant unit :=
  let credit := deposit_of (whole 999999999999999999999) in
  _ ← attach full_account Committed gated [];
  task ← send (crediting credit);
  _ ← turns 4;
  _ ← waiting_in_journal 1;
  early ← is_finished task;
  _ ← assert (negb early);
  _ ← journal_goes_on always;
  _ ← turns 6;
  outcome ← result_of task;
  _ ← next_engine;
  repeated ← awaited (crediting credit);
  _ ← assert (match outcome, repeated with
              | Some (DurablyRejected reason), Some (DurablyRejected reason') => String.eqb reason reason'
              | _, _ => false
              end);
  _ ← btc_has (dc_amount credit);
  stops_well.

(** The caller has given up; the record is written later. *)
Definition deposit_timeout_commits_later : st Plant unit :=
  _ ← attach seeded Committed gated [];
  task ← send (crediting (deposit_of dec_one));
  _ ← turns 4;
  _ ← waiting_in_journal 1;
  outcome ← result_of task;
  _ ← assert (is_unknown outcome);
  _ ← nothing_recorded;
  _ ← journal_goes_on always;
  _ ← turns 3;
  _ ← next_engine;
  _ ← last_is 1;
  _ ← succeeds (crediting (deposit_of dec_one));
  _ ← btc_has dec_one;
  _ ← stops_well;
  _ ← number_of_events 1;
  recovered_has (cache_has (has_available 3 "BTC" dec_one)).

Definition deposit_failed_rejection_unknown : st Plant unit :=
  _ ← attach seeded RolledBack always [];
  outcome ← awaited (crediting (deposit_of (whole (-1))));
  _ ← assert (is_unknown outcome);
  _ ← stops_badly;
  _ ← no_events;
  _ ← nothing_recorded;
  recovered_has (fun state => bool_decide (map_to_list (deposit_receipts state) = [])).

(** *** Deposits over HTTP ([deposit_http_tests.rs]) *)

Definition http_deposit (amount : string) (response : Z) (waits : Waits) : CommandRoute :=
  PostDepositCredits (DepositTests.deposit_body 7 3 "BTC" amount) response (on_unit waits).

Definition http_deposit_once : st Plant unit :=
  _ ← attach seeded Committed always [];
  _ ← answers (http_deposit "0.12345678") 200 "DURABLY_CREDITED";
  _ ← answers (http_deposit "0.12345678") 200 "DURABLY_CREDITED";
  _ ← stops_well;
  events ← events_sent;
  _ ← assert (all_eqb String.eqb events ["deposit_credited engine:1:0 7 0.12345678"]%string);
  _ ← last_is 2;
  _ ← reattach;
  _ ← answers (http_deposit "0.12345678") 200 "DURABLY_CREDITED";
  _ ← btc_has (dz "0.12345678");
  _ ← stops_well;
  no_events.

Definition http_deposit_conflict : st Plant unit :=
  _ ← attach seeded Committed always [];
  _ ← answers (http_deposit "1") 200 "DURABLY_CREDITED";
  _ ← answers (http_deposit "2") 409 "DURABLY_REJECTED";
  _ ← stops_well;
  _ ← last_is 2;
  recovered_has (cache_has (has_available 3 "BTC" dec_one)).

Definition http_deposit_unknown : st Plant unit :=
  _ ← attach seeded RolledBack always [];
  _ ← answers (http_deposit "1") 504 "OUTCOME_UNKNOWN";
  _ ← stops_badly;
  _ ← no_events;
  _ ← nothing_recorded;
  recovered_has (cache_has (has_no_row 3 "BTC")).

(** Another connection writes; no answer and no event before it ends. *)
Definition waits_for_the_journal (route : Z → Waits → CommandRoute) : st Plant unit :=
  _ ← attach seeded Committed locked_out [];
  response ← send (posting route);
  _ ← turns 20;
  early ← is_finished response;
  _ ← assert (negb early);
  _ ← no_events;
  _ ← journal_goes_on always;
  _ ← turns 6;
  answer ← result_of response;
  _ ← assert (match answer with Some answer => status_of answer 200 | None => false end);
  _ ← stops_well;
  number_of_events 1.
Definition http_deposit_waits : st Plant unit := waits_for_the_journal (http_deposit "1").

Definition http_deposit_rejection_survives : st Plant unit :=
  _ ← attach full_account Committed always [];
  _ ← answers (http_deposit "1") 409 "DURABLY_REJECTED";
  _ ← stops_well;
  _ ← reattach;
  _ ← answers (http_deposit "1") 409 "DURABLY_REJECTED";
  _ ← btc_has (whole 999999999999999999999);
  stops_well.

(** *** Withdrawals ([withdrawal_tests.rs]) *)

Definition hold (id value : Z) (action : WithdrawalAction) : WithdrawalCommand :=
  {| wc_action := action; wc_funds := {| wf_withdrawal_id := id; wf_user_id := 1; wf_asset := "USDT"; wf_amount := whole value |} |}.
Definition hold_250 (action : WithdrawalAction) : WithdrawalCommand := hold 11 250 action.
Definition is_success (outcome : option CommandError) : bool := match outcome with None => true | Some _ => false end.

Definition same_reservation_once : st Plant unit :=
  _ ← attach seeded Committed always [];
  a ← send (changing (hold_250 Reserve));
  b ← send (changing (hold_250 Reserve));
  _ ← turns 12;
  a ← result_of a;
  b ← result_of b;
  _ ← assert (is_success a && is_success b);
  _ ← usdt_has 750 250;
  _ ← stops_well;
  events ← events_sent;
  _ ← assert (all_eqb String.eqb events ["withdrawal_reserved engine:1:0 11 250"]%string);
  _ ← reattach;
  _ ← succeeds (changing (hold_250 Reserve));
  _ ← succeeds (changing (hold_250 Release));
  _ ← succeeds (changing (hold_250 Release));
  late ← awaited (changing (hold_250 Reserve));
  _ ← assert (negb (is_success late));
  _ ← usdt_has 1000 0;
  _ ← stops_well;
  event_is "withdrawal_released ".

(** Whichever of the two requests comes first wins. *)
Definition resolve_race (first second : WithdrawalAction) : st Plant unit :=
  _ ← attach seeded Committed always [];
  _ ← succeeds (changing (hold_250 Reserve));
  a ← send (changing (hold_250 first));
  b ← send (changing (hold_250 second));
  _ ← turns 12;
  a ← result_of a;
  b ← result_of b;
  _ ← assert (xorb (is_success a) (is_success b));
  let released := match first with Release => is_success a | _ => is_success b end in
  _ ← usdt_has (if released then 1000 else 750) 0;
  stops_well.

(** [withdrawal_journal_failure_*] and [withdrawal_rejection_with_failed_recording_*]. *)
Definition withdrawal_not_recorded (value : Z) : st Plant unit :=
  _ ← attach seeded RolledBack always [];
  outcome ← awaited (changing (hold 11 value Reserve));
  _ ← assert (is_unknown outcome);
  _ ← stops_badly;
  _ ← no_events;
  _ ← nothing_recorded;
  _ ← recovered_has (cache_has (has_balance 1 "USDT" (whole 1000) dec_zero));
  recovered_has (fun state => bool_decide (map_to_list (withdrawal_receipts state) = [])).

Definition withdrawal_output_failure_replays : st Plant unit :=
  _ ← attach seeded Committed always broken_sink;
  _ ← succeeds (changing (hold_250 Reserve));
  _ ← accepts false;
  _ ← stops_badly;
  original ← events_sent;
  _ ← delivered_is 0;
  _ ← reattach;
  _ ← succeeds (changing (hold_250 Reserve));
  _ ← stops_well;
  again ← events_sent;
  assert (all_eqb String.eqb again original && (length again =? 1)%nat).

Definition withdrawal_timeout_commits_later : st Plant unit :=
  _ ← attach seeded Committed gated [];
  task ← send (changing (hold_250 Reserve));
  _ ← turns 4;
  _ ← waiting_in_journal 1;
  outcome ← result_of task;
  _ ← assert (is_unknown outcome);
  _ ← nothing_recorded;
  _ ← journal_goes_on always;
  _ ← turns 3;
  _ ← next_engine;
  _ ← succeeds (changing (hold_250 Reserve));
  _ ← usdt_has 750 250;
  _ ← stops_well;
  number_of_events 1.

Definition insufficient_after_commit : st Plant unit :=
  _ ← attach seeded Committed gated [];
  task ← send (changing (hold 11 2000 Reserve));
  _ ← turns 4;
  _ ← waiting_in_journal 1;
  early ← is_finished task;
  _ ← assert (negb early);
  p ← sget;
  _ ← assert (match w_journal (y_worker (pl_system p)) with Some [item] => withdrawal_rejected (p_outcome item) | _ => false end);
  _ ← journal_goes_on always;
  _ ← turns 6;
  outcome ← result_of task;
  _ ← assert (is_rejected outcome);
  _ ← next_engine;
  funded ← awaited (fun response waits => update_balance 1 "USDT" (whole 5000) response (on_unit waits));
  _ ← assert (is_ok funded);
  again ← awaited (changing (hold 11 2000 Reserve));
  _ ← assert (is_rejected again);
  _ ← usdt_has 6000 0;
  stops_well.

Definition distinct_reservations_share_nothing : st Plant unit :=
  _ ← attach seeded Committed always [];
  a ← send (changing (hold 11 700 Reserve));
  b ← send (changing (hold 12 700 Reserve));
  _ ← turns 12;
  a ← result_of a;
  b ← result_of b;
  _ ← assert (xorb (is_success a) (is_success b));
  _ ← usdt_has 300 700;
  _ ← stops_well;
  recovered_has (cache_has (has_balance 1 "USDT" (whole 300) (whole 700))).

(** A full input, and a closed one. *)
Definition input_not_accepted : bool :=
  let try_on (w : Worker) := changing (hold_250 Reserve) 1 (wait_unit (Received (Ok tt))) w in
  let full := try_on HandleTests.full_queues in
  let closed := try_on HandleTests.closed_handle in
  HandleTests.not_accepted full.1 && (length (w_balances full.2) =? length (w_balances HandleTests.full_queues))%nat &&
  HandleTests.not_accepted closed.1 && (length (w_balances closed.2) =? 0)%nat.

Definition http_withdrawal (action : WithdrawalAction) (response : Z) (waits : Waits) : CommandRoute :=
  PostWithdrawals (WithdrawalTests.withdrawal_body 11 1 "USDT" "250" action) response (on_unit waits).
Definition http_withdrawal_waits : st Plant unit := waits_for_the_journal (http_withdrawal Reserve).
Definition http_terminal_survives (terminal : WithdrawalAction) : st Plant unit :=
  let code := match terminal with Release => "DURABLY_RELEASED" | _ => "DURABLY_COMPLETED" end%string in
  _ ← attach seeded Committed always [];
  _ ← answers (http_withdrawal Reserve) 200 "DURABLY_RESERVED";
  _ ← answers (http_withdrawal terminal) 200 code;
  _ ← stops_well;
  _ ← reattach;
  _ ← answers (http_withdrawal terminal) 200 code;
  _ ← answers (http_withdrawal Reserve) 409 "DURABLY_REJECTED";
  _ ← usdt_has (match terminal with Release => 1000 | _ => 750 end) 0;
  stops_well.

Definition deposit_tests : list (st Plant unit) :=
  [ deposit_retries_credit_once; deposit_output_failure_republishes; deposit_journal_failure; deposit_rejection_waits_for_commit;
    deposit_timeout_commits_later; deposit_failed_rejection_unknown; http_deposit_once; http_deposit_conflict; http_deposit_unknown;
    http_deposit_waits; http_deposit_rejection_survives ].
Definition withdrawal_tests : list (st Plant unit) :=
  [ same_reservation_once; resolve_race Release Complete; resolve_race Complete Release; withdrawal_not_recorded 250;
    withdrawal_not_recorded 2000; withdrawal_output_failure_replays; withdrawal_timeout_commits_later; insufficient_after_commit;
    distinct_reservations_share_nothing; http_withdrawal_waits; http_terminal_survives Release; http_terminal_survives Complete ].
End MoneyTests.

Example deposit_thread_tests_pass : forallb (fun test => passes test idle_plant) MoneyTests.deposit_tests = true.
Proof. vm_compute. reflexivity. Qed.
Example withdrawal_thread_tests_pass : forallb (fun test => passes test idle_plant) MoneyTests.withdrawal_tests = true.
Proof. vm_compute. reflexivity. Qed.
Example input_test_passes : MoneyTests.input_not_accepted = true.
Proof. vm_compute. reflexivity. Qed.
